(* ===== verification/_CoqProject ===== *)
-Q . S2P
Prelude.v
CString.v
Ports.v
Vga.v
Frames.v
Pmm.v
Mmu.v
Vmm.v
Heap.v
Boot.v
KHeap.v
Isr.v
Task.v
Keyboard.v
Kbd.v
Shell.v
Interrupts.v
Desc.v
Syscall.v
Commands.v
Kernel.v
Client.v
MemTest.v
Stubs.v
Preempt.v
Idle.v
Loader.v
Entry.v
UserTest.v
Run.v
