(* ===== verification/Prelude.v ===== *)
(** * Verification of the KiOS kernel

    KiOS is a 64-bit hobby operating system in C and assembly (directory
    [src/src/]; the paths below are relative to [src/src/kernel/]).  A two-stage
    boot loader loads the kernel from the disk, sets up long mode and hands over a
    memory map and boot page tables; [entry.asm] blanks the screen and calls
    [kernel_main], which sets up the interrupt controller, the descriptor tables,
    the memory managers, the heap and the tasks, and then idles until the timer
    switches to the shell, a task that reads lines from the keyboard and runs
    built-in commands.  This library translates that code into functions and
    proves what makes each part correct, and that the parts work together: the
    boot loader up to the moment it turns paging on, where it fails, and the kernel
    from its first instruction to the shell.

    ** The files

    - [Prelude.v] (this file): machine integers as [Z] with their wrap-around
      ([u8] .. [u64], [i32]); memory as a total map from addresses to bytes
      ([mem], [rd], [wr], [ld64], [st64]) with the relations "unchanged on [P]"
      ([agree_on]) and "changed between two addresses only" ([only_in]); counted
      loops ([for_range]) with their invariant rule; the tactics [dlia] and [zbit]
      and the hint database [mem].
    - [CString.v]: [string.h] over byte memory.
    - [Ports.v]: [io.h], [pic.c].  The devices are not code: a bus is an instance
      of class [PortBus]; the documented behaviour of the two 8259A chips is class
      [Pic8259], with a concrete bus [SimBus] that satisfies it.
    - [Vga.v]: [vga.h], [vga.c].  A console [con] is the screen state and the bus
      with the CRT controller.
    - [Frames.v]: the interfaces [FrameAllocator] and [PageManager], what [vmm.c],
      [heap.c] and the commands need of the physical memory manager.
    - [Pmm.v]: [mm/memory_map.h], [mm/pmm.c], the bitmap in memory; the instance of
      those interfaces.
    - [Mmu.v]: the processor's page walk ([leaf], [translate], [user_walk]), 2 MB and
      1 GB pages included: the specification of the virtual memory manager.
    - [Vmm.v]: [mm/vmm.h], [mm/vmm.c], over any frame allocator.
    - [Heap.v]: [mm/heap.c], the bump allocator and its mapping loop.
    - [Boot.v]: the memory map and the page tables [bootloader/new/stage2.asm]
      writes; [Loader.v]: the rest of the boot loader, [stage1.asm] and [stage2.asm],
      over a BIOS of class [Bios] with the promises of class [BiosDisk].
    - [Entry.v]: [entry.asm] on the [machine] of [Syscall.v], and the way from there
      through [kernel_main] to the shell.
    - [KHeap.v]: the interface [KernelHeap] between [kmalloc] and [task.c].
    - [Isr.v]: [isr.h], the exception screen and the handler table of [isr.c].
    - [Task.v]: [task.h], [task.c]: control blocks and saved frames in stores
      indexed by address, as the C code reaches them by pointers.
    - [Keyboard.v], [Kbd.v]: [keyboard.h], [keyboard_irq.c]: the decoder, the ring
      buffer, the polling reads over class [Kbd8042].
    - [Shell.v]: [shell.c], [commands.c]: history, line editor, command line.
    - [Interrupts.v]: [pit.c], [irq_handler] of [isr.c], [kb_getchar_irq], over the
      shared state [kst].  Interrupts are a list supplied by the environment.
    - [Desc.v]: [gdt.c], [tss.c], [idt.c] on bytes, and the processor's reading of
      the tables ([gate_at], [seg_at], [deliver_to]).
    - [Syscall.v]: [syscall.c] and [syscall_asm.asm], the latter instruction by
      instruction over the record [machine].
    - [Commands.v]: [commands/*.c] over the state [sys] of the whole kernel.
    - [Kernel.v]: [main.c]: [kernel_main] from the boot loader's hand-over.
    - [Client.v]: what one call of the memory managers does to the heap and to
      everybody else; [MemTest.v]: [commands/memtest.c], [commands/vmtest.c];
      [UserTest.v]: [commands/usertest.c] and the run of its program in ring 3.
    - [Stubs.v]: [idt_asm.asm] on the [machine] of [Syscall.v]: the delivery of an
      interrupt ([take_interrupt]), the stubs around the C functions, the frame
      [registers_t] as words in memory ([frame_in]).
    - [Preempt.v]: the dispatcher and the scheduler on that machine: which frames are
      in memory ([system_ok]), one interrupt, any run of tasks and interrupts ([step]).
    - [Idle.v]: the [hlt] loop of [main.c] on that machine, up to the shell's first
      instruction.
    - [Run.v]: [shell_run], [shell_execute] and the table of [commands.c] with the
      functions behind it.

    ** State and operations

    A C function becomes a function of the same name on the state it uses; static
    variables are the fields of a record per file, and the records are nested the
    way the files call each other ([vm] holds the frames, memory and console,
    [heap] holds a [vm], [kst] a heap and the tasks, [sys] a [kst] and the
    processor's registers).  Memory errors of the code are visible: a store goes
    to the address the code computes, whatever lies there.  Errors are values
    (0 for NULL, [option] for a page fault, [stop] for a command that does not
    return).  Output is a function on consoles; [f >>> g] runs [f] first.

    ** The theorems

    - Paging: [vmm_map_page], [vmm_unmap_page] and [vmm_virt_to_phys] implement
      updates and lookups of the MMU's translation, under the invariant [vm_inv]
      (the tables form a tree disjoint from free frames, allocator data and the
      memory [K] of clients); protection; what happens to addresses mapped by big
      pages.
    - Physical memory: the pages [pmm_init] reserves, first-fit allocation, the
      round trip of freeing, and what an unchecked address does.
    - Heap: [kmalloc] on all branches ([kmalloc_spec]), sequences of blocks that do not
      share a byte ([kmallocs_disjoint]), overflow of the size.
    - Boot loader: the boot sector ([stage1_loads]) and stage 2 up to paging
      ([stage2_misses_its_tables]): the assembler puts the page tables at 0x8E00, not
      on a page, and the processor walks through stage 2's own bytes instead; with the
      tables on a page the same code hands over what the kernel needs
      ([stage2_aligned]).
    - Kernel start, from the contract of a boot loader on ([handed_over]): [_start]
      ([start_calls_kernel_main]), the state [kernel_main] reaches
      ([kernel_main_started]), both and the switch to the shell ([entry_boots]); the
      identity map, the boot stack the allocator does not know of.
    - Tasks: invariant, round robin order, fairness, resumption, creation, and the
      sleeping or finished task that runs again.
    - Interrupts and input: the dispatcher, the bounded queue, decoded input
      streams, when the polling reads starve ([polling_starved]), delivery of every vector.
    - System calls: the round trip of the entry path, every number's result.
    - Interrupts on the machine: what a handler finds ([exception_frame]), the round
      trip through the stubs ([irq_roundtrip]), the switch of tasks by a return from
      another frame as a refinement of the scheduler's step ([irq_refines_switch]) and,
      over any run, a preempted task that cannot tell ([preemption_transparent]); the idle
      loop through ten ticks into the shell ([idle_machine_reaches_shell]).
    - The shell: the line editor ([readline_edits]) and the loop ([shell_run_session]) on
      any bus and for every command, in terms of the characters [kb_getchar] delivers;
      for the lines of [plain], which only print, and a keyboard that is only polled,
      the screen and the rest of the kernel after the whole session ([plain_session]).
    - Console, strings, clock: see the properties themselves.  [cmd_time_prints] relies
      on no more than the data sheet of the clock promises after its update bit was
      read clear, and takes the seven reads that follow to fit into 244 us.
    - The tests: [memtest_passes] runs the whole stack of memory managers;
      [vmtest_unmaps_heap] shows the page of the kernel heap the other test loses;
      [usertest_opens_kernel] and [usertest_prints] what the user test maps and does.

    Components meet at interfaces: [Vmm.v], [Heap.v], [Client.v] and the tests are
    proved for any [FrameAllocator], [Task.v] and [Interrupts.v] for any
    [KernelHeap], the drivers for any bus with the class they need.  Every theorem
    with hypotheses is applied to concrete data in its [_witness]; those of
    [Kernel.v] and [MemTest.v] start from a concrete image and boot memory.

    ** Fuel and bounds

    Counted loops are [for_range]; the loop of [kmalloc] gets as much fuel as there
    are pages between its bounds ([page_fuel]), which [map_pages_spec] shows to be
    enough; [find_free] counts down the pages; [scan] the tasks; [load_next] has one unit
    more than there are sectors, each chunk being at least one.  Loops that wait for
    a device take fuel and return [None] when it is used up: the theorems either
    give enough fuel ([cmd_time_prints], the reads of [Kbd.v]), or say what happens for
    any amount ([readline_edits], [shell_run_session]), or show that none is enough
    ([polling_starved], as long as no byte comes in the gap before an [in]).  String searches take fuel likewise.

    ** Not modelled

    The TLB (invalidations are recorded, the walk reads memory directly); the
    machine code of the C functions: interrupts at any instruction are those of
    [Preempt.v], where the running code is any step that keeps the invariant and a
    handler any function with the effect of [irq_handler], while the models of the C
    functions take interrupts at [hlt] and in the idle loop only; the VGA cells,
    the task control blocks and the first frames of tasks as bytes of the physical
    memory (they are stores of their own; [Preempt.v] relates the frames, and [Idle.v] takes the
    first one to be in memory, seen through the page tables); the arithmetic flags (the
    paths between the kernel's code and an interrupted one end in an instruction that
    loads the flags, [_start] tests none); the BIOS (a class), the segment registers and the
    stack of the boot loader, which are zero and below 0x7C00, and its direction flag,
    which the BIOS leaves clear; the sizes of the code of stage 2, and so the addresses of its
    labels but for their order, the variables and the page tables ([labels_ok]), and what
    the processor does when paging leads it astray ([Strayed]); where the linker puts
    the parts of the kernel ([image_ok], [counter_ok]); that memory behind the image is zero, which
    the static variables need and no code sees to ([boot_sys]); the interrupt stubs of
    [entry.asm], to which nothing refers; [task_wrapper] and [syscall_get_cpu_data_addr], which nothing calls; the
    call of [task_exit] behind [shell_run] in [shell_task], which is never reached;
    a buffer of [SYS_WRITE] over the variables of [vga.c], whose addresses the linker
    chooses, in the run of the user test (the frame buffer is seen, [with_screen]);
    sources the build does not link ([main.asm], [gdt.asm]). *)

From Stdlib Require Export Ascii.
From stdpp Require Export base numbers list gmap strings.

From Stdlib Require Export ZArith Lia Bool.
Local Open Scope Z_scope.

(** ** Machine integers

    A value of an unsigned C type of width [w] is a [Z] in [0, 2^w); the
    wrap-around of the arithmetic is written out with these functions. *)

Definition u8 (z : Z) : Z := z mod 2 ^ 8.
Definition u16 (z : Z) : Z := z mod 2 ^ 16.
Definition u32 (z : Z) : Z := z mod 2 ^ 32.
Definition u64 (z : Z) : Z := z mod 2 ^ 64.

(** Conversion to a signed type of width [w] (two's complement). *)
Definition sint (w z : Z) : Z :=
  let u := z mod 2 ^ w in if u <? 2 ^ (w - 1) then u else u - 2 ^ w.
Definition i8 (z : Z) : Z := sint 8 z.
Definition i32 (z : Z) : Z := sint 32 z.
Definition i64 (z : Z) : Z := sint 64 z.

(** [lia] after making the division and modulo equations explicit. *)
Ltac dlia := Z.to_euclidean_division_equations; lia.

Lemma u8_range z : 0 <= u8 z < 2 ^ 8.
Proof. apply Z.mod_pos_bound; lia. Qed.
Lemma u16_range z : 0 <= u16 z < 2 ^ 16.
Proof. apply Z.mod_pos_bound; lia. Qed.
Lemma u32_range z : 0 <= u32 z < 2 ^ 32.
Proof. apply Z.mod_pos_bound; lia. Qed.
Lemma u64_range z : 0 <= u64 z < 2 ^ 64.
Proof. apply Z.mod_pos_bound; lia. Qed.
Lemma u8_small z : 0 <= z < 2 ^ 8 -> u8 z = z.
Proof. apply Z.mod_small. Qed.
Lemma u16_small z : 0 <= z < 2 ^ 16 -> u16 z = z.
Proof. apply Z.mod_small. Qed.
Lemma u32_small z : 0 <= z < 2 ^ 32 -> u32 z = z.
Proof. apply Z.mod_small. Qed.
Lemma u64_small z : 0 <= z < 2 ^ 64 -> u64 z = z.
Proof. apply Z.mod_small. Qed.

Create HintDb words.
#[export] Hint Resolve u8_range u16_range u32_range u64_range : words.
#[export] Hint Rewrite u8_small u16_small u32_small u64_small using lia : words.

(** ** Bitwise reasoning *)

(** Bits of a masked or combined value, one bit index at a time. *)
Create HintDb zbits.
#[export] Hint Rewrite Z.land_spec Z.lor_spec Z.lxor_spec Z.bits_0 : zbits.
#[export] Hint Rewrite Z.lnot_spec Z.shiftl_spec Z.shiftr_spec using lia : zbits.
#[export] Hint Rewrite Z.mod_pow2_bits_low Z.mod_pow2_bits_high using lia : zbits.

(** Reduce an equality of integers to the equality of their [n]-th bits. *)
Ltac zbit n Hn := apply Z.bits_inj'; intros n Hn; autorewrite with zbits.

Lemma testbit_small w z n : 0 <= z < 2 ^ w -> 0 <= w <= n -> Z.testbit z n = false.
Proof.
  intros Hz Hw. rewrite <- (Z.mod_small z (2 ^ w)) by lia.
  apply Z.mod_pow2_bits_high; lia.
Qed.

Lemma lor_range w a b : 0 <= w -> 0 <= a < 2 ^ w -> 0 <= b < 2 ^ w -> 0 <= Z.lor a b < 2 ^ w.
Proof.
  intros Hw Ha Hb. replace (Z.lor a b) with (Z.lor a b mod 2 ^ w); [apply Z.mod_pos_bound; lia|].
  apply Z.bits_inj'. intros n Hn. destruct (Z.lt_ge_cases n w).
  - by rewrite Z.mod_pow2_bits_low by lia.
  - rewrite Z.mod_pow2_bits_high, Z.lor_spec by lia. by rewrite (testbit_small w a), (testbit_small w b) by lia.
Qed.

Lemma land_ones_mod w z : 0 <= w -> Z.land z (2 ^ w - 1) = z mod 2 ^ w.
Proof. intros Hw. rewrite <- Z.land_ones by lia. f_equal. rewrite Z.ones_equiv. lia. Qed.

(** Clearing the low [w] bits ([x & ~(2^w - 1)]) rounds down to a multiple. *)
Lemma land_lnot_ones w z :
  0 <= w -> Z.land z (Z.lnot (2 ^ w - 1)) = z - z mod 2 ^ w.
Proof.
  intros Hw. rewrite <- (Z.ldiff_land z (2 ^ w - 1)).
  replace (2 ^ w - 1) with (Z.ones w) by (rewrite Z.ones_equiv; lia).
  rewrite Z.ldiff_ones_r, Z.shiftl_mul_pow2, Z.shiftr_div_pow2 by lia.
  pose proof (Z.div_mod z (2 ^ w)). lia.
Qed.

(** A mask converted to 64 bits selects the same bits of a 64-bit value. *)
Lemma land_u64_mask x y : 0 <= x < 2 ^ 64 -> Z.land x (u64 y) = Z.land x y.
Proof.
  intros Hx. unfold u64. zbit n Hn. destruct (Z.lt_ge_cases n 64).
  - by rewrite Z.mod_pow2_bits_low by lia.
  - by rewrite (testbit_small 64 x n) by lia.
Qed.

(** [x & ~(2^w - 1)] on a 64-bit value. *)
Lemma land_mask_down w x :
  0 <= w -> 0 <= x < 2 ^ 64 -> Z.land x (u64 (Z.lnot (2 ^ w - 1))) = x - x mod 2 ^ w.
Proof. intros Hw Hx. by rewrite land_u64_mask, land_lnot_ones. Qed.

(** Or-ing bits into a multiple of [2^w] is an addition. *)
Lemma lor_add_disjoint w a b :
  0 <= w -> a mod 2 ^ w = 0 -> 0 <= b < 2 ^ w -> Z.lor a b = a + b.
Proof.
  intros Hw Ha Hb. rewrite Z.add_nocarry_lxor.
  - rewrite Z.lxor_lor; [done|]. zbit n Hn. destruct (Z.lt_ge_cases n w).
    + rewrite <- (Z.mod_pow2_bits_low a w) by lia. rewrite Ha, Z.bits_0. done.
    + rewrite (testbit_small w b n) by lia. apply andb_false_r.
  - zbit n Hn. destruct (Z.lt_ge_cases n w).
    + rewrite <- (Z.mod_pow2_bits_low a w) by lia. rewrite Ha, Z.bits_0. done.
    + rewrite (testbit_small w b n) by lia. apply andb_false_r.
Qed.

(** The low part of a register replaced. *)
Lemma low_part w x v : 0 <= w -> 0 <= v < 2 ^ w -> Z.lor (Z.ldiff x (Z.ones w)) v mod 2 ^ w = v.
Proof.
  intros Hw Hv. apply Z.bits_inj'. intros n Hn. destruct (Z.lt_ge_cases n w).
  - rewrite Z.mod_pow2_bits_low, Z.lor_spec, Z.ldiff_spec, Z.testbit_ones_nonneg by lia.
    destruct (Z.ltb_spec n w); [|lia]. by rewrite andb_false_r.
  - rewrite Z.mod_pow2_bits_high by lia. by rewrite (testbit_small w v) by lia.
Qed.

(** Testing one bit of a byte, as the C code does: [x & (1 << k)]. *)
Lemma land_bit x k : 0 <= k -> (Z.land x (Z.shiftl 1 k) =? 0) = negb (Z.testbit x k).
Proof.
  intros Hk. rewrite Z.shiftl_1_l. destruct (Z.testbit x k) eqn:E; simpl.
  - apply Z.eqb_neq. intros H. apply (f_equal (fun z => Z.testbit z k)) in H.
    rewrite Z.land_spec, E, Z.pow2_bits_true, Z.bits_0 in H by lia. done.
  - apply Z.eqb_eq. zbit n Hn. destruct (decide (n = k)) as [->|Hne].
    + by rewrite E.
    + rewrite Z.pow2_bits_false by lia. apply andb_false_r.
Qed.

(** The bits of a byte after [x |= 1 << j] and after [x &= ~(1 << j)]. *)
Lemma testbit_set_bit x j k :
  0 <= j -> 0 <= k < 8 ->
  Z.testbit (u8 (Z.lor x (Z.shiftl 1 j))) k = bool_decide (j = k) || Z.testbit x k.
Proof.
  intros Hj Hk. unfold u8. rewrite Z.shiftl_1_l. autorewrite with zbits.
  rewrite Z.pow2_bits_eqb by lia. rewrite orb_comm. f_equal.
  apply eq_true_iff_eq. by rewrite Z.eqb_eq, bool_decide_eq_true.
Qed.

Lemma testbit_clear_bit x j k :
  0 <= j -> 0 <= k < 8 ->
  Z.testbit (u8 (Z.land x (Z.lnot (Z.shiftl 1 j)))) k =
  negb (bool_decide (j = k)) && Z.testbit x k.
Proof.
  intros Hj Hk. unfold u8. rewrite Z.shiftl_1_l. autorewrite with zbits.
  rewrite Z.pow2_bits_eqb by lia. rewrite andb_comm. f_equal. f_equal.
  apply eq_true_iff_eq. by rewrite Z.eqb_eq, bool_decide_eq_true.
Qed.

(** ** Byte-addressed memory

    The kernel runs with its memory identity mapped, so a C pointer is an
    address and memory is a total map from addresses to bytes: the initial
    contents [mem_init] is arbitrary and [mem_upd] holds what has been written. *)

Record mem := Mem { mem_init : Z -> Z; mem_upd : gmap Z Z }.

Definition mem_get (m : mem) (a : Z) : Z :=
  match mem_upd m !! a with Some v => v | None => mem_init m a end.

Definition mem_set (m : mem) (a v : Z) : mem := Mem (mem_init m) (<[a := v]> (mem_upd m)).

Lemma mem_get_set m a v b : mem_get (mem_set m a v) b = if decide (a = b) then v else mem_get m b.
Proof. unfold mem_get, mem_set; simpl. rewrite lookup_insert. by case_decide. Qed.

(** One byte, as an [unsigned char]. *)
Definition rd (m : mem) (a : Z) : Z := u8 (mem_get m a).
Definition wr (m : mem) (a v : Z) : mem := mem_set m a (u8 v).

Lemma rd_range m a : 0 <= rd m a < 2 ^ 8.
Proof. apply u8_range. Qed.

Lemma u8_u8 z : u8 (u8 z) = u8 z.
Proof. apply u8_small, u8_range. Qed.

Lemma rd_wr m a v b : rd (wr m a v) b = if decide (a = b) then u8 v else rd m b.
Proof.
  unfold rd, wr. rewrite mem_get_set. case_decide; [apply u8_u8|done].
Qed.

Lemma rd_wr_eq m a v : rd (wr m a v) a = u8 v.
Proof. rewrite rd_wr. by case_decide. Qed.

Lemma rd_wr_ne m a v b : a <> b -> rd (wr m a v) b = rd m b.
Proof. intros H. rewrite rd_wr. by case_decide. Qed.

#[export] Hint Resolve rd_range : words.
Create HintDb mem.
#[export] Hint Rewrite rd_wr_eq : mem.
#[export] Hint Rewrite rd_wr_ne using (first [done | lia]) : mem.

(** Two memories with the same bytes; the representation may differ. *)
#[export] Instance mem_equiv : Equiv mem := fun m1 m2 => forall a, rd m1 a = rd m2 a.

#[export] Instance mem_equivalence : Equivalence (≡@{mem}).
Proof.
  split; [by intros m a | by intros m1 m2 H a | by intros m1 m2 m3 H1 H2 a; rewrite H1].
Qed.

#[export] Instance rd_proper : Proper ((≡) ==> (=) ==> (=)) rd.
Proof. intros m1 m2 H a b ->. apply H. Qed.

#[export] Instance wr_proper : Proper ((≡) ==> (=) ==> (=) ==> (≡)) wr.
Proof. intros m1 m2 H a ? <- v ? <- b. rewrite !rd_wr. by case_decide. Qed.

(** Agreement on a set of addresses: the frame condition of a write. *)
Definition agree_on (P : Z -> Prop) (m m' : mem) : Prop := forall a, P a -> rd m' a = rd m a.

(** Nothing outside [lo, hi) changed. *)
Definition only_in (lo hi : Z) (m m' : mem) : Prop := agree_on (fun a => a < lo \/ hi <= a) m m'.

Lemma agree_on_refl P m : agree_on P m m.
Proof. done. Qed.

Lemma agree_on_trans P m1 m2 m3 : agree_on P m1 m2 -> agree_on P m2 m3 -> agree_on P m1 m3.
Proof. intros H1 H2 a Ha. rewrite H2, H1; done. Qed.

Lemma agree_on_weaken (P Q : Z -> Prop) m m' :
  (forall a, Q a -> P a) -> agree_on P m m' -> agree_on Q m m'.
Proof. intros HQ H a Ha. apply H, HQ, Ha. Qed.

Lemma only_in_refl lo hi m : only_in lo hi m m.
Proof. done. Qed.

Lemma only_in_trans lo hi m1 m2 m3 : only_in lo hi m1 m2 -> only_in lo hi m2 m3 -> only_in lo hi m1 m3.
Proof. apply agree_on_trans. Qed.

Lemma only_in_weaken lo hi lo' hi' m m' :
  lo' <= lo -> hi <= hi' -> only_in lo hi m m' -> only_in lo' hi' m m'.
Proof. intros ??. apply agree_on_weaken. lia. Qed.

Lemma only_in_wr lo hi m a v : lo <= a < hi -> only_in lo hi m (wr m a v).
Proof. intros Ha b Hb. apply rd_wr_ne. lia. Qed.

#[export] Hint Resolve only_in_refl only_in_wr agree_on_refl : mem.

(** ** Character data

    A C string is the list of its bytes before the terminating NUL; a literal
    of the source is written as a Rocq string. *)

Definition str (s : string) : list Z := map (fun c => Z.of_N (N_of_ascii c)) (String.list_ascii_of_string s).

(** Sequencing of two commands on the same state: [f], then [g]. *)
Definition and_then {S : Type} (f g : S -> S) : S -> S := fun s => g (f s).
Declare Scope kios_scope.
Delimit Scope kios_scope with kios.
Notation "f >>> g" := (and_then f g) (at level 60, right associativity) : kios_scope.

(** ** Little-endian loads and stores (x86) *)

Fixpoint ld (n : nat) (m : mem) (a : Z) : Z :=
  match n with
  | O => 0
  | S n' => rd m a + 2 ^ 8 * ld n' m (a + 1)
  end.

Fixpoint st (n : nat) (m : mem) (a v : Z) : mem :=
  match n with
  | O => m
  | S n' => st n' (wr m a v) (a + 1) (v / 2 ^ 8)
  end.

Definition ld16 := ld 2.
Definition ld32 := ld 4.
Definition ld64 := ld 8.
Definition st64 := st 8.

Lemma ld_range n m a : 0 <= ld n m a < 2 ^ (8 * Z.of_nat n).
Proof.
  revert a. induction n as [|n IH]; intros a; cbn [ld]; [lia|].
  replace (8 * Z.of_nat (S n)) with (8 + 8 * Z.of_nat n) by lia.
  rewrite Z.pow_add_r by lia. pose proof (rd_range m a). specialize (IH (a + 1)).
  change (2 ^ 8) with 256 in *. generalize dependent (2 ^ (8 * Z.of_nat n)). lia.
Qed.

Lemma ld64_range m a : 0 <= ld64 m a < 2 ^ 64.
Proof. apply (ld_range 8). Qed.

Lemma st_only_in n m a v : only_in a (a + Z.of_nat n) m (st n m a v).
Proof.
  revert m a v. induction n as [|n IH]; intros m a v; cbn [st]; [done|].
  eapply only_in_trans; [|eapply only_in_weaken; [| |apply IH]; lia].
  apply only_in_wr; lia.
Qed.

Lemma st64_only_in m a v : only_in a (a + 8) m (st64 m a v).
Proof. apply (st_only_in 8). Qed.

Lemma ld_agree n m m' a :
  agree_on (fun x => a <= x < a + Z.of_nat n) m m' -> ld n m' a = ld n m a.
Proof.
  revert a. induction n as [|n IH]; intros a H; cbn [ld]; [done|].
  rewrite (H a), IH; [done| |lia]. intros x Hx. apply H. lia.
Qed.

Lemma ld64_agree m m' a :
  agree_on (fun x => a <= x < a + 8) m m' -> ld64 m' a = ld64 m a.
Proof. apply (ld_agree 8). Qed.

(** A store does not change a load from a disjoint range. *)
Lemma ld_outside n lo hi m m' a :
  only_in lo hi m m' -> a + Z.of_nat n <= lo \/ hi <= a -> ld n m' a = ld n m a.
Proof. intros H Ha. apply ld_agree. intros x Hx. apply H. lia. Qed.

Lemma ld64_outside lo hi m m' a :
  only_in lo hi m m' -> a + 8 <= lo \/ hi <= a -> ld64 m' a = ld64 m a.
Proof. intros H Ha. apply ld64_agree. intros x Hx. apply H. lia. Qed.

Lemma ld_st n m a v : ld n (st n m a v) a = v mod 2 ^ (8 * Z.of_nat n).
Proof.
  revert m a v. induction n as [|n IH]; intros m a v; cbn [ld st]; [by rewrite Z.mod_1_r|].
  rewrite (st_only_in n _ _ _ a), rd_wr_eq, IH by lia.
  replace (8 * Z.of_nat (S n)) with (8 + 8 * Z.of_nat n) by lia.
  rewrite Z.pow_add_r, Z.rem_mul_r by lia. done.
Qed.

(** Loads of one size at a store of another: disjoint, and split in two. *)
Lemma ld_st_ne n k m a b v :
  b + Z.of_nat n <= a \/ a + Z.of_nat k <= b -> ld n (st k m a v) b = ld n m b.
Proof. intros H. eapply ld_outside; [apply st_only_in|lia]. Qed.

Lemma ld_app n k m a : ld (n + k) m a = ld n m a + 2 ^ (8 * Z.of_nat n) * ld k m (a + Z.of_nat n).
Proof.
  revert a. induction n as [|n IH]; intros a; cbn [ld Nat.add].
  - rewrite Z.add_0_r. change (2 ^ (8 * Z.of_nat 0)) with 1. lia.
  - rewrite IH. replace (8 * Z.of_nat (S n)) with (8 + 8 * Z.of_nat n) by lia.
    rewrite Z.pow_add_r by lia. replace (a + 1 + Z.of_nat n) with (a + Z.of_nat (S n)) by lia.
    generalize (ld k m (a + Z.of_nat (S n))) (2 ^ (8 * Z.of_nat n)). intros. lia.
Qed.

Lemma ld64_st64 m a v : ld64 (st64 m a v) a = u64 v.
Proof. apply (ld_st 8). Qed.

Lemma ld64_st64_ne m a b v : b + 8 <= a \/ a + 8 <= b -> ld64 (st64 m a v) b = ld64 m b.
Proof. intros H. eapply ld64_outside; [apply st64_only_in|lia]. Qed.

(** ** Loads from within a store *)

Lemma rd_ld1 m a : rd m a = ld 1 m a.
Proof. cbn [ld]. lia. Qed.

Lemma ld_st_low n k m a v : (n <= k)%nat -> ld n (st k m a v) a = v mod 2 ^ (8 * Z.of_nat n).
Proof.
  revert k m a v. induction n as [|n IH]; intros k m a v Hk; [by rewrite Z.mod_1_r|].
  destruct k as [|k]; [lia|]. cbn [ld st].
  rewrite (st_only_in k _ _ _ a), rd_wr_eq, IH by lia.
  replace (8 * Z.of_nat (S n)) with (8 + 8 * Z.of_nat n) by lia.
  by rewrite Z.pow_add_r, Z.rem_mul_r by lia.
Qed.

Lemma ld_st_in n j k m a v :
  (j + n <= k)%nat ->
  ld n (st k m a v) (a + Z.of_nat j) = (v / 2 ^ (8 * Z.of_nat j)) mod 2 ^ (8 * Z.of_nat n).
Proof.
  revert k m a v. induction j as [|j IH]; intros k m a v Hk.
  - rewrite Z.add_0_r, Z.div_1_r. apply ld_st_low. lia.
  - destruct k as [|k]; [lia|]. cbn [st]. replace (a + Z.of_nat (S j)) with (a + 1 + Z.of_nat j) by lia.
    rewrite IH by lia. replace (8 * Z.of_nat (S j)) with (8 + 8 * Z.of_nat j) by lia.
    by rewrite Z.pow_add_r, Z.div_div by lia.
Qed.

Lemma ld_st_at n j k m a v :
  0 <= j -> j + Z.of_nat n <= Z.of_nat k ->
  ld n (st k m a v) (a + j) = (v / 2 ^ (8 * j)) mod 2 ^ (8 * Z.of_nat n).
Proof. intros Hj Hk. rewrite <- (Z2Nat.id j Hj). apply ld_st_in. lia. Qed.

Lemma ld_zero n m a : (forall x, a <= x < a + Z.of_nat n -> rd m x = 0) -> ld n m a = 0.
Proof.
  revert a. induction n as [|n IH]; intros a H; cbn [ld]; [done|].
  rewrite (H a), IH; [done| |lia]. intros x Hx. apply H. lia.
Qed.

#[export] Hint Resolve st64_only_in : mem.
#[export] Hint Resolve ld64_range : words.
#[export] Hint Rewrite ld64_st64 : mem.

(** ** Counted loops

    [for_range lo hi body s] is the C loop
    [for (i = lo; i < hi; i++) s = body(i, s)]. *)

Fixpoint for_up {S : Type} (n : nat) (i : Z) (body : Z -> S -> S) (s : S) : S :=
  match n with
  | O => s
  | Datatypes.S n' => for_up n' (i + 1) body (body i s)
  end.

Definition for_range {S : Type} (lo hi : Z) (body : Z -> S -> S) (s : S) : S :=
  for_up (Z.to_nat (hi - lo)) lo body s.

(** A loop whose body is iterated in the opposite nesting: last step outermost. *)
Lemma for_up_snoc {S : Type} n i (body : Z -> S -> S) s :
  for_up (Datatypes.S n) i body s = body (i + Z.of_nat n) (for_up n i body s).
Proof.
  revert i s. induction n as [|n IH]; intros i s; [cbn; by rewrite Z.add_0_r|].
  change (for_up (Datatypes.S (Datatypes.S n)) i body s)
    with (for_up (Datatypes.S n) (i + 1) body (body i s)).
  rewrite IH. change (for_up (Datatypes.S n) i body s) with (for_up n (i + 1) body (body i s)).
  f_equal. lia.
Qed.

(** A loop on part of a larger state. *)
Lemma for_range_sim {S T : Type} (F : T -> S) lo hi body body' t :
  (forall i t, body i (F t) = F (body' i t)) ->
  for_range lo hi body (F t) = F (for_range lo hi body' t).
Proof.
  intros H. unfold for_range. generalize (Z.to_nat (hi - lo)) as n. intros n. revert lo t.
  induction n as [|n IH]; intros lo t; cbn [for_up]; [done|]. by rewrite H, IH.
Qed.

(** The loop rule: an invariant indexed by the loop counter. *)
Lemma for_range_inv {S : Type} (P : Z -> S -> Prop) lo hi body s :
  lo <= hi -> P lo s ->
  (forall i s, lo <= i < hi -> P i s -> P (i + 1) (body i s)) ->
  P hi (for_range lo hi body s).
Proof.
  intros Hle H0 Hstep. unfold for_range.
  remember (Z.to_nat (hi - lo)) as n eqn:Hn. revert lo s Hle H0 Hstep Hn.
  induction n as [|n IH]; intros lo s Hle H0 Hstep Hn; cbn [for_up].
  - by replace hi with lo by lia.
  - apply IH; [lia|apply Hstep; [lia|done]| |lia]. intros i s' Hi. apply Hstep. lia.
Qed.

Lemma for_range_empty {S : Type} lo hi (body : Z -> S -> S) s :
  hi <= lo -> for_range lo hi body s = s.
Proof. intros H. unfold for_range. by replace (Z.to_nat (hi - lo)) with O by lia. Qed.

(** ** Counting the indices below [n] that satisfy a test *)

Fixpoint count_below (f : Z -> bool) (n : nat) : Z :=
  match n with
  | O => 0
  | Datatypes.S n' => count_below f n' + (if f (Z.of_nat n') then 1 else 0)
  end.

Lemma count_below_range f n : 0 <= count_below f n <= Z.of_nat n.
Proof. induction n as [|n IH]; cbn [count_below]; [lia|]. case_match; lia. Qed.

Lemma count_below_ext f g n :
  (forall i, 0 <= i < Z.of_nat n -> f i = g i) -> count_below f n = count_below g n.
Proof.
  induction n as [|n IH]; intros H; cbn [count_below]; [done|].
  rewrite IH, H; [done|lia|]. intros i Hi. apply H. lia.
Qed.

(** Flipping one test from false to true adds one. *)
Lemma count_below_flip f g n k :
  0 <= k < Z.of_nat n -> f k = false -> g k = true ->
  (forall i, 0 <= i < Z.of_nat n -> i <> k -> f i = g i) ->
  count_below g n = count_below f n + 1.
Proof.
  induction n as [|n IH]; intros Hk Hf Hg H; cbn [count_below]; [lia|].
  destruct (decide (k = Z.of_nat n)) as [->|Hne].
  - rewrite Hf, Hg. rewrite (count_below_ext f g); [lia|]. intros i Hi. apply H; lia.
  - rewrite IH by (try done; try lia; intros i Hi Hik; apply H; lia).
    rewrite (H (Z.of_nat n)) by lia. lia.
Qed.

Lemma count_below_all f n :
  (forall i, 0 <= i < Z.of_nat n -> f i = true) -> count_below f n = Z.of_nat n.
Proof.
  induction n as [|n IH]; intros H; cbn [count_below]; [done|].
  rewrite IH, H; [lia|lia|]. intros i Hi. apply H. lia.
Qed.

(** Fewer than [n] indices satisfy the test exactly when some index fails it. *)
Lemma count_below_bound f n b :
  0 <= b -> (forall i, 0 <= i < Z.of_nat n -> f i = true -> i < b) -> count_below f n <= b.
Proof.
  intros Hb. induction n as [|n IH]; intros H; cbn [count_below]; [lia|].
  destruct (f (Z.of_nat n)) eqn:E.
  - pose proof (count_below_range f n). specialize (H (Z.of_nat n) ltac:(lia) E). lia.
  - rewrite Z.add_0_r. apply IH. intros i Hi. apply H. lia.
Qed.

Lemma count_below_lt f n :
  count_below f n < Z.of_nat n <-> exists i, 0 <= i < Z.of_nat n /\ f i = false.
Proof.
  split.
  - induction n as [|n IH]; cbn [count_below]; [lia|]. intros H.
    destruct (f (Z.of_nat n)) eqn:E.
    + destruct IH as (i & Hi & Hf); [lia|]. exists i. split; [lia|done].
    + exists (Z.of_nat n). split; [lia|done].
  - intros (k & Hk & Hf).
    set (g := fun i => if decide (i = k) then true else f i).
    pose proof (count_below_range g n) as Hr.
    rewrite (count_below_flip f g n k) in Hr; [lia|done|done| |]; subst g; simpl.
    + by case_decide.
    + intros i Hi Hne. by case_decide.
Qed.
