(* ===== verification/CString.v ===== *)
(** * String and memory functions ([string.h])

    The functions on byte-addressed memory, and what they do to the strings the
    bytes stand for.  The loops that search for a NUL take fuel; the others
    count a size down. *)

From S2P Require Import Prelude.
Local Open Scope Z_scope.

Module CString.

(** [while (str\[len\]) len++]. *)
Fixpoint strlen_from (fuel : nat) (m : mem) (str len : Z) : option Z :=
  match fuel with
  | O => None
  | S fuel => if negb (rd m (str + len) =? 0) then strlen_from fuel m str (len + 1) else Some len
  end.
Definition strlen (fuel : nat) (m : mem) (str : Z) : option Z := strlen_from fuel m str 0.

Fixpoint strcmp (fuel : nat) (m : mem) (s1 s2 : Z) : option Z :=
  match fuel with
  | O => None
  | S fuel =>
      if negb (rd m s1 =? 0) && (rd m s1 =? rd m s2) then strcmp fuel m (s1 + 1) (s2 + 1)
      else Some (rd m s1 - rd m s2)
  end.

Fixpoint strncmp (m : mem) (s1 s2 : Z) (n : nat) : Z :=
  match n with
  | O => 0
  | S n =>
      if negb (rd m s1 =? 0) && (rd m s1 =? rd m s2) then strncmp m (s1 + 1) (s2 + 1) n
      else rd m s1 - rd m s2
  end.

(** The memory after [strcpy]; the value returned is [dest]. *)
Fixpoint strcpy (fuel : nat) (dest src : Z) (m : mem) : option mem :=
  match fuel with
  | O => None
  | S fuel =>
      let c := rd m src in
      let m := wr m dest c in
      if negb (c =? 0) then strcpy fuel (dest + 1) (src + 1) m else Some m
  end.

(** [while (n--) *dest++ = '\0']. *)
Fixpoint zero_fill (dest : Z) (n : nat) (m : mem) : mem :=
  match n with
  | O => m
  | S n => zero_fill (dest + 1) n (wr m dest 0)
  end.

(** The loop that copies while [n] is not used up and the byte copied is not 0,
    with the filling loop behind it: the byte that ends the first loop is
    written and not counted. *)
Fixpoint strncpy (dest src : Z) (n : nat) (m : mem) : mem :=
  match n with
  | O => zero_fill dest 0 m
  | S n' =>
      let c := rd m src in
      let m := wr m dest c in
      if negb (c =? 0) then strncpy (dest + 1) (src + 1) n' m else zero_fill (dest + 1) n m
  end.

Fixpoint memset (dest val : Z) (count : nat) (m : mem) : mem :=
  match count with
  | O => m
  | S count => memset (dest + 1) val count (wr m dest (u8 val))
  end.

(** [while (count--) *d++ = *s++]. *)
Fixpoint memcpy (dest src : Z) (count : nat) (m : mem) : mem :=
  match count with
  | O => m
  | S count => memcpy (dest + 1) (src + 1) count (wr m dest (rd m src))
  end.

Fixpoint memcmp (m : mem) (s1 s2 : Z) (n : nat) : Z :=
  match n with
  | O => 0
  | S n => if negb (rd m s1 =? rd m s2) then rd m s1 - rd m s2 else memcmp m (s1 + 1) (s2 + 1) n
  end.

(** [while (n--) *--d = *--s], from the ends of the two ranges. *)
Fixpoint copy_down (d s : Z) (n : nat) (m : mem) : mem :=
  match n with
  | O => m
  | S n => copy_down (d - 1) (s - 1) n (wr m (d - 1) (rd m (s - 1)))
  end.

Definition memmove (dest src : Z) (n : nat) (m : mem) : mem :=
  if dest <? src then memcpy dest src n m
  else copy_down (dest + Z.of_nat n) (src + Z.of_nat n) n m.

(** ** The strings in memory *)

(** The string [s] with its NUL at [a]. *)
Fixpoint cstr (m : mem) (a : Z) (s : list Z) : Prop :=
  match s with
  | [] => rd m a = 0
  | c :: s => rd m a = c /\ c <> 0 /\ cstr m (a + 1) s
  end.

(** The value of [strcmp] on two strings. *)
Fixpoint str_diff (s t : list Z) : Z :=
  match s, t with
  | [], [] => 0
  | [], d :: _ => - d
  | c :: _, [] => c
  | c :: s, d :: t => if c =? d then str_diff s t else c - d
  end.

Lemma cstr_agree m m' a s :
  agree_on (fun x => a <= x <= a + Z.of_nat (length s)) m m' -> cstr m a s -> cstr m' a s.
Proof.
  revert a. induction s as [|c s IH]; intros a Ha; cbn [cstr length] in *.
  - intros <-. apply Ha. lia.
  - intros (H1 & H2 & H3). split; [rewrite Ha; [done|lia]|]. split; [done|].
    apply IH; [|done]. intros x Hx. apply Ha. lia.
Qed.

Lemma cstr_nonzero m a s : cstr m a s -> Forall (fun c => c <> 0) s.
Proof. revert a. induction s as [|c s IH]; intros a; [by constructor|]. intros (_ & ? & ?). by eauto. Qed.

Lemma strlen_spec fuel m a s :
  cstr m a s -> (length s < fuel)%nat -> strlen fuel m a = Some (Z.of_nat (length s)).
Proof.
  unfold strlen. intros H Hf.
  assert (G : forall len, cstr m (a + len) s -> strlen_from fuel m a len = Some (len + Z.of_nat (length s))).
  { clear H. revert s Hf. induction fuel as [|fuel IH]; intros s Hf len H; [lia|].
    destruct s as [|c s]; cbn [strlen_from cstr length] in *.
    - rewrite H. simpl. f_equal. lia.
    - destruct H as (-> & Hc & H). apply Z.eqb_neq in Hc. rewrite Hc. cbn [negb].
      rewrite (IH s); [f_equal; lia|lia|]. by replace (a + (len + 1)) with (a + len + 1) by lia. }
  rewrite (G 0); [done|]. by rewrite Z.add_0_r.
Qed.

Lemma strcmp_diff fuel m a b s t :
  cstr m a s -> cstr m b t -> (length s < fuel)%nat -> strcmp fuel m a b = Some (str_diff s t).
Proof.
  revert fuel a b t. induction s as [|c s IH]; intros fuel a b t Ha Hb Hf; cbn [length] in Hf.
  all: destruct fuel as [|fuel]; [lia|]; cbn [strcmp].
  - cbn [cstr] in Ha. rewrite Ha. cbn [Z.eqb negb andb]. by destruct t as [|d t]; [rewrite Hb|destruct Hb as [-> _]].
  - destruct Ha as (-> & Hc & Ha). destruct (Z.eqb_spec c 0) as [|_]; [done|]. cbn [negb andb].
    destruct t as [|d t]; cbn [str_diff cstr] in *.
    + rewrite Hb. destruct (Z.eqb_spec c 0); [done|]. f_equal. lia.
    + destruct Hb as (-> & Hd & Hb). destruct (c =? d); [apply IH; [done|done|lia]|done].
Qed.

Lemma strncmp_diff n m a b s t :
  cstr m a s -> cstr m b t -> strncmp m a b n = str_diff (take n s) (take n t).
Proof.
  revert a b s t. induction n as [|n IH]; intros a b s t Ha Hb; cbn [strncmp take]; [done|].
  destruct s as [|c s]; cbn [cstr] in Ha.
  - rewrite Ha. cbn [Z.eqb negb andb]. by destruct t as [|d t]; [rewrite Hb|destruct Hb as [-> _]].
  - destruct Ha as (-> & Hc & Ha). destruct (Z.eqb_spec c 0) as [|_]; [done|]. cbn [negb andb].
    destruct t as [|d t]; cbn [str_diff cstr] in *.
    + rewrite Hb. destruct (Z.eqb_spec c 0); [done|]. cbn [take str_diff]. lia.
    + destruct Hb as (-> & Hd & Hb). cbn [take str_diff]. destruct (c =? d); [by apply IH|done].
Qed.

(** [str_diff] orders strings of unsigned bytes lexicographically. *)
Lemma str_diff_0 s t :
  Forall (fun c => c <> 0) s -> Forall (fun c => c <> 0) t -> str_diff s t = 0 <-> s = t.
Proof.
  revert t. induction s as [|c s IH]; intros [|d t] Hs Ht; cbn [str_diff].
  - done.
  - apply Forall_cons in Ht as [Ht _]. cbn beta in Ht. split; [intros; exfalso; lia|done].
  - apply Forall_cons in Hs as [Hs _]. cbn beta in Hs. split; [intros; exfalso; lia|done].
  - apply Forall_cons in Hs as [Hc Hs], Ht as [Hd Ht]. destruct (Z.eqb_spec c d) as [->|Hne].
    + rewrite IH by done. split; [by intros ->|by intros [=]].
    + split; [intros; exfalso; lia|by intros [=]].
Qed.

Lemma str_diff_flip s t : str_diff t s = - str_diff s t.
Proof.
  revert t. induction s as [|c s IH]; intros [|d t]; cbn [str_diff]; try lia.
  rewrite (Z.eqb_sym d c). destruct (Z.eqb_spec c d); [apply IH|lia].
Qed.

(** ** Strings in arrays

    An array of [char] is the list of its bytes; [c_str] is the string in it, and
    [put_str] the array after [strcpy] of a string to its start. *)

Fixpoint c_str (bytes : list Z) : list Z :=
  match bytes with
  | [] => []
  | c :: bytes => if c =? 0 then [] else c :: c_str bytes
  end.

Definition put_str (src dest : list Z) : list Z := src ++ 0 :: drop (S (length src)) dest.

(** A string of [char]s that are not NUL. *)
Definition no_nul (s : list Z) : Prop := Forall (fun c => c <> 0) s.

Lemma c_str_app s bytes : no_nul s -> c_str (s ++ 0 :: bytes) = s.
Proof.
  induction s as [|c s IH]; intros Hs; cbn [c_str app]; [done|].
  apply Forall_cons in Hs as [Hc Hs]. destruct (Z.eqb_spec c 0); [done|]. by rewrite IH.
Qed.

Lemma c_str_no_nul bytes : no_nul (c_str bytes).
Proof.
  induction bytes as [|c bytes IH]; cbn [c_str]; [by constructor|].
  destruct (Z.eqb_spec c 0); [by constructor|]. by constructor.
Qed.

Lemma c_str_length bytes : (length (c_str bytes) <= length bytes)%nat.
Proof. induction bytes as [|c bytes IH]; cbn [c_str]; [lia|]. destruct (c =? 0); cbn [length]; lia. Qed.

Lemma put_str_length src dest : (length src < length dest)%nat -> length (put_str src dest) = length dest.
Proof. intros H. unfold put_str. rewrite length_app. cbn [length]. rewrite length_drop. lia. Qed.

(** The array functions are the memory functions, on the bytes of the array. *)
Lemma cstr_c_str m a bytes :
  (forall i b, bytes !! i = Some b -> rd m (a + Z.of_nat i) = b) -> (exists i, bytes !! i = Some 0) ->
  cstr m a (c_str bytes).
Proof.
  revert a. induction bytes as [|c bytes IH]; intros a Hb [i Hi]; [done|]. cbn [c_str].
  pose proof (Hb 0%nat c eq_refl) as H0. rewrite Z.add_0_r in H0.
  destruct (Z.eqb_spec c 0) as [->|Hc]; [exact H0|]. cbn [cstr]. split; [done|]. split; [done|].
  destruct i as [|i]; [by injection Hi|]. apply IH; [|by exists i].
  intros j b Hj. replace (a + 1 + Z.of_nat j) with (a + Z.of_nat (S j)) by lia. by apply Hb.
Qed.

(** ** Copies *)

Lemma memcpy_forward n d s m x :
  d <= s \/ s + Z.of_nat n <= d ->
  rd (memcpy d s n m) x = if decide (d <= x < d + Z.of_nat n) then rd m (s + (x - d)) else rd m x.
Proof.
  revert d s m. induction n as [|n IH]; intros d s m H; cbn [memcpy].
  - by rewrite decide_False by lia.
  - rewrite IH by lia. destruct (decide (x = d)) as [->|Hx].
    + rewrite decide_False, decide_True, rd_wr_eq by lia. rewrite Z.sub_diag, Z.add_0_r. apply u8_u8.
    + destruct (decide (d + 1 <= x < d + 1 + Z.of_nat n)).
      * rewrite decide_True, rd_wr_ne by lia. f_equal. lia.
      * by rewrite decide_False, rd_wr_ne by lia.
Qed.

Lemma copy_down_backward n d s m x :
  s <= d ->
  rd (copy_down d s n m) x = if decide (d - Z.of_nat n <= x < d) then rd m (s + (x - d)) else rd m x.
Proof.
  revert d s m. induction n as [|n IH]; intros d s m H; cbn [copy_down].
  - by rewrite decide_False by lia.
  - rewrite IH by lia. destruct (decide (x = d - 1)) as [->|Hx].
    + rewrite decide_False, decide_True, rd_wr_eq by lia.
      transitivity (rd m (s - 1)); [apply u8_u8|]. f_equal. lia.
    + destruct (decide (d - 1 - Z.of_nat n <= x < d - 1)).
      * rewrite decide_True, rd_wr_ne by lia. f_equal. lia.
      * by rewrite decide_False, rd_wr_ne by lia.
Qed.

Lemma memset_bytes n d v m x :
  rd (memset d v n m) x = if decide (d <= x < d + Z.of_nat n) then u8 v else rd m x.
Proof.
  revert d m. induction n as [|n IH]; intros d m; cbn [memset].
  - by rewrite decide_False by lia.
  - rewrite IH. destruct (decide (x = d)) as [->|Hx].
    + rewrite decide_False, decide_True, rd_wr_eq by lia. by rewrite !u8_u8.
    + destruct (decide (d + 1 <= x < d + 1 + Z.of_nat n)).
      * by rewrite decide_True by lia.
      * by rewrite decide_False, rd_wr_ne by lia.
Qed.

Lemma zero_fill_bytes n d m x :
  rd (zero_fill d n m) x = if decide (d <= x < d + Z.of_nat n) then 0 else rd m x.
Proof.
  revert d m. induction n as [|n IH]; intros d m; cbn [zero_fill].
  - by rewrite decide_False by lia.
  - rewrite IH. destruct (decide (x = d)) as [->|Hx].
    + by rewrite decide_False, decide_True, rd_wr_eq by lia.
    + destruct (decide (d + 1 <= x < d + 1 + Z.of_nat n)).
      * by rewrite decide_True by lia.
      * by rewrite decide_False, rd_wr_ne by lia.
Qed.

(** The forward loops on a string whose bytes they do not overwrite. *)
Lemma strcpy_bytes fuel d a s m :
  cstr m a s -> d + Z.of_nat (length s) < a \/ a + Z.of_nat (length s) < d -> (length s < fuel)%nat ->
  exists m', strcpy fuel d a m = Some m' /\
    forall x, rd m' x = if decide (d <= x <= d + Z.of_nat (length s))
                        then nth (Z.to_nat (x - d)) s 0 else rd m x.
Proof.
  revert fuel d a m. induction s as [|c s IH]; intros fuel d a m Hs Hd Hf; cbn [length] in *.
  all: destruct fuel as [|fuel]; [lia|]; cbn [strcpy cstr] in *.
  - rewrite Hs. cbn. eexists. split; [done|]. intros x. rewrite rd_wr. case_decide as E.
    + subst x. by rewrite decide_True, Z.sub_diag by lia.
    + by rewrite decide_False by lia.
  - destruct Hs as (Hc0 & Hc & Hs). pose proof (rd_range m a) as Hr. rewrite Hc0 in *.
    destruct (Z.eqb_spec c 0); [done|]. cbn [negb].
    destruct (IH fuel (d + 1) (a + 1) (wr m d c)) as (m' & -> & Hm'); [|lia|lia|].
    { eapply cstr_agree; [|exact Hs]. intros x Hx. apply rd_wr_ne. lia. }
    exists m'. split; [done|]. intros x. rewrite Hm'. destruct (decide (x = d)) as [->|Hx].
    + rewrite decide_False, decide_True, rd_wr_eq, Z.sub_diag by lia. by apply u8_small.
    + destruct (decide (d + 1 <= x <= d + 1 + Z.of_nat (length s))).
      * rewrite decide_True by lia. replace (Z.to_nat (x - d)) with (S (Z.to_nat (x - (d + 1)))) by lia. done.
      * by rewrite decide_False, rd_wr_ne by lia.
Qed.

Lemma strncpy_bytes n d a s m :
  cstr m a s -> d + Z.of_nat n < a \/ a + Z.of_nat (length s) < d ->
  forall x, rd (strncpy d a n m) x =
    if decide (d <= x < d + Z.of_nat n) then nth (Z.to_nat (x - d)) s 0
    else if decide (x = d + Z.of_nat n /\ (length s < n)%nat) then 0 else rd m x.
Proof.
  revert d a s m. induction n as [|n IH]; intros d a s m Hs Hd x; cbn [strncpy].
  { cbn [zero_fill]. by rewrite !decide_False by lia. }
  destruct s as [|c s]; cbn [cstr length] in *.
  - rewrite Hs. cbn [Z.eqb negb]. rewrite zero_fill_bytes, rd_wr.
    destruct (decide (d <= x < d + Z.of_nat (S n))).
    + destruct (decide (d + 1 <= x < d + 1 + Z.of_nat (S n))).
      * by destruct (Z.to_nat (x - d)).
      * rewrite decide_True by lia. by destruct (Z.to_nat (x - d)).
    + destruct (decide (x = d + Z.of_nat (S n))).
      * rewrite !decide_True by lia. done.
      * by rewrite !decide_False by lia.
  - destruct Hs as (Hc0 & Hc & Hs). pose proof (rd_range m a) as Hr. rewrite Hc0 in *.
    destruct (Z.eqb_spec c 0); [done|]. cbn [negb].
    rewrite (IH (d + 1) (a + 1) s); [| |lia].
    + destruct (decide (x = d)) as [->|Hx].
      * rewrite decide_False, decide_False, decide_True by lia. rewrite rd_wr_eq, Z.sub_diag. by apply u8_small.
      * rewrite rd_wr_ne by lia. destruct (decide (d + 1 <= x < d + 1 + Z.of_nat n)).
        -- rewrite decide_True by lia. replace (Z.to_nat (x - d)) with (S (Z.to_nat (x - (d + 1)))) by lia. done.
        -- rewrite (decide_False (P := d <= x < _)) by lia.
           destruct (decide (x = d + 1 + Z.of_nat n /\ (length s < n)%nat)).
           ++ by rewrite decide_True by lia.
           ++ by rewrite decide_False by lia.
    + eapply cstr_agree; [|exact Hs]. intros y Hy. apply rd_wr_ne. lia.
Qed.

(** C38: [strncpy] writes the first [n] bytes of the string, padded with zeros; but
    when the string is shorter than [n], it writes one byte more than [n]: a zero
    behind the destination. *)
Theorem strncpy_writes n d a s m x :
  cstr m a s -> d + Z.of_nat n < a \/ a + Z.of_nat (length s) < d ->
  rd (strncpy d a n m) x =
    if decide (d <= x < d + Z.of_nat n) then nth (Z.to_nat (x - d)) s 0
    else if decide (x = d + Z.of_nat n /\ (length s < n)%nat) then 0 else rd m x.
Proof. intros Hs Hd. by apply strncpy_bytes. Qed.

(** [memmove] copies [n] bytes for every overlap of the two ranges, and writes
    the destination only. *)
Theorem memmove_copies n d s m x :
  rd (memmove d s n m) x = if decide (d <= x < d + Z.of_nat n) then rd m (s + (x - d)) else rd m x.
Proof.
  unfold memmove. destruct (Z.ltb_spec d s).
  - apply memcpy_forward. lia.
  - rewrite copy_down_backward by lia.
    destruct (decide (d <= x < d + Z.of_nat n)).
    + rewrite decide_True by lia. f_equal. lia.
    + by rewrite decide_False by lia.
Qed.

(** [strcmp] decides equality of the two strings and its sign is antisymmetric,
    and [strncmp] is [strcmp] of the first [n] characters. *)
Theorem strcmp_order fuel n m a b s t :
  cstr m a s -> cstr m b t -> (length s < fuel)%nat -> (length t < fuel)%nat ->
  exists r, strcmp fuel m a b = Some r /\ strcmp fuel m b a = Some (- r) /\ (r = 0 <-> s = t) /\
  (strncmp m a b n = 0 <-> take n s = take n t) /\
  ((length s <= n)%nat -> (length t <= n)%nat -> strncmp m a b n = r).
Proof.
  intros Ha Hb Hs Ht. exists (str_diff s t).
  rewrite (strcmp_diff fuel m a b s t), (strcmp_diff fuel m b a t s), (strncmp_diff n m a b s t),
    (str_diff_flip s t) by done.
  pose proof (cstr_nonzero _ _ _ Ha) as Hs0. pose proof (cstr_nonzero _ _ _ Hb) as Ht0.
  split_and!; [done|done|by apply str_diff_0|apply str_diff_0; by apply Forall_take|].
  intros ??. by rewrite !take_ge by lia.
Qed.

(** ** Witnesses *)

(** Memory with the string [s] at address 100. *)
Definition text (s : list Z) : mem := Mem (fun a => nth (Z.to_nat (a - 100)) s 0) ∅.

(** The name of the idle task, copied to a field of 32 bytes at 200. *)
Lemma strncpy_writes_witness :
  rd (strncpy 200 100 32 (wr (text (str "kernel_idle")) 232 7)) 232 = 0.
Proof.
  rewrite (strncpy_writes 32 200 100 (str "kernel_idle") (wr (text (str "kernel_idle")) 232 7) 232).
  - by vm_compute.
  - by vm_compute.
  - right. by vm_compute.
Defined.

Lemma strcmp_order_witness :
  exists r, strcmp 20 (text (str "help" ++ [0] ++ str "helmet")) 100 105 = Some r /\
  strcmp 20 (text (str "help" ++ [0] ++ str "helmet")) 105 100 = Some (- r) /\
  (r = 0 <-> str "help" = str "helmet") /\
  (strncmp (text (str "help" ++ [0] ++ str "helmet")) 100 105 3 = 0 <->
     take 3 (str "help") = take 3 (str "helmet")) /\
  ((4 <= 3)%nat -> (6 <= 3)%nat ->
     strncmp (text (str "help" ++ [0] ++ str "helmet")) 100 105 3 = r).
Proof.
  apply (strcmp_order 20 3 (text (str "help" ++ [0] ++ str "helmet")) 100 105 (str "help") (str "helmet")).
  - by vm_compute.
  - by vm_compute.
  - apply Nat.ltb_lt. by vm_compute.
  - apply Nat.ltb_lt. by vm_compute.
Defined.

End CString.
