(* ===== verification/Ports.v ===== *)
(** * Port I/O ([io.h]) and the interrupt controller driver ([pic.h], [pic.c])

    The devices behind the I/O ports are not code of the repository: they are
    a type [D] with the two operations of class [PortBus].  What the PIC driver
    relies on (the documented behaviour of the two 8259A chips) is the class
    [Pic8259]; [sim_bus] is a concrete bus that satisfies it. *)

From S2P Require Import Prelude.
Local Open Scope Z_scope.

(** The processor's [in] and [out] instructions on a bus with devices [D];
    the first argument is the width of the access in bits. *)
Class PortBus (D : Type) := {
  port_in : Z -> Z -> D -> Z * D;
  port_out : Z -> Z -> Z -> D -> D
}.

Section io.
  Context {D : Type} `{!PortBus D}.

Definition outb (port value : Z) (d : D) : D := port_out 8 (u16 port) (u8 value) d.
Definition inb (port : Z) (d : D) : Z * D :=
  let '(ret, d) := port_in 8 (u16 port) d in (u8 ret, d).
Definition outw (port value : Z) (d : D) : D := port_out 16 (u16 port) (u16 value) d.
Definition inw (port : Z) (d : D) : Z * D :=
  let '(ret, d) := port_in 16 (u16 port) d in (u16 ret, d).
Definition outl (port value : Z) (d : D) : D := port_out 32 (u16 port) (u32 value) d.
Definition inl (port : Z) (d : D) : Z * D :=
  let '(ret, d) := port_in 32 (u16 port) d in (u32 ret, d).
Definition io_wait (d : D) : D := outb 0x80 0 d.

End io.

(** ** The driver of the two 8259A chips *)
Module Pic.

Definition PIC1_COMMAND : Z := 0x20.
Definition PIC1_DATA : Z := 0x21.
Definition PIC2_COMMAND : Z := 0xA0.
Definition PIC2_DATA : Z := 0xA1.
Definition PIC_EOI : Z := 0x20.
Definition ICW1_ICW4 : Z := 0x01.
Definition ICW1_INIT : Z := 0x10.
Definition ICW4_8086 : Z := 0x01.

Section driver.
  Context {D : Type} `{!PortBus D}.

Definition pic_remap (offset1 offset2 : Z) (d : D) : D :=
  let '(a1, d) := inb PIC1_DATA d in
  let '(a2, d) := inb PIC2_DATA d in
  let d := outb PIC1_COMMAND (Z.lor ICW1_INIT ICW1_ICW4) d in
  let d := io_wait d in
  let d := outb PIC2_COMMAND (Z.lor ICW1_INIT ICW1_ICW4) d in
  let d := io_wait d in
  let d := outb PIC1_DATA offset1 d in
  let d := io_wait d in
  let d := outb PIC2_DATA offset2 d in
  let d := io_wait d in
  let d := outb PIC1_DATA 0x04 d in
  let d := io_wait d in
  let d := outb PIC2_DATA 0x02 d in
  let d := io_wait d in
  let d := outb PIC1_DATA ICW4_8086 d in
  let d := io_wait d in
  let d := outb PIC2_DATA ICW4_8086 d in
  let d := io_wait d in
  let d := outb PIC1_DATA a1 d in
  outb PIC2_DATA a2 d.

Definition pic_disable (d : D) : D :=
  let d := outb PIC1_DATA 0xFF d in
  outb PIC2_DATA 0xFF d.

Definition pic_send_eoi (irq : Z) (d : D) : D :=
  let d := if 8 <=? irq then outb PIC2_COMMAND PIC_EOI d else d in
  outb PIC1_COMMAND PIC_EOI d.

(** The data port and the line number on it ([irq_line -= 8] for the slave). *)
Definition pic_line (irq_line : Z) : Z * Z :=
  if irq_line <? 8 then (PIC1_DATA, irq_line) else (PIC2_DATA, u8 (irq_line - 8)).

Definition pic_set_mask (irq_line : Z) (d : D) : D :=
  let '(port, irq_line) := pic_line irq_line in
  let '(v, d) := inb port d in
  outb port (Z.lor v (Z.shiftl 1 irq_line)) d.

Definition pic_clear_mask (irq_line : Z) (d : D) : D :=
  let '(port, irq_line) := pic_line irq_line in
  let '(v, d) := inb port d in
  outb port (Z.land v (Z.lnot (Z.shiftl 1 irq_line))) d.

End driver.

(** ** What the driver relies on *)

(** The two chips, the cascaded one on line 2 of the first. *)
Inductive chip := Master | Slave.

#[export] Instance chip_eq_dec : EqDecision chip.
Proof. solve_decision. Defined.

Definition cmd_port (c : chip) : Z := match c with Master => PIC1_COMMAND | Slave => PIC2_COMMAND end.
Definition data_port (c : chip) : Z := match c with Master => PIC1_DATA | Slave => PIC2_DATA end.

(** The registers of one chip: the initialisation word it expects next (0 when
    it is operational), its mask, its vector base and its in-service bits. *)
Record chip_regs := ChipRegs { icw : Z; imr : Z; vec : Z; isr : Z }.

(** The documented behaviour of the 8259A on the writes and reads the driver
    performs: ICW1 clears the mask and starts the sequence ICW2, ICW3, ICW4;
    an operational chip takes a data write as its mask, answers a data read
    with it, and a non-specific EOI clears the lowest in-service bit. *)
Class Pic8259 (D : Type) `{!PortBus D} := {
  regs : chip -> D -> chip_regs;
  imr_range c d : 0 <= imr (regs c d) < 2 ^ 8;
  law_icw1 c v d : Z.testbit v 4 = true -> Z.testbit v 0 = true ->
    regs c (port_out 8 (cmd_port c) v d) = ChipRegs 2 0 (vec (regs c d)) 0;
  law_icw2 c v d : icw (regs c d) = 2 ->
    regs c (port_out 8 (data_port c) v d) =
    ChipRegs 3 (imr (regs c d)) (Z.land v 0xF8) (isr (regs c d));
  law_icw3 c v d : icw (regs c d) = 3 ->
    regs c (port_out 8 (data_port c) v d) =
    ChipRegs 4 (imr (regs c d)) (vec (regs c d)) (isr (regs c d));
  law_icw4 c v d : icw (regs c d) = 4 ->
    regs c (port_out 8 (data_port c) v d) =
    ChipRegs 0 (imr (regs c d)) (vec (regs c d)) (isr (regs c d));
  law_ocw1 c v d : icw (regs c d) = 0 -> 0 <= v < 2 ^ 8 ->
    regs c (port_out 8 (data_port c) v d) =
    ChipRegs 0 v (vec (regs c d)) (isr (regs c d));
  law_eoi c d : icw (regs c d) = 0 ->
    regs c (port_out 8 (cmd_port c) PIC_EOI d) =
    ChipRegs 0 (imr (regs c d)) (vec (regs c d)) (Z.land (isr (regs c d)) (isr (regs c d) - 1));
  law_read c d : icw (regs c d) = 0 -> fst (port_in 8 (data_port c) d) = imr (regs c d);
  law_read_pure c c' d : regs c' (snd (port_in 8 (data_port c) d)) = regs c' d;
  law_other c w port v d : port <> cmd_port c -> port <> data_port c ->
    regs c (port_out w port v d) = regs c d
}.

(** Whether interrupt line [irq] (0 to 15) is masked at its chip. *)
Definition chip_of (irq : Z) : chip := if irq <? 8 then Master else Slave.
Definition irq_masked {D} `{Pic8259 D} (irq : Z) (d : D) : bool :=
  Z.testbit (imr (regs (chip_of irq) d)) (irq mod 8).

Definition operational {D} `{Pic8259 D} (d : D) : Prop := forall c, icw (regs c d) = 0.

(** ** Theorems *)
Section theorems.
  Context {D : Type} {PB : PortBus D} {P : Pic8259 D}.
  Implicit Types d : D.

Lemma outb_regs_other c port v d :
  u16 port <> cmd_port c -> u16 port <> data_port c -> regs c (outb port v d) = regs c d.
Proof. apply law_other. Qed.

(** One access of the driver to a chip, seen at a chip. *)
Lemma regs_icw1 c c' d :
  regs c' (outb (cmd_port c) (Z.lor ICW1_INIT ICW1_ICW4) d) =
  if decide (c = c') then ChipRegs 2 0 (vec (regs c d)) 0 else regs c' d.
Proof.
  case_decide as E; [subst; destruct c'; by apply law_icw1|].
  apply law_other; by destruct c, c'.
Qed.

Lemma regs_data c c' v d :
  regs c' (outb (data_port c) v d) =
  if decide (c = c') then regs c (port_out 8 (data_port c) (u8 v) d) else regs c' d.
Proof.
  case_decide as E; [subst; by destruct c'|].
  apply law_other; by destruct c, c'.
Qed.

Lemma regs_wait c d : regs c (io_wait d) = regs c d.
Proof. apply law_other; by destruct c. Qed.

Lemma inb_data c d :
  icw (regs c d) = 0 ->
  fst (inb (data_port c) d) = imr (regs c d) /\
  forall c', regs c' (snd (inb (data_port c) d)) = regs c' d.
Proof.
  intros H. unfold inb. replace (u16 (data_port c)) with (data_port c) by (by destruct c).
  pose proof (law_read c d H) as Hr. pose proof (fun c' => law_read_pure c c' d) as Hp.
  destruct (port_in 8 (data_port c) d) as [v d']; simpl in *. subst v.
  split; [apply u8_small, imr_range | apply Hp].
Qed.

Lemma pic_line_chip irq :
  0 <= irq < 16 -> pic_line irq = (data_port (chip_of irq), irq mod 8).
Proof.
  intros H. unfold pic_line, chip_of. destruct (Z.ltb_spec irq 8).
  - by rewrite Z.mod_small by lia.
  - rewrite u8_small by lia. simpl. f_equal. dlia.
Qed.

Lemma chip_line_inj irq irq' :
  0 <= irq < 16 -> 0 <= irq' < 16 -> chip_of irq = chip_of irq' ->
  irq mod 8 = irq' mod 8 -> irq = irq'.
Proof.
  intros H H'. unfold chip_of.
  destruct (Z.ltb_spec irq 8), (Z.ltb_spec irq' 8); try discriminate; intros _; dlia.
Qed.

(** Reading the mask of [irq]'s chip and writing back [f mask]: the chip's
    registers afterwards.  Both [pic_set_mask] and [pic_clear_mask] do this. *)
Lemma mask_update f irq d :
  0 <= irq < 16 -> operational d ->
  let port := data_port (chip_of irq) in
  let d' := outb port (f (fst (inb port d))) (snd (inb port d)) in
  operational d' /\ (forall c, vec (regs c d') = vec (regs c d)) /\
  forall irq', 0 <= irq' < 16 ->
    irq_masked irq' d' =
    if decide (chip_of irq = chip_of irq')
    then Z.testbit (u8 (f (imr (regs (chip_of irq) d)))) (irq' mod 8)
    else irq_masked irq' d.
Proof.
  intros Hi Hop port d'. subst d' port.
  destruct (inb_data (chip_of irq) d (Hop _)) as [-> Hp].
  assert (Hr : forall c, regs c (outb (data_port (chip_of irq))
      (f (imr (regs (chip_of irq) d))) (snd (inb (data_port (chip_of irq)) d))) =
    if decide (chip_of irq = c)
    then ChipRegs 0 (u8 (f (imr (regs (chip_of irq) d)))) (vec (regs c d)) (isr (regs c d))
    else regs c d).
  { intros c. rewrite regs_data, Hp. case_decide as E; [subst c|done].
    rewrite law_ocw1, Hp by (try rewrite Hp; auto with words). done. }
  split; [|split].
  - intros c. rewrite Hr. case_decide; [done|apply Hop].
  - intros c. rewrite Hr. by case_decide.
  - intros irq' Hi'. unfold irq_masked. rewrite Hr. by case_decide.
Qed.

(** [pic_set_mask] masks its line and leaves the other fifteen as they were. *)
Lemma pic_set_mask_spec irq irq' d :
  0 <= irq < 16 -> 0 <= irq' < 16 -> operational d ->
  operational (pic_set_mask irq d) /\
  (forall c, vec (regs c (pic_set_mask irq d)) = vec (regs c d)) /\
  irq_masked irq' (pic_set_mask irq d) = bool_decide (irq = irq') || irq_masked irq' d.
Proof.
  intros Hi Hi' Hop. unfold pic_set_mask. rewrite pic_line_chip by done.
  destruct (mask_update (fun v => Z.lor v (Z.shiftl 1 (irq mod 8))) irq d Hi Hop) as (Ho & Hv & Hm).
  destruct (inb _ d) as [v d1]; simpl in *. split; [done|]. split; [done|]. rewrite Hm by done.
  rewrite testbit_set_bit by dlia. unfold irq_masked. case_decide as E.
  - rewrite E. f_equal. apply bool_decide_ext. split; [|by intros ->].
    by apply chip_line_inj.
  - case_bool_decide; [by subst|done].
Qed.

(** [pic_clear_mask] unmasks its line and leaves the other fifteen as they were. *)
Lemma pic_clear_mask_spec irq irq' d :
  0 <= irq < 16 -> 0 <= irq' < 16 -> operational d ->
  operational (pic_clear_mask irq d) /\
  (forall c, vec (regs c (pic_clear_mask irq d)) = vec (regs c d)) /\
  irq_masked irq' (pic_clear_mask irq d) = negb (bool_decide (irq = irq')) && irq_masked irq' d.
Proof.
  intros Hi Hi' Hop. unfold pic_clear_mask. rewrite pic_line_chip by done.
  destruct (mask_update (fun v => Z.land v (Z.lnot (Z.shiftl 1 (irq mod 8)))) irq d Hi Hop)
    as (Ho & Hv & Hm).
  destruct (inb _ d) as [v d1]; simpl in *. split; [done|]. split; [done|]. rewrite Hm by done.
  rewrite testbit_clear_bit by dlia. unfold irq_masked. case_decide as E.
  - rewrite E. f_equal. f_equal. apply bool_decide_ext. split; [|by intros ->].
    by apply chip_line_inj.
  - case_bool_decide; [by subst|done].
Qed.

(** The initialisation sequence, followed on both chips at once. *)
Definition both d (m s : chip_regs) : Prop := regs Master d = m /\ regs Slave d = s.

(** How a data write moves a chip through its sequence, from the four laws. *)
Definition data_step (r : chip_regs) (v : Z) : chip_regs :=
  if icw r =? 2 then ChipRegs 3 (imr r) (Z.land v 0xF8) (isr r)
  else if icw r =? 3 then ChipRegs 4 (imr r) (vec r) (isr r)
  else if icw r =? 4 then ChipRegs 0 (imr r) (vec r) (isr r)
  else ChipRegs 0 v (vec r) (isr r).

Lemma law_data c v d :
  icw (regs c d) ∈ [0; 2; 3; 4] -> 0 <= v < 2 ^ 8 ->
  regs c (port_out 8 (data_port c) v d) = data_step (regs c d) v.
Proof.
  intros H Hv. unfold data_step. rewrite !elem_of_cons, elem_of_nil in H.
  destruct H as [H|[H|[H|[H|[]]]]]; rewrite H; simpl.
  - by apply law_ocw1.
  - by apply law_icw2.
  - by apply law_icw3.
  - by apply law_icw4.
Qed.

Lemma both_wait d m s : both d m s -> both (io_wait d) m s.
Proof. unfold both. by rewrite !regs_wait. Qed.

Lemma both_icw1_master d m s :
  both d m s -> both (outb PIC1_COMMAND (Z.lor ICW1_INIT ICW1_ICW4) d) (ChipRegs 2 0 (vec m) 0) s.
Proof. intros [<- <-]. split; by rewrite (regs_icw1 Master). Qed.

Lemma both_icw1_slave d m s :
  both d m s -> both (outb PIC2_COMMAND (Z.lor ICW1_INIT ICW1_ICW4) d) m (ChipRegs 2 0 (vec s) 0).
Proof. intros [<- <-]. split; by rewrite (regs_icw1 Slave). Qed.

Lemma both_data_master d m s v :
  both d m s -> icw m ∈ [0; 2; 3; 4] -> both (outb PIC1_DATA v d) (data_step m (u8 v)) s.
Proof.
  intros [<- <-] H. split; rewrite (regs_data Master); simpl; [|done].
  apply (law_data Master); auto with words.
Qed.

Lemma both_data_slave d m s v :
  both d m s -> icw s ∈ [0; 2; 3; 4] -> both (outb PIC2_DATA v d) m (data_step s (u8 v)).
Proof.
  intros [<- <-] H. split; rewrite (regs_data Slave); simpl; [done|].
  apply (law_data Slave); auto with words.
Qed.

Lemma both_eq d m s m' s' : both d m s -> m = m' -> s = s' -> both d m' s'.
Proof. by intros ? <- <-. Qed.

(** Symbolic execution of a sequence of writes to the two chips. *)
Ltac pic_steps :=
  repeat first [ eassumption | eapply both_wait | eapply both_icw1_master
               | eapply both_icw1_slave | eapply both_data_master | eapply both_data_slave ].

(** The initialisation sequence on both chips. *)
Lemma pic_remap_both o1 o2 d :
  0 <= o1 < 2 ^ 8 -> 0 <= o2 < 2 ^ 8 -> operational d ->
  both (pic_remap o1 o2 d)
    (ChipRegs 0 (imr (regs Master d)) (Z.land o1 0xF8) 0)
    (ChipRegs 0 (imr (regs Slave d)) (Z.land o2 0xF8) 0).
Proof.
  intros H1 H2 Hop. unfold pic_remap.
  destruct (inb_data Master d (Hop _)) as [Ha1 Hp1]. simpl in Ha1, Hp1.
  destruct (inb PIC1_DATA d) as [a1 da]; simpl in *.
  assert (Hs : icw (regs Slave da) = 0) by (rewrite Hp1; apply Hop).
  destruct (inb_data Slave da Hs) as [Ha2 Hp2]. simpl in Ha2, Hp2.
  destruct (inb PIC2_DATA da) as [a2 db]; simpl in *.
  assert (both db (regs Master d) (regs Slave d)) as Hb by (split; by rewrite Hp2, Hp1).
  eapply both_eq; [pic_steps | |]; simpl.
  all: try (rewrite !elem_of_cons; by auto).
  - rewrite (u8_small o1), Ha1 by done. by rewrite (u8_small (imr _)) by apply imr_range.
  - rewrite (u8_small o2), Ha2, Hp1 by done. by rewrite (u8_small (imr _)) by apply imr_range.
Qed.


(** [pic_remap] leaves both chips operational with the given vector
    bases and the masks they had before the initialisation cleared them. *)
Theorem pic_remap_spec o1 o2 d :
  0 <= o1 < 2 ^ 8 -> 0 <= o2 < 2 ^ 8 -> operational d ->
  both (pic_remap o1 o2 d)
    (ChipRegs 0 (imr (regs Master d)) (Z.land o1 0xF8) 0)
    (ChipRegs 0 (imr (regs Slave d)) (Z.land o2 0xF8) 0).
Proof. apply pic_remap_both. Qed.

(** an EOI for a slave line acknowledges the lowest in-service line of both
    chips, an EOI for a master line that of the master only. *)
Lemma pic_send_eoi_spec irq d :
  operational d ->
  let ack c := let r := regs c d in
    ChipRegs 0 (imr r) (vec r) (Z.land (isr r) (isr r - 1)) in
  both (pic_send_eoi irq d) (ack Master) (if 8 <=? irq then ack Slave else regs Slave d).
Proof.
  intros Hop ack. subst ack. simpl. unfold pic_send_eoi, outb.
  destruct (8 <=? irq); split.
  - rewrite (law_eoi Master); rewrite (law_other Master) by done; [done|apply Hop].
  - rewrite (law_other Slave) by done. apply (law_eoi Slave), Hop.
  - apply (law_eoi Master), Hop.
  - by rewrite (law_other Slave).
Qed.

End theorems.
End Pic.

(** ** A concrete bus

    The two chips as their documentation describes them, a log of every write,
    and a script of answers for reads from any other port. *)
Module SimBus.
Import Pic.

Record sim_bus := SimBus {
  sim_master : chip_regs;
  sim_slave : chip_regs;
  sim_log : list (Z * Z * Z);
  sim_script : list Z
}.

Definition sim_regs (c : chip) (d : sim_bus) : chip_regs :=
  match c with Master => sim_master d | Slave => sim_slave d end.

Definition sim_chip_out (c : chip) (port v : Z) (r : chip_regs) : chip_regs :=
  if port =? cmd_port c then
    if Z.testbit v 4 then ChipRegs 2 0 (vec r) 0
    else ChipRegs (icw r) (imr r) (vec r) (Z.land (isr r) (isr r - 1))
  else if port =? data_port c then data_step r v
  else r.

#[export] Instance sim_port_bus : PortBus sim_bus := {
  port_in _ port d :=
    if port =? PIC1_DATA then (u8 (imr (sim_master d)), d)
    else if port =? PIC2_DATA then (u8 (imr (sim_slave d)), d)
    else match sim_script d with
         | [] => (0, d)
         | v :: vs => (v, SimBus (sim_master d) (sim_slave d) (sim_log d) vs)
         end;
  port_out w port v d :=
    SimBus (sim_chip_out Master port v (sim_master d)) (sim_chip_out Slave port v (sim_slave d))
      (sim_log d ++ [(w, port, v)]) (sim_script d)
}.

(** The mask register of a chip holds a byte. *)
Definition byte_regs (r : chip_regs) : chip_regs := ChipRegs (icw r) (u8 (imr r)) (vec r) (isr r).

Lemma sim_regs_out c w port v d :
  sim_regs c (port_out w port v d) = sim_chip_out c port v (sim_regs c d).
Proof. by destruct c. Qed.

Lemma sim_out_cmd c v r :
  sim_chip_out c (cmd_port c) v r =
  if Z.testbit v 4 then ChipRegs 2 0 (vec r) 0
  else ChipRegs (icw r) (imr r) (vec r) (Z.land (isr r) (isr r - 1)).
Proof. by destruct c. Qed.

Lemma sim_out_data c v r : sim_chip_out c (data_port c) v r = data_step r v.
Proof. by destruct c. Qed.

Lemma sim_out_other c port v r :
  port <> cmd_port c -> port <> data_port c -> sim_chip_out c port v r = r.
Proof.
  intros H1 H2. unfold sim_chip_out.
  destruct (Z.eqb_spec port (cmd_port c)), (Z.eqb_spec port (data_port c)); done.
Qed.

Lemma byte_data_step r v :
  byte_regs (data_step r v) =
  if (icw r =? 2) || (icw r =? 3) || (icw r =? 4) then data_step (byte_regs r) v
  else ChipRegs 0 (u8 v) (vec r) (isr r).
Proof. unfold byte_regs, data_step. simpl. by repeat case_match. Qed.

#[export, refine] Instance sim_pic : Pic8259 sim_bus := { regs c d := byte_regs (sim_regs c d) }.
Proof.
  - intros c d. apply u8_range.
  - intros c v d H4 _. by rewrite sim_regs_out, sim_out_cmd, H4.
  - intros c v d H. simpl in H.
    rewrite sim_regs_out, sim_out_data, byte_data_step, H. unfold data_step. simpl. by rewrite H.
  - intros c v d H. simpl in H.
    rewrite sim_regs_out, sim_out_data, byte_data_step, H. unfold data_step. simpl. by rewrite H.
  - intros c v d H. simpl in H.
    rewrite sim_regs_out, sim_out_data, byte_data_step, H. unfold data_step. simpl. by rewrite H.
  - intros c v d H Hv. simpl in H.
    rewrite sim_regs_out, sim_out_data, byte_data_step, H. simpl. by rewrite u8_small.
  - intros c d H. simpl in H. rewrite sim_regs_out, sim_out_cmd. unfold byte_regs. simpl. by rewrite H.
  - by intros [] d H.
  - by intros [] [] d.
  - intros c w port v d H1 H2. by rewrite sim_regs_out, sim_out_other.
Defined.

(** Both chips initialised by the BIOS (vector bases 8 and 0x70). *)
Definition bios_bus : sim_bus :=
  SimBus (ChipRegs 0 0xB8 0x08 0) (ChipRegs 0 0x8F 0x70 0) [] [].

Lemma bios_bus_operational : operational bios_bus.
Proof. by intros []. Qed.

Lemma pic_remap_spec_witness :
  both (pic_remap 32 40 bios_bus) (ChipRegs 0 0xB8 32 0) (ChipRegs 0 0x8F 40 0).
Proof. refine (pic_remap_spec 32 40 bios_bus _ _ bios_bus_operational); lia. Defined.

End SimBus.
