(* ===== verification/Vga.v ===== *)
(** * The VGA text console ([vga.h], [vga.c])

    The frame buffer at 0xB8000 is device memory of 16-bit cells, modelled on
    its own (the physical memory manager never hands out addresses below
    1 MB).  [vga_buffer] only ever points there, so the pointer is not a field
    of the state.  A [con] is the console: the screen state of [vga.c] and the
    bus with the CRT controller that holds the hardware cursor. *)

From S2P Require Import Prelude Ports.
Local Open Scope Z_scope.
Local Open Scope kios_scope.

Module Vga.

Definition VGA_WIDTH : Z := 80.
Definition VGA_HEIGHT : Z := 25.
Definition VGA_CTRL_PORT : Z := 0x3D4.
Definition VGA_DATA_PORT : Z := 0x3D5.

(** [vga_color_t]; the code also casts integers to it. *)
Definition VGA_BLACK : Z := 0.
Definition VGA_BLUE : Z := 1.
Definition VGA_GREEN : Z := 2.
Definition VGA_CYAN : Z := 3.
Definition VGA_RED : Z := 4.
Definition VGA_MAGENTA : Z := 5.
Definition VGA_BROWN : Z := 6.
Definition VGA_LIGHT_GRAY : Z := 7.
Definition VGA_DARK_GRAY : Z := 8.
Definition VGA_LIGHT_BLUE : Z := 9.
Definition VGA_LIGHT_GREEN : Z := 10.
Definition VGA_LIGHT_CYAN : Z := 11.
Definition VGA_LIGHT_RED : Z := 12.
Definition VGA_LIGHT_MAGENTA : Z := 13.
Definition VGA_YELLOW : Z := 14.
Definition VGA_WHITE : Z := 15.

(** The globals of [vga.c]. *)
Record vga := Vga {
  vga_buffer : mem;
  vga_cursor_x : Z;
  vga_cursor_y : Z;
  vga_color : Z
}.

Definition vga_boot (cells : mem) : vga := Vga cells 0 0 0x0F.

(** One 16-bit cell of the frame buffer. *)
Definition cell (b : mem) (i : Z) : Z := u16 (mem_get b i).
Definition set_cell (b : mem) (i v : Z) : mem := mem_set b i (u16 v).

(** The console: the screen and the bus the cursor registers are on. *)
Record con (D : Type) := Con { scr : vga; bus : D }.
Arguments Con {D} _ _.
Arguments scr {D} _.
Arguments bus {D} _.

Definition vga_make_color (fg bg : Z) : Z := u8 (Z.lor fg (Z.shiftl bg 4)).

(** [c] is a [char], hence signed: its conversion to 16 bits extends the sign. *)
Definition vga_make_entry (c color : Z) : Z :=
  u16 (Z.lor (u16 c) (Z.shiftl (u16 color) 8)).

Definition set_cursor (x y : Z) (s : vga) : vga := Vga (vga_buffer s) x y (vga_color s).
Definition set_buffer (b : mem) (s : vga) : vga := Vga b (vga_cursor_x s) (vga_cursor_y s) (vga_color s).
Definition set_color (c : Z) (s : vga) : vga := Vga (vga_buffer s) (vga_cursor_x s) (vga_cursor_y s) c.

(** [vga_scroll]: copy every line one up, blank the last, cursor to the last line. *)
Definition vga_scroll (s : vga) : vga :=
  let b := for_range 0 ((VGA_HEIGHT - 1) * VGA_WIDTH)
             (fun i b => set_cell b i (cell b (i + VGA_WIDTH))) (vga_buffer s) in
  let blank := vga_make_entry 32 (vga_color s) in
  let b := for_range ((VGA_HEIGHT - 1) * VGA_WIDTH) (VGA_HEIGHT * VGA_WIDTH)
             (fun i b => set_cell b i blank) b in
  Vga b (vga_cursor_x s) (VGA_HEIGHT - 1) (vga_color s).

Definition vga_putchar_at (c x y color : Z) (s : vga) : vga :=
  if (0 <=? x) && (x <? VGA_WIDTH) && (0 <=? y) && (y <? VGA_HEIGHT)
  then set_buffer (set_cell (vga_buffer s) (y * VGA_WIDTH + x) (vga_make_entry c color)) s
  else s.

(** The [switch] of [vga_putchar] on the character. *)
Definition putchar_switch (c : Z) (s : vga) : vga :=
  let x := vga_cursor_x s in
  let y := vga_cursor_y s in
  if c =? 10 then set_cursor 0 (y + 1) s
  else if c =? 13 then set_cursor 0 y s
  else if c =? 9 then set_cursor (Z.land (x + 8) (Z.lnot 7)) y s
  else if c =? 8 then
    if 0 <? x then
      let s := set_cursor (x - 1) y s in
      vga_putchar_at 32 (vga_cursor_x s) (vga_cursor_y s) (vga_color s) s
    else s
  else if 32 <=? c then
    let s := vga_putchar_at c x y (vga_color s) s in
    set_cursor (vga_cursor_x s + 1) (vga_cursor_y s) s
  else s.

(** [vga_putchar] up to the update of the hardware cursor. *)
Definition putchar_screen (c : Z) (s : vga) : vga :=
  let s := if VGA_HEIGHT <=? vga_cursor_y s then vga_scroll s else s in
  let s := putchar_switch c s in
  let s := if VGA_WIDTH <=? vga_cursor_x s then set_cursor 0 (vga_cursor_y s + 1) s else s in
  if VGA_HEIGHT <=? vga_cursor_y s then vga_scroll s else s.

(** ** The numbers of [vga_print_hex] and [vga_print_dec] as characters *)

(** [hex_chars[n]]. *)
Definition hex_char (n : Z) : Z := nth (Z.to_nat n) (str "0123456789ABCDEF") 0.

(** The sixteen digits [buffer[2..17]], filled from the last one backwards. *)
Definition hex_buffer (value : Z) : list Z :=
  fst (for_range 0 16
         (fun _ '(buf, value) => (hex_char (Z.land value 0xF) :: buf, Z.shiftr value 4))
         ([], value)).

(** [while (ptr[0] == '0' && ptr[1] != 0) ptr++]. *)
Fixpoint skip_zeros (ptr : list Z) : list Z :=
  match ptr with
  | c :: ((_ :: _) as rest) => if c =? 48 then skip_zeros rest else ptr
  | _ => ptr
  end.

(** The digits of a positive value: [buffer[i-1], ..., buffer[0]], in the order
    the second loop of [vga_print_dec] prints them. *)
Fixpoint dec_buffer (fuel : nat) (value : Z) (buf : list Z) : list Z :=
  match fuel with
  | O => buf
  | S fuel =>
      if 0 <? value then dec_buffer fuel (value / 10) (48 + value mod 10 :: buf) else buf
  end.

(** The buffer has 21 bytes; a positive [int64_t] has at most 19 digits. *)
Definition dec_fuel : nat := 21.

Section console.
  Context {D : Type} `{!PortBus D}.

Definition on_scr (f : vga -> vga) (k : con D) : con D := Con (f (scr k)) (bus k).

Definition vga_set_color (fg bg : Z) : con D -> con D := on_scr (set_color (vga_make_color fg bg)).

Definition vga_update_cursor (k : con D) : con D :=
  let pos := u16 (vga_cursor_y (scr k) * VGA_WIDTH + vga_cursor_x (scr k)) in
  let d := outb VGA_CTRL_PORT 0x0F (bus k) in
  let d := outb VGA_DATA_PORT (Z.land pos 0xFF) d in
  let d := outb VGA_CTRL_PORT 0x0E d in
  let d := outb VGA_DATA_PORT (Z.land (Z.shiftr pos 8) 0xFF) d in
  Con (scr k) d.

Definition vga_clear (k : con D) : con D :=
  let b := for_range 0 (VGA_WIDTH * VGA_HEIGHT)
             (fun i b => set_cell b i (vga_make_entry 32 VGA_BLACK)) (vga_buffer (scr k)) in
  vga_update_cursor (Con (Vga b 0 0 (vga_color (scr k))) (bus k)).

Definition vga_putchar (c : Z) : con D -> con D :=
  on_scr (putchar_screen c) >>> vga_update_cursor.

(** The bytes of the string, each passed as a [char]. *)
Fixpoint vga_print (s : list Z) (k : con D) : con D :=
  match s with
  | [] => k
  | b :: s => vga_print s (vga_putchar (i8 b) k)
  end.

Definition vga_println (s : list Z) : con D -> con D := vga_print s >>> vga_putchar 10.

Definition vga_print_hex (value : Z) : con D -> con D :=
  vga_print (str "0x") >>> vga_print (skip_zeros (hex_buffer value)).

(** [value] is an [int64_t].  Negating the least one overflows; the model keeps
    it, as the two's complement negation does. *)
Definition vga_print_dec (value : Z) (k : con D) : con D :=
  let k := if value <? 0 then vga_putchar 45 k else k in
  let value := if value <? 0 then i64 (- value) else value in
  if value =? 0 then vga_putchar 48 k
  else fold_left (fun k c => vga_putchar c k) (dec_buffer dec_fuel value []) k.

Definition vga_print_colored (s : list Z) (fg bg : Z) (k : con D) : con D :=
  let old_color := vga_color (scr k) in
  let k := on_scr (set_color (vga_make_color fg bg)) k in
  let k := vga_print s k in
  on_scr (set_color old_color) k.

End console.

(** ** Scrolling and clearing, against their specification *)

Lemma cell_set b i v j : cell (set_cell b i v) j = if decide (i = j) then u16 v else cell b j.
Proof.
  unfold cell, set_cell. rewrite mem_get_set. case_decide; [|done].
  apply u16_small, u16_range.
Qed.

Lemma cell_range b i : 0 <= cell b i < 2 ^ 16.
Proof. apply u16_range. Qed.

Lemma entry_u16 c col : u16 (vga_make_entry c col) = vga_make_entry c col.
Proof. apply u16_small, u16_range. Qed.

(** A loop that fills the cells [lo, hi) with one value. *)
Lemma fill_cells lo hi v b j :
  lo <= hi -> cell (for_range lo hi (fun i b => set_cell b i v) b) j =
  if decide (lo <= j < hi) then u16 v else cell b j.
Proof.
  intros Hle.
  set (P := fun (k : Z) b' => cell b' j = if decide (lo <= j < k) then u16 v else cell b j).
  apply (for_range_inv P); subst P; simpl; [done| |].
  - case_decide; [lia|done].
  - intros i b' Hi IH. rewrite cell_set, IH. repeat case_decide; lia || done.
Qed.

(** The copying loop of [vga_scroll]: the rows above have moved, the rest is untouched. *)
Lemma copy_cells n w b j :
  0 <= n -> 0 < w ->
  cell (for_range 0 n (fun i b => set_cell b i (cell b (i + w))) b) j =
  if decide (0 <= j < n) then cell b (j + w) else cell b j.
Proof.
  intros Hn Hw. revert j.
  set (P := fun (k : Z) b' => forall j, cell b' j =
    if decide (0 <= j < k) then cell b (j + w) else cell b j).
  apply (for_range_inv P); subst P; simpl; [done| |].
  - intros j. case_decide; [lia|done].
  - intros i b' Hi IH j. rewrite cell_set, !IH. repeat case_decide; subst; try lia; try done.
    apply u16_small, cell_range.
Qed.

Lemma vga_scroll_cells s i :
  cell (vga_buffer (vga_scroll s)) i =
    (if decide (0 <= i < 24 * 80) then cell (vga_buffer s) (i + 80)
     else if decide (24 * 80 <= i < 25 * 80) then vga_make_entry 32 (vga_color s)
     else cell (vga_buffer s) i) /\
  vga_cursor_x (vga_scroll s) = vga_cursor_x s /\ vga_cursor_y (vga_scroll s) = 24 /\
  vga_color (vga_scroll s) = vga_color s.
Proof.
  split; [|done]. unfold vga_scroll; simpl.
  rewrite fill_cells, copy_cells, entry_u16 by (unfold VGA_HEIGHT, VGA_WIDTH; lia).
  unfold VGA_HEIGHT, VGA_WIDTH. repeat case_decide; lia || done.
Qed.

(** The screen as 25 lines of 80 cells, and what scrolling means on it. *)
Definition row (s : vga) (y : Z) : list Z :=
  map (fun x => cell (vga_buffer s) (y * VGA_WIDTH + x)) (seqZ 0 VGA_WIDTH).
Definition rows (s : vga) : list (list Z) := map (row s) (seqZ 0 VGA_HEIGHT).

(** [vga_scroll], with its two copying loops, drops the first line of the
    screen, appends a line blank in the current colour and puts the cursor there. *)
Theorem vga_scroll_rows s :
  rows (vga_scroll s) =
    tl (rows s) ++ [replicate (Z.to_nat VGA_WIDTH) (vga_make_entry 32 (vga_color s))] /\
  vga_cursor_y (vga_scroll s) = VGA_HEIGHT - 1 /\ vga_cursor_x (vga_scroll s) = vga_cursor_x s.
Proof.
  split; [|done].
  change (rows (vga_scroll s)) with
    (map (row (vga_scroll s)) (seqZ 0 24) ++ [row (vga_scroll s) 24]).
  change (tl (rows s)) with (map (fun y => row s (y + 1)) (seqZ 0 24)).
  f_equal; [|f_equal].
  - apply map_ext_in. intros y Hy%list_elem_of_In%elem_of_seqZ.
    apply map_ext_in. intros x Hx%list_elem_of_In%elem_of_seqZ.
    destruct (vga_scroll_cells s (y * VGA_WIDTH + x)) as [-> _]. unfold VGA_WIDTH in *.
    case_decide; [f_equal; lia|lia].
  - change (replicate (Z.to_nat VGA_WIDTH) (vga_make_entry 32 (vga_color s)))
      with (map (fun _ => vga_make_entry 32 (vga_color s)) (seqZ 0 VGA_WIDTH)).
    apply map_ext_in. intros x Hx%list_elem_of_In%elem_of_seqZ.
    destruct (vga_scroll_cells s (24 * VGA_WIDTH + x)) as [-> _]. unfold VGA_WIDTH in *.
    case_decide; [lia|]. by case_decide; [|lia].
Qed.

(** ** The cursor stays on the screen *)

Definition on_screen (s : vga) : Prop :=
  0 <= vga_cursor_x s < VGA_WIDTH /\ 0 <= vga_cursor_y s < VGA_HEIGHT.

(** Cells outside the 80x25 of the screen. *)
Definition off_screen_same (s s' : vga) : Prop :=
  forall i, i < 0 \/ VGA_WIDTH * VGA_HEIGHT <= i -> cell (vga_buffer s') i = cell (vga_buffer s) i.

Lemma off_screen_refl s : off_screen_same s s.
Proof. done. Qed.

Lemma off_screen_trans s1 s2 s3 :
  off_screen_same s1 s2 -> off_screen_same s2 s3 -> off_screen_same s1 s3.
Proof. intros H1 H2 i Hi. rewrite H2, H1; done. Qed.

Lemma scroll_off_screen s : off_screen_same s (vga_scroll s).
Proof.
  intros i Hi. unfold VGA_WIDTH, VGA_HEIGHT in Hi.
  destruct (vga_scroll_cells s i) as [Hc _]. rewrite Hc.
  repeat case_decide; lia || done.
Qed.

Lemma putchar_at_same c x y col s :
  vga_cursor_x (vga_putchar_at c x y col s) = vga_cursor_x s /\
  vga_cursor_y (vga_putchar_at c x y col s) = vga_cursor_y s /\
  vga_color (vga_putchar_at c x y col s) = vga_color s /\
  off_screen_same s (vga_putchar_at c x y col s).
Proof.
  unfold vga_putchar_at. case_match eqn:E; [|done]. simpl. repeat split; try done.
  intros i Hi. simpl. rewrite cell_set. unfold VGA_WIDTH, VGA_HEIGHT in *.
  case_decide; [lia|done].
Qed.

(** One pass of the [switch]: the column may reach 80, the line 25. *)
Lemma switch_bounds c s :
  on_screen s ->
  0 <= vga_cursor_x (putchar_switch c s) <= VGA_WIDTH /\
  0 <= vga_cursor_y (putchar_switch c s) <= VGA_HEIGHT /\
  (vga_cursor_y (putchar_switch c s) = VGA_HEIGHT -> vga_cursor_x (putchar_switch c s) = 0) /\
  vga_color (putchar_switch c s) = vga_color s /\
  off_screen_same s (putchar_switch c s).
Proof.
  intros [Hx Hy]. unfold putchar_switch, VGA_WIDTH, VGA_HEIGHT in *.
  repeat case_match; simpl; repeat split; try lia; try apply off_screen_refl.
  all: try (change (Z.lnot 7) with (Z.lnot (2 ^ 3 - 1)); rewrite land_lnot_ones; dlia).
  all: match goal with |- context [vga_putchar_at ?c ?x ?y ?col ?s] =>
         destruct (putchar_at_same c x y col s) as (Ex & Ey & Ec & Eo) end;
       simpl in *; rewrite ?Ex, ?Ey, ?Ec; try lia; try done.
  all: eapply off_screen_trans; [|exact Eo]; done.
Qed.

Lemma putchar_screen_safe c s :
  on_screen s ->
  on_screen (putchar_screen c s) /\ vga_color (putchar_screen c s) = vga_color s /\
  off_screen_same s (putchar_screen c s).
Proof.
  intros Hs. unfold putchar_screen.
  destruct (Z.leb_spec VGA_HEIGHT (vga_cursor_y s)); [destruct Hs; lia|].
  destruct (switch_bounds c s Hs) as (Hx & Hy & Hxy & Hc & Ho).
  remember (putchar_switch c s) as s1 eqn:E1. clear E1.
  unfold on_screen, VGA_WIDTH, VGA_HEIGHT in *.
  clear H Hs. destruct (Z.leb_spec 80 (vga_cursor_x s1)); simpl.
  - destruct (Z.leb_spec 25 (vga_cursor_y s1 + 1)); simpl; repeat split; try lia; try done.
    eapply off_screen_trans; [exact Ho|]. apply (scroll_off_screen (set_cursor 0 (vga_cursor_y s1 + 1) s1)).
  - destruct (Z.leb_spec 25 (vga_cursor_y s1)); simpl; repeat split; try lia; try done.
    eapply off_screen_trans; [exact Ho|]. apply scroll_off_screen.
Qed.

(** C14: printing any string, control characters included, keeps the cursor on
    the screen and the colour as it was, and writes to no cell off the screen. *)
Theorem vga_print_safe {D} `{!PortBus D} text (k : con D) :
  on_screen (scr k) ->
  on_screen (scr (vga_print text k)) /\ vga_color (scr (vga_print text k)) = vga_color (scr k) /\
  off_screen_same (scr k) (scr (vga_print text k)).
Proof.
  revert k. induction text as [|b text IH]; intros k Hk; cbn [vga_print]; [done|].
  destruct (putchar_screen_safe (i8 b) (scr k) Hk) as (H1 & H2 & H3).
  destruct (IH (vga_putchar (i8 b) k) H1) as (H4 & H5 & H6).
  split; [done|]. split; [by rewrite H5|]. by eapply off_screen_trans.
Qed.

(** ** Text that fits on the line *)

(** Printable ASCII: the bytes the [default] branch writes to the screen. *)
Definition printable (b : Z) : Prop := 32 <= b < 127.

Lemma i8_ascii b : 0 <= b < 128 -> i8 b = b.
Proof.
  intros H. unfold i8, sint. change (2 ^ (8 - 1)) with 128. change (2 ^ 8) with 256.
  rewrite Z.mod_small by lia. destruct (Z.ltb_spec b 128); lia.
Qed.

Lemma putchar_screen_printable c s :
  on_screen s -> printable c -> vga_cursor_x s + 1 < VGA_WIDTH ->
  putchar_screen c s =
  Vga (set_cell (vga_buffer s) (vga_cursor_y s * VGA_WIDTH + vga_cursor_x s)
         (vga_make_entry c (vga_color s)))
      (vga_cursor_x s + 1) (vga_cursor_y s) (vga_color s).
Proof.
  intros [Hx Hy] Hc Hw. unfold printable, putchar_screen, putchar_switch, vga_putchar_at in *.
  destruct s as [b x y col]; simpl in *. unfold VGA_WIDTH, VGA_HEIGHT in *.
  repeat (case_match; simpl in *; try lia); done.
Qed.

(** a printable string that ends before the last column appears at the
    cursor in the current colour, and nothing else on the screen changes. *)
Theorem vga_print_line {D} `{!PortBus D} text (k : con D) i :
  on_screen (scr k) -> Forall printable text ->
  vga_cursor_x (scr k) + Z.of_nat (length text) < VGA_WIDTH ->
  let pos := vga_cursor_y (scr k) * VGA_WIDTH + vga_cursor_x (scr k) in
  let k' := vga_print text k in
  vga_cursor_x (scr k') = vga_cursor_x (scr k) + Z.of_nat (length text) /\
  vga_cursor_y (scr k') = vga_cursor_y (scr k) /\
  cell (vga_buffer (scr k')) i =
    if decide (pos <= i < pos + Z.of_nat (length text))
    then vga_make_entry (nth (Z.to_nat (i - pos)) text 0) (vga_color (scr k))
    else cell (vga_buffer (scr k)) i.
Proof.
  revert k. induction text as [|b text IH]; intros k Hk Hp Hw pos k'; subst pos k'; cbn [vga_print].
  { cbn [length]. rewrite Z.add_0_r. split; [done|]. split; [done|]. case_decide; [lia|done]. }
  apply Forall_cons in Hp as [Hb Hp]. cbn [length] in Hw.
  rewrite i8_ascii by (unfold printable in Hb; lia).
  pose proof (putchar_screen_printable b (scr k) Hk Hb ltac:(lia)) as Hs.
  destruct Hk as [Hx Hy].
  specialize (IH (vga_putchar b k)). cbn in IH. rewrite Hs in IH. cbn in IH.
  destruct IH as (H1 & H2 & H3).
  - unfold on_screen; simpl. lia.
  - done.
  - lia.
  - rewrite H1, H2, H3. cbn [length]. split; [lia|]. split; [done|].
    rewrite cell_set, entry_u16. simpl vga_color.
    set (p := vga_cursor_y (scr k) * VGA_WIDTH + vga_cursor_x (scr k)) in *.
    replace (vga_cursor_y (scr k) * VGA_WIDTH + (vga_cursor_x (scr k) + 1)) with (p + 1) by lia.
    repeat case_decide; try lia; try done.
    + by replace (Z.to_nat (i - p)) with (S (Z.to_nat (i - (p + 1)))) by lia.
    + by replace (Z.to_nat (i - p)) with O by lia.
Qed.

(** ** Numbers read back *)

Lemma vga_print_app {D} `{!PortBus D} a b (k : con D) :
  vga_print (a ++ b) k = vga_print b (vga_print a k).
Proof. revert k. induction a as [|c a IH]; intros k; [done|]. apply IH. Qed.

(** Printing characters one by one is printing the string of them. *)
Lemma fold_putchar {D} `{!PortBus D} text (k : con D) :
  Forall (fun b => 0 <= b < 128) text ->
  fold_left (fun k c => vga_putchar c k) text k = vga_print text k.
Proof.
  revert k. induction text as [|c text IH]; intros k Ht; [done|].
  apply Forall_cons in Ht as [Hc Ht]. simpl. rewrite IH by done. by rewrite i8_ascii.
Qed.

(** ** Devices the console leaves alone

    A property of the bus that writes to the two ports of the screen keep: every
    operation of the console keeps it. *)
Class OffScreen {D : Type} `{!PortBus D} (P : D -> Prop) :=
  off_screen_out : forall port v d, port = VGA_CTRL_PORT \/ port = VGA_DATA_PORT -> P d -> P (outb port v d).

Section off_screen.
  Context {D : Type} `{!PortBus D} (P : D -> Prop) `{!OffScreen P}.

Definition keeps (f : con D -> con D) : Prop := forall k, P (bus k) -> P (bus (f k)).

Lemma keeps_id : keeps id.
Proof. by intros k. Qed.

Lemma keeps_then f g : keeps f -> keeps g -> keeps (f >>> g).
Proof. intros Hf Hg k Hk. by apply Hg, Hf. Qed.

Lemma keeps_scr f : keeps (on_scr f).
Proof. by intros k. Qed.

Lemma keeps_update : keeps vga_update_cursor.
Proof. intros k Hk. unfold vga_update_cursor. cbv zeta. cbn [bus]. repeat (apply off_screen_out; [tauto|]). exact Hk. Qed.

Lemma keeps_putchar c : keeps (vga_putchar c).
Proof. apply keeps_then; [apply keeps_scr|apply keeps_update]. Qed.

Lemma keeps_print s : keeps (vga_print s).
Proof. induction s as [|c s IH]; intros k Hk; [done|]. by apply IH, keeps_putchar. Qed.

Lemma keeps_println s : keeps (vga_println s).
Proof. apply keeps_then; [apply keeps_print|apply keeps_putchar]. Qed.

Lemma keeps_colored s fg bg : keeps (vga_print_colored s fg bg).
Proof. intros k Hk. unfold vga_print_colored. cbv zeta. apply keeps_scr, keeps_print. exact Hk. Qed.

Lemma keeps_hex v : keeps (vga_print_hex v).
Proof. apply keeps_then; apply keeps_print. Qed.

Lemma keeps_dec v : keeps (vga_print_dec v).
Proof.
  assert (Hf : forall l, keeps (fold_left (fun k c => vga_putchar c k) l)).
  { induction l as [|c l IH]; intros k Hk; [done|]. by apply IH, keeps_putchar. }
  intros k Hk. unfold vga_print_dec. cbv zeta.
  destruct (v <? 0), (_ =? 0); repeat first [apply keeps_putchar | apply Hf]; exact Hk.
Qed.

Lemma keeps_clear : keeps vga_clear.
Proof. intros k Hk. unfold vga_clear. cbv zeta. by apply keeps_update. Qed.

Lemma keeps_set_color fg bg : keeps (vga_set_color fg bg).
Proof. apply keeps_scr. Qed.

Lemma keeps_for_up n lo f : (forall i, keeps (f i)) -> keeps (for_up n lo f).
Proof. intros Hf. revert lo. induction n as [|n IH]; intros lo k Hk; [done|]. by apply IH, Hf. Qed.

Lemma keeps_for_range lo hi f : (forall i, keeps (f i)) -> keeps (for_range lo hi f).
Proof. apply keeps_for_up. Qed.

Lemma keeps_fold {X} (f : X -> con D -> con D) l : (forall x, keeps (f x)) -> keeps (fun k => fold_left (fun k x => f x k) l k).
Proof. intros Hf. induction l as [|x l IH]; intros k Hk; [done|]. by apply IH, Hf. Qed.

End off_screen.

Create HintDb keeps.
#[export] Hint Resolve keeps_id keeps_then keeps_scr keeps_update keeps_putchar keeps_print keeps_println
  keeps_colored keeps_hex keeps_dec keeps_clear keeps_set_color keeps_for_range : keeps.

(** ** What is shown does not depend on the devices *)
Section blind.
  Context {D : Type} `{!PortBus D}.

Definition blind (f : con D -> con D) : Prop := forall k k', scr k = scr k' -> scr (f k) = scr (f k').

Lemma blind_id : blind id.
Proof. by intros k k'. Qed.

Lemma blind_then f g : blind f -> blind g -> blind (f >>> g).
Proof. intros Hf Hg k k' Hk. by apply Hg, Hf. Qed.

Lemma blind_scr f : blind (on_scr f).
Proof. intros k k' Hk. cbn [on_scr scr]. by rewrite Hk. Qed.

Lemma blind_update : blind vga_update_cursor.
Proof. by intros k k'. Qed.

Lemma blind_set_color fg bg : blind (vga_set_color fg bg).
Proof. apply blind_scr. Qed.

Lemma blind_putchar c : blind (vga_putchar c).
Proof. apply blind_then; [apply blind_scr|apply blind_update]. Qed.

Lemma blind_print s : blind (vga_print s).
Proof. induction s as [|c s IH]; intros k k' Hk; [done|]. by apply IH, blind_putchar. Qed.

Lemma blind_println s : blind (vga_println s).
Proof. apply blind_then; [apply blind_print|apply blind_putchar]. Qed.

Lemma blind_colored s fg bg : blind (vga_print_colored s fg bg).
Proof.
  intros k k' Hk. unfold vga_print_colored. cbv zeta. rewrite Hk. apply blind_scr, blind_print, blind_scr. exact Hk.
Qed.

Lemma blind_hex v : blind (vga_print_hex v).
Proof. apply blind_then; apply blind_print. Qed.

Lemma blind_for_range lo hi f : (forall i, blind (f i)) -> blind (for_range lo hi f).
Proof.
  intros Hf. unfold for_range. generalize (Z.to_nat (hi - lo)) as n. intros n. revert lo.
  induction n as [|n IH]; intros lo k k' Hk; [done|]. by apply IH, Hf.
Qed.

Lemma blind_fold {X} (f : X -> con D -> con D) l : (forall x, blind (f x)) -> blind (fun k => fold_left (fun k x => f x k) l k).
Proof. intros Hf. induction l as [|x l IH]; intros k k' Hk; [done|]. by apply IH, Hf. Qed.

Lemma blind_dec v : blind (vga_print_dec v).
Proof.
  intros k k' Hk. unfold vga_print_dec. cbv zeta.
  assert (Hs : scr (if v <? 0 then vga_putchar 45 k else k) = scr (if v <? 0 then vga_putchar 45 k' else k'))
    by (destruct (v <? 0); [by apply blind_putchar|done]).
  destruct (_ =? 0); [by apply blind_putchar|]. by apply (blind_fold (fun c => vga_putchar c)); [apply blind_putchar|].
Qed.

Lemma blind_clear : blind vga_clear.
Proof. intros k k' Hk. unfold vga_clear. cbv zeta. rewrite Hk. by apply blind_update. Qed.

End blind.

#[export] Hint Resolve blind_id blind_then blind_scr blind_update blind_set_color blind_putchar blind_print blind_println
  blind_colored blind_hex blind_for_range blind_dec blind_clear : keeps.

(** The value of a string of decimal digits, most significant first. *)
Definition dec_read (acc : Z) (digits : list Z) : Z :=
  fold_left (fun a c => 10 * a + (c - 48)) digits acc.

(** The integer a decimal text denotes, with its optional minus sign. *)
Definition dec_parse (text : list Z) : Z :=
  match text with
  | c :: digits => if c =? 45 then - dec_read 0 digits else dec_read 0 text
  | [] => 0
  end.

Definition dec_digit (c : Z) : Prop := 48 <= c < 58.

Lemma dec_buffer_read fuel v buf :
  0 <= v < 10 ^ Z.of_nat fuel -> dec_read 0 (dec_buffer fuel v buf) = dec_read v buf.
Proof.
  revert v buf. induction fuel as [|fuel IH]; intros v buf Hv; cbn [dec_buffer].
  - by replace v with 0 by (change (10 ^ Z.of_nat 0) with 1 in Hv; lia).
  - destruct (Z.ltb_spec 0 v); [|by replace v with 0 by lia].
    replace (Z.of_nat (S fuel)) with (Z.of_nat fuel + 1) in Hv by lia.
    rewrite Z.pow_add_r in Hv by lia.
    rewrite IH by (generalize dependent (10 ^ Z.of_nat fuel); intros; dlia).
    unfold dec_read at 1. simpl. change (fold_left _ buf ?a) with (dec_read a buf).
    f_equal. dlia.
Qed.

Lemma dec_buffer_digits fuel v buf :
  Forall dec_digit buf -> 0 <= v -> Forall dec_digit (dec_buffer fuel v buf).
Proof.
  revert v buf. induction fuel as [|fuel IH]; intros v buf Hb Hv; cbn [dec_buffer]; [done|].
  destruct (0 <? v); [|done]. apply IH; [|dlia].
  apply Forall_cons. split; [|done]. unfold dec_digit. dlia.
Qed.

Lemma dec_buffer_length fuel v buf n :
  0 <= v < 10 ^ Z.of_nat n -> (length (dec_buffer fuel v buf) <= n + length buf)%nat.
Proof.
  revert v buf n. induction fuel as [|fuel IH]; intros v buf n Hv; cbn [dec_buffer]; [lia|].
  destruct (Z.ltb_spec 0 v); [|lia].
  destruct n as [|n]; [change (10 ^ Z.of_nat 0) with 1 in Hv; lia|].
  replace (Z.of_nat (S n)) with (Z.of_nat n + 1) in Hv by lia.
  rewrite Z.pow_add_r in Hv by lia.
  specialize (IH (v / 10) (48 + v mod 10 :: buf) n). cbn [length] in IH.
  assert (0 <= v / 10 < 10 ^ Z.of_nat n)
    by (generalize dependent (10 ^ Z.of_nat n); intros; dlia).
  specialize (IH ltac:(done)). lia.
Qed.

(** The first digit printed is not zero. *)
Lemma dec_buffer_head fuel v buf :
  0 < v < 10 ^ Z.of_nat fuel -> exists c l, dec_buffer fuel v buf = c :: l /\ 48 < c.
Proof.
  revert v buf. induction fuel as [|fuel IH]; intros v buf Hv; cbn [dec_buffer].
  - change (10 ^ Z.of_nat 0) with 1 in Hv. lia.
  - destruct (Z.ltb_spec 0 v); [|lia].
    replace (Z.of_nat (S fuel)) with (Z.of_nat fuel + 1) in Hv by lia.
    rewrite Z.pow_add_r in Hv by lia.
    destruct (decide (v / 10 = 0)) as [E|E].
    + assert (v < 10) by dlia. rewrite E, Z.mod_small by lia.
      destruct fuel; simpl; eexists _, _; (split; [done|lia]).
    + apply IH. generalize dependent (10 ^ Z.of_nat fuel). intros; dlia.
Qed.

(** [vga_print_dec] prints a text of at most 20 characters without leading
    zeros that reads back as the number, for every [int64_t] but the least. *)
Theorem vga_print_dec_roundtrip {D} `{!PortBus D} v (k : con D) :
  - 2 ^ 63 < v < 2 ^ 63 ->
  exists text,
    vga_print_dec v k = vga_print text k /\
    dec_parse text = v /\ (length text <= 20)%nat /\
    (v <> 0 -> nth (if v <? 0 then 1 else 0) text 0 <> 48).
Proof.
  intros Hv. unfold vga_print_dec.
  set (a := if v <? 0 then i64 (- v) else v).
  assert (Ha : a = Z.abs v).
  { subst a. destruct (Z.ltb_spec v 0); [|lia]. unfold i64, sint.
    change (2 ^ (64 - 1)) with (2 ^ 63). rewrite Z.mod_small by lia.
    destruct (Z.ltb_spec (- v) (2 ^ 63)); lia. }
  clearbody a. destruct (Z.eqb_spec a 0) as [->|Hne].
  - exists [48]. assert (v = 0) as -> by lia. simpl. repeat split; try done. lia.
  - assert (Hd : Forall dec_digit (dec_buffer dec_fuel a []))
      by (apply dec_buffer_digits; [constructor|lia]).
    assert (Hr : dec_read 0 (dec_buffer dec_fuel a []) = a)
      by (apply dec_buffer_read; unfold dec_fuel; lia).
    assert (Hl : (length (dec_buffer dec_fuel a []) <= 19)%nat)
      by (apply (dec_buffer_length dec_fuel a [] 19); change (Z.of_nat 19) with 19; lia).
    destruct (dec_buffer_head dec_fuel a []) as (c & l & E & Hc); [unfold dec_fuel; lia|].
    rewrite fold_putchar
      by (eapply Forall_impl; [exact Hd|]; unfold dec_digit; intros; lia).
    rewrite E in *. apply Forall_cons in Hd as [Hcd _]. unfold dec_digit in Hcd.
    destruct (Z.ltb_spec v 0).
    + exists (45 :: c :: l). split; [done|]. cbn [dec_parse nth length] in *.
      rewrite Z.eqb_refl, Hr. repeat split; lia.
    + exists (c :: l). split; [done|]. cbn [dec_parse nth length] in *.
      destruct (Z.eqb_spec c 45); [lia|]. rewrite Hr. repeat split; lia.
Qed.

(** The value of a hexadecimal text in the digits of [hex_chars]. *)
Definition hex_read (acc : Z) (digits : list Z) : Z :=
  fold_left (fun a c => 16 * a + (if c <? 58 then c - 48 else c - 55)) digits acc.

Lemma hex_char_read n : 0 <= n < 16 -> (if hex_char n <? 58 then hex_char n - 48 else hex_char n - 55) = n.
Proof.
  intros Hn. assert (In n (seqZ 0 16)) as Hi
    by (apply list_elem_of_In, elem_of_seqZ; lia).
  cbv in Hi. repeat (destruct Hi as [<-|Hi]; [reflexivity|]). done.
Qed.

Lemma hex_buffer_read v :
  0 <= v < 2 ^ 64 -> length (hex_buffer v) = 16%nat /\ hex_read 0 (hex_buffer v) = v.
Proof.
  intros Hv. unfold hex_buffer.
  set (body := fun (_ : Z) '(buf, value) =>
    (hex_char (Z.land value 0xF) :: buf, Z.shiftr value 4)).
  set (P := fun (k : Z) (st : list Z * Z) =>
    Z.of_nat (length st.1) = k /\ hex_read st.2 st.1 = v /\ 0 <= st.2 < 2 ^ (64 - 4 * k)).
  assert (HP : P 16 (for_range 0 16 body ([], v))).
  { apply (for_range_inv P); subst P; simpl; [lia|done|].
    intros k [buf w] Hk (Hl & Hr & Hw). simpl in *.
    change 0xF with (2 ^ 4 - 1). rewrite land_ones_mod, Z.shiftr_div_pow2 by lia.
    change (2 ^ 4) with 16. split; [lia|]. split.
    - unfold hex_read. simpl. rewrite hex_char_read by dlia.
      change (fold_left _ buf ?a) with (hex_read a buf). rewrite <- Hr. f_equal. dlia.
    - replace (64 - 4 * k) with (64 - 4 * (k + 1) + 4) in Hw by lia.
      rewrite Z.pow_add_r in Hw by lia. change (2 ^ 4) with 16 in Hw.
      generalize dependent (2 ^ (64 - 4 * (k + 1))). intros. dlia. }
  destruct (for_range 0 16 body ([], v)) as [buf w]. destruct HP as (Hl & Hr & Hw).
  simpl in *. replace w with 0 in Hr by lia. split; [lia|done].
Qed.

Lemma skip_zeros_read l :
  l <> [] ->
  hex_read 0 (skip_zeros l) = hex_read 0 l /\ (length (skip_zeros l) <= length l)%nat /\
  exists c rest, skip_zeros l = c :: rest /\ (rest <> [] -> c <> 48).
Proof.
  induction l as [|c [|c' l] IH]; intros Hl; [done| |].
  - simpl. repeat split; [lia|]. by exists c, [].
  - change (skip_zeros (c :: c' :: l)) with (if c =? 48 then skip_zeros (c' :: l) else c :: c' :: l).
    destruct (Z.eqb_spec c 48) as [->|Hc].
    + destruct (IH ltac:(done)) as (Hr & Hn & He). split; [by rewrite Hr|].
      split; [simpl in *; lia|done].
    + split; [done|]. split; [lia|]. by exists c, (c' :: l).
Qed.

(** [vga_print_hex] prints [0x] and then at most 16 digits that read back as
    the number, with no leading zero unless the number is a single digit. *)
Theorem vga_print_hex_roundtrip {D} `{!PortBus D} v (k : con D) :
  0 <= v < 2 ^ 64 ->
  exists c digits,
    vga_print_hex v k = vga_print (str "0x" ++ c :: digits) k /\
    hex_read 0 (c :: digits) = v /\ (length digits < 16)%nat /\ (digits <> [] -> c <> 48).
Proof.
  intros Hv. destruct (hex_buffer_read v Hv) as [Hl Hr].
  destruct (skip_zeros_read (hex_buffer v)) as (Hr' & Hl' & c & rest & E & Hc);
    [by destruct (hex_buffer v)|].
  exists c, rest. rewrite E in *. unfold vga_print_hex, and_then.
  rewrite E, vga_print_app. cbn [length] in Hl'. repeat split; [congruence|lia|done].
Qed.

(** ** What the console drops *)

(** Bytes that print nothing: the default branch ignores control characters
    and, since [char] is signed, every byte from 0x80 on. *)
Definition invisible (b : Z) : Prop :=
  (0 <= b < 32 /\ b <> 8 /\ b <> 9 /\ b <> 10 /\ b <> 13) \/ 128 <= b < 256.

#[export] Instance invisible_dec b : Decision (invisible b).
Proof. unfold invisible. apply _. Defined.

Lemma i8_negative b : 128 <= b < 256 -> i8 b = b - 256.
Proof.
  intros H. unfold i8, sint. change (2 ^ (8 - 1)) with 128. change (2 ^ 8) with 256.
  rewrite Z.mod_small by lia. destruct (Z.ltb_spec b 128); lia.
Qed.

Lemma putchar_screen_invisible b s :
  on_screen s -> invisible b -> putchar_screen (i8 b) s = s.
Proof.
  intros [Hx Hy] Hb.
  assert (Hi : i8 b < 32 /\ i8 b <> 8 /\ i8 b <> 9 /\ i8 b <> 10 /\ i8 b <> 13).
  { destruct Hb as [Hb|Hb]; [rewrite i8_ascii|rewrite i8_negative]; lia. }
  unfold putchar_screen, putchar_switch, VGA_WIDTH, VGA_HEIGHT in *.
  repeat (case_match; try lia); done.
Qed.

(** On screen, printing a text is printing its visible part: the bytes of
    the UTF-8 encoding of an umlaut, among others, leave no trace. *)
Theorem vga_print_visible {D} `{!PortBus D} text (k : con D) :
  on_screen (scr k) ->
  scr (vga_print text k) = scr (vga_print (filter (fun b => ~ invisible b) text) k).
Proof.
  enough (H : forall k1 k2 : con D, scr k1 = scr k2 -> on_screen (scr k1) ->
    scr (vga_print text k1) = scr (vga_print (filter (fun b => ~ invisible b) text) k2))
    by (intros Hk; by apply H).
  induction text as [|b text IH]; intros k1 k2 E Hk; [done|]. rewrite filter_cons.
  case_decide as Hb; cbn [vga_print].
  - apply IH; [by simpl; rewrite E|]. by apply putchar_screen_safe.
  - apply IH; simpl; by rewrite putchar_screen_invisible.
Qed.

(** ** The hardware cursor *)

(** The documented behaviour of the CRT controller on the writes of
    [vga_update_cursor]: the index port selects the register that the next
    write to the data port sets. *)
Class Crtc (D : Type) `{!PortBus D} := {
  crtc_index : D -> Z;
  crtc_reg : D -> Z -> Z;
  law_index i d : 0 <= i < 2 ^ 8 ->
    crtc_index (port_out 8 VGA_CTRL_PORT i d) = i /\
    forall r, crtc_reg (port_out 8 VGA_CTRL_PORT i d) r = crtc_reg d r;
  law_data v d : 0 <= v < 2 ^ 8 ->
    crtc_index (port_out 8 VGA_DATA_PORT v d) = crtc_index d /\
    forall r, crtc_reg (port_out 8 VGA_DATA_PORT v d) r =
              if decide (r = crtc_index d) then v else crtc_reg d r
}.

(** The cell the hardware cursor is on: registers 0x0E (high) and 0x0F (low). *)
Definition hw_cursor {D} `{Crtc D} (d : D) : Z := 256 * crtc_reg d 0x0E + crtc_reg d 0x0F.

Lemma update_cursor_hw {D} `{Crtc D} (k : con D) :
  on_screen (scr k) ->
  hw_cursor (bus (vga_update_cursor k)) = vga_cursor_y (scr k) * VGA_WIDTH + vga_cursor_x (scr k).
Proof.
  intros [Hx Hy]. unfold hw_cursor, vga_update_cursor, VGA_WIDTH, VGA_HEIGHT in *. simpl.
  set (pos := vga_cursor_y (scr k) * 80 + vga_cursor_x (scr k)) in *.
  assert (0 <= pos < 2000) by lia. rewrite (u16_small pos) by lia.
  change 0xFF with (2 ^ 8 - 1). rewrite !land_ones_mod, Z.shiftr_div_pow2 by lia.
  unfold outb. change (u16 VGA_CTRL_PORT) with VGA_CTRL_PORT.
  change (u16 VGA_DATA_PORT) with VGA_DATA_PORT.
  rewrite (u8_small 14), (u8_small 15), !u8_small by dlia.
  repeat match goal with
  | |- context [crtc_reg (port_out 8 VGA_DATA_PORT ?v ?d) ?r] =>
      destruct (law_data v d) as [_ ->]; [dlia|]
  | |- context [crtc_index (port_out 8 VGA_CTRL_PORT ?v ?d)] =>
      destruct (law_index v d) as [-> _]; [lia|]
  | |- context [crtc_reg (port_out 8 VGA_CTRL_PORT ?v ?d) ?r] =>
      destruct (law_index v d) as [_ ->]; [lia|]
  end. simpl. dlia.
Qed.

(** After any character the hardware cursor is on the cell the next
    character goes to. *)
Theorem vga_putchar_cursor {D} `{Crtc D} c (k : con D) :
  on_screen (scr k) ->
  hw_cursor (bus (vga_putchar c k)) =
  vga_cursor_y (scr (vga_putchar c k)) * VGA_WIDTH + vga_cursor_x (scr (vga_putchar c k)).
Proof.
  intros Hk. unfold vga_putchar, and_then. rewrite update_cursor_hw; [done|].
  by apply putchar_screen_safe.
Qed.

(** ** Witnesses *)

(** A bus with only a CRT controller on it. *)
Record crtc_bus := CrtcBus { cb_index : Z; cb_reg : Z -> Z }.

#[export] Instance crtc_port_bus : PortBus crtc_bus := {
  port_in _ _ d := (0, d);
  port_out _ port v d :=
    if port =? VGA_CTRL_PORT then CrtcBus v (cb_reg d)
    else if port =? VGA_DATA_PORT
    then CrtcBus (cb_index d) (fun r => if decide (r = cb_index d) then v else cb_reg d r)
    else d
}.

#[export, refine] Instance crtc_crtc : Crtc crtc_bus := { crtc_index := cb_index; crtc_reg := cb_reg }.
Proof. all: done. Defined.

(** The console at boot, the screen full of some characters. *)
Definition boot_con : con crtc_bus :=
  Con (vga_boot (Mem (fun i => 0x0741 + i) ∅)) (CrtcBus 0 (fun _ => 0)).

Lemma boot_con_on_screen : on_screen (scr boot_con).
Proof. split; unfold VGA_WIDTH, VGA_HEIGHT; simpl; lia. Qed.

Lemma vga_print_safe_witness :
  let k' := vga_print (str "tab" ++ [9; 10; 8; 13; 200]) boot_con in
  on_screen (scr k') /\ vga_color (scr k') = 0x0F /\ off_screen_same (scr boot_con) (scr k').
Proof. apply (vga_print_safe _ boot_con), boot_con_on_screen. Defined.

Lemma vga_print_line_witness :
  vga_cursor_x (scr (vga_print (str "KiOS") boot_con)) = 4 /\
  vga_cursor_y (scr (vga_print (str "KiOS") boot_con)) = 0 /\
  cell (vga_buffer (scr (vga_print (str "KiOS") boot_con))) 2 = vga_make_entry 79 0x0F.
Proof.
  refine (vga_print_line (str "KiOS") boot_con 2 boot_con_on_screen _ _).
  - repeat constructor; cbv; discriminate.
  - vm_compute. reflexivity.
Defined.

Lemma vga_print_dec_roundtrip_witness :
  (exists text, vga_print_dec (-1234) boot_con = vga_print text boot_con /\
     dec_parse text = -1234 /\ (length text <= 20)%nat /\
     (-1234 <> 0 -> nth 1 text 0 <> 48)) /\
  dec_buffer dec_fuel 1234 [] = str "1234".
Proof. split; [apply (vga_print_dec_roundtrip (-1234) boot_con); lia|reflexivity]. Defined.

Lemma vga_print_hex_roundtrip_witness :
  (exists c digits, vga_print_hex 0xB8000 boot_con = vga_print (str "0x" ++ c :: digits) boot_con /\
     hex_read 0 (c :: digits) = 0xB8000 /\ (length digits < 16)%nat /\ (digits <> [] -> c <> 48)) /\
  skip_zeros (hex_buffer 0xB8000) = str "B8000".
Proof. split; [apply (vga_print_hex_roundtrip 0xB8000 boot_con); lia|reflexivity]. Defined.

Lemma vga_print_visible_witness :
  scr (vga_print (str "Ungültiger") boot_con) = scr (vga_print (str "Ungltiger") boot_con).
Proof.
  change (str "Ungltiger") with (filter (fun b => ~ invisible b) (str "Ungültiger")).
  apply (vga_print_visible (str "Ungültiger") boot_con), boot_con_on_screen.
Defined.

Lemma vga_putchar_cursor_witness :
  hw_cursor (bus (vga_putchar 10 boot_con)) = 80.
Proof. rewrite (vga_putchar_cursor 10 boot_con boot_con_on_screen). reflexivity. Defined.

End Vga.
