(* ===== verification/Frames.v ===== *)
(** * The interface between the physical and the virtual memory manager

    What [vmm.c] and [heap.c] need of [pmm_alloc_page]: a source of page frames
    that are aligned, not in use by anybody and not part of the allocator's own
    data.  [Pmm.v] gives the instance; [Vmm.v] and [Heap.v] are proved for any. *)

From S2P Require Import Prelude.
Local Open Scope Z_scope.

(** The addresses of the frame at [f]. *)
Definition in_frame (f x : Z) : Prop := f <= x < f + 4096.

Class FrameAllocator (A : Type) := {
  (** The operation, on the allocator's variables and the memory. *)
  fa_alloc : A * mem -> Z * (A * mem);
  (** Consistency, the free frames, their number, the bytes of the allocator's
      own data, and the frames it was given to manage. *)
  fa_inv : A * mem -> Prop;
  fa_is_free : A * mem -> Z -> Prop;
  fa_count : A * mem -> Z;
  fa_foot : A -> Z -> Prop;
  fa_managed : A -> Z -> Prop;

  fa_alloc_none st : fa_inv st -> fa_count st <= 0 -> fa_alloc st = (0, st);
  fa_alloc_some st : fa_inv st -> 0 < fa_count st ->
    let '(f, st') := fa_alloc st in
    fa_is_free st f /\ fa_inv st' /\ fa_count st' = fa_count st - 1 /\
    (forall g, fa_is_free st' g <-> fa_is_free st g /\ g <> f) /\
    (forall x, fa_foot (fst st') x <-> fa_foot (fst st) x) /\
    agree_on (fun x => ~ fa_foot (fst st) x) (snd st) (snd st') /\
    (forall g, fa_managed (fst st') g <-> fa_managed (fst st) g);
  fa_free_managed st f : fa_inv st -> fa_is_free st f -> fa_managed (fst st) f;
  fa_free_addr st f : fa_inv st -> fa_is_free st f ->
    f mod 4096 = 0 /\ 0 < f /\ f + 4096 <= 2 ^ 52;
  fa_free_foot st f x : fa_inv st -> fa_is_free st f -> in_frame f x -> ~ fa_foot (fst st) x;
  fa_stable a m m' : fa_inv (a, m) -> agree_on (fa_foot a) m m' ->
    fa_inv (a, m') /\ (forall f, fa_is_free (a, m') f <-> fa_is_free (a, m) f) /\
    fa_count (a, m') = fa_count (a, m)
}.

(** ** Returning frames and statistics

    What the commands of the shell need besides: [pmm_free_page] and the two
    counters. *)
Class PageManager (A : Type) `{!FrameAllocator A} := {
  pm_free_page : Z -> A * mem -> A * mem;
  pm_total_pages : A * mem -> Z;
  pm_used_pages : A * mem -> Z;

  pm_free_law f st : fa_inv st -> fa_managed (fst st) f -> f mod 4096 = 0 -> 0 < f -> ~ fa_is_free st f ->
    (forall x, in_frame f x -> ~ fa_foot (fst st) x) ->
    let st' := pm_free_page f st in
    fa_inv st' /\ fa_count st' = fa_count st + 1 /\
    (forall g, fa_is_free st' g <-> fa_is_free st g \/ g = f) /\
    (forall x, fa_foot (fst st') x <-> fa_foot (fst st) x) /\
    (forall g, fa_managed (fst st') g <-> fa_managed (fst st) g) /\
    agree_on (fun x => ~ fa_foot (fst st) x) (snd st) (snd st')
}.

(** ** A minimal instance

    Frames [next] to [limit - 1], handed out in order, the state kept outside
    memory.  The theorems about [FrameAllocator] are evaluated with it. *)
Module BumpFrames.

Record bump := Bump { next : Z; limit : Z }.

Definition bump_alloc (st : bump * mem) : Z * (bump * mem) :=
  let '(b, m) := st in
  if next b <? limit b then (4096 * next b, (Bump (next b + 1) (limit b), m)) else (0, st).

#[export, refine] Instance bump_frames : FrameAllocator bump := {
  fa_alloc := bump_alloc;
  fa_inv st := 1 <= next (fst st) /\ limit (fst st) <= 2 ^ 40;
  fa_is_free st f := f mod 4096 = 0 /\ next (fst st) <= f / 4096 < limit (fst st);
  fa_count st := limit (fst st) - next (fst st);
  fa_foot _ _ := False;
  fa_managed _ _ := True
}.
Proof.
  - intros [[n l] m] _ H. simpl in *. by destruct (Z.ltb_spec n l); [lia|].
  - intros [[n l] m] [H1 H2] H. simpl in *. destruct (Z.ltb_spec n l); [|lia]. simpl.
    split; [dlia|]. split; [lia|]. split; [lia|]. split; [|done].
    intros g. split; [intros [Hg1 Hg2]; split; [lia|dlia]|]. intros [[Hg1 Hg2] Hg3]. dlia.
  - done.
  - intros [[n l] m] f [H1 H2] [H3 H4]. simpl in *.
    change (2 ^ 40) with 1099511627776 in H2. dlia.
  - intros. intros [].
  - intros a m m' H _. split; [exact H|]. by split.
Defined.

End BumpFrames.
