(* ===== verification/Pmm.v ===== *)
(** * The physical memory manager ([mm/memory_map.h], [mm/pmm.h], [mm/pmm.c])

    The BIOS memory map and the page bitmap are read and written in the
    byte-addressed memory, at the addresses the code uses.  The state is the
    three static variables of [pmm.c]. *)

From S2P Require Import Prelude Frames.
Local Open Scope Z_scope.

Module Pmm.

Definition PAGE_SIZE : Z := 4096.
Definition MEMORY_MAP_BASE : Z := 0x10000.

(** [memory_map_entry_t]: packed, 24 bytes. *)
Record memory_map_entry := MapEntry { base : Z; length_ : Z; type_ : Z; reserved : Z }.
Definition entry_size : Z := 24.

Definition memory_map_entry_count (m : mem) : Z := ld16 m MEMORY_MAP_BASE.
Definition memory_map_entries : Z := MEMORY_MAP_BASE + 2.

(** [entries[i]], as four loads. *)
Definition entry_at (m : mem) (i : Z) : memory_map_entry :=
  let a := memory_map_entries + entry_size * i in
  MapEntry (ld64 m a) (ld64 m (a + 8)) (ld32 m (a + 16)) (ld32 m (a + 20)).

#[global] Arguments entry_at : simpl never.

(** The static variables. *)
Record pmm := Pmm { bitmap : Z; total_pages : Z; used_pages : Z }.

Definition set_used (u : Z) (s : pmm) : pmm := Pmm (bitmap s) (total_pages s) u.

(** [uint8_t bit = 1 << (idx % 8)] and the test [bitmap[idx / 8] & bit]. *)
Definition page_bit (idx : Z) : Z := u8 (Z.shiftl 1 (idx mod 8)).
Definition bit_is_set (m : mem) (bm idx : Z) : bool :=
  negb (Z.land (rd m (bm + idx / 8)) (page_bit idx) =? 0).

(** The block that frees a page if it is marked ([pmm_init], [pmm_free_page]). *)
Definition unmark_page (idx : Z) (st : pmm * mem) : pmm * mem :=
  let '(s, m) := st in
  if bit_is_set m (bitmap s) idx then
    (set_used (u64 (used_pages s - 1)) s,
     wr m (bitmap s + idx / 8) (Z.land (rd m (bitmap s + idx / 8)) (Z.lnot (page_bit idx))))
  else (s, m).

(** The block that reserves a page if it is free ([pmm_init], [pmm_alloc_page]). *)
Definition mark_page (idx : Z) (st : pmm * mem) : pmm * mem :=
  let '(s, m) := st in
  if bit_is_set m (bitmap s) idx then (s, m)
  else
    (set_used (u64 (used_pages s + 1)) s,
     wr m (bitmap s + idx / 8) (Z.lor (rd m (bitmap s + idx / 8)) (page_bit idx))).

(** The loop that determines the end of the physical address range. *)
Definition max_address (m : mem) : Z :=
  for_range 0 (memory_map_entry_count m)
    (fun i max_addr =>
       let e := entry_at m i in
       let end_ := u64 (base e + length_ e) in
       if max_addr <? end_ then end_ else max_addr) 0.

(** The loop over the usable entries. *)
Definition free_entry (i : Z) (st : pmm * mem) : pmm * mem :=
  let e := entry_at (snd st) i in
  if type_ e =? 1 then
    let start := base e / PAGE_SIZE in
    let pages := length_ e / PAGE_SIZE in
    for_range 0 pages (fun p st => unmark_page (u64 (start + p)) st) st
  else st.

(** [pmm_init], given the linker symbols [__kernel_start] and [__kernel_end]. *)
Definition pmm_init (kstart kend : Z) (m : mem) : pmm * mem :=
  let count := memory_map_entry_count m in
  let total := max_address m / PAGE_SIZE in
  let bitmap_size := (total + 7) / 8 in
  let bm := Z.land (u64 (kend + PAGE_SIZE - 1)) (u64 (Z.lnot (PAGE_SIZE - 1))) in
  let m := for_range 0 bitmap_size (fun i m => wr m (bm + i) 0xFF) m in
  let st := (Pmm bm total total, m) in
  let st := for_range 0 count free_entry st in
  let st := for_range 0 (0x100000 / PAGE_SIZE) mark_page st in
  let kernel_end := u64 (bm + bitmap_size) in
  let start_page := kstart / PAGE_SIZE in
  let end_page := u64 (kernel_end + PAGE_SIZE - 1) / PAGE_SIZE in
  for_range start_page end_page mark_page st.

(** The scan of [pmm_alloc_page]: the first index from [i] whose bit is clear. *)
Fixpoint find_free (n : nat) (i : Z) (m : mem) (bm : Z) : option Z :=
  match n with
  | O => None
  | S n => if bit_is_set m bm i then find_free n (i + 1) m bm else Some i
  end.

(** [pmm_alloc_page]: the address of the page, 0 when none is free. *)
Definition pmm_alloc_page (st : pmm * mem) : Z * (pmm * mem) :=
  let '(s, m) := st in
  match find_free (Z.to_nat (total_pages s)) 0 m (bitmap s) with
  | Some i => (u64 (i * PAGE_SIZE), mark_page i st)
  | None => (0, st)
  end.

Definition pmm_free_page (phys : Z) (st : pmm * mem) : pmm * mem :=
  unmark_page (phys / PAGE_SIZE) st.

Definition pmm_total_pages (st : pmm * mem) : Z := total_pages (fst st).
Definition pmm_used_pages (st : pmm * mem) : Z := used_pages (fst st).

(** ** The bitmap as a set of pages *)

(** Page [idx] is marked: bit [idx mod 8] of byte [idx / 8]. *)
Definition used (st : pmm * mem) (idx : Z) : bool :=
  Z.testbit (rd (snd st) (bitmap (fst st) + idx / 8)) (idx mod 8).

Lemma page_bit_shift idx : page_bit idx = Z.shiftl 1 (idx mod 8).
Proof.
  unfold page_bit. apply u8_small. rewrite Z.shiftl_1_l. split; [lia|].
  apply Z.pow_lt_mono_r; dlia.
Qed.

Lemma bit_is_set_used s m idx : bit_is_set m (bitmap s) idx = used (s, m) idx.
Proof.
  unfold bit_is_set, used; simpl. rewrite page_bit_shift, land_bit by dlia.
  apply negb_involutive.
Qed.

(** The bytes of the bitmap of [n] pages. *)
Definition bitmap_bytes (s : pmm) : Z := (total_pages s + 7) / 8.

(** [mark_page] and [unmark_page], on any state: the used pages, the counter,
    the variables and the memory written. *)
Lemma mark_page_spec idx st :
  0 <= idx ->
  let st' := mark_page idx st in
  (forall j, 0 <= j -> used st' j = bool_decide (j = idx) || used st j) /\
  fst st' = set_used (if used st idx then used_pages (fst st) else u64 (used_pages (fst st) + 1)) (fst st) /\
  only_in (bitmap (fst st) + idx / 8) (bitmap (fst st) + idx / 8 + 1) (snd st) (snd st').
Proof.
  intros Hi. destruct st as [s m]. cbn zeta. unfold mark_page. rewrite bit_is_set_used.
  destruct (used (s, m) idx) eqn:E; simpl.
  - split; [|split; [by destruct s|done]]. intros j Hj. case_bool_decide; [by subst|done].
  - split; [|split; [done|apply only_in_wr; lia]]. intros j Hj. unfold used; simpl.
    rewrite rd_wr. case_decide as Ha.
    + rewrite page_bit_shift, testbit_set_bit by dlia.
      assert (Hd : idx / 8 = j / 8) by lia. rewrite Hd.
      f_equal. apply bool_decide_ext. dlia.
    + case_bool_decide; [by subst|done].
Qed.

Lemma unmark_page_spec idx st :
  0 <= idx ->
  let st' := unmark_page idx st in
  (forall j, 0 <= j -> used st' j = negb (bool_decide (j = idx)) && used st j) /\
  fst st' = set_used (if used st idx then u64 (used_pages (fst st) - 1) else used_pages (fst st)) (fst st) /\
  only_in (bitmap (fst st) + idx / 8) (bitmap (fst st) + idx / 8 + 1) (snd st) (snd st').
Proof.
  intros Hi. destruct st as [s m]. cbn zeta. unfold unmark_page. rewrite bit_is_set_used.
  destruct (used (s, m) idx) eqn:E; simpl.
  - split; [|split; [done|apply only_in_wr; lia]]. intros j Hj. unfold used; simpl.
    rewrite rd_wr. case_decide as Ha.
    + rewrite page_bit_shift, testbit_clear_bit by dlia.
      assert (Hd : idx / 8 = j / 8) by lia. rewrite Hd.
      f_equal. f_equal. apply bool_decide_ext. dlia.
    + case_bool_decide; [by subst|done].
  - split; [|split; [by destruct s|done]]. intros j Hj.
    case_bool_decide; [by subst|done].
Qed.

(** ** The invariant: the counter counts the marked pages *)

(** The state holds exactly the pages of [P] below [total_pages], and the
    memory differs from [m0] in the bytes of the bitmap only. *)
Definition holds (m0 : mem) (s0 : pmm) (P : Z -> bool) (st : pmm * mem) : Prop :=
  fst st = set_used (count_below P (Z.to_nat (total_pages s0))) s0 /\
  only_in (bitmap s0) (bitmap s0 + bitmap_bytes s0) m0 (snd st) /\
  forall j, 0 <= j < total_pages s0 -> used st j = P j.

(** The consistency every operation keeps. *)
Definition pmm_ok (st : pmm * mem) : Prop :=
  0 <= total_pages (fst st) < 2 ^ 40 /\
  used_pages (fst st) = count_below (used st) (Z.to_nat (total_pages (fst st))).

Lemma holds_ext m0 s0 P Q st :
  holds m0 s0 P st -> (forall j, 0 <= j < total_pages s0 -> P j = Q j) -> holds m0 s0 Q st.
Proof.
  intros (H1 & H2 & H3) E. split; [|split; [done|]].
  - rewrite H1. f_equal. apply count_below_ext. intros j Hj. apply E. lia.
  - intros j Hj. rewrite <- E by done. by apply H3.
Qed.

Lemma holds_ok m0 s0 P st : 0 <= total_pages s0 < 2 ^ 40 -> holds m0 s0 P st -> pmm_ok st.
Proof.
  intros Ht (H1 & _ & H3). unfold pmm_ok. rewrite H1. simpl. split; [done|].
  apply count_below_ext. intros j Hj. symmetry. apply H3. lia.
Qed.

Lemma ok_holds st : pmm_ok st -> holds (snd st) (fst st) (used st) st.
Proof.
  intros (H1 & H2). split; [|by split]. destruct st as [[]]; simpl in *. by rewrite <- H2.
Qed.

Lemma byte_in_bitmap s idx :
  0 <= idx < total_pages s -> 0 <= idx / 8 /\ idx / 8 + 1 <= bitmap_bytes s.
Proof. unfold bitmap_bytes. intros. dlia. Qed.

Lemma holds_mark m0 s0 P st idx :
  0 <= total_pages s0 < 2 ^ 40 -> 0 <= idx < total_pages s0 -> holds m0 s0 P st ->
  holds m0 s0 (fun j => bool_decide (j = idx) || P j) (mark_page idx st).
Proof.
  intros Ht Hi (H1 & H2 & H3).
  destruct (mark_page_spec idx st) as (Hu & Hf & Hm); [lia|]. rewrite H1 in Hf, Hm. simpl in Hf, Hm.
  pose proof (byte_in_bitmap s0 idx Hi). split; [|split].
  - rewrite Hf, H3 by done. unfold set_used; simpl. f_equal. destruct (P idx) eqn:E.
    + apply count_below_ext. intros j Hj. case_bool_decide; [by subst|done].
    + pose proof (count_below_range P (Z.to_nat (total_pages s0))).
      rewrite (count_below_flip P (fun j => bool_decide (j = idx) || P j) _ idx).
      * apply u64_small. lia.
      * lia.
      * done.
      * by rewrite bool_decide_true.
      * intros j Hj Hne. by rewrite bool_decide_false.
  - eapply only_in_trans; [exact H2|]. eapply only_in_weaken; [| |exact Hm]; lia.
  - intros j Hj. rewrite Hu, H3 by lia. done.
Qed.

Lemma holds_unmark m0 s0 P st idx :
  0 <= total_pages s0 < 2 ^ 40 -> 0 <= idx < total_pages s0 -> holds m0 s0 P st ->
  holds m0 s0 (fun j => negb (bool_decide (j = idx)) && P j) (unmark_page idx st).
Proof.
  intros Ht Hi (H1 & H2 & H3).
  destruct (unmark_page_spec idx st) as (Hu & Hf & Hm); [lia|]. rewrite H1 in Hf, Hm. simpl in Hf, Hm.
  pose proof (byte_in_bitmap s0 idx Hi). split; [|split].
  - rewrite Hf, H3 by done. unfold set_used; simpl. f_equal.
    set (Q := fun j => negb (bool_decide (j = idx)) && P j). destruct (P idx) eqn:E.
    + rewrite (count_below_flip Q P _ idx); subst Q; simpl; try done; try lia.
      * rewrite Z.add_simpl_r. apply u64_small.
        pose proof (count_below_range (fun j => negb (bool_decide (j = idx)) && P j)
          (Z.to_nat (total_pages s0))). lia.
      * by rewrite bool_decide_true.
      * intros j Hj Hne. by rewrite bool_decide_false.
    + apply count_below_ext. intros j Hj. subst Q; simpl. case_bool_decide; [by subst|done].
  - eapply only_in_trans; [exact H2|]. eapply only_in_weaken; [| |exact Hm]; lia.
  - intros j Hj. rewrite Hu, H3 by lia. done.
Qed.

(** Membership of a page in a range, as the tests of the specifications. *)
Definition in_range (lo hi j : Z) : bool := (lo <=? j) && (j <? hi).

Lemma holds_mark_range m0 s0 P st lo hi :
  0 <= total_pages s0 < 2 ^ 40 -> 0 <= lo <= hi -> hi <= total_pages s0 -> holds m0 s0 P st ->
  holds m0 s0 (fun j => in_range lo hi j || P j) (for_range lo hi mark_page st).
Proof.
  intros Ht Hlo Hhi H. set (I := fun k st => holds m0 s0 (fun j => in_range lo k j || P j) st).
  apply (for_range_inv I); subst I; simpl; [lia| |].
  - eapply holds_ext; [exact H|]. intros j Hj. unfold in_range.
    destruct (Z.leb_spec lo j), (Z.ltb_spec j lo); try lia; done.
  - intros i st' Hi Hst. eapply holds_ext; [apply holds_mark; [done|lia|exact Hst]|].
    intros j Hj. unfold in_range. simpl.
    case_bool_decide; destruct (Z.leb_spec lo j), (Z.ltb_spec j i), (Z.ltb_spec j (i + 1)); try lia; done.
Qed.

Lemma holds_unmark_range m0 s0 P st start pages :
  0 <= total_pages s0 < 2 ^ 40 -> 0 <= start -> 0 <= pages -> start + pages <= total_pages s0 ->
  holds m0 s0 P st ->
  holds m0 s0 (fun j => negb (in_range start (start + pages) j) && P j)
    (for_range 0 pages (fun p st => unmark_page (u64 (start + p)) st) st).
Proof.
  intros Ht Hs Hp Hhi H.
  set (I := fun k st => holds m0 s0 (fun j => negb (in_range start (start + k) j) && P j) st).
  apply (for_range_inv I); subst I; simpl; [lia| |].
  - eapply holds_ext; [exact H|]. intros j Hj. unfold in_range.
    destruct (Z.leb_spec start j), (Z.ltb_spec j (start + 0)); try lia; done.
  - intros i st' Hi Hst. rewrite u64_small by lia.
    eapply holds_ext; [apply holds_unmark; [done|lia|exact Hst]|].
    intros j Hj. unfold in_range. simpl.
    case_bool_decide; destruct (Z.leb_spec start j), (Z.ltb_spec j (start + i)),
      (Z.ltb_spec j (start + (i + 1))); try lia; done.
Qed.

(** ** What [pmm_init] establishes *)

(** The number of pages and the address of the bitmap, as [pmm_init] computes them. *)
Definition boot_total (m : mem) : Z := max_address m / PAGE_SIZE.
Definition boot_bitmap (kend : Z) : Z := (kend + PAGE_SIZE - 1) / PAGE_SIZE * PAGE_SIZE.

(** Page [j] lies in one of the first [k] entries that describe usable memory. *)
Definition usable_upto (m : mem) (k j : Z) : bool :=
  existsb (fun i => let e := entry_at m i in
    (type_ e =? 1) && in_range (base e / PAGE_SIZE) (base e / PAGE_SIZE + length_ e / PAGE_SIZE) j)
    (seqZ 0 k).
Definition usable (m : mem) (j : Z) : bool := usable_upto m (memory_map_entry_count m) j.

(** The first page after the kernel image and the bitmap. *)
Definition boot_end_page (kend : Z) (m : mem) : Z :=
  (boot_bitmap kend + (boot_total m + 7) / 8 + PAGE_SIZE - 1) / PAGE_SIZE.

(** The pages [pmm_init] leaves marked. *)
Definition boot_used (kstart kend : Z) (m : mem) (j : Z) : bool :=
  in_range (kstart / PAGE_SIZE) (boot_end_page kend m) j || (in_range 0 256 j || negb (usable m j)).

(** What [pmm_init] relies on: the memory map lies below the kernel, its entries
    do not wrap, and the first megabyte, the kernel and the bitmap lie inside
    the range the bitmap describes. *)
Record boot_map_ok (kstart kend : Z) (m : mem) : Prop := {
  bmo_kernel : 0 <= kstart <= kend;
  bmo_map : memory_map_entries + entry_size * memory_map_entry_count m <= kend;
  bmo_entries i : 0 <= i < memory_map_entry_count m ->
    base (entry_at m i) + length_ (entry_at m i) < 2 ^ 64;
  bmo_limit : boot_total m < 2 ^ 40;
  bmo_low : 256 <= boot_total m;
  bmo_room : boot_bitmap kend + (boot_total m + 7) / 8 <= boot_total m * PAGE_SIZE
}.

Lemma ld16_range m a : 0 <= ld16 m a < 2 ^ 16.
Proof. apply (ld_range 2). Qed.

Lemma entry_same m m' lo hi i :
  only_in lo hi m m' -> memory_map_entries + entry_size * (i + 1) <= lo -> 0 <= i ->
  entry_at m' i = entry_at m i.
Proof.
  intros H Hi H0. unfold entry_at, ld64, ld32, entry_size, memory_map_entries in *.
  rewrite !(ld_outside _ lo hi m m') by (try done; lia). done.
Qed.

Lemma max_address_bounds m :
  0 <= max_address m < 2 ^ 64 /\
  forall i, 0 <= i < memory_map_entry_count m ->
    u64 (base (entry_at m i) + length_ (entry_at m i)) <= max_address m.
Proof.
  unfold max_address.
  set (P := fun (k x : Z) => 0 <= x < 2 ^ 64 /\ forall i, 0 <= i < k ->
    u64 (base (entry_at m i) + length_ (entry_at m i)) <= x).
  match goal with |- context [for_range 0 ?c ?f ?s] =>
    enough (HP : P c (for_range 0 c f s)) by exact HP end.
  apply (for_range_inv P); subst P; cbv beta zeta.
  - apply ld16_range.
  - split; [lia|]. intros; lia.
  - intros i x Hi [Hx Hle].
    pose proof (u64_range (base (entry_at m i) + length_ (entry_at m i))) as Hr.
    set (x' := if _ <? _ then _ else _).
    assert (x <= x' /\ u64 (base (entry_at m i) + length_ (entry_at m i)) <= x' /\ x' < 2 ^ 64)
      as (H1 & H2 & H3) by (subst x'; case_match; lia).
    clearbody x'. split; [lia|]. intros j Hj. destruct (decide (j = i)) as [->|]; [lia|].
    transitivity x; [apply Hle|]; lia.
Qed.

Lemma boot_total_range kstart kend m : boot_map_ok kstart kend m -> 0 <= boot_total m < 2 ^ 40.
Proof.
  intros Hm. split; [|apply (bmo_limit _ _ _ Hm)].
  unfold boot_total, PAGE_SIZE. destruct (max_address_bounds m) as [H _]. dlia.
Qed.

(** The entries fit below [boot_total]. *)
Lemma entry_pages_fit kstart kend m i :
  boot_map_ok kstart kend m -> 0 <= i < memory_map_entry_count m ->
  let e := entry_at m i in
  0 <= base e / PAGE_SIZE /\ 0 <= length_ e / PAGE_SIZE /\
  base e / PAGE_SIZE + length_ e / PAGE_SIZE <= boot_total m.
Proof.
  intros Hm Hi e. subst e. destruct (max_address_bounds m) as [_ H]. specialize (H i Hi).
  pose proof (bmo_entries _ _ _ Hm i Hi) as Hb.
  assert (0 <= base (entry_at m i)) by apply ld64_range.
  assert (0 <= length_ (entry_at m i)) by apply ld64_range.
  rewrite u64_small in H by lia. unfold boot_total, PAGE_SIZE. dlia.
Qed.

Lemma usable_upto_snoc m k j :
  0 <= k ->
  usable_upto m (k + 1) j =
  usable_upto m k j || ((type_ (entry_at m k) =? 1) &&
    in_range (base (entry_at m k) / PAGE_SIZE)
      (base (entry_at m k) / PAGE_SIZE + length_ (entry_at m k) / PAGE_SIZE) j).
Proof.
  intros Hk. unfold usable_upto. rewrite (seqZ_app 0 k 1) by lia.
  rewrite existsb_app, Z.add_0_l. simpl. by rewrite orb_false_r.
Qed.

(** The loop over the entries, from a bitmap with every page marked. *)
Lemma holds_free_entries kstart kend m s0 st :
  boot_map_ok kstart kend m ->
  total_pages s0 = boot_total m -> bitmap s0 = boot_bitmap kend ->
  holds m s0 (fun _ => true) st ->
  holds m s0 (fun j => negb (usable m j)) (for_range 0 (memory_map_entry_count m) free_entry st).
Proof.
  intros Hm Ht Hb Hst. pose proof (boot_total_range _ _ m Hm) as Hr.
  set (I := fun k st => holds m s0 (fun j => negb (usable_upto m k j)) st).
  apply (for_range_inv I); subst I; simpl; [apply ld16_range| |].
  - eapply holds_ext; [exact Hst|]. done.
  - intros i st' Hi Hst'. unfold free_entry.
    rewrite (entry_same m (snd st') (bitmap s0) (bitmap s0 + bitmap_bytes s0) i).
    2: apply Hst'.
    2: { rewrite Hb. unfold boot_bitmap, PAGE_SIZE.
         pose proof (bmo_map _ _ _ Hm). unfold entry_size in *. dlia. }
    2: lia.
    destruct (entry_pages_fit _ _ _ i Hm Hi) as (H1 & H2 & H3).
    destruct (type_ (entry_at m i) =? 1) eqn:E.
    + eapply holds_ext; [apply holds_unmark_range; try lia; exact Hst'|].
      intros j Hj. simpl. rewrite usable_upto_snoc, E by lia. simpl.
      rewrite negb_orb, andb_comm. done.
    + eapply holds_ext; [exact Hst'|]. intros j Hj. simpl.
      rewrite usable_upto_snoc, E by lia. simpl. by rewrite orb_false_r.
Qed.

(** The first loop marks every page. *)
Lemma holds_fill m s0 :
  0 <= total_pages s0 < 2 ^ 40 ->
  holds m s0 (fun _ => true)
    (set_used (total_pages s0) s0,
     for_range 0 (bitmap_bytes s0) (fun i m => wr m (bitmap s0 + i) 0xFF) m).
Proof.
  intros Ht.
  set (I := fun k m' => only_in (bitmap s0) (bitmap s0 + k) m m' /\
    forall i, 0 <= i < k -> rd m' (bitmap s0 + i) = 0xFF).
  assert (HI : I (bitmap_bytes s0)
    (for_range 0 (bitmap_bytes s0) (fun i m => wr m (bitmap s0 + i) 0xFF) m)).
  { apply (for_range_inv I); subst I; cbv beta.
    - unfold bitmap_bytes. dlia.
    - split; [done|]. intros; lia.
    - intros i m' Hi [H1 H2]. split.
      + eapply only_in_trans; [eapply only_in_weaken; [| |exact H1]; lia|].
        apply only_in_wr. lia.
      + intros j Hj. rewrite rd_wr. case_decide; [done|]. apply H2. lia. }
  destruct HI as [H1 H2]. split; [|split; [exact H1|]].
  - simpl. rewrite count_below_all by done. f_equal. lia.
  - intros j Hj. unfold used; simpl. destruct (byte_in_bitmap s0 j Hj).
    rewrite H2 by lia. change 0xFF with (Z.ones 8). apply Z.ones_spec_low. dlia.
Qed.

Lemma pmm_init_holds kstart kend m :
  boot_map_ok kstart kend m ->
  holds m (Pmm (boot_bitmap kend) (boot_total m) 0) (boot_used kstart kend m)
    (pmm_init kstart kend m).
Proof.
  intros Hm. pose proof (boot_total_range _ _ m Hm) as Ht. pose proof Hm as [Hk Hmap He Hlim Hl Hr].
  assert (Hpos : 0 <= (boot_total m + 7) / 8) by dlia.
  change (2 ^ 40) with 1099511627776 in Ht.
  pose proof (proj1 (max_address_bounds m)) as Hmax.
  assert (Hkend : kend <= boot_bitmap kend) by (unfold boot_bitmap, PAGE_SIZE; dlia).
  assert (Hbm : Z.land (u64 (kend + PAGE_SIZE - 1)) (u64 (Z.lnot (PAGE_SIZE - 1))) = boot_bitmap kend).
  { unfold PAGE_SIZE in *. change (4096 - 1) with (2 ^ 12 - 1).
    rewrite u64_small by lia. rewrite land_mask_down by lia.
    unfold boot_bitmap, PAGE_SIZE. change (2 ^ 12) with 4096. dlia. }
  set (s0 := Pmm (boot_bitmap kend) (boot_total m) 0).
  unfold pmm_init. rewrite Hbm. fold (boot_total m).
  assert (Hend : 0 <= boot_bitmap kend + (boot_total m + 7) / 8 < 2 ^ 64 - 4095)
    by (unfold PAGE_SIZE in *; lia).
  rewrite (u64_small (boot_bitmap kend + _)) by lia.
  rewrite (u64_small (_ + PAGE_SIZE - 1)) by (unfold PAGE_SIZE; lia).
  eapply holds_ext.
  - apply holds_mark_range; [done| | |apply holds_mark_range; [done| | |
      eapply holds_free_entries; [exact Hm|done|done|exact (holds_fill m s0 Ht)]]].
    + unfold PAGE_SIZE in *. dlia.
    + unfold PAGE_SIZE in *. simpl. dlia.
    + unfold PAGE_SIZE. dlia.
    + simpl. unfold PAGE_SIZE. change (0x100000 / 4096) with 256. lia.
  - done.
Qed.

(** C11: from a sound memory map, [pmm_init] leaves free exactly the pages of
    usable entries above the first megabyte and outside the kernel image and the
    bitmap itself, counts the others as used, and writes to the bitmap only. *)
Theorem pmm_init_spec kstart kend m :
  boot_map_ok kstart kend m ->
  let st := pmm_init kstart kend m in
  bitmap (fst st) = boot_bitmap kend /\
  total_pages (fst st) = boot_total m /\
  (forall j, 0 <= j < boot_total m -> used st j = boot_used kstart kend m j) /\
  used_pages (fst st) = count_below (boot_used kstart kend m) (Z.to_nat (boot_total m)) /\
  only_in (boot_bitmap kend) (boot_bitmap kend + (boot_total m + 7) / 8) m (snd st).
Proof.
  intros Hm. destruct (pmm_init_holds kstart kend m Hm) as (H1 & H2 & H3).
  cbv zeta. rewrite H1. by repeat split.
Qed.

(** ** Allocation and release *)

Lemma find_free_spec n i s m :
  match find_free n i m (bitmap s) with
  | Some k => i <= k < i + Z.of_nat n /\ used (s, m) k = false /\
              forall j, i <= j < k -> used (s, m) j = true
  | None => forall j, i <= j < i + Z.of_nat n -> used (s, m) j = true
  end.
Proof.
  revert i. induction n as [|n IH]; intros i; cbn [find_free]; [intros; lia|].
  rewrite bit_is_set_used. destruct (used (s, m) i) eqn:E.
  - specialize (IH (i + 1)). destruct (find_free n (i + 1) m (bitmap s)) as [k|].
    + destruct IH as (H1 & H2 & H3). split; [lia|]. split; [done|].
      intros j Hj. destruct (decide (j = i)) as [->|]; [done|]. apply H3. lia.
    + intros j Hj. destruct (decide (j = i)) as [->|]; [done|]. apply IH. lia.
  - split; [lia|]. split; [done|]. intros; lia.
Qed.

(** Whether any page is free. *)
Definition free_count (st : pmm * mem) : Z := total_pages (fst st) - used_pages (fst st).

Lemma free_count_pos st :
  pmm_ok st -> 0 < free_count st <-> exists i, 0 <= i < total_pages (fst st) /\ used st i = false.
Proof.
  intros [Ht Hu]. unfold free_count. rewrite Hu.
  pose proof (count_below_lt (used st) (Z.to_nat (total_pages (fst st)))) as H.
  rewrite Z2Nat.id in H by lia. rewrite <- H. lia.
Qed.

Lemma pmm_alloc_cases st :
  pmm_ok st ->
  (free_count st <= 0 /\ pmm_alloc_page st = (0, st)) \/
  (exists i, 0 <= i < total_pages (fst st) /\ used st i = false /\
     (forall j, 0 <= j < i -> used st j = true) /\
     pmm_alloc_page st = (i * PAGE_SIZE, mark_page i st) /\ 0 < free_count st).
Proof.
  intros Hok. pose proof (free_count_pos st Hok) as Hc. destruct st as [s m].
  destruct Hok as [Ht Hu]. simpl in *. unfold pmm_alloc_page.
  pose proof (find_free_spec (Z.to_nat (total_pages s)) 0 s m) as H.
  destruct (find_free _ _ _ _) as [k|].
  - right. destruct H as (H1 & H2 & H3). exists k.
    rewrite u64_small by (unfold PAGE_SIZE; lia).
    repeat split; try done; try lia. apply Hc. exists k. split; [lia|done].
  - left. split; [|done]. destruct (Z.le_gt_cases (free_count (s, m)) 0); [done|].
    destruct (proj1 Hc) as (i & Hi & Hf); [lia|]. rewrite H in Hf by lia. done.
Qed.

Lemma mark_ok i st :
  pmm_ok st -> 0 <= i < total_pages (fst st) ->
  pmm_ok (mark_page i st) /\ total_pages (fst (mark_page i st)) = total_pages (fst st) /\
  bitmap (fst (mark_page i st)) = bitmap (fst st) /\
  only_in (bitmap (fst st)) (bitmap (fst st) + bitmap_bytes (fst st)) (snd st) (snd (mark_page i st)).
Proof.
  intros Hok Hi. pose proof (holds_mark _ _ _ _ i (proj1 Hok) Hi (ok_holds st Hok)) as H.
  split; [eapply holds_ok; [apply Hok|exact H]|]. destruct H as (H1 & H2 & _).
  by rewrite H1.
Qed.

Lemma unmark_ok i st :
  pmm_ok st -> 0 <= i < total_pages (fst st) ->
  pmm_ok (unmark_page i st) /\ total_pages (fst (unmark_page i st)) = total_pages (fst st) /\
  bitmap (fst (unmark_page i st)) = bitmap (fst st) /\
  only_in (bitmap (fst st)) (bitmap (fst st) + bitmap_bytes (fst st)) (snd st) (snd (unmark_page i st)).
Proof.
  intros Hok Hi. pose proof (holds_unmark _ _ _ _ i (proj1 Hok) Hi (ok_holds st Hok)) as H.
  split; [eapply holds_ok; [apply Hok|exact H]|]. destruct H as (H1 & H2 & _).
  by rewrite H1.
Qed.

(** C12: [pmm_alloc_page] returns 0 and changes nothing when every page is used;
    otherwise it returns the address of the lowest free page, marks that page
    and no other, counts it, and writes inside the bitmap only. *)
Theorem pmm_alloc_page_spec st :
  pmm_ok st ->
  let '(a, st') := pmm_alloc_page st in
  (free_count st = 0 /\ a = 0 /\ st' = st) \/
  (exists i, a = i * PAGE_SIZE /\ 0 <= i < total_pages (fst st) /\
     used st i = false /\ (forall j, 0 <= j < i -> used st j = true) /\
     (forall j, 0 <= j -> used st' j = bool_decide (j = i) || used st j) /\
     free_count st' = free_count st - 1 /\ pmm_ok st' /\
     only_in (bitmap (fst st)) (bitmap (fst st) + bitmap_bytes (fst st)) (snd st) (snd st')).
Proof.
  intros Hok. destruct (pmm_alloc_cases st Hok) as [[Hc ->]|(i & Hi & Hf & Hl & -> & Hc)].
  - left. repeat split. destruct Hok as [Ht Hu]. unfold free_count in *.
    pose proof (count_below_range (used st) (Z.to_nat (total_pages (fst st)))). lia.
  - right. exists i. destruct (mark_ok i st Hok Hi) as (H1 & H2 & H3 & H4).
    destruct (mark_page_spec i st) as (H5 & H6 & _); [lia|].
    refine (conj eq_refl (conj Hi (conj Hf (conj Hl (conj H5 (conj _ (conj H1 H4))))))).
    unfold free_count in *. rewrite H6, Hf. simpl. destruct Hok as [Ht Hu].
    pose proof (count_below_range (used st) (Z.to_nat (total_pages (fst st)))).
    rewrite u64_small by lia. lia.
Qed.

(** C13: releasing what [pmm_alloc_page] returned restores the set of used pages
    and the counter, wherever the address lies in the page. *)
Theorem pmm_free_alloc st off :
  pmm_ok st -> 0 < free_count st -> 0 <= off < PAGE_SIZE ->
  let '(a, st') := pmm_alloc_page st in
  (forall j, 0 <= j < total_pages (fst st) -> used (pmm_free_page (a + off) st') j = used st j) /\
  pmm_used_pages (pmm_free_page (a + off) st') = pmm_used_pages st.
Proof.
  intros Hok Hpos Ho. destruct (pmm_alloc_cases st Hok) as [[Hc _]|(i & Hi & Hf & Hl & -> & _)]; [lia|].
  unfold pmm_free_page. replace ((i * PAGE_SIZE + off) / PAGE_SIZE) with i by (unfold PAGE_SIZE in *; dlia).
  destruct (mark_page_spec i st) as (H5 & H6 & _); [lia|].
  destruct (unmark_page_spec i (mark_page i st)) as (H7 & H8 & _); [lia|].
  split.
  - intros j Hj. rewrite H7, H5 by lia. case_bool_decide; [by subst|done].
  - unfold pmm_used_pages. rewrite H8, H5, bool_decide_true by (done || lia). simpl.
    rewrite H6, Hf. simpl. destruct Hok as [Ht Hu].
    pose proof (count_below_range (used st) (Z.to_nat (total_pages (fst st)))).
    rewrite (u64_small (_ + 1)) by lia. rewrite u64_small; lia.
Qed.

(** Releasing a page keeps the manager consistent, frees that page only, and
    a second release of the same page changes nothing. *)
Theorem pmm_free_page_spec phys st :
  pmm_ok st -> 0 <= phys / PAGE_SIZE < total_pages (fst st) ->
  let st' := pmm_free_page phys st in
  pmm_ok st' /\
  (forall j, 0 <= j -> used st' j = negb (bool_decide (j = phys / PAGE_SIZE)) && used st j) /\
  pmm_free_page phys st' = st'.
Proof.
  intros Hok Hi st'. subst st'. unfold pmm_free_page.
  destruct (unmark_page_spec (phys / PAGE_SIZE) st) as (H1 & _ & _); [lia|].
  split; [by apply unmark_ok|]. split; [done|].
  destruct (unmark_page (phys / PAGE_SIZE) st) as [s m] eqn:E. unfold unmark_page at 1.
  rewrite bit_is_set_used, H1, bool_decide_true by (done || lia). done.
Qed.

(** [pmm_free_page] does not check its argument: for an address past the
    managed range whose bit lies past the bitmap, it clears that bit in whatever
    memory follows the bitmap, and decrements the counter. *)
Theorem pmm_free_page_unchecked phys st :
  pmm_ok st -> bitmap_bytes (fst st) <= phys / PAGE_SIZE / 8 -> used st (phys / PAGE_SIZE) = true ->
  let st' := pmm_free_page phys st in
  let a := bitmap (fst st) + phys / PAGE_SIZE / 8 in
  bitmap (fst st) + bitmap_bytes (fst st) <= a /\
  Z.testbit (rd (snd st) a) (phys / PAGE_SIZE mod 8) = true /\
  Z.testbit (rd (snd st') a) (phys / PAGE_SIZE mod 8) = false /\
  used_pages (fst st') = u64 (used_pages (fst st) - 1).
Proof.
  intros [Ht _] Hb Hu st' a. subst st' a. unfold pmm_free_page.
  assert (0 <= phys / PAGE_SIZE) by (unfold bitmap_bytes in Hb; dlia).
  destruct (unmark_page_spec (phys / PAGE_SIZE) st) as (H1 & H2 & _); [done|].
  split; [lia|]. split; [exact Hu|]. rewrite H2, Hu. split; [|done].
  specialize (H1 (phys / PAGE_SIZE) ltac:(done)). rewrite bool_decide_true in H1 by done.
  unfold used in H1. rewrite H2 in H1. exact H1.
Qed.

(** ** The manager as a frame allocator *)

(** What makes the free pages safe to hand out: page 0 is never free (its
    address is the NULL that reports failure), nor is a page of the bitmap. *)
Definition pmm_inv (st : pmm * mem) : Prop :=
  pmm_ok st /\
  (0 < total_pages (fst st) -> used st 0 = true) /\
  forall j x, 0 <= j < total_pages (fst st) -> in_frame (j * PAGE_SIZE) x ->
    bitmap (fst st) <= x < bitmap (fst st) + bitmap_bytes (fst st) -> used st j = true.

Definition pmm_is_free (st : pmm * mem) (f : Z) : Prop :=
  f mod PAGE_SIZE = 0 /\ 0 <= f / PAGE_SIZE < total_pages (fst st) /\ used st (f / PAGE_SIZE) = false.

Definition pmm_foot (s : pmm) (x : Z) : Prop := bitmap s <= x < bitmap s + bitmap_bytes s.

Lemma used_stable s m m' j :
  agree_on (pmm_foot s) m m' -> 0 <= j < total_pages s -> used (s, m') j = used (s, m) j.
Proof.
  intros H Hj. unfold used; simpl. rewrite H; [done|].
  destruct (byte_in_bitmap s j Hj). unfold pmm_foot. lia.
Qed.

(** Memory outside the bitmap is of no concern to the manager. *)
Lemma pmm_ok_stable s m m' : pmm_ok (s, m) -> agree_on (pmm_foot s) m m' -> pmm_ok (s, m').
Proof.
  intros [H1 H2] H. split; [done|]. simpl in *. rewrite H2. apply count_below_ext.
  intros j Hj. symmetry. apply used_stable; [done|lia].
Qed.

(** The used pages only grow when a page is marked. *)
Lemma mark_inv i st :
  pmm_inv st -> 0 <= i < total_pages (fst st) -> used st i = false ->
  pmm_inv (mark_page i st) /\ free_count (mark_page i st) = free_count st - 1 /\
  (forall g, pmm_is_free (mark_page i st) g <-> pmm_is_free st g /\ g <> i * PAGE_SIZE) /\
  (forall x, pmm_foot (fst (mark_page i st)) x <-> pmm_foot (fst st) x) /\
  agree_on (fun x => ~ pmm_foot (fst st) x) (snd st) (snd (mark_page i st)).
Proof.
  intros (Hok & H0 & Hbm) Hi Hf. destruct (mark_ok i st Hok Hi) as (M1 & M2 & M3 & M4).
  destruct (mark_page_spec i st) as (M5 & M6 & _); [lia|].
  split; [split; [done|]; rewrite M2, M3|split; [|split; [|split]]].
  - split; [intros Ht; rewrite M5, H0 by lia; apply orb_true_r|].
    intros j x Hj Hx Hin. rewrite M5, (Hbm j x); [apply orb_true_r|done|done| |lia].
    unfold bitmap_bytes in *. by rewrite M2 in Hin.
  - unfold free_count. rewrite M6, Hf. simpl. destruct Hok as [Ht Hu].
    pose proof (free_count_pos st (conj Ht Hu)) as [_ Hp].
    pose proof (count_below_range (used st) (Z.to_nat (total_pages (fst st)))).
    assert (0 < free_count st) by (apply Hp; by exists i).
    unfold free_count in *. rewrite u64_small by lia. lia.
  - intros g. unfold pmm_is_free. rewrite M2. split.
    + intros (G1 & G2 & G3). rewrite M5 in G3 by lia. apply orb_false_iff in G3 as [G3 G4].
      apply bool_decide_eq_false in G3. split; [done|]. unfold PAGE_SIZE in *. dlia.
    + intros ((G1 & G2 & G3) & G4). rewrite M5, G3, bool_decide_false by (unfold PAGE_SIZE in *; dlia).
      done.
  - intros x. unfold pmm_foot, bitmap_bytes. by rewrite M2, M3.
  - intros x Hx. apply M4. unfold pmm_foot in Hx. lia.
Qed.

#[export, refine] Instance pmm_frames : FrameAllocator pmm := {
  fa_alloc := pmm_alloc_page;
  fa_inv := pmm_inv;
  fa_is_free := pmm_is_free;
  fa_count := free_count;
  fa_foot := pmm_foot;
  fa_managed s f := 0 <= f / PAGE_SIZE < total_pages s
}.
Proof.
  - intros st (Hok & _) Hc. by destruct (pmm_alloc_cases st Hok) as [[_ ->]|(i & _ & _ & _ & _ & Hc')]; [|lia].
  - intros st Hinv Hc. destruct (pmm_alloc_cases st (proj1 Hinv)) as [[Hc' _]|(i & Hi & Hf & _ & -> & _)]; [lia|].
    destruct (mark_inv i st Hinv Hi Hf) as (M1 & M2 & M3 & M4 & M5).
    destruct (mark_ok i st (proj1 Hinv) Hi) as (_ & M6 & _).
    split; [|by rewrite M6]. unfold pmm_is_free.
    replace (i * PAGE_SIZE / PAGE_SIZE) with i by (unfold PAGE_SIZE; dlia).
    split; [unfold PAGE_SIZE; dlia|done].
  - by intros st f _ (_ & H & _).
  - intros st f (Hok & H0 & _) (H1 & H2 & H3). destruct Hok as [Ht _]. split; [done|].
    unfold PAGE_SIZE in *. change (2 ^ 40) with 1099511627776 in Ht.
    assert (f / 4096 <> 0) by (intros E; rewrite E, H0 in H3 by lia; done). dlia.
  - intros st f x (_ & _ & Hbm) (H1 & H2 & H3) Hx Hfoot.
    rewrite (Hbm (f / PAGE_SIZE) x) in H3; [done|done| |done].
    unfold in_frame, PAGE_SIZE in *. dlia.
  - intros s m m' (Hok & H0 & Hbm) H.
    assert (Hu : forall j, 0 <= j < total_pages s -> used (s, m') j = used (s, m) j)
      by (intros; by apply used_stable).
    split; [split; [by apply (pmm_ok_stable s m)|split; simpl in *]|split].
    + intros Ht. rewrite Hu by lia. by apply H0.
    + intros j x Hj Hx Hin. rewrite Hu by done. by apply (Hbm j x).
    + intros f. unfold pmm_is_free; simpl. split; intros (G1 & G2 & G3).
      * by rewrite Hu in G3.
      * by rewrite Hu.
    + done.
Defined.

(** Giving a page back. *)
Lemma unmark_inv f st :
  pmm_inv st -> 0 <= f / PAGE_SIZE < total_pages (fst st) -> f mod PAGE_SIZE = 0 -> 0 < f ->
  ~ pmm_is_free st f -> (forall x, in_frame f x -> ~ pmm_foot (fst st) x) ->
  let st' := pmm_free_page f st in
  pmm_inv st' /\ free_count st' = free_count st + 1 /\
  (forall g, pmm_is_free st' g <-> pmm_is_free st g \/ g = f) /\
  (forall x, pmm_foot (fst st') x <-> pmm_foot (fst st) x) /\
  (forall g, 0 <= g / PAGE_SIZE < total_pages (fst st') <-> 0 <= g / PAGE_SIZE < total_pages (fst st)) /\
  agree_on (fun x => ~ pmm_foot (fst st) x) (snd st) (snd st').
Proof.
  intros (Hok & H0 & Hbm) Hi Hm Hf Hnf Hfoot. unfold pmm_free_page. set (i := f / PAGE_SIZE) in *.
  assert (Hfi : f = i * PAGE_SIZE) by (subst i; unfold PAGE_SIZE in *; dlia).
  assert (Hu : used st i = true).
  { destruct (used st i) eqn:E; [done|]. by destruct Hnf. }
  destruct (unmark_ok i st Hok Hi) as (M1 & M2 & M3 & M4).
  destruct (unmark_page_spec i st) as (M5 & M6 & _); [lia|]. cbv zeta in *.
  split; [split; [done|]; rewrite M2, M3|split; [|split; [|split; [|split]]]].
  - split.
    + intros Ht. rewrite M5, H0 by lia. rewrite bool_decide_false; [done|]. unfold PAGE_SIZE in *. lia.
    + intros j x Hj Hx Hin. unfold bitmap_bytes in *. rewrite M2 in Hin.
      rewrite M5, (Hbm j x Hj Hx Hin), bool_decide_false; [done| |lia]. intros ->.
      apply (Hfoot x); [by rewrite Hfi|exact Hin].
  - unfold free_count. rewrite M6, Hu. cbn [set_used total_pages used_pages]. destruct Hok as [Ht Hc].
    pose proof (count_below_range (used st) (Z.to_nat (total_pages (fst st)))).
    assert (0 < used_pages (fst st)).
    { rewrite Hc. rewrite (count_below_flip (fun j => if decide (j = i) then false else used st j) _ _ i).
      - pose proof (count_below_range (fun j => if decide (j = i) then false else used st j)
          (Z.to_nat (total_pages (fst st)))). lia.
      - lia.
      - by case_decide.
      - done.
      - intros j Hj Hne. by case_decide. }
    rewrite u64_small by lia. lia.
  - intros g. unfold pmm_is_free. rewrite M2. split.
    + intros (G1 & G2 & G3). rewrite M5 in G3 by lia. apply andb_false_iff in G3 as [G3|G3]; [right|by left].
      apply negb_false_iff, bool_decide_eq_true in G3. rewrite Hfi. unfold PAGE_SIZE in *. dlia.
    + intros [(G1 & G2 & G3)| ->]; [by rewrite M5, G3, andb_false_r by lia|].
      split; [done|]. split; [done|]. rewrite M5 by (subst i; lia). by rewrite bool_decide_true.
  - intros x. unfold pmm_foot, bitmap_bytes. by rewrite M2, M3.
  - intros g. by rewrite M2.
  - intros x Hx. apply M4. unfold pmm_foot in Hx. lia.
Qed.

#[export, refine] Instance pmm_manager : PageManager pmm := {
  pm_free_page := pmm_free_page;
  pm_total_pages := pmm_total_pages;
  pm_used_pages := pmm_used_pages
}.
Proof.
  - intros f st Hi Hm Ha Hf Hn Hfoot. by apply unmark_inv.
Defined.

(** After [pmm_init] on a sound memory map the manager is a sound frame
    allocator, and no frame it has free overlaps the first megabyte, the kernel
    image or the bitmap. *)
Theorem pmm_init_safe kstart kend m :
  boot_map_ok kstart kend m ->
  let st := pmm_init kstart kend m in
  fa_inv st /\
  forall f x, fa_is_free st f -> in_frame f x ->
    0x100000 <= x /\ ~ (kstart <= x < boot_bitmap kend + (boot_total m + 7) / 8).
Proof.
  intros Hm st. destruct (pmm_init_holds kstart kend m Hm) as (H12 & _ & H3).
  fold st in H12, H3. cbn [bitmap total_pages] in H12, H3.
  assert (H1 : bitmap (fst st) = boot_bitmap kend) by (by rewrite H12).
  assert (H2 : total_pages (fst st) = boot_total m) by (by rewrite H12).
  assert (H4 : used_pages (fst st) = count_below (boot_used kstart kend m) (Z.to_nat (boot_total m)))
    by (by rewrite H12).
  pose proof (boot_total_range _ _ m Hm) as Ht.
  pose proof (bmo_kernel _ _ _ Hm) as Hk. pose proof (bmo_room _ _ _ Hm) as Hr.
  assert (kend <= boot_bitmap kend) by (unfold boot_bitmap, PAGE_SIZE; dlia).
  assert (Hin : forall j x, 0 <= j < boot_total m -> in_frame (j * PAGE_SIZE) x ->
    kstart <= x < boot_bitmap kend + (boot_total m + 7) / 8 -> used st j = true).
  { intros j x Hj Hx Hb. rewrite H3 by done. unfold boot_used, in_range, boot_end_page.
    unfold in_frame, PAGE_SIZE in *.
    destruct (Z.leb_spec (kstart / 4096) j); [|dlia].
    destruct (Z.ltb_spec j ((boot_bitmap kend + (boot_total m + 7) / 8 + 4096 - 1) / 4096)); [done|].
    dlia. }
  split; [split; [|split]|].
  - split; [by rewrite H2|]. rewrite H4, H2. apply count_below_ext.
    intros j Hj. symmetry. apply H3. lia.
  - rewrite H2. intros Hpos. rewrite H3 by lia. unfold boot_used. apply orb_true_iff. by right.
  - rewrite H1, H2. unfold bitmap_bytes. rewrite H2. intros j x Hj Hx Hb.
    apply (Hin j x Hj Hx). lia.
  - intros f x (F1 & F2 & F3) Hx. rewrite H2 in F2. split.
    + rewrite H3 in F3 by done. apply orb_false_iff in F3 as [_ F3].
      apply orb_false_iff in F3 as [F3 _]. unfold in_range in F3.
      unfold in_frame, PAGE_SIZE in *. dlia.
    + intros Hb. rewrite (Hin (f / PAGE_SIZE) x F2) in F3; [done| |done].
      unfold in_frame, PAGE_SIZE in *. dlia.
Qed.

(** ** Witnesses *)

(** A machine with 2 MB of memory: a map of two usable entries, all other bytes 0. *)
Definition demo_mem : mem :=
  let m := Mem (fun _ => 0) ∅ in
  let m := st 2 m 0x10000 2 in
  let m := st64 m 0x10002 0 in
  let m := st64 m 0x1000A 0xA0000 in
  let m := st 4 m 0x10012 1 in
  let m := st64 m 0x1001A 0x100000 in
  let m := st64 m 0x10022 0x100000 in
  st 4 m 0x1002A 1.

(** The kernel at 1 MB, 0x3123 bytes long. *)
Definition demo_state : pmm * mem := pmm_init 0x100000 0x103123 demo_mem.

Lemma demo_map_ok : boot_map_ok 0x100000 0x103123 demo_mem.
Proof.
  split; [lia|vm_compute; discriminate| |vm_compute; reflexivity|vm_compute; discriminate
        |vm_compute; discriminate].
  assert (memory_map_entry_count demo_mem = 2) as -> by (vm_compute; reflexivity). intros i Hi.
  assert (i = 0 \/ i = 1) as [->| ->] by lia; vm_compute; reflexivity.
Qed.

Lemma demo_total : boot_total demo_mem = 512.
Proof. vm_compute. reflexivity. Qed.

Lemma pmm_init_spec_witness :
  bitmap (fst demo_state) = 0x104000 /\ total_pages (fst demo_state) = 512 /\
  used demo_state 0x104 = true /\ used demo_state 0x105 = false /\ used_pages (fst demo_state) = 261.
Proof.
  destruct (pmm_init_spec 0x100000 0x103123 demo_mem demo_map_ok) as (H1 & H2 & H3 & H4 & _).
  unfold demo_state. rewrite H1, H2, H4, !H3 by (rewrite demo_total; lia).
  vm_compute. repeat split.
Defined.

Lemma demo_pmm_ok : pmm_ok demo_state.
Proof.
  eapply holds_ok; [|apply pmm_init_holds, demo_map_ok]. exact (boot_total_range _ _ _ demo_map_ok).
Qed.

Lemma pmm_init_safe_witness :
  fa_inv demo_state /\
  (pmm_is_free demo_state 0x105000 -> in_frame 0x105000 0x105fff ->
   0x100000 <= 0x105fff /\ ~ (0x100000 <= 0x105fff < 0x104040)).
Proof.
  destruct (pmm_init_safe 0x100000 0x103123 demo_mem demo_map_ok) as [H1 H2].
  split; [exact H1|exact (H2 0x105000 0x105fff)].
Defined.

Lemma pmm_alloc_page_spec_witness :
  let '(a, st') := pmm_alloc_page demo_state in a = 0x105000 /\ pmm_ok st'.
Proof.
  pose proof (pmm_alloc_page_spec demo_state demo_pmm_ok) as H.
  assert (Ha : fst (pmm_alloc_page demo_state) = 0x105000) by (vm_compute; reflexivity).
  destruct (pmm_alloc_page demo_state) as [a st']. simpl in Ha.
  destruct H as [(_ & H & _)|(i & _ & _ & _ & _ & _ & _ & H & _)]; [lia|done].
Defined.

Lemma pmm_free_alloc_witness :
  let '(a, st') := pmm_alloc_page demo_state in
  pmm_used_pages (pmm_free_page (a + 0xfff) st') = pmm_used_pages demo_state.
Proof.
  pose proof (pmm_free_alloc demo_state 0xfff demo_pmm_ok) as H.
  destruct (pmm_alloc_page demo_state) as [a st'].
  apply H; [vm_compute; reflexivity|unfold PAGE_SIZE; lia].
Defined.

Lemma pmm_free_page_spec_witness :
  pmm_ok (pmm_free_page 0x100000 demo_state) /\
  used demo_state 0x100 = true /\ used (pmm_free_page 0x100000 demo_state) 0x100 = false.
Proof.
  destruct (pmm_free_page_spec 0x100000 demo_state demo_pmm_ok) as (H1 & H2 & _).
  - vm_compute. intuition discriminate.
  - split; [done|]. split; [vm_compute; reflexivity|].
    rewrite H2 by (vm_compute; discriminate). reflexivity.
Defined.

(** The byte after the 64 bytes of the bitmap, holding 1. *)
Lemma pmm_free_page_unchecked_witness :
  let st := (fst demo_state, wr (snd demo_state) 0x104040 1) in
  rd (snd st) 0x104040 = 1 /\
  Z.testbit (rd (snd (pmm_free_page (512 * PAGE_SIZE) st)) 0x104040) 0 = false.
Proof.
  assert (Hb : bitmap (fst demo_state) = 0x104000) by (vm_compute; reflexivity).
  assert (Hn : bitmap_bytes (fst demo_state) = 64) by (vm_compute; reflexivity).
  pose proof demo_pmm_ok as Hok. destruct demo_state as [s m]; simpl in *.
  split; [by rewrite rd_wr_eq|].
  assert (Hok' : pmm_ok (s, wr m 0x104040 1)).
  { apply (pmm_ok_stable s m); [done|]. intros x Hx. apply rd_wr_ne.
    unfold pmm_foot in Hx. lia. }
  destruct (pmm_free_page_unchecked (512 * PAGE_SIZE) _ Hok') as (_ & _ & H & _); simpl.
  - rewrite Hn. vm_compute. discriminate.
  - unfold used; simpl. rewrite Hb, rd_wr_eq. reflexivity.
  - simpl in H. rewrite Hb in H |- *. exact H.
Defined.

End Pmm.
