(* ===== verification/Mmu.v ===== *)
(** * Four-level page tables, as the x86-64 MMU reads them

    The specification side of [mm/vmm.c]: the translation a processor performs
    from the tables in memory, 2 MB and 1 GB pages included, and the invariant
    that the tables form a tree.  [Vmm.v] proves that the operations of
    [vmm.c] implement updates of this translation. *)

From S2P Require Import Prelude Frames.
Local Open Scope Z_scope.

Module Mmu.

(** The bits of an entry the walk looks at. *)
Definition present (e : Z) : bool := Z.testbit e 0.
Definition user (e : Z) : bool := Z.testbit e 2.
Definition page_size_bit (e : Z) : bool := Z.testbit e 7.

(** Entry [i] of the table at [t], and the table or page an entry points to. *)
Definition entry (m : mem) (t i : Z) : Z := ld64 m (t + 8 * i).
Definition child (e : Z) : Z := e - e mod 2 ^ 12.

(** The index [v] selects at level [n]: 4 the PML4, 1 the page table. *)
Definition ix (n : nat) (v : Z) : Z := v / 2 ^ (12 + 9 * (Z.of_nat n - 1)) mod 512.

(** An entry of a table at level 3 or 2 can map a 1 GB or a 2 MB page itself. *)
Definition big (n : nat) (e : Z) : bool := ((n =? 3) || (n =? 2))%nat && page_size_bit e.

(** The level and the entry at which the walk from level [n] ends, if every
    entry on the way is present. *)
Fixpoint leaf (n : nat) (m : mem) (t v : Z) : option (nat * Z) :=
  match n with
  | O => None
  | S n' =>
      let e := entry m t (ix n v) in
      if negb (present e) then None
      else if (n' =? 0)%nat || big n e then Some (n, e)
      else leaf n' m (child e) v
  end.

(** The physical address of [v], from the leaf entry. *)
Definition phys_of (v : Z) (l : nat * Z) : Z :=
  let w := 12 + 9 * (Z.of_nat (fst l) - 1) in
  snd l - snd l mod 2 ^ w + v mod 2 ^ w.
Definition translate (m : mem) (root v : Z) : option Z :=
  option_map (phys_of v) (leaf 4 m root v).

(** A user-mode access to [v] is allowed: the USER bit is set at every level. *)
Fixpoint user_walk (n : nat) (m : mem) (t v : Z) : bool :=
  match n with
  | O => false
  | S n' =>
      let e := entry m t (ix n v) in
      present e && user e &&
      ((n' =? 0)%nat || big n e || user_walk n' m (child e) v)
  end.

(** Two addresses lie on the same 4 KB page (of the 48-bit address space). *)
Definition vpath (v : Z) : list Z := [ix 4 v; ix 3 v; ix 2 v; ix 1 v].
Definition same_page (v v' : Z) : Prop := vpath v = vpath v'.

#[export] Instance same_page_dec v v' : Decision (same_page v v').
Proof. unfold same_page. apply _. Defined.

(** No 1 GB or 2 MB page maps [v]. *)
Definition no_big (m : mem) (root v : Z) : Prop :=
  forall n e, leaf 4 m root v = Some (n, e) -> n = 1%nat.

(** ** Indices and entries *)

Lemma ix_range n v : 0 <= ix n v < 512.
Proof. apply Z.mod_pos_bound. lia. Qed.

Lemma child_aligned e : child e mod 4096 = 0.
Proof. unfold child. change (2 ^ 12) with 4096. dlia. Qed.

Lemma entry_range m t i : 0 <= entry m t i < 2 ^ 64.
Proof. apply ld64_range. Qed.

(** Two slots of aligned tables are the same or disjoint. *)
Lemma slots_disjoint t i t' i' :
  t mod 4096 = 0 -> t' mod 4096 = 0 -> 0 <= i < 512 -> 0 <= i' < 512 ->
  (t, i) <> (t', i') -> t' + 8 * i' + 8 <= t + 8 * i \/ t + 8 * i + 8 <= t' + 8 * i'.
Proof.
  intros Ht Ht' Hi Hi' Hne. destruct (decide (t = t')) as [->|].
  - destruct (decide (i = i')); [by subst|lia].
  - dlia.
Qed.

Lemma entry_st m t i x t' i' :
  t mod 4096 = 0 -> t' mod 4096 = 0 -> 0 <= i < 512 -> 0 <= i' < 512 ->
  entry (st64 m (t + 8 * i) x) t' i' = if decide ((t, i) = (t', i')) then u64 x else entry m t' i'.
Proof.
  intros Ht Ht' Hi Hi'. unfold entry. case_decide as E.
  - simplify_eq. apply ld64_st64.
  - apply ld64_st64_ne. by apply slots_disjoint.
Qed.

(** Entries of a table only depend on the bytes of its frame. *)
Lemma entry_agree P m m' t i :
  agree_on P m m' -> 0 <= i < 512 -> (forall x, in_frame t x -> P x) -> entry m' t i = entry m t i.
Proof.
  intros H Hi HP. apply ld64_agree. intros x Hx. apply H, HP. unfold in_frame. lia.
Qed.

(** ** The tables form a tree

    [tab t = Some p]: the frame at [t] is the table reached by following the
    indices [p] from the root.  As [tab] is a function, no two entries lead to
    the same table. *)

Record tree (tab : Z -> option (list Z)) (m : mem) (root : Z) : Prop := {
  tree_root : tab root = Some [];
  tree_frame t p : tab t = Some p -> t mod 4096 = 0 /\ 0 <= t /\ t + 4096 <= 2 ^ 52;
  tree_depth t p : tab t = Some p -> (length p <= 3)%nat;
  tree_bound t p i : tab t = Some p -> 0 <= i < 512 -> present (entry m t i) = true ->
    entry m t i < 2 ^ 52;
  tree_child t p i : tab t = Some p -> 0 <= i < 512 -> present (entry m t i) = true ->
    (length p < 3)%nat -> big (4 - length p) (entry m t i) = false ->
    tab (child (entry m t i)) = Some (p ++ [i])
}.

(** The path [p] leads from the root to [t] through present entries that
    satisfy [Q] and are not pages. *)
Inductive reach (Q : Z -> Prop) (m : mem) (root : Z) : list Z -> Z -> Prop :=
| reach_nil : reach Q m root [] root
| reach_snoc p t i :
    reach Q m root p t -> 0 <= i < 512 -> (length p < 3)%nat ->
    present (entry m t i) = true -> big (4 - length p) (entry m t i) = false ->
    Q (entry m t i) -> reach Q m root (p ++ [i]) (child (entry m t i)).

Lemma reach_tab Q tab m root p t : tree tab m root -> reach Q m root p t -> tab t = Some p.
Proof.
  intros HT. induction 1 as [|p t i _ IH Hi Hl Hp Hb _]; [apply HT|].
  eapply tree_child; eauto.
Qed.

Lemma reach_weaken (Q Q' : Z -> Prop) m root p t :
  (forall e, Q e -> Q' e) -> reach Q m root p t -> reach Q' m root p t.
Proof. intros HQ. induction 1; [constructor|]. constructor; auto. Qed.

(** A path only depends on the entries of the tables above its end. *)
Lemma reach_stable Q tab m m' root p t n :
  tree tab m root -> reach Q m root p t -> (length p <= n)%nat ->
  (forall t p i, tab t = Some p -> (length p < n)%nat -> 0 <= i < 512 ->
     entry m' t i = entry m t i) ->
  reach Q m' root p t.
Proof.
  intros HT H. induction H as [|p t i H IH Hi Hl Hp Hb HQ]; intros Hn He; [constructor|].
  rewrite length_app in Hn. simpl in Hn.
  assert (E : entry m' t i = entry m t i).
  { apply (He _ p); [by eapply reach_tab|lia|done]. }
  rewrite <- E. constructor; rewrite ?E; try done. apply IH; [lia|done].
Qed.

(** ** The translation along a path *)

Lemma vpath_snoc p i v k :
  p ++ [i] = take k (vpath v) -> (k <= 3)%nat ->
  exists k', k = S k' /\ length p = k' /\ p = take k' (vpath v) /\ i = ix (4 - k') v.
Proof.
  intros Ep Hk. exists (length p).
  assert (Hlen : length (p ++ [i]) = k) by (rewrite Ep, length_take; simpl; lia).
  rewrite length_app in Hlen. simpl in Hlen. subst k.
  destruct p as [|? [|? [|? []]]]; simpl in *; try lia; by simplify_eq.
Qed.

(** The table at the end of the first [k] indices of [v] decides the leaf of [v]. *)
Lemma leaf_reach Q m root v k t :
  reach Q m root (take k (vpath v)) t -> (k <= 3)%nat ->
  leaf 4 m root v = leaf (4 - k) m t v.
Proof.
  intros H Hk. remember (take k (vpath v)) as p eqn:Ep. revert k Hk Ep.
  induction H as [|p t i H IH Hi Hl Hp Hb HQ]; intros k Hk Ep.
  - assert (k = 0)%nat as -> by (destruct k; [done|]; done). done.
  - destruct (vpath_snoc p i v k Ep Hk) as (k' & -> & Hk' & Hpv & Hi').
    rewrite (IH k' ltac:(lia) Hpv). clear IH H HQ. subst i. rewrite Hk' in *.
    destruct k' as [|[|[|]]]; [| | |lia]; simpl in *; by rewrite Hp, ?Hb.
Qed.

(** Walks from tables below the depth of a change do not see it. *)
Lemma leaf_below tab m m' root d :
  tree tab m root ->
  (forall t p i, tab t = Some p -> (d < length p)%nat -> 0 <= i < 512 ->
     entry m' t i = entry m t i) ->
  forall n t p v, tab t = Some p -> (d < length p)%nat -> n = (4 - length p)%nat ->
    leaf n m' t v = leaf n m t v.
Proof.
  intros HT He n. induction n as [|n IH]; intros t p v Ht Hd Hn; [done|].
  cbn [leaf]. rewrite (He t p) by (done || apply ix_range).
  destruct (present (entry m t (ix (S n) v))) eqn:Ep; [simpl|done].
  destruct (n =? 0)%nat eqn:En; [done|]. simpl.
  destruct (big (S n) (entry m t (ix (S n) v))) eqn:Eb; [done|].
  apply Nat.eqb_neq in En. pose proof (tree_depth _ _ _ HT _ _ Ht).
  eapply IH.
  - eapply (tree_child _ _ _ HT t p); try done; [apply ix_range|lia|by rewrite <- Hn].
  - rewrite length_app. simpl. lia.
  - rewrite length_app. simpl. lia.
Qed.

(** Changing one slot: only the walks through that slot can change, and they
    change as the walk from the slot's table does. *)
Lemma leaf_update tab m m' root t0 p0 i0 :
  tree tab m root -> tab t0 = Some p0 ->
  (forall t p i, tab t = Some p -> 0 <= i < 512 -> (t, i) <> (t0, i0) ->
     entry m' t i = entry m t i) ->
  forall v, (take (S (length p0)) (vpath v) = p0 ++ [i0] ->
             leaf (4 - length p0) m' t0 v = leaf (4 - length p0) m t0 v) ->
  leaf 4 m' root v = leaf 4 m root v.
Proof.
  intros HT H0 He v Hsub.
  cut (forall n t p, tab t = Some p -> n = (4 - length p)%nat -> p = take (length p) (vpath v) ->
         leaf n m' t v = leaf n m t v).
  { intros H. apply (H 4%nat root []); [apply HT|done|done]. }
  intros n. induction n as [|n IH]; intros t p Ht Hn Hpv; [done|].
  pose proof (tree_depth _ _ _ HT _ _ Ht) as Hd.
  assert (Hsnoc : take (S (length p)) (vpath v) = p ++ [ix (S n) v]).
  { assert (length p = 3 - n)%nat by lia.
    destruct p as [|? [|? [|? [|]]]]; simpl in *; try lia;
      destruct n as [|[|[|[|]]]]; try lia; by simplify_eq. }
  destruct (decide ((t, ix (S n) v) = (t0, i0))) as [E|Hne].
  { inversion E; subst. assert (p = p0) as -> by congruence. rewrite Hn. by apply Hsub. }
  cbn [leaf]. rewrite (He t p) by (done || apply ix_range).
  destruct (present (entry m t (ix (S n) v))) eqn:Ep; [simpl|done].
  destruct (n =? 0)%nat eqn:En; [done|]. simpl.
  destruct (big (S n) (entry m t (ix (S n) v))) eqn:Eb; [done|].
  apply Nat.eqb_neq in En.
  apply (IH _ (p ++ [ix (S n) v])).
  - eapply (tree_child _ _ _ HT t p); try done; [apply ix_range|lia|by rewrite <- Hn].
  - rewrite length_app. simpl. lia.
  - rewrite length_app. simpl. by rewrite Nat.add_1_r, Hsnoc.
Qed.

(** Memory writes outside the tables change no translation. *)
Lemma leaf_outside tab m m' root v :
  tree tab m root ->
  (forall t p i, tab t = Some p -> 0 <= i < 512 -> entry m' t i = entry m t i) ->
  leaf 4 m' root v = leaf 4 m root v.
Proof.
  intros HT He. apply (leaf_update tab m m' root root [] (-1) HT (tree_root _ _ _ HT)).
  - intros t p i Ht Hi _. by apply (He t p).
  - simpl. intros E. pose proof (ix_range 4 v). injection E as E. lia.
Qed.

Lemma user_outside tab m m' root v :
  tree tab m root ->
  (forall t p i, tab t = Some p -> 0 <= i < 512 -> entry m' t i = entry m t i) ->
  user_walk 4 m' root v = user_walk 4 m root v.
Proof.
  intros HT He.
  cut (forall n t p, tab t = Some p -> n = (4 - length p)%nat -> user_walk n m' t v = user_walk n m t v).
  { intros H. apply (H 4%nat root []); [apply HT|done]. }
  induction n as [|n IH]; intros t p Ht Hn; [done|]. cbn [user_walk].
  rewrite (He t p) by (done || apply ix_range).
  destruct (present (entry m t (ix (S n) v))) eqn:Ep; [|done]. cbn [andb]. f_equal.
  destruct (n =? 0)%nat eqn:En; [done|]. cbn [orb].
  destruct (big (S n) (entry m t (ix (S n) v))) eqn:Eb; [done|]. cbn [orb].
  apply Nat.eqb_neq in En. apply (IH _ (p ++ [ix (S n) v])).
  - eapply (tree_child _ _ _ HT t p); try done; [apply ix_range|lia|by rewrite <- Hn].
  - rewrite length_app. cbn [length]. lia.
Qed.

(** The USER bits along a path. *)
Lemma user_reach m root v k t :
  reach (fun e => user e = true) m root (take k (vpath v)) t -> (k <= 3)%nat ->
  user_walk 4 m root v = user_walk (4 - k) m t v.
Proof.
  intros H Hk. remember (take k (vpath v)) as p eqn:Ep. revert k Hk Ep.
  induction H as [|p t i H IH Hi Hl Hp Hb HQ]; intros k Hk Ep.
  - assert (k = 0)%nat as -> by (destruct k; [done|]; done). done.
  - destruct (vpath_snoc p i v k Ep Hk) as (k' & -> & Hk' & Hpv & Hi').
    rewrite (IH k' ltac:(lia) Hpv). clear IH H. subst i. rewrite Hk' in *.
    destruct k' as [|[|[|]]]; [| | |lia]; simpl in *; by rewrite Hp, HQ, ?Hb.
Qed.

End Mmu.
