(* ===== verification/Vmm.v ===== *)
(** * The virtual memory manager ([mm/vmm.h], [mm/vmm.c])

    The page tables live in the byte-addressed memory and the code reaches them
    by their physical addresses.  [vmm.c] is proved for any frame allocator
    (class [FrameAllocator] of Frames.v); what its operations mean is stated
    with the MMU walk of Mmu.v. *)

From S2P Require Import Prelude Ports Vga Frames Mmu.
Import Vga Mmu.
Local Open Scope Z_scope.

Module Vmm.

Definition PAGE_PRESENT : Z := Z.shiftl 1 0.
Definition PAGE_WRITE : Z := Z.shiftl 1 1.
Definition PAGE_USER : Z := Z.shiftl 1 2.
Definition PAGE_NOCACHE : Z := Z.shiftl 1 4.
Definition PAGE_SIZE_2MB : Z := Z.shiftl 1 7.

Definition PML4_INDEX (addr : Z) : Z := Z.land (Z.shiftr addr 39) 0x1FF.
Definition PDPT_INDEX (addr : Z) : Z := Z.land (Z.shiftr addr 30) 0x1FF.
Definition PD_INDEX (addr : Z) : Z := Z.land (Z.shiftr addr 21) 0x1FF.
Definition PT_INDEX (addr : Z) : Z := Z.land (Z.shiftr addr 12) 0x1FF.

(** [x & ~0xFFF] on 64 bits and the test [x & FLAG]. *)
Definition frame_bits (x : Z) : Z := Z.land x (u64 (Z.lnot 0xFFF)).
Definition has (x flag : Z) : bool := negb (Z.land x flag =? 0).

Section vmm.
  Context {A : Type} `{!FrameAllocator A} {D : Type} `{!PortBus D}.

(** What the functions of [vmm.c] read and write: the frame allocator and the
    memory, their static variable, the processor's CR3, the console, and the
    addresses whose TLB entries have been invalidated. *)
Record vm := Vm {
  frames : A * mem;
  current_pml4_phys : Z;
  cr3 : Z;
  kcon : con D;
  tlb_flushed : list Z
}.

Definition set_frames (f : A * mem) (s : vm) : vm :=
  Vm f (current_pml4_phys s) (cr3 s) (kcon s) (tlb_flushed s).
Definition set_ram (m : mem) (s : vm) : vm := set_frames (fst (frames s), m) s.
Definition set_kcon (k : con D) (s : vm) : vm :=
  Vm (frames s) (current_pml4_phys s) (cr3 s) k (tlb_flushed s).
Definition ram (s : vm) : mem := snd (frames s).

Definition vmm_get_cr3 (s : vm) : Z := cr3 s.
Definition vmm_set_cr3 (v : Z) (s : vm) : vm :=
  Vm (frames s) (current_pml4_phys s) v (kcon s) (tlb_flushed s).
Definition vmm_invlpg (addr : Z) (s : vm) : vm :=
  Vm (frames s) (current_pml4_phys s) (cr3 s) (kcon s) (addr :: tlb_flushed s).

Definition vmm_init (s : vm) : vm :=
  Vm (frames s) (vmm_get_cr3 s) (cr3 s) (kcon s) (tlb_flushed s).

(** The loop that clears a new table. *)
Definition zero_table (t : Z) (m : mem) : mem :=
  for_range 0 512 (fun i m => st64 m (t + 8 * i) 0) m.

Definition parent_flags_of (flags : Z) : Z :=
  let parent_flags := Z.lor PAGE_PRESENT PAGE_WRITE in
  if has flags PAGE_USER then Z.lor parent_flags PAGE_USER else parent_flags.

(** One level of [vmm_get_pte_flags]: the table below entry [idx] of [table],
    created if it is missing; the code has this block three times. *)
Definition next_table (create : bool) (flags parent_flags table idx : Z) (st : A * mem)
    : option Z * (A * mem) :=
  let e := table + 8 * idx in
  if negb (has (ld64 (snd st) e) PAGE_PRESENT) then
    if negb create then (None, st)
    else
      let '(phys, (a, m)) := fa_alloc st in
      if phys =? 0 then (None, (a, m))
      else
        let m := zero_table phys m in
        let m := st64 m e (Z.lor phys parent_flags) in
        (Some (frame_bits (ld64 m e)), (a, m))
  else
    let '(a, m) := st in
    let m := if has flags PAGE_USER && negb (has (ld64 m e) PAGE_USER)
             then st64 m e (Z.lor (ld64 m e) PAGE_USER) else m in
    (Some (frame_bits (ld64 m e)), (a, m)).

(** The address of the page table entry of [virt_addr]; [None] is the null pointer. *)
Definition vmm_get_pte_flags (virt_addr : Z) (create : bool) (flags : Z) (s : vm) : option Z * vm :=
  let parent_flags := parent_flags_of flags in
  let '(pdpt, st) := next_table create flags parent_flags (current_pml4_phys s)
                       (PML4_INDEX virt_addr) (frames s) in
  match pdpt with
  | None => (None, set_frames st s)
  | Some pdpt =>
      let '(pd, st) := next_table create flags parent_flags pdpt (PDPT_INDEX virt_addr) st in
      match pd with
      | None => (None, set_frames st s)
      | Some pd =>
          let '(pt, st) := next_table create flags parent_flags pd (PD_INDEX virt_addr) st in
          match pt with
          | None => (None, set_frames st s)
          | Some pt => (Some (pt + 8 * PT_INDEX virt_addr), set_frames st s)
          end
      end
  end.

Definition vmm_get_pte (virt_addr : Z) (create : bool) : vm -> option Z * vm :=
  vmm_get_pte_flags virt_addr create 0.

Definition vmm_map_page (virt_addr phys_addr flags : Z) (s : vm) : vm :=
  let '(pte, s) := vmm_get_pte_flags virt_addr true flags s in
  match pte with
  | None => set_kcon (vga_println (str "[VMM] ERROR: Failed to get PTE!") (kcon s)) s
  | Some pte =>
      let s := set_ram (st64 (ram s) pte
                 (Z.lor (Z.lor (frame_bits phys_addr) flags) PAGE_PRESENT)) s in
      vmm_invlpg virt_addr s
  end.

Definition vmm_unmap_page (virt_addr : Z) (s : vm) : vm :=
  let '(pte, s) := vmm_get_pte virt_addr false s in
  match pte with
  | None => s
  | Some pte =>
      if negb (has (ld64 (ram s) pte) PAGE_PRESENT) then s
      else vmm_invlpg virt_addr (set_ram (st64 (ram s) pte 0) s)
  end.

Definition vmm_virt_to_phys (virt_addr : Z) (s : vm) : Z * vm :=
  let '(pte, s) := vmm_get_pte virt_addr false s in
  match pte with
  | None => (0, s)
  | Some pte =>
      if negb (has (ld64 (ram s) pte) PAGE_PRESENT) then (0, s)
      else (Z.lor (frame_bits (ld64 (ram s) pte)) (Z.land virt_addr 0xFFF), s)
  end.

(** ** The C expressions, as the MMU reads the entries *)

Lemma has_present e : has e PAGE_PRESENT = present e.
Proof. unfold has, PAGE_PRESENT. rewrite land_bit by lia. apply negb_involutive. Qed.

Lemma has_user e : has e PAGE_USER = user e.
Proof. unfold has, PAGE_USER. rewrite land_bit by lia. apply negb_involutive. Qed.

Lemma index_ix v :
  PML4_INDEX v = ix 4 v /\ PDPT_INDEX v = ix 3 v /\ PD_INDEX v = ix 2 v /\ PT_INDEX v = ix 1 v.
Proof.
  unfold PML4_INDEX, PDPT_INDEX, PD_INDEX, PT_INDEX, ix. change 0x1FF with (2 ^ 9 - 1).
  rewrite !land_ones_mod, !Z.shiftr_div_pow2 by lia. done.
Qed.

Lemma frame_bits_child e : 0 <= e < 2 ^ 64 -> frame_bits e = child e.
Proof. intros He. unfold frame_bits. change 0xFFF with (2 ^ 12 - 1). by apply land_mask_down. Qed.

(** An entry made of an aligned frame below 2^52 and low flag bits. *)
Lemma pte_value f w :
  f mod 4096 = 0 -> 0 <= f -> f + 4096 <= 2 ^ 52 -> 0 <= w < 4096 ->
  Z.lor f w = f + w /\ 0 <= Z.lor f w < 2 ^ 52 /\ child (Z.lor f w) = f /\
  forall n, 0 <= n < 12 -> Z.testbit (Z.lor f w) n = Z.testbit w n.
Proof.
  intros Hf H0 Hb Hw. rewrite (lor_add_disjoint 12) by (change (2 ^ 12) with 4096; lia || done).
  change (2 ^ 52) with 4503599627370496 in *.
  split; [done|]. split; [lia|]. split; [unfold child; change (2 ^ 12) with 4096; dlia|].
  intros n Hn. rewrite <- (Z.mod_pow2_bits_low (f + w) 12) by lia.
  rewrite <- (Z.mod_pow2_bits_low w 12) by lia. f_equal. change (2 ^ 12) with 4096. dlia.
Qed.

Lemma parent_flags_bits flags :
  0 <= parent_flags_of flags < 4096 /\ Z.testbit (parent_flags_of flags) 0 = true /\
  Z.testbit (parent_flags_of flags) 2 = has flags PAGE_USER /\
  Z.testbit (parent_flags_of flags) 7 = false.
Proof. unfold parent_flags_of. destruct (has flags PAGE_USER); split; try lia; done. Qed.

(** Setting the USER bit keeps the other bits. *)
Lemma lor_user e :
  0 <= e < 2 ^ 52 ->
  let e' := Z.lor e PAGE_USER in
  0 <= e' < 2 ^ 52 /\ child e' = child e /\ present e' = present e /\ user e' = true /\
  page_size_bit e' = page_size_bit e.
Proof.
  intros He e'. subst e'. unfold PAGE_USER. rewrite Z.shiftl_1_l.
  assert (Hn : 0 <= Z.lor e (2 ^ 2)) by (apply Z.lor_nonneg; lia).
  assert (Hb : forall n, 0 <= n -> Z.testbit (Z.lor e (2 ^ 2)) n = Z.testbit e n || (2 =? n)).
  { intros n Hn'. rewrite Z.lor_spec, Z.pow2_bits_eqb by lia. done. }
  repeat split; try done.
  - apply Z.bounded_iff_bits_nonneg'; [lia|exact Hn|]. intros l Hl. rewrite Hb by lia.
    rewrite (testbit_small 52 e l) by lia. apply Z.eqb_neq. lia.
  - unfold child. rewrite <- !land_lnot_ones by lia. zbit n Hn'.
    rewrite Z.pow2_bits_eqb by lia. change (2 ^ 12 - 1) with (Z.ones 12).
    destruct (Z.eqb_spec 2 n) as [<-|]; [by rewrite !andb_false_r|by rewrite orb_false_r].
  - unfold present. rewrite Hb by lia. apply orb_false_r.
  - unfold user. rewrite Hb by lia. apply orb_true_r.
  - unfold page_size_bit. rewrite Hb by lia. apply orb_false_r.
Qed.

Lemma zero_table_spec t m :
  only_in t (t + 4096) m (zero_table t m) /\
  forall i, 0 <= i < 512 -> entry (zero_table t m) t i = 0.
Proof.
  set (P := fun k m' => only_in t (t + 4096) m m' /\ forall i, 0 <= i < k -> entry m' t i = 0).
  cut (P 512 (zero_table t m)); [done|].
  apply (for_range_inv P); subst P; cbv beta; [lia|split; [done|intros; lia]|].
  intros i m' Hi [H1 H2]. split.
  - eapply only_in_trans; [exact H1|]. eapply only_in_weaken; [| |apply st64_only_in]; lia.
  - intros j Hj. unfold entry. destruct (decide (j = i)) as [->|]; [by rewrite ld64_st64|].
    rewrite ld64_st64_ne by lia. apply H2. lia.
Qed.

(** ** The invariant

    The tables form a tree [tab]; no table is a free frame or part of the
    allocator's data; and the addresses of [K], which some client owns, lie in
    none of the three. *)
Record vm_inv (tab : Z -> option (list Z)) (K : Z -> Prop) (root : Z) (st : A * mem) : Prop := {
  vi_fa : fa_inv st;
  vi_tree : tree tab (snd st) root;
  vi_free t p : tab t = Some p -> ~ fa_is_free st t;
  vi_foot t p x : tab t = Some p -> in_frame t x -> ~ fa_foot (fst st) x;
  vi_kept_foot x : K x -> ~ fa_foot (fst st) x;
  vi_kept_free x f : K x -> fa_is_free st f -> ~ in_frame f x;
  vi_kept_tab x t p : K x -> tab t = Some p -> ~ in_frame t x
}.

Definition vm_ok (K : Z -> Prop) (s : vm) : Prop :=
  exists tab, vm_inv tab K (current_pml4_phys s) (frames s).

(** What a step from [st] to [st'] that adds tables guarantees: existing tables
    stay, no translation changes, the bytes of [K] are kept, and at most [n]
    frames are taken. *)
Record grown (K : Z -> Prop) (root n : Z) (tab tab' : Z -> option (list Z)) (st st' : A * mem)
    : Prop := {
  gr_inv : vm_inv tab' K root st';
  gr_ext t p : tab t = Some p -> tab' t = Some p;
  gr_kept : agree_on K (snd st) (snd st');
  gr_leaf v : leaf 4 (snd st') root v = leaf 4 (snd st) root v;
  gr_count : fa_count st - n <= fa_count st' <= fa_count st;
  gr_managed g : fa_managed (fst st') g <-> fa_managed (fst st) g
}.

Lemma grown_refl K root tab st : vm_inv tab K root st -> grown K root 0 tab tab st st.
Proof. intros H. split; try done. lia. Qed.

Lemma grown_weaken K root n n' tab tab' st st' :
  n <= n' -> grown K root n tab tab' st st' -> grown K root n' tab tab' st st'.
Proof. intros Hn [H1 H2 H3 H4 H5 H6]. split; try done. lia. Qed.

Lemma grown_trans K root n n' tab tab' tab'' st st' st'' :
  grown K root n tab tab' st st' -> grown K root n' tab' tab'' st' st'' ->
  grown K root (n + n') tab tab'' st st''.
Proof.
  intros [H1 H2 H3 H4 H5 H6] [G1 G2 G3 G4 G5 G6]. split; [done|auto| | |lia|].
  - by eapply agree_on_trans.
  - intros v. by rewrite G4, H4.
  - intros g. by rewrite G6, H6.
Qed.

(** Frames are aligned, so distinct ones are disjoint. *)
Lemma frames_disjoint t f x : t mod 4096 = 0 -> f mod 4096 = 0 -> in_frame t x -> in_frame f x -> t = f.
Proof. unfold in_frame. intros. dlia. Qed.

Lemma slot_in_frame t i x : 0 <= i < 512 -> t + 8 * i <= x < t + 8 * i + 8 -> in_frame t x.
Proof. unfold in_frame. lia. Qed.

(** Writing one entry of a table. *)
Lemma inv_store tab K root a m t p i x :
  vm_inv tab K root (a, m) -> tab t = Some p -> 0 <= i < 512 -> 0 <= x < 2 ^ 64 ->
  let m' := st64 m (t + 8 * i) x in
  fa_inv (a, m') /\ (forall f, fa_is_free (a, m') f <-> fa_is_free (a, m) f) /\
  fa_count (a, m') = fa_count (a, m) /\ agree_on K m m' /\
  forall t' p' i', tab t' = Some p' -> 0 <= i' < 512 ->
    entry m' t' i' = if decide ((t, i) = (t', i')) then x else entry m t' i'.
Proof.
  intros Hinv Ht Hi Hx m'. subst m'.
  assert (Ho : agree_on (fun y => ~ in_frame t y) m (st64 m (t + 8 * i) x)).
  { eapply agree_on_weaken; [|apply st64_only_in]. intros y Hy. cbv beta.
    destruct (decide (t + 8 * i <= y < t + 8 * i + 8)); [|lia].
    destruct Hy. eapply slot_in_frame; done. }
  destruct (fa_stable a m (st64 m (t + 8 * i) x) (vi_fa _ _ _ _ Hinv)) as (H1 & H2 & H3).
  { eapply agree_on_weaken; [|exact Ho]. intros y Hy Hin.
    by eapply (vi_foot _ _ _ _ Hinv). }
  repeat split; try done; try apply H2.
  - eapply agree_on_weaken; [|exact Ho]. intros y Hy Hin. by eapply (vi_kept_tab _ _ _ _ Hinv).
  - intros t' p' i' Ht' Hi'. pose proof (vi_tree _ _ _ _ Hinv) as HT.
    destruct (tree_frame _ _ _ HT _ _ Ht) as [Ha _], (tree_frame _ _ _ HT _ _ Ht') as [Ha' _].
    rewrite entry_st by done. case_decide; [by apply u64_small|done].
Qed.

(** ... keeps the invariant if the new entry is sound. *)
Lemma inv_store_ok tab K root a m t p i x :
  vm_inv tab K root (a, m) -> tab t = Some p -> 0 <= i < 512 -> 0 <= x < 2 ^ 64 ->
  (present x = true -> x < 2 ^ 52 /\
     ((length p < 3)%nat -> big (4 - length p) x = false -> tab (child x) = Some (p ++ [i]))) ->
  vm_inv tab K root (a, st64 m (t + 8 * i) x).
Proof.
  intros Hinv Ht Hi Hx Hok. pose proof (vi_tree _ _ _ _ Hinv) as HT.
  destruct (inv_store tab K root a m t p i x Hinv Ht Hi Hx) as (H1 & H2 & _ & _ & He).
  split; simpl; try done.
  - split; try apply HT.
    + intros t' p' i' Ht' Hi'. simpl. rewrite (He t' p') by done. case_decide as E.
      * intros Hp. by apply Hok.
      * by apply (tree_bound _ _ _ HT t' p').
    + intros t' p' i' Ht' Hi'. simpl. rewrite (He t' p') by done. case_decide as E.
      * simplify_eq. intros Hp. by apply Hok.
      * by apply (tree_child _ _ _ HT t' p').
  - intros t' p' Ht'. rewrite H2. by apply (vi_free _ _ _ _ Hinv t' p').
  - apply (vi_foot _ _ _ _ Hinv).
  - apply (vi_kept_foot _ _ _ _ Hinv).
  - intros y f Hy. rewrite H2. by apply (vi_kept_free _ _ _ _ Hinv).
  - apply (vi_kept_tab _ _ _ _ Hinv).
Qed.

(** The condition on the entries of a path: the USER bit, if it is asked for. *)
Definition user_if (flags e : Z) : Prop := has flags PAGE_USER = true -> user e = true.

(** ** One level of the walk *)

(** The block that adds the USER bit to an existing entry. *)
Lemma grow_user tab K root a m t p i :
  vm_inv tab K root (a, m) -> tab t = Some p -> (length p < 3)%nat -> 0 <= i < 512 ->
  present (entry m t i) = true -> big (4 - length p) (entry m t i) = false ->
  let m' := st64 m (t + 8 * i) (Z.lor (entry m t i) PAGE_USER) in
  grown K root 0 tab tab (a, m) (a, m') /\ entry m' t i = Z.lor (entry m t i) PAGE_USER.
Proof.
  intros Hinv Ht Hl Hi Hp Hb m'. pose proof (vi_tree _ _ _ _ Hinv) as HT. simpl in HT.
  assert (He : 0 <= entry m t i < 2 ^ 52).
  { split; [apply entry_range|by apply (tree_bound _ _ _ HT t p)]. }
  destruct (lor_user _ He) as (U1 & U2 & U3 & U4 & U5).
  assert (Hx : 0 <= Z.lor (entry m t i) PAGE_USER < 2 ^ 64) by lia.
  destruct (inv_store tab K root a m t p i _ Hinv Ht Hi Hx) as (_ & _ & S3 & S4 & S5).
  fold m' in S3, S4, S5.
  assert (Hnew : entry m' t i = Z.lor (entry m t i) PAGE_USER).
  { rewrite (S5 t p i Ht Hi). by case_decide. }
  split; [|done]. split; simpl; [|done|done| |lia|done].
  - apply (inv_store_ok tab K root a m t p i); try done. intros _. split; [lia|].
    intros Hl' Hb'. rewrite U2. by eapply (tree_child _ _ _ HT).
  - intros v. apply (leaf_update tab m m' root t p i); try done.
    + intros t' p' i' Ht' Hi' Hne. rewrite (S5 t' p') by done. case_decide; congruence.
    + intros Hv. destruct (vpath_snoc p i v (S (length p)) (eq_sym Hv)) as (k & E & _ & _ & ->);
        [lia|]. simplify_eq.
      destruct (4 - length p)%nat as [|n] eqn:En; [done|]. cbn [leaf]. rewrite Hnew, U2, U3, Hp. cbn [negb].
      replace (big (S n) (Z.lor (entry m t (ix (S n) v)) PAGE_USER)) with false
        by (unfold big in *; by rewrite U5).
      rewrite Hb. destruct n as [|n]; [lia|]. cbn [Nat.eqb orb].
      eapply (leaf_below tab m m' root (length p)); try done.
      * intros t' p' i' Ht' Hd' Hi'. rewrite (S5 t' p') by done. case_decide; [|done].
        simplify_eq. lia.
      * eapply (tree_child _ _ _ HT t p); try done. by rewrite En.
      * rewrite length_app. simpl. lia.
      * rewrite length_app. simpl. lia.
Qed.

(** A frame taken from the allocator and cleared becomes a table. *)
Lemma add_frame tab K root st q :
  vm_inv tab K root st -> 0 < fa_count st -> (length q <= 3)%nat ->
  let '(f, (a1, m1)) := fa_alloc st in
  let m2 := zero_table f m1 in
  let tab' := fun t => if decide (t = f) then Some q else tab t in
  vm_inv tab' K root (a1, m2) /\ tab f = None /\ 0 < f /\
  fa_count (a1, m2) = fa_count st - 1 /\ agree_on K (snd st) m2 /\
  (forall t p i, tab t = Some p -> 0 <= i < 512 -> entry m2 t i = entry (snd st) t i) /\
  (forall i, 0 <= i < 512 -> entry m2 f i = 0) /\ f mod 4096 = 0 /\ f + 4096 <= 2 ^ 52 /\
  (forall g, fa_managed a1 g <-> fa_managed (fst st) g).
Proof.
  intros Hinv Hc Hq. pose proof (fa_alloc_some st (vi_fa _ _ _ _ Hinv) Hc) as Ha.
  destruct (fa_alloc st) as [f [a1 m1]].
  destruct Ha as (A1 & A2 & A3 & A4 & A5 & A6 & A7); simpl in A5, A6, A7.
  destruct (fa_free_addr st f (vi_fa _ _ _ _ Hinv) A1) as (F1 & F2 & F3).
  destruct (zero_table_spec f m1) as [Z1 Z2]. cbv zeta. revert Z1 Z2.
  generalize (zero_table f m1) as m2. intros m2 Z1 Z2. pose proof (vi_tree _ _ _ _ Hinv) as HT.
  assert (Hff : forall x, in_frame f x -> ~ fa_foot (fst st) x)
    by (intros x; apply fa_free_foot; [apply Hinv|done]).
  assert (Hft : tab f = None).
  { destruct (tab f) as [p|] eqn:E; [|done]. by destruct (vi_free _ _ _ _ Hinv _ _ E). }
  assert (Hz : forall P : Z -> Prop, (forall x, P x -> ~ in_frame f x) ->
    agree_on P m1 m2).
  { intros P HP. eapply agree_on_weaken; [|exact Z1]. intros x Hx. specialize (HP x Hx).
    cbv beta. unfold in_frame in HP. lia. }
  assert (Hag : forall P : Z -> Prop, (forall x, P x -> ~ fa_foot (fst st) x /\ ~ in_frame f x) ->
    agree_on P (snd st) m2).
  { intros P HP. eapply agree_on_trans; [|apply Hz; intros x Hx; by apply HP].
    eapply agree_on_weaken; [|exact A6]. intros x Hx. by apply HP. }
  destruct (fa_stable a1 m1 m2 A2) as (S1 & S2 & S3).
  { apply Hz. intros x Hx Hin. apply (Hff x Hin). by apply A5. }
  assert (He : forall t p i, tab t = Some p -> 0 <= i < 512 ->
    entry m2 t i = entry (snd st) t i).
  { intros t p i Ht Hi. eapply (entry_agree (in_frame t)); [|done|done].
    apply Hag. intros x Hx. split; [by apply (vi_foot _ _ _ _ Hinv t p x)|].
    intros Hx'. destruct (tree_frame _ _ _ HT _ _ Ht) as [Hal _].
    assert (t = f) by (by eapply frames_disjoint). congruence. }
  split; [|repeat split; try done; try apply A7; try lia].
  - split; simpl; [done| | | | | |].
    + split; simpl.
      * case_decide; [|apply HT]. subst. rewrite (tree_root _ _ _ HT) in Hft. done.
      * intros t p Ht. case_decide; [subst; split; [done|lia]|by eapply tree_frame].
      * intros t p Ht. case_decide; [by simplify_eq|by eapply tree_depth].
      * intros t p i Ht Hi. case_decide; [subst; by rewrite Z2|].
        rewrite (He t p) by done. by eapply tree_bound.
      * intros t p i Ht Hi. case_decide; [subst; by rewrite Z2|].
        rewrite (He t p) by done. intros Hp Hl Hb. case_decide as E.
        -- pose proof (tree_child _ _ _ HT t p i Ht Hi Hp Hl Hb). congruence.
        -- by eapply tree_child.
    + intros t p Ht. rewrite S2, A4. case_decide as E; [intros [_ Hne]; by apply Hne|].
      intros [? _]. by eapply (vi_free _ _ _ _ Hinv).
    + intros t p x Ht Hx. rewrite A5. case_decide; [subst; by apply Hff|].
      by eapply (vi_foot _ _ _ _ Hinv).
    + intros x Hx. rewrite A5. by apply (vi_kept_foot _ _ _ _ Hinv).
    + intros x g Hx. rewrite S2, A4. intros [? _]. by apply (vi_kept_free _ _ _ _ Hinv).
    + intros x t p Hx Ht. case_decide; [subst; by apply (vi_kept_free _ _ _ _ Hinv)|].
      by eapply (vi_kept_tab _ _ _ _ Hinv).
  - apply Hag. intros x Hx. split; [by apply (vi_kept_foot _ _ _ _ Hinv)|].
    by apply (vi_kept_free _ _ _ _ Hinv).
Qed.

(** The block that creates a missing table. *)
Lemma grow_new tab K root st t p i flags :
  vm_inv tab K root st -> 0 < fa_count st -> tab t = Some p -> (length p < 3)%nat -> 0 <= i < 512 ->
  present (entry (snd st) t i) = false ->
  let '(f, (a1, m1)) := fa_alloc st in
  let e := Z.lor f (parent_flags_of flags) in
  let m' := st64 (zero_table f m1) (t + 8 * i) e in
  0 < f /\ entry m' t i = e /\ child e = f /\ present e = true /\
  (forall n, big n e = false) /\ user_if flags e /\
  (forall t' p' i', tab t' = Some p' -> 0 <= i' < 512 -> (t', i') <> (t, i) ->
     entry m' t' i' = entry (snd st) t' i') /\
  exists tab', grown K root 1 tab tab' st (a1, m').
Proof.
  intros Hinv Hc Ht Hl Hi Hp. pose proof (vi_tree _ _ _ _ Hinv) as HT.
  pose proof (add_frame tab K root st (p ++ [i]) Hinv Hc) as Ha.
  destruct (fa_alloc st) as [f [a1 m1]].
  destruct Ha as (A1 & A2 & A3 & A4 & A5 & A6 & A7 & A8 & A9 & A10); [rewrite length_app; simpl; lia|].
  revert A1 A4 A5 A6 A7. generalize (zero_table f m1) as m2. intros m2 A1 A4 A5 A6 A7.
  set (tab' := fun t => if decide (t = f) then Some (p ++ [i]) else tab t) in *.
  destruct (parent_flags_bits flags) as (W1 & W2 & W3 & W4).
  destruct (pte_value f (parent_flags_of flags) A8 ltac:(lia) A9 W1) as (_ & V2 & V3 & V4).
  set (e := Z.lor f (parent_flags_of flags)) in *. cbv zeta.
  assert (Ht' : tab' t = Some p).
  { subst tab'. cbv beta. case_decide; [congruence|done]. }
  assert (Hx : 0 <= e < 2 ^ 64) by lia.
  destruct (inv_store tab' K root a1 m2 t p i e A1 Ht' Hi Hx) as (_ & _ & S3 & S4 & S5).
  assert (Hnew : entry (st64 m2 (t + 8 * i) e) t i = e).
  { rewrite (S5 t p i Ht' Hi). by case_decide. }
  assert (Hext : forall t p, tab t = Some p -> tab' t = Some p).
  { intros t1 p1 H1. subst tab'. cbv beta. case_decide; [congruence|done]. }
  assert (Hbig : forall n, big n e = false).
  { intros n. unfold big, page_size_bit. rewrite V4, W4 by lia. apply andb_false_r. }
  assert (Hpr : present e = true) by (unfold present; rewrite V4, W2 by lia; done).
  assert (Hus : user_if flags e).
  { unfold user_if, user. rewrite V4, W3 by lia. done. }
  assert (Hoth : forall t' p' i', tab t' = Some p' -> 0 <= i' < 512 -> (t', i') <> (t, i) ->
    entry (st64 m2 (t + 8 * i) e) t' i' = entry (snd st) t' i').
  { intros t' p' i' H' Hi' Hne. rewrite (S5 t' p') by auto. case_decide; [congruence|].
    by apply (A6 t' p'). }
  do 7 (split; [done|]). exists tab'. split; cbn [snd].
  - apply (inv_store_ok tab' K root a1 m2 t p i); try done. intros _. split; [lia|].
    intros _ _. rewrite V3. subst tab'. cbv beta. by case_decide.
  - done.
  - by eapply agree_on_trans.
  - intros v. apply (leaf_update tab (snd st) _ root t p i); try done.
    intros Hv. destruct (vpath_snoc p i v (S (length p)) (eq_sym Hv)) as (k & E & _ & _ & ->);
        [lia|]. simplify_eq.
      destruct (4 - length p)%nat as [|[|n]] eqn:En; [lia|lia|]. cbn [leaf]. rewrite Hp, Hnew, V3, Hpr, Hbig.
    cbn [negb Nat.eqb orb].
      rewrite (S5 f (p ++ [ix (S (S n)) v])); [|subst tab'; cbv beta; by case_decide|apply ix_range].
      case_decide as Etf; [inversion Etf; congruence|]. rewrite A7 by apply ix_range. done.
  - rewrite S3, A4. lia.
  - done.
Qed.

(** What [next_table] does on every branch, tables being created. *)
Lemma next_table_create tab K root st t p i flags :
  vm_inv tab K root st -> reach (user_if flags) (snd st) root p t ->
  (length p < 3)%nat -> 0 <= i < 512 ->
  (present (entry (snd st) t i) = true -> big (4 - length p) (entry (snd st) t i) = false) ->
  let '(r, st') := next_table true flags (parent_flags_of flags) t i st in
  match r with
  | None => st' = st /\ fa_count st <= 0
  | Some t' => exists tab', grown K root 1 tab tab' st st' /\
                 reach (user_if flags) (snd st') root (p ++ [i]) t'
  end.
Proof.
  intros Hinv Hr Hl Hi Hbig. pose proof (vi_tree _ _ _ _ Hinv) as HT.
  pose proof (reach_tab _ _ _ _ _ _ HT Hr) as Ht.
  unfold next_table. rewrite has_present. fold (entry (snd st) t i).
  destruct (present (entry (snd st) t i)) eqn:Ep; cbn [negb].
  - specialize (Hbig eq_refl). destruct st as [a m]. simpl in *. fold (entry m t i).
    rewrite (has_user (entry m t i)). destruct (has flags PAGE_USER && negb (user (entry m t i))) eqn:Eu.
    + destruct (grow_user tab K root a m t p i Hinv Ht Hl Hi Ep Hbig) as [G1 G2].
      set (m' := st64 _ _ _) in *. fold (entry m' t i).
      assert (Hb' : 0 <= entry m t i < 2 ^ 52).
      { split; [apply entry_range|by apply (tree_bound _ _ _ HT t p)]. }
      destruct (lor_user _ Hb') as (U1 & U2 & U3 & U4 & U5). rewrite <- G2 in U1, U2, U3, U4, U5.
      rewrite frame_bits_child by apply entry_range. exists tab. split.
      * by eapply grown_weaken; [|exact G1].
      * constructor; try done.
        -- apply (reach_stable _ tab m m' root p t (length p)); [done|done|lia|].
           intros t' p' i' H' Hlt Hi'.
           destruct (inv_store tab K root a m t p i (Z.lor (entry m t i) PAGE_USER) Hinv Ht Hi)
             as (_ & _ & _ & _ & S5); [rewrite <- G2; lia|].
           fold m' in S5. rewrite (S5 t' p') by done. case_decide; [|done]. simplify_eq. lia.
        -- by rewrite U3.
        -- unfold big in *. by rewrite U5.
        -- by intros _.
    + fold (entry m t i). rewrite frame_bits_child by apply entry_range. exists tab. split.
      * by eapply grown_weaken; [|apply grown_refl].
      * constructor; try done. intros Hf. rewrite Hf in Eu. by destruct (user (entry m t i)).
  - destruct (Z.le_gt_cases (fa_count st) 0) as [Hc|Hc].
    + rewrite fa_alloc_none by (apply Hinv || done). by destruct st.
    + pose proof (grow_new tab K root st t p i flags Hinv Hc Ht Hl Hi Ep) as HG.
      destruct (fa_alloc st) as [f [a1 m1]]. cbv zeta in HG |- *. revert HG.
      generalize (zero_table f m1) as m2. intros m2 HG.
      destruct HG as (G1 & G2 & G3 & Gp & Gb & Gu & Go & tab' & G4). destruct (Z.eqb_spec f 0); [lia|].
      set (m' := st64 _ _ _) in *. fold (entry m' t i).
      rewrite frame_bits_child by apply entry_range.
      exists tab'. split; [done|]. constructor; rewrite ?G2; try done.
      eapply (reach_stable _ tab (snd st)); [done|done|done|].
      intros t' p' i' H' Hlt Hi'. apply (Go t' p'); try done. intros E. simplify_eq. lia.
Qed.

(** ** The whole walk *)

Lemma no_big_level Q m root v k t :
  no_big m root v -> reach Q m root (take k (vpath v)) t -> (k < 3)%nat ->
  present (entry m t (ix (4 - k) v)) = true -> big (4 - k) (entry m t (ix (4 - k) v)) = false.
Proof.
  intros Hn Hr Hk Hp. destruct (big _ _) eqn:Eb; [|done]. exfalso.
  pose proof (leaf_reach Q m root v k t Hr ltac:(lia)) as Hl.
  unfold no_big in Hn. rewrite Hl in Hn. clear Hl Hr.
  destruct k as [|[|[|]]]; [done| | |lia]; simpl in *; rewrite Hp in Hn; simpl in Hn;
    rewrite Eb in Hn; by specialize (Hn _ _ eq_refl).
Qed.

Lemma no_big_leaf m m' root v :
  (forall v, leaf 4 m' root v = leaf 4 m root v) -> no_big m root v -> no_big m' root v.
Proof. intros H Hn n e. rewrite H. apply Hn. Qed.

(** [next_table_create] at depth [k] of the walk for [v]. *)
Lemma walk_step tab K root st t v k flags :
  vm_inv tab K root st -> no_big (snd st) root v ->
  reach (user_if flags) (snd st) root (take k (vpath v)) t -> (k < 3)%nat ->
  let '(r, st') := next_table true flags (parent_flags_of flags) t (ix (4 - k) v) st in
  match r with
  | None => st' = st /\ fa_count st <= 0
  | Some t' => exists tab', grown K root 1 tab tab' st st' /\ no_big (snd st') root v /\
                 reach (user_if flags) (snd st') root (take (S k) (vpath v)) t'
  end.
Proof.
  intros Hinv Hn Hr Hk.
  assert (Hlen : length (take k (vpath v)) = k) by (rewrite length_take; simpl; lia).
  pose proof (next_table_create tab K root st t _ (ix (4 - k) v) flags Hinv Hr) as H.
  rewrite Hlen in H. specialize (H Hk (ix_range _ _) (no_big_level _ _ _ _ _ _ Hn Hr Hk)).
  destruct (next_table _ _ _ _ _ _) as [[t'|] st']; [|done].
  destruct H as (tab' & H1 & H2). exists tab'. split; [done|]. split.
  - eapply no_big_leaf; [apply H1|done].
  - destruct k as [|[|[|]]]; [| | |lia]; exact H2.
Qed.

Lemma get_pte_create tab K s v flags :
  vm_inv tab K (current_pml4_phys s) (frames s) -> no_big (ram s) (current_pml4_phys s) v ->
  let '(r, s') := vmm_get_pte_flags v true flags s in
  s' = set_frames (frames s') s /\
  exists tab', grown K (current_pml4_phys s) 3 tab tab' (frames s) (frames s') /\
  match r with
  | None => fa_count (frames s') <= 0 /\ fa_count (frames s) < 3
  | Some pte => exists pt, pte = pt + 8 * ix 1 v /\
      reach (user_if flags) (ram s') (current_pml4_phys s) [ix 4 v; ix 3 v; ix 2 v] pt
  end.
Proof.
  intros Hinv Hn. unfold vmm_get_pte_flags, ram in *. cbv zeta.
  destruct (index_ix v) as (-> & -> & -> & ->).
  set (root := current_pml4_phys s) in *. set (st0 := frames s) in *.
  pose proof (walk_step tab K root st0 root v 0 flags Hinv Hn (reach_nil _ _ _) ltac:(lia)) as H1.
  change (4 - 0)%nat with 4%nat in H1.
  destruct (next_table _ _ _ root _ st0) as [[t1|] st1].
  2: { destruct H1 as [-> Hc]. split; [done|]. exists tab. simpl.
       split; [by eapply grown_weaken; [|apply grown_refl]|lia]. }
  destruct H1 as (tab1 & G1 & N1 & R1).
  pose proof (walk_step tab1 K root st1 t1 v 1 flags (gr_inv _ _ _ _ _ _ _ G1) N1 R1 ltac:(lia)) as H2.
  change (4 - 1)%nat with 3%nat in H2.
  destruct (next_table _ _ _ t1 _ st1) as [[t2|] st2].
  2: { destruct H2 as [-> Hc]. split; [done|]. exists tab1. simpl. pose proof (gr_count _ _ _ _ _ _ _ G1).
       split; [by eapply grown_weaken; [|exact G1]|lia]. }
  destruct H2 as (tab2 & G2 & N2 & R2).
  pose proof (walk_step tab2 K root st2 t2 v 2 flags (gr_inv _ _ _ _ _ _ _ G2) N2 R2 ltac:(lia)) as H3.
  change (4 - 2)%nat with 2%nat in H3.
  pose proof (grown_trans _ _ _ _ _ _ _ _ _ _ G1 G2) as G12.
  destruct (next_table _ _ _ t2 _ st2) as [[t3|] st3].
  2: { destruct H3 as [-> Hc]. split; [done|]. exists tab2. simpl. pose proof (gr_count _ _ _ _ _ _ _ G12).
       split; [by eapply grown_weaken; [|exact G12]|lia]. }
  destruct H3 as (tab3 & G3 & N3 & R3). split; [done|]. exists tab3. simpl.
  split; [exact (grown_trans _ _ _ _ _ _ _ _ _ _ G12 G3)|]. exists t3. done.
Qed.

(** Without creating tables the walk changes nothing and follows the MMU. *)
Lemma next_table_find root v k t p st :
  reach (fun _ => True) (snd st) root p t -> p = take k (vpath v) -> (k < 3)%nat ->
  no_big (snd st) root v ->
  exists r, next_table false 0 (parent_flags_of 0) t (ix (4 - k) v) st = (r, st) /\
  match r with
  | None => leaf 4 (snd st) root v = None
  | Some t' => reach (fun _ => True) (snd st) root (take (S k) (vpath v)) t'
  end.
Proof.
  intros Hr -> Hk Hn. unfold next_table. rewrite has_present.
  change (ld64 (snd st) (t + 8 * ix (4 - k) v)) with (entry (snd st) t (ix (4 - k) v)).
  pose proof (no_big_level _ _ _ _ _ _ Hn Hr Hk) as Hb.
  pose proof (leaf_reach _ _ _ _ _ _ Hr ltac:(lia)) as Hl.
  destruct (present (entry (snd st) t (ix (4 - k) v))) eqn:Ep; cbn [negb].
  - specialize (Hb eq_refl). destruct st as [a m]. cbn [snd] in *. cbn [has PAGE_USER].
    replace (has 0 PAGE_USER) with false by done. cbn [andb].
    rewrite frame_bits_child by apply ld64_range. eexists. split; [done|].
    assert (Hlen : length (take k (vpath v)) = k) by (rewrite length_take; simpl; lia).
    replace (take (S k) (vpath v)) with (take k (vpath v) ++ [ix (4 - k) v])
      by (destruct k as [|[|[|]]]; [| | |lia]; done).
    apply (reach_snoc (fun _ => True)); rewrite ?Hlen; try done. apply ix_range.
  - eexists. split; [done|]. cbv beta iota. rewrite Hl.
    destruct k as [|[|[|]]]; [| | |lia]; simpl in Ep |- *; by rewrite Ep.
Qed.

Lemma get_pte_find s v :
  no_big (ram s) (current_pml4_phys s) v ->
  exists r, vmm_get_pte v false s = (r, s) /\
  match r with
  | None => leaf 4 (ram s) (current_pml4_phys s) v = None
  | Some pte => exists pt, pte = pt + 8 * ix 1 v /\
      reach (fun _ => True) (ram s) (current_pml4_phys s) [ix 4 v; ix 3 v; ix 2 v] pt
  end.
Proof.
  intros Hn. unfold vmm_get_pte, vmm_get_pte_flags, ram in *. cbv zeta.
  destruct (index_ix v) as (-> & -> & -> & ->).
  destruct s as [st root c k l]; cbn [frames current_pml4_phys set_frames] in *.
  destruct (next_table_find root v 0 root [] st (reach_nil _ _ _)) as (r1 & E1 & H1); [done|lia|done|].
  change (4 - 0)%nat with 4%nat in E1. rewrite E1. destruct r1 as [t1|]; [|by eexists].
  destruct (next_table_find root v 1 t1 _ st H1) as (r2 & E2 & H2); [done|lia|done|].
  change (4 - 1)%nat with 3%nat in E2. rewrite E2. destruct r2 as [t2|]; [|by eexists].
  destruct (next_table_find root v 2 t2 _ st H2) as (r3 & E3 & H3); [done|lia|done|].
  change (4 - 2)%nat with 2%nat in E3. rewrite E3. destruct r3 as [t3|]; [|by eexists].
  eexists. split; [done|]. by exists t3.
Qed.

(** ** Writing the page table entry of an address *)

Lemma store_leaf tab K root a m v pt x Q :
  vm_inv tab K root (a, m) -> reach Q m root [ix 4 v; ix 3 v; ix 2 v] pt -> 0 <= x < 2 ^ 52 ->
  let m' := st64 m (pt + 8 * ix 1 v) x in
  vm_inv tab K root (a, m') /\ agree_on K m m' /\ fa_count (a, m') = fa_count (a, m) /\
  reach Q m' root [ix 4 v; ix 3 v; ix 2 v] pt /\
  leaf 4 m' root v = (if present x then Some (1%nat, x) else None) /\
  forall v', ~ same_page v v' -> leaf 4 m' root v' = leaf 4 m root v'.
Proof.
  intros Hinv Hr Hx m'. pose proof (vi_tree _ _ _ _ Hinv) as HT. simpl in HT.
  pose proof (reach_tab _ _ _ _ _ _ HT Hr) as Ht.
  assert (Hx' : 0 <= x < 2 ^ 64) by lia.
  pose proof (ix_range 1 v) as Hi.
  destruct (inv_store tab K root a m pt _ (ix 1 v) x Hinv Ht Hi Hx') as (_ & _ & S3 & S4 & S5).
  fold m' in S3, S4, S5.
  assert (Hr' : reach Q m' root [ix 4 v; ix 3 v; ix 2 v] pt).
  { eapply (reach_stable _ tab m m' root _ _ 3 HT Hr); [simpl; lia|].
    intros t p i H Hl Hi'. rewrite (S5 t p) by done. case_decide; [|done]. simplify_eq. simpl in Hl. lia. }
  split; [|split; [done|split; [done|split; [done|split]]]].
  - eapply inv_store_ok; try done. intros _. split; [lia|]. simpl. lia.
  - rewrite (leaf_reach _ _ _ _ 3 _ Hr') by lia. cbn [leaf Nat.sub Nat.eqb orb].
    rewrite (S5 pt _ _ Ht Hi). case_decide; [|done]. by destruct (present x).
  - intros v' Hne. apply (leaf_update tab m m' root pt _ (ix 1 v) HT Ht).
    + intros t p i H Hi' Hne'. rewrite (S5 t p) by done. case_decide; [congruence|done].
    + intros E. exfalso. apply Hne. symmetry. exact E.
Qed.

(** The translation and the permissions are those of the page. *)
Lemma leaf_same_page m root v v' : same_page v v' -> leaf 4 m root v = leaf 4 m root v'.
Proof. intros H. inversion H as [[H4 H3 H2 H1]]. cbn [leaf]. by rewrite H4, H3, H2, H1. Qed.

Lemma user_walk_leaf n m t v l e :
  leaf n m t v = Some (l, e) -> user e = false -> user_walk n m t v = false.
Proof.
  revert t. induction n as [|n IH]; intros t H He; [done|]. cbn [leaf user_walk] in *.
  destruct (present (entry m t (ix (S n) v))); [simpl in *|done].
  destruct ((n =? 0)%nat || big (S n) (entry m t (ix (S n) v))) eqn:E.
  - simplify_eq. by rewrite He.
  - rewrite (orb_false_l (user_walk _ _ _ _)), (IH _ H He), andb_false_r. done.
Qed.

(** The entry [vmm_map_page] writes. *)
Lemma map_entry phys flags :
  0 <= phys < 2 ^ 52 -> 0 <= flags < 4096 ->
  let x := Z.lor (Z.lor (frame_bits phys) flags) PAGE_PRESENT in
  0 <= x < 2 ^ 52 /\ child x = child phys /\ present x = true /\ user x = has flags PAGE_USER.
Proof.
  intros Hp Hf x. subst x. rewrite frame_bits_child by lia. rewrite <- Z.lor_assoc.
  assert (Hw : 0 <= Z.lor flags PAGE_PRESENT < 4096).
  { unfold PAGE_PRESENT. rewrite Z.shiftl_1_l. change 4096 with (2 ^ 12) in *. split.
    - apply Z.lor_nonneg. lia.
    - apply Z.bounded_iff_bits_nonneg'; [lia|apply Z.lor_nonneg; lia|]. intros l Hl.
      rewrite Z.lor_spec, Z.pow2_bits_false, (testbit_small 12 flags l) by lia. done. }
  change (2 ^ 52) with 4503599627370496 in Hp.
  destruct (pte_value (child phys) (Z.lor flags PAGE_PRESENT)) as (_ & V2 & V3 & V4); try done.
  - apply child_aligned.
  - unfold child. change (2 ^ 12) with 4096. dlia.
  - unfold child. change (2 ^ 12) with 4096. change (2 ^ 52) with 4503599627370496. dlia.
  - split; [done|]. split; [done|]. split.
    + unfold present. rewrite V4, Z.lor_spec by lia. apply orb_true_r.
    + rewrite has_user. unfold user. rewrite V4, Z.lor_spec by lia. apply orb_false_r.
Qed.

(** ** The operations *)

(** Everything [vmm_map_page] does on an address no big page maps. *)
Lemma map_page_cases K s v phys flags :
  vm_ok K s -> no_big (ram s) (current_pml4_phys s) v -> 0 <= phys < 2 ^ 52 -> 0 <= flags < 4096 ->
  let s' := vmm_map_page v phys flags s in
  let root := current_pml4_phys s in
  current_pml4_phys s' = root /\ cr3 s' = cr3 s /\ vm_ok K s' /\ agree_on K (ram s) (ram s') /\
  fa_count (frames s) - 3 <= fa_count (frames s') <= fa_count (frames s) /\
  (forall g, fa_managed (fst (frames s')) g <-> fa_managed (fst (frames s)) g) /\
  (forall v', ~ same_page v v' -> leaf 4 (ram s') root v' = leaf 4 (ram s) root v') /\
  ((exists x, leaf 4 (ram s') root v = Some (1%nat, x) /\ child x = child phys /\
      user_walk 4 (ram s') root v = has flags PAGE_USER /\
      kcon s' = kcon s /\ tlb_flushed s' = v :: tlb_flushed s) \/
   (fa_count (frames s) < 3 /\ fa_count (frames s') <= 0 /\
      leaf 4 (ram s') root v = leaf 4 (ram s) root v /\
      kcon s' = vga_println (str "[VMM] ERROR: Failed to get PTE!") (kcon s) /\
      tlb_flushed s' = tlb_flushed s)).
Proof.
  intros [tab Hinv] Hn Hp Hf. unfold vmm_map_page.
  pose proof (get_pte_create tab K s v flags Hinv Hn) as H.
  destruct (vmm_get_pte_flags v true flags s) as [r s1].
  destruct H as (E1 & tab' & G & H). destruct s1 as [[a m] root c k l].
  cbn [frames] in *. inversion E1 as [[Er Ec Ek El]]. subst root c k l.
  pose proof (gr_inv _ _ _ _ _ _ _ G) as Hinv'. unfold ram, vm_ok in *.
  destruct r as [pte|]; cbn -[leaf user_walk st64 vga_println str] in *.
  - destruct H as (pt & -> & Hr). destruct (map_entry phys flags Hp Hf) as (X1 & X2 & X3 & X4).
    set (x := Z.lor (Z.lor (frame_bits phys) flags) PAGE_PRESENT) in *.
    destruct (store_leaf tab' K _ a m v pt x _ Hinv' Hr X1) as (S1 & S2 & S3 & S4 & S5 & S6).
    rewrite X3 in S5. pose proof (gr_count _ _ _ _ _ _ _ G) as Hc.
    split; [done|]. split; [done|]. split; [by exists tab'|].
    split; [eapply agree_on_trans; [apply G|exact S2]|]. split; [by rewrite S3|]. split; [apply G|].
    split; [intros v' Hv'; rewrite S6 by done; apply G|].
    left. exists x. split; [done|]. split; [done|]. split; [|done].
    destruct (has flags PAGE_USER) eqn:Eu; [|by eapply user_walk_leaf].
    assert (Hru : reach (fun e => user e = true) (st64 m (pt + 8 * ix 1 v) x)
              (current_pml4_phys s) (take 3 (vpath v)) pt).
    { eapply reach_weaken; [|exact S4]. intros e He. by apply He. }
    rewrite (user_reach _ _ _ 3 _ Hru) by lia. rewrite (leaf_reach _ _ _ _ 3 _ Hru) in S5 by lia.
    cbn [leaf user_walk Nat.sub Nat.eqb orb] in S5 |- *.
    destruct (present (entry _ pt (ix 1 v))); [|done]. simpl in *. simplify_eq. rewrite S5. by rewrite X4.
  - destruct H as [Hc1 Hc2]. split; [done|]. split; [done|]. split; [by exists tab'|].
    split; [apply G|]. split; [apply G|]. split; [apply G|]. split; [intros; apply G|]. right.
    repeat split; try done. apply G.
Qed.

Lemma phys_of_page v x : phys_of v (1%nat, x) = child x + v mod 4096.
Proof. reflexivity. Qed.

(** The entry at the end of a successful walk, as the code reads it. *)
Lemma leaf_entry Q m root v pt :
  reach Q m root [ix 4 v; ix 3 v; ix 2 v] pt ->
  leaf 4 m root v = if present (entry m pt (ix 1 v)) then Some (1%nat, entry m pt (ix 1 v)) else None.
Proof.
  intros Hr. rewrite (leaf_reach Q m root v 3 pt Hr) by lia. cbn [leaf Nat.sub Nat.eqb orb].
  by destruct (present _).
Qed.

(** C1: given three free frames, [vmm_map_page] makes the MMU translate every
    address of the page to the frame, whatever tables were missing; it changes
    no other translation, keeps the invariant and the memory of others, and
    invalidates the TLB entry. *)
Theorem vmm_map_page_maps K s v phys flags :
  vm_ok K s -> no_big (ram s) (current_pml4_phys s) v -> 0 <= phys < 2 ^ 52 -> 0 <= flags < 4096 ->
  3 <= fa_count (frames s) ->
  let s' := vmm_map_page v phys flags s in
  let root := current_pml4_phys s in
  vm_ok K s' /\ agree_on K (ram s) (ram s') /\
  (forall v', same_page v v' -> translate (ram s') root v' = Some (child phys + v' mod 4096)) /\
  (forall v', ~ same_page v v' -> translate (ram s') root v' = translate (ram s) root v') /\
  kcon s' = kcon s /\ tlb_flushed s' = v :: tlb_flushed s.
Proof.
  intros Hok Hn Hp Hf Hc s' root.
  destruct (map_page_cases K s v phys flags Hok Hn Hp Hf) as (_ & _ & H1 & H2 & _ & _ & H4 & [H|H]);
    fold s' root in H1, H2, H4, H; [|lia].
  destruct H as (x & L1 & L2 & _ & L4 & L5). do 2 (split; [done|]). split; [|split].
  - intros v' Hv. unfold translate. rewrite <- (leaf_same_page _ _ v v' Hv), L1. simpl.
    by rewrite phys_of_page, L2.
  - intros v' Hv. unfold translate. by rewrite H4.
  - done.
Qed.

(** On every input [vmm_map_page] either maps the page or, the frames being
    exhausted, prints its error message and leaves every translation as it was;
    the invariant holds in both cases. *)
Theorem vmm_map_page_total K s v phys flags :
  vm_ok K s -> no_big (ram s) (current_pml4_phys s) v -> 0 <= phys < 2 ^ 52 -> 0 <= flags < 4096 ->
  let s' := vmm_map_page v phys flags s in
  let root := current_pml4_phys s in
  vm_ok K s' /\ agree_on K (ram s) (ram s') /\
  (translate (ram s') root v = Some (child phys + v mod 4096) /\ kcon s' = kcon s \/
   fa_count (frames s') <= 0 /\ fa_count (frames s) < 3 /\
   (forall v', translate (ram s') root v' = translate (ram s) root v') /\
   kcon s' = vga_println (str "[VMM] ERROR: Failed to get PTE!") (kcon s)).
Proof.
  intros Hok Hn Hp Hf s' root.
  destruct (map_page_cases K s v phys flags Hok Hn Hp Hf) as (_ & _ & H1 & H2 & _ & _ & H4 & [H|H]);
    fold s' root in H1, H2, H4, H; do 2 (split; [done|]).
  - destruct H as (x & L1 & L2 & _ & L4 & L5). left. split; [|done]. unfold translate.
    rewrite L1. simpl. by rewrite phys_of_page, L2.
  - destruct H as (F1 & F2 & F3 & F4 & _). right. repeat split; try done.
    intros v'. unfold translate. destruct (decide (same_page v v')) as [E|E]; [|by rewrite H4].
    by rewrite <- !(leaf_same_page _ _ v v' E), F3.
Qed.

(** C6: protection: a page mapped by [vmm_map_page] is accessible from user mode
    exactly when PAGE_USER is given, the bit being propagated to every level of
    the walk; and no page whose own entry lacks the bit becomes accessible. *)
Theorem vmm_map_page_user K s v phys flags :
  vm_ok K s -> no_big (ram s) (current_pml4_phys s) v -> 0 <= phys < 2 ^ 52 -> 0 <= flags < 4096 ->
  3 <= fa_count (frames s) ->
  let s' := vmm_map_page v phys flags s in
  let root := current_pml4_phys s in
  user_walk 4 (ram s') root v = has flags PAGE_USER /\
  forall v' l e, ~ same_page v v' -> leaf 4 (ram s) root v' = Some (l, e) -> user e = false ->
    user_walk 4 (ram s') root v' = false.
Proof.
  intros Hok Hn Hp Hf Hc s' root.
  destruct (map_page_cases K s v phys flags Hok Hn Hp Hf) as (_ & _ & _ & _ & _ & _ & H4 & [H|H]);
    fold s' root in H4, H; [|lia].
  destruct H as (x & _ & _ & L3 & _). split; [done|]. intros v' l e Hv Hl He.
  eapply user_walk_leaf; [|exact He]. rewrite H4 by done. exact Hl.
Qed.

(** [vmm_virt_to_phys] reads the leaf the MMU finds. *)
Lemma virt_to_phys_leaf s v :
  no_big (ram s) (current_pml4_phys s) v ->
  vmm_virt_to_phys v s =
    (match leaf 4 (ram s) (current_pml4_phys s) v with
     | Some (_, e) => child e + v mod 4096
     | None => 0
     end, s).
Proof.
  intros Hn. unfold vmm_virt_to_phys.
  destruct (get_pte_find s v Hn) as ([pte|] & -> & H); [|by rewrite H].
  destruct H as (pt & -> & Hr). rewrite (leaf_entry _ _ _ _ _ Hr), has_present.
  fold (entry (ram s) pt (ix 1 v)). destruct (present (entry (ram s) pt (ix 1 v))) eqn:Ep; [|done].
  cbn [negb]. rewrite frame_bits_child by apply entry_range.
  change 0xFFF with (2 ^ 12 - 1). rewrite land_ones_mod by lia. f_equal.
  apply (lor_add_disjoint 12); [lia|apply child_aligned|apply Z.mod_pos_bound; lia].
Qed.

(** C2: [vmm_virt_to_phys] is the MMU's translation, 0 standing for a fault, and
    changes nothing. *)
Theorem vmm_virt_to_phys_translate K s v :
  vm_ok K s -> no_big (ram s) (current_pml4_phys s) v ->
  vmm_virt_to_phys v s = (default 0 (translate (ram s) (current_pml4_phys s) v), s).
Proof.
  intros _ Hn. rewrite virt_to_phys_leaf by done. unfold translate.
  destruct (leaf 4 (ram s) (current_pml4_phys s) v) as [[l e]|] eqn:E; [|done].
  rewrite (Hn l e E). by rewrite <- phys_of_page.
Qed.

(** Everything [vmm_unmap_page] does on an address no big page maps. *)
Lemma unmap_page_cases K s v :
  vm_ok K s -> no_big (ram s) (current_pml4_phys s) v ->
  let s' := vmm_unmap_page v s in
  let root := current_pml4_phys s in
  current_pml4_phys s' = root /\ cr3 s' = cr3 s /\ kcon s' = kcon s /\
  vm_ok K s' /\ agree_on K (ram s) (ram s') /\ fa_count (frames s') = fa_count (frames s) /\
  leaf 4 (ram s') root v = None /\
  (forall v', ~ same_page v v' -> leaf 4 (ram s') root v' = leaf 4 (ram s) root v') /\
  fst (frames s') = fst (frames s) /\
  tlb_flushed s' = match leaf 4 (ram s) root v with
                   | Some _ => v :: tlb_flushed s | None => tlb_flushed s end.
Proof.
  intros [tab Hinv] Hn. unfold vmm_unmap_page. cbv zeta.
  destruct (get_pte_find s v Hn) as ([pte|] & -> & H).
  2: { rewrite H. split_and!; try done. by exists tab. }
  destruct H as (pt & -> & Hr). rewrite has_present. fold (entry (ram s) pt (ix 1 v)).
  pose proof (leaf_entry _ _ _ _ _ Hr) as Hl.
  destruct (present (entry (ram s) pt (ix 1 v))) eqn:Ep; cbn [negb].
  2: { rewrite Hl. split_and!; try done. by exists tab. }
  destruct s as [[a m] root c k l]. unfold ram, vm_ok in *.
  cbn -[leaf st64 entry] in *.
  destruct (store_leaf tab K _ a m v pt 0 _ Hinv Hr ltac:(lia)) as (S1 & S2 & S3 & S4 & S5 & S6).
  change (present 0) with false in S5.
  split_and!; try done; [by exists tab|by rewrite Hl].
Qed.

(** C5: after [vmm_unmap_page] the page faults and every other translation is as
    before; the TLB entry is invalidated if the page was mapped. *)
Theorem vmm_unmap_page_spec K s v :
  vm_ok K s -> no_big (ram s) (current_pml4_phys s) v ->
  let s' := vmm_unmap_page v s in
  let root := current_pml4_phys s in
  vm_ok K s' /\ agree_on K (ram s) (ram s') /\ fa_count (frames s') = fa_count (frames s) /\
  (forall v', translate (ram s') root v' =
     if decide (same_page v v') then None else translate (ram s) root v') /\
  tlb_flushed s' = match translate (ram s) root v with
                   | Some _ => v :: tlb_flushed s | None => tlb_flushed s end.
Proof.
  intros Hok Hn s' root.
  destruct (unmap_page_cases K s v Hok Hn) as (_ & _ & _ & H1 & H2 & H3 & H4 & H5 & _ & H6).
  fold s' root in H1, H2, H3, H4, H5, H6. do 3 (split; [done|]). unfold translate. split.
  - intros v'. case_decide as E; [by rewrite <- (leaf_same_page _ _ v v' E), H4|by rewrite H5].
  - rewrite H6. by destruct (leaf 4 (ram s) root v).
Qed.

(** ** Addresses inside a 2 MB page *)

Lemma next_table_present create flags pf t i st :
  present (entry (snd st) t i) = true -> has flags PAGE_USER = false ->
  next_table create flags pf t i st = (Some (child (entry (snd st) t i)), st).
Proof.
  intros Hp Hf. unfold next_table. rewrite has_present.
  change (ld64 (snd st) (t + 8 * i)) with (entry (snd st) t i). rewrite Hp. destruct st as [a m].
  cbn [negb snd] in *. rewrite Hf. cbn [andb]. by rewrite frame_bits_child by apply entry_range.
Qed.

Lemma get_pte_big create flags s v e :
  leaf 4 (ram s) (current_pml4_phys s) v = Some (2%nat, e) -> has flags PAGE_USER = false ->
  vmm_get_pte_flags v create flags s = (Some (child e + 8 * ix 1 v), s).
Proof.
  intros Hl Hf. unfold vmm_get_pte_flags. cbv zeta.
  destruct (index_ix v) as (-> & -> & -> & ->). unfold ram in Hl.
  destruct s as [st root c k l]. cbn [frames current_pml4_phys set_frames kcon cr3 tlb_flushed] in *.
  cbn [leaf] in Hl.
  destruct (present (entry (snd st) root (ix 4 v))) eqn:E4; [|done].
  rewrite next_table_present by done. simpl in Hl.
  set (t3 := child (entry (snd st) root (ix 4 v))) in *.
  destruct (present (entry (snd st) t3 (ix 3 v))) eqn:E3; [|done].
  rewrite next_table_present by done. simpl in Hl.
  destruct (big 3 (entry (snd st) t3 (ix 3 v))); [done|].
  set (t2 := child (entry (snd st) t3 (ix 3 v))) in *.
  destruct (present (entry (snd st) t2 (ix 2 v))) eqn:E2; [|done].
  rewrite next_table_present by done. simpl in Hl.
  destruct (big 2 (entry (snd st) t2 (ix 2 v))); [by simplify_eq|].
  by destruct (present (entry (snd st) _ (ix 1 v))).
Qed.

(** C15: where a 2 MB page maps the address (the boot identity mapping), the bit
    that says so is not checked: [vmm_map_page] takes the page for a page table
    and overwrites eight bytes of its contents; no translation changes, while
    [vmm_virt_to_phys] reports the mapping as made. *)
Theorem vmm_map_page_big tab s v phys flags e :
  let root := current_pml4_phys s in
  let slot := child e + 8 * ix 1 v in
  let s' := vmm_map_page v phys flags s in
  tree tab (ram s) root -> leaf 4 (ram s) root v = Some (2%nat, e) ->
  (forall t p x, tab t = Some p -> in_frame t x -> x < slot \/ slot + 8 <= x) ->
  0 <= phys < 2 ^ 52 -> 0 <= flags < 4096 -> has flags PAGE_USER = false ->
  ram s' = st64 (ram s) slot (Z.lor (Z.lor (frame_bits phys) flags) PAGE_PRESENT) /\
  (forall v', translate (ram s') root v' = translate (ram s) root v') /\
  fst (vmm_virt_to_phys v s') = child phys + v mod 4096.
Proof.
  intros root slot s' HT Hl Hslot Hp Hf Hu.
  destruct (map_entry phys flags Hp Hf) as (X1 & X2 & X3 & _).
  assert (E : s' = vmm_invlpg v (set_ram (st64 (ram s) slot
            (Z.lor (Z.lor (frame_bits phys) flags) PAGE_PRESENT)) s)).
  { subst s'. unfold vmm_map_page. by rewrite (get_pte_big true flags s v e Hl Hu). }
  set (x := Z.lor (Z.lor (frame_bits phys) flags) PAGE_PRESENT) in *.
  assert (Er : ram s' = st64 (ram s) slot x) by by rewrite E.
  assert (Hle : forall v', leaf 4 (ram s') root v' = leaf 4 (ram s) root v').
  { intros v'. apply (leaf_outside tab); [done|]. intros t p i Ht Hi. rewrite Er.
    apply (entry_agree (in_frame t)); [|done|done].
    eapply agree_on_weaken; [|apply st64_only_in]. intros y Hy. cbv beta.
    destruct (Hslot t p y Ht Hy); lia. }
  split; [done|]. split; [intros v'; unfold translate; by rewrite Hle|].
  unfold vmm_virt_to_phys, vmm_get_pte.
  rewrite (get_pte_big false 0 s' v e).
  - fold slot. rewrite Er. rewrite ld64_st64, u64_small by lia. rewrite has_present, X3. simpl.
    rewrite frame_bits_child, X2 by lia. change 0xFFF with (2 ^ 12 - 1).
    rewrite land_ones_mod by lia.
    apply (lor_add_disjoint 12); [lia|apply child_aligned|apply Z.mod_pos_bound; lia].
  - rewrite <- Hl, <- Hle. by rewrite E.
  - done.
Qed.

(** ** Taking a frame for other uses *)

(** The addresses of [K] and those of the frame at [f]. *)
Definition and_frame (K : Z -> Prop) (f x : Z) : Prop := K x \/ in_frame f x.

(** A frame a client allocates is kept from then on. *)
Lemma alloc_kept K s :
  vm_ok K s -> 0 < fa_count (frames s) ->
  let '(f, st) := fa_alloc (frames s) in
  let s' := set_frames st s in
  f mod 4096 = 0 /\ 0 < f /\ f + 4096 <= 2 ^ 52 /\ (forall x, in_frame f x -> ~ K x) /\
  vm_ok (and_frame K f) s' /\ agree_on K (ram s) (ram s') /\
  fa_count st = fa_count (frames s) - 1 /\
  fa_managed (fst st) f /\ (forall g, fa_managed (fst st) g <-> fa_managed (fst (frames s)) g) /\
  forall v, leaf 4 (ram s') (current_pml4_phys s) v = leaf 4 (ram s) (current_pml4_phys s) v.
Proof.
  intros [tab Hinv] Hc. pose proof (fa_alloc_some _ (vi_fa _ _ _ _ Hinv) Hc) as Ha.
  destruct (fa_alloc (frames s)) as [f [a1 m1]].
  destruct Ha as (A1 & A2 & A3 & A4 & A5 & A6 & A7). cbn [fst snd] in A5, A6, A7.
  destruct (fa_free_addr _ f (vi_fa _ _ _ _ Hinv) A1) as (F1 & F2 & F3).
  pose proof (vi_tree _ _ _ _ Hinv) as HT. cbv zeta. unfold ram. cbn [set_frames frames snd].
  assert (He : forall t p i, tab t = Some p -> 0 <= i < 512 ->
    entry m1 t i = entry (snd (frames s)) t i).
  { intros t p i Ht Hi. apply (entry_agree (fun x => ~ fa_foot (fst (frames s)) x)); [done|done|].
    intros x. by apply (vi_foot _ _ _ _ Hinv t p). }
  split_and!; try done; [| | |by apply A7, fa_free_managed; [apply Hinv|]|].
  - intros x Hx HK. by eapply (vi_kept_free _ _ _ _ Hinv).
  - exists tab. split; cbn [fst snd frames set_frames current_pml4_phys]; [done| | | | | |].
    + split; try apply HT.
      * intros t p i Ht Hi. rewrite (He t p) by done. by apply (tree_bound _ _ _ HT t p).
      * intros t p i Ht Hi. rewrite (He t p) by done. by apply (tree_child _ _ _ HT t p).
    + intros t p Ht. rewrite A4. intros [? _]. by eapply (vi_free _ _ _ _ Hinv).
    + intros t p x Ht Hx. rewrite A5. by eapply (vi_foot _ _ _ _ Hinv).
    + intros x [Hx|Hx]; rewrite A5; [by apply (vi_kept_foot _ _ _ _ Hinv)|].
      eapply fa_free_foot; [apply Hinv|done|done].
    + intros x g Hx Hg Hin. apply A4 in Hg as [Hg Hne]. destruct Hx as [Hx|Hx].
      * by apply (vi_kept_free _ _ _ _ Hinv x g).
      * destruct (fa_free_addr _ g (vi_fa _ _ _ _ Hinv) Hg) as (Hg1 & _).
        apply Hne. by apply (frames_disjoint g f x).
    + intros x t p [Hx|Hx] Ht Hin; [by apply (vi_kept_tab _ _ _ _ Hinv x t p)|].
      destruct (tree_frame _ _ _ HT _ _ Ht) as [Hal _].
      assert (t = f) by (by apply (frames_disjoint t f x)). subst.
      by apply (vi_free _ _ _ _ Hinv _ _ Ht).
  - eapply agree_on_weaken; [|exact A6]. apply (vi_kept_foot _ _ _ _ Hinv).
  - intros v. by apply (leaf_outside tab).
Qed.

(** Memory of [K], and of the free frames. *)
Definition spare (K : Z -> Prop) (st : A * mem) (x : Z) : Prop := K x \/ exists f, fa_is_free st f /\ in_frame f x.

Lemma spare_apart tab K root st x :
  vm_inv tab K root st -> spare K st x ->
  ~ fa_foot (fst st) x /\ forall t p, tab t = Some p -> ~ in_frame t x.
Proof.
  intros Hinv [Hx|(f & Hf & Hx)]; split.
  - by apply (vi_kept_foot _ _ _ _ Hinv).
  - intros t p. by apply (vi_kept_tab _ _ _ _ Hinv).
  - by apply (fa_free_foot st f x); [apply Hinv|..].
  - intros t p Ht Hin. destruct (fa_free_addr _ f (vi_fa _ _ _ _ Hinv) Hf) as (F1 & _).
    destruct (tree_frame _ _ _ (vi_tree _ _ _ _ Hinv) _ _ Ht) as [Hal _].
    assert (t = f) by (by apply (frames_disjoint t f x)). subst. by apply (vi_free _ _ _ _ Hinv _ _ Ht).
Qed.

(** Writes to memory a client owns, or to nobody's, are of no concern to the tables. *)
Lemma spare_write K s m' :
  vm_ok K s -> agree_on (fun x => ~ spare K (frames s) x) (ram s) m' ->
  vm_ok K (set_ram m' s) /\ fa_count (frames (set_ram m' s)) = fa_count (frames s) /\
  (forall f, fa_is_free (frames (set_ram m' s)) f <-> fa_is_free (frames s) f) /\
  (forall v, leaf 4 m' (current_pml4_phys s) v = leaf 4 (ram s) (current_pml4_phys s) v) /\
  forall v, user_walk 4 m' (current_pml4_phys s) v = user_walk 4 (ram s) (current_pml4_phys s) v.
Proof.
  intros [tab Hinv] Hm. destruct s as [[a m] root c k l]. unfold ram, set_ram, vm_ok in *. cbn [frames set_frames fst snd current_pml4_phys] in *.
  pose proof (vi_tree _ _ _ _ Hinv) as HT. cbn [snd] in HT.
  assert (He : forall t p i, tab t = Some p -> 0 <= i < 512 -> entry m' t i = entry m t i).
  { intros t p i Ht Hi. apply (entry_agree (fun x => ~ spare K (a, m) x)); [done|done|].
    intros x Hx HK. by apply (proj2 (spare_apart tab K root (a, m) x Hinv HK) t p). }
  destruct (fa_stable a m m' (vi_fa _ _ _ _ Hinv)) as (S1 & S2 & S3).
  { eapply agree_on_weaken; [|exact Hm]. intros x Hx HK. by apply (proj1 (spare_apart tab K root (a, m) x Hinv HK)). }
  split; [|split; [done|split; [done|split; intros v; [by apply (leaf_outside tab)|by apply (user_outside tab)]]]].
  exists tab. split; cbn [fst snd].
  - done.
  - split; try apply HT.
    + intros t p i Ht Hi. rewrite (He t p) by done. by apply (tree_bound _ _ _ HT t p).
    + intros t p i Ht Hi. rewrite (He t p) by done. by apply (tree_child _ _ _ HT t p).
  - intros t p Ht. rewrite S2. by apply (vi_free _ _ _ _ Hinv t p).
  - apply (vi_foot _ _ _ _ Hinv).
  - apply (vi_kept_foot _ _ _ _ Hinv).
  - intros x f Hx. rewrite S2. by apply (vi_kept_free _ _ _ _ Hinv).
  - apply (vi_kept_tab _ _ _ _ Hinv).
Qed.

Lemma kept_write K s m' :
  vm_ok K s -> agree_on (fun x => ~ K x) (ram s) m' ->
  vm_ok K (set_ram m' s) /\ fa_count (frames (set_ram m' s)) = fa_count (frames s) /\
  forall v, leaf 4 m' (current_pml4_phys s) v = leaf 4 (ram s) (current_pml4_phys s) v.
Proof.
  intros Hok Hm. destruct (spare_write K s m' Hok) as (W1 & W2 & _ & W3 & _); [|done].
  eapply agree_on_weaken; [|exact Hm]. intros x Hx HK. apply Hx. by left.
Qed.

(** A kept frame that is given back: it is kept no longer. *)
Lemma free_kept `{!PageManager A} K s f :
  vm_ok (and_frame K f) s -> f mod 4096 = 0 -> 0 < f -> fa_managed (fst (frames s)) f ->
  (forall x, in_frame f x -> ~ K x) ->
  let st := pm_free_page f (frames s) in
  let s' := set_frames st s in
  vm_ok K s' /\ agree_on K (ram s) (ram s') /\ fa_count st = fa_count (frames s) + 1 /\
  (forall g, fa_managed (fst st) g <-> fa_managed (fst (frames s)) g) /\
  forall v, leaf 4 (ram s') (current_pml4_phys s) v = leaf 4 (ram s) (current_pml4_phys s) v.
Proof.
  intros [tab Hinv] Hal Hf Hmg HK. pose proof (vi_tree _ _ _ _ Hinv) as HT.
  assert (Hin : in_frame f f) by (unfold in_frame; lia).
  assert (Hkf : and_frame K f f) by by right.
  destruct (pm_free_law f (frames s) (vi_fa _ _ _ _ Hinv) Hmg Hal Hf) as (A1 & A2 & A3 & A4 & A5 & A6).
  { intros Hfr. by apply (vi_kept_free _ _ _ _ Hinv f f). }
  { intros x Hx. apply (vi_kept_foot _ _ _ _ Hinv). by right. }
  cbv zeta. destruct (pm_free_page f (frames s)) as [a1 m1]. cbn [fst snd] in *. unfold ram.
  cbn [set_frames frames snd].
  assert (He : forall t p i, tab t = Some p -> 0 <= i < 512 -> entry m1 t i = entry (snd (frames s)) t i).
  { intros t p i Ht Hi. apply (entry_agree (fun x => ~ fa_foot (fst (frames s)) x)); [done|done|].
    intros x. by apply (vi_foot _ _ _ _ Hinv t p). }
  split; [|split; [|split; [done|split; [done|intros v; by apply (leaf_outside tab)]]]].
  2: { eapply agree_on_weaken; [|exact A6]. intros x Hx. apply (vi_kept_foot _ _ _ _ Hinv). by left. }
  exists tab. split; cbn [fst snd frames set_frames current_pml4_phys].
  - done.
  - split; try apply HT.
    + intros t p i Ht Hi. rewrite (He t p) by done. by apply (tree_bound _ _ _ HT t p).
    + intros t p i Ht Hi. rewrite (He t p) by done. by apply (tree_child _ _ _ HT t p).
  - intros t p Ht. rewrite A3. intros [Hfr| ->]; [by eapply (vi_free _ _ _ _ Hinv)|].
    by apply (vi_kept_tab _ _ _ _ Hinv f f p).
  - intros t p x Ht Hx. rewrite A4. by eapply (vi_foot _ _ _ _ Hinv).
  - intros x Hx. rewrite A4. apply (vi_kept_foot _ _ _ _ Hinv). by left.
  - intros x g Hx. rewrite A3. intros [Hfr| ->] Hxg; [|by apply (HK x)].
    apply (vi_kept_free _ _ _ _ Hinv x g); [by left|done|done].
  - intros x t p Hx. apply (vi_kept_tab _ _ _ _ Hinv). by left.
Qed.

End vmm.
(** ** Witnesses *)

(** All memory zero: an empty PML4 at 0x1000, the frames 16 to 31 free, and the
    page at 0x2000 in use by somebody. *)
Import BumpFrames.
Definition vm0 (free : Z) : vm (A := bump) (D := crtc_bus) :=
  Vm (Bump 16 (16 + free), Mem (fun _ => 0) ∅) 0x1000 0x1000 boot_con [].
Definition kept0 : Z -> Prop := in_frame 0x2000.

Lemma vm0_entry free t i : entry (ram (vm0 free)) t i = 0.
Proof. reflexivity. Qed.

Lemma vm0_leaf free v : leaf 4 (ram (vm0 free)) 0x1000 v = None.
Proof. reflexivity. Qed.

Lemma vm0_ok free : 0 <= free <= 16 -> vm_ok kept0 (vm0 free).
Proof.
  intros Hf. exists (fun t => if decide (t = 0x1000) then Some [] else None).
  assert (Hfree : forall f, fa_is_free (frames (vm0 free)) f -> 0x10000 <= f).
  { intros f [H1 H2]. simpl in H2. dlia. }
  split; [simpl; lia| | | | | |].
  - split; [done| | | |].
    + intros t p. case_decide; [subst; intros _; by vm_compute|done].
    + intros t p. case_decide; [|done]. intros; simplify_eq; simpl; lia.
    + by intros t p i _ _.
    + by intros t p i _ _.
  - intros t p Ht Hfr. apply Hfree in Hfr. case_decide; [lia|done].
  - intros t p x _ _ [].
  - intros x _ [].
  - unfold kept0, in_frame. intros x f Hx Hfr. apply Hfree in Hfr. lia.
  - unfold kept0, in_frame. intros x t p Hx Ht. case_decide; [lia|done].
Qed.

Lemma vm0_no_big free v : no_big (ram (vm0 free)) 0x1000 v.
Proof. intros n e. by rewrite vm0_leaf. Qed.

Definition v0 : Z := 0xFFFF800000001234.

Lemma vmm_map_page_maps_witness :
  translate (ram (vmm_map_page v0 0x2000 3 (vm0 16))) 0x1000 v0 = Some 0x2234 /\
  translate (ram (vmm_map_page v0 0x2000 3 (vm0 16))) 0x1000 0x400000 = None.
Proof.
  destruct (vmm_map_page_maps kept0 (vm0 16) v0 0x2000 3) as (_ & _ & H1 & H2 & _);
    [by apply vm0_ok|apply vm0_no_big|lia|lia|simpl; lia|].
  split; [exact (H1 v0 eq_refl)|]. refine (H2 0x400000 _). by vm_compute.
Defined.

(** Two free frames are not enough for the three tables. *)
Lemma vmm_map_page_total_witness :
  let s' := vmm_map_page v0 0x2000 3 (vm0 2) in
  fa_count (frames s') = 0 /\ vm_ok kept0 s' /\
  kcon s' = vga_println (str "[VMM] ERROR: Failed to get PTE!") boot_con.
Proof.
  destruct (vmm_map_page_total kept0 (vm0 2) v0 0x2000 3) as (H1 & _ & H);
    [by apply vm0_ok|apply vm0_no_big|lia|lia|].
  split; [vm_compute; reflexivity|]. split; [exact H1|].
  destruct H as [[H _]|(_ & _ & _ & H)]; [|exact H]. exfalso.
  assert (E : translate (ram (vmm_map_page v0 0x2000 3 (vm0 2))) 0x1000 v0 = None)
    by (vm_compute; reflexivity).
  pose proof (eq_trans (eq_sym E) H) as H'. discriminate H'.
Defined.

Lemma vmm_map_page_user_witness :
  user_walk 4 (ram (vmm_map_page v0 0x2000 7 (vm0 16))) 0x1000 v0 = true.
Proof.
  destruct (vmm_map_page_user kept0 (vm0 16) v0 0x2000 7) as (H1 & _);
    [by apply vm0_ok|apply vm0_no_big|lia|lia|simpl; lia|].
  transitivity (has 7 PAGE_USER); [exact H1|reflexivity].
Defined.

Lemma vmm_virt_to_phys_translate_witness : fst (vmm_virt_to_phys v0 (vm0 16)) = 0.
Proof.
  by rewrite (vmm_virt_to_phys_translate kept0 (vm0 16) v0 (vm0_ok 16 ltac:(lia)) (vm0_no_big 16 v0)).
Defined.

Lemma vmm_unmap_page_spec_witness :
  tlb_flushed (vmm_unmap_page v0 (vm0 16)) = [] /\
  translate (ram (vmm_unmap_page v0 (vm0 16))) 0x1000 v0 = None.
Proof.
  destruct (vmm_unmap_page_spec kept0 (vm0 16) v0 (vm0_ok 16 ltac:(lia)) (vm0_no_big 16 v0))
    as (_ & _ & _ & H1 & H2).
  split; [exact H2|exact (H1 v0)].
Defined.

End Vmm.
