(* ===== verification/Heap.v ===== *)
(** * The kernel heap ([mm/heap.h], [mm/heap.c])

    A bump allocator in the virtual range of 16 MB from [HEAP_START], whose
    pages are mapped as it grows; proved for any frame allocator. *)

From S2P Require Import Prelude Ports Vga Frames Mmu Vmm.
Import Vga Mmu Vmm.
Local Open Scope Z_scope.

Module Heap.

Definition HEAP_START : Z := 0xFFFF800000000000.
Definition HEAP_SIZE : Z := 16 * 1024 * 1024.

(** [x & ~15] and [x & ~0xFFF] on 64 bits. *)
Definition down16 (x : Z) : Z := Z.land x (u64 (Z.lnot 15)).
Definition down4k (x : Z) : Z := Z.land x (u64 (Z.lnot 0xFFF)).

Section heap.
  Context {A : Type} `{!FrameAllocator A} {D : Type} `{!PortBus D}.

(** The static variables, and the memory managers below. *)
Record heap := Heap { vmst : vm (A := A) (D := D); heap_current_ptr : Z; heap_total_alloc : Z }.

Definition set_vmst (s : vm) (h : heap) : heap := Heap s (heap_current_ptr h) (heap_total_alloc h).

Definition heap_init (h : heap) : heap := Heap (vmst h) HEAP_START 0.

(** One pass of the loop of [kmalloc]; [false] is the early return of NULL. *)
Definition ensure_page (page : Z) (s : vm) : bool * vm :=
  let '(phys, s) := vmm_virt_to_phys page s in
  if phys =? 0 then
    let '(phys_page, st) := fa_alloc (frames s) in
    let s := set_frames st s in
    if phys_page =? 0 then (false, s)
    else (true, vmm_map_page page phys_page (Z.lor PAGE_PRESENT PAGE_WRITE) s)
  else (true, s).

(** The loop [for (page = start_page; page < end_page; page += 0x1000)]. *)
Fixpoint map_pages (fuel : nat) (page end_page : Z) (s : vm) : bool * vm :=
  match fuel with
  | O => (true, s)
  | S fuel =>
      if page <? end_page then
        let '(ok, s) := ensure_page page s in
        if ok then map_pages fuel (u64 (page + 0x1000)) end_page s else (false, s)
      else (true, s)
  end.

(** The pages between two page addresses: enough fuel for the loop. *)
Definition page_fuel (start_page end_page : Z) : nat := Z.to_nat ((end_page - start_page) / 4096).

(** [kmalloc]: the address of the block, 0 for NULL. *)
Definition kmalloc (size : Z) (h : heap) : Z * heap :=
  if size =? 0 then (0, h)
  else
    let size := down16 (u64 (size + 15)) in
    let cur := heap_current_ptr h in
    if u64 (HEAP_START + HEAP_SIZE) <=? u64 (cur + size) then (0, h)
    else
      let start_addr := cur in
      let end_addr := u64 (cur + size) in
      let start_page := down4k start_addr in
      let end_page := down4k (u64 (end_addr + 0xFFF)) in
      let '(ok, s) := map_pages (page_fuel start_page end_page) start_page end_page (vmst h) in
      if negb ok then (0, set_vmst s h)
      else (cur, Heap s (u64 (cur + size)) (u64 (heap_total_alloc h + size))).

(** [kfree] does nothing. *)
Definition kfree (ptr : Z) (h : heap) : heap := h.

Definition heap_total_allocated (h : heap) : Z := heap_total_alloc h.
Definition heap_current_size (h : heap) : Z := u64 (heap_current_ptr h - HEAP_START).

(** ** The pages of the heap *)

(** Page [j] of the heap, 0 to 4095. *)
Definition hp (j : Z) : Z := HEAP_START + 4096 * j.

Lemma same_page_page v v' : v / 4096 = v' / 4096 -> same_page v v'.
Proof.
  intros H. unfold same_page, vpath, ix.
  change (12 + 9 * (Z.of_nat 4 - 1)) with (12 + 27). change (12 + 9 * (Z.of_nat 3 - 1)) with (12 + 18).
  change (12 + 9 * (Z.of_nat 2 - 1)) with (12 + 9). change (12 + 9 * (Z.of_nat 1 - 1)) with (12 + 0).
  rewrite !Z.pow_add_r by lia. change (2 ^ 12) with 4096.
  rewrite <- !Z.div_div by lia. by rewrite H.
Qed.

Lemma hp_inj j j' : 0 <= j < 4096 -> 0 <= j' < 4096 -> same_page (hp j) (hp j') -> j = j'.
Proof.
  intros Hj Hj' H. injection H as _ _ H2 H1. unfold ix, hp, HEAP_START in *.
  change (2 ^ (12 + 9 * (Z.of_nat 2 - 1))) with 2097152 in H2.
  change (2 ^ (12 + 9 * (Z.of_nat 1 - 1))) with 4096 in H1. dlia.
Qed.

Lemma hp_index j : 0 <= j < 4096 -> ix 4 (hp j) = 256.
Proof.
  intros Hj. unfold ix, hp, HEAP_START. change (2 ^ (12 + 9 * (Z.of_nat 4 - 1))) with 549755813888. dlia.
Qed.

(** What the heap owns: [F !! j] is the frame page [j] is mapped to. *)
Definition heap_kept (K : Z -> Prop) (F : gmap Z Z) (x : Z) : Prop :=
  K x \/ exists j f, 0 <= j < 4096 /\ F !! j = Some f /\ in_frame f x.

(** The pages of the heap are mapped as [F] says, to distinct frames that
    nobody else uses; [K] is the memory of others. *)
Record heap_inv (K : Z -> Prop) (F : gmap Z Z) (s : vm (A := A) (D := D)) : Prop := {
  hi_ok : vm_ok (heap_kept K F) s;
  hi_map j : 0 <= j < 4096 ->
    match F !! j with
    | Some f => exists x, leaf 4 (ram s) (current_pml4_phys s) (hp j) = Some (1%nat, x) /\ child x = f
    | None => leaf 4 (ram s) (current_pml4_phys s) (hp j) = None
    end;
  hi_inj j j' f : F !! j = Some f -> F !! j' = Some f -> j = j';
  hi_own j f x : F !! j = Some f -> in_frame f x -> ~ K x;
  hi_frame j f : F !! j = Some f -> 0 <= j < 4096 /\ f mod 4096 = 0 /\ 0 < f
}.

Lemma vm_ok_weaken (K K' : Z -> Prop) (s : vm (A := A) (D := D)) :
  (forall x, K' x -> K x) -> vm_ok K s -> vm_ok K' s.
Proof.
  intros H [tab [H1 H2 H3 H4 H5 H6 H7]]. exists tab. split; try done; intros; eauto.
Qed.

(** Only the tables, the frames and their contents matter. *)
Lemma vm_ok_same K (s s' : vm (A := A) (D := D)) :
  frames s' = frames s -> current_pml4_phys s' = current_pml4_phys s -> vm_ok K s -> vm_ok K s'.
Proof. intros E1 E2. unfold vm_ok. by rewrite E1, E2. Qed.

Lemma heap_inv_same K F (s s' : vm (A := A) (D := D)) :
  frames s' = frames s -> current_pml4_phys s' = current_pml4_phys s -> heap_inv K F s -> heap_inv K F s'.
Proof.
  intros E1 E2 [H1 H2 H3 H4 H5]. split; [by eapply vm_ok_same| |done|done|done].
  intros j Hj. unfold ram in *. rewrite E1, E2. by apply H2.
Qed.

Lemma hi_no_big K F s j : heap_inv K F s -> 0 <= j < 4096 -> no_big (ram s) (current_pml4_phys s) (hp j).
Proof.
  intros H Hj n e Hl. pose proof (hi_map _ _ _ H j Hj) as Hm. destruct (F !! j).
  - destruct Hm as (x & Hm & _). rewrite Hm in Hl. by simplify_eq.
  - by rewrite Hm in Hl.
Qed.

Lemma hp_mod j : hp j mod 4096 = 0.
Proof. unfold hp, HEAP_START. dlia. Qed.

(** The addresses of other pages. *)
Definition off_heap (v : Z) : Prop := forall j, 0 <= j < 4096 -> ~ same_page (hp j) v.

Lemma off_heap_index v : ix 4 v <> 256 -> off_heap v.
Proof. intros Hv j Hj E. apply Hv. rewrite <- (hp_index j Hj). by injection E. Qed.

(** What an operation that extends the heap guarantees to everybody else. *)
Record extends (K : Z -> Prop) (F F' : gmap Z Z) (s s' : vm (A := A) (D := D)) : Prop := {
  ex_inv : heap_inv K F' s';
  ex_map j f : F !! j = Some f -> F' !! j = Some f;
  ex_kept : agree_on (heap_kept K F) (ram s) (ram s');
  ex_root : current_pml4_phys s' = current_pml4_phys s;
  ex_cr3 : cr3 s' = cr3 s;
  ex_off v : off_heap v -> leaf 4 (ram s') (current_pml4_phys s) v = leaf 4 (ram s) (current_pml4_phys s) v
}.

Lemma extends_trans K F F' F'' s s' s'' :
  extends K F F' s s' -> extends K F' F'' s' s'' -> extends K F F'' s s''.
Proof.
  intros [H1 H2 H3 H4 H5 H6] [G1 G2 G3 G4 G5 G6]. split; [done|auto| |congruence..|].
  - eapply agree_on_trans; [exact H3|]. eapply agree_on_weaken; [|exact G3].
    intros x [Hx|(j & f & Hj & Hf & Hx)]; [by left|right; exists j, f; auto].
  - intros v Hv. rewrite <- H6, <- H4 by done. by apply G6.
Qed.

(** Adding page [j], mapped to a fresh frame [f]. *)
Lemma heap_inv_insert K F (s s' : vm (A := A) (D := D)) j f x :
  heap_inv K F s -> 0 <= j < 4096 -> F !! j = None ->
  f mod 4096 = 0 -> 0 < f -> (forall x, in_frame f x -> ~ heap_kept K F x) ->
  current_pml4_phys s' = current_pml4_phys s ->
  vm_ok (and_frame (heap_kept K F) f) s' ->
  leaf 4 (ram s') (current_pml4_phys s) (hp j) = Some (1%nat, x) -> child x = f ->
  (forall v', ~ same_page (hp j) v' ->
     leaf 4 (ram s') (current_pml4_phys s) v' = leaf 4 (ram s) (current_pml4_phys s) v') ->
  heap_inv K (<[j := f]> F) s'.
Proof.
  intros Hi Hj HF Hf1 Hf2 Hfr Hroot Hok Hl Hc Hoth.
  assert (Hne : forall j', F !! j' <> Some f).
  { intros j' Hj'. destruct (hi_frame _ _ _ Hi j' f Hj') as (Hj1 & _).
    apply (Hfr f); [unfold in_frame; lia|]. right. exists j', f.
    split; [done|]. split; [done|unfold in_frame; lia]. }
  split.
  - eapply vm_ok_weaken; [|exact Hok]. intros y [Hy|(j1 & f1 & Hj1 & Hf & Hy)]; [by left; left|].
    destruct (decide (j = j1)) as [->|E].
    + rewrite lookup_insert_eq in Hf. simplify_eq. by right.
    + rewrite lookup_insert_ne in Hf by done. left. right. by exists j1, f1.
  - intros j1 Hj1. rewrite Hroot. destruct (decide (j = j1)) as [->|E].
    + rewrite lookup_insert_eq. by exists x.
    + rewrite lookup_insert_ne by done. rewrite Hoth; [by apply (hi_map _ _ _ Hi)|].
      intros E'. apply E. by apply hp_inj.
  - intros j1 j2 g. rewrite !lookup_insert. repeat case_decide; intros; simplify_eq; try done.
    + by destruct (Hne j2).
    + by destruct (Hne j1).
    + by apply (hi_inj _ _ _ Hi j1 j2 g).
  - intros j1 g y. rewrite lookup_insert. case_decide; intros; simplify_eq.
    + intros HK. by apply (Hfr y); [|left].
    + by eapply (hi_own _ _ _ Hi).
  - intros j1 g. rewrite lookup_insert. case_decide; intros; simplify_eq; [done|].
    by eapply (hi_frame _ _ _ Hi).
Qed.

(** One page: given four free frames it ends up mapped. *)
Lemma ensure_page_spec K F s j :
  heap_inv K F s -> 0 <= j < 4096 -> 4 <= fa_count (frames s) ->
  exists s' F', ensure_page (hp j) s = (true, s') /\ extends K F F' s s' /\
    F' !! j <> None /\ fa_count (frames s) - 4 <= fa_count (frames s') /\
    kcon s' = kcon s.
Proof.
  intros Hi Hj Hc. pose proof (hi_no_big K F s j Hi Hj) as Hn. pose proof (hi_map _ _ _ Hi j Hj) as Hm.
  unfold ensure_page. rewrite (virt_to_phys_leaf s (hp j) Hn), hp_mod.
  destruct (F !! j) as [f|] eqn:Ef.
  { destruct Hm as (x & -> & ->). destruct (hi_frame _ _ _ Hi j f Ef) as (_ & _ & Hf).
    destruct (Z.eqb_spec (f + 0) 0); [lia|]. exists s, F. split; [done|]. split; [by split|].
    rewrite Ef. split; [done|]. split; [lia|done]. }
  rewrite Hm. cbn [Z.eqb].
  pose proof (alloc_kept _ s (hi_ok _ _ _ Hi) ltac:(lia)) as Ha.
  destruct (fa_alloc (frames s)) as [f st].
  destruct Ha as (A1 & A2 & A3 & A4 & A5 & A6 & A7 & _ & _ & A8).
  set (s1 := set_frames st s) in *. destruct (Z.eqb_spec f 0); [lia|].
  assert (Hn1 : no_big (ram s1) (current_pml4_phys s1) (hp j)) by (by eapply no_big_leaf; [apply A8|]).
  destruct (map_page_cases _ s1 (hp j) f (Z.lor PAGE_PRESENT PAGE_WRITE) A5 Hn1)
    as (M1 & M1' & M2 & M3 & M4 & _ & M5 & [M6|M6]); [lia|by vm_compute| |].
  2: { destruct M6 as [M6 _]. cbn [frames set_frames s1] in M6. lia. }
  set (s2 := vmm_map_page _ _ _ s1) in *. destruct M6 as (x & L1 & L2 & _ & L3 & _).
  assert (Hcf : child f = f) by (unfold child; change (2 ^ 12) with 4096; lia).
  exists s2, (<[j := f]> F). split; [done|].
  split; [|split; [by rewrite lookup_insert_eq|split; [cbn [frames set_frames s1] in M4; lia|done]]].
  split; [| | |done|done|].
  - apply (heap_inv_insert K F s s2 j f x); try done; [by rewrite L2|].
    intros v' Hv'. rewrite M5 by done. apply A8.
  - intros j' f' Hf'. rewrite lookup_insert_ne; [done|]. intros <-. congruence.
  - eapply agree_on_trans; [exact A6|]. eapply agree_on_weaken; [|exact M3]. intros y. by left.
  - intros v Hv. rewrite M5 by (by apply Hv). apply A8.
Qed.

Lemma extends_refl K F s : heap_inv K F s -> extends K F F s s.
Proof. by split. Qed.

Lemma hp_range j : 0 <= j <= 4096 -> 0 < HEAP_START <= hp j /\ hp j < 2 ^ 64 - 4096.
Proof. unfold hp, HEAP_START. lia. Qed.

(** The loop of [kmalloc] over the pages [j] to [e - 1]. *)
Lemma map_pages_spec K fuel : forall j e F s,
  heap_inv K F s -> 0 <= j -> e <= 4096 -> e - j <= Z.of_nat fuel ->
  4 * (e - j) <= fa_count (frames s) ->
  exists s' F', map_pages fuel (hp j) (hp e) s = (true, s') /\ extends K F F' s s' /\
    (forall i, j <= i < e -> F' !! i <> None) /\ kcon s' = kcon s /\
    fa_count (frames s) - 4 * Z.max 0 (e - j) <= fa_count (frames s').
Proof.
  induction fuel as [|fuel IH]; intros j e F s Hi Hj He Hf Hc; cbn [map_pages].
  { exists s, F. split; [done|]. split; [by apply extends_refl|]. split; [lia|]. split; [done|lia]. }
  destruct (Z.ltb_spec (hp j) (hp e)) as [Hlt|Hge].
  2: { exists s, F. split; [done|]. split; [by apply extends_refl|]. unfold hp in Hge. split; [lia|]. split; [done|lia]. }
  unfold hp in Hlt.
  destruct (ensure_page_spec K F s j Hi) as (s1 & F1 & -> & H1 & H2 & H3 & H4); [lia|lia|].
  pose proof (hp_range j ltac:(lia)). rewrite u64_small by lia.
  replace (hp j + 0x1000) with (hp (j + 1)) by (unfold hp; lia).
  destruct (IH (j + 1) e F1 s1) as (s2 & F2 & -> & G1 & G2 & G3 & G4);
    [apply H1|lia|lia|lia|lia|].
  exists s2, F2. split; [done|]. split; [by eapply extends_trans|]. split; [|split; [congruence|lia]].
  intros i Hij. destruct (decide (i = j)) as [->|]; [|apply G2; lia].
  destruct (F1 !! j) as [f|] eqn:E; [|done]. by rewrite (ex_map _ _ _ _ _ G1 j f E).
Qed.

(** ** The allocator *)

Definition heap_ok (K : Z -> Prop) (F : gmap Z Z) (h : heap) : Prop :=
  heap_inv K F (vmst h) /\
  HEAP_START <= heap_current_ptr h < HEAP_START + HEAP_SIZE /\
  heap_current_ptr h mod 16 = 0 /\
  heap_total_alloc h = heap_current_ptr h - HEAP_START /\
  forall j, 0 <= j -> hp j < heap_current_ptr h -> F !! j <> None.

(** The empty heap. *)
Lemma heap_init_ok K s p a :
  vm_ok K s -> (forall j, 0 <= j < 4096 -> leaf 4 (ram s) (current_pml4_phys s) (hp j) = None) ->
  heap_ok K ∅ (heap_init (Heap s p a)).
Proof.
  intros Hs Hl. split; [split|]; cbn [heap_init vmst heap_current_ptr heap_total_alloc].
  - eapply vm_ok_weaken; [|exact Hs]. intros x [Hx|(j & f & _ & Hx & _)]; [done|].
    by rewrite lookup_empty in Hx.
  - intros j Hj. rewrite lookup_empty. by apply Hl.
  - intros j j' f H. by rewrite lookup_empty in H.
  - intros j f x H. by rewrite lookup_empty in H.
  - intros j f H. by rewrite lookup_empty in H.
  - split; [by vm_compute|]. split; [done|]. split; [done|]. unfold hp. lia.
Qed.

(** The size of a block, and the number of pages it touches at [cur]. *)
Definition round16 (size : Z) : Z := (size + 15) / 16 * 16.
Definition pages_of (cur sz : Z) : Z := (cur + sz + 4095) / 4096 - cur / 4096.

Lemma down16_round size : 0 <= size < 2 ^ 64 - 15 -> down16 (u64 (size + 15)) = round16 size.
Proof.
  intros H. rewrite u64_small by lia. unfold down16, round16. change 15 with (2 ^ 4 - 1) at 2.
  rewrite land_mask_down by lia. change (2 ^ 4) with 16. dlia.
Qed.

Lemma down4k_hp x : HEAP_START <= x < 2 ^ 64 -> down4k x = hp ((x - HEAP_START) / 4096).
Proof.
  intros H. unfold down4k, hp. change 0xFFF with (2 ^ 12 - 1).
  rewrite land_mask_down by (unfold HEAP_START in *; lia). unfold HEAP_START. change (2 ^ 12) with 4096. dlia.
Qed.

(** The physical address of a byte of the heap. *)
Lemma heap_translate K F s v f :
  heap_inv K F s -> F !! ((v - HEAP_START) / 4096) = Some f ->
  translate (ram s) (current_pml4_phys s) v = Some (f + v mod 4096).
Proof.
  intros Hi Hf. set (j := (v - HEAP_START) / 4096) in *.
  destruct (hi_frame _ _ _ Hi j f Hf) as (Hj & _). pose proof (hi_map _ _ _ Hi j Hj) as Hm.
  rewrite Hf in Hm. destruct Hm as (x & Hl & <-). unfold translate.
  rewrite <- (leaf_same_page _ _ (hp j) v), Hl; [done|].
  apply same_page_page. unfold hp. subst j. unfold HEAP_START. dlia.
Qed.

(** The body of [kmalloc] for a request with room, its pages by number. *)
Lemma kmalloc_loop K F h size :
  heap_ok K F h -> 0 < size <= 2 ^ 46 ->
  let cur := heap_current_ptr h in
  cur + round16 size < HEAP_START + HEAP_SIZE ->
  exists fuel j e, 0 <= j /\ e <= 4096 /\ e - j <= Z.of_nat fuel /\
    pages_of cur (round16 size) = e - j /\ j = (cur - HEAP_START) / 4096 /\
    (forall i, j <= i < e <-> exists v, cur <= v < cur + round16 size /\ i = (v - HEAP_START) / 4096) /\
    kmalloc size h = let '(ok, s) := map_pages fuel (hp j) (hp e) (vmst h) in
      if negb ok then (0, set_vmst s h)
      else (cur, Heap s (cur + round16 size) (u64 (heap_total_alloc h + round16 size))).
Proof.
  intros (Hi & Hcur & H16 & _) Hs cur Hlt. unfold kmalloc. fold cur in Hcur, H16 |- *.
  set (sz := round16 size) in *.
  assert (Hsz : size <= sz < size + 16 /\ sz mod 16 = 0) by (subst sz; unfold round16; dlia).
  destruct (Z.eqb_spec size 0); [lia|]. rewrite down16_round by lia. fold sz.
  assert (Hr : 0 <= cur + sz < 2 ^ 64 - 4096) by (unfold HEAP_START, HEAP_SIZE in *; lia).
  rewrite (u64_small (HEAP_START + HEAP_SIZE)), (u64_small (cur + sz)) by (unfold HEAP_START, HEAP_SIZE; lia).
  destruct (Z.leb_spec (HEAP_START + HEAP_SIZE) (cur + sz)) as [|_]; [lia|].
  rewrite (u64_small (cur + sz + 0xFFF)) by lia.
  rewrite (down4k_hp cur), (down4k_hp (cur + sz + 0xFFF)) by (unfold HEAP_START, HEAP_SIZE in *; lia).
  set (j := (cur - HEAP_START) / 4096). set (e := (cur + sz + 0xFFF - HEAP_START) / 4096).
  exists (page_fuel (hp j) (hp e)), j, e. split; [subst j; unfold HEAP_START in *; dlia|].
  split; [subst e; unfold HEAP_START, HEAP_SIZE in *; dlia|]. split; [unfold page_fuel, hp; dlia|].
  split; [subst j e; unfold pages_of, HEAP_START; dlia|]. split; [done|]. split; [|done].
  intros i. split.
  - intros Hij. exists (Z.max cur (hp i)). subst j e. unfold hp, HEAP_START in *. dlia.
  - intros (v & Hv & ->). subst j e. unfold HEAP_START in *. dlia.
Qed.

(** What [kmalloc] does on every branch without overflow. *)
Lemma kmalloc_effect K F h size :
  heap_ok K F h -> 0 < size <= 2 ^ 46 ->
  let cur := heap_current_ptr h in
  let sz := round16 size in
  let '(p, h') := kmalloc size h in
  if HEAP_START + HEAP_SIZE <=? cur + sz then p = 0 /\ h' = h
  else 4 * pages_of cur sz <= fa_count (frames (vmst h)) ->
    p = cur /\ p mod 16 = 0 /\ heap_current_ptr h' = p + sz /\ size <= sz < size + 16 /\
    kcon (vmst h') = kcon (vmst h) /\ current_pml4_phys (vmst h') = current_pml4_phys (vmst h) /\ cr3 (vmst h') = cr3 (vmst h) /\
    fa_count (frames (vmst h)) - 4 * pages_of cur sz <= fa_count (frames (vmst h')) /\
    exists F', heap_ok K F' h' /\ F ⊆ F' /\
      agree_on (heap_kept K F) (ram (vmst h)) (ram (vmst h')) /\
      (forall v, off_heap v -> leaf 4 (ram (vmst h')) (current_pml4_phys (vmst h)) v =
                               leaf 4 (ram (vmst h)) (current_pml4_phys (vmst h)) v) /\
      forall v, p <= v < p + sz -> exists f, F' !! ((v - HEAP_START) / 4096) = Some f /\
        translate (ram (vmst h')) (current_pml4_phys (vmst h')) v = Some (f + v mod 4096).
Proof.
  intros Hh Hs cur sz. pose proof Hh as (Hi & Hcur & H16 & Htot & Hmap). fold cur in Hcur, H16, Htot, Hmap.
  assert (Hsz : size <= sz < size + 16 /\ sz mod 16 = 0) by (subst sz; unfold round16; dlia).
  destruct (Z.leb_spec (HEAP_START + HEAP_SIZE) (cur + sz)) as [Hge|Hlt].
  { unfold kmalloc. fold cur. destruct (Z.eqb_spec size 0); [lia|]. rewrite down16_round by lia. fold sz.
    rewrite !u64_small by (unfold HEAP_START, HEAP_SIZE in *; lia). by destruct (Z.leb_spec (HEAP_START + HEAP_SIZE) (cur + sz)); [|lia]. }
  destruct (kmalloc_loop K F h size Hh Hs Hlt) as (nf & j & e & Hj & He & Hn & Hp & Ej & Hin & ->). fold cur sz in Hp, Ej, Hin |- *.
  pose proof (map_pages_spec K nf j e F (vmst h) Hi Hj He Hn) as Hl. rewrite <- Hp in Hl.
  destruct (map_pages nf (hp j) (hp e) (vmst h)) as [ok s']. destruct ok; cbn [negb]; intros Hc;
    destruct (Hl Hc) as (s1 & F1 & E & H1 & H2 & H3 & H4); [|done]. injection E as ->.
  assert (Hall : forall i, 0 <= i -> hp i < cur + sz -> F1 !! i <> None).
  { intros i Hi0 Hi1. destruct (Z.lt_ge_cases i j) as [Hij|Hij].
    - destruct (F !! i) as [f|] eqn:Ef; [by rewrite (ex_map _ _ _ _ _ H1 i f Ef)|].
      exfalso. apply (Hmap i Hi0); [|done]. unfold hp, HEAP_START in *. dlia.
    - apply H2, Hin. exists (Z.max cur (hp i)). unfold hp, HEAP_START in *. dlia. }
  assert (Hb : HEAP_START + HEAP_SIZE < 2 ^ 64) by by vm_compute.
  split; [done|]. split; [done|]. cbn [heap_current_ptr vmst].
  split; [done|]. split; [lia|]. split; [done|]. split; [apply H1|]. split; [apply H1|].
  split; [assert (0 <= pages_of cur sz) by (clear - Hsz Hs; unfold pages_of; dlia); cbn [vmst]; lia|]. exists F1. split; [|split; [|split; [|split]]].
  - split; [apply H1|]. cbn [heap_current_ptr heap_total_alloc]. rewrite u64_small by (unfold HEAP_START, HEAP_SIZE in *; lia).
    split; [lia|]. split; [clear - H16 Hsz; dlia|]. split; [lia|exact Hall].
  - apply map_subseteq_spec. intros i f. apply H1.
  - apply H1.
  - apply H1.
  - intros v Hv. set (i := (v - HEAP_START) / 4096).
    destruct (F1 !! i) as [f|] eqn:Ef.
    + exists f. split; [done|]. by apply (heap_translate K F1 s1 v f); [apply H1|].
    + exfalso. apply (Hall i); [subst i; dlia| |done]. subst i. unfold hp. dlia.
Qed.

(** A page of the heap is mapped exactly if [F] has it. *)
Lemma heap_unmapped K F s v :
  heap_inv K F s -> HEAP_START <= v < HEAP_START + HEAP_SIZE ->
  (translate (ram s) (current_pml4_phys s) v = None <-> F !! ((v - HEAP_START) / 4096) = None).
Proof.
  intros Hi Hv. destruct (F !! _) as [f|] eqn:E; [by rewrite (heap_translate K F s v f)|].
  split; [done|]. intros _. set (j := (v - HEAP_START) / 4096) in *.
  assert (Hj : 0 <= j < 4096) by (subst j; unfold HEAP_SIZE in Hv; dlia).
  pose proof (hi_map _ _ _ Hi j Hj) as Hm. rewrite E in Hm. unfold translate.
  rewrite <- (leaf_same_page _ _ (hp j) v), Hm; [done|].
  apply same_page_page. unfold hp. subst j. unfold HEAP_START. dlia.
Qed.

(** A page that is mapped is left alone, whatever frames there are; one that is
    not stops the loop when there is no frame. *)
Lemma ensure_page_mapped K F s j : heap_inv K F s -> 0 <= j < 4096 -> F !! j <> None -> ensure_page (hp j) s = (true, s).
Proof.
  intros Hi Hj HF. pose proof (hi_map _ _ _ Hi j Hj) as Hm. unfold ensure_page.
  rewrite (virt_to_phys_leaf s (hp j) (hi_no_big K F s j Hi Hj)), hp_mod.
  destruct (F !! j) as [f|] eqn:Ef; [|done]. destruct Hm as (x & -> & ->).
  destruct (hi_frame _ _ _ Hi j f Ef) as (_ & _ & Hf). by destruct (Z.eqb_spec (f + 0) 0); [lia|].
Qed.

Lemma ensure_page_full K F s j :
  heap_inv K F s -> 0 <= j < 4096 -> F !! j = None -> fa_count (frames s) <= 0 -> ensure_page (hp j) s = (false, s).
Proof.
  intros Hi Hj HF Hc. pose proof (hi_map _ _ _ Hi j Hj) as Hm. unfold ensure_page.
  rewrite (virt_to_phys_leaf s (hp j) (hi_no_big K F s j Hi Hj)), hp_mod. rewrite HF in Hm. rewrite Hm. cbn [Z.eqb].
  destruct (hi_ok _ _ _ Hi) as [tab Ht]. rewrite (fa_alloc_none _ (vi_fa _ _ _ _ Ht) Hc). by destruct s.
Qed.

Lemma map_pages_mapped K F s e : heap_inv K F s -> e <= 4096 -> forall fuel j, 0 <= j ->
  (forall i, j <= i < e -> F !! i <> None) -> map_pages fuel (hp j) (hp e) s = (true, s).
Proof.
  intros Hi He fuel. induction fuel as [|fuel IH]; intros j Hj HF; cbn [map_pages]; [done|].
  destruct (Z.ltb_spec (hp j) (hp e)) as [Hlt|]; [|done]. unfold hp in Hlt.
  rewrite (ensure_page_mapped K F s j Hi) by (try apply HF; lia). pose proof (hp_range j ltac:(lia)).
  rewrite u64_small by lia. replace (hp j + 0x1000) with (hp (j + 1)) by (unfold hp; lia).
  apply IH; [lia|]. intros i Hr. apply HF. lia.
Qed.

Lemma map_pages_full K F s e : heap_inv K F s -> fa_count (frames s) <= 0 -> e <= 4096 -> forall fuel j, 0 <= j ->
  e - j <= Z.of_nat fuel -> (exists i, j <= i < e /\ F !! i = None) -> map_pages fuel (hp j) (hp e) s = (false, s).
Proof.
  intros Hi Hc He fuel. induction fuel as [|fuel IH]; intros j Hj Hf (i & Hr & HF); cbn [map_pages]; [lia|].
  destruct (Z.ltb_spec (hp j) (hp e)) as [Hlt|Hge]; [|unfold hp in Hge; lia].
  destruct (F !! j) as [f|] eqn:E.
  - rewrite (ensure_page_mapped K F s j Hi) by (try congruence; lia). pose proof (hp_range j ltac:(lia)).
    rewrite u64_small by lia. replace (hp j + 0x1000) with (hp (j + 1)) by (unfold hp; lia).
    apply IH; [lia|lia|]. exists i. split; [|done]. assert (i <> j) by congruence. lia.
  - by rewrite (ensure_page_full K F s j Hi ltac:(lia) E Hc).
Qed.

(** C16: [kmalloc], on every branch without overflow.  Size 0 and a request
    beyond the 16 MB are refused without effect.  Any other request yields NULL
    with the heap pointer kept, or the block at the heap pointer, which moves
    behind it.  With four free frames per page it is the block: 16-byte aligned,
    every byte of it mapped, the heap consistent, and all memory in use keeps
    its contents and, for heap addresses, its place.  With no free frame it is
    NULL, without any effect, if some byte of the block is not mapped yet; and
    when all of it is mapped the block, without use of a frame.  (Between these,
    see [kmalloc_unmapped].) *)
Theorem kmalloc_spec K F h size :
  heap_ok K F h -> 0 <= size <= 2 ^ 46 ->
  let cur := heap_current_ptr h in
  let sz := round16 size in
  let tr := translate (ram (vmst h)) (current_pml4_phys (vmst h)) in
  let '(p, h') := kmalloc size h in
  (size = 0 \/ HEAP_START + HEAP_SIZE <= cur + sz -> p = 0 /\ h' = h) /\
  (0 < size -> cur + sz < HEAP_START + HEAP_SIZE ->
    size <= sz < size + 16 /\
    (p = 0 /\ heap_current_ptr h' = cur \/ p = cur /\ heap_current_ptr h' = cur + sz) /\
    (4 * pages_of cur sz <= fa_count (frames (vmst h)) ->
      p = cur /\ p mod 16 = 0 /\ exists F', heap_ok K F' h' /\ F ⊆ F' /\
      agree_on (heap_kept K F) (ram (vmst h)) (ram (vmst h')) /\
      forall v, p <= v < p + sz -> exists f, F' !! ((v - HEAP_START) / 4096) = Some f /\
        translate (ram (vmst h')) (current_pml4_phys (vmst h')) v = Some (f + v mod 4096)) /\
    (fa_count (frames (vmst h)) <= 0 -> (exists v, cur <= v < cur + sz /\ tr v = None) -> p = 0 /\ h' = h) /\
    ((forall v, cur <= v < cur + sz -> tr v <> None) -> p = cur /\ vmst h' = vmst h)).
Proof.
  intros Hh Hs cur sz tr. destruct (Z.eq_dec size 0) as [->|Hne]; [split; [by intros _|lia]|].
  assert (Hs' : 0 < size <= 2 ^ 46) by lia. pose proof (kmalloc_effect K F h size Hh Hs') as H. cbv zeta in H. fold cur sz in H.
  destruct (Z.leb_spec (HEAP_START + HEAP_SIZE) (cur + sz)) as [Hge|Hlt];
    [destruct (kmalloc size h); split; [done|lia]|].
  destruct (kmalloc_loop K F h size Hh Hs' Hlt) as (fuel & j & e & Hj & He & Hf & _ & _ & Hp & E). fold cur sz in E, Hp.
  assert (Hmap : forall v, cur <= v < cur + sz -> (tr v = None <-> F !! ((v - HEAP_START) / 4096) = None)).
  { intros v Hv. apply heap_unmapped with K; [apply Hh|]. destruct Hh as (_ & Hcur & _). lia. }
  pose proof (map_pages_full K F (vmst h) e (proj1 Hh)) as Hfull.
  pose proof (map_pages_mapped K F (vmst h) e (proj1 Hh) He fuel j Hj) as Hall.
  destruct (kmalloc size h) as [p h']. split; [lia|]. intros _ _.
  split; [subst sz; unfold round16; dlia|]. split; [|split; [|split]].
  - destruct (map_pages fuel (hp j) (hp e) (vmst h)) as [[] s]; cbn [negb] in E; injection E as -> ->; [by right|by left].
  - intros Hc. destruct (H Hc) as (H1 & H2 & _ & _ & _ & _ & _ & _ & F' & H5 & H6 & H7 & _ & H8).
    do 2 (split; [done|]). by exists F'.
  - intros Hc (v & Hv & Htr). rewrite (Hfull Hc He fuel j Hj Hf) in E; [by injection E as -> ->; destruct h|].
    exists ((v - HEAP_START) / 4096). split; [apply Hp; by exists v|by apply Hmap].
  - intros Htr. rewrite Hall in E; [by injection E as -> ->|]. intros i Hr HF.
    apply Hp in Hr as (v & Hv & ->). by apply (Htr v Hv), Hmap.
Qed.

(** A request there is room and memory for. *)
Lemma kmalloc_more K F h size :
  heap_ok K F h -> 0 < size <= 2 ^ 46 ->
  let cur := heap_current_ptr h in
  cur + round16 size < HEAP_START + HEAP_SIZE ->
  4 * pages_of cur (round16 size) <= fa_count (frames (vmst h)) ->
  exists h' F', kmalloc size h = (cur, h') /\ heap_ok K F' h' /\ F ⊆ F' /\
    heap_current_ptr h' = cur + round16 size /\
    kcon (vmst h') = kcon (vmst h) /\ current_pml4_phys (vmst h') = current_pml4_phys (vmst h) /\
    cr3 (vmst h') = cr3 (vmst h) /\
    fa_count (frames (vmst h)) - 4 * pages_of cur (round16 size) <= fa_count (frames (vmst h')) /\
    agree_on (heap_kept K F) (ram (vmst h)) (ram (vmst h')) /\
    forall v, off_heap v -> leaf 4 (ram (vmst h')) (current_pml4_phys (vmst h)) v =
                            leaf 4 (ram (vmst h)) (current_pml4_phys (vmst h)) v.
Proof.
  intros Hh Hs cur Hroom Hc. pose proof (kmalloc_effect K F h size Hh Hs) as H. cbv zeta in H. fold cur in H.
  destruct (kmalloc size h) as [p h']. destruct (Z.leb_spec (HEAP_START + HEAP_SIZE) (cur + round16 size)); [lia|].
  destruct (H Hc) as (-> & _ & H3 & _ & H4 & H5 & H6 & H7 & F' & H8 & H9 & H10 & H11 & _).
  exists h', F'. by split_and!.
Qed.

(** ** The contents *)

Lemma in_frame_offset f v : in_frame f (f + v mod 4096).
Proof. unfold in_frame. dlia. Qed.

Lemma heap_mapped K F h v :
  heap_ok K F h -> HEAP_START <= v < heap_current_ptr h -> exists f, F !! ((v - HEAP_START) / 4096) = Some f.
Proof.
  intros (Hi & Hcur & _ & _ & Hmap) Hv. destruct (F !! _) as [f|] eqn:E; [by exists f|]. exfalso.
  apply (Hmap ((v - HEAP_START) / 4096)); [dlia|unfold hp; dlia|done].
Qed.

(** No two bytes lie at the same place. *)
Lemma heap_place_inj K F (s : vm) v v' f f' :
  heap_inv K F s -> F !! ((v - HEAP_START) / 4096) = Some f -> F !! ((v' - HEAP_START) / 4096) = Some f' ->
  f + v mod 4096 = f' + v' mod 4096 -> v = v'.
Proof.
  intros Hi Ef Ef' E.
  destruct (hi_frame _ _ _ Hi _ _ Ef) as (_ & Hm & _), (hi_frame _ _ _ Hi _ _ Ef') as (_ & Hm' & _).
  assert (f = f') as <-.
  { apply (frames_disjoint f f' (f + v mod 4096)); [done|done|apply in_frame_offset|rewrite E; apply in_frame_offset]. }
  pose proof (hi_inj _ _ _ Hi _ _ _ Ef Ef'). unfold HEAP_START in *. dlia.
Qed.

(** The byte at a virtual address. *)
Definition peek (s : vm (A := A) (D := D)) (v : Z) : option Z :=
  option_map (rd (ram s)) (translate (ram s) (current_pml4_phys s) v).

Lemma peek_heap K F (s : vm) v f : heap_inv K F s -> F !! ((v - HEAP_START) / 4096) = Some f ->
  peek s v = Some (rd (ram s) (f + v mod 4096)).
Proof. intros Hi Hf. unfold peek. by rewrite (heap_translate K F s v f). Qed.

(** Whatever extends the heap keeps its contents. *)
Lemma peek_extends K F F' h (s' : vm) v :
  heap_ok K F h -> heap_inv K F' s' -> F ⊆ F' -> agree_on (heap_kept K F) (ram (vmst h)) (ram s') ->
  HEAP_START <= v < heap_current_ptr h -> peek s' v = peek (vmst h) v.
Proof.
  intros Hh Hi' HF Ha Hv. destruct (heap_mapped K F h v Hh Hv) as [f Ef]. pose proof Hh as (Hi & _).
  rewrite (peek_heap K F _ _ _ Hi Ef), (peek_heap K F' _ _ f Hi'); [|by eapply lookup_weaken].
  f_equal. apply Ha. right. destruct (hi_frame _ _ _ Hi _ _ Ef) as [Hj _].
  eexists _, f. split; [exact Hj|]. split; [exact Ef|apply in_frame_offset].
Qed.

(** Writing a byte of the heap changes that byte only. *)
Lemma heap_write K F h v x :
  heap_ok K F h -> HEAP_START <= v < heap_current_ptr h ->
  exists p, translate (ram (vmst h)) (current_pml4_phys (vmst h)) v = Some p /\
    let s' := set_ram (wr (ram (vmst h)) p x) (vmst h) in
    heap_ok K F (set_vmst s' h) /\ agree_on K (ram (vmst h)) (ram s') /\
    fa_count (frames s') = fa_count (frames (vmst h)) /\
    (forall u, leaf 4 (ram s') (current_pml4_phys (vmst h)) u = leaf 4 (ram (vmst h)) (current_pml4_phys (vmst h)) u) /\
    peek s' v = Some (u8 x) /\
    forall u, HEAP_START <= u < heap_current_ptr h -> u <> v -> peek s' u = peek (vmst h) u.
Proof.
  intros Hh Hv. pose proof Hh as (Hi & Hrest). destruct (heap_mapped K F h v Hh Hv) as [f Ef].
  exists (f + v mod 4096). split; [by apply (heap_translate K F)|]. cbv zeta.
  assert (Hown : heap_kept K F (f + v mod 4096)).
  { right. destruct (hi_frame _ _ _ Hi _ _ Ef) as [Hj _]. eexists _, f. split; [exact Hj|].
    split; [exact Ef|apply in_frame_offset]. }
  destruct (kept_write (heap_kept K F) (vmst h) (wr (ram (vmst h)) (f + v mod 4096) x) (hi_ok _ _ _ Hi))
    as (W1 & W2 & W3).
  { intros y Hy. apply rd_wr_ne. by intros <-. }
  set (s' := set_ram _ _) in *.
  assert (Hi' : heap_inv K F s').
  { destruct Hi as [I1 I2 I3 I4 I5]. split; try done. intros j Hj.
    change (current_pml4_phys s') with (current_pml4_phys (vmst h)). change (ram s') with (wr (ram (vmst h)) (f + v mod 4096) x).
    rewrite W3. by apply I2. }
  split; [by split|]. split; [intros y Hy; apply rd_wr_ne; intros <-; exact (hi_own _ _ _ Hi _ _ _ Ef (in_frame_offset f v) Hy)|].
  split; [done|]. split; [exact W3|]. split.
  - rewrite (peek_heap K F s' v f Hi' Ef). f_equal. apply rd_wr_eq.
  - intros u Hu Hne. destruct (heap_mapped K F h u Hh Hu) as [g Eg].
    rewrite (peek_heap K F s' u g Hi' Eg), (peek_heap K F _ u g Hi Eg). f_equal. apply rd_wr_ne.
    intros E. apply Hne. symmetry. by apply (heap_place_inj K F (vmst h) v u f g).
Qed.

(** *** Several blocks *)

(** A client that asks for blocks of these sizes, one after the other. *)
Fixpoint kmallocs (sizes : list Z) (h : heap) : list Z * heap :=
  match sizes with
  | [] => ([], h)
  | size :: sizes => let '(p, h) := kmalloc size h in let '(ps, h) := kmallocs sizes h in (p :: ps, h)
  end.

(** The room and the frames they take from heap pointer [cur] on. *)
Fixpoint blocks_end (cur : Z) (sizes : list Z) : Z :=
  match sizes with [] => cur | size :: sizes => blocks_end (cur + round16 size) sizes end.

Fixpoint blocks_frames (cur : Z) (sizes : list Z) : Z :=
  match sizes with
  | [] => 0
  | size :: sizes => 4 * pages_of cur (round16 size) + blocks_frames (cur + round16 size) sizes
  end.

Lemma blocks_bound sizes : forall cur, Forall (fun size => 0 < size <= 2 ^ 46) sizes ->
  cur <= blocks_end cur sizes /\ 0 <= blocks_frames cur sizes.
Proof.
  induction sizes as [|size sizes IH]; intros cur Hs; cbn [blocks_end blocks_frames]; [lia|].
  inversion Hs; subst. destruct (IH (cur + round16 size)) as [I1 I2]; [done|].
  unfold pages_of, round16 in *. dlia.
Qed.

(** The blocks lie behind each other from the old heap pointer to the new one. *)
Lemma kmallocs_effect K sizes : forall F h,
  heap_ok K F h -> Forall (fun size => 0 < size <= 2 ^ 46) sizes ->
  blocks_end (heap_current_ptr h) sizes < HEAP_START + HEAP_SIZE ->
  blocks_frames (heap_current_ptr h) sizes <= fa_count (frames (vmst h)) ->
  let '(ps, h') := kmallocs sizes h in
  exists F', heap_ok K F' h' /\ F ⊆ F' /\ length ps = length sizes /\
    heap_current_ptr h' = blocks_end (heap_current_ptr h) sizes /\
    agree_on (heap_kept K F) (ram (vmst h)) (ram (vmst h')) /\
    (forall i p size, ps !! i = Some p -> sizes !! i = Some size ->
       p mod 16 = 0 /\ heap_current_ptr h <= p /\ p + size <= heap_current_ptr h') /\
    (forall i i' p p' size, (i < i')%nat -> ps !! i = Some p -> sizes !! i = Some size -> ps !! i' = Some p' -> p + size <= p').
Proof.
  induction sizes as [|size sizes IH]; intros F h Hh Hs Hend Hc; cbn [kmallocs blocks_end blocks_frames] in *.
  { exists F. by split_and!. }
  inversion Hs as [|? ? Hsz Hs']; subst. set (cur := heap_current_ptr h) in *.
  destruct (blocks_bound sizes (cur + round16 size) Hs') as [B1 B2].
  assert (Hr : size <= round16 size) by (unfold round16; dlia).
  destruct (kmalloc_more K F h size Hh Hsz) as (h1 & F1 & -> & H1 & H2 & H3 & _ & _ & _ & H4 & H5 & _); [fold cur; lia|fold cur; lia|].
  fold cur in H3, H4 |- *. rewrite <- H3 in Hend, Hc, B1. specialize (IH F1 h1 H1 Hs' Hend ltac:(lia)).
  assert (H16 : cur mod 16 = 0) by apply Hh.
  destruct (kmallocs sizes h1) as [ps h']. destruct IH as (F2 & I1 & I2 & I3 & I4 & I5 & I6 & I7).
  exists F2. split; [done|]. split; [by etrans|]. split; [cbn [length]; by rewrite I3|]. split; [congruence|]. split.
  { eapply agree_on_trans; [exact H5|]. eapply agree_on_weaken; [|exact I5].
    intros x [Hx|(j & f & Hj & Hf & Hx)]; [by left|right; exists j, f; split; [done|split; [by eapply lookup_weaken|done]]]. }
  split.
  - intros [|i] p sz Hp Hz; cbn in Hp, Hz; [simplify_eq; split; [done|lia]|].
    destruct (I6 i p sz Hp Hz) as (J1 & J2 & J3). split; [done|lia].
  - intros [|i] [|i'] p p' sz Hlt Hp Hz Hp'; cbn in Hp, Hz, Hp'; try lia; [|by apply (I7 i i'); [lia|..]].
    simplify_eq. assert (Hi : (i' < length sizes)%nat) by (rewrite <- I3; by eapply lookup_lt_Some).
    destruct (lookup_lt_is_Some_2 sizes i' Hi) as [sz' Hz']. destruct (I6 i' p' sz' Hp' Hz') as (_ & J2 & _). lia.
Qed.

(** C17: the blocks of any sequence of [kmalloc]s with enough frames do not
    share a byte, neither by address nor, through the page tables, in memory:
    each is 16-byte aligned, its bytes are mapped to memory of nobody else, two
    different bytes of the blocks are two different bytes of memory, and so are
    a byte of a block and a byte of the heap from before, whose contents stay. *)
Theorem kmallocs_disjoint K F h sizes :
  heap_ok K F h -> Forall (fun size => 0 < size <= 2 ^ 46) sizes ->
  blocks_end (heap_current_ptr h) sizes < HEAP_START + HEAP_SIZE ->
  blocks_frames (heap_current_ptr h) sizes <= fa_count (frames (vmst h)) ->
  let '(ps, h') := kmallocs sizes h in
  let tr := translate (ram (vmst h')) (current_pml4_phys (vmst h')) in
  let in_block i v := exists p size, ps !! i = Some p /\ sizes !! i = Some size /\ p <= v < p + size in
  length ps = length sizes /\
  (forall i p, ps !! i = Some p -> p mod 16 = 0) /\
  (forall i v, in_block i v -> exists a, tr v = Some a /\ ~ K a) /\
  (forall i i' v v', in_block i v -> in_block i' v' -> i <> i' -> v <> v' /\ tr v <> tr v') /\
  (forall i v v', in_block i v -> in_block i v' -> tr v = tr v' -> v = v') /\
  forall u, HEAP_START <= u < heap_current_ptr h ->
    peek (vmst h') u = peek (vmst h) u /\ forall i v, in_block i v -> tr v <> tr u.
Proof.
  intros Hh Hs Hend Hc. pose proof (kmallocs_effect K sizes F h Hh Hs Hend Hc) as H.
  destruct (kmallocs sizes h) as [ps h']. destruct H as (F' & H1 & H2 & H3 & H4 & H5 & H6 & H7). intros tr in_block.
  assert (Hcur : HEAP_START <= heap_current_ptr h <= heap_current_ptr h')
    by (split; [apply Hh|rewrite H4; by apply blocks_bound]).
  assert (Hbk : forall i v, in_block i v -> heap_current_ptr h <= v < heap_current_ptr h').
  { intros i v (p & size & Hp & Hz & Hv). destruct (H6 i p size Hp Hz) as (_ & J1 & J2). lia. }
  assert (Hmap : forall v, HEAP_START <= v < heap_current_ptr h' ->
    exists f, F' !! ((v - HEAP_START) / 4096) = Some f /\ tr v = Some (f + v mod 4096)).
  { intros v Hv. destruct (heap_mapped K F' h' v H1 Hv) as [f Ef]. exists f. split; [done|].
    apply (heap_translate K F'); [apply H1|done]. }
  assert (Hinj : forall v v', HEAP_START <= v < heap_current_ptr h' -> HEAP_START <= v' < heap_current_ptr h' ->
    tr v = tr v' -> v = v').
  { intros v v' Hv Hv'. destruct (Hmap v Hv) as (f & Ef & ->), (Hmap v' Hv') as (f' & Ef' & ->). intros E.
    injection E as E. by apply (heap_place_inj K F' (vmst h') v v' f f'); [apply H1|..]. }
  split; [done|]. split; [|split; [|split; [|split]]].
  - intros i p Hp. destruct (lookup_lt_is_Some_2 sizes i) as [size Hz]; [rewrite <- H3; by eapply lookup_lt_Some|].
    by apply (H6 i p size).
  - intros i v Hv%Hbk. destruct (Hmap v ltac:(lia)) as (f & Ef & E). exists (f + v mod 4096). split; [done|].
    apply (hi_own _ _ _ (proj1 H1) _ _ _ Ef), in_frame_offset.
  - intros i i' v v' Hv Hv' Hne. assert (Hn : v <> v').
    { destruct Hv as (p & size & Hp & Hz & Hv), Hv' as (p' & size' & Hp' & Hz' & Hv'). intros <-.
      assert (Hor : (i < i' \/ i' < i)%nat) by lia. destruct Hor as [Hlt|Hlt].
      - pose proof (H7 i i' p p' size Hlt Hp Hz Hp'). lia.
      - pose proof (H7 i' i p' p size' Hlt Hp' Hz' Hp). lia. }
    split; [done|]. apply Hbk in Hv, Hv'. intros E. by apply Hn, Hinj; [lia|lia|].
  - intros i v v' Hv%Hbk Hv'%Hbk E. by apply Hinj; [lia|lia|].
  - intros u Hu. split; [by apply (peek_extends K F F' h); [|apply H1|..]|].
    intros i v Hv%Hbk E. apply Hinj in E; lia.
Qed.

(** A size near 2^64 is not refused: the aligned size or the sum with the heap
    pointer wraps, no page is mapped, and [kmalloc] returns a non-null pointer
    while the heap pointer moves backwards out of the heap (or stays). *)
Theorem kmalloc_wraps K F h size :
  heap_ok K F h -> heap_current_ptr h mod 4096 = 0 ->
  2 ^ 64 - heap_current_ptr h < size < 2 ^ 64 ->
  let '(p, h') := kmalloc size h in
  p = heap_current_ptr h /\ p <> 0 /\ vmst h' = vmst h /\ heap_current_ptr h' <= p < p + size.
Proof.
  intros (_ & Hcur & _ & _) Hal Hs. unfold kmalloc. set (cur := heap_current_ptr h) in *.
  assert (Hb : 0 < HEAP_START /\ HEAP_START + HEAP_SIZE < 2 ^ 64) by by vm_compute.
  destruct (Z.eqb_spec size 0); [lia|].
  set (sz := down16 (u64 (size + 15))).
  assert (Hend : 0 <= sz < 2 ^ 64 /\ u64 (cur + sz) <= cur).
  { destruct (Z.lt_ge_cases size (2 ^ 64 - 15)) as [Hlt|Hge].
    - subst sz. rewrite down16_round by lia. unfold round16, u64. dlia.
    - assert (sz = 0) as ->; [|rewrite Z.add_0_r, u64_small by lia; lia].
      assert (Hu : 0 <= u64 (size + 15) < 15) by (unfold u64; dlia).
      subst sz. unfold down16. change 15 with (2 ^ 4 - 1) at 2.
      rewrite land_mask_down by lia. change (2 ^ 4) with 16. dlia. }
  pose proof (u64_range (cur + sz)) as Hr.
  rewrite (u64_small (HEAP_START + HEAP_SIZE)) by lia.
  destruct (Z.leb_spec (HEAP_START + HEAP_SIZE) (u64 (cur + sz))); [lia|].
  rewrite (u64_small (u64 (cur + sz) + 0xFFF)) by (unfold HEAP_START, HEAP_SIZE in *; lia).
  replace (page_fuel _ _) with O.
  2: { unfold page_fuel, down4k. change 0xFFF with (2 ^ 12 - 1).
       rewrite !land_mask_down by (unfold HEAP_START, HEAP_SIZE in *; lia). change (2 ^ 12) with 4096. dlia. }
  cbn [map_pages negb vmst heap_current_ptr]. repeat split; lia.
Qed.

End heap.
(** ** Witnesses *)

(** The heap after [heap_init], nothing mapped, [free] frames left. *)
Import Frames.BumpFrames.
Definition heap0 (free : Z) : heap := heap_init (Heap (vm0 free) 0 0).

Lemma heap0_ok free : 0 <= free <= 16 -> heap_ok kept0 ∅ (heap0 free).
Proof.
  intros Hf. apply heap_init_ok; [by apply vm0_ok|]. intros j _. exact (vm0_leaf free (hp j)).
Qed.

(** [vmm_map_page] reports no failure to its caller: with two frames left a
    sound heap returns a non-null block whose first byte is not mapped. *)
Theorem kmalloc_unmapped :
  heap_ok kept0 ∅ (heap0 2) /\
  let '(p, h') := kmalloc 100 (heap0 2) in
  p = HEAP_START /\ heap_current_ptr h' = HEAP_START + 112 /\
  translate (ram (vmst h')) (current_pml4_phys (vmst h')) p = None.
Proof. split; [by apply heap0_ok|]. vm_compute. by repeat split. Qed.

Lemma kmalloc_spec_witness :
  kmalloc 0 (heap0 16) = (0, heap0 16) /\
  fst (kmalloc 5000 (heap0 16)) = HEAP_START /\
  heap_current_ptr (snd (kmalloc 5000 (heap0 16))) = HEAP_START + 5008 /\
  kmalloc 5000 (heap0 0) = (0, heap0 0).
Proof.
  pose proof (kmalloc_spec kept0 ∅ (heap0 16) 0 (heap0_ok 16 ltac:(lia)) ltac:(lia)) as H0.
  pose proof (kmalloc_spec kept0 ∅ (heap0 16) 5000 (heap0_ok 16 ltac:(lia)) ltac:(lia)) as H.
  pose proof (kmalloc_spec kept0 ∅ (heap0 0) 5000 (heap0_ok 0 ltac:(lia)) ltac:(lia)) as HN.
  cbv zeta in H0, H, HN.
  split; [destruct (kmalloc 0 (heap0 16)) as [p h']; destruct H0 as [H0 _]; by destruct H0 as [-> ->]; [left|]|].
  destruct (kmalloc 5000 (heap0 16)) as [p h'], (kmalloc 5000 (heap0 0)) as [p0 h0']. cbn [fst snd].
  destruct H as (_ & H), HN as (_ & HN).
  destruct (H ltac:(lia) ltac:(by vm_compute)) as (_ & Hp & H2 & _). destruct (H2 ltac:(by vm_compute)) as (-> & _).
  destruct (HN ltac:(lia) ltac:(by vm_compute)) as (_ & _ & _ & H3 & _).
  destruct Hp as [[Hp _]|[_ Hp]]; [by vm_compute in Hp|]. split; [by vm_compute|]. split; [rewrite Hp; by vm_compute|].
  destruct H3 as [-> ->]; [by vm_compute|exists HEAP_START; by vm_compute|done].
Defined.

(** Three blocks, the second one over a page boundary. *)
Lemma kmallocs_disjoint_witness :
  let '(ps, h') := kmallocs [100; 5000; 7] (heap0 16) in
  ps = [HEAP_START; HEAP_START + 112; HEAP_START + 5120] /\
  translate (ram (vmst h')) (current_pml4_phys (vmst h')) HEAP_START <>
  translate (ram (vmst h')) (current_pml4_phys (vmst h')) (HEAP_START + 4200).
Proof.
  pose proof (kmallocs_disjoint kept0 ∅ (heap0 16) [100; 5000; 7] (heap0_ok 16 ltac:(lia))) as H.
  assert (E : fst (kmallocs [100; 5000; 7] (heap0 16)) = [HEAP_START; HEAP_START + 112; HEAP_START + 5120]) by by vm_compute.
  destruct (kmallocs [100; 5000; 7] (heap0 16)) as [ps h']. cbn [fst] in E. subst ps. split; [done|].
  destruct H as (_ & _ & _ & H & _); [by repeat constructor|by vm_compute|by vm_compute|].
  apply (H 0%nat 1%nat); [|by exists (HEAP_START + 112), 5000|done].
  by exists HEAP_START, 100.
Defined.

Lemma kmalloc_wraps_witness :
  fst (kmalloc (2 ^ 64 - 1) (heap0 2)) = HEAP_START.
Proof.
  pose proof (kmalloc_wraps kept0 ∅ (heap0 2) (2 ^ 64 - 1) (heap0_ok 2 ltac:(lia)) eq_refl) as H.
  destruct (kmalloc (2 ^ 64 - 1) (heap0 2)) as [p h']. apply H. by vm_compute.
Defined.

End Heap.
