(* ===== verification/Boot.v ===== *)
(** * What the boot loader hands to the kernel ([bootloader/new/stage2.asm])

    The memory map stage 2 writes at 0x10000 and the page tables it sets up:
    the assumptions of [Pmm.v] and the initial state of [Vmm.v], established
    from the code that creates them. *)

From S2P Require Import Prelude Ports Vga Frames Pmm Mmu Vmm.
Import Vga Pmm Mmu Vmm.
Local Open Scope Z_scope.

Module Boot.

(** ** The memory map *)

(** [mov dword \[a\], v] and [mov word \[a\], v]. *)
Definition store32 (a v : Z) (m : mem) : mem := st 4 m a v.
Definition store16 (a v : Z) (m : mem) : mem := st 2 m a v.

(** One entry of [create_fallback_memory_map] at [es:di]; its last dword is not written. *)
Definition fallback_entry (a base0 base1 len0 len1 ty : Z) (m : mem) : mem :=
  let m := store32 a base0 m in
  let m := store32 (a + 4) base1 m in
  let m := store32 (a + 8) len0 m in
  let m := store32 (a + 12) len1 m in
  store32 (a + 16) ty m.

Definition create_fallback_memory_map (m : mem) : mem :=
  let es := 0x10000 in
  let di := 2 in
  let m := fallback_entry (es + di) 0x00000000 0x00000000 0x000A0000 0x00000000 1 m in
  let di := di + 24 in
  let m := fallback_entry (es + di) 0x00100000 0x00000000 0x07F00000 0x00000000 1 m in
  store16 (es + 0) 2 m.

(** ** The page tables *)

(** [rep stosd] with [eax] = 0: [ecx] dwords from [edi]. *)
Definition stosd_zero (edi ecx : Z) (m : mem) : mem :=
  for_range 0 ecx (fun i m => store32 (edi + 4 * i) 0 m) m.

(** One pass of [.fill_pd]: [edi], [eax] and the memory. *)
Definition fill_step (_ : Z) '(edi, eax, m) : Z * Z * mem :=
  (edi + 8, u32 (eax + 0x200000), store32 edi eax m).

Section tables.
  Variable pml4_table : Z.

Definition pdpt_table : Z := pml4_table + 4096.
Definition pd_table : Z := pml4_table + 2 * 4096.

Definition setup_paging (m : mem) : mem :=
  let m := stosd_zero pml4_table (4096 * 3 / 4) m in
  let m := store32 pml4_table (Z.lor pdpt_table 3) m in
  let m := store32 pdpt_table (Z.lor pd_table 3) m in
  snd (for_range 0 512 fill_step (pd_table, 0x83, m)).

End tables.

(** ** The memory map is sound *)

(** A dword that was stored, read back as the low half of a 64-bit field. *)
Lemma ld64_two m a : ld64 m a = ld 4 m a + 2 ^ 32 * ld 4 m (a + 4).
Proof. apply (ld_app 4 4). Qed.

Lemma ld_store32 n m a b v :
  b + Z.of_nat n <= a \/ a + 4 <= b -> ld n (store32 a v m) b = ld n m b.
Proof. intros H. apply ld_st_ne. lia. Qed.

Lemma ld4_store32 m a v : 0 <= v < 2 ^ 32 -> ld 4 (store32 a v m) a = v.
Proof. intros H. unfold store32. rewrite ld_st. by apply Z.mod_small. Qed.

(** The fields of an entry, after it was written. *)
Lemma fallback_entry_fields a b0 b1 l0 l1 ty m :
  0 <= b0 < 2 ^ 32 -> 0 <= b1 < 2 ^ 32 -> 0 <= l0 < 2 ^ 32 -> 0 <= l1 < 2 ^ 32 -> 0 <= ty < 2 ^ 32 ->
  let m' := fallback_entry a b0 b1 l0 l1 ty m in
  ld64 m' a = b0 + 2 ^ 32 * b1 /\ ld64 m' (a + 8) = l0 + 2 ^ 32 * l1 /\ ld32 m' (a + 16) = ty /\
  only_in a (a + 20) m m'.
Proof.
  intros H1 H2 H3 H4 H5. cbv zeta. unfold ld32, fallback_entry. rewrite !ld64_two.
  replace (a + 8 + 4) with (a + 12) by lia.
  repeat first [rewrite ld4_store32 by done | rewrite ld_store32 by lia].
  repeat split. unfold store32.
  repeat (eapply only_in_trans; [|eapply only_in_weaken; [| |apply (st_only_in 4)]; lia]). done.
Qed.

(** What [pmm_init] reads of it. *)
Record fallback_map (m : mem) : Prop := {
  fm_count : memory_map_entry_count m = 2;
  fm_low : base (entry_at m 0) = 0 /\ length_ (entry_at m 0) = 0xA0000 /\ type_ (entry_at m 0) = 1;
  fm_high : base (entry_at m 1) = 0x100000 /\ length_ (entry_at m 1) = 0x7F00000 /\ type_ (entry_at m 1) = 1
}.

Lemma fallback_map_agree m m' :
  fallback_map m -> agree_on (fun x => 0x10000 <= x < 0x10032) m m' -> fallback_map m'.
Proof.
  intros [H1 H2 H3] Ha.
  assert (Hc : memory_map_entry_count m' = memory_map_entry_count m).
  { unfold memory_map_entry_count, ld16, MEMORY_MAP_BASE. apply ld_agree. intros x Hx. apply Ha. cbn in Hx. lia. }
  assert (He : forall i, i = 0 \/ i = 1 -> entry_at m' i = entry_at m i).
  { intros i Hi. unfold entry_at, memory_map_entries, MEMORY_MAP_BASE, entry_size, ld64, ld32.
    cbv zeta. f_equal; apply ld_agree; intros x Hx; apply Ha; cbn in Hx; lia. }
  split; rewrite ?Hc, ?He; auto.
Qed.

Lemma fallback_entries m : fallback_map (create_fallback_memory_map m).
Proof.
  unfold create_fallback_memory_map. cbv zeta.
  set (m1 := fallback_entry (0x10000 + 2) _ _ _ _ _ m).
  destruct (fallback_entry_fields (0x10000 + 2) 0 0 0xA0000 0 1 m) as (A1 & A2 & A3 & _); try lia.
  fold m1 in A1, A2, A3.
  set (m2 := fallback_entry (0x10000 + (2 + 24)) _ _ _ _ _ m1).
  destruct (fallback_entry_fields (0x10000 + (2 + 24)) 0x100000 0 0x7F00000 0 1 m1) as (B1 & B2 & B3 & B4); try lia.
  fold m2 in B1, B2, B3, B4. unfold store16.
  assert (Hst : only_in 0x10000 0x10002 m2 (st 2 m2 (0x10000 + 0) 2)).
  { eapply only_in_weaken; [| |apply st_only_in]; lia. }
  split; [unfold memory_map_entry_count, ld16; by rewrite (ld_st 2)|..];
    unfold entry_at, memory_map_entries, MEMORY_MAP_BASE, entry_size;
    cbv beta iota zeta delta [base length_ type_]; unfold ld64, ld32 in *;
    rewrite !(ld_outside _ _ _ _ _ _ Hst) by lia.
  - rewrite !(ld_outside _ _ _ _ _ _ B4) by lia. repeat split; [exact A1|exact A2|exact A3].
  - repeat split; [exact B1|exact B2|exact B3].
Qed.

Lemma fallback_total m : fallback_map m -> boot_total m = 32768.
Proof.
  intros [Hc (H1 & H2 & _) (H3 & H4 & _)].
  unfold boot_total, max_address. rewrite Hc.
  unfold for_range. change (Z.to_nat (2 - 0)) with 2%nat. cbn [for_up].
  change (0 + 1) with 1. cbv zeta. by rewrite H1, H2, H3, H4.
Qed.

Lemma fallback_ok kend m :
  fallback_map m -> 0x100000 <= kend <= 0x7F00000 -> boot_map_ok 0x100000 kend m.
Proof.
  intros Hm Hk. pose proof (fallback_total m Hm) as Ht. destruct Hm as [Hc (H1 & H2 & H2') (H3 & H4 & H4')].
  split; rewrite ?Hc, ?Ht; try lia.
  - unfold memory_map_entries, MEMORY_MAP_BASE, entry_size. lia.
  - intros i Hi. assert (i = 0 \/ i = 1) as [-> | ->] by lia; [rewrite H1, H2|rewrite H3, H4]; lia.
  - unfold boot_bitmap, PAGE_SIZE. dlia.
Qed.

(** The memory map stage 2 writes satisfies what [pmm_init] relies on, for
    every kernel image from 1 MB that ends below 127 MB. *)
Theorem fallback_map_ok kend m :
  0x100000 <= kend <= 0x7F00000 ->
  boot_map_ok 0x100000 kend (create_fallback_memory_map m) /\
  boot_total (create_fallback_memory_map m) * 4096 = 128 * 1024 * 1024.
Proof.
  intros Hk. pose proof (fallback_entries m) as Hm. split; [by apply fallback_ok|by rewrite fallback_total].
Qed.

(** The pages left used end with the bitmap. *)
Lemma fallback_used kend m j :
  fallback_map m -> 0x100000 <= kend <= 0x400000 -> 0 <= j < 32768 ->
  boot_used 0x100000 kend m j = (j <? boot_end_page kend m).
Proof.
  intros Hm Hk Hj. assert (He : 256 < boot_end_page kend m).
  { unfold boot_end_page, boot_bitmap. rewrite (fallback_total m Hm). unfold PAGE_SIZE. dlia. }
  destruct Hm as [Hc (H1 & H2 & H2') (H3 & H4 & H4')].
  unfold boot_used, usable, usable_upto, in_range. rewrite Hc. change (seqZ 0 2) with [0; 1].
  cbn [existsb]. rewrite H2', H4', H1, H2, H3, H4. unfold in_range, PAGE_SIZE. cbn [Z.eqb Pos.eqb andb].
  change (0x100000 / 4096) with 256. change (0x7F00000 / 4096) with 32512. change (0 / 4096) with 0.
  change (0xA0000 / 4096) with 160.
  destruct (Z.leb_spec 256 j), (Z.ltb_spec j (boot_end_page kend m)), (Z.leb_spec 0 j), (Z.ltb_spec j 256),
    (Z.ltb_spec j (0 + 160)), (Z.ltb_spec j (256 + 32512)); try lia; done.
Qed.

(** C22: the boot stack: [entry.asm] runs the kernel on the stack that ends at
    0x500000, but [pmm_init] leaves its page free, so the allocator hands it out. *)
Theorem boot_stack_free kend m :
  0x100000 <= kend <= 0x400000 ->
  fa_is_free (pmm_init 0x100000 kend (create_fallback_memory_map m)) (0x500000 - 4096).
Proof.
  intros Hk. pose proof (fallback_entries m) as Hm. pose proof (fallback_total _ Hm) as Ht.
  destruct (pmm_init_holds _ kend _ (fallback_ok kend _ Hm ltac:(lia))) as (I1 & _ & I3).
  unfold fa_is_free; cbn [pmm_frames]. unfold pmm_is_free. rewrite I1. cbn [total_pages set_used].
  split; [done|]. rewrite Ht. split; [by vm_compute|]. rewrite I3 by (cbn [total_pages]; rewrite Ht; by vm_compute).
  rewrite fallback_used by (done || by vm_compute). apply Z.ltb_ge.
  unfold boot_end_page, boot_bitmap. rewrite Ht. unfold PAGE_SIZE. dlia.
Qed.

(** The kernel image ends at 2 MB. *)
Lemma fallback_map_ok_witness :
  boot_map_ok 0x100000 0x200000 (create_fallback_memory_map (Mem (fun _ => 255) ∅)).
Proof. apply (fallback_map_ok 0x200000). lia. Defined.

Lemma boot_stack_free_witness :
  fa_is_free (pmm_init 0x100000 0x200000 (create_fallback_memory_map (Mem (fun _ => 0) ∅))) 0x4FF000.
Proof. apply (boot_stack_free 0x200000). lia. Defined.

(** ** The boot page tables map the first gigabyte to itself *)

Lemma rd_store32_zero m a x : rd m x = 0 -> rd (store32 a 0 m) x = 0.
Proof.
  unfold store32. cbn [st]. change (0 / 2 ^ 8) with 0. intros H.
  rewrite !rd_wr. by repeat case_decide.
Qed.

Lemma rd_store32_in m a x : a <= x < a + 4 -> rd (store32 a 0 m) x = 0.
Proof.
  intros H. unfold store32. cbn [st]. change (0 / 2 ^ 8) with 0.
  assert (x = a \/ x = a + 1 \/ x = a + 1 + 1 \/ x = a + 1 + 1 + 1) as [-> | [-> | [-> | ->]]] by lia;
    rewrite !rd_wr; repeat case_decide; lia || done.
Qed.

Lemma stosd_zero_rd a n m x :
  0 <= n -> a <= x < a + 4 * n -> rd (stosd_zero a n m) x = 0.
Proof.
  intros Hn Hx. set (P := fun k m => x < a + 4 * k -> rd m x = 0).
  enough (HP : P n (stosd_zero a n m)) by (apply HP; lia). unfold stosd_zero.
  apply (for_range_inv P); subst P; cbv beta; [done|lia|]. intros i m' Hi IH Hxi.
  destruct (Z.lt_ge_cases x (a + 4 * i)); [by apply rd_store32_zero, IH|].
  apply rd_store32_in. lia.
Qed.

(** A 32-bit store into an entry whose upper half is zero. *)
Lemma low_dword m a v :
  0 <= v < 2 ^ 32 -> ld 4 m (a + 4) = 0 -> ld64 (store32 a v m) a = v.
Proof.
  intros Hv H. rewrite ld64_two, ld4_store32 by done. rewrite ld_store32 by lia. rewrite H. lia.
Qed.

Lemma fill_pd pd m :
  (forall i, 0 <= i < 512 -> ld 4 m (pd + 8 * i + 4) = 0) ->
  let m' := snd (for_range 0 512 fill_step (pd, 0x83, m)) in
  only_in pd (pd + 4096) m m' /\
  forall i, 0 <= i < 512 -> entry m' pd i = 0x83 + 0x200000 * i.
Proof.
  intros Hz.
  set (P := fun k '(edi, eax, m') => edi = pd + 8 * k /\ eax = 0x83 + 0x200000 * k /\
    only_in pd (pd + 4096) m m' /\
    (forall i, 0 <= i < 512 -> ld 4 m' (pd + 8 * i + 4) = 0) /\
    forall i, 0 <= i < k -> entry m' pd i = 0x83 + 0x200000 * i).
  assert (HP : P 512 (for_range 0 512 fill_step (pd, 0x83, m))).
  { apply (for_range_inv P); subst P; cbv beta iota.
    - lia.
    - split; [lia|]. split; [lia|]. split; [done|]. split; [done|]. intros; lia.
    - intros k [[edi eax] m'] Hk (-> & -> & H1 & H2 & H3). cbv beta iota delta [fill_step].
      rewrite u32_small by lia.
      split; [lia|]. split; [lia|]. split; [|split].
      + eapply only_in_trans; [exact H1|]. eapply only_in_weaken; [| |apply (st_only_in 4)]; lia.
      + intros i Hi. rewrite ld_store32 by lia. by apply H2.
      + intros i Hi. unfold entry. destruct (decide (i = k)) as [->|].
        * apply low_dword; [lia|]. by apply H2.
        * unfold ld64. rewrite ld_store32 by lia. apply H3. lia. }
  destruct (for_range 0 512 fill_step (pd, 0x83, m)) as [[edi eax] m'].
  destruct HP as (_ & _ & H1 & _ & H2). by split.
Qed.

(** The quadwords of the three tables, wherever they are. *)
Record table_words (t : Z) (m : mem) : Prop := {
  tw_pml4 i : 0 <= i < 512 -> entry m t i = if i =? 0 then t + 4096 + 3 else 0;
  tw_pdpt i : 0 <= i < 512 -> entry m (t + 4096) i = if i =? 0 then t + 2 * 4096 + 3 else 0;
  tw_pd i : 0 <= i < 512 -> entry m (t + 2 * 4096) i = 0x83 + 0x200000 * i
}.

(** The tables as the processor can use them: on pages below 1 MB. *)
Record boot_tables (t : Z) (m : mem) : Prop := {
  bt_aligned : t mod 4096 = 0;
  bt_low : 0 < t /\ t + 3 * 4096 <= 0x100000;
  bt_pml4 i : 0 <= i < 512 -> entry m t i = if i =? 0 then t + 4096 + 3 else 0;
  bt_pdpt i : 0 <= i < 512 -> entry m (t + 4096) i = if i =? 0 then t + 2 * 4096 + 3 else 0;
  bt_pd i : 0 <= i < 512 -> entry m (t + 2 * 4096) i = 0x83 + 0x200000 * i
}.

Lemma boot_entry_same t m m' a i :
  agree_on (fun x => t <= x < t + 3 * 4096) m m' -> t <= a <= t + 2 * 4096 -> 0 <= i < 512 -> entry m' a i = entry m a i.
Proof. intros Ha Hi Hi'. apply (entry_agree _ _ _ _ _ Ha); [done|]. unfold in_frame. intros x. lia. Qed.

Lemma table_words_agree t m m' :
  table_words t m -> agree_on (fun x => t <= x < t + 3 * 4096) m m' -> table_words t m'.
Proof. intros [H1 H2 H3] Ha. split; intros i Hi; rewrite (boot_entry_same t m m') by (done || lia); auto. Qed.

Lemma boot_tables_agree t m m' :
  boot_tables t m -> agree_on (fun x => t <= x < t + 3 * 4096) m m' -> boot_tables t m'.
Proof.
  intros [H1 H2 H3 H4 H5] Ha. split; [done|done|..]; intros i Hi; rewrite (boot_entry_same t m m') by (done || lia); auto.
Qed.

(** [setup_paging] writes them wherever it is told to. *)
Lemma setup_words t m :
  t mod 4 = 0 -> 0 < t -> t + 3 * 4096 <= 0x100000 -> table_words t (setup_paging t m).
Proof.
  intros Hal Ht Hb. unfold setup_paging.
  change (4096 * 3 / 4) with 3072.
  assert (Hz : forall x, t <= x < t + 3 * 4096 -> rd (stosd_zero t 3072 m) x = 0)
    by (intros x Hx; apply stosd_zero_rd; lia).
  revert Hz. generalize (stosd_zero t 3072 m) as m0. intros m0 Hz. unfold pdpt_table, pd_table.
  rewrite (lor_add_disjoint 2 (t + 4096) 3), (lor_add_disjoint 2 (t + 2 * 4096) 3)
    by (change (2 ^ 2) with 4; dlia).
  set (m1 := store32 t (t + 4096 + 3) m0). set (m2 := store32 (t + 4096) (t + 2 * 4096 + 3) m1).
  assert (H0 : forall n a, t <= a -> a + Z.of_nat n <= t + 3 * 4096 -> ld n m0 a = 0).
  { intros n a Ha1 Ha2. apply ld_zero. intros x Hx. apply Hz. lia. }
  destruct (fill_pd (t + 2 * 4096) m2) as [F1 F2].
  { intros i Hi. subst m2 m1. rewrite !ld_store32 by lia. apply H0; lia. }
  revert F1 F2. generalize (snd (for_range 0 512 fill_step (t + 2 * 4096, 0x83, m2))) as m3.
  intros m3 F1 F2.
  assert (Hlow : forall a, a + 8 <= t + 2 * 4096 -> ld64 m3 a = ld64 m2 a).
  { intros a Ha. apply (ld64_outside _ _ _ _ _ F1). lia. }
  split; [| |exact F2].
  - intros i Hi. unfold entry. rewrite Hlow by lia. subst m2. unfold ld64. rewrite ld_store32 by lia.
    destruct (Z.eqb_spec i 0) as [->|].
    + rewrite Z.mul_0_r, Z.add_0_r. apply low_dword; [lia|]. apply H0; lia.
    + subst m1. rewrite ld_store32 by lia. apply H0; lia.
  - intros i Hi. unfold entry. rewrite Hlow by lia.
    destruct (Z.eqb_spec i 0) as [->|].
    + rewrite Z.mul_0_r, Z.add_0_r. apply low_dword; [lia|]. subst m1. rewrite ld_store32 by lia. apply H0; lia.
    + unfold ld64. subst m2 m1. rewrite !ld_store32 by lia. apply H0; lia.
Qed.

Lemma boot_entries t m :
  t mod 4096 = 0 -> 0 < t -> t + 3 * 4096 <= 0x100000 -> boot_tables t (setup_paging t m).
Proof. intros Hal Ht Hb. by destruct (setup_words t m) as [H1 H2 H3]; [clear -Hal; dlia|lia|lia|split]. Qed.

(** Nothing else is written. *)
Lemma setup_paging_only_in t m : only_in t (t + 3 * 4096) m (setup_paging t m).
Proof.
  unfold setup_paging, pdpt_table, pd_table. change (4096 * 3 / 4) with 3072.
  assert (H0 : only_in t (t + 3 * 4096) m (stosd_zero t 3072 m)).
  { unfold stosd_zero. apply (for_range_inv (fun _ m' => only_in t (t + 3 * 4096) m m')); [lia|done|].
    intros i m' Hi IH. eapply only_in_trans; [exact IH|]. eapply only_in_weaken; [| |apply (st_only_in 4)]; lia. }
  revert H0. generalize (stosd_zero t 3072 m) as m1. intros m1 H0.
  set (m2 := store32 (t + 4096) _ (store32 t _ m1)).
  assert (H2 : only_in t (t + 3 * 4096) m m2).
  { intros x Hx. subst m2. unfold store32. rewrite !(st_only_in 4 _ _ _ x) by lia. by apply H0. }
  clearbody m2.
  set (P := fun i '((edi, _, m') : Z * Z * mem) => edi = t + 2 * 4096 + 8 * i /\ only_in t (t + 3 * 4096) m m').
  assert (HP : P 512 (for_range 0 512 fill_step (t + 2 * 4096, 0x83, m2))).
  { apply (for_range_inv P); subst P; cbv beta iota; [lia|split; [lia|done]|].
    intros i [[edi eax] m'] Hi [-> IH]. cbv beta iota delta [fill_step]. split; [lia|].
    eapply only_in_trans; [exact IH|]. eapply only_in_weaken; [| |apply (st_only_in 4)]; lia. }
  destruct (for_range 0 512 fill_step (t + 2 * 4096, 0x83, m2)) as [[edi eax] m']. apply HP.
Qed.

(** The paths of the three tables. *)
Definition boot_tab (t x : Z) : option (list Z) :=
  if decide (x = t) then Some []
  else if decide (x = t + 4096) then Some [0]
  else if decide (x = t + 2 * 4096) then Some [0; 0] else None.

Lemma low_bits e k n : 0 <= k < 4096 -> e mod 4096 = k -> 0 <= n < 12 -> Z.testbit e n = Z.testbit k n.
Proof. intros Hk <- Hn. change 4096 with (2 ^ 12). symmetry. apply Z.mod_pow2_bits_low. lia. Qed.

Lemma table_entry f : f mod 4096 = 0 ->
  present (f + 3) = true /\ user (f + 3) = false /\ page_size_bit (f + 3) = false /\ child (f + 3) = f.
Proof.
  intros Hf. assert (E : (f + 3) mod 4096 = 3) by dlia.
  unfold present, user, page_size_bit, child. change (2 ^ 12) with 4096.
  rewrite !(low_bits (f + 3) 3) by lia. repeat split. lia.
Qed.

Lemma page_entry i : 0 <= i < 512 ->
  let e := 0x83 + 0x200000 * i in present e = true /\ page_size_bit e = true /\ user e = false.
Proof.
  intros Hi e. assert (E : e mod 4096 = 0x83) by (subst e; dlia).
  unfold present, user, page_size_bit. by rewrite !(low_bits e 0x83) by lia.
Qed.

Lemma boot_tab_cases t x p : boot_tab t x = Some p ->
  x = t /\ p = [] \/ x = t + 4096 /\ p = [0] \/ x = t + 2 * 4096 /\ p = [0; 0].
Proof. unfold boot_tab. repeat case_decide; intros; simplify_eq; auto. Qed.

Lemma boot_tree t m : boot_tables t m -> tree (boot_tab t) m t.
Proof.
  intros [Hal [Ht Hb] E1 E2 E3].
  assert (Hal1 : (t + 4096) mod 4096 = 0) by dlia. assert (Hal2 : (t + 2 * 4096) mod 4096 = 0) by dlia.
  destruct (table_entry _ Hal1) as (A1 & _ & A3 & A4), (table_entry _ Hal2) as (B1 & _ & B3 & B4).
  pose proof (boot_tab_cases t) as Htab.
  assert (Hin : boot_tab t t = Some [] /\ boot_tab t (t + 4096) = Some [0] /\
    boot_tab t (t + 2 * 4096) = Some [0; 0])
    by (unfold boot_tab; repeat case_decide; (lia || done)).
  destruct Hin as (T1 & T2 & T3). split; [done|..].
  - intros x p Hx%Htab. destruct Hx as [[-> ->]|[[-> ->]|[-> ->]]]; split; try done; lia.
  - intros x p Hx%Htab. destruct Hx as [[-> ->]|[[-> ->]|[-> ->]]]; simpl; lia.
  - intros x p i Hx%Htab Hi _. destruct Hx as [[-> ->]|[[-> ->]|[-> ->]]];
      rewrite ?E1, ?E2, ?E3 by done; try destruct (i =? 0); lia.
  - intros x p i Hx%Htab Hi. destruct Hx as [[-> ->]|[[-> ->]|[-> ->]]]; rewrite ?E1, ?E2, ?E3 by done.
    + destruct (Z.eqb_spec i 0) as [->|]; [|done]. by rewrite A4.
    + destruct (Z.eqb_spec i 0) as [->|]; [|done]. by rewrite B4.
    + intros _ _ Hbig. destruct (page_entry i Hi) as (_ & C2 & _).
      unfold big in Hbig. by rewrite C2 in Hbig.
Qed.

(** The leaf of an address below 1 GB is a 2 MB page, at its own place. *)
Lemma boot_leaf t m v :
  boot_tables t m -> 0 <= v < 2 ^ 30 -> leaf 4 m t v = Some (2%nat, 0x83 + 0x200000 * (v / 2 ^ 21)).
Proof.
  intros [Hal [Ht Hb] E1 E2 E3] Hv.
  assert (Hix : ix 4 v = 0 /\ ix 3 v = 0 /\ ix 2 v = v / 2 ^ 21).
  { unfold ix. change (2 ^ (12 + 9 * (Z.of_nat 4 - 1))) with 549755813888.
    change (2 ^ (12 + 9 * (Z.of_nat 3 - 1))) with 1073741824.
    change (2 ^ (12 + 9 * (Z.of_nat 2 - 1))) with 2097152. change (2 ^ 21) with 2097152. dlia. }
  destruct Hix as (I4 & I3 & I2). change (2 ^ 21) with 2097152 in *.
  assert (Hal1 : (t + 4096) mod 4096 = 0) by dlia. assert (Hal2 : (t + 2 * 4096) mod 4096 = 0) by dlia.
  destruct (table_entry _ Hal1) as (A1 & _ & A3 & A4), (table_entry _ Hal2) as (B1 & _ & B3 & B4).
  assert (Hi : 0 <= v / 2097152 < 512) by dlia. destruct (page_entry _ Hi) as (C1 & C2 & _).
  cbn [leaf]. rewrite I4, I3, I2. rewrite (E1 0) by lia. cbn [Z.eqb]. rewrite A1, A4.
  cbn [negb Nat.eqb orb]. unfold big at 1. cbn [Nat.eqb orb andb].
  rewrite (E2 0) by lia. cbn [Z.eqb]. unfold big. rewrite B1, B3, B4. cbn [negb Nat.eqb orb andb].
  rewrite E3 by done. by rewrite C1, C2.
Qed.

Lemma boot_leaf_identity t m v : boot_tables t m -> 0 <= v < 2 ^ 30 -> translate m t v = Some v.
Proof.
  intros HT Hv. unfold translate. rewrite (boot_leaf t m v HT Hv). cbn [option_map]. unfold phys_of. cbn [fst snd].
  change (2 ^ (12 + 9 * (Z.of_nat 2 - 1))) with 2097152. change (2 ^ 21) with 2097152. f_equal. clear -Hv. dlia.
Qed.

(** Nothing is mapped beyond the first 512 GB. *)
Lemma boot_leaf_high t m v : boot_tables t m -> ix 4 v <> 0 -> leaf 4 m t v = None.
Proof.
  intros [_ _ E1 _ _] Hv. cbn [leaf]. rewrite E1 by apply ix_range.
  by destruct (Z.eqb_spec (ix 4 v) 0).
Qed.

(** The page tables stage 2 builds map every address of the first gigabyte to
    itself, for the kernel only, and form a tree: the kernel may use physical
    addresses as pointers, as all of [pmm.c] and [vmm.c] does. *)
Theorem boot_identity t m v :
  t mod 4096 = 0 -> 0 < t -> t + 3 * 4096 <= 0x100000 -> 0 <= v < 2 ^ 30 ->
  translate (setup_paging t m) t v = Some v /\ user_walk 4 (setup_paging t m) t v = false /\
  tree (boot_tab t) (setup_paging t m) t.
Proof.
  intros Hal Ht Hb Hv. pose proof (boot_entries t m Hal Ht Hb) as HT.
  pose proof (boot_leaf t _ v HT Hv) as Hl.
  assert (Hi : 0 <= v / 2 ^ 21 < 512) by (change (2 ^ 21) with 2097152; clear -Hv; dlia).
  split; [by apply boot_leaf_identity|split; [|by apply boot_tree]].
  eapply user_walk_leaf; [exact Hl|]. by apply page_entry.
Qed.

Lemma boot_identity_witness :
  translate (setup_paging 0x9000 (Mem (fun _ => 0xCC) ∅)) 0x9000 0x12345678 = Some 0x12345678.
Proof. apply (boot_identity 0x9000 (Mem (fun _ => 0xCC) ∅) 0x12345678); by vm_compute. Defined.

Import BumpFrames.

(** [vmm_map_page] of the user test's code page over the boot tables. *)
Definition boot_vm : vm (A := BumpFrames.bump) (D := crtc_bus) :=
  Vm (BumpFrames.Bump 0x200 0x300, setup_paging 0x9000 (Mem (fun _ => 0xCC) ∅)) 0x9000 0x9000 boot_con [].

Lemma vmm_map_page_big_witness :
  let s' := vmm_map_page 0x400000 0x200000 3 boot_vm in
  ram s' = st64 (ram boot_vm) 0x400000 0x200003 /\
  translate (ram s') 0x9000 0x400000 = Some 0x400000 /\
  fst (vmm_virt_to_phys 0x400000 s') = 0x200000.
Proof.
  pose proof (boot_entries 0x9000 (Mem (fun _ => 0xCC) ∅) eq_refl ltac:(lia) ltac:(lia)) as HB.
  pose proof (boot_leaf 0x9000 _ 0x400000 HB ltac:(lia)) as Hl.
  pose proof (boot_tree 0x9000 _ HB) as HT.
  destruct (vmm_map_page_big (boot_tab 0x9000) boot_vm 0x400000 0x200000 3 (0x83 + 0x200000 * 2))
    as (H1 & H2 & H3); [exact HT|exact Hl| |lia|lia|done|].
  - change (child (0x83 + 0x200000 * 2) + 8 * ix 1 0x400000) with 0x400000.
    intros t p x Ht Hx. left. unfold in_frame in Hx. unfold boot_tab in Ht.
    destruct (decide (t = 0x9000)); [lia|]. destruct (decide (t = 0x9000 + 4096)); [lia|].
    destruct (decide (t = 0x9000 + 2 * 4096)); [lia|discriminate Ht].
  - split; [exact H1|]. split; [|exact H3].
    etransitivity; [exact (H2 0x400000)|]. unfold translate.
    etransitivity; [exact (f_equal _ Hl)|]. reflexivity.
Defined.

End Boot.
