(* ===== verification/KHeap.v ===== *)
(** * The interface between the heap and its clients

    What [task.c] needs of [kmalloc]: a block that overlaps none handed out
    before, or NULL.  The state of the lower kernel also carries the console,
    which [kmalloc] may print to.  [Heap.v]'s allocator is an instance, for
    requests that do not overflow; [Task.v] is proved for any. *)

From S2P Require Import Prelude Ports Vga Frames Mmu Vmm Heap.
Import Vga Vmm Heap.
Local Open Scope Z_scope.

Class KernelHeap (H D : Type) `{!PortBus D} := {
  km_alloc : Z -> H -> Z * H;
  km_con : H -> con D;
  km_set_con : con D -> H -> H;
  (** Consistency, and the addresses handed out so far. *)
  km_inv : H -> Prop;
  km_used : H -> Z -> Prop;

  km_alloc_law size h : km_inv h -> 0 < size <= 2 ^ 46 ->
    let '(p, h') := km_alloc size h in
    km_inv h' /\ (forall x, km_used h x -> km_used h' x) /\
    (p <> 0 -> 0 < p /\ p + size < 2 ^ 64 /\ forall x, p <= x < p + size -> km_used h' x /\ ~ km_used h x);
  km_set_con_law k h : km_inv h -> km_inv (km_set_con k h) /\
    (forall x, km_used (km_set_con k h) x <-> km_used h x) /\ km_con (km_set_con k h) = k
}.

(** Run an operation of the console. *)
Definition on_con {H D} `{KernelHeap H D} (f : con D -> con D) (h : H) : H := km_set_con (f (km_con h)) h.

(** ** The kernel's heap *)
Section heap.
  Context {A : Type} `{!FrameAllocator A} {D : Type} `{!PortBus D}.

(** Whatever the loop over the pages does, the heap pointer moves past the block. *)
Lemma kmalloc_pointer size (h : heap (A := A) (D := D)) :
  HEAP_START <= heap_current_ptr h < HEAP_START + HEAP_SIZE -> 0 < size <= 2 ^ 46 ->
  let '(p, h') := kmalloc size h in
  p = 0 /\ heap_current_ptr h' = heap_current_ptr h \/
  p = heap_current_ptr h /\ p + size <= heap_current_ptr h' < HEAP_START + HEAP_SIZE.
Proof.
  intros Hc Hs. unfold kmalloc. destruct (Z.eqb_spec size 0); [lia|].
  rewrite down16_round by lia.
  assert (Hr : size <= round16 size < size + 16) by (unfold round16; dlia).
  rewrite (u64_small (HEAP_START + HEAP_SIZE)) by by vm_compute.
  rewrite (u64_small (heap_current_ptr h + round16 size)) by (unfold HEAP_START, HEAP_SIZE in *; lia).
  destruct (Z.leb_spec (HEAP_START + HEAP_SIZE) (heap_current_ptr h + round16 size)); [by left|].
  destruct (map_pages _ _ _ _) as [[] s]; cbn [negb heap_current_ptr set_vmst].
  - right. split; [done|]. lia.
  - by left.
Qed.

Definition heap_con (h : heap (A := A) (D := D)) : con D := kcon (vmst h).
Definition heap_set_con (k : con D) (h : heap (A := A) (D := D)) : heap := set_vmst (set_kcon k (vmst h)) h.

#[export, refine] Instance heap_kernel_heap : KernelHeap (heap (A := A) (D := D)) D := {
  km_alloc := kmalloc;
  km_con := heap_con;
  km_set_con := heap_set_con;
  km_inv h := HEAP_START <= heap_current_ptr h < HEAP_START + HEAP_SIZE;
  km_used h x := HEAP_START <= x < heap_current_ptr h
}.
Proof.
  - intros size h Hi Hs. pose proof (kmalloc_pointer size h Hi Hs) as H.
    destruct (kmalloc size h) as [p h'].
    assert (Hb : 0 < HEAP_START /\ HEAP_START + HEAP_SIZE < 2 ^ 64) by by vm_compute.
    destruct H as [[-> H]|[-> H]]; (split; [lia|]); (split; [lia|]); intros Hp; [done|].
    split; [lia|]. split; [lia|]. intros x Hx. lia.
  - by intros k h Hi.
Defined.

End heap.
