(* ===== verification/Isr.v ===== *)
(** * Interrupt frames, exceptions and the table of IRQ handlers ([isr.h], [isr.c])

    [irq_handler] itself needs the handlers and is in Interrupts.v. *)

From S2P Require Import Prelude Ports Vga.
Import Vga.
Local Open Scope Z_scope.
Local Open Scope kios_scope.

Module Isr.

(** [registers_t]: 26 quadwords, in the order of memory. *)
Record registers_t := Registers {
  gs : Z; fs : Z; es : Z; ds : Z;
  r15 : Z; r14 : Z; r13 : Z; r12 : Z; r11 : Z; r10 : Z; r9 : Z; r8 : Z;
  rbp : Z; rdi : Z; rsi : Z; rdx : Z; rcx : Z; rbx : Z; rax : Z;
  int_no : Z; err_code : Z;
  rip : Z; cs : Z; rflags : Z; rsp : Z; ss : Z
}.
Definition sizeof_registers_t : Z := 26 * 8.

Definition exception_messages : list (list Z) := map str [
  "Division By Zero"; "Debug"; "Non Maskable Interrupt"; "Breakpoint"; "Overflow";
  "Bound Range Exceeded"; "Invalid Opcode"; "Device Not Available"; "Double Fault";
  "Coprocessor Segment Overrun"; "Invalid TSS"; "Segment Not Present"; "Stack Fault";
  "General Protection Fault"; "Page Fault"; "Reserved"; "x87 FPU Error"; "Alignment Check";
  "Machine Check"; "SIMD Floating-Point Exception"; "Reserved"; "Reserved"; "Reserved";
  "Reserved"; "Reserved"; "Reserved"; "Reserved"; "Reserved"; "Reserved"; "Reserved";
  "Security Exception"; "Reserved"]%string.

Section exceptions.
  Context {D : Type} `{!PortBus D}.

Definition newline : con D -> con D := vga_println [].

(** What [isr_handler] prints; afterwards it disables interrupts and halts. *)
Definition isr_handler (regs : registers_t) : con D -> con D :=
  vga_set_color VGA_WHITE VGA_RED >>>
  newline >>>
  vga_println (str "===========================================") >>>
  vga_print (str "  EXCEPTION: ") >>>
  (if int_no regs <? 32 then vga_println (nth (Z.to_nat (int_no regs)) exception_messages [])
   else vga_print (str "Unknown Exception #") >>> vga_print_dec (i64 (int_no regs)) >>> newline) >>>
  vga_println (str "===========================================") >>>
  vga_set_color VGA_LIGHT_GRAY VGA_BLACK >>>
  vga_print (str "  INT#:    ") >>> vga_print_dec (i64 (int_no regs)) >>> newline >>>
  vga_print (str "  ERRCODE: 0x") >>> vga_print_hex (err_code regs) >>> newline >>>
  vga_print (str "  RIP:     0x") >>> vga_print_hex (rip regs) >>> newline >>>
  vga_print (str "  CS:      0x") >>> vga_print_hex (cs regs) >>> newline >>>
  vga_print (str "  RFLAGS:  0x") >>> vga_print_hex (rflags regs) >>> newline >>>
  vga_print (str "  RSP:     0x") >>> vga_print_hex (rsp regs) >>> newline >>>
  vga_print (str "  SS:      0x") >>> vga_print_hex (ss regs) >>> newline >>>
  newline >>>
  vga_print (str "  RAX: 0x") >>> vga_print_hex (rax regs) >>>
  vga_print (str "  RBX: 0x") >>> vga_print_hex (rbx regs) >>> newline >>>
  vga_print (str "  RCX: 0x") >>> vga_print_hex (rcx regs) >>>
  vga_print (str "  RDX: 0x") >>> vga_print_hex (rdx regs) >>> newline >>>
  vga_println (str "===========================================") >>>
  vga_set_color VGA_WHITE VGA_BLACK >>>
  newline >>>
  vga_println (str "System halted.").

End exceptions.

(** ** The table of handlers *)

(** The functions the kernel installs: [pit_irq_handler] and [keyboard_irq_handler]. *)
Inductive irq_handler_t := pit_handler | keyboard_handler.

#[export] Instance irq_handler_t_eq : EqDecision irq_handler_t.
Proof. solve_decision. Defined.

(** The static variables; a null function pointer is [None], a null frame 0. *)
Record irqs := Irqs { irq_handlers : list (option irq_handler_t); new_task_regs : Z }.

Definition irqs_boot : irqs := Irqs (replicate 16 None) 0.

Definition irq_set_new_stack (new_regs : Z) (s : irqs) : irqs := Irqs (irq_handlers s) new_regs.

Definition irq_install_handler (irq : Z) (handler : irq_handler_t) (s : irqs) : irqs :=
  if (0 <=? irq) && (irq <? 16)
  then Irqs (<[Z.to_nat irq := Some handler]> (irq_handlers s)) (new_task_regs s)
  else s.

Definition irq_uninstall_handler (irq : Z) (s : irqs) : irqs :=
  if (0 <=? irq) && (irq <? 16)
  then Irqs (<[Z.to_nat irq := None]> (irq_handlers s)) (new_task_regs s)
  else s.

(** [irq_handlers\[irq\]]. *)
Definition handler_of (irq : Z) (s : irqs) : option irq_handler_t :=
  nth (Z.to_nat irq) (irq_handlers s) None.

Definition irqs_ok (s : irqs) : Prop := length (irq_handlers s) = 16%nat.

Lemma handler_of_set irq irq' (h : option irq_handler_t) l :
  0 <= irq < 16 -> 0 <= irq' < 16 -> length l = 16%nat ->
  nth (Z.to_nat irq') (<[Z.to_nat irq := h]> l) None =
  if decide (irq = irq') then h else nth (Z.to_nat irq') l None.
Proof.
  intros H H' Hl. rewrite !nth_lookup. case_decide as E.
  - subst. by rewrite list_lookup_insert_eq by lia.
  - by rewrite list_lookup_insert_ne by lia.
Qed.

Lemma irq_install_handler_of irq irq' h s :
  irqs_ok s -> 0 <= irq < 16 -> 0 <= irq' < 16 ->
  irqs_ok (irq_install_handler irq h s) /\
  handler_of irq' (irq_install_handler irq h s) = if decide (irq = irq') then Some h else handler_of irq' s.
Proof.
  intros Hs H H'. unfold irq_install_handler, irqs_ok, handler_of in *.
  destruct (Z.leb_spec 0 irq), (Z.ltb_spec irq 16); try lia. cbn [andb irq_handlers].
  rewrite length_insert. split; [done|by apply handler_of_set].
Qed.

End Isr.
