(* ===== verification/Task.v ===== *)
(** * Tasks and the scheduler ([task.h], [task.c])

    Task control blocks and saved register frames are shared C objects that the
    code reaches by pointers, so they are kept in stores indexed by address;
    [task_list] is the list of the pointers below [task_count_val].  The heap is
    any instance of [KernelHeap]. *)

From S2P Require Import Prelude Ports Vga Frames Vmm Heap KHeap Isr.
Import Vga Isr.
Local Open Scope Z_scope.

Module Task.

Inductive task_state_t :=
  TASK_STATE_READY | TASK_STATE_RUNNING | TASK_STATE_BLOCKED | TASK_STATE_SLEEPING | TASK_STATE_ZOMBIE.

#[export] Instance task_state_eq : EqDecision task_state_t.
Proof. solve_decision. Defined.

Definition TASK_NAME_MAX : Z := 32.
Definition MAX_TASKS : Z := 64.

Record task_t := TaskT {
  pid : Z; name : list Z; state : task_state_t; regs : Z;
  stack_base : Z; stack_size : Z; sleep_until : Z; next : Z
}.
Definition sizeof_task_t : Z := 80.

Definition set_state (s : task_state_t) (t : task_t) : task_t :=
  TaskT (pid t) (name t) s (regs t) (stack_base t) (stack_size t) (sleep_until t) (next t).
Definition set_regs (r : Z) (t : task_t) : task_t :=
  TaskT (pid t) (name t) (state t) r (stack_base t) (stack_size t) (sleep_until t) (next t).
Definition set_sleep (u : Z) (t : task_t) : task_t :=
  TaskT (pid t) (name t) (state t) (regs t) (stack_base t) (stack_size t) u (next t).

(** The static variables and the two stores. *)
Record tasks := Tasks {
  task_list : list Z;
  current_task : Z;
  next_pid : Z;
  tcbs : gmap Z task_t;
  frames_at : gmap Z registers_t
}.

Definition task_count_val (ts : tasks) : Z := Z.of_nat (length (task_list ts)).

(** [*p] for a pointer to a task, and the update of one of its fields. *)
Definition null_task : task_t := TaskT 0 [] TASK_STATE_READY 0 0 0 0 0.
Definition tcb (ts : tasks) (p : Z) : task_t := default null_task (tcbs ts !! p).
Definition upd (p : Z) (f : task_t -> task_t) (ts : tasks) : tasks :=
  Tasks (task_list ts) (current_task ts) (next_pid ts) (<[p := f (tcb ts p)]> (tcbs ts)) (frames_at ts).
Definition set_current (p : Z) (ts : tasks) : tasks :=
  Tasks (task_list ts) p (next_pid ts) (tcbs ts) (frames_at ts).
Definition set_frame (p : Z) (r : registers_t) (ts : tasks) : tasks :=
  Tasks (task_list ts) (current_task ts) (next_pid ts) (tcbs ts) (<[p := r]> (frames_at ts)).

(** The 32 bytes [strncpy(dst, src, TASK_NAME_MAX)] leaves in [name]. *)
Definition name_field (src : list Z) : list Z := take 32 (src ++ replicate 32 0).

(** The frame [task_create] prepares. *)
Definition initial_frame (entry stack_top : Z) : registers_t :=
  {| gs := 0x10; fs := 0x10; es := 0x10; ds := 0x10;
     r15 := 0; r14 := 0; r13 := 0; r12 := 0; r11 := 0; r10 := 0; r9 := 0; r8 := 0;
     rbp := 0; rdi := 0; rsi := 0; rdx := 0; rcx := 0; rbx := 0; rax := 0;
     int_no := 0; err_code := 0;
     rip := entry; cs := 0x08; rflags := 0x202; rsp := stack_top; ss := 0x10 |}.

(** The address of the frame on a stack: [stack_top] aligned down to 16 bytes,
    less the size of the frame. *)
Definition frame_address (stack_base stack_size : Z) : Z :=
  u64 (Z.land (u64 (stack_base + stack_size)) (u64 (Z.lnot 0xF)) - sizeof_registers_t).

(** ** The scheduler *)

(** The loop that finds the index after the current task's, 0 if it is not listed. *)
Fixpoint find_start (l : list Z) (cur i count : Z) : Z :=
  match l with
  | [] => 0
  | p :: l => if p =? cur then (i + 1) mod count else find_start l cur (i + 1) count
  end.

(** Whether the scan stops at task [p]: it is not the idle task, and it is
    ready or its sleep is over. *)
Definition runnable (ticks : Z) (ts : tasks) (p : Z) : bool :=
  let t := tcb ts p in
  negb (pid t =? 0) &&
  match state t with
  | TASK_STATE_READY => true
  | TASK_STATE_SLEEPING => sleep_until t <=? ticks
  | _ => false
  end.

(** The scan from [start_idx], [n] passes left; a sleeping task whose time has
    come becomes ready as the scan stops at it.  0 is the null pointer. *)
Fixpoint scan (n : nat) (i start_idx ticks : Z) (ts : tasks) : Z * tasks :=
  match n with
  | O => (0, ts)
  | S n =>
      let idx := (start_idx + i) mod task_count_val ts in
      let p := nth (Z.to_nat idx) (task_list ts) 0 in
      let t := tcb ts p in
      if pid t =? 0 then scan n (i + 1) start_idx ticks ts
      else if decide (state t = TASK_STATE_READY) then (p, ts)
      else if decide (state t = TASK_STATE_SLEEPING) then
        if sleep_until t <=? ticks then (p, upd p (set_state TASK_STATE_READY) ts)
        else scan n (i + 1) start_idx ticks ts
      else scan n (i + 1) start_idx ticks ts
  end.

(** Saving the running task. *)
Definition save_current (current_regs : Z) (ts : tasks) : tasks :=
  let cur := current_task ts in
  if negb (cur =? 0) && bool_decide (state (tcb ts cur) = TASK_STATE_RUNNING)
  then upd cur (set_state TASK_STATE_READY) (upd cur (set_regs current_regs) ts)
  else ts.

(** [task_switch]: the frame to return to. *)
Definition task_switch (ticks current_regs : Z) (ts : tasks) : Z * tasks :=
  if task_count_val ts =? 0 then (current_regs, ts)
  else
    let ts := save_current current_regs ts in
    let start_idx := find_start (task_list ts) (current_task ts) 0 (task_count_val ts) in
    let '(next_task, ts) := scan (length (task_list ts)) 0 start_idx ticks ts in
    if next_task =? 0 then
      (current_regs,
       if negb (current_task ts =? 0)
       then upd (current_task ts) (set_state TASK_STATE_RUNNING) ts else ts)
    else
      let ts := upd next_task (set_state TASK_STATE_RUNNING) (set_current next_task ts) in
      (regs (tcb ts (current_task ts)), ts).

Definition task_sleep (now ticks : Z) (ts : tasks) : tasks :=
  if negb (current_task ts =? 0)
  then upd (current_task ts) (set_sleep (u64 (now + ticks)))
         (upd (current_task ts) (set_state TASK_STATE_SLEEPING) ts)
  else ts.

Definition task_exit (ts : tasks) : tasks :=
  if negb (current_task ts =? 0)
  then upd (current_task ts) (set_state TASK_STATE_ZOMBIE) ts else ts.

Definition task_get_current (ts : tasks) : Z := current_task ts.
Definition task_count (ts : tasks) : Z := task_count_val ts.
Definition task_get_by_index (index : Z) (ts : tasks) : Z :=
  if (0 <=? index) && (index <? task_count_val ts) then nth (Z.to_nat index) (task_list ts) 0 else 0.

(** ** Creation *)
Section creation.
  Context {H D : Type} `{KernelHeap H D}.

Definition task_init (s : tasks * H) : tasks * H :=
  let '(ts, h) := s in
  let ts := Tasks [] 0 1 (tcbs ts) (frames_at ts) in
  let '(kernel_task, h) := km_alloc sizeof_task_t h in
  if negb (kernel_task =? 0) then
    (Tasks [kernel_task] kernel_task 1
       (<[kernel_task := TaskT 0 (name_field (str "kernel_idle")) TASK_STATE_RUNNING 0 0 0 0 0]> (tcbs ts))
       (frames_at ts), h)
  else (ts, h).

Definition task_create (name : list Z) (entry stack_size : Z) (s : tasks * H) : Z * (tasks * H) :=
  let '(ts, h) := s in
  if MAX_TASKS <=? task_count_val ts then
    (0, (ts, on_con (vga_println (str "[TASK] ERROR: Max tasks reached!")) h))
  else
    let '(task, h) := km_alloc sizeof_task_t h in
    if task =? 0 then (0, (ts, on_con (vga_println (str "[TASK] ERROR: Failed to allocate TCB!")) h))
    else
      let '(stack, h) := km_alloc stack_size h in
      if stack =? 0 then
        (0, (ts, on_con (vga_println (str "[TASK] ERROR: Failed to allocate stack!")) h))
      else
        let stack_top := frame_address stack stack_size in
        let first := current_task ts =? 0 in
        let t := TaskT (next_pid ts) (name_field name)
                   (if first then TASK_STATE_RUNNING else TASK_STATE_READY)
                   stack_top stack stack_size 0 0 in
        (task, (Tasks (task_list ts ++ [task])
                  (if first then task else current_task ts)
                  (u32 (next_pid ts + 1))
                  (<[task := t]> (tcbs ts))
                  (<[stack_top := initial_frame entry stack_top]> (frames_at ts)), h)).

End creation.
(** ** The invariant *)

Record tasks_ok (ts : tasks) : Prop := {
  tk_nodup : NoDup (task_list ts);
  tk_null : 0 ∉ task_list ts;
  tk_max : task_count_val ts <= MAX_TASKS;
  tk_current : current_task ts = 0 /\ task_list ts = [] \/ current_task ts ∈ task_list ts;
  tk_running p : p ∈ task_list ts -> state (tcb ts p) = TASK_STATE_RUNNING -> p = current_task ts;
  tk_pids : NoDup (map (fun p => pid (tcb ts p)) (task_list ts));
  tk_next p : p ∈ task_list ts -> pid (tcb ts p) < next_pid ts;
  tk_pid_bound : 0 < next_pid ts <= task_count_val ts + 1
}.

Lemma tcb_upd p f ts q : tcb (upd p f ts) q = if decide (p = q) then f (tcb ts p) else tcb ts q.
Proof. unfold tcb, upd. cbn [tcbs]. rewrite lookup_insert. by case_decide. Qed.

(** Updates of a block's state, saved frame or wake-up time keep its identity. *)
Definition keeps_pid (f : task_t -> task_t) : Prop := forall t, pid (f t) = pid t.

Lemma upd_ok p f ts :
  tasks_ok ts -> keeps_pid f ->
  (p ∈ task_list ts -> state (f (tcb ts p)) = TASK_STATE_RUNNING -> p = current_task ts) ->
  tasks_ok (upd p f ts).
Proof.
  intros Hok Hf Hr. assert (Hp : forall q, pid (tcb (upd p f ts) q) = pid (tcb ts q)).
  { intros q. rewrite tcb_upd. case_decide; [subst; apply Hf|done]. }
  split; try apply Hok.
  - intros q Hq. cbn [upd task_list] in Hq. rewrite tcb_upd. case_decide; [subst; by apply Hr|].
    by apply (tk_running _ Hok).
  - cbn [upd task_list]. erewrite map_ext; [apply (tk_pids _ Hok)|]. exact Hp.
  - intros q Hq. rewrite Hp. by apply (tk_next _ Hok).
Qed.

Lemma set_current_ok p ts :
  tasks_ok ts -> p ∈ task_list ts ->
  (forall q, q ∈ task_list ts -> state (tcb ts q) = TASK_STATE_RUNNING -> q = p) ->
  tasks_ok (set_current p ts).
Proof. intros Hok Hp Hr. split; try apply Hok; [by right|exact Hr]. Qed.

(** ** The order of the scan *)

(** The tasks after [cur] in the list, then those before it, then [cur]. *)
Definition rotation (l : list Z) (cur : Z) (R : list Z) : Prop :=
  exists l1 l2, l = l1 ++ cur :: l2 /\ R = l2 ++ l1 ++ [cur].

Lemma rotation_exists l cur : cur ∈ l -> exists R, rotation l cur R.
Proof. intros (l1 & l2 & ->)%list_elem_of_split. by exists (l2 ++ l1 ++ [cur]), l1, l2. Qed.

Lemma rotation_perm l cur R : rotation l cur R -> R ≡ₚ l.
Proof. intros (l1 & l2 & -> & ->). solve_Permutation. Qed.

(** Continuing from an element of the rotation. *)
Lemma rotation_step l cur c1 q c2 :
  rotation l cur (c1 ++ q :: c2) -> rotation l q (c2 ++ c1 ++ [q]).
Proof.
  intros (l1 & l2 & -> & HR). unfold rotation. symmetry in HR.
  destruct (app_eq_app _ _ _ _ HR) as (k & [[-> E2]|[-> E2]]).
  - destruct k as [|q' k]; [destruct l1 as [|a l1]|]; simpl in E2; injection E2 as E3 E4; subst.
    + exists [], (c1 ++ []). by rewrite app_nil_r.
    + exists [], (l1 ++ cur :: c1 ++ []). by rewrite app_nil_r, <- !app_assoc.
    + exists (l1 ++ cur :: c1), k. by rewrite <- !app_assoc.
  - symmetry in E2. destruct (app_eq_app _ _ _ _ E2) as (k' & [[-> F2]|[-> F2]]).
    + destruct k' as [|? []]; simpl in F2; injection F2 as F3 F4; subst; try done.
      exists l1, l2. by rewrite app_nil_r, <- app_assoc.
    + destruct k' as [|q' k']; simpl in F2; injection F2 as F3 F4; subst.
      * exists k, l2. by rewrite app_nil_r, <- app_assoc.
      * exists k, (k' ++ cur :: l2). by rewrite <- !app_assoc.
Qed.

Lemma find_start_pos l1 cur l2 i count :
  cur ∉ l1 -> find_start (l1 ++ cur :: l2) cur i count = (i + Z.of_nat (length l1) + 1) mod count.
Proof.
  revert i. induction l1 as [|a l1 IH]; intros i Hn; cbn [find_start app].
  - rewrite Z.eqb_refl. f_equal. simpl. lia.
  - apply not_elem_of_cons in Hn as [Hne Hn]. destruct (Z.eqb_spec a cur); [congruence|].
    rewrite IH by done. f_equal. simpl. lia.
Qed.

(** The tasks the scan looks at, in order. *)
Definition scan_order (l : list Z) (start n : Z) (i : Z) : list Z :=
  map (fun k => nth (Z.to_nat ((start + k) mod Z.of_nat (length l))) l 0) (seqZ i n).

Lemma scan_order_rotation l1 cur l2 :
  let l := l1 ++ cur :: l2 in
  let n := Z.of_nat (length l) in
  scan_order l ((Z.of_nat (length l1) + 1) mod n) n 0 = l2 ++ l1 ++ [cur].
Proof.
  cbv zeta. set (l := l1 ++ cur :: l2). unfold scan_order.
  assert (Hl : length l = (length l1 + S (length l2))%nat) by (subst l; by rewrite length_app).
  apply list_eq. intros k. rewrite list_lookup_fmap.
  destruct (decide (k < length l)%nat) as [Hk|Hk].
  2: { rewrite lookup_ge_None_2, lookup_ge_None_2; [done| |rewrite length_seqZ; lia].
       rewrite !length_app. simpl. lia. }
  rewrite lookup_seqZ_lt by lia. cbn [fmap option_fmap option_map].
  rewrite nth_lookup. rewrite Zplus_mod_idemp_l.
  destruct (decide (k < length l2)%nat).
  - rewrite Z.mod_small by lia. rewrite lookup_app_l by lia. subst l.
    rewrite lookup_app_r by lia. rewrite lookup_cons_ne_0 by lia.
    replace (Init.Nat.pred _) with k by lia. by destruct (lookup_lt_is_Some_2 l2 k ltac:(lia)) as [x ->].
  - replace ((Z.of_nat (length l1) + 1 + (0 + Z.of_nat k)) mod Z.of_nat (length l))
      with (Z.of_nat (k - length l2)) by (apply (Z.mod_unique _ _ 1); lia).
    rewrite Nat2Z.id, lookup_app_r by lia. subst l.
    destruct (decide (k - length l2 < length l1)%nat).
    + rewrite !lookup_app_l by lia.
      by destruct (lookup_lt_is_Some_2 l1 (k - length l2) ltac:(lia)) as [x ->].
    + rewrite !lookup_app_r by lia. by replace (k - length l2 - length l1)%nat with O by lia.
Qed.

(** A sleeping task the scan stops at has become ready. *)
Definition woken (p : Z) (ts : tasks) : tasks :=
  if decide (state (tcb ts p) = TASK_STATE_SLEEPING) then upd p (set_state TASK_STATE_READY) ts else ts.

Lemma scan_find n : forall i start ticks ts,
  scan n i start ticks ts =
  match find (runnable ticks ts) (scan_order (task_list ts) start (Z.of_nat n) i) with
  | Some p => (p, woken p ts)
  | None => (0, ts)
  end.
Proof.
  induction n as [|n IH]; intros i start ticks ts; cbn [scan]; [done|].
  unfold scan_order. rewrite seqZ_cons by lia. rewrite Nat2Z.inj_succ, Z.pred_succ. cbn [map find].
  unfold task_count_val. set (p := nth _ (task_list ts) 0).
  specialize (IH (Z.succ i) start ticks ts). unfold scan_order in IH.
  rewrite <- Z.add_1_r in IH |- *. unfold runnable at 1, woken.
  destruct (Z.eqb_spec (pid (tcb ts p)) 0) as [Hp|Hp]; cbn [negb andb]; [done|].
  destruct (state (tcb ts p)) eqn:Es; repeat case_decide; try done; try congruence.
  destruct (sleep_until (tcb ts p) <=? ticks); [by rewrite Es|exact IH].
Qed.

(** ** Switching *)

(** What saving the running task changes. *)
Lemma save_current_tcb r ts p :
  tcb (save_current r ts) p =
  if decide (p = current_task ts /\ current_task ts <> 0 /\ state (tcb ts p) = TASK_STATE_RUNNING)
  then set_state TASK_STATE_READY (set_regs r (tcb ts p)) else tcb ts p.
Proof.
  unfold save_current. destruct (decide (p = current_task ts)) as [->|Hp].
  - destruct (Z.eqb_spec (current_task ts) 0); cbn [negb andb]; [by rewrite decide_False by tauto|].
    case_bool_decide.
    + rewrite !tcb_upd. by rewrite !decide_True by tauto.
    + by rewrite decide_False by tauto.
  - rewrite (decide_False (P := p = _ /\ _)) by tauto. case_match; [|done].
    rewrite !tcb_upd. by rewrite !decide_False by congruence.
Qed.

Lemma save_current_same r ts :
  task_list (save_current r ts) = task_list ts /\ current_task (save_current r ts) = current_task ts /\
  frames_at (save_current r ts) = frames_at ts.
Proof. unfold save_current. by case_match. Qed.

Lemma save_current_ok r ts : tasks_ok ts -> tasks_ok (save_current r ts).
Proof.
  intros Hok. unfold save_current. case_match; [|done].
  apply upd_ok; [|done|done]. apply upd_ok; [done|done|]. intros Hp Hs. done.
Qed.

(** [task_switch] in terms of the rotation: the complete result. *)
Lemma task_switch_find ticks r ts R :
  tasks_ok ts -> current_task ts <> 0 -> rotation (task_list ts) (current_task ts) R ->
  let saved := save_current r ts in
  task_switch ticks r ts =
  match find (runnable ticks saved) R with
  | Some q =>
      (regs (tcb saved q),
       upd q (set_state TASK_STATE_RUNNING) (set_current q (woken q saved)))
  | None => (r, upd (current_task ts) (set_state TASK_STATE_RUNNING) saved)
  end.
Proof.
  intros Hok Hc (l1 & l2 & Hl & ->). cbv zeta. unfold task_switch.
  destruct (save_current_same r ts) as (S1 & S2 & S3).
  assert (Hn : task_count_val ts <> 0) by (unfold task_count_val; rewrite Hl, length_app; simpl; lia).
  destruct (Z.eqb_spec (task_count_val ts) 0); [done|].
  set (saved := save_current r ts) in *. rewrite scan_find. rewrite S1, S2.
  assert (Hcnt : task_count_val saved = Z.of_nat (length (task_list ts))) by (unfold task_count_val; by rewrite S1).
  assert (Hnot : current_task ts ∉ l1).
  { pose proof (tk_nodup _ Hok) as Hd. rewrite Hl in Hd. apply NoDup_app in Hd as (_ & Hd & _).
    intros Hin. apply (Hd _ Hin). left. }
  pose proof (find_start_pos l1 (current_task ts) l2 0 (Z.of_nat (length (task_list ts))) Hnot) as Hf.
  pose proof (scan_order_rotation l1 (current_task ts) l2) as Ho. cbv zeta in Ho.
  rewrite <- Hl in Hf, Ho. rewrite Hcnt, Hf, Z.add_0_l, Ho.
  destruct (find (runnable ticks saved) (l2 ++ l1 ++ [current_task ts])) as [q|] eqn:Ef.
  - apply find_some in Ef as [Hq _].
    assert (q <> 0).
    { intros ->. apply (tk_null _ Hok). rewrite Hl. apply list_elem_of_In in Hq.
      rewrite !elem_of_app, list_elem_of_singleton in Hq. rewrite elem_of_app, elem_of_cons. tauto. }
    destruct (Z.eqb_spec q 0); [done|]. f_equal. cbn [current_task upd set_current].
    rewrite tcb_upd, decide_True by done.
    change (tcb (set_current q (woken q saved)) q) with (tcb (woken q saved) q).
    unfold woken. case_decide; [|done]. by rewrite tcb_upd, decide_True.
  - cbn [Z.eqb]. rewrite S2. by destruct (Z.eqb_spec (current_task ts) 0).
Qed.

Lemma woken_tcb q ts p :
  tcb (woken q ts) p =
  if decide (p = q /\ state (tcb ts p) = TASK_STATE_SLEEPING) then set_state TASK_STATE_READY (tcb ts p)
  else tcb ts p.
Proof.
  unfold woken. destruct (decide (p = q)) as [->|Hp].
  - case_decide; [rewrite tcb_upd; by rewrite !decide_True by tauto|by rewrite decide_False by tauto].
  - rewrite (decide_False (P := p = _ /\ _)) by tauto. case_decide; [|done].
    rewrite tcb_upd. by rewrite decide_False by congruence.
Qed.

Lemma woken_ok q ts : tasks_ok ts -> tasks_ok (woken q ts).
Proof. intros Hok. unfold woken. case_decide; [|done]. by apply upd_ok. Qed.

Lemma woken_list q ts : task_list (woken q ts) = task_list ts.
Proof. unfold woken. by case_decide. Qed.

(** After the running task is saved nobody is running. *)
Lemma saved_not_running r ts p :
  tasks_ok ts -> current_task ts <> 0 -> p ∈ task_list ts ->
  state (tcb (save_current r ts) p) <> TASK_STATE_RUNNING.
Proof.
  intros Hok Hc Hp. rewrite save_current_tcb. case_decide as E; [done|].
  intros Hs. apply E. pose proof (tk_running _ Hok p Hp Hs). done.
Qed.

Lemma rotation_elem l cur R p : rotation l cur R -> p ∈ R <-> p ∈ l.
Proof. intros H. by rewrite (rotation_perm _ _ _ H). Qed.

(** Making [q] the one running task. *)
Lemma make_running_ok q ts :
  tasks_ok ts -> q ∈ task_list ts ->
  (forall p, p ∈ task_list ts -> state (tcb ts p) <> TASK_STATE_RUNNING) ->
  tasks_ok (upd q (set_state TASK_STATE_RUNNING) (set_current q ts)).
Proof.
  intros Hok Hq Hn. apply upd_ok; [|done|done]. apply set_current_ok; [done|done|].
  intros p Hp Hs. by destruct (Hn p Hp).
Qed.

Lemma no_current ts : tasks_ok ts -> current_task ts = 0 -> task_list ts = [].
Proof.
  intros Hok Hc. destruct (tk_current _ Hok) as [[_ ?]|Hin]; [done|].
  rewrite Hc in Hin. by destruct (tk_null _ Hok).
Qed.

Lemma task_switch_none ticks r ts : task_list ts = [] -> task_switch ticks r ts = (r, ts).
Proof. intros H. unfold task_switch, task_count_val. by rewrite H. Qed.

(** The case analysis the theorems about [task_switch] share. *)
Lemma task_switch_cases ticks r ts :
  tasks_ok ts ->
  task_list ts = [] /\ task_switch ticks r ts = (r, ts) \/
  current_task ts ∈ task_list ts /\ current_task ts <> 0 /\
  exists R, rotation (task_list ts) (current_task ts) R /\
    let saved := save_current r ts in
    task_switch ticks r ts =
    match find (runnable ticks saved) R with
    | Some q => (regs (tcb saved q), upd q (set_state TASK_STATE_RUNNING) (set_current q (woken q saved)))
    | None => (r, upd (current_task ts) (set_state TASK_STATE_RUNNING) saved)
    end.
Proof.
  intros Hok. destruct (decide (current_task ts = 0)) as [Hc|Hc].
  - left. pose proof (no_current ts Hok Hc) as Hl. split; [done|by apply task_switch_none].
  - right. destruct (tk_current _ Hok) as [[? _]|Hin]; [done|].
    destruct (rotation_exists _ _ Hin) as [R HR]. split; [done|]. split; [done|].
    exists R. split; [done|by apply task_switch_find].
Qed.

Lemma find_in {A} (f : A -> bool) l x : find f l = Some x -> x ∈ l /\ f x = true.
Proof. intros H%find_some. by rewrite list_elem_of_In. Qed.

Lemma task_switch_ok ticks r ts :
  tasks_ok ts -> tasks_ok (snd (task_switch ticks r ts)) /\
  task_list (snd (task_switch ticks r ts)) = task_list ts.
Proof.
  intros Hok. destruct (task_switch_cases ticks r ts Hok) as [[_ ->]|(Hin & Hc & R & HR & ->)]; [done|].
  pose proof (save_current_ok r ts Hok) as Hs. destruct (save_current_same r ts) as (S1 & S2 & _).
  destruct (find _ R) as [q|] eqn:Ef; cbn [snd].
  - apply find_in in Ef as [Hq Hrun]. rewrite (rotation_elem _ _ _ q HR) in Hq.
    split; [|cbn [upd set_current task_list]; by rewrite woken_list].
    apply make_running_ok; [by apply woken_ok|by rewrite woken_list, S1|].
    intros p. rewrite woken_list, S1, woken_tcb. intros Hp. case_decide; [done|].
    by apply saved_not_running.
  - split; [|done]. apply upd_ok; [done|done|]. intros _ _. by rewrite S2.
Qed.

(** C25: every operation of the scheduler keeps the task table consistent: no
    task is listed twice, identifiers stay distinct, the current task is listed
    and no other task is marked running. *)
Theorem task_ops_ok ts :
  tasks_ok ts ->
  (forall ticks r, tasks_ok (snd (task_switch ticks r ts))) /\
  (forall now k, tasks_ok (task_sleep now k ts)) /\ tasks_ok (task_exit ts).
Proof.
  intros Hok. split; [intros; by apply task_switch_ok|]. split.
  - intros now k. unfold task_sleep. case_match; [|done]. apply upd_ok; [by apply upd_ok|done|].
    rewrite tcb_upd, decide_True by done. done.
  - unfold task_exit. case_match; [|done]. by apply upd_ok.
Qed.

(** C26: round robin: [task_switch] runs the first runnable task after the current
    one in the order of the list, the current one last; it returns the frame
    saved in that task, marks it running and changes no other task but the one
    that was interrupted.  If no task is runnable, the current one goes on. *)
Theorem task_switch_round_robin ticks r ts l1 l2 :
  tasks_ok ts -> task_list ts = l1 ++ current_task ts :: l2 ->
  let saved := save_current r ts in
  let '(frame, ts') := task_switch ticks r ts in
  match find (runnable ticks saved) (l2 ++ l1 ++ [current_task ts]) with
  | Some q => current_task ts' = q /\ frame = regs (tcb saved q) /\
      tcb ts' q = set_state TASK_STATE_RUNNING (tcb saved q) /\
      forall p, p <> q -> tcb ts' p = tcb saved p
  | None => current_task ts' = current_task ts /\ frame = r /\
      forall p, tcb ts' p = if decide (p = current_task ts)
                            then set_state TASK_STATE_RUNNING (tcb saved p) else tcb saved p
  end.
Proof.
  intros Hok Hl saved.
  assert (Hc : current_task ts <> 0).
  { intros Hc. pose proof (no_current ts Hok Hc) as E. rewrite E in Hl. by destruct l1. }
  rewrite (task_switch_find ticks r ts (l2 ++ l1 ++ [current_task ts]) Hok Hc)
    by (by exists l1, l2). fold saved.
  destruct (find _ _) as [q|]; (split; [try done; apply save_current_same|]); (split; [done|]).
  - split.
    + rewrite tcb_upd, decide_True by done.
      change (tcb (set_current q (woken q saved)) q) with (tcb (woken q saved) q).
      rewrite woken_tcb. by case_decide.
    + intros p Hp. rewrite tcb_upd, decide_False by done.
      change (tcb (set_current q (woken q saved)) p) with (tcb (woken q saved) p).
      rewrite woken_tcb. by rewrite decide_False by tauto.
  - intros p. rewrite tcb_upd. repeat case_decide; congruence.
Qed.

(** ** Fairness *)

(** What happens between two observations: a run of the scheduler, or the
    current task going to sleep or exiting. *)
Inductive event :=
| Switch (ticks current_regs : Z)
| Sleep (now ticks : Z)
| Exit.

Definition step (e : event) (ts : tasks) : tasks :=
  match e with
  | Switch ticks r => snd (task_switch ticks r ts)
  | Sleep now k => task_sleep now k ts
  | Exit => task_exit ts
  end.

Definition run (evs : list event) (ts : tasks) : tasks := fold_left (fun ts e => step e ts) evs ts.

Fixpoint switches (evs : list event) : nat :=
  match evs with
  | [] => 0
  | Switch _ _ :: evs => S (switches evs)
  | _ :: evs => switches evs
  end.

Lemma step_ok e ts : tasks_ok ts -> tasks_ok (step e ts) /\ task_list (step e ts) = task_list ts.
Proof.
  intros Hok. destruct e as [ticks r|now k|]; cbn [step]; [by apply task_switch_ok| |].
  - unfold task_sleep. case_match; [|done]. split; [|done]. apply upd_ok; [by apply upd_ok|done|].
    by rewrite tcb_upd, decide_True by done.
  - unfold task_exit. case_match; [|done]. split; [|done]. by apply upd_ok.
Qed.

(** Sleeping and exiting concern the current task only. *)
Lemma step_local e ts p :
  (forall t r, e <> Switch t r) -> p <> current_task ts ->
  current_task (step e ts) = current_task ts /\ tcb (step e ts) p = tcb ts p.
Proof.
  intros He Hp. destruct e as [ticks r|now k|]; cbn [step]; [by destruct (He ticks r)| |].
  - unfold task_sleep. case_match; [|done]. split; [done|].
    rewrite !tcb_upd. by rewrite !decide_False by congruence.
  - unfold task_exit. case_match; [|done]. split; [done|].
    rewrite tcb_upd. by rewrite decide_False by congruence.
Qed.

Lemma find_app {A} (f : A -> bool) l1 l2 :
  find f (l1 ++ l2) = match find f l1 with Some x => Some x | None => find f l2 end.
Proof. induction l1 as [|a l1 IH]; [done|]. simpl. by destruct (f a). Qed.

(** A switch that does not choose [p] leaves its block alone. *)
Lemma switch_other ticks r ts p :
  tasks_ok ts -> p <> current_task ts -> current_task (snd (task_switch ticks r ts)) <> p ->
  tcb (snd (task_switch ticks r ts)) p = tcb ts p.
Proof.
  intros Hok Hp. destruct (task_switch_cases ticks r ts Hok) as [[_ ->]|(_ & Hc & R & HR & ->)]; [done|].
  assert (Hs : tcb (save_current r ts) p = tcb ts p).
  { rewrite save_current_tcb. by rewrite decide_False by tauto. }
  destruct (find _ R) as [q|]; cbn [snd upd set_current current_task]; intros Hq.
  - rewrite tcb_upd, decide_False by done. change (tcb (set_current ?q ?t) p) with (tcb t p).
    rewrite woken_tcb, decide_False; [done|]. intros [-> _]. by apply Hq.
  - rewrite tcb_upd, decide_False; [done|]. intros E. by apply Hp.
Qed.

(** Each switch brings a ready task closer to the front, or runs it. *)
Lemma switch_closer ticks r ts p c1 c2 :
  tasks_ok ts -> p <> current_task ts -> rotation (task_list ts) (current_task ts) (c1 ++ p :: c2) ->
  pid (tcb ts p) <> 0 -> state (tcb ts p) = TASK_STATE_READY ->
  let ts' := snd (task_switch ticks r ts) in
  current_task ts' = p \/
  exists c1' c2', rotation (task_list ts) (current_task ts') (c1' ++ p :: c2') /\
    (length c1' < length c1)%nat.
Proof.
  intros Hok Hp HR Hpid Hst ts'. subst ts'.
  assert (Hc : current_task ts <> 0).
  { intros Hc. pose proof (no_current ts Hok Hc) as E. rewrite E in HR.
    apply rotation_perm, Permutation_nil_r in HR. by destruct c1. }
  rewrite (task_switch_find ticks r ts _ Hok Hc HR). rewrite find_app. cbn [find].
  assert (Hrun : runnable ticks (save_current r ts) p = true).
  { unfold runnable. rewrite save_current_tcb, decide_False by tauto. rewrite Hst.
    by destruct (Z.eqb_spec (pid (tcb ts p)) 0). }
  rewrite Hrun. destruct (find (runnable ticks (save_current r ts)) c1) as [q|] eqn:Ef; [right|by left].
  apply find_in in Ef as [Hq _]. apply list_elem_of_split in Hq as (a & b & ->).
  rewrite <- app_assoc in HR. cbn [app] in HR.
  exists b, (c2 ++ a ++ [q]). split; [|rewrite length_app; simpl; lia].
  apply rotation_step in HR. rewrite <- app_assoc in HR. exact HR.
Qed.

(** C27: no starvation: a ready task (other than the idle task) runs within as
    many runs of the scheduler as there are tasks, whatever the other tasks do
    in between. *)
Theorem task_switch_fair evs ts p :
  tasks_ok ts -> p ∈ task_list ts -> pid (tcb ts p) <> 0 -> state (tcb ts p) = TASK_STATE_READY ->
  (length (task_list ts) <= switches evs)%nat ->
  exists k, current_task (run (take k evs) ts) = p.
Proof.
  intros Hok Hp Hpid Hst Hn.
  destruct (decide (current_task ts = p)) as [E|Hne]; [by exists O|].
  destruct (tk_current _ Hok) as [[_ Hl]|Hin]; [rewrite Hl in Hp; by apply elem_of_nil in Hp|].
  destruct (rotation_exists _ _ Hin) as [R HR].
  pose proof Hp as HpR. rewrite <- (rotation_elem _ _ _ p HR) in HpR.
  apply list_elem_of_split in HpR as (c1 & c2 & ->).
  assert (Hc1 : (length c1 < switches evs)%nat).
  { apply rotation_perm, Permutation_length in HR. rewrite length_app in HR. simpl in HR. lia. }
  clear Hn Hin. revert ts c1 c2 Hok Hp Hpid Hst Hne HR Hc1.
  induction evs as [|e evs IH]; intros ts c1 c2 Hok Hp Hpid Hst Hne HR Hc1; [simpl in Hc1; lia|].
  destruct (step_ok e ts Hok) as [Hok' Hl'].
  destruct (decide (current_task (step e ts) = p)) as [E|Hne']; [by exists 1%nat|].
  cut (tcb (step e ts) p = tcb ts p /\
       exists c1' c2', rotation (task_list ts) (current_task (step e ts)) (c1' ++ p :: c2') /\
         (length c1' < switches evs)%nat).
  { intros (Ht & c1' & c2' & HR' & Hlt).
    destruct (IH (step e ts) c1' c2') as [k Hk]; rewrite ?Hl', ?Ht; try done. by exists (S k). }
  destruct e as [ticks r|now k|]; cbn [switches] in Hc1.
  - cbn [step] in *. split; [by apply switch_other|].
    destruct (switch_closer ticks r ts p c1 c2 Hok (not_eq_sym Hne) HR Hpid Hst) as [E|H]; [done|].
    destruct H as (c1' & c2' & HR' & Hlt). exists c1', c2'. split; [done|lia].
  - destruct (step_local (Sleep now k) ts p) as [-> ->]; [done|done|]. split; [done|by exists c1, c2].
  - destruct (step_local Exit ts p) as [-> ->]; [done|done|]. split; [done|by exists c1, c2].
Qed.

(** ** Saved contexts *)

Lemma run_other evs ts p :
  tasks_ok ts -> (forall k, (k <= length evs)%nat -> current_task (run (take k evs) ts) <> p) ->
  tasks_ok (run evs ts) /\ current_task (run evs ts) <> p /\ tcb (run evs ts) p = tcb ts p.
Proof.
  revert ts. induction evs as [|e evs IH]; intros ts Hok Hk.
  { split; [done|]. split; [apply (Hk 0%nat); simpl; lia|done]. }
  destruct (step_ok e ts Hok) as [Hok' _].
  pose proof (Hk 0%nat ltac:(lia)) as H0. pose proof (Hk 1%nat ltac:(simpl; lia)) as H1.
  unfold run in H0, H1. simpl in H0, H1.
  assert (Ht : tcb (step e ts) p = tcb ts p).
  { destruct e as [ticks r|now k|].
    - by apply switch_other.
    - by apply (step_local (Sleep now k)).
    - by apply (step_local Exit). }
  destruct (IH (step e ts) Hok') as (I1 & I2 & I3).
  { intros k Hle. apply (Hk (S k)). simpl. lia. }
  unfold run in *. simpl. by rewrite <- Ht.
Qed.

(** A switch to a task that was not current returns the frame saved in it. *)
Lemma switch_frame t r ts p :
  tasks_ok ts -> current_task ts <> p ->
  let '(f, ts') := task_switch t r ts in current_task ts' = p -> f = regs (tcb ts p).
Proof.
  intros Hok Hp. destruct (task_switch_cases t r ts Hok) as [[_ ->]|(_ & _ & R & _ & ->)]; [done|].
  destruct (find _ R) as [q|]; cbn [upd set_current current_task].
  - intros ->. rewrite save_current_tcb. by rewrite decide_False by (intros [? _]; congruence).
  - destruct (save_current_same r ts) as (_ & -> & _). done.
Qed.

(** A switch away from [p] keeps what saving put into its block. *)
Lemma switch_away t r ts p :
  tasks_ok ts -> current_task (snd (task_switch t r ts)) <> p ->
  tcb (snd (task_switch t r ts)) p = tcb (save_current r ts) p.
Proof.
  intros Hok. destruct (task_switch_cases t r ts Hok) as [[Hl ->]|(_ & Hc & R & _ & ->)].
  - cbn [snd]. intros Hp. rewrite save_current_tcb, decide_False; [done|]. intros [? _]. congruence.
  - destruct (find _ R) as [q|]; cbn [snd upd set_current current_task]; intros Hp.
    + rewrite tcb_upd, decide_False by done. change (tcb (set_current ?q ?x) p) with (tcb x p).
      rewrite woken_tcb, decide_False; [done|]. intros [-> _]. by apply Hp.
    + destruct (save_current_same r ts) as (_ & S2 & _). rewrite tcb_upd, decide_False; congruence.
Qed.

(** Context switches are transparent: a running task that is switched away
    from and, after any scheduling of the others, switched back to, returns to
    exactly the frame it was interrupted with. *)
Theorem task_switch_resume evs ts t r t' r' :
  tasks_ok ts -> current_task ts <> 0 -> state (tcb ts (current_task ts)) = TASK_STATE_RUNNING ->
  let p := current_task ts in
  let ts1 := snd (task_switch t r ts) in
  (forall k, (k <= length evs)%nat -> current_task (run (take k evs) ts1) <> p) ->
  let '(f, ts3) := task_switch t' r' (run evs ts1) in
  current_task ts3 = p -> f = r.
Proof.
  intros Hok Hc Hs p ts1 Hk. destruct (task_switch_ok t r ts Hok) as [Hok1 _]. fold ts1 in Hok1.
  destruct (run_other evs ts1 p Hok1 Hk) as (Hok2 & Hp2 & Ht2).
  pose proof (switch_frame t' r' (run evs ts1) p Hok2 Hp2) as Hf.
  destruct (task_switch t' r' (run evs ts1)) as [f ts3]. intros E. rewrite (Hf E), Ht2.
  subst ts1. rewrite switch_away; [|done|apply (Hk 0%nat); lia].
  rewrite save_current_tcb. by rewrite decide_True by done.
Qed.

(** The frame of a task that went to sleep is not saved: the scheduler saves
    running tasks only, so when the sleeper is switched to again it resumes at
    the frame of an earlier interruption (or at its entry point), not at the one
    it was interrupted with. *)
Theorem task_sleep_stale_frame evs ts now n t r t' r' :
  tasks_ok ts -> current_task ts <> 0 ->
  let p := current_task ts in
  let ts1 := snd (task_switch t r (task_sleep now n ts)) in
  (forall k, (k <= length evs)%nat -> current_task (run (take k evs) ts1) <> p) ->
  let '(f, ts3) := task_switch t' r' (run evs ts1) in
  current_task ts3 = p -> f = regs (tcb ts p).
Proof.
  intros Hok Hc p ts1 Hk. destruct (step_ok (Sleep now n) ts Hok) as [Hok0 _]. cbn [step] in Hok0.
  destruct (task_switch_ok t r _ Hok0) as [Hok1 _]. fold ts1 in Hok1.
  destruct (run_other evs ts1 p Hok1 Hk) as (Hok2 & Hp2 & Ht2).
  pose proof (switch_frame t' r' (run evs ts1) p Hok2 Hp2) as Hf.
  destruct (task_switch t' r' (run evs ts1)) as [f ts3]. intros E. rewrite (Hf E), Ht2.
  subst ts1. rewrite switch_away; [|done|apply (Hk 0%nat); lia].
  assert (Hsl : tcb (task_sleep now n ts) p =
    set_sleep (u64 (now + n)) (set_state TASK_STATE_SLEEPING (tcb ts p))).
  { unfold task_sleep. destruct (Z.eqb_spec (current_task ts) 0); [done|]. cbn [negb].
    by rewrite !tcb_upd, !decide_True by done. }
  rewrite save_current_tcb, Hsl. rewrite decide_False by (intros (_ & _ & E'); discriminate E'). done.
Qed.

Lemma find_none_all {A} (f : A -> bool) l : (forall x, x ∈ l -> f x = false) -> find f l = None.
Proof.
  induction l as [|a l IH]; intros H; [done|]. simpl. rewrite (H a) by left.
  apply IH. intros x Hx. apply H. by right.
Qed.

(** C28: sleeping and exiting are undone when no other task can run: the scheduler
    marks the current task running again whatever its state, so [task_sleep] ends
    early and an exited task goes on. *)
Theorem task_sleep_exit_undone ts t r now n ts0 :
  tasks_ok ts -> current_task ts <> 0 -> (forall q, q ∈ task_list ts -> q <> current_task ts -> runnable t ts q = false) ->
  t < u64 (now + n) -> ts0 = task_sleep now n ts \/ ts0 = task_exit ts ->
  let '(frame, ts') := task_switch t r ts0 in
  frame = r /\ current_task ts' = current_task ts /\
  state (tcb ts' (current_task ts)) = TASK_STATE_RUNNING.
Proof.
  intros Hok Hc Hothers Ht H0. set (p := current_task ts) in *.
  assert (Hnz : negb (current_task ts =? 0) = true) by (by destruct (Z.eqb_spec (current_task ts) 0)).
  assert (Hts0 : tasks_ok ts0 /\ current_task ts0 = p /\ task_list ts0 = task_list ts /\
    state (tcb ts0 p) <> TASK_STATE_RUNNING /\ runnable t ts0 p = false /\
    forall q, q <> p -> tcb ts0 q = tcb ts q).
  { destruct H0 as [-> | ->].
    - destruct (step_ok (Sleep now n) ts Hok) as [H1 H2]. cbn [step] in H1, H2.
      unfold task_sleep in *. rewrite Hnz in *. fold p in H1, H2 |- *. split; [done|]. split; [done|]. split; [done|].
      unfold runnable. rewrite !tcb_upd, !decide_True by done. cbn. split; [done|]. split.
      + destruct (Z.leb_spec (u64 (now + n)) t); [lia|]. apply andb_false_r.
      + intros q Hq. rewrite !tcb_upd. by rewrite !decide_False by congruence.
    - destruct (step_ok Exit ts Hok) as [H1 H2]. cbn [step] in H1, H2.
      unfold task_exit in *. rewrite Hnz in *. fold p in H1, H2 |- *. split; [done|]. split; [done|]. split; [done|].
      unfold runnable. rewrite !tcb_upd, !decide_True by done. cbn. split; [done|]. split; [apply andb_false_r|].
      intros q Hq. rewrite !tcb_upd. by rewrite !decide_False by congruence. }
  destruct Hts0 as (Hok0 & Hc0 & Hl0 & Hs0 & Hr0 & Ho0).
  destruct (task_switch_cases t r ts0 Hok0) as [[Hl _]|(_ & _ & R & HR & ->)].
  { exfalso. destruct (tk_current _ Hok0) as [[E _]|Hin]; [congruence|]. rewrite Hl in Hin. by apply elem_of_nil in Hin. }
  assert (Hsv : forall q, tcb (save_current r ts0) q = tcb ts0 q).
  { intros q. rewrite save_current_tcb, decide_False; [done|]. intros (-> & _ & E). by rewrite Hc0 in E. }
  rewrite find_none_all.
  - cbn [upd current_task]. destruct (save_current_same r ts0) as (_ & S2 & _).
    split; [done|]. split; [congruence|]. by rewrite tcb_upd, decide_True by congruence.
  - intros q Hq. rewrite (rotation_elem _ _ _ q HR), Hl0 in Hq. unfold runnable. rewrite Hsv.
    destruct (decide (q = p)) as [->|Hne]; [exact Hr0|].
    rewrite (Ho0 q Hne). by apply Hothers.
Qed.

(** ** Creating tasks *)
Section creation_spec.
  Context {H D : Type} `{KernelHeap H D}.

(** The task table is consistent and its blocks are heap memory in use. *)
Definition sys_ok (s : tasks * H) : Prop :=
  tasks_ok (fst s) /\ km_inv (snd s) /\ forall p, p ∈ task_list (fst s) -> km_used (snd s) p.

Lemma tasks_ok_empty ts : task_list ts = [] -> current_task ts = 0 -> next_pid ts = 1 -> tasks_ok ts.
Proof.
  intros Hl Hc Hn. split; rewrite ?Hl, ?Hc; try (by constructor); try (by left); try done.
  - intros E. by apply elem_of_nil in E.
  - unfold task_count_val. by rewrite Hl.
  - intros p E. by apply elem_of_nil in E.
  - intros p E. by apply elem_of_nil in E.
  - unfold task_count_val. by rewrite Hl, Hn.
Qed.

(** Appending a fresh block to the list. *)
Lemma tasks_ok_append ts p t cur frames :
  tasks_ok ts -> task_count_val ts < MAX_TASKS -> p ∉ task_list ts -> p <> 0 ->
  pid t = next_pid ts -> cur = (if current_task ts =? 0 then p else current_task ts) ->
  (state t = TASK_STATE_RUNNING -> current_task ts = 0) ->
  tasks_ok (Tasks (task_list ts ++ [p]) cur (u32 (next_pid ts + 1)) (<[p := t]> (tcbs ts)) frames).
Proof.
  intros Hok Hmax Hp Hp0 Ht Hcur Hst.
  set (ts' := Tasks _ _ _ _ _).
  assert (Hold : forall q, q ∈ task_list ts -> tcb ts' q = tcb ts q).
  { intros q Hq. unfold tcb, ts'. cbn [tcbs]. rewrite lookup_insert_ne; [done|]. intros ->. done. }
  assert (Hnew : tcb ts' p = t) by (unfold tcb, ts'; cbn [tcbs]; by rewrite lookup_insert_eq).
  pose proof (tk_pid_bound _ Hok) as Hb. unfold MAX_TASKS in Hmax.
  assert (Hcnt : task_count_val ts' = task_count_val ts + 1).
  { unfold task_count_val, ts'. cbn [task_list]. rewrite length_app. simpl. lia. }
  assert (Hn : u32 (next_pid ts + 1) = next_pid ts + 1) by (apply u32_small; lia).
  assert (Hcase : current_task ts = 0 /\ cur = p \/ current_task ts ∈ task_list ts /\ cur = current_task ts).
  { destruct (tk_current _ Hok) as [[E _]|E]; [left; by rewrite Hcur, E|right]. split; [done|].
    rewrite Hcur. destruct (Z.eqb_spec (current_task ts) 0) as [E0|]; [|done].
    rewrite E0 in E. by destruct (tk_null _ Hok). }
  split; cbn [task_list current_task next_pid ts'].
  - apply NoDup_app. split; [apply Hok|]. split; [|apply NoDup_singleton].
    intros q Hq ->%list_elem_of_singleton. done.
  - rewrite elem_of_app, list_elem_of_singleton. intros [E|E]; [by apply (tk_null _ Hok)|done].
  - fold ts'. rewrite Hcnt. unfold MAX_TASKS. lia.
  - right. rewrite elem_of_app, list_elem_of_singleton. destruct Hcase as [[_ ->]|[? ->]]; auto.
  - fold ts'. intros q. rewrite elem_of_app, list_elem_of_singleton. intros [Hq| ->].
    + rewrite Hold by done. intros Hs. pose proof (tk_running _ Hok q Hq Hs) as E.
      destruct Hcase as [[E0 _]|[_ ->]]; [|done]. rewrite E, E0 in Hq. by destruct (tk_null _ Hok).
    + rewrite Hnew. intros Hs. destruct Hcase as [[_ ->]|[E _]]; [done|].
      rewrite (Hst Hs) in E. by destruct (tk_null _ Hok).
  - fold ts'. rewrite map_app. apply NoDup_app. split; [|split; [|apply NoDup_singleton]].
    + erewrite map_ext_in; [apply (tk_pids _ Hok)|]. intros q Hq%list_elem_of_In. by rewrite Hold.
    + intros x Hx Hx'. cbn [map] in Hx'. rewrite Hnew, list_elem_of_singleton in Hx'. subst x.
      apply list_elem_of_In, in_map_iff in Hx as (q & Hq & Hin%list_elem_of_In).
      rewrite Hold in Hq by done. pose proof (tk_next _ Hok q Hin). lia.
  - fold ts'. rewrite Hn. intros q. rewrite elem_of_app, list_elem_of_singleton. intros [Hq| ->].
    + rewrite Hold by done. pose proof (tk_next _ Hok q Hq). lia.
    + rewrite Hnew. lia.
  - fold ts'. rewrite Hcnt, Hn. lia.
Qed.

Lemma on_con_ok (f : con D -> con D) (h : H) :
  km_inv h -> km_inv (on_con f h) /\ forall x, km_used (on_con f h) x <-> km_used h x.
Proof. intros Hh. destruct (km_set_con_law (f (km_con h)) h Hh) as (H1 & H2 & _). by split. Qed.

(** Where the initial frame lies on a stack. *)
Lemma frame_address_on_stack base size :
  0 < base -> 223 <= size -> base + size < 2 ^ 64 ->
  let f := frame_address base size in
  base <= f /\ f + sizeof_registers_t <= base + size /\ f mod 16 = 0.
Proof.
  intros Hb Hs Hlt f. subst f. unfold frame_address. rewrite (u64_small (base + size)) by lia.
  change 0xF with (2 ^ 4 - 1). rewrite land_mask_down by lia. change (2 ^ 4) with 16.
  unfold sizeof_registers_t. rewrite u64_small by dlia. dlia.
Qed.

(** The block and the stack [task_create] asks for: whenever [kmalloc] gives
    them, they are memory nobody had before, and they do not overlap. *)
Lemma task_blocks_fresh size (h : H) :
  km_inv h -> 0 < size <= 2 ^ 46 ->
  let '(task, h1) := km_alloc sizeof_task_t h in
  let '(stk, h2) := km_alloc size h1 in
  km_inv h1 /\ km_inv h2 /\ (forall x, km_used h x -> km_used h1 x) /\ (forall x, km_used h1 x -> km_used h2 x) /\
  (task <> 0 -> 0 < task /\ forall x, task <= x < task + sizeof_task_t -> km_used h1 x /\ ~ km_used h x) /\
  (task <> 0 -> stk <> 0 -> 0 < stk /\ stk + size < 2 ^ 64 /\
    forall x, stk <= x < stk + size -> km_used h2 x /\ ~ km_used h x /\ ~ task <= x < task + sizeof_task_t).
Proof.
  intros Hh Hsize. pose proof (km_alloc_law sizeof_task_t h Hh ltac:(unfold sizeof_task_t; lia)) as L1.
  destruct (km_alloc sizeof_task_t h) as [t h1]. destruct L1 as (A1 & A2 & A3).
  pose proof (km_alloc_law size h1 A1 Hsize) as L2.
  destruct (km_alloc size h1) as [stk h2]. destruct L2 as (B1 & B2 & B3).
  do 4 (split; [done|]). split; [intros Ht; destruct (A3 Ht) as (T1 & _ & T3); by split|].
  intros Ht Hs. destruct (B3 Hs) as (S1 & S2 & S3). split; [done|]. split; [done|]. intros x Hx.
  destruct (S3 x Hx) as [U N]. split; [done|]. split; [by intros Hu%A2|]. intros Hx'. by apply N, A3.
Qed.

(** Printing keeps the tables consistent. *)
Lemma sys_ok_print ts (h h' : H) text :
  tasks_ok ts -> km_inv h' -> (forall p, p ∈ task_list ts -> km_used h' p) -> sys_ok (ts, on_con (vga_println text) h').
Proof.
  intros Hok Hh Hu. destruct (on_con_ok (vga_println text) h' Hh) as [K1 K2].
  split; [done|]. split; [done|]. intros p Hp. by apply K2, Hu.
Qed.

(** C29: [task_create] on every branch, in terms of what [kmalloc] returns for
    the task's block and its stack.  At the limit of 64 tasks, without a block
    and without a stack it returns NULL, prints the error of that case, and
    the task table is unchanged.  Otherwise the new task is appended under the
    address of its block, which with the stack is memory not handed out before
    (and the two do not overlap), with the next identifier, ready to run or,
    when there is no current task, the running one; its first frame lies
    16-byte aligned on its own stack with the entry point in it; the other
    tasks are untouched. *)
Theorem task_create_spec (name : list Z) entry size ts (h : H) :
  sys_ok (ts, h) -> 0 < size <= 2 ^ 46 ->
  let '(t, (ts', h')) := task_create name entry size (ts, h) in
  let '(task, h1) := km_alloc sizeof_task_t h in
  let '(stk, h2) := km_alloc size h1 in
  let refused text k := t = 0 /\ ts' = ts /\ h' = on_con (vga_println (str text)) k in
  sys_ok (ts', h') /\
  (MAX_TASKS <= task_count ts -> refused "[TASK] ERROR: Max tasks reached!" h) /\
  (task_count ts < MAX_TASKS -> task = 0 -> refused "[TASK] ERROR: Failed to allocate TCB!" h1) /\
  (task_count ts < MAX_TASKS -> task <> 0 -> stk = 0 -> refused "[TASK] ERROR: Failed to allocate stack!" h2) /\
  (task_count ts < MAX_TASKS -> task <> 0 -> stk <> 0 ->
    t = task /\ h' = h2 /\ t ∉ task_list ts /\ task_list ts' = task_list ts ++ [t] /\
    (forall x, t <= x < t + sizeof_task_t -> km_used h' x /\ ~ km_used h x) /\
    (forall x, stk <= x < stk + size -> km_used h' x /\ ~ km_used h x /\ ~ t <= x < t + sizeof_task_t) /\
    (forall p, p ∈ task_list ts -> tcb ts' p = tcb ts p) /\
    current_task ts' = (if current_task ts =? 0 then t else current_task ts) /\
    exists f, tcb ts' t = TaskT (next_pid ts) (name_field name)
        (if current_task ts =? 0 then TASK_STATE_RUNNING else TASK_STATE_READY) f stk size 0 0 /\
      frames_at ts' !! f = Some (initial_frame entry f) /\
      (223 <= size -> stk <= f /\ f + sizeof_registers_t <= stk + size /\ f mod 16 = 0)).
Proof.
  intros (Hok & Hh & Hu) Hsize. cbn [fst snd] in *. pose proof (task_blocks_fresh size h Hh Hsize) as L.
  unfold task_create, task_count. destruct (km_alloc sizeof_task_t h) as [task h1], (km_alloc size h1) as [stk h2].
  destruct L as (A1 & B1 & A2 & B2 & A3 & B3). cbv zeta.
  destruct (Z.leb_spec MAX_TASKS (task_count_val ts)) as [Hmax|Hmax].
  { split; [by apply sys_ok_print|]. split; [done|]. split_and!; lia. }
  destruct (Z.eqb_spec task 0) as [->|Ht].
  { split; [by apply sys_ok_print; auto|]. split; [lia|]. by split_and!. }
  destruct (Z.eqb_spec stk 0) as [->|Hs].
  { split; [by apply sys_ok_print; auto|]. split; [lia|]. by split_and!. }
  destruct (A3 Ht) as (T1 & T2), (B3 Ht Hs) as (S1 & S2 & S3).
  destruct (T2 task ltac:(unfold sizeof_task_t; lia)) as [Tu Tn].
  assert (Hfresh : task ∉ task_list ts) by (intros Hin; by apply Tn, Hu).
  split; [split; [|split; [done|]]|split; [lia|split; [done|split; [done|intros _ _ _]]]]; cbn [fst snd].
  - apply tasks_ok_append; try done. cbn [state]. by destruct (Z.eqb_spec (current_task ts) 0).
  - cbn [task_list]. intros p. rewrite elem_of_app, list_elem_of_singleton. intros [Hp| ->]; auto.
  - do 4 (split; [done|]). split; [intros x Hx; destruct (T2 x Hx); auto|]. split; [exact S3|]. split; [|split; [done|]].
    + intros p Hp. unfold tcb. cbn [tcbs]. rewrite lookup_insert_ne; [done|]. by intros ->.
    + exists (frame_address stk size). split; [unfold tcb; cbn [tcbs]; by rewrite lookup_insert_eq|].
      split; [cbn [frames_at]; by rewrite lookup_insert_eq|]. intros Hge. by apply frame_address_on_stack.
Qed.

(** [task_init]: the table holds the idle task, running, or is empty. *)
Lemma task_init_ok (s : tasks * H) : km_inv (snd s) -> sys_ok (task_init s).
Proof.
  destruct s as [ts h]. cbn [snd]. intros Hh. unfold task_init.
  pose proof (km_alloc_law sizeof_task_t h Hh ltac:(unfold sizeof_task_t; lia)) as L1.
  destruct (km_alloc sizeof_task_t h) as [t h1]. destruct L1 as (A1 & A2 & A3).
  destruct (Z.eqb_spec t 0) as [->|Ht]; cbn [negb].
  - split; [|split; [done|]]; [by apply tasks_ok_empty|]. intros p Hp. by apply elem_of_nil in Hp.
  - destruct (A3 Ht) as (T1 & T2 & T3).
    split; [|split; [done|]]; cbn [fst snd task_list].
    + split; cbn [task_list current_task next_pid].
      * apply NoDup_singleton.
      * by rewrite list_elem_of_singleton.
      * by vm_compute.
      * right. by apply list_elem_of_singleton.
      * by intros p ->%list_elem_of_singleton.
      * apply NoDup_singleton.
      * intros p ->%list_elem_of_singleton. unfold tcb. cbn [tcbs]. by rewrite lookup_insert_eq.
      * by vm_compute.
    + intros p ->%list_elem_of_singleton. apply T3. unfold sizeof_task_t. lia.
Qed.

End creation_spec.
(** ** Witnesses *)

(** The idle task, the shell (running) and a worker in state [w]. *)
Definition demo (w : task_state_t) : tasks :=
  Tasks [0x100; 0x200; 0x300] 0x200 3
    (<[0x100 := TaskT 0 (str "kernel_idle") TASK_STATE_READY 0x10 0 0 0 0]>
     (<[0x200 := TaskT 1 (str "shell") TASK_STATE_RUNNING 0x20 0x9000 4096 0 0]>
      (<[0x300 := TaskT 2 (str "worker") w 0x30 0xA000 4096 0 0]> ∅))) ∅.

Lemma demo_tasks_ok w : w <> TASK_STATE_RUNNING -> tasks_ok (demo w).
Proof.
  intros Hw. split; cbn [task_list current_task next_pid demo].
  - by apply (bool_decide_eq_true_1 _), eq_refl.
  - by apply (bool_decide_eq_true_1 _), eq_refl.
  - by vm_compute.
  - right. by apply (bool_decide_eq_true_1 _), eq_refl.
  - intros p. rewrite !elem_of_cons. intros [->|[->|[->|E]]]; [done|done| |by apply elem_of_nil in E].
    by destruct w.
  - change (NoDup [0; 1; 2]). by apply (bool_decide_eq_true_1 _), eq_refl.
  - intros p. rewrite !elem_of_cons. intros [->|[->|[->|E]]]; [by vm_compute..|by apply elem_of_nil in E].
  - by vm_compute.
Qed.

Lemma task_ops_ok_witness : tasks_ok (task_exit (demo TASK_STATE_READY)).
Proof. by apply (task_ops_ok (demo TASK_STATE_READY)), demo_tasks_ok. Defined.

Lemma task_switch_round_robin_witness :
  current_task (snd (task_switch 10 0x77 (demo TASK_STATE_READY))) = 0x300 /\
  fst (task_switch 10 0x77 (demo TASK_STATE_READY)) = 0x30.
Proof.
  pose proof (task_switch_round_robin 10 0x77 (demo TASK_STATE_READY) [0x100] [0x300]
    (demo_tasks_ok TASK_STATE_READY ltac:(done)) eq_refl) as H.
  destruct (task_switch 10 0x77 (demo TASK_STATE_READY)) as [f ts']. destruct H as (H1 & H2 & _).
  split; [exact H1|exact H2].
Defined.

Lemma task_switch_fair_witness :
  exists k, current_task (run (take k [Sleep 5 3; Switch 10 0x77; Switch 20 0x88; Switch 30 0x99])
    (demo TASK_STATE_READY)) = 0x300.
Proof.
  refine (task_switch_fair _ (demo TASK_STATE_READY) 0x300 (demo_tasks_ok _ _) _ _ _ _).
  - done.
  - by apply (bool_decide_eq_true_1 _), eq_refl.
  - by vm_compute.
  - by vm_compute.
  - simpl. lia.
Defined.

(** To the worker, which exits, and back. *)
Lemma task_switch_resume_witness :
  let ts1 := snd (task_switch 10 0x77 (demo TASK_STATE_READY)) in
  current_task ts1 = 0x300 /\ fst (task_switch 20 0x88 (run [Exit] ts1)) = 0x77.
Proof.
  split; [by vm_compute|].
  pose proof (task_switch_resume [Exit] (demo TASK_STATE_READY) 10 0x77 20 0x88
    (demo_tasks_ok TASK_STATE_READY ltac:(done)) ltac:(done) eq_refl) as H. cbv zeta in H.
  assert (Hk : forall k, (k <= length [Exit])%nat -> current_task (run (take k [Exit])
    (snd (task_switch 10 0x77 (demo TASK_STATE_READY)))) <> current_task (demo TASK_STATE_READY)).
  { intros [|[|k]] Hk; [by vm_compute|by vm_compute|simpl in Hk; lia]. }
  specialize (H Hk). destruct (task_switch 20 0x88 _) as [f ts3] eqn:E.
  apply H. change ts3 with (snd (f, ts3)). rewrite <- E. by vm_compute.
Defined.

(** The shell sleeps until tick 8, is interrupted at frame 0x77 and woken later:
    it resumes at its old frame 0x20. *)
Lemma task_sleep_stale_frame_witness :
  let ts1 := snd (task_switch 10 0x77 (task_sleep 5 3 (demo TASK_STATE_READY))) in
  current_task ts1 = 0x300 /\ fst (task_switch 20 0x88 (run [Exit] ts1)) = 0x20.
Proof.
  split; [by vm_compute|].
  pose proof (task_sleep_stale_frame [Exit] (demo TASK_STATE_READY) 5 3 10 0x77 20 0x88
    (demo_tasks_ok TASK_STATE_READY ltac:(done)) ltac:(done)) as H. cbv zeta in H.
  assert (Hk : forall k, (k <= length [Exit])%nat -> current_task (run (take k [Exit])
    (snd (task_switch 10 0x77 (task_sleep 5 3 (demo TASK_STATE_READY))))) <> current_task (demo TASK_STATE_READY)).
  { intros [|[|k]] Hk; [by vm_compute|by vm_compute|simpl in Hk; lia]. }
  specialize (H Hk). destruct (task_switch 20 0x88 _) as [f ts3] eqn:E.
  apply H. change ts3 with (snd (f, ts3)). rewrite <- E. by vm_compute.
Defined.

Lemma task_sleep_exit_undone_witness :
  state (tcb (snd (task_switch 10 0x77 (task_exit (demo TASK_STATE_ZOMBIE)))) 0x200) = TASK_STATE_RUNNING.
Proof.
  pose proof (task_sleep_exit_undone (demo TASK_STATE_ZOMBIE) 10 0x77 5 100 (task_exit (demo TASK_STATE_ZOMBIE))
    (demo_tasks_ok TASK_STATE_ZOMBIE ltac:(done)) ltac:(done)) as H.
  destruct (task_switch 10 0x77 (task_exit (demo TASK_STATE_ZOMBIE))) as [f ts'].
  apply H; [|by vm_compute|by right].
  intros q. cbn [task_list demo]. rewrite !elem_of_cons.
  intros [->|[->|[->|E]]]; [done|done|done|by apply elem_of_nil in E].
Defined.

Import Frames.BumpFrames.

(** A shell with a stack of one page, on the kernel's own heap. *)
Definition demo_sys : tasks * Heap.heap (A := Frames.BumpFrames.bump) (D := crtc_bus) :=
  (Tasks [] 0 1 ∅ ∅, Heap.heap0 16).

Lemma demo_sys_ok : sys_ok (D := crtc_bus) demo_sys.
Proof.
  split; [by apply tasks_ok_empty|]. split; [by vm_compute|]. intros p E. by apply elem_of_nil in E.
Qed.

(** The task is made on the first page of the heap, behind its block. *)
Lemma task_create_spec_witness :
  let '(t, (ts', h')) := task_create (D := crtc_bus) (str "shell") 0x101000 4096 demo_sys in
  sys_ok (D := crtc_bus) (ts', h') /\ t = Heap.HEAP_START /\ task_list ts' = [Heap.HEAP_START] /\
  exists f, frames_at ts' !! f = Some (initial_frame 0x101000 f).
Proof.
  pose proof (task_create_spec (D := crtc_bus) (str "shell") 0x101000 4096 (fst demo_sys) (snd demo_sys)
    demo_sys_ok ltac:(lia)) as H.
  assert (E1 : fst (km_alloc sizeof_task_t (snd demo_sys)) = Heap.HEAP_START) by by vm_compute.
  assert (E2 : fst (km_alloc 4096 (snd (km_alloc sizeof_task_t (snd demo_sys)))) = Heap.HEAP_START + 80) by by vm_compute.
  change (fst demo_sys, snd demo_sys) with demo_sys in H.
  destruct (task_create (D := crtc_bus) (str "shell") 0x101000 4096 demo_sys) as [t [ts' h']].
  destruct (km_alloc sizeof_task_t (snd demo_sys)) as [task h1]. cbn [fst snd] in E1, E2. subst task.
  destruct (km_alloc 4096 h1) as [stk h2]. cbn [fst] in E2. subst stk.
  destruct H as (H0 & _ & _ & _ & H). split; [exact H0|].
  destruct H as (-> & _ & _ & H1 & _ & _ & _ & _ & f & _ & H2 & _); [by vm_compute|done|done|].
  split; [done|]. split; [exact H1|]. exists f. exact H2.
Defined.

End Task.
