(* ===== verification/Keyboard.v ===== *)
(** * The keyboard ([keyboard.h], [keyboard_irq.c])

    The scancode decoder with its modifier state, the polling reads of the
    controller, and the ring buffer between the interrupt handler and the
    readers.  [kb_getchar_irq] waits for interrupts and is in Interrupts.v. *)

From S2P Require Import Prelude Ports.
Local Open Scope Z_scope.

Module Keyboard.

Definition KB_DATA_PORT : Z := 0x60.
Definition KB_STATUS_PORT : Z := 0x64.
Definition KB_STATUS_OUTPUT_FULL : Z := 0x01.

Definition SC_RELEASE : Z := 0x80.
Definition SC_LCTRL : Z := 0x1D.
Definition SC_LSHIFT : Z := 0x2A.
Definition SC_RSHIFT : Z := 0x36.
Definition SC_LALT : Z := 0x38.
Definition SC_CAPSLOCK : Z := 0x3A.

(** The modifier states. *)
Record modifiers := Modifiers {
  kb_shift_pressed : bool; kb_ctrl_pressed : bool; kb_alt_pressed : bool; kb_capslock_on : bool
}.
#[export] Instance modifiers_eq : EqDecision modifiers.
Proof. solve_decision. Defined.

Definition modifiers_boot : modifiers := Modifiers false false false false.

(** The two tables of 128 characters. *)
Definition scancode_to_ascii_lower : list Z :=
  [0; 27] ++ str "1234567890-=" ++ [8; 9] ++ str "qwertyuiop[]" ++ [10; 0] ++
  str "asdfghjkl;'`" ++ [0] ++ str "\zxcvbnm,./" ++ [0; 42; 0; 32] ++ replicate 70 0.
Definition scancode_to_ascii_upper : list Z :=
  [0; 27] ++ str "!@#$%^&*()_+" ++ [8; 9] ++ str "QWERTYUIOP{}" ++ [10; 0] ++
  str "ASDFGHJKL:" ++ [34; 126; 0] ++ str "|ZXCVBNM<>?" ++ [0; 42; 0; 32] ++ replicate 70 0.

Definition lower_of (scancode : Z) : Z := nth (Z.to_nat scancode) scancode_to_ascii_lower 0.
Definition upper_of (scancode : Z) : Z := nth (Z.to_nat scancode) scancode_to_ascii_upper 0.

(** [kb_scancode_to_ascii]: the character, 0 for none. *)
Definition kb_scancode_to_ascii (scancode : Z) (m : modifiers) : Z * modifiers :=
  let '(Modifiers shift ctrl alt caps) := m in
  if negb (Z.land scancode SC_RELEASE =? 0) then
    let key := u8 (Z.land scancode (Z.lnot SC_RELEASE)) in
    (0, if (key =? SC_LSHIFT) || (key =? SC_RSHIFT) then Modifiers false ctrl alt caps
        else if key =? SC_LCTRL then Modifiers shift false alt caps
        else if key =? SC_LALT then Modifiers shift ctrl false caps
        else m)
  else if (scancode =? SC_LSHIFT) || (scancode =? SC_RSHIFT) then (0, Modifiers true ctrl alt caps)
  else if scancode =? SC_LCTRL then (0, Modifiers shift true alt caps)
  else if scancode =? SC_LALT then (0, Modifiers shift ctrl true caps)
  else if scancode =? SC_CAPSLOCK then (0, Modifiers shift ctrl alt (negb caps))
  else if scancode <? 128 then
    let lower := lower_of scancode in
    let use_upper := if caps && (97 <=? lower) && (lower <=? 122) then negb shift else shift in
    (if use_upper then upper_of scancode else lower_of scancode, m)
  else (0, m).

Definition kb_is_shift_pressed (m : modifiers) : bool := kb_shift_pressed m.
Definition kb_is_ctrl_pressed (m : modifiers) : bool := kb_ctrl_pressed m.
Definition kb_is_alt_pressed (m : modifiers) : bool := kb_alt_pressed m.

(** ** Polling *)
Section polling.
  Context {D : Type} `{!PortBus D}.

(** [kb_wait_output], [n] polls left (100000 at the call). *)
Fixpoint kb_wait_output (n : nat) (d : D) : bool * D :=
  match n with
  | O => (false, d)
  | S n =>
      let '(status, d) := inb KB_STATUS_PORT d in
      if negb (Z.land status KB_STATUS_OUTPUT_FULL =? 0) then (true, d) else kb_wait_output n d
  end.

Definition kb_timeout : nat := Z.to_nat 100000.

Definition kb_read_scancode (d : D) : Z * D :=
  let '(ready, d) := kb_wait_output kb_timeout d in
  if ready then inb KB_DATA_PORT d else (0, d).

Definition kb_try_read_scancode (d : D) : Z * D :=
  let '(status, d) := inb KB_STATUS_PORT d in
  if negb (Z.land status KB_STATUS_OUTPUT_FULL =? 0) then inb KB_DATA_PORT d else (0, d).

(** [kb_getchar] loops until a scancode gives a character: [None] when [fuel]
    scancodes gave none. *)
Fixpoint kb_getchar (fuel : nat) (s : modifiers * D) : option (Z * (modifiers * D)) :=
  match fuel with
  | O => None
  | S fuel =>
      let '(m, d) := s in
      let '(scancode, d) := kb_read_scancode d in
      let '(c, m) := kb_scancode_to_ascii scancode m in
      if negb (c =? 0) then Some (c, (m, d)) else kb_getchar fuel (m, d)
  end.

Definition kb_try_getchar (s : modifiers * D) : Z * (modifiers * D) :=
  let '(m, d) := s in
  let '(scancode, d) := kb_try_read_scancode d in
  if scancode =? 0 then (0, (m, d))
  else let '(c, m) := kb_scancode_to_ascii scancode m in (c, (m, d)).

End polling.

(** ** The ring buffer *)

Definition KB_BUFFER_SIZE : Z := 256.

Record kbuf := KBuf { kb_buffer : list Z; kb_buffer_read : Z; kb_buffer_write : Z }.
Definition kbuf_boot : kbuf := KBuf (replicate 256 0) 0 0.

(** The part of [keyboard_irq_handler] that stores the scancode it read. *)
Definition kb_store (scancode : Z) (b : kbuf) : kbuf :=
  let next_write := (kb_buffer_write b + 1) mod KB_BUFFER_SIZE in
  if negb (next_write =? kb_buffer_read b) then
    KBuf (<[Z.to_nat (kb_buffer_write b) := scancode]> (kb_buffer b)) (kb_buffer_read b) next_write
  else b.

Definition keyboard_irq_handler {D} `{!PortBus D} (s : kbuf * D) : kbuf * D :=
  let '(b, d) := s in
  let '(scancode, d) := inb KB_DATA_PORT d in
  (kb_store scancode b, d).

Definition kb_irq_has_scancode (b : kbuf) : bool := negb (kb_buffer_read b =? kb_buffer_write b).

Definition kb_irq_get_scancode (b : kbuf) : Z * kbuf :=
  if kb_buffer_read b =? kb_buffer_write b then (0, b)
  else (nth (Z.to_nat (kb_buffer_read b)) (kb_buffer b) 0,
        KBuf (kb_buffer b) ((kb_buffer_read b + 1) mod KB_BUFFER_SIZE) (kb_buffer_write b)).

Definition kb_try_getchar_irq (s : modifiers * kbuf) : Z * (modifiers * kbuf) :=
  let '(m, b) := s in
  if negb (kb_irq_has_scancode b) then (0, (m, b))
  else
    let '(scancode, b) := kb_irq_get_scancode b in
    let '(c, m) := kb_scancode_to_ascii scancode m in (c, (m, b)).

(** ** The ring buffer is a bounded queue *)

Definition kbuf_ok (b : kbuf) : Prop :=
  length (kb_buffer b) = 256%nat /\ 0 <= kb_buffer_read b < 256 /\ 0 <= kb_buffer_write b < 256.

(** The scancodes waiting, oldest first. *)
Definition waiting (b : kbuf) : list Z :=
  map (fun i => nth (Z.to_nat ((kb_buffer_read b + i) mod 256)) (kb_buffer b) 0)
    (seqZ 0 ((kb_buffer_write b - kb_buffer_read b) mod 256)).

Lemma waiting_length b : Z.of_nat (length (waiting b)) = (kb_buffer_write b - kb_buffer_read b) mod 256.
Proof. unfold waiting. rewrite length_map, length_seqZ. dlia. Qed.

Lemma kbuf_boot_ok : kbuf_ok kbuf_boot.
Proof. split; [by vm_compute|]. by vm_compute. Qed.

(** The slot of the [i]-th waiting scancode. *)
Definition slot (b : kbuf) (i : Z) : Z := (kb_buffer_read b + i) mod 256.
Definition kcount (b : kbuf) : Z := (kb_buffer_write b - kb_buffer_read b) mod 256.

Lemma slot_write b i : kbuf_ok b -> 0 <= i < 256 -> slot b i = kb_buffer_write b <-> i = kcount b.
Proof. unfold slot, kcount. intros (_ & Hr & Hw) Hi. split; intros; dlia. Qed.

Lemma kb_store_spec b scancode :
  kbuf_ok b ->
  kbuf_ok (kb_store scancode b) /\
  waiting (kb_store scancode b) =
    if (length (waiting b) <? 255)%nat then waiting b ++ [scancode] else waiting b.
Proof.
  intros Hb. pose proof Hb as (Hl & Hr & Hw). pose proof (waiting_length b) as Hn. fold (kcount b) in Hn.
  assert (Hc : 0 <= kcount b < 256) by (apply Z.mod_pos_bound; lia).
  unfold kb_store, KB_BUFFER_SIZE. cbv zeta.
  assert (Hfull : (kb_buffer_write b + 1) mod 256 = kb_buffer_read b <-> kcount b = 255)
    by (unfold kcount; split; intros; dlia).
  destruct (Z.eqb_spec ((kb_buffer_write b + 1) mod 256) (kb_buffer_read b)) as [E|E]; cbn [negb].
  - split; [done|]. apply Hfull in E. destruct (Nat.ltb_spec (length (waiting b)) 255); [lia|done].
  - destruct (Nat.ltb_spec (length (waiting b)) 255) as [Hlt|]; [|lia]. split.
    { unfold kbuf_ok. cbn. rewrite length_insert. dlia. }
    unfold waiting at 1. cbn [kb_buffer kb_buffer_read kb_buffer_write].
    replace (((kb_buffer_write b + 1) mod 256 - kb_buffer_read b) mod 256) with (kcount b + 1)
      by (unfold kcount in *; dlia).
    rewrite seqZ_app by lia. change (seqZ (0 + kcount b) 1) with [0 + kcount b]. rewrite map_app. f_equal.
    + apply map_ext_in. intros i Hi%list_elem_of_In%elem_of_seqZ. fold (slot b i).
      fold (kcount b) in Hi.
      rewrite !nth_lookup, list_lookup_insert_ne; [done|]. intros Eq. apply Z2Nat.inj in Eq;
        [|lia|apply Z.mod_pos_bound; lia]. symmetry in Eq. apply (slot_write b i Hb ltac:(lia)) in Eq.
      unfold kcount in *. lia.
    + cbn [map]. f_equal. rewrite Z.add_0_l. fold (slot b (kcount b)).
      destruct (slot_write b (kcount b) Hb Hc) as [_ ->]; [|done].
      by rewrite nth_lookup, list_lookup_insert_eq by lia.
Qed.

Lemma kb_get_spec b :
  kbuf_ok b ->
  kbuf_ok (snd (kb_irq_get_scancode b)) /\
  kb_irq_has_scancode b = negb (bool_decide (waiting b = [])) /\
  fst (kb_irq_get_scancode b) = hd 0 (waiting b) /\
  waiting (snd (kb_irq_get_scancode b)) = tl (waiting b).
Proof.
  intros Hb. pose proof Hb as (Hl & Hr & Hw).
  assert (Hc : 0 <= kcount b < 256) by (apply Z.mod_pos_bound; lia).
  assert (He : kb_buffer_read b = kb_buffer_write b <-> kcount b = 0) by (unfold kcount; split; intros; dlia).
  assert (Hw0 : waiting b = map (fun i => nth (Z.to_nat (slot b i)) (kb_buffer b) 0) (seqZ 0 (kcount b))) by done.
  unfold kb_irq_has_scancode, kb_irq_get_scancode.
  destruct (Z.eqb_spec (kb_buffer_read b) (kb_buffer_write b)) as [E|E]; cbn [fst snd negb].
  - apply He in E. rewrite E in Hw0. by rewrite Hw0.
  - assert (0 < kcount b) by (destruct (decide (kcount b = 0)) as [E0|]; [by apply He in E0|lia]).
    replace (kcount b) with (1 + (kcount b - 1)) in Hw0 by lia. rewrite seqZ_app in Hw0 by lia.
    change (seqZ 0 1) with [0] in Hw0. cbn [map app] in Hw0. rewrite Hw0.
    split; [|split; [done|split]]; cbn [hd tl].
    + unfold kbuf_ok, KB_BUFFER_SIZE. cbn. dlia.
    + unfold slot. rewrite Z.add_0_r. by rewrite Z.mod_small by lia.
    + unfold waiting. cbn [kb_buffer kb_buffer_read kb_buffer_write]. unfold KB_BUFFER_SIZE.
      replace ((kb_buffer_write b - (kb_buffer_read b + 1) mod 256) mod 256) with (kcount b - 1)
        by (unfold kcount in *; dlia).
      change (0 + 1) with (1 + 0). rewrite <- (fmap_add_seqZ 1 0).
      change (Z.add 1 <$> seqZ 0 (kcount b - 1)) with (map (Z.add 1) (seqZ 0 (kcount b - 1))).
      rewrite map_map. apply map_ext. intros i.
      unfold slot. f_equal. f_equal. rewrite Zplus_mod_idemp_l. f_equal. lia.
Qed.

(** C30: the ring buffer implements a queue of at most 255 scancodes: the handler
    appends the new scancode, or drops it when the queue is full, and readers
    take the oldest; the modulo arithmetic on the two indices never shows. *)
Theorem kbuf_queue b scancode :
  kbuf_ok b ->
  kbuf_ok (kb_store scancode b) /\ kbuf_ok (snd (kb_irq_get_scancode b)) /\
  (length (waiting b) <= 255)%nat /\
  waiting (kb_store scancode b) =
    (if (length (waiting b) <? 255)%nat then waiting b ++ [scancode] else waiting b) /\
  kb_irq_has_scancode b = negb (bool_decide (waiting b = [])) /\
  fst (kb_irq_get_scancode b) = hd 0 (waiting b) /\
  waiting (snd (kb_irq_get_scancode b)) = tl (waiting b).
Proof.
  intros Hb. destruct (kb_store_spec b scancode Hb) as [S1 S2], (kb_get_spec b Hb) as (G1 & G2 & G3 & G4).
  pose proof (waiting_length b) as Hn. pose proof (Z.mod_pos_bound (kb_buffer_write b - kb_buffer_read b) 256).
  repeat split; try done; try apply S1; try apply G1. lia.
Qed.

Lemma kbuf_queue_witness : waiting (kb_store 0x1E kbuf_boot) = [0x1E].
Proof.
  destruct (kbuf_queue kbuf_boot 0x1E kbuf_boot_ok) as (_ & _ & _ & H & _). rewrite H. reflexivity.
Defined.

(** ** The decoder *)

(** Characters and final modifiers of a sequence of scancodes. *)
Fixpoint decode (scancodes : list Z) (m : modifiers) : list Z * modifiers :=
  match scancodes with
  | [] => ([], m)
  | s :: ss =>
      let '(c, m) := kb_scancode_to_ascii s m in
      let '(cs, m) := decode ss m in
      (if c =? 0 then cs else c :: cs, m)
  end.

Lemma decode_app a b m :
  decode (a ++ b) m = let '(ca, m) := decode a m in let '(cb, m) := decode b m in (ca ++ cb, m).
Proof.
  revert m. induction a as [|s a IH]; intros m; cbn [decode app].
  - by destruct (decode b m).
  - destruct (kb_scancode_to_ascii s m) as [c m']. rewrite IH.
    destruct (decode a m') as [ca m2]. destruct (decode b m2) as [cb m3]. by destruct (c =? 0).
Qed.

(** The keys of a US keyboard that give a character: press and release, with
    shift held if the character is on the upper level. *)
Fixpoint index_of (c : Z) (l : list Z) (i : Z) : option Z :=
  match l with [] => None | x :: l => if x =? c then Some i else index_of c l (i + 1) end.

Definition keys_for (c : Z) : list Z :=
  match index_of c scancode_to_ascii_lower 0 with
  | Some s => [s; s + 0x80]
  | None =>
      match index_of c scancode_to_ascii_upper 0 with
      | Some s => [SC_LSHIFT; s; s + 0x80; SC_LSHIFT + 0x80]
      | None => []
      end
  end.

(** Printable ASCII, newline, tab, backspace and escape. *)
Definition typeable (c : Z) : bool := (32 <=? c) && (c <? 127) || bool_decide (c ∈ [8; 9; 10; 27]).

Lemma keys_for_decode c :
  typeable c = true -> decode (keys_for c) modifiers_boot = ([c], modifiers_boot).
Proof.
  intros Hc. assert (Hr : 0 <= c < 127).
  { unfold typeable in Hc. apply orb_true_iff in Hc as [Hc|Hc]; [lia|].
    apply bool_decide_eq_true in Hc. rewrite !elem_of_cons, elem_of_nil in Hc. lia. }
  assert (Hall : forallb (fun c => negb (typeable c) ||
    bool_decide (decode (keys_for c) modifiers_boot = ([c], modifiers_boot))) (seqZ 0 127) = true).
  { vm_compute. reflexivity. }
  rewrite forallb_forall in Hall. specialize (Hall c).
  rewrite Hc in Hall. apply (bool_decide_eq_true_1 _). apply Hall. apply list_elem_of_In, elem_of_seqZ. lia.
Qed.

(** The scancode tables are complete for ASCII: typing any text on a US
    keyboard, shift pressed and released where needed, decodes to that text and
    leaves the modifiers as they were. *)
Theorem keyboard_types text :
  Forall (fun c => typeable c = true) text ->
  decode (flat_map keys_for text) modifiers_boot = (text, modifiers_boot).
Proof.
  induction 1 as [|c text Hc _ IH]; [done|]. cbn [flat_map].
  by rewrite decode_app, keys_for_decode, IH.
Qed.

Lemma keyboard_types_witness :
  decode (flat_map keys_for (str "echo Hi!")) modifiers_boot = (str "echo Hi!", modifiers_boot).
Proof. apply (keyboard_types (str "echo Hi!")). repeat constructor. Defined.

(** The scancodes of modifier keys. *)
Definition modifier_key (s : Z) : bool :=
  bool_decide (s ∈ [SC_LSHIFT; SC_RSHIFT; SC_LCTRL; SC_LALT; SC_CAPSLOCK]).

(** the levels: caps lock inverts shift for letters only; digits and signs
    follow shift alone, control and alt change nothing, and a key leaves the
    modifiers alone. *)
Theorem keyboard_levels s m :
  0 <= s < 128 -> modifier_key s = false ->
  let '(c, m') := kb_scancode_to_ascii s m in
  m' = m /\
  c = if (97 <=? lower_of s) && (lower_of s <=? 122)
      then if xorb (kb_shift_pressed m) (kb_capslock_on m) then lower_of s - 32 else lower_of s
      else if kb_shift_pressed m then upper_of s else lower_of s.
Proof.
  intros Hs Hm.
  assert (Hall : forallb (fun s => modifier_key s || forallb (fun m =>
      let '(c, m') := kb_scancode_to_ascii s m in
      bool_decide (m' = m) && (c =? if (97 <=? lower_of s) && (lower_of s <=? 122)
      then if xorb (kb_shift_pressed m) (kb_capslock_on m) then lower_of s - 32 else lower_of s
      else if kb_shift_pressed m then upper_of s else lower_of s))
      [Modifiers false false false false; Modifiers false false false true;
       Modifiers false false true false; Modifiers false false true true;
       Modifiers false true false false; Modifiers false true false true;
       Modifiers false true true false; Modifiers false true true true;
       Modifiers true false false false; Modifiers true false false true;
       Modifiers true false true false; Modifiers true false true true;
       Modifiers true true false false; Modifiers true true false true;
       Modifiers true true true false; Modifiers true true true true]) (seqZ 0 128) = true).
  { vm_compute. reflexivity. }
  rewrite forallb_forall in Hall. specialize (Hall s).
  rewrite Hm, orb_false_l, forallb_forall in Hall.
  assert (Hin : In s (seqZ 0 128)) by (apply list_elem_of_In, elem_of_seqZ; lia).
  specialize (Hall Hin m). destruct (kb_scancode_to_ascii s m) as [c m'].
  rewrite andb_true_iff, bool_decide_eq_true, Z.eqb_eq in Hall. apply Hall.
  destruct m as [[] [] [] []]; simpl; tauto.
Qed.

Lemma keyboard_levels_witness :
  fst (kb_scancode_to_ascii 0x1E (Modifiers false false false true)) = 65 /\
  fst (kb_scancode_to_ascii 0x02 (Modifiers false false false true)) = 49.
Proof.
  pose proof (keyboard_levels 0x1E (Modifiers false false false true) ltac:(lia) eq_refl) as H1.
  pose proof (keyboard_levels 0x02 (Modifiers false false false true) ltac:(lia) eq_refl) as H2.
  destruct (kb_scancode_to_ascii 0x1E _) as [c1 m1], (kb_scancode_to_ascii 0x02 _) as [c2 m2].
  split; [apply H1|apply H2].
Defined.

End Keyboard.
