(* ===== verification/Kbd.v ===== *)
(** * The keyboard controller and the polling reads of [keyboard.h]

    What the polling functions rely on (the documented behaviour of the 8042: the
    status port says whether a byte waits, the data port takes it) is the class
    [Kbd8042]; the bytes that wait are a queue.  [kbd_bus] is a concrete bus. *)

From S2P Require Import Prelude Ports Vga Keyboard.
Import Vga Keyboard.
Local Open Scope Z_scope.
Local Open Scope kios_scope.

Module Kbd.

Class Kbd8042 (D : Type) `{!PortBus D} := {
  kbd_queue : D -> list Z;
  kbd_status d :
    let '(v, d') := inb KB_STATUS_PORT d in
    Z.testbit v 0 = negb (bool_decide (kbd_queue d = [])) /\ kbd_queue d' = kbd_queue d;
  kbd_data d s q :
    kbd_queue d = s :: q -> let '(v, d') := inb KB_DATA_PORT d in v = s /\ kbd_queue d' = q;
  kbd_other w port v d :
    port <> KB_DATA_PORT -> port <> KB_STATUS_PORT -> kbd_queue (port_out w port v d) = kbd_queue d
}.

(** The next character of a queue of scancodes, with what is left. *)
Fixpoint next_char (q : list Z) (m : modifiers) : option (Z * (list Z * modifiers)) :=
  match q with
  | [] => None
  | s :: q =>
      let '(c, m) := kb_scancode_to_ascii s m in
      if negb (c =? 0) then Some (c, (q, m)) else next_char q m
  end.

Lemma next_char_decode q m :
  match next_char q m with
  | None => fst (decode q m) = []
  | Some (c, (q', m')) => fst (decode q m) = c :: fst (decode q' m') /\ (length q' < length q)%nat
  end.
Proof.
  revert m. induction q as [|s q IH]; intros m; cbn [next_char decode]; [done|].
  destruct (kb_scancode_to_ascii s m) as [c m1]. specialize (IH m1).
  destruct (decode q m1) as [cs m2] eqn:E. destruct (Z.eqb_spec c 0) as [->|]; cbn [negb].
  - destruct (next_char q m1) as [[c' [q' m']]|]; [|exact IH]. cbn [fst length] in *.
    destruct IH as [H1 H2]. split; [exact H1|lia].
  - rewrite E. cbn [fst length]. split; [done|lia].
Qed.

Section polling.
  Context {D : Type} `{Kbd8042 D}.

Lemma status_bit v : 0 <= v -> negb (Z.land v KB_STATUS_OUTPUT_FULL =? 0) = Z.testbit v 0.
Proof.
  intros Hv. change KB_STATUS_OUTPUT_FULL with (Z.shiftl 1 0). rewrite land_bit by lia. apply negb_involutive.
Qed.

Lemma inb_range port d : 0 <= fst (inb port d) < 2 ^ 8.
Proof. unfold inb. destruct (port_in 8 (u16 port) d). apply u8_range. Qed.

(** Waiting for a byte succeeds at once or times out. *)
Lemma wait_output_queue n d :
  (0 < n)%nat ->
  let '(ready, d') := kb_wait_output n d in
  ready = negb (bool_decide (kbd_queue d = [])) /\ kbd_queue d' = kbd_queue d.
Proof.
  revert d. induction n as [|n IH]; intros d Hn; [lia|]. cbn [kb_wait_output].
  pose proof (kbd_status d) as Hs. pose proof (inb_range KB_STATUS_PORT d) as Hr.
  destruct (inb KB_STATUS_PORT d) as [v d1]. cbn [fst] in Hr. destruct Hs as [S1 S2].
  rewrite status_bit, S1 by lia. case_bool_decide as E; cbn [negb]; [|done].
  destruct n as [|n]; [by cbn|]. specialize (IH d1 ltac:(lia)).
  destruct (kb_wait_output (S n) d1) as [r d2]. destruct IH as [I1 I2].
  rewrite S2 in I1, I2. split; [|done]. rewrite I1. by rewrite bool_decide_eq_true_2.
Qed.

Lemma read_scancode_queue d :
  let '(s, d') := kb_read_scancode d in
  match kbd_queue d with
  | [] => s = 0 /\ kbd_queue d' = []
  | s0 :: q => s = s0 /\ kbd_queue d' = q
  end.
Proof.
  unfold kb_read_scancode.
  assert (Hw := wait_output_queue kb_timeout d ltac:(apply Nat.ltb_lt; by vm_compute)).
  destruct (kb_wait_output kb_timeout d) as [ready d1]. destruct Hw as [W1 W2].
  destruct (kbd_queue d) as [|s0 q].
  - rewrite bool_decide_eq_true_2 in W1 by done. by subst ready.
  - rewrite bool_decide_eq_false_2 in W1 by done. subst ready. cbn [negb].
    by apply kbd_data.
Qed.

Lemma to_ascii_zero m : kb_scancode_to_ascii 0 m = (0, m).
Proof. destruct m as [[] [] [] []]; by vm_compute. Qed.

(** [kb_getchar] takes the next character of the queue, and never returns when
    there is none. *)
Lemma getchar_queue fuel d m :
  match next_char (kbd_queue d) m with
  | None => kb_getchar fuel (m, d) = None
  | Some (c, (q, m')) =>
      (kb_getchar fuel (m, d) = None /\ (fuel < length (kbd_queue d))%nat) \/
      exists d', kb_getchar fuel (m, d) = Some (c, (m', d')) /\ kbd_queue d' = q
  end.
Proof.
  revert d m. induction fuel as [|fuel IH]; intros d m.
  - cbn [kb_getchar]. destruct (next_char (kbd_queue d) m) as [[c [q m']]|] eqn:E; [|done].
    destruct (kbd_queue d); [done|]. cbn [length]. left. split; [done|lia].
  - cbn [kb_getchar]. pose proof (read_scancode_queue d) as Hr.
    destruct (kb_read_scancode d) as [s d1]. destruct (kbd_queue d) as [|s0 q] eqn:Eq; destruct Hr as [-> R2].
    + cbn [next_char]. rewrite to_ascii_zero. cbn [Z.eqb negb]. specialize (IH d1 m). by rewrite R2 in IH.
    + cbn [next_char length]. destruct (kb_scancode_to_ascii s0 m) as [c m1].
      destruct (Z.eqb_spec c 0) as [->|]; cbn [negb].
      * specialize (IH d1 m1). rewrite R2 in IH. destruct (next_char q m1) as [[c' [q' m']]|]; [|done].
        destruct IH as [[I1 I2]|I]; [left|by right]. split; [done|lia].
      * right. by exists d1.
Qed.

(** The screen's ports are not the keyboard's. *)
Lemma putchar_queue c (k : con D) : kbd_queue (bus (vga_putchar c k)) = kbd_queue (bus k).
Proof.
  unfold vga_putchar, and_then, vga_update_cursor, on_scr, outb. cbn [bus scr].
  rewrite !kbd_other by (by vm_compute). done.
Qed.

Lemma print_queue s (k : con D) : kbd_queue (bus (vga_print s k)) = kbd_queue (bus k).
Proof. revert k. induction s as [|c s IH]; intros k; [done|]. cbn [vga_print]. by rewrite IH, putchar_queue. Qed.

End polling.

(** ** Polling with the interrupt enabled

    The same bus as the polling code sees it once IRQ 1 is unmasked and the
    processor takes interrupts between instructions: before an [in] bytes may
    [arrive], each raises the interrupt, and the handler runs for it; others come
    [late], after the last interrupt the processor takes before the [in]. *)
Section starved.
  Context {D : Type} `{Kbd8042 D} (arrive late : D -> D).

Definition take_irqs (s : kbuf * D) : kbuf * D :=
  Nat.iter (length (kbd_queue (snd s))) keyboard_irq_handler s.

Definition irq1_bus : PortBus (kbuf * D) := {|
  port_in w port s :=
    let '(b, d) := take_irqs (fst s, arrive (snd s)) in
    let '(v, d) := port_in w port (late d) in (v, (b, d));
  port_out w port v s := (fst s, port_out w port v (snd s))
|}.

Lemma handler_queue s q b d :
  kbd_queue d = s :: q -> kbd_queue (snd (keyboard_irq_handler (b, d))) = q.
Proof.
  intros E. unfold keyboard_irq_handler. pose proof (kbd_data d s q E) as Hd.
  destruct (inb KB_DATA_PORT d) as [v d']. by destruct Hd.
Qed.

Lemma iter_handler_queue n s :
  kbd_queue (snd (Nat.iter n keyboard_irq_handler s)) = drop n (kbd_queue (snd s)) \/
  (length (kbd_queue (snd s)) < n)%nat.
Proof.
  induction n as [|n IH]; [by left|].
  change (Nat.iter (S n) keyboard_irq_handler s) with
    (keyboard_irq_handler (Nat.iter n keyboard_irq_handler s)).
  destruct IH as [IH|]; [|right; lia]. set (t := Nat.iter n keyboard_irq_handler s) in *.
  destruct (decide (length (kbd_queue (snd s)) <= n)%nat) as [Hn|Hn]; [right; lia|left].
  destruct (drop n (kbd_queue (snd s))) as [|c q] eqn:E.
  { apply (f_equal length) in E. rewrite length_drop in E. cbn [length] in E. lia. }
  clearbody t. destruct t as [b d]. cbn [snd] in IH.
  rewrite (handler_queue c q b d IH).
  replace (S n) with (n + 1)%nat by lia. rewrite <- drop_drop, E. done.
Qed.

Lemma take_irqs_empty s : kbd_queue (snd (take_irqs s)) = [].
Proof.
  unfold take_irqs. destruct (iter_handler_queue (length (kbd_queue (snd s))) s) as [E|]; [|lia].
  by rewrite E, drop_all.
Qed.

(** No byte arrives in between. *)
Hypothesis never_late : forall d, kbd_queue d = [] -> kbd_queue (late d) = [].

Lemma starved_status (s : kbuf * D) :
  Z.testbit (fst (@inb _ irq1_bus KB_STATUS_PORT s)) 0 = false.
Proof.
  unfold inb, irq1_bus. cbn [port_in]. change (u16 KB_STATUS_PORT) with KB_STATUS_PORT.
  pose proof (take_irqs_empty (fst s, arrive (snd s))) as Hq.
  destruct (take_irqs (fst s, arrive (snd s))) as [b d]. cbn [snd] in Hq. apply never_late in Hq.
  pose proof (kbd_status (late d)) as Hs. unfold inb in Hs. change (u16 KB_STATUS_PORT) with KB_STATUS_PORT in Hs.
  destruct (port_in 8 KB_STATUS_PORT (late d)) as [v d']. cbn [fst]. destruct Hs as [-> _].
  by rewrite Hq, bool_decide_eq_true_2.
Qed.

Lemma starved_wait n (s : kbuf * D) : fst (@kb_wait_output _ irq1_bus n s) = false.
Proof.
  revert s. induction n as [|n IH]; intros s; cbn [kb_wait_output]; [done|].
  pose proof (starved_status s) as Hs. pose proof (@inb_range _ irq1_bus KB_STATUS_PORT s) as Hr.
  destruct (@inb _ irq1_bus KB_STATUS_PORT s) as [v s']. cbn [fst] in *.
  rewrite status_bit, Hs by lia. apply IH.
Qed.

(** As long as no byte arrives between the last interrupt the processor takes and the
    [in] that follows, the polling [kb_getchar] does not return, whatever is typed: the
    handler of IRQ 1, which [keyboard_irq_init] enables, has taken every byte from
    the controller before the poll.  (A byte that comes just then can still be seen.) *)
Theorem polling_starved fuel m (s : kbuf * D) : @kb_getchar _ irq1_bus fuel (m, s) = None.
Proof.
  revert m s. induction fuel as [|fuel IH]; intros m s; cbn [kb_getchar]; [done|].
  unfold kb_read_scancode. pose proof (starved_wait kb_timeout s) as Hw.
  destruct (@kb_wait_output _ irq1_bus kb_timeout s) as [ready s']. cbn [fst] in Hw. subst ready.
  rewrite to_ascii_zero. cbn [Z.eqb negb]. apply IH.
Qed.

End starved.

(** ** A bus with a keyboard *)

(** The bytes that wait. *)
Record kbd_bus := KbdBus { kb_waiting : list Z }.
#[export] Instance kbd_port_bus : PortBus kbd_bus := {
  port_in w port d :=
    if port =? KB_STATUS_PORT then (if bool_decide (kb_waiting d = []) then 0x14 else 0x15, d)
    else if port =? KB_DATA_PORT then (hd 0 (kb_waiting d), KbdBus (tl (kb_waiting d)))
    else (0, d);
  port_out w port v d := d
}.

#[export, refine] Instance kbd_bus_8042 : Kbd8042 kbd_bus := { kbd_queue d := map u8 (kb_waiting d) }.
Proof.
  - intros [q]. unfold inb. cbn. destruct q; by cbn.
  - intros [q] s q' E. unfold inb. cbn in *. destruct q; [done|]. cbn in *. by injection E as <- <-.
  - done.
Defined.

(** Three keys typed before the first poll, none late. *)
Lemma polling_starved_witness :
  @kb_getchar _ (irq1_bus id id) 5 (modifiers_boot, (kbuf_boot, KbdBus [0x1E; 0x9E; 0x30])) = None.
Proof. by apply (polling_starved id id). Defined.

End Kbd.
