(* ===== verification/Shell.v ===== *)
(** * The shell: history, line editor and command line ([shell.h], [shell.c], [commands.c])

    The static arrays are lists of bytes.  What a command does is in Commands.v;
    here is how a line is read, kept in the history and taken apart. *)

From S2P Require Import Prelude CString Ports Vga Keyboard Kbd.
Import CString Vga Keyboard Kbd.
Local Open Scope Z_scope.
Local Open Scope kios_scope.

Module Shell.

Definition SHELL_BUFFER_SIZE : Z := 256.
Definition SHELL_HISTORY_SIZE : Z := 10.

(** The static variables of [shell.c]. *)
Record shell := Sh {
  shell_history : list (list Z);
  shell_history_count : Z;
  shell_history_index : Z;
  shell_buffer : list Z;
  shell_buffer_pos : Z
}.

Definition shell_boot : shell := Sh (replicate 10 (replicate 256 0)) 0 0 (replicate 256 0) 0.

Definition set_pos (p : Z) (s : shell) : shell :=
  Sh (shell_history s) (shell_history_count s) (shell_history_index s) (shell_buffer s) p.
Definition set_buffer_at (i c : Z) (s : shell) : shell :=
  Sh (shell_history s) (shell_history_count s) (shell_history_index s)
    (<[Z.to_nat i := c]> (shell_buffer s)) (shell_buffer_pos s).
Definition set_index (i : Z) (s : shell) : shell :=
  Sh (shell_history s) (shell_history_count s) i (shell_buffer s) (shell_buffer_pos s).

(** [shell_history\[i % SHELL_HISTORY_SIZE\]], as a string. *)
Definition history_slot (i : Z) (s : shell) : list Z :=
  c_str (nth (Z.to_nat (Z.rem i SHELL_HISTORY_SIZE)) (shell_history s) []).

Definition shell_add_to_history (cmd : list Z) (s : shell) : shell :=
  if Z.of_nat (length cmd) =? 0 then s
  else if (0 <? shell_history_count s) &&
          (str_diff cmd (history_slot (shell_history_count s - 1) s) =? 0) then s
  else
    let count := shell_history_count s in
    let i := Z.to_nat (Z.rem count SHELL_HISTORY_SIZE) in
    let history := <[i := put_str cmd (nth i (shell_history s) [])]> (shell_history s) in
    Sh history (count + 1) (count + 1) (shell_buffer s) (shell_buffer_pos s).

Section editor.
  Context {D : Type} `{!PortBus D}.

Definition shell_print_prompt : con D -> con D :=
  vga_print_colored (str "kiba") VGA_LIGHT_GREEN VGA_BLACK >>>
  vga_print_colored (str "@") VGA_WHITE VGA_BLACK >>>
  vga_print_colored (str "KiOS") VGA_LIGHT_CYAN VGA_BLACK >>>
  vga_print_colored (str "> ") VGA_WHITE VGA_BLACK.

(** [while (shell_buffer_pos > 0) { vga_putchar('\b'); shell_buffer_pos--; }]. *)
Fixpoint erase (n : nat) (st : shell * con D) : shell * con D :=
  match n with
  | O => st
  | S n =>
      let '(s, k) := st in
      if 0 <? shell_buffer_pos s then erase n (set_pos (shell_buffer_pos s - 1) s, vga_putchar 8 k)
      else (s, k)
  end.

Definition shell_clear_line (st : shell * con D) : shell * con D :=
  let '(s, k) := erase (Z.to_nat (shell_buffer_pos (fst st))) st in
  (set_buffer_at 0 0 s, k).

(** The [switch] of [shell_readline]: [true] when the line is complete. *)
Definition on_char (c : Z) (st : shell * con D) : bool * (shell * con D) :=
  let '(s, k) := st in
  let pos := shell_buffer_pos s in
  if c =? 10 then
    let k := vga_putchar 10 k in
    let s := set_buffer_at pos 0 s in
    (true, (shell_add_to_history (c_str (shell_buffer s)) s, k))
  else if c =? 8 then
    if 0 <? pos then
      let s := set_pos (pos - 1) s in
      let s := set_buffer_at (pos - 1) 0 s in
      (false, (s, vga_putchar 8 k))
    else (false, (s, k))
  else if c =? 27 then (false, shell_clear_line (s, k))
  else if (32 <=? c) && (pos <? SHELL_BUFFER_SIZE - 1) then
    let s := set_buffer_at pos c s in
    let s := set_pos (pos + 1) s in
    let s := set_buffer_at (pos + 1) 0 s in
    (false, (s, vga_putchar c k))
  else (false, (s, k)).

(** The loop of [shell_readline], for at most [fuel] characters of at most [fuel]
    scancodes each. *)
Fixpoint read_loop (fuel : nat) (s : shell) (m : modifiers) (k : con D) : option (shell * modifiers * con D) :=
  match fuel with
  | O => None
  | S fuel' =>
      match kb_getchar fuel (m, bus k) with
      | None => None
      | Some (c, (m, d)) =>
          let '(done, (s, k)) := on_char c (s, Con (scr k) d) in
          if done then Some (s, m, k) else read_loop fuel' s m k
      end
  end.

(** [shell_readline]; the string returned is the one in [shell_buffer]. *)
Definition shell_readline (fuel : nat) (s : shell) (m : modifiers) (k : con D)
    : option (shell * modifiers * con D) :=
  let s := set_pos 0 s in
  let s := set_buffer_at 0 0 s in
  let s := set_index (shell_history_count s) s in
  read_loop fuel s m k.

End editor.

(** ** The command line *)

Inductive command :=
  cmd_help | cmd_clear | cmd_info | cmd_echo | cmd_color | cmd_mem | cmd_mmap | cmd_meminfo
| cmd_memtest | cmd_time | cmd_uptime | cmd_tasks | cmd_reboot | cmd_shutdown | cmd_halt
| cmd_netconf | cmd_fault | cmd_vmtest | cmd_usertest.
#[export] Instance command_eq : EqDecision command.
Proof. solve_decision. Defined.

(** [shell_command_t]: the name, the function and the help text. *)
Record shell_command_t := Cmd { name : list Z; func : command; help : list Z }.

Definition shell_commands : list shell_command_t := [
  Cmd (str "help") cmd_help (str "Show this help message");
  Cmd (str "clear") cmd_clear (str "Clear the screen");
  Cmd (str "info") cmd_info (str "Show system information");
  Cmd (str "echo") cmd_echo (str "Echo arguments to screen");
  Cmd (str "color") cmd_color (str "Change text color (usage: color <fg> <bg>)");
  Cmd (str "mem") cmd_mem (str "Show memory information");
  Cmd (str "mmap") cmd_mmap (str "Show physical memory map");
  Cmd (str "meminfo") cmd_meminfo (str "Show detailed memory statistics");
  Cmd (str "memtest") cmd_memtest (str "Run comprehensive memory stress tests");
  Cmd (str "time") cmd_time (str "Show current time");
  Cmd (str "uptime") cmd_uptime (str "Show system uptime");
  Cmd (str "tasks") cmd_tasks (str "List all running tasks");
  Cmd (str "reboot") cmd_reboot (str "Reboot the system");
  Cmd (str "shutdown") cmd_shutdown (str "Shutdown the system");
  Cmd (str "halt") cmd_halt (str "Halt the system");
  Cmd (str "netconf") cmd_netconf (str "Configure network interface");
  Cmd (str "fault") cmd_fault (str "Trigger CPU exceptions for testing (usage: fault <div0|ud|pf>)");
  Cmd (str "vmtest") cmd_vmtest (str "Test Virtual Memory Manager");
  Cmd (str "usertest") cmd_usertest (str "Test Ring 3 / User Mode transition")].

Definition shell_commands_count : Z := Z.of_nat (length shell_commands).

(** [while ( *p == ' ') p++] and [while ( *p && *p != ' ') p++], the part of the
    string behind the pointer. *)
Fixpoint skip_spaces (s : list Z) : list Z :=
  match s with c :: s' => if c =? 32 then skip_spaces s' else s | [] => [] end.
Fixpoint skip_word (s : list Z) : list Z :=
  match s with c :: s' => if negb (c =? 32) then skip_word s' else s | [] => [] end.

(** The loop over the commands; [strncmp] on the first [cmd_len] characters. *)
Fixpoint find_command (cmd : list Z) (cmd_len : nat) (l : list shell_command_t) : option command :=
  match l with
  | [] => None
  | e :: l =>
      if (str_diff (take cmd_len cmd) (take cmd_len (name e)) =? 0) && (length (name e) =? cmd_len)%nat
      then Some (func e) else find_command cmd cmd_len l
  end.

(** What [shell_execute] does with a line: nothing, run a command on arguments,
    or report a word it does not know. *)
Inductive dispatch := Nothing | Run (c : command) (args : list Z) | Unknown (word : list Z).

Definition shell_dispatch (cmd : list Z) : dispatch :=
  let cmd := skip_spaces cmd in
  match cmd with
  | [] => Nothing
  | _ =>
      let args := skip_word cmd in
      let cmd_len := (length cmd - length args)%nat in
      let args := skip_spaces args in
      match find_command cmd cmd_len shell_commands with
      | Some c => Run c args
      | None => Unknown (take cmd_len cmd)
      end
  end.

(** ** The history is the last ten lines *)

Record shell_ok (s : shell) : Prop := {
  sh_history : length (shell_history s) = 10%nat;
  sh_slots : Forall (fun a => length a = 256%nat) (shell_history s);
  sh_count : 0 <= shell_history_count s;
  sh_buffer : length (shell_buffer s) = 256%nat;
  sh_pos : 0 <= shell_buffer_pos s < 256
}.

Lemma shell_boot_ok : shell_ok shell_boot.
Proof. split; [done| |done|done|done]. by repeat constructor. Qed.

(** The lines kept, oldest first. *)
Definition entries (s : shell) : list (list Z) :=
  let lo := Z.max 0 (shell_history_count s - 10) in
  map (fun i => history_slot i s) (seqZ lo (shell_history_count s - lo)).

Lemma rem_mod_10 i : 0 <= i -> Z.rem i SHELL_HISTORY_SIZE = i mod 10.
Proof. intros Hi. by apply Z.rem_mod_nonneg. Qed.

Lemma seqZ_snoc lo n : 0 <= n -> seqZ lo (n + 1) = seqZ lo n ++ [lo + n].
Proof.
  intros Hn. rewrite seqZ_app by lia. f_equal.
Qed.

Lemma last_entry s :
  shell_ok s -> last (entries s) =
  if 0 <? shell_history_count s then Some (history_slot (shell_history_count s - 1) s) else None.
Proof.
  intros Hok. pose proof (sh_count _ Hok). unfold entries. cbv zeta.
  destruct (Z.ltb_spec 0 (shell_history_count s)).
  - set (lo := Z.max 0 _).
    replace (shell_history_count s - lo) with (shell_history_count s - lo - 1 + 1) by lia.
    rewrite seqZ_snoc, map_app, last_app by lia. cbn [map last]. do 2 f_equal. lia.
  - replace (shell_history_count s) with 0 by lia. done.
Qed.

(** One slot written. *)
Lemma history_slot_insert i cmd s :
  shell_ok s -> no_nul cmd -> (length cmd < 256)%nat -> 0 <= i ->
  shell_history_count s - 10 < i <= shell_history_count s ->
  let count := shell_history_count s in
  let n := Z.to_nat (Z.rem count SHELL_HISTORY_SIZE) in
  c_str (nth (Z.to_nat (Z.rem i SHELL_HISTORY_SIZE))
    (<[n := put_str cmd (nth n (shell_history s) [])]> (shell_history s)) []) =
  if decide (i = count) then cmd else history_slot i s.
Proof.
  intros Hok Hcmd Hlen Hi Hr. cbv zeta. pose proof (sh_count _ Hok) as Hc.
  unfold history_slot. rewrite !rem_mod_10 by lia.
  assert (Hn : (Z.to_nat (shell_history_count s mod 10) < length (shell_history s))%nat).
  { rewrite (sh_history _ Hok). dlia. }
  destruct (decide (i = shell_history_count s)) as [->|Hne].
  - rewrite nth_lookup, list_lookup_insert_eq by done. cbn [default]. by apply c_str_app.
  - rewrite !nth_lookup, list_lookup_insert_ne; [done|]. dlia.
Qed.

Lemma add_to_history_ok cmd s :
  shell_ok s -> (length cmd < 256)%nat -> shell_ok (shell_add_to_history cmd s).
Proof.
  intros Hok Hlen. unfold shell_add_to_history. cbv zeta. repeat case_match; try done.
  destruct Hok as [H1 H2 H3 H4 H5]. split; cbn; try done; try lia.
  - by rewrite length_insert.
  - apply Forall_insert; [done|]. rewrite Forall_lookup in H2.
    assert (Hn : (Z.to_nat (Z.rem (shell_history_count s) SHELL_HISTORY_SIZE) < length (shell_history s))%nat).
    { rewrite rem_mod_10, H1 by lia. dlia. }
    destruct (lookup_lt_is_Some_2 _ _ Hn) as [a Ha]. rewrite (nth_lookup_Some _ _ [] _ Ha).
    pose proof (H2 _ _ Ha) as Hl. cbn beta in Hl. by rewrite put_str_length by lia.
Qed.

(** A line stored behind the newest. *)
Lemma entries_store cmd s h b p :
  shell_ok s -> no_nul cmd -> (length cmd < 256)%nat ->
  let count := shell_history_count s in
  let n := Z.to_nat (Z.rem count SHELL_HISTORY_SIZE) in
  entries (Sh (<[n := put_str cmd (nth n (shell_history s) [])]> (shell_history s)) (count + 1) h b p) =
  drop (length (entries s) - 9) (entries s) ++ [cmd].
Proof.
  intros Hok Hcmd Hlen. cbv zeta. pose proof (sh_count _ Hok) as Hc.
  unfold entries. cbv zeta. cbn [shell_history_count]. set (count := shell_history_count s) in *.
  rewrite length_map, length_seqZ.
  replace (count + 1 - Z.max 0 (count + 1 - 10)) with (count - Z.max 0 (count - 9) + 1) by lia.
  replace (count + 1 - 10) with (count - 9) by lia.
  rewrite seqZ_snoc, map_app by lia. f_equal.
  - assert (E : drop (Z.to_nat (count - Z.max 0 (count - 10)) - 9)
      (map (fun i => history_slot i s) (seqZ (Z.max 0 (count - 10)) (count - Z.max 0 (count - 10)))) =
      map (fun i => history_slot i s) (seqZ (Z.max 0 (count - 9)) (count - Z.max 0 (count - 9)))).
    { destruct (Z.lt_ge_cases count 10).
      - replace (Z.max 0 (count - 10)) with 0 by lia. replace (Z.max 0 (count - 9)) with 0 by lia.
        by replace (Z.to_nat (count - 0) - 9)%nat with 0%nat by lia.
      - replace (count - Z.max 0 (count - 10)) with (1 + 9) by lia.
        replace (count - Z.max 0 (count - 9)) with 9 by lia. rewrite seqZ_app, map_app by lia.
        replace (Z.max 0 (count - 9)) with (Z.max 0 (count - 10) + 1) by lia. done. }
    rewrite E. apply map_ext_in. intros i Hi%list_elem_of_In%elem_of_seqZ.
    unfold history_slot at 1. cbn [shell_history]. unfold count.
    rewrite (history_slot_insert i cmd s) by (done || lia). by rewrite decide_False by lia.
  - cbn [map]. f_equal. unfold history_slot. cbn [shell_history]. unfold count.
    rewrite (history_slot_insert _ cmd s) by (done || lia). rewrite decide_True by lia. done.
Qed.

Lemma add_to_history_entries cmd s :
  shell_ok s -> no_nul cmd -> (length cmd < 256)%nat ->
  entries (shell_add_to_history cmd s) =
  if bool_decide (cmd = [] \/ last (entries s) = Some cmd) then entries s
  else drop (length (entries s) - 9) (entries s) ++ [cmd].
Proof.
  intros Hok Hcmd Hlen. pose proof (sh_count _ Hok) as Hc. unfold shell_add_to_history.
  destruct (Z.eqb_spec (Z.of_nat (length cmd)) 0) as [E|E].
  { rewrite bool_decide_eq_true_2; [done|]. left. destruct cmd; [done|]. cbn [length] in E. lia. }
  assert (Hne : cmd <> []) by (intros ->; by cbn in E).
  rewrite last_entry by done. destruct (Z.ltb_spec 0 (shell_history_count s)) as [Hp|Hp]; cbn [andb].
  - pose proof (str_diff_0 cmd (history_slot (shell_history_count s - 1) s) Hcmd (c_str_no_nul _)) as Hd.
    destruct (Z.eqb_spec (str_diff cmd (history_slot (shell_history_count s - 1) s)) 0) as [Ed|Ed].
    + rewrite bool_decide_eq_true_2; [done|]. right. f_equal. symmetry. by apply Hd.
    + rewrite bool_decide_eq_false_2; [by apply entries_store|].
      intros [|[=]]; [done|]. by apply Ed, Hd.
  - rewrite bool_decide_eq_false_2; [by apply entries_store|]. by intros [|].
Qed.

(** [shell_add_to_history] keeps the last ten lines: an empty line and a
    repetition of the newest are dropped, any other line is appended and the
    oldest of ten falls out; nothing is written outside its slot. *)
Theorem history_last_ten cmd s :
  shell_ok s -> no_nul cmd -> (length cmd < 256)%nat ->
  shell_ok (shell_add_to_history cmd s) /\
  entries (shell_add_to_history cmd s) =
    (if bool_decide (cmd = [] \/ last (entries s) = Some cmd) then entries s
     else drop (length (entries s) - 9) (entries s) ++ [cmd]) /\
  (length (entries s) <= 10)%nat.
Proof.
  intros Hok Hcmd Hlen. split; [by apply add_to_history_ok|]. split; [by apply add_to_history_entries|].
  unfold entries. cbv zeta. rewrite length_map, length_seqZ. lia.
Qed.

(** ** The line editor *)

(** The line after a key that does not end it, and what the key echoes. *)
Definition key (line : list Z) (c : Z) : list Z * list Z :=
  if c =? 8 then match line with [] => ([], []) | _ => (removelast line, [8]) end
  else if c =? 27 then ([], replicate (length line) 8)
  else if (32 <=? c) && (Z.of_nat (length line) <? 255) then (line ++ [c], [c])
  else (line, []).

(** The line, the echo and the characters left of a sequence of characters. *)
Fixpoint edit (line cs : list Z) : option (list Z * list Z * list Z) :=
  match cs with
  | [] => None
  | c :: cs =>
      if c =? 10 then Some (line, [10], cs)
      else
        let '(line, out) := key line c in
        match edit line cs with
        | Some (line, out', rest) => Some (line, out ++ out', rest)
        | None => None
        end
  end.

(** The buffer holds the line and its NUL. *)
Definition holds (line : list Z) (s : shell) : Prop :=
  shell_ok s /\ shell_buffer_pos s = Z.of_nat (length line) /\ no_nul line /\
  exists tail, shell_buffer s = line ++ 0 :: tail.

Lemma holds_line line s : holds line s -> c_str (shell_buffer s) = line.
Proof. intros (_ & _ & Hn & tail & ->). by apply c_str_app. Qed.

Lemma insert_line (line l : list Z) c : <[length line := c]> (line ++ l) = line ++ <[0%nat := c]> l.
Proof. rewrite insert_app_r_alt by lia. by rewrite Nat.sub_diag. Qed.

(** The same variables but for the buffer and the position. *)
Definition same_history (s s' : shell) : Prop :=
  shell_history s' = shell_history s /\ shell_history_count s' = shell_history_count s /\
  shell_history_index s' = shell_history_index s.

Lemma holds_update line s s' tail :
  shell_ok s -> same_history s s' -> no_nul line -> shell_buffer_pos s' = Z.of_nat (length line) ->
  shell_buffer s' = line ++ 0 :: tail -> length (shell_buffer s') = 256%nat -> holds line s'.
Proof.
  intros [H1 H2 H3 H4 H5] (E1 & E2 & E3) Hn Hp Hb Hl. split_and!; [|done|done|by exists tail].
  split; rewrite ?E1, ?E2; try done. rewrite Hp. rewrite Hb, length_app in Hl. cbn [length] in Hl. lia.
Qed.

(** Characters printed one after the other. *)
Definition echoed {D} `{PortBus D} (out : list Z) (k : con D) : con D := fold_left (fun k c => vga_putchar c k) out k.

Lemma echoed_scr {D} `{PortBus D} out (k : con D) :
  scr (echoed out k) = fold_left (fun s c => putchar_screen c s) out (scr k).
Proof. revert k. induction out as [|c out IH]; intros k; [done|]. apply (IH (vga_putchar c k)). Qed.

Lemma echoed_queue {D} `{Kbd8042 D} out (k : con D) : kbd_queue (bus (echoed out k)) = kbd_queue (bus k).
Proof. revert k. induction out as [|c out IH]; intros k; [done|]. rewrite <- (putchar_queue c k). apply (IH (vga_putchar c k)). Qed.

Section editing.
  Context {D : Type} `{!PortBus D}.

Lemma erase_spec n s (k : con D) :
  shell_buffer_pos s = Z.of_nat n ->
  erase n (s, k) = (set_pos 0 s, echoed (replicate n 8) k).
Proof.
  revert s k. induction n as [|n IH]; intros s k Hn; cbn [erase replicate].
  { f_equal. destruct s. cbn in *. by rewrite Hn. }
  destruct (Z.ltb_spec 0 (shell_buffer_pos s)); [|lia].
  rewrite (IH (set_pos (shell_buffer_pos s - 1) s) (vga_putchar 8 k)) by (cbn [shell_buffer_pos set_pos]; lia). done.
Qed.

(** The three keys that change the line. *)
Lemma backspace_holds line c s :
  holds (line ++ [c]) s ->
  holds line (set_buffer_at (shell_buffer_pos s - 1) 0 (set_pos (shell_buffer_pos s - 1) s)).
Proof.
  intros (Hok & Hp & Hn & tail & Hb). apply Forall_app in Hn as [Hn _].
  rewrite length_app in Hp. cbn [length] in Hp.
  apply (holds_update _ s _ (0 :: tail)); [done|done|done|cbn; lia| |].
  - cbn [shell_buffer set_buffer_at set_pos]. rewrite Hb, <- app_assoc, Hp.
    replace (Z.to_nat (Z.of_nat (length line + 1) - 1)) with (length line) by lia. apply insert_line.
  - cbn [shell_buffer set_buffer_at set_pos]. rewrite length_insert. apply Hok.
Qed.

Lemma escape_holds line s : holds line s -> holds [] (set_buffer_at 0 0 (set_pos 0 s)).
Proof.
  intros (Hok & Hp & Hn & tail & Hb). pose proof (sh_buffer _ Hok) as Hl.
  destruct (shell_buffer s) as [|b buf] eqn:E; [done|].
  apply (holds_update _ s _ buf); [done|done|by constructor|done| |]; cbn [shell_buffer set_buffer_at set_pos];
    by rewrite E.
Qed.

Lemma insert_holds line c s :
  holds line s -> c <> 0 -> Z.of_nat (length line) < 255 ->
  holds (line ++ [c]) (set_buffer_at (shell_buffer_pos s + 1) 0
    (set_pos (shell_buffer_pos s + 1) (set_buffer_at (shell_buffer_pos s) c s))).
Proof.
  intros (Hok & Hp & Hn & tail & Hb) Hc Hlen. pose proof (sh_buffer _ Hok) as Hl.
  destruct tail as [|t tail].
  { rewrite Hb, length_app in Hl. cbn [length] in Hl. lia. }
  apply (holds_update _ s _ tail); [done|done| | | |]; cbn [shell_buffer shell_buffer_pos set_buffer_at set_pos].
  - apply Forall_app. split; [done|by constructor].
  - rewrite length_app. cbn [length]. lia.
  - rewrite Hb, Hp, Nat2Z.id, insert_line. cbn [insert list_insert].
    replace (Z.to_nat (Z.of_nat (length line) + 1)) with (length (line ++ [c])) by (rewrite length_app; cbn; lia).
    change (line ++ c :: t :: tail) with (line ++ [c] ++ t :: tail). by rewrite app_assoc, insert_line.
  - by rewrite !length_insert.
Qed.

Lemma on_char_key line c s (k : con D) :
  holds line s -> c <> 10 ->
  let '(line', out) := key line c in
  let '(done, (s', k')) := on_char c (s, k) in
  done = false /\ holds line' s' /\ same_history s s' /\ k' = echoed out k.
Proof.
  intros Hh Hc. pose proof Hh as (Hok & Hp & Hn & tail & Hb). unfold key, on_char. cbv zeta.
  destruct (Z.eqb_spec c 10); [done|]. destruct (Z.eqb_spec c 8) as [->|Hc8].
  - destruct line as [|x line0 _] using rev_ind.
    + rewrite Hp. cbn. by split_and!.
    + rewrite removelast_last. destruct (Z.ltb_spec 0 (shell_buffer_pos s)) as [_|].
      2: { rewrite length_app in Hp. cbn [length] in Hp. lia. }
      destruct (line0 ++ [x]) eqn:E; [by destruct line0|]. rewrite <- E in *. clear E.
      split; [done|]. split; [by apply (backspace_holds _ x)|]. by split.
  - destruct (Z.eqb_spec c 27) as [->|Hc27].
    + unfold shell_clear_line. cbn [fst]. rewrite Hp, Nat2Z.id.
      rewrite (erase_spec (length line) s k Hp). split; [done|]. split; [by eapply escape_holds|]. by split.
    + rewrite Hp. unfold SHELL_BUFFER_SIZE. change (256 - 1) with 255.
      destruct ((32 <=? c) && (Z.of_nat (length line) <? 255)) eqn:E.
      * apply andb_true_iff in E as [E1%Z.leb_le E2%Z.ltb_lt]. split; [done|].
        split; [rewrite <- Hp; apply insert_holds; [done|lia|done]|]. by split.
      * by split_and!.
Qed.

(** The end of the line. *)
Lemma on_char_enter line s (k : con D) :
  holds line s ->
  exists s0, holds line s0 /\ same_history s s0 /\
  on_char 10 (s, k) = (true, (shell_add_to_history line s0, vga_putchar 10 k)).
Proof.
  intros Hh. pose proof Hh as (Hok & Hp & Hn & tail & Hb).
  exists (set_buffer_at (shell_buffer_pos s) 0 s).
  assert (H0 : holds line (set_buffer_at (shell_buffer_pos s) 0 s)).
  { apply (holds_update _ s _ tail); [done|done|done|done| |]; cbn [shell_buffer set_buffer_at].
    - by rewrite Hb, Hp, Nat2Z.id, insert_line.
    - rewrite length_insert. apply Hok. }
  split; [done|]. split; [done|]. unfold on_char. cbv zeta. rewrite (holds_line line) by done. done.
Qed.

(** The characters [kb_getchar] delivers to a run of the loop, whatever the bus does
    meanwhile, up to the one that ends the line or the first that does not come. *)
Fixpoint chars_read (fuel : nat) (s : shell) (m : modifiers) (k : con D) : list Z :=
  match fuel with
  | O => []
  | S fuel' =>
      match kb_getchar fuel (m, bus k) with
      | None => []
      | Some (c, (m, d)) =>
          let '(done, (s, k)) := on_char c (s, Con (scr k) d) in
          c :: (if done then [] else chars_read fuel' s m k)
      end
  end.

(** On any bus the loop makes of these characters what the editor makes of them. *)
Lemma read_loop_chars fuel : forall line s m (k : con D),
  holds line s ->
  match edit line (chars_read fuel s m k) with
  | None => read_loop fuel s m k = None
  | Some (line', out, rest) => rest = [] /\ exists s0 m' k',
      read_loop fuel s m k = Some (shell_add_to_history line' s0, m', k') /\
      holds line' s0 /\ same_history s s0 /\ scr k' = fold_left (fun s c => putchar_screen c s) out (scr k)
  end.
Proof.
  induction fuel as [|fuel IH]; intros line s m k Hh; [done|]. cbn [read_loop chars_read].
  destruct (kb_getchar (S fuel) (m, bus k)) as [[c [m' d]]|]; [|done]. set (k1 := Con (scr k) d).
  destruct (Z.eqb_spec c 10) as [->|Hc].
  - destruct (on_char_enter line s k1 Hh) as (s0 & H0 & E0 & ->). cbn [edit Z.eqb Pos.eqb].
    split; [done|]. exists s0, m', (vga_putchar 10 k1). by split_and!.
  - pose proof (on_char_key line c s k1 Hh Hc) as Hk. destruct (key line c) as [line' out] eqn:Ek.
    destruct (on_char c (s, k1)) as [fin [s' k']]. destruct Hk as (-> & Hh' & Hs' & ->).
    cbn [edit]. destruct (Z.eqb_spec c 10); [done|]. rewrite Ek. specialize (IH line' s' m' (echoed out k1) Hh').
    destruct (edit line' _) as [[[l2 out2] rest2]|]; [|done]. destruct IH as (-> & s0 & m2 & k2 & I1 & I2 & I3 & I4).
    split; [done|]. exists s0, m2, k2. split; [done|]. split; [done|]. split.
    + destruct Hs' as (? & ? & ?), I3 as (? & ? & ?). split_and!; congruence.
    + by rewrite I4, echoed_scr, fold_left_app.
Qed.

End editing.

Section polled.
  Context {D : Type} `{Kbd8042 D}.

(** Where the keyboard is only polled, they are the decoded scancodes that wait. *)
Lemma read_loop_spec fuel line s m (k : con D) :
  holds line s ->
  match edit line (fst (decode (kbd_queue (bus k)) m)) with
  | None => read_loop fuel s m k = None
  | Some (line', out, rest) => (length (kbd_queue (bus k)) <= fuel)%nat ->
      exists s0 m' k', read_loop fuel s m k = Some (shell_add_to_history line' s0, m', k') /\
      holds line' s0 /\ same_history s s0 /\
      scr k' = fold_left (fun s c => putchar_screen c s) out (scr k) /\
      fst (decode (kbd_queue (bus k')) m') = rest /\
      (length (kbd_queue (bus k')) <= length (kbd_queue (bus k)))%nat
  end.
Proof.
  revert line s m k. induction fuel as [|fuel IH]; intros line s m k Hh.
  { cbn [read_loop]. destruct (edit _ _) as [[[l o] r]|] eqn:E; [|done]. intros Hl.
    destruct (kbd_queue (bus k)); [done|]. cbn [length] in Hl. lia. }
  cbn [read_loop]. pose proof (getchar_queue (S fuel) (bus k) m) as Hg.
  pose proof (next_char_decode (kbd_queue (bus k)) m) as Hd.
  destruct (next_char (kbd_queue (bus k)) m) as [[c [q m']]|] eqn:En.
  2: { rewrite Hd, Hg. done. }
  destruct Hd as [Hd Hlen]. rewrite Hd. cbn [edit].
  destruct Hg as [[-> Hf]|(d' & -> & Hq)].
  { destruct (c =? 10); [lia|]. destruct (key line c). by destruct (edit _ _) as [[[? ?] ?]|]; [lia|]. }
  set (k1 := Con (scr k) d'). destruct (Z.eqb_spec c 10) as [->|Hc].
  - destruct (on_char_enter line s k1 Hh) as (s0 & H0 & E0 & ->). intros _.
    exists s0, m', (vga_putchar 10 k1). split_and!; try done; rewrite putchar_queue; unfold k1; cbn [bus]; [by rewrite Hq|rewrite Hq; lia].
  - pose proof (on_char_key line c s k1 Hh Hc) as Hk. destruct (key line c) as [line' out].
    destruct (on_char c (s, k1)) as [fin [s' k']]. destruct Hk as (-> & Hh' & Hs' & ->).
    specialize (IH line' s' m' (echoed out k1) Hh'). rewrite echoed_queue, echoed_scr in IH.
    unfold k1 in IH. cbn [scr bus] in IH. rewrite Hq in IH. destruct (edit line' _) as [[[l2 out2] rest2]|]; [|done].
    intros Hf. destruct IH as (s0 & m2 & k2 & I1 & I2 & I3 & I4 & I5 & I6); [lia|].
    exists s0, m2, k2. split; [done|]. split; [done|]. split.
    + destruct Hs' as (? & ? & ?), I3 as (? & ? & ?). split_and!; congruence.
    + split; [by rewrite fold_left_app|]. split; [done|lia].
Qed.

End polled.

(** The history after a line. *)
Definition remember (es : list (list Z)) (line : list Z) : list (list Z) :=
  if bool_decide (line = [] \/ last es = Some line) then es else drop (length es - 9) es ++ [line].

(** The state in which [shell_readline] enters its loop. *)
Definition fresh_line (s : shell) : shell :=
  set_index (shell_history_count s) (set_buffer_at 0 0 (set_pos 0 s)).

Lemma fresh_line_holds s : shell_ok s -> holds [] (fresh_line s) /\ entries (fresh_line s) = entries s.
Proof.
  intros Hok. split; [|done]. pose proof (sh_buffer _ Hok) as Hl.
  destruct (shell_buffer s) as [|b buf] eqn:E; [done|].
  split_and!; [|done|by constructor|exists buf; unfold fresh_line; cbn; by rewrite E].
  destruct Hok. split; try done. unfold fresh_line. cbn. by rewrite E.
Qed.

(** The state in which it leaves it, with the line in the buffer and the history. *)
Lemma line_stored line s s0 : holds line s0 -> same_history s s0 ->
  let s' := shell_add_to_history line s0 in
  shell_ok s' /\ c_str (shell_buffer s') = line /\ (length line < 256)%nat /\ entries s' = remember (entries s) line.
Proof.
  intros Hh (R3 & R4 & R5). cbv zeta. pose proof Hh as (Hok1 & Hp & Hn & _).
  assert (Ee1 : entries s0 = entries s) by (unfold entries, history_slot; by rewrite R3, R4).
  assert (Hlen : (length line < 256)%nat) by (pose proof (sh_pos _ Hok1); lia).
  split; [by apply add_to_history_ok|]. split; [|split; [done|by rewrite add_to_history_entries, Ee1 by done]].
  replace (shell_buffer (shell_add_to_history line s0)) with (shell_buffer s0); [by apply holds_line|].
  unfold shell_add_to_history. cbv zeta. by repeat case_match.
Qed.

(** What [shell_readline] does on any bus. *)
Lemma readline_edits_effect {D} `{!PortBus D} fuel s m (k : con D) :
  shell_ok s ->
  match edit [] (chars_read fuel (fresh_line s) m k) with
  | None => shell_readline fuel s m k = None
  | Some (line, out, rest) => rest = [] /\ exists s' m' k',
      shell_readline fuel s m k = Some (s', m', k') /\
      shell_ok s' /\ c_str (shell_buffer s') = line /\ (length line < 256)%nat /\
      entries s' = remember (entries s) line /\
      scr k' = fold_left (fun s c => putchar_screen c s) out (scr k)
  end.
Proof.
  intros Hok. destruct (fresh_line_holds s Hok) as [Hh Ee]. rewrite <- Ee.
  change (shell_readline fuel s m k) with (read_loop fuel (fresh_line s) m k).
  pose proof (read_loop_chars fuel [] (fresh_line s) m k Hh) as Hr.
  destruct (edit [] _) as [[[line out] rest]|]; [|done]. destruct Hr as (-> & s0 & m' & k' & R1 & R2 & R3 & R4).
  destruct (line_stored line _ s0 R2 R3) as (L1 & L2 & L3 & L4). split; [done|].
  exists (shell_add_to_history line s0), m', k'. by split_and!.
Qed.

(** C36: the line editor, on any bus, with or without interrupts: if the characters that
    [kb_getchar] delivers, in order, end a line, [shell_readline] returns with the line
    the editing keys make of them (printable characters appended up to 255 of them,
    backspace taking the last one, escape all) as the string in its buffer, which is
    never overrun; every character has been echoed as the editor says; the history is
    the last ten lines, without empty ones and repetitions; and no character behind
    the end of the line has been taken.  If they do not end a line it goes on waiting. *)
Theorem readline_edits {D} `{!PortBus D} fuel s m (k : con D) :
  shell_ok s ->
  match edit [] (chars_read fuel (fresh_line s) m k) with
  | None => shell_readline fuel s m k = None
  | Some (line, out, rest) => rest = [] /\ exists s' m' k',
      shell_readline fuel s m k = Some (s', m', k') /\
      shell_ok s' /\ c_str (shell_buffer s') = line /\ (length line < 256)%nat /\
      entries s' = remember (entries s) line /\
      scr k' = fold_left (fun s c => putchar_screen c s) out (scr k)
  end.
Proof. apply readline_edits_effect. Qed.

(** [shell_readline] where the keyboard is only polled, and what is left to read. *)
Lemma shell_readline_effect {D} `{Kbd8042 D} fuel s m (k : con D) :
  shell_ok s ->
  match edit [] (fst (decode (kbd_queue (bus k)) m)) with
  | None => shell_readline fuel s m k = None
  | Some (line, out, rest) => (length (kbd_queue (bus k)) <= fuel)%nat ->
      exists s' m' k', shell_readline fuel s m k = Some (s', m', k') /\
      shell_ok s' /\ c_str (shell_buffer s') = line /\ (length line < 256)%nat /\
      entries s' = remember (entries s) line /\
      scr k' = fold_left (fun s c => putchar_screen c s) out (scr k) /\
      fst (decode (kbd_queue (bus k')) m') = rest /\
      (length (kbd_queue (bus k')) <= length (kbd_queue (bus k)))%nat
  end.
Proof.
  intros Hok. destruct (fresh_line_holds s Hok) as [Hh Ee]. rewrite <- Ee.
  change (shell_readline fuel s m k) with (read_loop fuel (fresh_line s) m k).
  pose proof (read_loop_spec fuel [] (fresh_line s) m k Hh) as Hr.
  destruct (edit [] _) as [[[line out] rest]|]; [|done].
  intros Hf. destruct (Hr Hf) as (s1 & m' & k' & R1 & R2 & R3 & R6 & R7 & R8).
  destruct (line_stored line _ s1 R2 R3) as (L1 & L2 & L3 & L4).
  exists (shell_add_to_history line s1), m', k'. by split_and!.
Qed.

(** ** The command line *)

Lemma skip_spaces_replicate n s : skip_spaces (replicate n 32 ++ s) = skip_spaces s.
Proof. by induction n. Qed.

Definition no_space (s : list Z) : Prop := Forall (fun c => c <> 32) s.

(** What follows a word: nothing, or a space. *)
Definition word_end (rest : list Z) : Prop := match rest with [] => True | c :: _ => c = 32 end.

Lemma skip_word_app word rest : no_space word -> word_end rest -> skip_word (word ++ rest) = rest.
Proof.
  induction word as [|c word IH]; intros Hw Hr; cbn [app skip_word].
  - destruct rest as [|c rest]; [done|]. cbn in Hr. by subst c.
  - apply Forall_cons in Hw as [Hc Hw]. destruct (Z.eqb_spec c 32); [done|]. by apply IH.
Qed.

Lemma find_command_exact word rest l :
  no_nul word -> Forall (fun e => no_nul (name e)) l -> NoDup (map name l) ->
  (forall e, e ∈ l -> name e = word -> find_command (word ++ rest) (length word) l = Some (func e)) /\
  ((forall e, e ∈ l -> name e <> word) -> find_command (word ++ rest) (length word) l = None).
Proof.
  intros Hw. induction l as [|e l IH]; intros Hl Hd; [split; [by intros e ?%elem_of_nil|done]|].
  apply Forall_cons in Hl as [He Hl]. apply NoDup_cons in Hd as [Hn Hd]. specialize (IH Hl Hd).
  cbn [find_command]. rewrite take_app_length.
  assert (E : ((str_diff word (take (length word) (name e)) =? 0) && (length (name e) =? length word)%nat) =
    bool_decide (name e = word)).
  { apply eq_true_iff_eq. rewrite andb_true_iff, Z.eqb_eq, Nat.eqb_eq, bool_decide_eq_true.
    rewrite str_diff_0 by (done || by apply Forall_take). split.
    - intros [E1 E2]. by rewrite <- E2, firstn_all in E1.
    - intros ->. by rewrite firstn_all. }
  rewrite E. case_bool_decide as Ee.
  - split.
    + intros e' [->|Hin]%elem_of_cons He'; [done|]. exfalso. apply Hn. rewrite Ee, <- He'.
      by apply list_elem_of_fmap_2.
    + intros Hne. exfalso. by apply (Hne e); [left|].
  - destruct IH as [I1 I2]. split.
    + intros e' [->|Hin]%elem_of_cons He'; [done|]. by apply I1.
    + intros Hne. apply I2. intros e' He'. apply Hne. by right.
Qed.

Lemma shell_commands_names :
  Forall (fun e => no_nul (name e)) shell_commands /\ NoDup (map name shell_commands).
Proof. split; apply (bool_decide_unpack _); by vm_compute. Qed.

(** [shell_execute] takes the first word of the line, whatever spaces are
    before it, and runs the command of exactly that name on the rest of the line
    without its leading spaces; a word that is no command's name is reported, and
    a line of spaces does nothing. *)
Theorem shell_dispatch_words n word rest :
  no_nul word -> no_space word -> word_end rest ->
  (word = [] -> rest = [] -> shell_dispatch (replicate n 32 ++ word ++ rest) = Nothing) /\
  (word <> [] -> (forall e, e ∈ shell_commands -> name e <> word) ->
     shell_dispatch (replicate n 32 ++ word ++ rest) = Unknown word) /\
  (word <> [] -> forall e, e ∈ shell_commands -> name e = word ->
     shell_dispatch (replicate n 32 ++ word ++ rest) = Run (func e) (skip_spaces rest)).
Proof.
  intros Hw Hs Hr. destruct shell_commands_names as [Hn Hd].
  destruct (find_command_exact word rest shell_commands Hw Hn Hd) as [F1 F2].
  unfold shell_dispatch. rewrite skip_spaces_replicate.
  split; [intros -> ->; done|].
  assert (Hne : word <> [] -> skip_spaces (word ++ rest) = word ++ rest).
  { destruct word as [|c word]; [done|]. intros _. apply Forall_cons in Hs as [Hc Hs]. cbn.
    by destruct (Z.eqb_spec c 32). }
  assert (Hlen : (length (word ++ rest) - length rest)%nat = length word) by (rewrite length_app; lia).
  split; intros H0; rewrite (Hne H0), (skip_word_app word rest Hs Hr), Hlen.
  - intros H1. rewrite F2 by done. rewrite take_app_length. by destruct word.
  - intros e He1 He2. rewrite (F1 e He1 He2). by destruct word.
Qed.

(** ** Witnesses *)

Lemma history_last_ten_witness :
  entries (shell_add_to_history (str "mem") shell_boot) = [str "mem"].
Proof.
  destruct (history_last_ten (str "mem") shell_boot shell_boot_ok) as (_ & H & _).
  - apply (bool_decide_unpack _). by vm_compute.
  - apply Nat.ltb_lt. by vm_compute.
  - rewrite H. by vm_compute.
Defined.

(** "mex", backspace, "m", Enter, and a key more, which waits. *)
Definition typed_keys : con kbd_bus :=
  Con (vga_boot (Mem (fun _ => 0) ∅)) (KbdBus [0x32; 0x12; 0x2D; 0x0E; 0x32; 0x1C; 0x1E]).

Lemma readline_edits_witness :
  exists s' m' k', shell_readline 9 shell_boot modifiers_boot typed_keys = Some (s', m', k') /\
    c_str (shell_buffer s') = str "mem" /\ entries s' = [str "mem"].
Proof.
  pose proof (readline_edits 9 shell_boot modifiers_boot typed_keys shell_boot_ok) as H.
  assert (E : edit [] (chars_read 9 (fresh_line shell_boot) modifiers_boot typed_keys) =
    Some (str "mem", str "mex" ++ [8] ++ str "m" ++ [10], [])) by by vm_compute.
  rewrite E in H. destruct H as (_ & s' & m' & k' & H1 & _ & H2 & _ & H3 & _).
  exists s', m', k'. split; [exact H1|]. split; [exact H2|]. rewrite H3. by vm_compute.
Defined.

Lemma shell_dispatch_words_witness :
  shell_dispatch (replicate 2 32 ++ str "echo" ++ str "  hi") = Run cmd_echo (str "hi").
Proof.
  refine (proj2 (proj2 (shell_dispatch_words 2 (str "echo") (str "  hi") _ _ _)) _
    (Cmd (str "echo") cmd_echo (str "Echo arguments to screen")) _ _).
  - apply (bool_decide_unpack _). by vm_compute.
  - apply (bool_decide_unpack _). by vm_compute.
  - done.
  - done.
  - unfold shell_commands. do 3 right. left.
  - done.
Defined.

End Shell.
