(* ===== verification/Interrupts.v ===== *)
(** * The timer, the IRQ dispatcher and the blocking reads
      ([pit.h], [pit.c], [irq_handler] of [isr.c], [kb_getchar_irq])

    [kst] is the state of the kernel these functions share.  Interrupts come
    from the environment: a list of [interrupt]s, of which [hlt] takes the next. *)

From S2P Require Import Prelude Ports Vga Frames Vmm Heap KHeap Isr Task Keyboard.
Import Vga Isr Task Keyboard.
Local Open Scope Z_scope.

Module Interrupts.

Definition PIT_CHANNEL0_DATA : Z := 0x40.
Definition PIT_COMMAND : Z := 0x43.
Definition PIT_BASE_FREQ : Z := 1193182.
Definition PIT_TARGET_FREQ : Z := 100.
Definition PIT_DIVISOR : Z := PIT_BASE_FREQ / PIT_TARGET_FREQ.

(** The static variables of [pit.c]. *)
Record pit_state := PitState { pit_ticks : Z; scheduler_enabled : bool }.
Definition pit_boot : pit_state := PitState 0 false.

Section kernel.
  Context {H D : Type} `{KernelHeap H D}.

Record kst := Kst {
  low : H;
  tk : tasks;
  irq : irqs;
  pit : pit_state;
  kb : kbuf;
  mods : modifiers
}.

Definition set_low (h : H) (k : kst) : kst := Kst h (tk k) (irq k) (pit k) (kb k) (mods k).
Definition set_tk (t : tasks) (k : kst) : kst := Kst (low k) t (irq k) (pit k) (kb k) (mods k).
Definition set_irq (i : irqs) (k : kst) : kst := Kst (low k) (tk k) i (pit k) (kb k) (mods k).
Definition set_pit (p : pit_state) (k : kst) : kst := Kst (low k) (tk k) (irq k) p (kb k) (mods k).
Definition set_kb (b : kbuf) (k : kst) : kst := Kst (low k) (tk k) (irq k) (pit k) b (mods k).
Definition set_mods (m : modifiers) (k : kst) : kst := Kst (low k) (tk k) (irq k) (pit k) (kb k) m.

(** An operation of the console, and one of the bus. *)
Definition kcons (f : con D -> con D) (k : kst) : kst := set_low (on_con f (low k)) k.
Definition the_bus (k : kst) : D := bus (km_con (low k)).
Definition kbus (f : D -> D) : kst -> kst := kcons (fun c => Con (scr c) (f (bus c))).

(** ** The timer *)

Definition pit_get_ticks (k : kst) : Z := pit_ticks (pit k).
Definition pit_get_uptime_seconds (k : kst) : Z := pit_ticks (pit k) / PIT_TARGET_FREQ.
Definition pit_enable_scheduler (k : kst) : kst := set_pit (PitState (pit_ticks (pit k)) true) k.

Definition pit_init (k : kst) : kst :=
  let k := set_irq (irq_install_handler 0 pit_handler (irq k)) k in
  let k := kbus (outb PIT_COMMAND 0x36) k in
  let divisor := u16 PIT_DIVISOR in
  let k := kbus (outb PIT_CHANNEL0_DATA (Z.land divisor 0xFF)) k in
  kbus (outb PIT_CHANNEL0_DATA (Z.land (Z.shiftr divisor 8) 0xFF)) k.

(** [pit_irq_handler]; [regs] is the address of the frame. *)
Definition pit_irq_handler (regs : Z) (k : kst) : kst :=
  let ticks := u64 (pit_ticks (pit k) + 1) in
  let k := set_pit (PitState ticks (scheduler_enabled (pit k))) k in
  if scheduler_enabled (pit k) && (ticks mod 10 =? 0) then
    let '(new_regs, ts) := task_switch ticks regs (tk k) in
    let k := set_tk ts k in
    if negb (new_regs =? regs) then set_irq (irq_set_new_stack new_regs (irq k)) k else k
  else k.

(** ** The dispatcher *)

(** The keyboard's handler, on the kernel's state. *)
Definition run_keyboard (k : kst) : kst :=
  let '(b, d) := keyboard_irq_handler (kb k, the_bus k) in
  set_kb b (kbus (fun _ => d) k).

Definition run_handler (h : irq_handler_t) (regs : Z) (k : kst) : kst :=
  match h with
  | pit_handler => pit_irq_handler regs k
  | keyboard_handler => run_keyboard k
  end.

(** The frame at an address. *)
Definition frame_at (regs : Z) (k : kst) : option registers_t := frames_at (tk k) !! regs.

(** [irq_handler], given the interrupt number of the frame: the frame to return to. *)
Definition irq_handler (regs n : Z) (k : kst) : Z * kst :=
  let irq_n := i32 (u64 (n - 32)) in
  let k := set_irq (irq_set_new_stack 0 (irq k)) k in
  let k := match handler_of irq_n (irq k) with
           | Some handler => run_handler handler regs k
           | None => k
           end in
  let k := if 8 <=? irq_n then kbus (outb Pic.PIC2_COMMAND Pic.PIC_EOI) k else k in
  let k := kbus (outb Pic.PIC1_COMMAND Pic.PIC_EOI) k in
  (if negb (new_task_regs (irq k) =? 0) then new_task_regs (irq k) else regs, k).

Definition keyboard_irq_init (k : kst) : kst :=
  let k := set_kb (KBuf (kb_buffer (kb k)) 0 0) k in
  let k := set_irq (irq_install_handler 1 keyboard_handler (irq k)) k in
  kbus (Pic.pic_clear_mask 1) k.

(** ** The environment *)

(** A hardware interrupt: its line, the frame the processor and the stub push
    and where, and what the device does before it raises the line. *)
Record interrupt := Interrupt {
  i_irq : Z; i_addr : Z; i_frame : registers_t; i_dev : D -> D
}.

Definition with_int_no (n : Z) (r : registers_t) : registers_t :=
  Registers (gs r) (fs r) (es r) (ds r) (r15 r) (r14 r) (r13 r) (r12 r) (r11 r) (r10 r) (r9 r)
    (r8 r) (rbp r) (rdi r) (rsi r) (rdx r) (rcx r) (rbx r) (rax r) n (err_code r) (rip r) (cs r)
    (rflags r) (rsp r) (ss r).

(** The interrupt is taken: stub, handler, return. *)
Definition deliver (i : interrupt) (k : kst) : kst :=
  let k := kbus (i_dev i) k in
  let k := set_tk (set_frame (i_addr i) (with_int_no (32 + i_irq i) (i_frame i)) (tk k)) k in
  snd (irq_handler (i_addr i) (32 + i_irq i) k).

(** [while (!kb_irq_has_scancode()) hlt]: [None] when no interrupt comes any more. *)
Fixpoint wait_scancode (env : list interrupt) (k : kst) : option (list interrupt * kst) :=
  if kb_irq_has_scancode (kb k) then Some (env, k)
  else match env with
       | [] => None
       | i :: env => wait_scancode env (deliver i k)
       end.

(** [kb_getchar_irq], for at most [fuel] scancodes. *)
Fixpoint kb_getchar_irq (fuel : nat) (env : list interrupt) (k : kst)
    : option (Z * (list interrupt * kst)) :=
  match fuel with
  | O => None
  | S fuel =>
      match wait_scancode env k with
      | None => None
      | Some (env, k) =>
          let '(scancode, b) := kb_irq_get_scancode (kb k) in
          let '(c, m) := kb_scancode_to_ascii scancode (mods k) in
          let k := set_mods m (set_kb b k) in
          if negb (c =? 0) then Some (c, (env, k)) else kb_getchar_irq fuel env k
      end
  end.

(** Every scancode is waiting or still to come. *)
Definition getchar_fuel (env : list interrupt) (k : kst) : nat := S (length (waiting (kb k)) + length env).

(** ** What an interrupt does *)

(** The handlers are installed and every part is consistent. *)
Record kernel_ok (k : kst) : Prop := {
  ko_low : km_inv (low k);
  ko_table : irqs_ok (irq k);
  ko_timer : handler_of 0 (irq k) = Some pit_handler;
  ko_keyboard : handler_of 1 (irq k) = Some keyboard_handler;
  ko_others n : 2 <= n < 16 -> handler_of n (irq k) = None;
  ko_kb : kbuf_ok (kb k)
}.

Lemma kbus_spec f k :
  km_inv (low k) -> km_inv (low (kbus f k)) /\ the_bus (kbus f k) = f (the_bus k).
Proof.
  intros Hk. unfold kbus, kcons, the_bus, on_con. cbn [low set_low].
  destruct (km_set_con_law (Con (scr (km_con (low k))) (f (bus (km_con (low k))))) (low k) Hk)
    as (H1 & _ & H2). by rewrite H2.
Qed.

(** The frame the timer's handler chooses, and whether it runs the scheduler. *)
Definition quantum_over (k : kst) : bool :=
  scheduler_enabled (pit k) && (u64 (pit_ticks (pit k) + 1) mod 10 =? 0).
Definition switch_now (regs : Z) (k : kst) : Z * tasks := task_switch (u64 (pit_ticks (pit k) + 1)) regs (tk k).

Lemma pit_irq_handler_spec regs k :
  low (pit_irq_handler regs k) = low k /\ kb (pit_irq_handler regs k) = kb k /\
  mods (pit_irq_handler regs k) = mods k /\
  pit (pit_irq_handler regs k) = PitState (u64 (pit_ticks (pit k) + 1)) (scheduler_enabled (pit k)) /\
  irq_handlers (irq (pit_irq_handler regs k)) = irq_handlers (irq k) /\
  tk (pit_irq_handler regs k) = (if quantum_over k then snd (switch_now regs k) else tk k) /\
  new_task_regs (irq (pit_irq_handler regs k)) =
    (if quantum_over k && negb (fst (switch_now regs k) =? regs)
     then fst (switch_now regs k) else new_task_regs (irq k)).
Proof.
  unfold pit_irq_handler, quantum_over, switch_now. cbn [pit set_pit pit_ticks scheduler_enabled tk].
  destruct (scheduler_enabled (pit k) && _); [|done].
  destruct (task_switch _ regs (tk k)) as [f ts]. cbn [fst snd andb]. by destruct (f =? regs).
Qed.

Lemma handler_of_same n s s' : irq_handlers s' = irq_handlers s -> handler_of n s' = handler_of n s.
Proof. intros E. unfold handler_of. by rewrite E. Qed.

(** The end-of-interrupt sequence. *)
Lemma eoi_spec n k :
  km_inv (low k) ->
  let k1 := if 8 <=? n then kbus (outb Pic.PIC2_COMMAND Pic.PIC_EOI) k else k in
  let k2 := kbus (outb Pic.PIC1_COMMAND Pic.PIC_EOI) k1 in
  km_inv (low k2) /\ the_bus k2 = Pic.pic_send_eoi n (the_bus k) /\
  tk k2 = tk k /\ irq k2 = irq k /\ pit k2 = pit k /\ kb k2 = kb k /\ mods k2 = mods k.
Proof.
  intros Hk. cbv zeta. unfold Pic.pic_send_eoi.
  destruct (kbus_spec (outb Pic.PIC2_COMMAND Pic.PIC_EOI) k Hk) as [A1 A2].
  destruct (8 <=? n).
  - destruct (kbus_spec (outb Pic.PIC1_COMMAND Pic.PIC_EOI) _ A1) as [B1 B2]. by rewrite B2, A2.
  - by destruct (kbus_spec (outb Pic.PIC1_COMMAND Pic.PIC_EOI) k Hk) as [B1 B2].
Qed.

Lemma kernel_ok_same k k' :
  kernel_ok k -> km_inv (low k') -> irq_handlers (irq k') = irq_handlers (irq k) -> kbuf_ok (kb k') ->
  kernel_ok k'.
Proof.
  intros [H1 H2 H3 H4 H5 H6] Hl E Hb. split; try done.
  - unfold irqs_ok. by rewrite E.
  - by rewrite (handler_of_same 0 _ _ E).
  - by rewrite (handler_of_same 1 _ _ E).
  - intros n Hn. rewrite (handler_of_same n _ _ E). by apply H5.
Qed.

Lemma run_keyboard_spec k :
  km_inv (low k) ->
  km_inv (low (run_keyboard k)) /\ kb (run_keyboard k) = kb_store (fst (inb KB_DATA_PORT (the_bus k))) (kb k) /\
  the_bus (run_keyboard k) = snd (inb KB_DATA_PORT (the_bus k)) /\ tk (run_keyboard k) = tk k /\
  irq (run_keyboard k) = irq k /\ pit (run_keyboard k) = pit k /\ mods (run_keyboard k) = mods k.
Proof.
  intros Hk. unfold run_keyboard, keyboard_irq_handler.
  destruct (inb KB_DATA_PORT (the_bus k)) as [s d]. cbn [fst snd].
  by destruct (kbus_spec (fun _ => d) k Hk) as [A1 A2].
Qed.

Lemma irq_handler_effect regs n k :
  kernel_ok k -> 0 <= n < 16 ->
  let '(f, k') := irq_handler regs (32 + n) k in
  kernel_ok k' /\ mods k' = mods k /\
  kb k' = (if n =? 1 then kb_store (fst (inb KB_DATA_PORT (the_bus k))) (kb k) else kb k) /\
  the_bus k' = Pic.pic_send_eoi n (if n =? 1 then snd (inb KB_DATA_PORT (the_bus k)) else the_bus k) /\
  pit k' = PitState (if n =? 0 then u64 (pit_ticks (pit k) + 1) else pit_ticks (pit k)) (scheduler_enabled (pit k)) /\
  tk k' = (if (n =? 0) && quantum_over k then snd (switch_now regs k) else tk k) /\
  f = (if (n =? 0) && quantum_over k && negb (fst (switch_now regs k) =? 0)
       then fst (switch_now regs k) else regs).
Proof.
  intros Hk Hn. unfold irq_handler.
  assert (Ei : i32 (u64 (32 + n - 32)) = n).
  { unfold i32, sint, u64. replace ((32 + n - 32) mod 2 ^ 64) with n by (rewrite Z.mod_small; lia).
    rewrite Z.mod_small by lia. destruct (Z.ltb_spec n (2 ^ (32 - 1))); lia. }
  rewrite Ei. set (k0 := set_irq (irq_set_new_stack 0 (irq k)) k).
  assert (Hh : handler_of n (irq k0) = handler_of n (irq k)) by done. rewrite Hh.
  assert (Hk0 : km_inv (low k0)) by apply Hk.
  assert (Hpit : PitState (pit_ticks (pit k)) (scheduler_enabled (pit k)) = pit k) by (by destruct (pit k)).
  assert (Hcase : n = 0 \/ n = 1 \/ 2 <= n < 16) by lia.
  destruct Hcase as [->|[->|Hn2]].
  - rewrite (ko_timer _ Hk). cbn [run_handler].
    destruct (pit_irq_handler_spec regs k0) as (P1 & P2 & P3 & P4 & P5 & P6 & P7).
    set (k1 := pit_irq_handler regs k0) in *.
    destruct (eoi_spec 0 k1) as (E1 & E2 & E3 & E4 & E5 & E6 & E7); [by rewrite P1|].
    cbv zeta in *. set (k2 := kbus _ _) in *.
    change (quantum_over k0) with (quantum_over k) in *. change (switch_now regs k0) with (switch_now regs k) in *.
    rewrite E4, P7. cbn [irq k0 set_irq irq_set_new_stack new_task_regs].
    split; [|rewrite E2, E3, E5, E6, E7, P2, P3, P4, P6; unfold the_bus; rewrite P1; repeat split].
    + apply (kernel_ok_same k); [done|done|by rewrite E4, P5|rewrite E6, P2; apply Hk].
    + cbn [Z.eqb andb]. destruct (quantum_over k); [|done]. cbn [andb].
      destruct (Z.eqb_spec (fst (switch_now regs k)) regs) as [->|]; cbn [negb Z.eqb].
      * by destruct (regs =? 0).
      * done.
  - rewrite (ko_keyboard _ Hk). cbn [run_handler].
    destruct (run_keyboard_spec k0 Hk0) as (P1 & P2 & P3 & P4 & P5 & P6 & P7).
    destruct (eoi_spec 1 _ P1) as (E1 & E2 & E3 & E4 & E5 & E6 & E7).
    cbv zeta in *. set (k2 := kbus _ _) in *.
    rewrite E2, E3, E4, E5, E6, E7, P2, P3, P4, P5, P6, P7. cbn [Z.eqb Pos.eqb andb negb irq k0 set_irq irq_set_new_stack new_task_regs].
    rewrite Hpit. split; [|by repeat split].
    apply (kernel_ok_same k); [done|done|by rewrite E4, P5|]. rewrite E6, P2. by apply kb_store_spec, Hk.
  - rewrite (ko_others _ Hk n Hn2).
    destruct (eoi_spec n k0 Hk0) as (E1 & E2 & E3 & E4 & E5 & E6 & E7).
    cbv zeta in *. set (k2 := kbus _ _) in *. rewrite E2, E3, E4, E5, E6, E7.
    destruct (Z.eqb_spec n 0), (Z.eqb_spec n 1); try lia.
    cbn [andb negb Z.eqb irq k0 set_irq irq_set_new_stack new_task_regs]. rewrite Hpit. split; [|by repeat split].
    apply (kernel_ok_same k); [done|done|by rewrite E4|rewrite E6; apply Hk].
Qed.

(** C31: [irq_handler] for every line: the line's handler alone runs (the timer's
    counts the tick and, when the quantum is over, switches tasks; the keyboard's
    queues the scancode), exactly one end-of-interrupt sequence is sent, to both
    chips for a slave line, and the frame returned is the interrupted one unless
    the scheduler chose another. *)
Theorem irq_handler_spec regs n k :
  kernel_ok k -> 0 <= n < 16 ->
  let '(f, k') := irq_handler regs (32 + n) k in
  kernel_ok k' /\ mods k' = mods k /\
  kb k' = (if n =? 1 then kb_store (fst (inb KB_DATA_PORT (the_bus k))) (kb k) else kb k) /\
  the_bus k' = Pic.pic_send_eoi n (if n =? 1 then snd (inb KB_DATA_PORT (the_bus k)) else the_bus k) /\
  pit k' = PitState (if n =? 0 then u64 (pit_ticks (pit k) + 1) else pit_ticks (pit k)) (scheduler_enabled (pit k)) /\
  tk k' = (if (n =? 0) && quantum_over k then snd (switch_now regs k) else tk k) /\
  f = (if (n =? 0) && quantum_over k && negb (fst (switch_now regs k) =? 0)
       then fst (switch_now regs k) else regs).
Proof. apply irq_handler_effect. Qed.

(** ** Reading characters *)

Lemma deliver_spec i k :
  kernel_ok k -> 0 <= i_irq i < 16 ->
  kernel_ok (deliver i k) /\ mods (deliver i k) = mods k /\
  kb (deliver i k) = (if i_irq i =? 1 then kb_store (fst (inb KB_DATA_PORT (i_dev i (the_bus k)))) (kb k)
                      else kb k).
Proof.
  intros Hk Hi. unfold deliver. cbv zeta. destruct (kbus_spec (i_dev i) k (ko_low _ Hk)) as [B1 B2].
  set (k1 := set_tk _ (kbus (i_dev i) k)).
  assert (Hk1 : kernel_ok k1) by (apply (kernel_ok_same k); [done|exact B1|done|apply Hk]).
  pose proof (irq_handler_effect (i_addr i) (i_irq i) k1 Hk1 Hi) as He.
  destruct (irq_handler (i_addr i) (32 + i_irq i) k1) as [f k']. cbn [snd].
  destruct He as (E1 & E2 & E3 & _). change (the_bus k1) with (the_bus (kbus (i_dev i) k)) in E3.
  by rewrite E2, E3, B2.
Qed.

(** What an interrupt brings: a scancode, or nothing for the keyboard. *)
Definition brings (i : interrupt) (so : option Z) : Prop :=
  match so with
  | Some s => i_irq i = 1 /\ forall d, fst (inb KB_DATA_PORT (i_dev i d)) = s
  | None => 0 <= i_irq i < 16 /\ i_irq i <> 1
  end.

Fixpoint somes (l : list (option Z)) : list Z :=
  match l with [] => [] | Some s :: l => s :: somes l | None :: l => somes l end.

Lemma wait_scancode_spec env sos k :
  kernel_ok k -> Forall2 brings env sos ->
  match wait_scancode env k with
  | None => waiting (kb k) ++ somes sos = []
  | Some (env', k') => exists sos', Forall2 brings env' sos' /\ kernel_ok k' /\ mods k' = mods k /\
      waiting (kb k') <> [] /\ waiting (kb k') ++ somes sos' = waiting (kb k) ++ somes sos /\
      (length env' + length (waiting (kb k')) <= length env + length (waiting (kb k)))%nat
  end.
Proof.
  intros Hk HF. revert k Hk. induction HF as [|i so env sos Hi HF IH]; intros k Hk; cbn [wait_scancode].
  all: destruct (kb_get_spec (kb k) (ko_kb _ Hk)) as (_ & -> & _); case_bool_decide as Ew; cbn [negb].
  - by rewrite Ew.
  - exists []. split; [constructor|]. split; [done|]. by split_and!.
  - assert (Hir : 0 <= i_irq i < 16) by (destruct so; simpl in Hi; lia).
    destruct (deliver_spec i k Hk Hir) as (D1 & D2 & D3).
    assert (Hw : waiting (kb (deliver i k)) = somes [so]).
    { rewrite D3. destruct so as [s|]; cbn [brings] in Hi.
      - destruct Hi as [-> Hs]. cbn [Z.eqb Pos.eqb]. rewrite Hs.
        destruct (kb_store_spec (kb k) s (ko_kb _ Hk)) as [_ ->]. by rewrite Ew.
      - destruct (Z.eqb_spec (i_irq i) 1); [lia|exact Ew]. }
    specialize (IH (deliver i k) D1). destruct (wait_scancode env (deliver i k)) as [[env' k']|].
    + destruct IH as (sos' & I1 & I2 & I3 & I4 & I5 & I6). exists sos'.
      split; [done|]. split; [done|]. split; [congruence|]. split; [done|].
      rewrite I5, Hw, Ew. split; [by destruct so|]. rewrite Hw in I6. destruct so; simpl in *; lia.
    + rewrite Hw in IH. rewrite Ew. by destruct so.
  - exists (so :: sos). split; [by constructor|]. split; [done|]. by split_and!.
Qed.

(** C32: [kb_getchar_irq] is a reader of the decoded key stream: whatever
    interrupts arrive and in whatever order, successive calls return the
    characters of the scancodes waiting and arriving, in order, none lost or
    duplicated; a call blocks only if no further character comes. *)
Theorem kb_getchar_irq_stream env sos k :
  kernel_ok k -> Forall2 brings env sos ->
  match fst (decode (waiting (kb k) ++ somes sos) (mods k)) with
  | [] => kb_getchar_irq (getchar_fuel env k) env k = None
  | c :: cs => exists env' sos' k',
      kb_getchar_irq (getchar_fuel env k) env k = Some (c, (env', k')) /\
      kernel_ok k' /\ Forall2 brings env' sos' /\
      fst (decode (waiting (kb k') ++ somes sos') (mods k')) = cs
  end.
Proof.
  unfold getchar_fuel. intros Hk HF.
  assert (Hfuel : (length (waiting (kb k)) + length env < S (length (waiting (kb k)) + length env))%nat) by lia.
  revert Hfuel. generalize (S (length (waiting (kb k)) + length env)) as fuel. intros fuel.
  revert env sos k Hk HF. induction fuel as [|fuel IH]; intros env sos k Hk HF Hfuel; [lia|].
  cbn [kb_getchar_irq]. pose proof (wait_scancode_spec env sos k Hk HF) as Hw.
  destruct (wait_scancode env k) as [[env1 k1]|]; [|by rewrite Hw].
  destruct Hw as (sos1 & F1 & K1 & M1 & W1 & E1 & L1). rewrite <- E1, <- M1.
  destruct (kb_get_spec (kb k1) (ko_kb _ K1)) as (G1 & _ & G3 & G4).
  destruct (kb_irq_get_scancode (kb k1)) as [s b]. cbn [fst snd] in *.
  destruct (waiting (kb k1)) as [|s' w]; [done|]. cbn [hd tl] in G3, G4. subst s'.
  cbn [app decode]. destruct (kb_scancode_to_ascii s (mods k1)) as [c m].
  set (k2 := set_mods m (set_kb b k1)).
  assert (K2 : kernel_ok k2) by (apply (kernel_ok_same k1); [done|apply K1|done|exact G1]).
  assert (W2 : waiting (kb k2) = w) by exact G4.
  destruct (decode (w ++ somes sos1) m) as [cs m'] eqn:Ed.
  destruct (Z.eqb_spec c 0) as [->|Hc]; cbn [negb].
  - specialize (IH env1 sos1 k2 K2 F1). rewrite W2 in IH. change (mods k2) with m in IH. rewrite Ed in IH.
    apply IH. cbn [length] in L1. lia.
  - exists env1, sos1, k2. split; [done|]. split; [done|]. split; [done|].
    rewrite W2. change (mods k2) with m. by rewrite Ed.
Qed.

End kernel.

(** ** Witnesses *)
Import Ports.Pic Ports.SimBus.
Import Frames.BumpFrames.

(** A machine with the simulated bus: the handlers installed, interrupts unmasked. *)
Definition bus_con (d : sim_bus) : con sim_bus := Con (vga_boot (Mem (fun _ => 0) ∅)) d.
Definition heap_on (d : sim_bus) : Heap.heap (A := bump) (D := sim_bus) :=
  Heap.Heap (Vmm.Vm (Bump 16 32, Mem (fun _ => 0) ∅) 0x1000 0x1000 (bus_con d) []) Heap.HEAP_START 0.
Definition kst0 : kst :=
  keyboard_irq_init (D := sim_bus) (pit_init (D := sim_bus)
    (Kst (heap_on bios_bus) (demo TASK_STATE_READY) irqs_boot (PitState 9 true) kbuf_boot modifiers_boot)).

Lemma kst0_ok : kernel_ok (D := sim_bus) kst0.
Proof.
  split; [by vm_compute|by vm_compute|by vm_compute|by vm_compute| |by vm_compute].
  intros n Hn. assert (Hall : forallb (fun n => match handler_of n (irq kst0) with None => true | _ => false end)
    (seqZ 2 14) = true) by by vm_compute.
  rewrite forallb_forall in Hall. specialize (Hall n).
  destruct (handler_of n (irq kst0)); [|done]. discriminate Hall. apply list_elem_of_In, elem_of_seqZ. lia.
Qed.

(** The tenth tick switches to the worker. *)
Lemma irq_handler_spec_witness : fst (irq_handler (D := sim_bus) 0x77 32 kst0) = 0x30.
Proof.
  pose proof (irq_handler_spec (D := sim_bus) 0x77 0 kst0 kst0_ok ltac:(lia)) as H.
  change (32 + 0) with 32 in H. destruct (irq_handler (D := sim_bus) 0x77 32 kst0) as [f k'].
  destruct H as (_ & _ & _ & _ & _ & _ & H). cbn [fst]. rewrite H. by vm_compute.
Defined.

(** A key press: the controller answers the next read with the scancode. *)
Definition press (s : Z) : interrupt :=
  Interrupt 1 0x5000 (initial_frame 0 0x5000)
    (fun d => SimBus (sim_master d) (sim_slave d) (sim_log d) (s :: sim_script d)).
Definition tick : interrupt := Interrupt 0 0x5000 (initial_frame 0 0x5000) (fun d : sim_bus => d).

Lemma kb_getchar_irq_stream_witness :
  exists env' k', kb_getchar_irq (D := sim_bus) (getchar_fuel [tick; press 0x2A; press 0x1E; tick; press 0x30] kst0)
    [tick; press 0x2A; press 0x1E; tick; press 0x30] kst0 = Some (65, (env', k')).
Proof.
  pose proof (kb_getchar_irq_stream (D := sim_bus) [tick; press 0x2A; press 0x1E; tick; press 0x30]
    [None; Some 0x2A; Some 0x1E; None; Some 0x30] kst0 kst0_ok) as H.
  assert (HF : Forall2 brings [tick; press 0x2A; press 0x1E; tick; press 0x30]
    [None; Some 0x2A; Some 0x1E; None; Some 0x30]).
  { repeat constructor; simpl; done || lia. }
  specialize (H HF).
  assert (E : fst (decode (waiting (kb kst0) ++ somes [None; Some 0x2A; Some 0x1E; None; Some 0x30]) (mods kst0))
    = [65; 66]) by by vm_compute.
  rewrite E in H. destruct H as (env' & sos' & k' & H & _). by exists env', k'.
Defined.

End Interrupts.
