(* ===== verification/Desc.v ===== *)
(** * The descriptor tables ([gdt.c], [idt.c], [tss.c])

    The tables are bytes of memory at the addresses the linker gives them; the
    registers the privileged instructions load are the record [cpu].  What the
    processor reads back from the tables ([gate_at], [seg_at], [ist_stack]) follows
    the layouts of the processor's manual, which the comments of the sources cite. *)

From S2P Require Import Prelude CString.
Import CString.
Local Open Scope Z_scope.

Module Desc.

(** The registers: table registers, task register, segment registers, and the
    model-specific registers by number. *)
Record cpu := Cpu {
  gdtr : Z * Z; idtr : Z * Z; tr : Z;
  seg_cs : Z; seg_ds : Z; seg_es : Z; seg_ss : Z;
  msrs : gmap Z Z
}.

(** The addresses of the static objects. *)
Record layout := Layout { gdt : Z; gdt_ptr : Z; idt : Z; idtp : Z; tss : Z }.

Definition GDT_KERNEL_CODE : Z := 0x08.
Definition GDT_KERNEL_DATA : Z := 0x10.
Definition GDT_USER_DATA : Z := 0x18.
Definition GDT_USER_CODE : Z := 0x20.
Definition GDT_TSS : Z := 0x28.
Definition IDT_TYPE_INTERRUPT : Z := 0x8E.
Definition IDT_ENTRIES : Z := 256.
Definition sizeof_idt_entry_t : Z := 16.
Definition sizeof_tss_t : Z := 104.

(** Offsets in the packed [tss_t]. *)
Definition off_rsp0 : Z := 4.
Definition off_ist1 : Z := 36.
Definition off_io_map_base : Z := 102.

Section tables.
  Context (l : layout).

(** ** The task state segment *)

Definition tss_init (df_stack df_stack_size : Z) (m : mem) : mem :=
  let m := memset (tss l) 0 (Z.to_nat sizeof_tss_t) m in
  let m := st64 m (tss l + off_ist1) (u64 (df_stack + df_stack_size)) in
  st 2 m (tss l + off_io_map_base) sizeof_tss_t.

Definition tss_set_kernel_stack (stack_top : Z) (m : mem) : mem := st64 m (tss l + off_rsp0) stack_top.

(** ** The global descriptor table *)

(** [lgdt] and [lidt] with the operand at [p]. *)
Definition table_operand (p : Z) (m : mem) : Z * Z := (ld16 m p, ld64 m (p + 2)).
Definition lgdt (p : Z) (m : mem) (c : cpu) : cpu :=
  Cpu (table_operand p m) (idtr c) (tr c) (seg_cs c) (seg_ds c) (seg_es c) (seg_ss c) (msrs c).
Definition lidt (p : Z) (m : mem) (c : cpu) : cpu :=
  Cpu (gdtr c) (table_operand p m) (tr c) (seg_cs c) (seg_ds c) (seg_es c) (seg_ss c) (msrs c).

(** Reloading the segment registers: [mov] for data, a far return for code. *)
Definition load_segments (code data : Z) (c : cpu) : cpu :=
  Cpu (gdtr c) (idtr c) (tr c) code data data data (msrs c).

(** [ltr] marks the descriptor it loads as busy. *)
Definition ltr (sel : Z) (s : mem * cpu) : mem * cpu :=
  let '(m, c) := s in
  let a := snd (gdtr c) + 8 * (sel / 8) in
  (wr m (a + 5) (Z.lor (rd m (a + 5)) 2),
   Cpu (gdtr c) (idtr c) sel (seg_cs c) (seg_ds c) (seg_es c) (seg_ss c) (msrs c)).

(** The two quadwords of the descriptor of the task state segment. *)
Definition tss_desc_low (tss_base tss_size : Z) : Z :=
  Z.lor (Z.lor (Z.lor (u64 (tss_size - 1)) (u64 (Z.shiftl (Z.land tss_base 0xFFFFFF) 16)))
    (u64 (Z.shiftl 0x89 40))) (u64 (Z.shiftl (Z.land tss_base 0xFF000000) 32)).
Definition tss_desc_high (tss_base : Z) : Z := Z.shiftr tss_base 32.

Definition set_gdt (i v : Z) (m : mem) : mem := st64 m (gdt l + 8 * i) v.

Definition gdt_init (tss_ptr tss_size : Z) (s : mem * cpu) : mem * cpu :=
  let '(m, c) := s in
  let m := memset (gdt l) 0 128 m in
  let m := set_gdt 0 0 m in
  let m := set_gdt 1 0x00af9a000000ffff m in
  let m := set_gdt 2 0x00af92000000ffff m in
  let m := set_gdt 3 0x00aff2000000ffff m in
  let m := set_gdt 4 0x00affa000000ffff m in
  let m := set_gdt 5 (tss_desc_low tss_ptr tss_size) m in
  let m := set_gdt 6 (tss_desc_high tss_ptr) m in
  let m := st 2 m (gdt_ptr l) (8 * 7 - 1) in
  let m := st64 m (gdt_ptr l + 2) (gdt l) in
  let c := lgdt (gdt_ptr l) m c in
  ltr 0x28 (m, load_segments 0x08 0x10 c).

(** ** The interrupt descriptor table *)

Definition idt_set_gate_ist (num handler selector flags ist : Z) (m : mem) : mem :=
  let e := idt l + sizeof_idt_entry_t * u8 num in
  let m := st 2 m e (u16 (Z.land handler 0xFFFF)) in
  let m := st 2 m (e + 6) (u16 (Z.land (Z.shiftr handler 16) 0xFFFF)) in
  let m := st 4 m (e + 8) (u32 (Z.land (Z.shiftr handler 32) 0xFFFFFFFF)) in
  let m := st 2 m (e + 2) selector in
  let m := st 1 m (e + 4) ist in
  let m := st 1 m (e + 5) flags in
  st 4 m (e + 12) 0.

Definition idt_set_gate (num handler selector flags : Z) (m : mem) : mem :=
  idt_set_gate_ist num handler selector flags 0 m.

(** [idt_init], with the addresses of the stubs [isr0] to [isr31] and [irq0] to [irq15]. *)
Definition idt_init (isr irq : Z -> Z) (s : mem * cpu) : mem * cpu :=
  let '(m, c) := s in
  let m := st 2 m (idtp l) (sizeof_idt_entry_t * IDT_ENTRIES - 1) in
  let m := st64 m (idtp l + 2) (idt l) in
  let m := memset (idt l) 0 (Z.to_nat (sizeof_idt_entry_t * IDT_ENTRIES)) m in
  let m := for_range 0 8 (fun i => idt_set_gate i (isr i) 0x08 IDT_TYPE_INTERRUPT) m in
  let m := idt_set_gate_ist 8 (isr 8) 0x08 IDT_TYPE_INTERRUPT 1 m in
  let m := for_range 9 32 (fun i => idt_set_gate i (isr i) 0x08 IDT_TYPE_INTERRUPT) m in
  let m := for_range 32 48 (fun i => idt_set_gate i (irq (i - 32)) 0x08 IDT_TYPE_INTERRUPT) m in
  (m, lidt (idtp l) m c).

End tables.

(** ** What the processor reads *)

(** A gate of the interrupt descriptor table (16 bytes). *)
Record gate := Gate { g_offset : Z; g_selector : Z; g_ist : Z; g_type : Z; g_reserved : Z }.
Definition gate_at (m : mem) (a : Z) : gate :=
  Gate (ld16 m a + 2 ^ 16 * ld16 m (a + 6) + 2 ^ 32 * ld32 m (a + 8))
    (ld16 m (a + 2)) (rd m (a + 4)) (rd m (a + 5)) (ld32 m (a + 12)).

(** A segment descriptor: base, limit, access byte (present, privilege, type)
    and flags (granularity, default size, long mode). *)
Record seg := Seg { s_base : Z; s_limit : Z; s_access : Z; s_flags : Z }.
Definition seg_at (m : mem) (a : Z) : seg :=
  Seg (ld16 m (a + 2) + 2 ^ 16 * rd m (a + 4) + 2 ^ 24 * rd m (a + 7))
    (ld16 m a + 2 ^ 16 * (rd m (a + 6) mod 16)) (rd m (a + 5)) (rd m (a + 6) / 16).

(** The descriptor of a selector, which is within the limit of the table. *)
Definition lookup_seg (sel : Z) (m : mem) (c : cpu) : option seg :=
  let i := sel / 8 in
  if (0 <? i) && (8 * i + 7 <=? fst (gdtr c)) then Some (seg_at m (snd (gdtr c) + 8 * i)) else None.

(** The base of the task state segment: its descriptor has 16 bytes. *)
Definition tss_base_of (m : mem) (c : cpu) : Z :=
  let a := snd (gdtr c) + 8 * (tr c / 8) in s_base (seg_at m a) + 2 ^ 32 * ld32 m (a + 8).

(** Delivery of vector [v] in kernel mode: the code segment, the handler and the
    stack the processor switches to, [None] for the current one. *)
Definition deliver_to (v : Z) (m : mem) (c : cpu) : option (seg * Z * option Z) :=
  if 16 * v + 15 <=? fst (idtr c) then
    let g := gate_at m (snd (idtr c) + 16 * v) in
    if g_type g =? 0x8E then
      match lookup_seg (g_selector g) m c with
      | Some s => Some (s, g_offset g,
          if g_ist g =? 0 then None
          else Some (ld64 m (tss_base_of m c + off_ist1 + 8 * (g_ist g - 1))))
      | None => None
      end
    else None
  else None.

(** ** Gates in memory *)

Lemma memset_only_in d v n m : only_in d (d + Z.of_nat n) m (memset d v n m).
Proof. intros x Hx. rewrite memset_bytes. by rewrite decide_False by lia. Qed.

(** Peel the stores a load does not meet, then read the one it meets. *)
Ltac peel := repeat first [rewrite ld_st_ne by lia | rewrite ld_st_low by lia].

(** ** The interrupt descriptor table, gate by gate *)
Section idt.
  Context (l : layout).

Lemma gate_outside lo hi m m' a :
  only_in lo hi m m' -> a + 16 <= lo \/ hi <= a -> gate_at m' a = gate_at m a.
Proof.
  intros H Ha. unfold gate_at, ld16, ld32. rewrite !rd_ld1.
  by rewrite !(ld_outside _ _ _ _ _ _ H) by lia.
Qed.

Lemma set_gate_only_in num h sel fl ist m :
  0 <= num < 256 ->
  only_in (idt l + 16 * num) (idt l + 16 * num + 16) m (idt_set_gate_ist l num h sel fl ist m).
Proof.
  intros Hn. unfold idt_set_gate_ist, sizeof_idt_entry_t. rewrite u8_small by lia. cbv zeta.
  intros x Hx. do 7 (rewrite (st_only_in _ _ _ _ x) by lia). done.
Qed.

Lemma set_gate_gate num h sel fl ist m :
  0 <= num < 256 -> 0 <= h < 2 ^ 64 -> 0 <= sel < 2 ^ 16 -> 0 <= fl < 2 ^ 8 -> 0 <= ist < 2 ^ 8 ->
  gate_at (idt_set_gate_ist l num h sel fl ist m) (idt l + 16 * num) = Gate h sel ist fl 0.
Proof.
  intros Hn Hh Hs Hf Hi. unfold idt_set_gate_ist, sizeof_idt_entry_t. rewrite u8_small by lia. cbv zeta.
  unfold gate_at, ld16, ld32. rewrite !rd_ld1. peel.
  change (8 * Z.of_nat 2) with 16. change (8 * Z.of_nat 4) with 32. change (8 * Z.of_nat 1) with 8.
  unfold u16, u32. rewrite !Z.shiftr_div_pow2 by lia.
  change 0xFFFF with (2 ^ 16 - 1). change 0xFFFFFFFF with (2 ^ 32 - 1).
  rewrite !land_ones_mod, !Z.mod_mod by lia.
  rewrite (Z.mod_small sel), (Z.mod_small fl), (Z.mod_small ist) by lia.
  f_equal. clear - Hh. dlia.
Qed.

(** The gates from [lo] to [hi] lead to the handlers [h] on stack entry [ist]. *)
Definition gates_from (lo hi : Z) (h : Z -> Z) (m0 m : mem) : Prop :=
  (forall v, lo <= v < hi -> gate_at m (idt l + 16 * v) = Gate (h v) 8 0 0x8E 0) /\
  only_in (idt l + 16 * lo) (idt l + 16 * hi) m0 m.

Lemma gates_loop lo hi h m :
  0 <= lo <= hi -> hi <= 256 -> (forall v, lo <= v < hi -> 0 <= h v < 2 ^ 64) ->
  gates_from lo hi h m (for_range lo hi (fun i => idt_set_gate l i (h i) 0x08 IDT_TYPE_INTERRUPT) m).
Proof.
  intros Hlo Hhi Hh. apply (for_range_inv (fun i => gates_from lo i h m)); [lia| |].
  { split; [lia|apply only_in_refl]. }
  intros i m' Hi [G1 G2]. pose proof (set_gate_only_in i (h i) 8 IDT_TYPE_INTERRUPT 0 m' ltac:(lia)) as Ho.
  unfold idt_set_gate. split.
  - intros v Hv. destruct (decide (v = i)) as [->|Hne].
    + unfold IDT_TYPE_INTERRUPT. apply set_gate_gate; try lia. apply Hh. lia.
    + rewrite (gate_outside _ _ _ _ _ Ho) by lia. apply G1. lia.
  - eapply only_in_trans; [eapply only_in_weaken; [| |exact G2]; lia|].
    eapply only_in_weaken; [| |exact Ho]; lia.
Qed.

End idt.

(** Where the linker puts the tables: apart from each other. *)
Definition apart (a n b k : Z) : Prop := a + n <= b \/ b + k <= a.

Record placed (l : layout) : Prop := {
  pl_gdt_ptr : apart (gdt l) 128 (gdt_ptr l) 10;
  pl_gdt_tss : apart (gdt l) 128 (tss l) 104;
  pl_ptr_tss : apart (gdt_ptr l) 10 (tss l) 104;
  pl_idt_idtp : apart (idt l) 4096 (idtp l) 10;
  pl_idt_gdt : apart (idt l) 4096 (gdt l) 128;
  pl_idt_tss : apart (idt l) 4096 (tss l) 104;
  pl_idtp_gdt : apart (idtp l) 10 (gdt l) 128;
  pl_idtp_tss : apart (idtp l) 10 (tss l) 104;
  pl_tss : 0 <= tss l < 2 ^ 64;
  pl_gdt : 0 <= gdt l < 2 ^ 64;
  pl_idt : 0 <= idt l < 2 ^ 64
}.

(** The handler of each vector that has one. *)
Definition stub (isr irq : Z -> Z) (v : Z) : Z := if v <? 32 then isr v else irq (v - 32).

(** The gates [idt_init] sets, in a table that was cleared. *)
Definition set_gates (l : layout) (isr irq : Z -> Z) (m : mem) : mem :=
  let m := for_range 0 8 (fun i => idt_set_gate l i (isr i) 0x08 IDT_TYPE_INTERRUPT) m in
  let m := idt_set_gate_ist l 8 (isr 8) 0x08 IDT_TYPE_INTERRUPT 1 m in
  let m := for_range 9 32 (fun i => idt_set_gate l i (isr i) 0x08 IDT_TYPE_INTERRUPT) m in
  for_range 32 48 (fun i => idt_set_gate l i (irq (i - 32)) 0x08 IDT_TYPE_INTERRUPT) m.

Lemma set_gates_spec l isr irq m :
  (forall v, 0 <= v < 48 -> 0 <= stub isr irq v < 2 ^ 64) ->
  only_in (idt l) (idt l + 768) m (set_gates l isr irq m) /\
  forall v, 0 <= v < 48 -> gate_at (set_gates l isr irq m) (idt l + 16 * v) =
    Gate (stub isr irq v) 8 (if v =? 8 then 1 else 0) 0x8E 0.
Proof.
  intros Hh. unfold set_gates. cbv zeta. pose proof (fun v H => Hh v H) as Hs. unfold stub in Hs.
  pose proof (gates_loop l 0 8 isr m ltac:(lia) ltac:(lia)) as G1.
  set (m4 := for_range 0 8 _ m) in *. destruct G1 as [G1 O4].
  { intros v Hv. specialize (Hs v ltac:(lia)). by destruct (Z.ltb_spec v 32); [|lia]. }
  pose proof (set_gate_only_in l 8 (isr 8) 0x08 IDT_TYPE_INTERRUPT 1 m4 ltac:(lia)) as O5.
  pose proof (set_gate_gate l 8 (isr 8) 0x08 IDT_TYPE_INTERRUPT 1 m4 ltac:(lia) (Hh 8 ltac:(lia))
    ltac:(lia) ltac:(by vm_compute) ltac:(lia)) as G5.
  set (m5 := idt_set_gate_ist l 8 _ _ _ _ m4) in *.
  pose proof (gates_loop l 9 32 isr m5 ltac:(lia) ltac:(lia)) as G6.
  set (m6 := for_range 9 32 _ m5) in *. destruct G6 as [G6 O6].
  { intros v Hv. specialize (Hs v ltac:(lia)). by destruct (Z.ltb_spec v 32); [|lia]. }
  pose proof (gates_loop l 32 48 (fun i => irq (i - 32)) m6 ltac:(lia) ltac:(lia)) as G7.
  set (m7 := for_range 32 48 _ m6) in *. destruct G7 as [G7 O7].
  { intros v Hv. specialize (Hs v ltac:(lia)). by destruct (Z.ltb_spec v 32); [lia|]. }
  clearbody m4 m5 m6 m7. split.
  - intros x Hx. rewrite (O7 x), (O6 x), (O5 x), (O4 x) by lia. done.
  - intros v Hv. unfold stub. destruct (Z.ltb_spec v 32), (Z.eqb_spec v 8); try lia.
    + subst v. by rewrite (gate_outside _ _ _ _ _ O7), (gate_outside _ _ _ _ _ O6) by lia.
    + rewrite (gate_outside _ _ _ _ _ O7) by lia. destruct (Z.lt_ge_cases v 8); [|apply G6; lia].
      rewrite (gate_outside _ _ _ _ _ O6), (gate_outside _ _ _ _ _ O5) by lia. apply G1. lia.
    + apply G7. lia.
Qed.

Lemma gate_zero m a : (forall x, a <= x < a + 16 -> rd m x = 0) -> gate_at m a = Gate 0 0 0 0 0.
Proof.
  intros Hz. unfold gate_at, ld16, ld32. rewrite !rd_ld1.
  by rewrite !ld_zero by (intros x Hx; apply Hz; lia).
Qed.

Lemma idt_init_effect l isr irq m c :
  apart (idt l) 4096 (idtp l) 10 -> 0 <= idt l < 2 ^ 64 ->
  (forall v, 0 <= v < 48 -> 0 <= stub isr irq v < 2 ^ 64) ->
  let '(m', c') := idt_init l isr irq (m, c) in
  c' = Cpu (gdtr c) (4095, idt l) (tr c) (seg_cs c) (seg_ds c) (seg_es c) (seg_ss c) (msrs c) /\
  (forall v, 0 <= v < 256 -> gate_at m' (idt l + 16 * v) =
     if v <? 48 then Gate (stub isr irq v) 8 (if v =? 8 then 1 else 0) 0x8E 0 else Gate 0 0 0 0 0) /\
  agree_on (fun x => (x < idt l \/ idt l + 4096 <= x) /\ (x < idtp l \/ idtp l + 10 <= x)) m m'.
Proof.
  intros Hp Hi Hh. unfold apart in Hp. unfold idt_init, sizeof_idt_entry_t, IDT_ENTRIES. cbv zeta.
  change (16 * 256) with 4096. change (4096 - 1) with 4095.
  set (m1 := st 2 m (idtp l) 4095). set (m2 := st64 m1 (idtp l + 2) (idt l)).
  assert (O2 : only_in (idtp l) (idtp l + 10) m m2).
  { intros x Hx. unfold m2, m1. rewrite (st64_only_in _ _ _ x), (st_only_in 2 _ _ _ x) by lia. done. }
  assert (L2 : ld16 m2 (idtp l) = 4095 /\ ld64 m2 (idtp l + 2) = idt l).
  { unfold m2, m1, ld16, ld64, st64. peel. split; [done|]. by apply Z.mod_small. }
  set (m3 := memset (idt l) 0 (Z.to_nat 4096) m2).
  assert (O3 : only_in (idt l) (idt l + 4096) m2 m3).
  { eapply only_in_weaken; [| |apply memset_only_in]; lia. }
  destruct (set_gates_spec l isr irq m3 Hh) as [O7 G7]. unfold set_gates in *. cbv zeta in *.
  set (m7 := for_range 32 48 _ _) in *. clearbody m7. split; [|split].
  - unfold lidt, table_operand. f_equal. unfold ld16, ld64 in *.
    rewrite !(ld_outside _ _ _ _ _ _ O7), !(ld_outside _ _ _ _ _ _ O3) by lia. f_equal; apply L2.
  - intros v Hv. destruct (Z.ltb_spec v 48); [apply G7; lia|].
    rewrite (gate_outside _ _ _ _ _ O7) by lia. apply gate_zero.
    intros x Hx. unfold m3. rewrite memset_bytes. by rewrite decide_True by lia.
  - intros x [Hx1 Hx2]. rewrite (O7 x), (O3 x), (O2 x) by lia. done.
Qed.

Lemma gdt_desc_tss base size :
  0 <= base < 2 ^ 64 -> 0 < size <= 2 ^ 16 ->
  tss_desc_low base size =
  (size - 1) + 2 ^ 16 * (base mod 2 ^ 24) + 2 ^ 40 * 0x89 + 2 ^ 56 * (base / 2 ^ 24 mod 2 ^ 8).
Proof.
  intros Hb Hs. unfold tss_desc_low, u64. rewrite !Z.shiftl_mul_pow2 by lia.
  change 0xFFFFFF with (2 ^ 24 - 1). rewrite land_ones_mod by lia.
  assert (E : Z.land base 0xFF000000 = 2 ^ 24 * (base / 2 ^ 24 mod 2 ^ 8)).
  { rewrite Z.mul_comm, <- Z.shiftl_mul_pow2, <- Z.shiftr_div_pow2, <- land_ones_mod by lia.
    change 0xFF000000 with (Z.shiftl (2 ^ 8 - 1) 24). zbit n Hn. destruct (Z.lt_ge_cases n 24).
    - by rewrite !(Z.testbit_neg_r _ (n - 24)), andb_false_r by lia.
    - rewrite Z.shiftr_spec by lia. by replace (n - 24 + 24) with n by lia. }
  rewrite E. rewrite (Z.mod_small (size - 1)) by lia.
  assert (R1 : 0 <= base mod 2 ^ 24 < 2 ^ 24) by (apply Z.mod_pos_bound; lia).
  assert (R2 : 0 <= base / 2 ^ 24 mod 2 ^ 8 < 2 ^ 8) by (apply Z.mod_pos_bound; lia).
  set (p := base mod 2 ^ 24) in *. set (q := base / 2 ^ 24 mod 2 ^ 8) in *. clearbody p q. clear E Hb.
  rewrite !Z.mod_small by lia.
  rewrite (Z.lor_comm (size - 1)), (lor_add_disjoint 16 (p * 2 ^ 16) (size - 1)) by (rewrite ?Z.mod_mul; lia).
  rewrite (Z.lor_comm _ (137 * 2 ^ 40)), (lor_add_disjoint 40 (137 * 2 ^ 40)) by (rewrite ?Z.mod_mul; lia).
  replace (2 ^ 24 * q * 2 ^ 32) with (q * 2 ^ 56) by lia.
  rewrite Z.lor_comm, (lor_add_disjoint 56 (q * 2 ^ 56)) by (rewrite ?Z.mod_mul; lia). lia.
Qed.

(** ** The global descriptor table, descriptor by descriptor *)

(** The descriptor whose quadword is [v]. *)
Definition seg_of_word (v : Z) : seg :=
  Seg (v / 2 ^ 16 mod 2 ^ 16 + 2 ^ 16 * (v / 2 ^ 32 mod 2 ^ 8) + 2 ^ 24 * (v / 2 ^ 56 mod 2 ^ 8))
    (v mod 2 ^ 16 + 2 ^ 16 * ((v / 2 ^ 48 mod 2 ^ 8) mod 16)) (v / 2 ^ 40 mod 2 ^ 8)
    (v / 2 ^ 48 mod 2 ^ 8 / 16).

Lemma seg_at_st64 m a v : seg_at (st64 m a v) a = seg_of_word v.
Proof.
  unfold seg_at, st64, ld16. rewrite !rd_ld1.
  by rewrite !ld_st_at, ld_st_low by lia.
Qed.

Lemma seg_outside lo hi m m' a :
  only_in lo hi m m' -> a + 8 <= lo \/ hi <= a -> seg_at m' a = seg_at m a.
Proof.
  intros H Ha. unfold seg_at, ld16. rewrite !rd_ld1. by rewrite !(ld_outside _ _ _ _ _ _ H) by lia.
Qed.

(** The busy bit is in the access byte. *)
Lemma seg_busy m a :
  seg_at (wr m (a + 5) (Z.lor (rd m (a + 5)) 2)) a =
  Seg (s_base (seg_at m a)) (s_limit (seg_at m a)) (u8 (Z.lor (s_access (seg_at m a)) 2))
    (s_flags (seg_at m a)).
Proof.
  unfold seg_at. cbn [s_base s_limit s_access s_flags].
  rewrite rd_wr_eq, !rd_wr_ne by lia. unfold ld16.
  pose proof (only_in_wr (a + 5) (a + 6) m (a + 5) (Z.lor (rd m (a + 5)) 2) ltac:(lia)) as W.
  by rewrite (ld_outside 2 _ _ _ _ (a + 2) W), (ld_outside 2 _ _ _ _ a W) by lia.
Qed.

Lemma seg_of_tss base size :
  0 <= base < 2 ^ 64 -> 0 < size <= 2 ^ 16 ->
  seg_of_word (tss_desc_low base size) = Seg (base mod 2 ^ 32) (size - 1) 0x89 0.
Proof.
  intros Hb Hs. rewrite gdt_desc_tss by done. unfold seg_of_word.
  replace (base mod 2 ^ 32) with (base mod 2 ^ 24 + 2 ^ 24 * (base / 2 ^ 24 mod 2 ^ 8)) by (clear; dlia).
  assert (R1 : 0 <= base mod 2 ^ 24 < 2 ^ 24) by (apply Z.mod_pos_bound; lia).
  assert (R2 : 0 <= base / 2 ^ 24 mod 2 ^ 8 < 2 ^ 8) by (apply Z.mod_pos_bound; lia).
  set (p := base mod 2 ^ 24) in *. set (q := base / 2 ^ 24 mod 2 ^ 8) in *. clearbody p q. clear Hb.
  set (v := size - 1 + 2 ^ 16 * p + 2 ^ 40 * 137 + 2 ^ 56 * q).
  assert (E16 : v / 2 ^ 16 = p + 2 ^ 24 * 137 + 2 ^ 40 * q) by (unfold v; dlia).
  assert (E32 : v / 2 ^ 32 = p / 2 ^ 16 + 2 ^ 8 * 137 + 2 ^ 24 * q) by (unfold v; dlia).
  assert (E40 : v / 2 ^ 40 = 137 + 2 ^ 16 * q) by (unfold v; dlia).
  assert (E48 : v / 2 ^ 48 = 2 ^ 8 * q) by (unfold v; dlia).
  assert (E56 : v / 2 ^ 56 = q) by (unfold v; dlia).
  assert (E0 : v mod 2 ^ 16 = size - 1) by (unfold v; dlia).
  rewrite E0, E16, E32, E40, E48, E56. clear - R1 R2. f_equal; dlia.
Qed.

Lemma seg_st64_ne m a b v : b + 8 <= a \/ a + 8 <= b -> seg_at (st64 m b v) a = seg_at m a.
Proof. intros H. eapply seg_outside; [apply st64_only_in|lia]. Qed.

(** The table before the task register is loaded. *)
Definition gdt_words (l : layout) (base size : Z) (m : mem) : mem :=
  let m := memset (gdt l) 0 128 m in
  let m := set_gdt l 0 0 m in
  let m := set_gdt l 1 0x00af9a000000ffff m in
  let m := set_gdt l 2 0x00af92000000ffff m in
  let m := set_gdt l 3 0x00aff2000000ffff m in
  let m := set_gdt l 4 0x00affa000000ffff m in
  let m := set_gdt l 5 (tss_desc_low base size) m in
  let m := set_gdt l 6 (tss_desc_high base) m in
  let m := st 2 m (gdt_ptr l) (8 * 7 - 1) in
  st64 m (gdt_ptr l + 2) (gdt l).

Definition seg_word (i : Z) : Z := nth (Z.to_nat i)
  [0; 0x00af9a000000ffff; 0x00af92000000ffff; 0x00aff2000000ffff; 0x00affa000000ffff] 0.

Lemma gdt_words_spec l base size m :
  apart (gdt l) 128 (gdt_ptr l) 10 -> 0 <= gdt l < 2 ^ 64 -> 0 <= base < 2 ^ 64 -> 0 < size <= 2 ^ 16 ->
  let m' := gdt_words l base size m in
  table_operand (gdt_ptr l) m' = (55, gdt l) /\
  (forall i, 1 <= i <= 4 -> seg_at m' (gdt l + 8 * i) = seg_of_word (seg_word i)) /\
  seg_at m' (gdt l + 40) = Seg (base mod 2 ^ 32) (size - 1) 0x89 0 /\
  ld32 m' (gdt l + 48) = base / 2 ^ 32 /\
  agree_on (fun x => (x < gdt l \/ gdt l + 128 <= x) /\ (x < gdt_ptr l \/ gdt_ptr l + 10 <= x)) m m'.
Proof.
  intros Hp Hg Hb Hs. unfold apart in Hp. cbv zeta.
  assert (E : gdt_words l base size m = st64 (st 2 (set_gdt l 6 (tss_desc_high base)
    (set_gdt l 5 (tss_desc_low base size) (set_gdt l 4 (seg_word 4) (set_gdt l 3 (seg_word 3)
    (set_gdt l 2 (seg_word 2) (set_gdt l 1 (seg_word 1) (set_gdt l 0 0 (memset (gdt l) 0 128 m))))))))
    (gdt_ptr l) 55) (gdt_ptr l + 2) (gdt l)) by done.
  rewrite E. clear E. generalize seg_word. intros word. unfold set_gdt.
  set (m0 := memset (gdt l) 0 128 m).
  assert (O0 : only_in (gdt l) (gdt l + 128) m m0).
  { eapply only_in_weaken; [| |apply memset_only_in]; lia. }
  clearbody m0. split_and!.
  - unfold table_operand, ld16, ld64, st64. peel. f_equal. by apply Z.mod_small.
  - intros i Hi. rewrite seg_st64_ne by lia. rewrite (seg_outside _ _ _ _ _ (st_only_in _ _ _ _)) by lia.
    assert (Hi4 : i = 1 \/ i = 2 \/ i = 3 \/ i = 4) by lia. clear - Hi4.
    destruct Hi4 as [->|[->|[->| ->]]];
      repeat first [rewrite seg_at_st64 | rewrite seg_st64_ne by lia]; done.
  - rewrite seg_st64_ne by lia. rewrite (seg_outside _ _ _ _ _ (st_only_in _ _ _ _)) by lia.
    rewrite seg_st64_ne by lia. rewrite seg_at_st64. by apply seg_of_tss.
  - unfold ld32, st64. peel. unfold tss_desc_high. rewrite Z.shiftr_div_pow2 by lia. apply Z.mod_small.
    clear - Hb. dlia.
  - intros x [Hx1 Hx2]. unfold st64.
    do 9 rewrite (st_only_in _ _ _ _ x) by lia.
    apply O0. lia.
Qed.

Lemma gdt_init_effect l base size m c :
  apart (gdt l) 128 (gdt_ptr l) 10 -> 0 <= gdt l < 2 ^ 64 -> 0 <= base < 2 ^ 64 -> 0 < size <= 2 ^ 16 ->
  let '(m', c') := gdt_init l base size (m, c) in
  c' = Cpu (55, gdt l) (idtr c) 0x28 0x08 0x10 0x10 0x10 (msrs c) /\
  (forall i, 1 <= i <= 4 -> seg_at m' (gdt l + 8 * i) = seg_of_word (seg_word i)) /\
  seg_at m' (gdt l + 40) = Seg (base mod 2 ^ 32) (size - 1) 0x8b 0 /\
  ld32 m' (gdt l + 48) = base / 2 ^ 32 /\
  agree_on (fun x => (x < gdt l \/ gdt l + 128 <= x) /\ (x < gdt_ptr l \/ gdt_ptr l + 10 <= x)) m m'.
Proof.
  intros Hp Hg Hb Hs.
  assert (E : gdt_init l base size (m, c) = ltr 0x28 (gdt_words l base size m,
    load_segments 0x08 0x10 (lgdt (gdt_ptr l) (gdt_words l base size m) c))) by done.
  rewrite E. destruct (gdt_words_spec l base size m Hp Hg Hb Hs) as (W1 & W2 & W3 & W4 & W5).
  set (m1 := gdt_words l base size m) in *. clearbody m1. unfold ltr, lgdt, load_segments.
  cbn [gdtr idtr tr seg_cs seg_ds seg_es seg_ss msrs]. rewrite W1. cbn [snd].
  change (8 * (0x28 / 8)) with 40.
  pose proof (only_in_wr (gdt l + 45) (gdt l + 46) m1 (gdt l + 45) (Z.lor (rd m1 (gdt l + 45)) 2) ltac:(lia)) as O.
  replace (gdt l + 40 + 5) with (gdt l + 45) by lia. split_and!; [done| | | |].
  - intros i Hi. rewrite (seg_outside _ _ _ _ _ O) by lia. by apply W2.
  - pose proof (seg_busy m1 (gdt l + 40)) as B. replace (gdt l + 40 + 5) with (gdt l + 45) in B by lia.
    rewrite B, W3. done.
  - unfold ld32. by rewrite (ld_outside _ _ _ _ _ _ O) by lia.
  - intros x Hx. unfold apart in Hp. rewrite (O x) by lia. by apply W5.
Qed.

Lemma tss_init_effect l df size m :
  ld64 (tss_init l df size m) (tss l + off_ist1) = u64 (df + size) /\
  ld16 (tss_init l df size m) (tss l + off_io_map_base) = sizeof_tss_t /\
  only_in (tss l) (tss l + 104) m (tss_init l df size m).
Proof.
  unfold tss_init, off_ist1, off_io_map_base, sizeof_tss_t, ld64, ld16, st64. cbv zeta. split_and!.
  - peel. apply Z.mod_mod. lia.
  - by peel.
  - intros x Hx. rewrite (st_only_in _ _ _ _ x), (st_only_in _ _ _ _ x) by lia.
    apply memset_only_in. lia.
Qed.

Definition kernel_code : seg := Seg 0 0xFFFFF 0x9A 0xA.

Lemma lookup_gdt base i m c sel :
  gdtr c = (55, base) -> sel / 8 = i -> 1 <= i <= 6 -> lookup_seg sel m c = Some (seg_at m (base + 8 * i)).
Proof.
  intros E Es Hi. unfold lookup_seg. rewrite E, Es. cbn [fst snd].
  destruct (Z.ltb_spec 0 i), (Z.leb_spec (8 * i + 7) 55); try lia. done.
Qed.

(** The table [gdt_init] loads: selectors 0x08 and 0x10 are the kernel's code
    and data (ring 0), 0x18 and 0x20 the user's data and code (ring 3), all of them
    flat and the code long mode; 0x28 is the task state segment, which the task
    register holds, at the given address and of the given size. *)
Theorem gdt_segments l base size m c :
  placed l -> 0 <= base < 2 ^ 64 -> 0 < size <= 2 ^ 16 ->
  let '(m', c') := gdt_init l base size (m, c) in
  lookup_seg GDT_KERNEL_CODE m' c' = Some (Seg 0 0xFFFFF 0x9A 0xA) /\
  lookup_seg GDT_KERNEL_DATA m' c' = Some (Seg 0 0xFFFFF 0x92 0xA) /\
  lookup_seg GDT_USER_DATA m' c' = Some (Seg 0 0xFFFFF 0xF2 0xA) /\
  lookup_seg GDT_USER_CODE m' c' = Some (Seg 0 0xFFFFF 0xFA 0xA) /\
  lookup_seg GDT_TSS m' c' = Some (Seg (base mod 2 ^ 32) (size - 1) 0x8B 0) /\
  tr c' = GDT_TSS /\ tss_base_of m' c' = base /\
  seg_cs c' = GDT_KERNEL_CODE /\ seg_ss c' = GDT_KERNEL_DATA.
Proof.
  intros Hp Hb Hs.
  pose proof (gdt_init_effect l base size m c (pl_gdt_ptr _ Hp) (pl_gdt _ Hp) Hb Hs) as H.
  destruct (gdt_init l base size (m, c)) as [m' c']. destruct H as (-> & G & G5 & G6 & _).
  assert (L : forall sel i, sel / 8 = i -> 1 <= i <= 6 -> lookup_seg sel m'
    (Cpu (55, gdt l) (idtr c) 40 8 16 16 16 (msrs c)) = Some (seg_at m' (gdt l + 8 * i)))
    by (intros; by apply lookup_gdt).
  rewrite (L _ 1), (L _ 2), (L _ 3), (L _ 4), (L _ 5) by done. rewrite !G by lia.
  change (8 * 5) with 40. rewrite G5. split_and!; try done.
  unfold tss_base_of. cbn [gdtr tr snd]. change (8 * (40 / 8)) with 40. rewrite G5. cbn [s_base].
  replace (gdt l + 40 + 8) with (gdt l + 48) by lia. rewrite G6. clear. dlia.
Qed.

(** What [kernel_main] does with the tables. *)
Definition tables_init (l : layout) (isr irq : Z -> Z) (df_stack df_stack_size : Z) (s : mem * cpu) : mem * cpu :=
  let '(m, c) := s in
  let m := tss_init l df_stack df_stack_size m in
  idt_init l isr irq (gdt_init l (tss l) sizeof_tss_t (m, c)).

(** The tables in memory and in the registers: what the rest of the kernel keeps. *)
Record tables_ok (l : layout) (h : Z -> Z) (ist1 : Z) (m : mem) (c : cpu) : Prop := {
  to_gdtr : gdtr c = (55, gdt l);
  to_idtr : idtr c = (4095, idt l);
  to_tr : tr c = GDT_TSS;
  to_segs i : 1 <= i <= 4 -> seg_at m (gdt l + 8 * i) = seg_of_word (seg_word i);
  to_desc : seg_at m (gdt l + 40) = Seg (tss l mod 2 ^ 32) (sizeof_tss_t - 1) 0x8B 0;
  to_desc_high : ld32 m (gdt l + 48) = tss l / 2 ^ 32;
  to_gates v : 0 <= v < 256 -> gate_at m (idt l + 16 * v) =
    if v <? 48 then Gate (h v) 8 (if v =? 8 then 1 else 0) 0x8E 0 else Gate 0 0 0 0 0;
  to_ist : ld64 m (tss l + off_ist1) = ist1
}.

(** The bytes of the tables, and those of the operands of [lgdt] and [lidt]. *)
Definition in_tables (l : layout) (x : Z) : Prop :=
  gdt l <= x < gdt l + 128 \/ idt l <= x < idt l + 4096 \/ tss l <= x < tss l + 104.
Definition in_operands (l : layout) (x : Z) : Prop :=
  gdt_ptr l <= x < gdt_ptr l + 10 \/ idtp l <= x < idtp l + 10.

Lemma gate_agree m m' a :
  agree_on (fun x => a <= x < a + 16) m m' -> gate_at m' a = gate_at m a.
Proof.
  intros H. unfold gate_at, ld16, ld32. rewrite !rd_ld1.
  by rewrite !(ld_agree _ m m') by (intros x Hx; apply H; lia).
Qed.

Lemma seg_agree m m' a : agree_on (fun x => a <= x < a + 8) m m' -> seg_at m' a = seg_at m a.
Proof.
  intros H. unfold seg_at, ld16. rewrite !rd_ld1.
  by rewrite !(ld_agree _ m m') by (intros x Hx; apply H; lia).
Qed.

Lemma tables_ok_agree l h ist1 m m' c c' :
  tables_ok l h ist1 m c -> agree_on (in_tables l) m m' ->
  gdtr c' = gdtr c -> idtr c' = idtr c -> tr c' = tr c -> tables_ok l h ist1 m' c'.
Proof.
  intros [T1 T2 T3 T4 T5 T6 T7 T8] Ha E1 E2 E3. unfold in_tables in Ha.
  assert (Hs : forall i, 0 <= i <= 5 -> seg_at m' (gdt l + 8 * i) = seg_at m (gdt l + 8 * i)).
  { intros i Hi. apply seg_agree. eapply agree_on_weaken; [|exact Ha]. intros x Hx. cbv beta in *. clear - Hx Hi. lia. }
  split; try congruence.
  - intros i Hi. rewrite Hs by lia. by apply T4.
  - change 40 with (8 * 5). rewrite Hs by lia. exact T5.
  - rewrite <- T6. unfold ld32. apply ld_agree. intros x Hx. apply Ha. lia.
  - intros v Hv. rewrite <- T7 by done. apply gate_agree.
    eapply agree_on_weaken; [|exact Ha]. intros x Hx. cbv beta in *. clear - Hx Hv. lia.
  - rewrite <- T8. unfold ld64. apply ld_agree. intros x Hx. apply Ha. unfold off_ist1 in Hx. lia.
Qed.

(** Where the processor goes, and its stack. *)
Lemma tables_ok_deliver l h ist1 m c v :
  tables_ok l h ist1 m c -> 0 <= tss l -> 0 <= v < 256 ->
  deliver_to v m c =
    if v <? 48 then Some (kernel_code, h v, if v =? 8 then Some ist1 else None) else None.
Proof.
  intros [T1 T2 T3 T4 T5 T6 T7 T8] Hl Hv. unfold deliver_to. rewrite T2. cbn [fst snd].
  destruct (Z.leb_spec (16 * v + 15) 4095); [|lia]. rewrite T7 by done.
  destruct (Z.ltb_spec v 48); [|done]. cbn [g_type g_selector g_offset g_ist]. change (142 =? 142) with true. cbv iota.
  rewrite (lookup_gdt (gdt l) 1) by (done || lia). rewrite T4 by lia.
  f_equal. f_equal. destruct (Z.eqb_spec v 8); [|done]. cbn [Z.eqb]. f_equal.
  unfold tss_base_of. rewrite T1, T3. cbn [snd]. change (8 * (GDT_TSS / 8)) with 40. rewrite T5. cbn [s_base].
  replace (gdt l + 40 + 8) with (gdt l + 48) by lia. rewrite T6.
  replace (tss l mod 2 ^ 32 + 2 ^ 32 * (tss l / 2 ^ 32)) with (tss l) by (clear; dlia).
  change (8 * (1 - 1)) with 0. by rewrite Z.add_0_r.
Qed.

Lemma tables_init_ok l isr irq df_stack size m c :
  placed l -> (forall v, 0 <= v < 48 -> 0 <= stub isr irq v < 2 ^ 64) ->
  let '(m', c') := tables_init l isr irq df_stack size (m, c) in
  tables_ok l (stub isr irq) (u64 (df_stack + size)) m' c' /\
  seg_cs c' = GDT_KERNEL_CODE /\ seg_ss c' = GDT_KERNEL_DATA /\
  agree_on (fun x => ~ in_tables l x /\ ~ in_operands l x) m m'.
Proof.
  intros Hp Hh. unfold tables_init. destruct (tss_init_effect l df_stack size m) as (T1 & _ & T3).
  set (m1 := tss_init l df_stack size m) in *. clearbody m1. destruct Hp.
  pose proof (gdt_init_effect l (tss l) sizeof_tss_t m1 c ltac:(done) ltac:(done) ltac:(done) ltac:(done)) as G.
  destruct (gdt_init l (tss l) sizeof_tss_t (m1, c)) as [m2 c2]. destruct G as (-> & G1 & G5 & G6 & G7).
  set (c2 := Cpu _ _ _ _ _ _ _ _).
  pose proof (idt_init_effect l isr irq m2 c2 ltac:(done) ltac:(done) Hh) as I.
  destruct (idt_init l isr irq (m2, c2)) as [m3 c3]. destruct I as (-> & I1 & I2). subst c2.
  unfold apart in *. split; [|split; [done|split; [done|]]].
  2: { unfold in_tables, in_operands. intros x Hx.
       rewrite (I2 x), (G7 x), (T3 x) by (cbv beta; clear - Hx; lia). done. }
  assert (Hs : forall i, 0 <= i <= 5 -> seg_at m3 (gdt l + 8 * i) = seg_at m2 (gdt l + 8 * i)).
  { intros i Hi. apply seg_agree. eapply agree_on_weaken; [|exact I2].
    intros x Hx. cbv beta in *. clear - pl_idt_gdt0 pl_idtp_gdt0 Hx Hi. lia. }
  split; try done.
  - intros i Hi. rewrite Hs by lia. by apply G1.
  - change 40 with (8 * 5). rewrite Hs by lia. exact G5.
  - rewrite <- G6. unfold ld32. apply ld_agree. intros x Hx. apply I2. clear - pl_idt_gdt0 pl_idtp_gdt0 Hx. lia.
  - rewrite <- T1. unfold ld64. rewrite (ld_agree 8 m2 m3), (ld_agree 8 m1 m2); [done| |].
    + intros x Hx. apply G7. unfold off_ist1 in Hx. clear - pl_gdt_tss0 pl_ptr_tss0 Hx. lia.
    + intros x Hx. apply I2. unfold off_ist1 in Hx. clear - pl_idt_tss0 pl_idtp_tss0 Hx. lia.
Qed.

(** After [tss_init], [gdt_init] and [idt_init], as [kernel_main] calls them, the
    processor delivers each of the 48 vectors to its own stub in the kernel's code
    segment, the double fault, and it alone, on the stack reserved for it; no
    other vector has a gate. *)
Theorem exceptions_delivered l isr irq df_stack size m c v :
  placed l -> (forall v, 0 <= v < 48 -> 0 <= stub isr irq v < 2 ^ 64) -> 0 <= v < 256 ->
  let '(m', c') := tables_init l isr irq df_stack size (m, c) in
  deliver_to v m' c' =
    if v <? 48 then Some (kernel_code, stub isr irq v,
                          if v =? 8 then Some (u64 (df_stack + size)) else None)
    else None.
Proof.
  intros Hp Hh Hv. pose proof (tables_init_ok l isr irq df_stack size m c Hp Hh) as H.
  destruct (tables_init l isr irq df_stack size (m, c)) as [m' c']. destruct H as (H & _).
  apply (tables_ok_deliver l); [exact H|apply Hp|exact Hv].
Qed.

(** ** Witnesses *)

Definition some_layout : layout := Layout 0x104000 0x104100 0x105000 0x106000 0x104200.
Definition some_cpu : cpu := Cpu (0, 0) (0, 0) 0 8 0x10 0x10 0x10 ∅.

Lemma some_layout_placed : placed some_layout.
Proof. split; unfold apart; cbn; lia. Qed.

Lemma gdt_segments_witness :
  tss_base_of (fst (gdt_init some_layout 0x104200 104 (Mem (fun _ => 0) ∅, some_cpu)))
    (snd (gdt_init some_layout 0x104200 104 (Mem (fun _ => 0) ∅, some_cpu))) = 0x104200.
Proof.
  pose proof (gdt_segments some_layout 0x104200 104 (Mem (fun _ => 0) ∅) some_cpu some_layout_placed
    ltac:(lia) ltac:(lia)) as H.
  destruct (gdt_init some_layout 0x104200 104 (Mem (fun _ => 0) ∅, some_cpu)) as [m c].
  destruct H as (_ & _ & _ & _ & _ & _ & H & _). exact H.
Defined.

(** The double fault, with stubs 16 bytes apart. *)
Lemma exceptions_delivered_witness :
  let '(m, c) := tables_init some_layout (fun v => 0x100000 + 16 * v) (fun v => 0x100200 + 16 * v)
    0x110000 8192 (Mem (fun _ => 0) ∅, some_cpu) in
  deliver_to 8 m c = Some (kernel_code, 0x100080, Some 0x112000).
Proof.
  apply (exceptions_delivered some_layout (fun v => 0x100000 + 16 * v) (fun v => 0x100200 + 16 * v)
    0x110000 8192 (Mem (fun _ => 0) ∅) some_cpu 8 some_layout_placed).
  - intros v Hv. unfold stub. destruct (v <? 32); lia.
  - lia.
Defined.

End Desc.
