(* ===== verification/Syscall.v ===== *)
(** * System calls ([syscall.h], [syscall.c], [syscall_asm.asm])

    The initialisation of the model-specific registers, the handler, and the
    entry code, which is translated instruction by instruction over the record
    [machine].  [syscall], [sysret] and [swapgs] are the processor's. *)

From S2P Require Import Prelude CString Ports Vga Desc.
Import Vga Desc.
Local Open Scope Z_scope.
Local Open Scope kios_scope.

Module Syscall.

Definition MSR_EFER : Z := 0xC0000080.
Definition MSR_STAR : Z := 0xC0000081.
Definition MSR_LSTAR : Z := 0xC0000082.
Definition MSR_SFMASK : Z := 0xC0000084.
Definition MSR_GS_BASE : Z := 0xC0000101.
Definition MSR_KERNEL_GS_BASE : Z := 0xC0000102.
Definition EFER_SCE : Z := Z.shiftl 1 0.
Definition SFMASK_IF : Z := Z.shiftl 1 9.
Definition SFMASK_TF : Z := Z.shiftl 1 8.
Definition SFMASK_DF : Z := Z.shiftl 1 10.
Definition SYS_EXIT : Z := 0.
Definition SYS_WRITE : Z := 1.
Definition SYS_READ : Z := 2.
Definition SYS_YIELD : Z := 3.

(** The model-specific register [n]. *)
Definition msr (c : cpu) (n : Z) : Z := default 0 (msrs c !! n).
Definition set_msr (n v : Z) (c : cpu) : cpu :=
  Cpu (gdtr c) (idtr c) (tr c) (seg_cs c) (seg_ds c) (seg_es c) (seg_ss c) (<[n := v]> (msrs c)).

(** [rdmsr] and [wrmsr]: the instructions work on two halves. *)
Definition rdmsr (n : Z) (c : cpu) : Z :=
  let lo := u32 (msr c n) in
  let hi := u32 (Z.shiftr (msr c n) 32) in
  Z.lor (u64 (Z.shiftl hi 32)) lo.
Definition wrmsr (n value : Z) (c : cpu) : cpu :=
  let lo := u32 (Z.land value 0xFFFFFFFF) in
  let hi := u32 (Z.shiftr value 32) in
  set_msr n (hi * 2 ^ 32 + lo) c.

(** Offsets in the packed [cpu_data_t]. *)
Definition off_kernel_stack : Z := 0.
Definition off_user_stack : Z := 8.
Definition off_current_task : Z := 16.

(** [syscall_init], with the addresses of [cpu_data] and [syscall_entry]. *)
Definition syscall_init (cpu_data syscall_entry : Z) (s : mem * cpu) : mem * cpu :=
  let '(m, c) := s in
  let m := st64 m (cpu_data + off_kernel_stack) 0 in
  let m := st64 m (cpu_data + off_user_stack) 0 in
  let m := st64 m (cpu_data + off_current_task) 0 in
  let efer := Z.lor (rdmsr MSR_EFER c) EFER_SCE in
  let c := wrmsr MSR_EFER efer c in
  let star := 0 in
  let star := Z.lor star (Z.shiftl GDT_KERNEL_CODE 32) in
  let star := Z.lor star (Z.shiftl GDT_KERNEL_DATA 48) in
  let c := wrmsr MSR_STAR star c in
  let c := wrmsr MSR_LSTAR syscall_entry c in
  let c := wrmsr MSR_SFMASK (Z.lor (Z.lor SFMASK_IF SFMASK_TF) SFMASK_DF) c in
  let c := wrmsr MSR_GS_BASE 0 c in
  (m, wrmsr MSR_KERNEL_GS_BASE cpu_data c).

Definition syscall_set_kernel_stack (cpu_data stack_top : Z) (m : mem) : mem :=
  st64 m (cpu_data + off_kernel_stack) stack_top.

(** ** The handler *)
Section handler.
  Context {D : Type} `{!PortBus D}.

(** The loop of [SYS_WRITE].  [byte] is the memory the handler sees, of [char]s; it
    depends on the screen, since the buffer may lie in the frame buffer or over the
    variables of [vga.c], which the loop changes as it reads. *)
Fixpoint write_loop (n : nat) (byte : vga -> Z -> Z) (buf i : Z) (k : con D) : con D :=
  match n with
  | O => k
  | S n => write_loop n byte buf (i + 1) (vga_putchar (i8 (byte (scr k) (u64 (buf + i)))) k)
  end.

(** [None]: [SYS_EXIT] halts for ever. *)
Definition syscall_handler (byte : vga -> Z -> Z) (syscall_num arg1 arg2 arg3 : Z) (k : con D) : option Z * con D :=
  if syscall_num =? SYS_EXIT then (None, k)
  else if syscall_num =? SYS_WRITE then
    if arg1 =? 1 then (Some arg3, write_loop (Z.to_nat arg3) byte arg2 0 k)
    else (Some (u64 (-1)), k)
  else if syscall_num =? SYS_READ then (Some (u64 (-1)), k)
  else if syscall_num =? SYS_YIELD then (Some 0, k)
  else (Some (u64 (-1)), k).

End handler.

(** Memory [m], with the screen where the frame buffer is. *)
Definition with_screen (m : mem) (v : vga) (a : Z) : Z :=
  if (0xB8000 <=? a) && (a <? 0xB8FA0)
  then u8 (Z.shiftr (cell (vga_buffer v) ((a - 0xB8000) / 2)) (8 * (a mod 2))) else rd m a.

Lemma with_screen_outside m v a : ~ 0xB8000 <= a < 0xB8FA0 -> with_screen m v a = rd m a.
Proof. intros Ha. unfold with_screen. by destruct (Z.leb_spec 0xB8000 a), (Z.ltb_spec a 0xB8FA0); try lia. Qed.

(** ** The entry code *)

Inductive reg :=
  RAX | RBX | RCX | RDX | RSI | RDI | RBP | RSP | R8 | R9 | R10 | R11 | R12 | R13 | R14 | R15.
#[export] Instance reg_eq : EqDecision reg.
Proof. solve_decision. Defined.

Record machine := Machine {
  gpr : reg -> Z; rip : Z; rflags : Z; pc : cpu; ram : mem
}.

Definition set_reg (r : reg) (v : Z) (s : machine) : machine :=
  Machine (fun q => if decide (q = r) then v else gpr s q) (rip s) (rflags s) (pc s) (ram s).
Definition set_cpu (c : cpu) (s : machine) : machine := Machine (gpr s) (rip s) (rflags s) c (ram s).
Definition set_mem (m : mem) (s : machine) : machine := Machine (gpr s) (rip s) (rflags s) (pc s) m.
Definition set_flags (f : Z) (s : machine) : machine := Machine (gpr s) (rip s) f (pc s) (ram s).
Definition set_selectors (code data : Z) (c : cpu) : cpu :=
  Cpu (gdtr c) (idtr c) (tr c) code (seg_ds c) (seg_es c) data (msrs c).

(** [mov dst, src], [push], [pop] and the access to [gs:off]. *)
Definition mov (dst src : reg) (s : machine) : machine := set_reg dst (gpr s src) s.
Definition push_val (v : Z) (s : machine) : machine :=
  let sp := u64 (gpr s RSP - 8) in set_reg RSP sp (set_mem (st64 (ram s) sp v) s).
Definition push (r : reg) (s : machine) : machine := push_val (gpr s r) s.
Definition pop (r : reg) (s : machine) : machine :=
  set_reg r (ld64 (ram s) (gpr s RSP)) (set_reg RSP (u64 (gpr s RSP + 8)) s).
Definition gs_base (s : machine) : Z := msr (pc s) MSR_GS_BASE.
Definition store_gs (off : Z) (r : reg) (s : machine) : machine :=
  set_mem (st64 (ram s) (gs_base s + off) (gpr s r)) s.
Definition load_gs (r : reg) (off : Z) (s : machine) : machine :=
  set_reg r (ld64 (ram s) (gs_base s + off)) s.
Definition swapgs (s : machine) : machine :=
  set_cpu (set_msr MSR_KERNEL_GS_BASE (gs_base s)
    (set_msr MSR_GS_BASE (msr (pc s) MSR_KERNEL_GS_BASE) (pc s))) s.
Definition sti (s : machine) : machine := set_flags (Z.setbit (rflags s) 9) s.
Definition cli (s : machine) : machine := set_flags (Z.clearbit (rflags s) 9) s.

(** The [syscall] instruction in ring 3 ([rip] is the address of the next one). *)
Definition syscall (s : machine) : machine :=
  let star := msr (pc s) MSR_STAR in
  let s := set_reg RCX (rip s) (set_reg R11 (rflags s) s) in
  let code := Z.land (Z.shiftr star 32) 0xFFFC in
  Machine (gpr s) (msr (pc s) MSR_LSTAR) (Z.ldiff (rflags s) (msr (pc s) MSR_SFMASK))
    (set_selectors code (code + 8) (pc s)) (ram s).

(** The 64-bit [sysret] instruction. *)
Definition sysret (s : machine) : machine :=
  let base := Z.land (Z.shiftr (msr (pc s) MSR_STAR) 48) 0xFFFF in
  Machine (gpr s) (gpr s RCX) (Z.lor (Z.land (gpr s R11) 0x3C7FD7) 2)
    (set_selectors (Z.lor (base + 16) 3) (Z.lor (base + 8) 3) (pc s)) (ram s).

(** [syscall_entry] up to the call, and after it. *)
Definition entry_head : machine -> machine :=
  swapgs >>> store_gs 0x08 RSP >>> load_gs RSP 0x00 >>>
  push RCX >>> push R11 >>> push RBX >>> push RBP >>> push R12 >>> push R13 >>> push R14 >>> push R15 >>>
  mov RCX RDX >>> mov RDX RSI >>> mov RSI RDI >>> mov RDI RAX >>> sti.
Definition entry_tail : machine -> machine :=
  cli >>> pop R15 >>> pop R14 >>> pop R13 >>> pop R12 >>> pop RBP >>> pop RBX >>> pop R11 >>> pop RCX >>>
  load_gs RSP 0x08 >>> swapgs >>> sysret.

(** [mov ax, v], [mov ds, ax] and [mov es, ax]. *)
Definition mov_ax (v : Z) (s : machine) : machine :=
  set_reg RAX (Z.lor (Z.ldiff (gpr s RAX) 0xFFFF) v) s.
Definition load_ds_es (s : machine) : machine :=
  let c := pc s in
  set_cpu (Cpu (gdtr c) (idtr c) (tr c) (seg_cs c) (u16 (gpr s RAX)) (u16 (gpr s RAX)) (seg_ss c) (msrs c)) s.

(** [iretq] pops the address, code selector, flags, stack pointer and stack selector. *)
Definition iretq (s : machine) : machine :=
  let sp := gpr s RSP in
  Machine (gpr (set_reg RSP (ld64 (ram s) (sp + 24)) s)) (ld64 (ram s) sp) (ld64 (ram s) (sp + 16))
    (set_selectors (ld64 (ram s) (sp + 8)) (ld64 (ram s) (sp + 32)) (pc s)) (ram s).

(** [jump_to_usermode]: the user's stack is in [rdi], its code in [rsi]. *)
Definition jump_to_usermode : machine -> machine :=
  cli >>> mov_ax 0x1B >>> load_ds_es >>>
  push_val 0x1B >>> push RDI >>> push_val 0x202 >>> push_val 0x23 >>> push RSI >>> iretq.

(** ** Registers on the stack *)

Lemma gpr_set_eq r v s : gpr (set_reg r v s) r = v.
Proof. cbn. by rewrite decide_True. Qed.
Lemma gpr_set_ne q r v s : q <> r -> gpr (set_reg r v s) q = gpr s q.
Proof. intros H. cbn. by rewrite decide_False. Qed.

(** Everything but the registers and memory. *)
Definition same_rest (s s' : machine) : Prop := rip s' = rip s /\ rflags s' = rflags s /\ pc s' = pc s.

Lemma push_val_spec v s a :
  gpr s RSP = a -> 8 <= a < 2 ^ 64 ->
  gpr (push_val v s) RSP = a - 8 /\ (forall q, q <> RSP -> gpr (push_val v s) q = gpr s q) /\
  same_rest s (push_val v s) /\ ram (push_val v s) = st64 (ram s) (a - 8) v.
Proof.
  intros Ha Hr. unfold push_val. rewrite Ha, u64_small by lia. split_and!; [by rewrite gpr_set_eq| |done|done].
  intros q Hq. by rewrite gpr_set_ne.
Qed.

Lemma push_all_spec l s a :
  gpr s RSP = a -> 8 * Z.of_nat (length l) <= a < 2 ^ 64 -> RSP ∉ l ->
  let s' := fold_left (fun s r => push r s) l s in
  gpr s' RSP = a - 8 * Z.of_nat (length l) /\ (forall q, q <> RSP -> gpr s' q = gpr s q) /\
  same_rest s s' /\ only_in (a - 8 * Z.of_nat (length l)) a (ram s) (ram s') /\
  forall i r, l !! i = Some r -> ld64 (ram s') (a - 8 * (Z.of_nat i + 1)) = u64 (gpr s r).
Proof.
  revert s a. induction l as [|r l IH]; intros s a Ha Hr Hl; cbn [fold_left length].
  { split_and!; [lia|done|done|done|]. intros i r H. done. }
  cbn [length] in Hr. apply not_elem_of_cons in Hl as [Hr1 Hl].
  destruct (push_val_spec (gpr s r) s a Ha ltac:(lia)) as (P1 & P2 & P3 & P4).
  fold (push r s) in *. destruct (IH (push r s) (a - 8) P1 ltac:(lia) Hl) as (I1 & I2 & I3 & I4 & I5).
  set (s' := fold_left _ l (push r s)) in *. clearbody s'. split_and!.
  - rewrite I1. lia.
  - intros q Hq. by rewrite I2, P2.
  - destruct P3 as (? & ? & ?), I3 as (? & ? & ?). split_and!; congruence.
  - intros x Hx. rewrite I4 by lia. rewrite P4. rewrite (st64_only_in _ _ _ x) by lia. done.
  - intros [|i] q Hq; cbn [lookup list_lookup] in Hq.
    + injection Hq as ->. rewrite (ld64_outside _ _ _ _ _ I4) by lia. rewrite P4.
      replace (a - 8 * (Z.of_nat 0 + 1)) with (a - 8) by lia. apply ld64_st64.
    + replace (a - 8 * (Z.of_nat (S i) + 1)) with (a - 8 - 8 * (Z.of_nat i + 1)) by lia.
      rewrite (I5 i q Hq). rewrite P2; [done|]. intros ->. apply Hl. by eapply list_elem_of_lookup_2.
Qed.

Lemma pop_all_spec l s sp :
  gpr s RSP = sp -> 0 <= sp -> sp + 8 * Z.of_nat (length l) < 2 ^ 64 -> RSP ∉ l -> NoDup l ->
  let s' := fold_left (fun s r => pop r s) l s in
  gpr s' RSP = sp + 8 * Z.of_nat (length l) /\ same_rest s s' /\ ram s' = ram s /\
  (forall i r, l !! i = Some r -> gpr s' r = ld64 (ram s) (sp + 8 * Z.of_nat i)) /\
  forall q, q ∉ l -> q <> RSP -> gpr s' q = gpr s q.
Proof.
  revert s sp. induction l as [|r l IH]; intros s sp Hs H0 Hr Hl Hd; cbn [fold_left length].
  { split_and!; [lia|done|done|done|done]. }
  cbn [length] in Hr. apply not_elem_of_cons in Hl as [Hr1 Hl]. apply NoDup_cons in Hd as [Hrl Hd].
  assert (P1 : gpr (pop r s) RSP = sp + 8).
  { unfold pop. rewrite gpr_set_ne, gpr_set_eq, Hs by done. by apply u64_small; lia. }
  destruct (IH (pop r s) (sp + 8) P1 ltac:(lia) ltac:(lia) Hl Hd) as (I1 & I2 & I3 & I4 & I5).
  set (s' := fold_left _ l (pop r s)) in *. clearbody s'. split_and!.
  - rewrite I1. lia.
  - exact I2.
  - exact I3.
  - intros [|i] q Hq; cbn [lookup list_lookup] in Hq.
    + injection Hq as ->. rewrite I5 by done. unfold pop. rewrite gpr_set_eq, Hs. f_equal. lia.
    + rewrite (I4 i q Hq). change (ram (pop r s)) with (ram s). f_equal. lia.
  - intros q Hq Hq'. apply not_elem_of_cons in Hq as [Hqr Hq]. rewrite I5 by done.
    unfold pop. by rewrite !gpr_set_ne.
Qed.

(** ** The model-specific registers *)

Lemma msr_wrmsr n v c k : 0 <= v < 2 ^ 64 -> msr (wrmsr n v c) k = if decide (k = n) then v else msr c k.
Proof.
  intros Hv. unfold msr, wrmsr, set_msr. cbn [msrs]. rewrite lookup_insert.
  destruct (decide (n = k)) as [<-|Hne].
  - rewrite decide_True by done. cbn [default].
    change 0xFFFFFFFF with (2 ^ 32 - 1). rewrite land_ones_mod, Z.shiftr_div_pow2 by lia. unfold u32.
    cbv [id]. clear - Hv. dlia.
  - by rewrite decide_False by done.
Qed.

(** What [syscall_init] leaves: the selectors, the entry point, the flags
    cleared, and the two bases of [gs]. *)
Record msrs_ok (cpu_data entry : Z) (c : cpu) : Prop := {
  mo_star : msr c MSR_STAR = 0x0010000800000000;
  mo_lstar : msr c MSR_LSTAR = entry;
  mo_sfmask : msr c MSR_SFMASK = 0x700;
  mo_gs : msr c MSR_GS_BASE = 0;
  mo_kernel_gs : msr c MSR_KERNEL_GS_BASE = cpu_data;
  mo_sce : Z.testbit (msr c MSR_EFER) 0 = true
}.

Lemma rdmsr_range n c : 0 <= rdmsr n c < 2 ^ 64.
Proof.
  unfold rdmsr, u64. rewrite Z.shiftl_mul_pow2 by lia. pose proof (u32_range (msr c n)) as H1.
  pose proof (u32_range (Z.shiftr (msr c n) 32)) as H2. rewrite (Z.mod_small (_ * _)) by lia.
  rewrite (lor_add_disjoint 32) by (rewrite ?Z.mod_mul; lia). lia.
Qed.

Lemma syscall_init_msrs cpu_data entry m c :
  0 <= cpu_data < 2 ^ 64 -> 0 <= entry < 2 ^ 64 ->
  let '(m', c') := syscall_init cpu_data entry (m, c) in
  msrs_ok cpu_data entry c' /\ gdtr c' = gdtr c /\ idtr c' = idtr c /\ tr c' = tr c /\
  seg_cs c' = seg_cs c /\ seg_ss c' = seg_ss c /\
  only_in cpu_data (cpu_data + 24) m m'.
Proof.
  intros Hp He. unfold syscall_init. cbv zeta.
  assert (Hefer : 0 <= Z.lor (rdmsr MSR_EFER c) EFER_SCE < 2 ^ 64).
  { pose proof (rdmsr_range MSR_EFER c) as Hr. split; [apply Z.lor_nonneg; split; [lia|done]|].
    assert (Hl : Z.lor (rdmsr MSR_EFER c) EFER_SCE = u64 (Z.lor (rdmsr MSR_EFER c) EFER_SCE)).
    { unfold u64. zbit n Hn. destruct (Z.lt_ge_cases n 64).
      - by rewrite Z.mod_pow2_bits_low, Z.lor_spec by lia.
      - rewrite Z.mod_pow2_bits_high by lia. rewrite (testbit_small 64 _ n) by lia.
        by rewrite (testbit_small 64 EFER_SCE n) by (lia || by vm_compute). }
    rewrite Hl. apply u64_range. }
  assert (Hbit : Z.testbit (Z.lor (rdmsr MSR_EFER c) EFER_SCE) 0 = true).
  { rewrite Z.lor_spec. by rewrite orb_true_r. }
  set (efer := Z.lor (rdmsr MSR_EFER c) EFER_SCE) in *. clearbody efer.
  split_and!; try done.
  - split; rewrite !msr_wrmsr by (done || lia); by repeat case_decide.
  - unfold off_kernel_stack, off_user_stack, off_current_task. intros x Hx.
    do 3 rewrite (st64_only_in _ _ _ x) by lia. done.
Qed.

(** ** The round trip through the kernel *)

(** The stack and the per-CPU data of the kernel. *)
Record stacks_ok (cpu_data ktop : Z) (m : mem) : Prop := {
  so_slot : ld64 m (cpu_data + off_kernel_stack) = ktop;
  so_top : 64 <= ktop < 2 ^ 64;
  so_apart : cpu_data + 24 <= ktop - 64 \/ ktop <= cpu_data
}.

(** A C function called from the entry code: it may use the stack below its
    frame and every register, but returns to its caller with the stack as it was. *)
Definition c_call (cpu_data ktop : Z) (h : machine -> machine) : Prop :=
  forall s, gpr (h s) RSP = gpr s RSP /\ pc (h s) = pc s /\
    agree_on (fun x => gpr s RSP <= x < ktop \/ cpu_data <= x < cpu_data + 24) (ram s) (ram (h s)).

Definition saved : list reg := [RCX; R11; RBX; RBP; R12; R13; R14; R15].

Lemma msr_set_msr n v c k : msr (set_msr n v c) k = if decide (k = n) then v else msr c k.
Proof.
  unfold msr, set_msr. cbn [msrs]. rewrite lookup_insert.
  destruct (decide (n = k)) as [<-|Hne]; [by rewrite decide_True|by rewrite decide_False].
Qed.

Lemma msr_selectors code data c n : msr (set_selectors code data c) n = msr c n.
Proof. done. Qed.

(** The two halves of the entry code, with the pushes and pops as folds. *)
Lemma entry_head_eq s :
  entry_head s =
  sti (mov RDI RAX (mov RSI RDI (mov RDX RSI (mov RCX RDX
    (fold_left (fun s r => push r s) saved (load_gs RSP 0x00 (store_gs 0x08 RSP (swapgs s)))))))).
Proof. reflexivity. Qed.

Lemma entry_tail_eq s :
  entry_tail s = sysret (swapgs (load_gs RSP 0x08 (fold_left (fun s r => pop r s) (rev saved) (cli s)))).
Proof. reflexivity. Qed.

Lemma saved_nodup : NoDup (rev saved) /\ RSP ∉ saved /\ RSP ∉ rev saved.
Proof. split_and!; apply (bool_decide_unpack _); by vm_compute. Qed.

(** After the switch to the kernel's stack. *)
Lemma enter_spec cpu_data ktop entry u :
  msrs_ok cpu_data entry (pc u) -> stacks_ok cpu_data ktop (ram u) ->
  exists s1, load_gs RSP 0x00 (store_gs 0x08 RSP (swapgs (syscall u))) = s1 /\
  gpr s1 RSP = ktop /\ (forall q, q <> RSP -> gpr s1 q = gpr (syscall u) q) /\
  ram s1 = st64 (ram u) (cpu_data + 8) (gpr u RSP) /\
  pc s1 = set_msr MSR_KERNEL_GS_BASE 0 (set_msr MSR_GS_BASE cpu_data
    (set_selectors GDT_KERNEL_CODE GDT_KERNEL_DATA (pc u))).
Proof.
  intros Hm [Hslot Htop Hap]. unfold off_kernel_stack in Hslot.
  assert (Ersp : gpr (syscall u) RSP = gpr u RSP) by (unfold syscall; cbn [gpr]; by rewrite !gpr_set_ne).
  assert (Eram : ram (syscall u) = ram u) by done.
  assert (Epc : pc (syscall u) = set_selectors GDT_KERNEL_CODE GDT_KERNEL_DATA (pc u)).
  { unfold syscall. cbn [pc set_reg]. by rewrite (mo_star _ _ _ Hm). }
  revert Ersp Eram Epc. generalize (syscall u) as s0. intros s0 Ersp Eram Epc. eexists. split; [reflexivity|].
  assert (Eg : gs_base (swapgs s0) = cpu_data).
  { unfold gs_base, swapgs. cbn [pc set_cpu]. rewrite !msr_set_msr, Epc. cbn. apply Hm. }
  assert (Er : ram (store_gs 0x08 RSP (swapgs s0)) = st64 (ram u) (cpu_data + 8) (gpr u RSP)).
  { unfold store_gs. rewrite Eg. cbn [ram set_mem]. by rewrite <- Eram, <- Ersp. }
  split_and!.
  - unfold load_gs. rewrite gpr_set_eq, Er. unfold store_gs, gs_base in *. cbn [pc set_mem] in *.
    rewrite Eg, ld64_st64_ne by lia. exact Hslot.
  - intros q Hq. unfold load_gs. by rewrite gpr_set_ne.
  - exact Er.
  - unfold load_gs, store_gs, swapgs, gs_base. cbn [pc set_reg set_mem set_cpu]. rewrite Epc.
    f_equal; [apply Hm|]. f_equal. apply Hm.
Qed.

(** The arguments of the C function. *)
Lemma args_spec s :
  let s' := sti (mov RDI RAX (mov RSI RDI (mov RDX RSI (mov RCX RDX s)))) in
  gpr s' RDI = gpr s RAX /\ gpr s' RSI = gpr s RDI /\ gpr s' RDX = gpr s RSI /\ gpr s' RCX = gpr s RDX /\
  gpr s' RSP = gpr s RSP /\ pc s' = pc s /\ ram s' = ram s.
Proof. by split_and!. Qed.

(** The state in which the entry code calls the handler. *)
Lemma entry_head_spec cpu_data ktop entry u :
  msrs_ok cpu_data entry (pc u) -> stacks_ok cpu_data ktop (ram u) ->
  let s := entry_head (syscall u) in
  gpr s RDI = gpr u RAX /\ gpr s RSI = gpr u RDI /\ gpr s RDX = gpr u RSI /\ gpr s RCX = gpr u RDX /\
  gpr s RSP = ktop - 64 /\
  pc s = set_msr MSR_KERNEL_GS_BASE 0 (set_msr MSR_GS_BASE cpu_data
    (set_selectors GDT_KERNEL_CODE GDT_KERNEL_DATA (pc u))) /\
  ld64 (ram s) (cpu_data + 8) = u64 (gpr u RSP) /\
  (forall i r, saved !! i = Some r ->
    ld64 (ram s) (ktop - 8 * (Z.of_nat i + 1)) = u64 (gpr (syscall u) r)) /\
  agree_on (fun x => ~ ktop - 64 <= x < ktop /\ ~ cpu_data + 8 <= x < cpu_data + 16) (ram u) (ram s).
Proof.
  intros Hm Hs. cbv zeta. rewrite entry_head_eq.
  destruct (enter_spec cpu_data ktop entry u Hm Hs) as (s1 & E & E1 & E2 & E3 & E4). rewrite E. clear E.
  destruct Hs as [_ Htop Hap]. destruct saved_nodup as (_ & Hn & _).
  destruct (push_all_spec saved s1 ktop E1 ltac:(cbn [saved length]; lia) Hn) as (P1 & P2 & (_ & _ & P3) & P4 & P5).
  revert P1 P2 P3 P4 P5. generalize (fold_left (fun s r => push r s) saved s1) as s2. intros s2.
  change (8 * Z.of_nat (length saved)) with 64. intros P1 P2 P3 P4 P5.
  destruct (args_spec s2) as (A1 & A2 & A3 & A4 & A5 & A6 & A7).
  assert (G : forall q, q <> RSP -> q <> RCX -> q <> R11 -> gpr s2 q = gpr u q).
  { intros q Hq1 Hq2 Hq3. rewrite P2, E2 by done. unfold syscall. cbn [gpr]. by rewrite !gpr_set_ne. }
  rewrite A1, A2, A3, A4, A5, A6, A7. rewrite !G by done. split_and!; try done.
  - by rewrite P3.
  - rewrite (ld64_outside _ _ _ _ _ P4) by lia. by rewrite E3, ld64_st64.
  - intros i r Hr. rewrite (P5 i r Hr). f_equal. apply E2. intros ->. apply Hn.
    by eapply list_elem_of_lookup_2.
  - intros x [Hx1 Hx2]. rewrite P4 by lia. rewrite E3. apply st64_only_in. lia.
Qed.

(** The jump to ring 3. *)
Lemma jump_to_usermode_spec s a :
  gpr s RSP = a -> 40 <= a < 2 ^ 64 -> 0 <= gpr s RDI < 2 ^ 64 -> 0 <= gpr s RSI < 2 ^ 64 ->
  let u := jump_to_usermode s in
  rip u = gpr s RSI /\ gpr u RSP = gpr s RDI /\ rflags u = 0x202 /\
  (forall r, r <> RSP -> r <> RAX -> gpr u r = gpr s r) /\
  gpr u RAX = Z.lor (Z.ldiff (gpr s RAX) 0xFFFF) 0x1B /\
  seg_cs (pc u) = Z.lor GDT_USER_CODE 3 /\ seg_ss (pc u) = Z.lor GDT_USER_DATA 3 /\
  (forall n, msr (pc u) n = msr (pc s) n) /\ only_in (a - 40) a (ram s) (ram u).
Proof.
  intros Ha Hr Hdi Hsi. cbv zeta.
  change (jump_to_usermode s) with (iretq (push RSI (push_val 0x23 (push_val 0x202 (push RDI (push_val 0x1B
    (load_ds_es (mov_ax 0x1B (cli s))))))))). unfold push.
  set (s0 := load_ds_es (mov_ax 0x1B (cli s))).
  assert (G0 : forall q, q <> RAX -> gpr s0 q = gpr s q).
  { intros q Hq. subst s0. unfold load_ds_es, mov_ax. cbn [gpr set_cpu]. by rewrite gpr_set_ne. }
  destruct (push_val_spec 0x1B s0 a ltac:(by rewrite G0) ltac:(lia)) as (A1 & A2 & A3 & A4).
  revert A1 A2 A3 A4. generalize (push_val 0x1B s0) as s1. intros s1 A1 A2 A3 A4.
  destruct (push_val_spec (gpr s1 RDI) s1 _ A1 ltac:(lia)) as (B1 & B2 & B3 & B4).
  revert B1 B2 B3 B4. generalize (push_val (gpr s1 RDI) s1) as s2. intros s2 B1 B2 B3 B4.
  destruct (push_val_spec 0x202 s2 _ B1 ltac:(lia)) as (C1 & C2 & C3 & C4).
  revert C1 C2 C3 C4. generalize (push_val 0x202 s2) as s3. intros s3 C1 C2 C3 C4.
  destruct (push_val_spec 0x23 s3 _ C1 ltac:(lia)) as (D1 & D2 & D3 & D4).
  revert D1 D2 D3 D4. generalize (push_val 0x23 s3) as s4. intros s4 D1 D2 D3 D4.
  destruct (push_val_spec (gpr s4 RSI) s4 _ D1 ltac:(lia)) as (E1 & E2 & E3 & E4).
  revert E1 E2 E3 E4. generalize (push_val (gpr s4 RSI) s4) as s5. intros s5 E1 E2 E3 E4.
  assert (Em : ram s5 = st64 (st64 (st64 (st64 (st64 (ram s) (a - 8) 0x1B) (a - 16) (gpr s RDI)) (a - 24) 0x202)
    (a - 32) 0x23) (a - 40) (gpr s RSI)).
  { rewrite E4, D4, C4, B4, A4, D2, C2, B2, A2, G0, A2, G0 by done. change (ram s0) with (ram s).
    replace (a - 8 - 8 - 8 - 8 - 8) with (a - 40) by lia. replace (a - 8 - 8 - 8 - 8) with (a - 32) by lia.
    replace (a - 8 - 8 - 8) with (a - 24) by lia. by replace (a - 8 - 8) with (a - 16) by lia. }
  assert (Ec : pc s5 = pc s0) by (destruct A3 as (? & ? & ?), B3 as (? & ? & ?), C3 as (? & ? & ?), D3 as (? & ? & ?),
    E3 as (? & ? & ?); congruence).
  assert (Eg : forall q, q <> RSP -> gpr s5 q = gpr s0 q) by (intros q Hq; by rewrite E2, D2, C2, B2, A2).
  unfold iretq. cbn [rip rflags gpr pc ram]. rewrite Em, E1.
  replace (a - 8 - 8 - 8 - 8 - 8) with (a - 40) by lia. replace (a - 40 + 8) with (a - 32) by lia.
  replace (a - 40 + 16) with (a - 24) by lia. replace (a - 40 + 24) with (a - 16) by lia.
  replace (a - 40 + 32) with (a - 8) by lia. split_and!.
  - rewrite ld64_st64. by apply u64_small.
  - rewrite gpr_set_eq, !ld64_st64_ne, ld64_st64 by lia. by apply u64_small.
  - by rewrite !ld64_st64_ne, ld64_st64 by lia.
  - intros r H1 H2. rewrite gpr_set_ne by done. rewrite Eg by done. by apply G0.
  - rewrite gpr_set_ne by done. by rewrite Eg.
  - cbn [set_selectors seg_cs]. by rewrite !ld64_st64_ne, ld64_st64 by lia.
  - cbn [set_selectors seg_ss]. by rewrite !ld64_st64_ne, ld64_st64 by lia.
  - intros n. by rewrite msr_selectors, Ec.
  - intros x Hx. rewrite !(st64_only_in _ _ _ x) by lia. done.
Qed.

(** What the code after the call makes of the saved registers. *)
Lemma entry_tail_spec cpu_data ktop s :
  64 <= ktop < 2 ^ 64 -> gpr s RSP = ktop - 64 -> msr (pc s) MSR_GS_BASE = cpu_data ->
  let u := entry_tail s in
  (forall i r, rev saved !! i = Some r -> gpr u r = ld64 (ram s) (ktop - 64 + 8 * Z.of_nat i)) /\
  gpr u RSP = ld64 (ram s) (cpu_data + 8) /\ gpr u RAX = gpr s RAX /\
  rip u = gpr u RCX /\ rflags u = Z.lor (Z.land (gpr u R11) 0x3C7FD7) 2 /\ ram u = ram s /\
  pc u = set_selectors (Z.lor (Z.land (Z.shiftr (msr (pc s) MSR_STAR) 48) 0xFFFF + 16) 3)
    (Z.lor (Z.land (Z.shiftr (msr (pc s) MSR_STAR) 48) 0xFFFF + 8) 3)
    (set_msr MSR_KERNEL_GS_BASE cpu_data (set_msr MSR_GS_BASE (msr (pc s) MSR_KERNEL_GS_BASE) (pc s))).
Proof.
  intros Htop Hs Hg. cbv zeta. rewrite entry_tail_eq. destruct saved_nodup as (Hd & _ & Hn).
  destruct (pop_all_spec (rev saved) (cli s) (ktop - 64) Hs ltac:(lia) ltac:(cbn; lia) Hn Hd)
    as (P1 & (_ & _ & P2) & P3 & P4 & P5).
  revert P1 P2 P3 P4 P5. generalize (fold_left (fun s r => pop r s) (rev saved) (cli s)) as s2. intros s2.
  change (ram (cli s)) with (ram s). change (pc (cli s)) with (pc s). change (gpr (cli s)) with (gpr s).
  intros P1 P2 P3 P4 P5.
  assert (Eg : gs_base s2 = cpu_data) by (unfold gs_base; by rewrite P2).
  assert (Er : forall q, q <> RSP -> gpr (sysret (swapgs (load_gs RSP 8 s2))) q = gpr s2 q).
  { intros q Hq. unfold load_gs. cbn [sysret swapgs gpr set_cpu]. by rewrite gpr_set_ne. }
  split_and!.
  - intros i r Hr. rewrite Er; [by apply P4|]. intros ->. apply Hn. by eapply list_elem_of_lookup_2.
  - unfold load_gs. cbn [sysret swapgs gpr set_cpu]. rewrite gpr_set_eq, Eg. by rewrite P3.
  - rewrite Er by done. apply P5; [|done]. apply (bool_decide_unpack _). by vm_compute.
  - done.
  - done.
  - exact P3.
  - unfold sysret, swapgs, load_gs, gs_base in *. cbn [pc set_cpu set_reg]. by rewrite !msr_set_msr, Eg, P2.
Qed.

Lemma msrs_ok_same cpu_data entry c c' :
  msrs_ok cpu_data entry c -> (forall n, msr c' n = msr c n) -> msrs_ok cpu_data entry c'.
Proof. intros [H1 H2 H3 H4 H5 H6] E. split; by rewrite E. Qed.

(** Everything a system call does. *)
Lemma syscall_effect cpu_data ktop entry h u :
  0 <= cpu_data -> msrs_ok cpu_data entry (pc u) -> stacks_ok cpu_data ktop (ram u) ->
  c_call cpu_data ktop h ->
  (forall r, 0 <= gpr u r < 2 ^ 64) -> 0 <= rip u < 2 ^ 64 -> 0 <= rflags u < 2 ^ 64 ->
  let s := entry_head (syscall u) in
  let u' := entry_tail (h s) in
  rip (syscall u) = entry /\
  gpr s RDI = gpr u RAX /\ gpr s RSI = gpr u RDI /\ gpr s RDX = gpr u RSI /\ gpr s RCX = gpr u RDX /\
  seg_cs (pc s) = GDT_KERNEL_CODE /\ seg_ss (pc s) = GDT_KERNEL_DATA /\
  rip u' = rip u /\ rflags u' = Z.lor (Z.land (rflags u) 0x3C7FD7) 2 /\
  gpr u' RAX = gpr (h s) RAX /\
  (forall r, r ∈ [RSP; RBX; RBP; R12; R13; R14; R15] -> gpr u' r = gpr u r) /\
  seg_cs (pc u') = Z.lor GDT_USER_CODE 3 /\ seg_ss (pc u') = Z.lor GDT_USER_DATA 3 /\
  msrs_ok cpu_data entry (pc u') /\ ram u' = ram (h s) /\
  agree_on (fun x => ~ ktop - 64 <= x < ktop /\ ~ cpu_data + 8 <= x < cpu_data + 16) (ram u) (ram s).
Proof.
  intros Hp Hm Hs Hc Hr Hrip Hfl. cbv zeta.
  destruct (entry_head_spec cpu_data ktop entry u Hm Hs) as (A1 & A2 & A3 & A4 & A5 & A6 & A7 & A8 & A9).
  assert (Hrcx : gpr (syscall u) RCX = rip u) by (unfold syscall; cbn [gpr]; by rewrite gpr_set_eq).
  assert (Hr11 : gpr (syscall u) R11 = rflags u).
  { unfold syscall. cbn [gpr]. by rewrite gpr_set_ne, gpr_set_eq. }
  assert (Hother : forall r, r <> RCX -> r <> R11 -> gpr (syscall u) r = gpr u r).
  { intros r H1 H2. unfold syscall. cbn [gpr]. by rewrite !gpr_set_ne. }
  assert (Hentry : rip (syscall u) = entry) by apply Hm.
  revert A1 A2 A3 A4 A5 A6 A7 A8 A9. generalize (entry_head (syscall u)) as s. intros s A1 A2 A3 A4 A5 A6 A7 A8 A9.
  destruct (Hc s) as (C1 & C2 & C3). destruct Hs as [_ Htop Hap].
  assert (Hload : forall a, ktop - 64 <= a -> a + 8 <= ktop -> ld64 (ram (h s)) a = ld64 (ram s) a).
  { intros a H1 H2. apply ld64_agree. intros x Hx. apply C3. left. lia. }
  assert (Hgs : msr (pc (h s)) MSR_GS_BASE = cpu_data) by (rewrite C2, A6, !msr_set_msr; done).
  destruct (entry_tail_spec cpu_data ktop (h s) Htop ltac:(by rewrite C1) Hgs) as (T1 & T2 & T3 & T4 & T5 & T7 & T6).
  assert (R : forall i r, (i < 8)%nat -> saved !! (7 - i)%nat = Some r -> rev saved !! i = Some r ->
    gpr (entry_tail (h s)) r = gpr (syscall u) r).
  { intros i r Hi H1 H2. rewrite (T1 i r H2), Hload by lia.
    replace (ktop - 64 + 8 * Z.of_nat i) with (ktop - 8 * (Z.of_nat (7 - i) + 1)) by lia.
    rewrite (A8 (7 - i)%nat r H1). apply u64_small. destruct (decide (r = RCX)) as [->|]; [by rewrite Hrcx|].
    destruct (decide (r = R11)) as [->|]; [by rewrite Hr11|]. rewrite Hother by done. apply Hr. }
  assert (Rsp : gpr (entry_tail (h s)) RSP = gpr u RSP).
  { rewrite T2. rewrite (ld64_agree (ram s)) by (intros x Hx; apply C3; right; lia).
    rewrite A7. by apply u64_small. }
  clear T1 T2. revert T3 T4 T5 T6 T7 R Rsp. generalize (entry_tail (h s)) as u'. intros u' T3 T4 T5 T6 T7 R Rsp.
  assert (Hstar : msr (pc (h s)) MSR_STAR = 0x0010000800000000).
  { rewrite C2, A6, !msr_set_msr. apply Hm. }
  assert (Hkgs : msr (pc (h s)) MSR_KERNEL_GS_BASE = 0) by (by rewrite C2, A6, !msr_set_msr).
  rewrite Hstar, Hkgs in T6. split; [exact Hentry|]. do 4 (split; [assumption|]).
  split_and!.
  - by rewrite A6.
  - by rewrite A6.
  - by rewrite T4, (R 7%nat RCX) by (done || lia).
  - by rewrite T5, (R 6%nat R11) by (done || lia).
  - exact T3.
  - intros r Hin. rewrite !elem_of_cons, elem_of_nil in Hin.
    destruct Hin as [->|[->|[->|[->|[->|[->|[->|[]]]]]]]]; [done|rewrite <- Hother by done..].
    + by apply (R 5%nat); [lia|..].
    + by apply (R 4%nat); [lia|..].
    + by apply (R 3%nat); [lia|..].
    + by apply (R 2%nat); [lia|..].
    + by apply (R 1%nat); [lia|..].
    + by apply (R 0%nat); [lia|..].
  - by rewrite T6.
  - by rewrite T6.
  - apply (msrs_ok_same _ _ (pc u) _ Hm). intros n. rewrite T6, C2, A6, msr_selectors, !msr_set_msr, msr_selectors.
    destruct (decide (n = MSR_KERNEL_GS_BASE)) as [->|]; [by rewrite (mo_kernel_gs _ _ _ Hm)|].
    destruct (decide (n = MSR_GS_BASE)) as [->|]; [|done]. by rewrite (mo_gs _ _ _ Hm).
  - exact T7.
  - exact A9.
Qed.

(** C33: a system call from ring 3: the handler receives the number and the three
    arguments in the registers of the C calling convention and runs on the
    kernel's segments; whatever registers it uses, control comes back to the
    instruction after the call, in the user's segments of ring 3, with its stack
    pointer, its callee-saved registers and its flags as they were, the result in
    rax, and the bases of gs in place for the next call. *)
Theorem syscall_roundtrip cpu_data ktop entry h u :
  0 <= cpu_data -> msrs_ok cpu_data entry (pc u) -> stacks_ok cpu_data ktop (ram u) ->
  c_call cpu_data ktop h ->
  (forall r, 0 <= gpr u r < 2 ^ 64) -> 0 <= rip u < 2 ^ 64 -> 0 <= rflags u < 2 ^ 64 ->
  let s := entry_head (syscall u) in
  let u' := entry_tail (h s) in
  rip (syscall u) = entry /\
  gpr s RDI = gpr u RAX /\ gpr s RSI = gpr u RDI /\ gpr s RDX = gpr u RSI /\ gpr s RCX = gpr u RDX /\
  seg_cs (pc s) = GDT_KERNEL_CODE /\ seg_ss (pc s) = GDT_KERNEL_DATA /\
  rip u' = rip u /\ rflags u' = Z.lor (Z.land (rflags u) 0x3C7FD7) 2 /\
  gpr u' RAX = gpr (h s) RAX /\
  (forall r, r ∈ [RSP; RBX; RBP; R12; R13; R14; R15] -> gpr u' r = gpr u r) /\
  seg_cs (pc u') = Z.lor GDT_USER_CODE 3 /\ seg_ss (pc u') = Z.lor GDT_USER_DATA 3 /\
  msrs_ok cpu_data entry (pc u').
Proof.
  intros Hp Hm Hs Hc Hr Hrip Hfl. cbv zeta.
  destruct (syscall_effect cpu_data ktop entry h u Hp Hm Hs Hc Hr Hrip Hfl)
    as (? & ? & ? & ? & ? & ? & ? & ? & ? & ? & ? & ? & ? & ? & _). by split_and!.
Qed.

(** ** [SYS_WRITE] *)

(** It prints the text it reads, each byte as it is when its turn comes. *)
Lemma write_loop_print {D} `{!PortBus D} text byte buf i (k : con D) :
  (forall j b, text !! j = Some b ->
     i8 (byte (scr (vga_print (take j text) k)) (u64 (buf + i + Z.of_nat j))) = i8 b) ->
  write_loop (length text) byte buf i k = vga_print text k.
Proof.
  revert i k. induction text as [|b text IH]; intros i k Hb; cbn [length write_loop vga_print]; [done|].
  pose proof (Hb 0%nat b eq_refl) as H0. rewrite Z.add_0_r in H0. cbn [take vga_print] in H0. rewrite H0. apply IH.
  intros j c Hj. replace (buf + (i + 1) + Z.of_nat j) with (buf + i + Z.of_nat (S j)) by lia.
  exact (Hb (S j) c Hj).
Qed.

(** C35: [syscall_handler] on every number: [SYS_WRITE] to the standard output
    prints the bytes at the buffer, wherever it is, each as it is when the loop comes to
    it (the screen itself may be the buffer), and returns their number;
    [SYS_YIELD] returns 0; every other request but [SYS_EXIT] returns -1 and prints
    nothing. *)
Theorem syscall_handler_spec {D} `{!PortBus D} byte num arg1 buf text (k : con D) :
  (forall j b, text !! j = Some b -> byte (scr (vga_print (take j text) k)) (u64 (buf + Z.of_nat j)) = b) ->
  syscall_handler byte num arg1 buf (Z.of_nat (length text)) k =
    if num =? SYS_EXIT then (None, k)
    else if (num =? SYS_WRITE) && (arg1 =? 1) then (Some (Z.of_nat (length text)), vga_print text k)
    else if num =? SYS_YIELD then (Some 0, k)
    else (Some (2 ^ 64 - 1), k).
Proof.
  intros Hb. unfold syscall_handler. destruct (Z.eqb_spec num SYS_EXIT); [done|].
  destruct (Z.eqb_spec num SYS_WRITE) as [->|].
  - destruct (Z.eqb_spec arg1 1); [|done]. cbn [andb]. rewrite Nat2Z.id. f_equal.
    apply write_loop_print. intros j b Hj. rewrite Z.add_0_r. by rewrite (Hb j b Hj).
  - cbn [andb]. destruct (Z.eqb_spec num SYS_READ) as [->|]; [done|]. by destruct (num =? SYS_YIELD).
Qed.

(** ** Witnesses *)

(** The handler called by the entry code: it sees memory and leaves the number in rax. *)
Definition call_handler {D} `{!PortBus D} (k : con D) (s : machine) : machine :=
  set_reg RAX (default 0 (fst (syscall_handler (with_screen (ram s)) (gpr s RDI) (gpr s RSI) (gpr s RDX) (gpr s RCX) k)))
    (set_reg R8 0xBAD (set_reg RBX 0xBAD s)).

Lemma call_handler_c {D} `{!PortBus D} cpu_data ktop (k : con D) : c_call cpu_data ktop (call_handler k).
Proof. intros s. unfold call_handler. by rewrite !gpr_set_ne. Qed.

(** A user process about to write three bytes. *)
Definition user_cpu : cpu :=
  snd (syscall_init 0x104300 0x101000 (Mem (fun _ => 0) ∅, some_cpu)).
Definition user_machine : machine :=
  Machine (fun r => match r with RAX => 1 | RDI => 1 | RSI => 0x800000 | RDX => 3 | RSP => 0x800ff0
                            | RBX => 77 | _ => 5 end)
    0x40001e 0x202 user_cpu (syscall_set_kernel_stack 0x104300 0x110000 (Mem (fun _ => 65) ∅)).

Lemma user_machine_ok :
  msrs_ok 0x104300 0x101000 (pc user_machine) /\ stacks_ok 0x104300 0x110000 (ram user_machine).
Proof.
  split.
  - pose proof (syscall_init_msrs 0x104300 0x101000 (Mem (fun _ => 0) ∅) some_cpu ltac:(lia) ltac:(lia)) as H.
    unfold user_machine, user_cpu. cbn [pc]. destruct (syscall_init _ _ _) as [m c]. apply H.
  - split; [by vm_compute|lia|lia].
Qed.

Lemma syscall_roundtrip_witness :
  rip (entry_tail (call_handler boot_con (entry_head (syscall user_machine)))) = 0x40001e.
Proof.
  destruct user_machine_ok as [Hm Hs].
  destruct (syscall_roundtrip 0x104300 0x110000 0x101000 (call_handler boot_con) user_machine
    ltac:(done) Hm Hs (call_handler_c _ _ _)) as (_ & _ & _ & _ & _ & _ & _ & H & _).
  - intros r. destruct r; cbn; lia.
  - cbn. lia.
  - cbn. lia.
  - exact H.
Defined.

(** A buffer in memory, and one on the screen, whose second byte, the colour of the first
    cell, is read after that cell has been printed over. *)
Lemma syscall_handler_spec_witness :
  syscall_handler (with_screen (CString.text (str "hi"))) SYS_WRITE 1 100 2 boot_con = (Some 2, vga_print (str "hi") boot_con) /\
  syscall_handler (with_screen (Mem (fun _ => 0) ∅)) SYS_WRITE 1 0xB8000 3 boot_con =
    (Some 3, vga_print [0x41; 0x0F; 0x42] boot_con).
Proof.
  split.
  - apply (syscall_handler_spec (with_screen (CString.text (str "hi"))) SYS_WRITE 1 100 (str "hi") boot_con).
    intros [|[|j]] b Hj; [by injection Hj as <-|by injection Hj as <-|done].
  - apply (syscall_handler_spec (with_screen (Mem (fun _ => 0) ∅)) SYS_WRITE 1 0xB8000 [0x41; 0x0F; 0x42] boot_con).
    intros [|[|[|j]]] b Hj; [injection Hj as <-; by vm_compute..|done].
Defined.

End Syscall.
