(* ===== verification/Commands.v ===== *)
(** * The commands of the shell ([commands/*.c], but for the tests of the memory managers)

    A command works on [sys], the state of the kernel; [stop] says how it ended
    when it did not return to the shell. *)

From S2P Require Import Prelude CString Ports Vga Frames Pmm Mmu Vmm Heap KHeap Isr Task Keyboard Interrupts Desc Shell.
Import CString Vga Mmu Vmm Task Interrupts Shell.
Local Open Scope Z_scope.
Local Open Scope kios_scope.

Module Commands.

(** How control leaves a command: an endless loop with interrupts off or on, the
    reset or the power switch, an exception, or a jump to user mode. *)
Inductive stop :=
  Halted | Spinning | ResetPulse | PowerOff | Exception (vector : Z) | UserMode (rip rsp : Z).

(** ** Commands that only use the console and the ports *)
Section console.
  Context {D : Type} `{!PortBus D}.

Definition nl : con D -> con D := vga_println [].
Definition out (s : string) : con D -> con D := vga_print (str s).
Definition outln (s : string) : con D -> con D := vga_println (str s).
Definition colored (s : string) (fg : Z) : con D -> con D := vga_print_colored (str s) fg VGA_BLACK.

Definition cmd_clear (args : list Z) : con D -> con D := vga_clear.

Definition cmd_color (args : list Z) : con D -> con D :=
  nl >>> out "  " >>>
  for_range 0 16 (fun i => vga_set_color VGA_BLACK i >>> out "  ") >>>
  vga_set_color VGA_WHITE VGA_BLACK >>> nl >>> out "  " >>>
  for_range 0 16 (fun i => vga_set_color i VGA_BLACK >>> out "##") >>>
  vga_set_color VGA_WHITE VGA_BLACK >>> nl >>> nl.

Definition cmd_echo (args : list Z) : con D -> con D := vga_println args.

Definition cmd_halt (args : list Z) (k : con D) : stop * con D :=
  (Halted, (outln "System halted. You can turn off your computer." >>> nl) k).

(** One line of [cmd_help]. *)
Definition help_line (e : shell_command_t) : con D -> con D :=
  colored "  " VGA_WHITE >>>
  vga_print_colored (name e) VGA_LIGHT_CYAN VGA_BLACK >>>
  for_range 0 (12 - Z.of_nat (length (name e))) (fun _ => vga_putchar 32) >>>
  vga_println (help e).

Definition cmd_help (args : list Z) : con D -> con D :=
  nl >>> colored "  KiOS Shell Commands" VGA_YELLOW >>> nl >>>
  outln "  ================================" >>> nl >>>
  (fun k => fold_left (fun k e => help_line e k) shell_commands k) >>> nl.

Definition cmd_info (args : list Z) : con D -> con D :=
  nl >>> colored "  KiOS " VGA_LIGHT_CYAN >>> outln "v0.5.0" >>> nl >>>
  out "  Architecture: " >>> outln "x86_64 (Long Mode)" >>>
  out "  Video:        " >>> outln "VGA Text Mode 80x25" >>>
  out "  Kernel at:    " >>> vga_print_hex 0x100000 >>> outln " (1MB)" >>>
  out "  VGA Buffer:   " >>> vga_print_hex 0xB8000 >>> nl >>> nl.

Definition cmd_mem (args : list Z) : con D -> con D :=
  nl >>> outln "  Memory Layout (approximate):" >>> nl >>>
  out "  0x00000000 - 0x000003FF  " >>> outln "IVT (Real Mode)" >>>
  out "  0x00000400 - 0x000004FF  " >>> outln "BIOS Data Area" >>>
  out "  0x00007C00 - 0x00007DFF  " >>> outln "Bootloader Stage 1" >>>
  out "  0x00007E00 - 0x0000BDFF  " >>> outln "Bootloader Stage 2" >>>
  out "  0x00010000 - 0x00017FFF  " >>> outln "Kernel Load Buffer" >>>
  out "  0x000A0000 - 0x000BFFFF  " >>> outln "VGA Memory" >>>
  out "  0x000B8000 - 0x000B8F9F  " >>> outln "VGA Text Buffer" >>>
  out "  0x00100000 - ...         " >>> outln "Kernel (1MB+)" >>>
  out "  0x00200000               " >>> outln "Stack Top" >>> nl.

Definition cmd_netconf (args : list Z) : con D -> con D := outln "No network interfaces configured.".

(** The loop that waits for the controller, at most [fuel] reads; then the pulse. *)
Fixpoint wait_input (fuel : nat) (d : D) : option D :=
  match fuel with
  | O => None
  | S fuel =>
      let '(good, d) := inb 0x64 d in
      if negb (Z.land good 0x02 =? 0) then wait_input fuel d else Some d
  end.

Definition cmd_reboot (fuel : nat) (args : list Z) (k : con D) : option (stop * con D) :=
  let k := outln "Rebooting..." k in
  match wait_input fuel (bus k) with
  | None => None
  | Some d => Some (ResetPulse, Con (scr k) (outb 0x64 0xFE d))
  end.

Definition cmd_shutdown (args : list Z) (k : con D) : stop * con D :=
  let k := outln "Shutting down..." k in (PowerOff, Con (scr k) (outw 0x604 0x2000 (bus k))).

(** ** The clock *)

Definition CMOS_ADDR_PORT : Z := 0x70.
Definition CMOS_DATA_PORT : Z := 0x71.

Definition cmos_read (reg : Z) (d : D) : Z * D := inb CMOS_DATA_PORT (outb CMOS_ADDR_PORT reg d).

Definition bcd_to_bin (bcd : Z) : Z := u8 (Z.shiftr bcd 4 * 10 + Z.land bcd 0x0F).

(** [while (cmos_read(0x0A) & 0x80)]. *)
Fixpoint wait_update (fuel : nat) (d : D) : option D :=
  match fuel with
  | O => None
  | S fuel =>
      let '(v, d) := cmos_read 0x0A d in
      if negb (Z.land v 0x80 =? 0) then wait_update fuel d else Some d
  end.

(** A number of two digits, as the code prints one. *)
Definition two_digits (v : Z) : con D -> con D :=
  (if v <? 10 then vga_putchar 48 else id) >>> vga_print_dec v.

Definition cmd_time (fuel : nat) (args : list Z) (k : con D) : option (con D) :=
  match wait_update fuel (bus k) with
  | None => None
  | Some d =>
      let '(second, d) := cmos_read 0x00 d in
      let '(minute, d) := cmos_read 0x02 d in
      let '(hour, d) := cmos_read 0x04 d in
      let '(day, d) := cmos_read 0x07 d in
      let '(month, d) := cmos_read 0x08 d in
      let '(year, d) := cmos_read 0x09 d in
      let '(regB, d) := cmos_read 0x0B d in
      let bcd := Z.land regB 0x04 =? 0 in
      let second := if bcd then bcd_to_bin second else second in
      let minute := if bcd then bcd_to_bin minute else minute in
      let hour := if bcd then u8 (Z.lor (bcd_to_bin (Z.land hour 0x7F)) (Z.land hour 0x80)) else hour in
      let day := if bcd then bcd_to_bin day else day in
      let month := if bcd then bcd_to_bin month else month in
      let year := if bcd then bcd_to_bin year else year in
      let hour := if (Z.land regB 0x02 =? 0) && negb (Z.land hour 0x80 =? 0)
                  then (Z.land hour 0x7F + 12) mod 24 else hour in
      Some ((nl >>> out "  Current time (UTC): " >>> out "20" >>>
        two_digits year >>> vga_putchar 45 >>> two_digits month >>> vga_putchar 45 >>>
        two_digits day >>> vga_putchar 32 >>> two_digits hour >>> vga_putchar 58 >>>
        two_digits minute >>> vga_putchar 58 >>> two_digits second >>> nl >>> nl)
        (Con (scr k) d))
  end.

End console.

(** ** Commands that use the rest of the kernel *)
Section kernel.
  Context {A : Type} `{!FrameAllocator A} `{!PageManager A} {D : Type} `{!PortBus D}.

(** The state: the kernel's and the processor's. *)
Record sys := Sys { ks : kst (H := Heap.heap (A := A) (D := D)); kcpu : Desc.cpu }.

Definition set_ks (k : kst) (s : sys) : sys := Sys k (kcpu s).

(** The virtual memory below the heap, and the console. *)
Definition vms (s : sys) : vm (A := A) (D := D) := Heap.vmst (low (ks s)).
Definition set_vms (v : vm) (s : sys) : sys := set_ks (set_low (Heap.set_vmst v (low (ks s))) (ks s)) s.
Definition cons (f : con D -> con D) (s : sys) : sys := set_vms (set_kcon (f (kcon (vms s))) (vms s)) s.

(** Memory through the page tables; [None] is a page fault. *)
Definition load64 (v : Z) (s : sys) : option Z :=
  match translate (ram (vms s)) (cr3 (vms s)) v with
  | Some p => Some (ld64 (ram (vms s)) p) | None => None end.
Definition store64 (v x : Z) (s : sys) : option sys :=
  match translate (ram (vms s)) (cr3 (vms s)) v with
  | Some p => Some (set_vms (set_ram (st64 (ram (vms s)) p x) (vms s)) s) | None => None end.
Definition store8 (v x : Z) (s : sys) : option sys :=
  match translate (ram (vms s)) (cr3 (vms s)) v with
  | Some p => Some (set_vms (set_ram (wr (ram (vms s)) p x) (vms s)) s) | None => None end.
Definition load8 (v : Z) (s : sys) : option Z :=
  match translate (ram (vms s)) (cr3 (vms s)) v with
  | Some p => Some (rd (ram (vms s)) p) | None => None end.

(** [strncmp(args, lit, n) == 0]. *)
Definition starts (args : list Z) (lit : string) (n : nat) : bool :=
  str_diff (take n args) (take n (str lit)) =? 0.

Definition cmd_fault (args : list Z) (s : sys) : option stop * sys :=
  match args with
  | [] => (None, cons (outln "Usage: fault <div0|ud|pf>" >>>
             outln "  div0  - Division durch Null (Exception 0)" >>>
             outln "  ud    - Ungültiger Opcode (Exception 6)" >>>
             outln "  pf    - Page Fault (Exception 14, nur wenn Paging aktiv)") s)
  | _ =>
      if starts args "div0" 4 then (Some (Exception 0), cons (outln "Trigger: Division durch Null!") s)
      else if starts args "ud" 2 then (Some (Exception 6), cons (outln "Trigger: Ungültiger Opcode!") s)
      else if starts args "pf" 2 then
        let s := cons (outln "Trigger: Page Fault (nur mit Paging!)") s in
        match translate (ram (vms s)) (cr3 (vms s)) 0xDEADBEEF with
        | Some p => (None, set_vms (set_ram (st 4 (ram (vms s)) p 42) (vms s)) s)
        | None => (Some (Exception 14), s)
        end
      else (None, cons (outln "Unbekannter Fault-Typ. Nutze: div0, ud, pf") s)
  end.

(** One entry of the memory map. *)
Definition mmap_line (m : mem) (i : Z) : con D -> con D :=
  let e := Pmm.entry_at m i in
  out "  Entry " >>> vga_print_dec i >>> out ": base=" >>> vga_print_hex (Pmm.base e) >>>
  out ", length=" >>> vga_print_hex (Pmm.length_ e) >>> out ", type=" >>> vga_print_dec (Pmm.type_ e) >>> nl.

Definition cmd_mmap (args : list Z) (s : sys) : sys :=
  let m := ram (vms s) in
  cons (outln "Detected Memory Map:" >>>
    for_range 0 (Pmm.memory_map_entry_count m) (mmap_line m) >>> nl) s.

(** A count of pages with its size, one line of [cmd_meminfo]. *)
Definition pages_line (label : string) (n : Z) : con D -> con D :=
  out label >>> vga_print_dec (i64 n) >>> out " (" >>> vga_print_dec (i64 (u64 (n * 4))) >>> outln " KB)".

(** The division by a page count of 0 is exception 0. *)
Definition cmd_meminfo (args : list Z) (s : sys) : option stop * sys :=
  let total_pages := pm_total_pages (frames (vms s)) in
  let used_pages := pm_used_pages (frames (vms s)) in
  let free_pages := u64 (total_pages - used_pages) in
  let s := cons (nl >>> outln "=== Memory Information ===" >>> nl >>>
    colored "Physical Memory Manager (PMM):" VGA_LIGHT_CYAN >>> nl >>>
    pages_line "  Total Pages:  " total_pages >>>
    pages_line "  Used Pages:   " used_pages >>>
    pages_line "  Free Pages:   " free_pages) s in
  if total_pages =? 0 then (Some (Exception 0), s)
  else
    let usage_percent := u64 (used_pages * 100) / total_pages in
    let heap_alloc := Heap.heap_total_allocated (low (ks s)) in
    let heap_size := Heap.heap_current_size (low (ks s)) in
    let heap_pages := u64 (heap_size + 4095) / 4096 in
    (None, cons (out "  Usage:        " >>> vga_print_dec (i64 usage_percent) >>> outln "%" >>> nl >>>
      colored "Virtual Memory Manager (VMM):" VGA_LIGHT_CYAN >>> nl >>>
      out "  PML4 Address: " >>> vga_print_hex (vmm_get_cr3 (vms s)) >>> nl >>>
      out "  Page Size:    " >>> outln "4 KB" >>>
      out "  Levels:       " >>> outln "4 (PML4 -> PDPT -> PD -> PT)" >>> nl >>>
      colored "Kernel Heap:" VGA_LIGHT_CYAN >>> nl >>>
      out "  Base Address: " >>> vga_print_hex 0xFFFF800000000000 >>> nl >>>
      out "  Allocated:    " >>> vga_print_dec (i64 heap_alloc) >>> outln " bytes" >>>
      out "  Current Size: " >>> vga_print_dec (i64 heap_size) >>> outln " bytes" >>>
      out "  Pages Mapped: " >>> vga_print_dec (i64 heap_pages) >>> nl >>> nl >>>
      outln "=========================" >>> nl) s).

Definition state_num (t : task_state_t) : Z :=
  match t with
  | TASK_STATE_READY => 0 | TASK_STATE_RUNNING => 1 | TASK_STATE_BLOCKED => 2
  | TASK_STATE_SLEEPING => 3 | TASK_STATE_ZOMBIE => 4
  end.

Definition state_str (t : task_state_t) : string :=
  match t with
  | TASK_STATE_READY => "READY    " | TASK_STATE_RUNNING => "RUNNING  "
  | TASK_STATE_BLOCKED => "BLOCKED  " | TASK_STATE_SLEEPING => "SLEEPING "
  | TASK_STATE_ZOMBIE => "ZOMBIE   "
  end.

(** The name as a string: a name of 32 characters has no NUL in its field, and
    the string runs on into the [state] behind it. *)
Definition name_str (t : task_t) : list Z := c_str (Task.name t ++ [state_num (state t); 0]).

Definition task_line (t : task_t) : con D -> con D :=
  vga_print_dec (pid t) >>> out "    " >>> out (state_str (state t)) >>> out " " >>> vga_println (name_str t).

Definition cmd_tasks (args : list Z) (s : sys) : sys :=
  let ts := tk (ks s) in
  let count := task_count ts in
  if count =? 0 then cons (outln "No tasks running.") s
  else
    cons (outln "PID  State      Name" >>> outln "---  ---------  --------" >>>
      for_range 0 count (fun i =>
        let task := task_get_by_index i ts in
        if task =? 0 then id else task_line (tcb ts task))) s.

Definition cmd_uptime (args : list Z) (s : sys) : sys :=
  let total_seconds := pit_get_uptime_seconds (ks s) in
  let hours := total_seconds / 3600 in
  let minutes := (total_seconds mod 3600) / 60 in
  let seconds := total_seconds mod 60 in
  cons (out "System uptime: " >>> vga_print_dec (i64 hours) >>> out "h " >>>
    vga_print_dec (i64 minutes) >>> out "m " >>> vga_print_dec (i64 seconds) >>> outln "s") s.

End kernel.

(** ** What the clock shows *)

(** The two digits of a number below 100. *)
Definition d2 (v : Z) : list Z := [48 + v / 10; 48 + v mod 10].

(** A property of the numbers below [n], by evaluation. *)
Lemma below (P : Z -> bool) n : forallb P (seqZ 0 n) = true -> forall v, 0 <= v < n -> P v = true.
Proof. rewrite forallb_forall. intros H v Hv. apply H, list_elem_of_In, elem_of_seqZ. lia. Qed.

Lemma two_digits_print {D} `{!PortBus D} v (k : con D) :
  0 <= v < 100 -> two_digits v k = vga_print (d2 v) k.
Proof.
  intros Hv. assert (E : (if v <? 10 then [48] else []) ++ (if v =? 0 then [48] else dec_buffer dec_fuel v []) = d2 v).
  { apply (bool_decide_eq_true _). revert v Hv. apply below. by vm_compute. }
  assert (Hr : Forall (fun b => 0 <= b < 128) (dec_buffer dec_fuel v [])).
  { apply (bool_decide_eq_true _). revert v Hv E. intros v Hv _. revert v Hv. apply below. by vm_compute. }
  unfold two_digits, and_then, vga_print_dec. rewrite <- E, vga_print_app.
  destruct (Z.ltb_spec v 0); [lia|]. destruct (Z.ltb_spec v 10), (Z.eqb_spec v 0); try lia; cbn [id];
    rewrite ?fold_putchar by done; done.
Qed.

Lemma println_print {D} `{!PortBus D} s (k : con D) : vga_println s k = vga_print (s ++ [10]) k.
Proof. by rewrite vga_print_app. Qed.

Lemma putchar_print {D} `{!PortBus D} c (k : con D) : 0 <= c < 128 -> vga_putchar c k = vga_print [c] k.
Proof. intros Hc. cbn [vga_print]. by rewrite i8_ascii. Qed.

Record time := Time { t_sec : Z; t_min : Z; t_hour : Z; t_day : Z; t_month : Z; t_year : Z }.
Definition time_ok (t : time) : Prop :=
  0 <= t_sec t < 60 /\ 0 <= t_min t < 60 /\ 0 <= t_hour t < 24 /\ 0 <= t_day t < 100 /\
  0 <= t_month t < 100 /\ 0 <= t_year t < 100.

(** How the clock stores a number, and the hour, in its four formats: in BCD or
    binary, and by 24 hours or by 12 with bit 7 for the afternoon. *)
Definition clock_byte (bcd : bool) (v : Z) : Z := if bcd then 16 * (v / 10) + v mod 10 else v.
Definition clock_hour (bcd h24 : bool) (h : Z) : Z :=
  if h24 then clock_byte bcd h
  else clock_byte bcd (if h mod 12 =? 0 then 12 else h mod 12) + (if 12 <=? h then 128 else 0).

(** The content of a register, at a time and with the format bits of register 0x0B. *)
Definition holds (bcd h24 : bool) (t : time) (r v : Z) : Prop :=
  (r = 0x00 -> v = clock_byte bcd (t_sec t)) /\ (r = 0x02 -> v = clock_byte bcd (t_min t)) /\
  (r = 0x04 -> v = clock_hour bcd h24 (t_hour t)) /\ (r = 0x07 -> v = clock_byte bcd (t_day t)) /\
  (r = 0x08 -> v = clock_byte bcd (t_month t)) /\ (r = 0x09 -> v = clock_byte bcd (t_year t)) /\
  (r = 0x0B -> Z.testbit v 2 = negb bcd /\ Z.testbit v 1 = h24).

(** What the data sheet of the clock promises.  Bit 7 of register 0x0A is set while an
    update is under way or about to begin, for [rtc_busy] more reads of it.  Once it is
    read clear the next update is at least 244 us away, time for [rtc_quiet] reads of
    registers, seven at least.  Only while that lasts do the registers hold the time;
    of a read at any other moment, and of the time then, nothing is promised but that
    it is a time. *)
Class Clock (D : Type) `{!PortBus D} := {
  rtc_now : D -> time;
  rtc_bcd : D -> bool;
  rtc_h24 : D -> bool;
  rtc_busy : D -> nat;
  rtc_quiet : D -> nat;
  law_status d :
    let '(v, d') := cmos_read 0x0A d in
    Z.testbit v 7 = (0 <? rtc_busy d)%nat /\ rtc_bcd d' = rtc_bcd d /\ rtc_h24 d' = rtc_h24 d /\
    (time_ok (rtc_now d) -> time_ok (rtc_now d')) /\
    match rtc_busy d with O => (7 <= rtc_quiet d')%nat | S n => rtc_busy d' = n end;
  law_register r d n : 0 <= r < 128 -> r <> 0x0A -> time_ok (rtc_now d) -> rtc_quiet d = S n ->
    let '(v, d') := cmos_read r d in
    holds (rtc_bcd d) (rtc_h24 d) (rtc_now d) r v /\ rtc_quiet d' = n /\
    rtc_now d' = rtc_now d /\ rtc_bcd d' = rtc_bcd d /\ rtc_h24 d' = rtc_h24 d
}.

(** The wait ends where the registers can be read seven times. *)
Lemma wait_update_quiet {D} `{Clock D} fuel (d : D) :
  time_ok (rtc_now d) -> (rtc_busy d < fuel)%nat ->
  exists d', wait_update fuel d = Some d' /\ (7 <= rtc_quiet d')%nat /\ time_ok (rtc_now d') /\
    rtc_bcd d' = rtc_bcd d /\ rtc_h24 d' = rtc_h24 d.
Proof.
  revert d. induction fuel as [|fuel IH]; intros d Ht Hf; [lia|]. cbn [wait_update].
  pose proof (law_status d) as Hr. destruct (cmos_read 0x0A d) as [v d']. destruct Hr as (R1 & R2 & R3 & R4 & R5).
  change 0x80 with (Z.shiftl 1 7). rewrite land_bit, negb_involutive, R1 by lia.
  destruct (rtc_busy d) as [|n]; cbn [Nat.ltb Nat.leb].
  - exists d'. split; [done|]. split; [done|]. split; [auto|done].
  - destruct (IH d') as (d2 & E & Q1 & Q2 & Q3 & Q4); [auto|lia|]. exists d2. split; [done|]. split; [done|].
    split; [done|]. by rewrite Q3, Q4.
Qed.

(** One read in that time. *)
Lemma read_quiet {D} `{Clock D} bcd h24 t r n (d : D) :
  0 <= r < 128 -> r <> 0x0A -> time_ok t -> (S n <= rtc_quiet d)%nat -> rtc_now d = t -> rtc_bcd d = bcd -> rtc_h24 d = h24 ->
  exists v d', cmos_read r d = (v, d') /\ holds bcd h24 t r v /\
    (n <= rtc_quiet d')%nat /\ rtc_now d' = t /\ rtc_bcd d' = bcd /\ rtc_h24 d' = h24.
Proof.
  intros Hr Hne Ht Hq <- <- <-. destruct (rtc_quiet d) as [|q] eqn:E; [lia|].
  pose proof (law_register r d q Hr Hne Ht E) as L. destruct (cmos_read r d) as [v d']. destruct L as (L1 & L2 & L3 & L4 & L5).
  exists v, d'. split; [done|]. split; [done|]. split; [lia|done].
Qed.

(** The hour printed: right but for the hours 0 and 12 of a 12-hour clock. *)
Definition shown_hour (h24 : bool) (h : Z) : Z := if negb h24 && (h mod 12 =? 0) then 12 - h else h.

Lemma number_decoded (bcd : bool) v :
  0 <= v < 100 -> (if bcd then bcd_to_bin (clock_byte bcd v) else clock_byte bcd v) = v.
Proof. destruct bcd; [|done]. intros Hv. apply (bool_decide_eq_true _). revert v Hv. apply below. by vm_compute. Qed.

Lemma hour_decoded (bcd h24 : bool) h :
  0 <= h < 24 ->
  let raw := clock_hour bcd h24 h in
  let hour := if bcd then u8 (Z.lor (bcd_to_bin (Z.land raw 0x7F)) (Z.land raw 0x80)) else raw in
  (if negb h24 && negb (Z.land hour 0x80 =? 0) then (Z.land hour 0x7F + 12) mod 24 else hour) =
  shown_hour h24 h.
Proof.
  intros Hh. cbv zeta. apply (bool_decide_eq_true _). revert h Hh.
  destruct bcd, h24; apply below; by vm_compute.
Qed.

Definition time_text (h24 : bool) (t : time) : list Z :=
  [10] ++ str "  Current time (UTC): " ++ str "20" ++ d2 (t_year t) ++ [45] ++ d2 (t_month t) ++ [45] ++
  d2 (t_day t) ++ [32] ++ d2 (shown_hour h24 (t_hour t)) ++ [58] ++ d2 (t_min t) ++ [58] ++
  d2 (t_sec t) ++ [10] ++ [10].

(** C37: [cmd_time] ends as soon as the clock's update does, and prints the date and the
    time the clock has at that moment, and still has after the last register is
    read, from any of its four formats, in two digits each; but on a clock that
    counts twelve hours it shows midnight as 12 and noon as 00.  Without the wait the
    registers promise nothing. *)
Theorem cmd_time_prints {D} `{Clock D} fuel args (k : con D) :
  time_ok (rtc_now (bus k)) -> (rtc_busy (bus k) < fuel)%nat ->
  exists d d', wait_update fuel (bus k) = Some d /\ time_ok (rtc_now d) /\ rtc_now d' = rtc_now d /\
    cmd_time fuel args k = Some (vga_print (time_text (rtc_h24 (bus k)) (rtc_now d)) (Con (scr k) d')).
Proof.
  intros Ht Hf. unfold cmd_time.
  destruct (wait_update_quiet fuel (bus k) Ht Hf) as (d & -> & Q & Ht' & B & F).
  set (t := rtc_now d) in *. set (bcd := rtc_bcd (bus k)) in *. set (h24 := rtc_h24 (bus k)) in *.
  destruct (read_quiet bcd h24 t 0x00 6 d) as (v1 & d1 & -> & (S1 & _) & Q1 & N1 & B1 & F1); try done.
  destruct (read_quiet bcd h24 t 0x02 5 d1) as (v2 & d2' & -> & (_ & S2 & _) & Q2 & N2 & B2 & F2); try done.
  destruct (read_quiet bcd h24 t 0x04 4 d2') as (v3 & d3 & -> & (_ & _ & S3 & _) & Q3 & N3 & B3 & F3); try done.
  destruct (read_quiet bcd h24 t 0x07 3 d3) as (v4 & d4 & -> & (_ & _ & _ & S4 & _) & Q4 & N4 & B4 & F4); try done.
  destruct (read_quiet bcd h24 t 0x08 2 d4) as (v5 & d5 & -> & (_ & _ & _ & _ & S5 & _) & Q5 & N5 & B5 & F5); try done.
  destruct (read_quiet bcd h24 t 0x09 1 d5) as (v6 & d6 & -> & (_ & _ & _ & _ & _ & S6 & _) & Q6 & N6 & B6 & F6); try done.
  destruct (read_quiet bcd h24 t 0x0B 0 d6) as (v7 & d7 & -> & (_ & _ & _ & _ & _ & _ & S7) & _ & N7 & _); try done.
  pose proof Ht' as (T1 & T2 & T3 & T4 & T5 & T6). exists d, d7. split; [done|]. split; [exact Ht'|]. split; [exact N7|].
  f_equal. rewrite S1, S2, S3, S4, S5, S6 by done. destruct (S7 eq_refl) as [S7a S7b].
  change 0x04 with (Z.shiftl 1 2). change 0x02 with (Z.shiftl 1 1).
  rewrite !(land_bit _ 2), !(land_bit _ 1), S7a, S7b by lia. rewrite negb_involutive.
  rewrite !number_decoded by lia. rewrite hour_decoded by lia.
  assert (Hh : 0 <= shown_hour h24 (t_hour t) < 100).
  { unfold shown_hour. clear - T3. destruct h24, (Z.eqb_spec (t_hour t mod 12) 0); cbn [negb andb]; dlia. }
  unfold time_text, and_then, nl, out. rewrite !vga_print_app. rewrite !two_digits_print by lia.
  rewrite !println_print, !putchar_print by lia. reflexivity.
Qed.

(** ** Witness *)

(** A clock that updates for [c_busy] more polls, and then goes on by a second; a register
    that is read when no poll has just shown it quiet reads as 0xFF. *)
Record rtc_bus := RtcBus { c_index : Z; c_now : time; c_bcd : bool; c_h24 : bool; c_busy : nat; c_quiet : nat }.

Definition next_second (t : time) : time :=
  if t_sec t <? 59 then Time (t_sec t + 1) (t_min t) (t_hour t) (t_day t) (t_month t) (t_year t)
  else Time 0 ((t_min t + 1) mod 60) (t_hour t) (t_day t) (t_month t) (t_year t).

Definition rtc_value (d : rtc_bus) (r : Z) : Z :=
  let byte := clock_byte (c_bcd d) in
  let t := c_now d in
  if r =? 0x00 then byte (t_sec t) else if r =? 0x02 then byte (t_min t)
  else if r =? 0x04 then clock_hour (c_bcd d) (c_h24 d) (t_hour t) else if r =? 0x07 then byte (t_day t)
  else if r =? 0x08 then byte (t_month t) else if r =? 0x09 then byte (t_year t)
  else (if c_bcd d then 0 else 4) + (if c_h24 d then 2 else 0).

Definition rtc_in (d : rtc_bus) : Z * rtc_bus :=
  let '(RtcBus r t bcd h24 busy quiet) := d in
  if r =? 0x0A then
    match busy with
    | O => (0, RtcBus r t bcd h24 0 7)
    | S n => (0x80, RtcBus r (if (n =? 0)%nat then next_second t else t) bcd h24 n 0)
    end
  else match quiet with
       | O => (0xFF, RtcBus r (next_second t) bcd h24 busy 0)
       | S n => (rtc_value d r, RtcBus r t bcd h24 busy n)
       end.

#[export] Instance rtc_port_bus : PortBus rtc_bus := {
  port_in w port d := if port =? CMOS_DATA_PORT then rtc_in d else (0, d);
  port_out w port v d := if port =? CMOS_ADDR_PORT then RtcBus v (c_now d) (c_bcd d) (c_h24 d) (c_busy d) (c_quiet d) else d
}.

Lemma cmos_read_rtc r d : 0 <= r < 128 ->
  cmos_read r d = let '(v, d') := rtc_in (RtcBus r (c_now d) (c_bcd d) (c_h24 d) (c_busy d) (c_quiet d)) in (u8 v, d').
Proof.
  intros Hr. unfold cmos_read, inb, outb. cbn [port_in port_out rtc_port_bus].
  change (u16 CMOS_ADDR_PORT =? CMOS_ADDR_PORT) with true.
  change (u16 CMOS_DATA_PORT =? CMOS_DATA_PORT) with true. by rewrite (u8_small r) by lia.
Qed.

Lemma rtc_value_holds d r : time_ok (c_now d) -> 
  holds (c_bcd d) (c_h24 d) (c_now d) r (u8 (rtc_value d r)).
Proof.
  intros (T1 & T2 & T3 & T4 & T5 & T6).
  assert (Hb : forall bcd v, 0 <= v < 100 -> u8 (clock_byte bcd v) = clock_byte bcd v).
  { intros bcd v Hv. apply (bool_decide_eq_true _). revert v Hv. destruct bcd; apply below; by vm_compute. }
  assert (Hh : forall bcd h24 h, 0 <= h < 24 -> u8 (clock_hour bcd h24 h) = clock_hour bcd h24 h).
  { intros bcd h24 h Hv. apply (bool_decide_eq_true _). revert h Hv. destruct bcd, h24; apply below; by vm_compute. }
  unfold holds. split_and!; intros ->; unfold rtc_value; cbn [Z.eqb Pos.eqb].
  1, 2, 4, 5, 6: apply Hb; lia.
  - by apply Hh.
  - by destruct (c_bcd d), (c_h24 d).
Qed.

#[export, refine] Instance rtc_clock : Clock rtc_bus := {
  rtc_now := c_now; rtc_bcd := c_bcd; rtc_h24 := c_h24; rtc_busy := c_busy; rtc_quiet := c_quiet
}.
Proof.
  - intros [r t bcd h24 busy quiet]. rewrite cmos_read_rtc by lia. cbn [c_now c_bcd c_h24 c_busy c_quiet rtc_in Z.eqb Pos.eqb].
    destruct busy as [|n]; cbn [c_now c_bcd c_h24 c_busy c_quiet]; [by split_and!; try lia|].
    split; [done|]. split; [done|]. split; [done|]. split; [|done]. destruct (n =? 0)%nat; [|done].
    unfold time_ok, next_second. intros (T1 & T2 & T3 & T4 & T5 & T6).
    destruct (Z.ltb_spec (t_sec t) 59); cbn [t_sec t_min t_hour t_day t_month t_year]; split_and!; try lia; dlia.
  - intros r [r0 t bcd h24 busy quiet] n Hr Hne Ht Hq. rewrite cmos_read_rtc by lia.
    cbn [c_now c_bcd c_h24 c_busy c_quiet] in *. subst quiet. unfold rtc_in. destruct (Z.eqb_spec r 0x0A); [done|].
    split; [exact (rtc_value_holds (RtcBus r t bcd h24 busy (S n)) r Ht)|done].
Defined.

(** A second before noon on a twelve-hour clock in BCD, while it updates. *)
Definition before_noon : time := Time 4 30 12 24 12 26.
Definition noon : time := Time 5 30 12 24 12 26.
Definition noon_bus : rtc_bus := RtcBus 0 before_noon true false 2 0.

Lemma cmd_time_prints_witness :
  exists d, cmd_time 3 [] (Con (vga_boot (Mem (fun _ => 0) ∅)) noon_bus) =
    Some (vga_print (time_text false noon) (Con (vga_boot (Mem (fun _ => 0) ∅)) d)) /\
  time_text false noon = [10] ++ str "  Current time (UTC): 2026-12-24 00:30:05" ++ [10; 10].
Proof.
  destruct (cmd_time_prints 3 [] (Con (vga_boot (Mem (fun _ => 0) ∅)) noon_bus)) as (d & d' & E & _ & _ & Ec).
  - unfold time_ok. cbn. lia.
  - cbn. lia.
  - injection E as <-. exists d'. split; [exact Ec|]. by vm_compute.
Defined.

End Commands.
