(* ===== verification/Kernel.v ===== *)
(** * The start of the kernel ([main.c])

    [kernel_main] over the state [sys] of Commands.v, from what a boot loader hands
    over (Boot.v) to the first task switch; the components' theorems are put
    together here. *)

From S2P Require Import Prelude CString Ports Vga Frames Pmm Mmu Vmm Heap Boot KHeap Isr Task Keyboard Interrupts Desc Syscall Commands.
Import Vga Pmm Mmu Vmm Heap Boot Isr Task Keyboard Interrupts Desc Commands Pic.
Local Open Scope Z_scope.
Local Open Scope kios_scope.

Module Kernel.

(** What the linker decides: the ends of the image, the places of the tables and
    of the static variables, and the addresses of functions. *)
Record image := Image {
  kernel_start : Z; kernel_end : Z;
  tables : layout; df_stack : Z; cpu_data : Z;
  isr_stub : Z -> Z; irq_stub : Z -> Z; syscall_entry : Z; shell_task : Z
}.

Section main.
  Context {D : Type} `{!PortBus D} (im : image).
  Notation sys := (sys (A := pmm) (D := D)).

(** All static variables as the C program initialises them; [root] is CR3. *)
Definition boot_sys (m : mem) (root : Z) (k : con D) (c : cpu) : sys :=
  Sys (Kst (Heap.Heap (Vm (Pmm 0 0 0, m) 0 root k []) 0 0) (Tasks [] 0 1 ∅ ∅) irqs_boot pit_boot
         kbuf_boot modifiers_boot) c.

(** Operations on parts of the state. *)
Definition on_ks (f : kst -> kst) (s : sys) : sys := set_ks (f (ks s)) s.
Definition on_bus (f : D -> D) : sys -> sys := on_ks (kbus f).
Definition on_vm (f : vm (A := pmm) (D := D) -> vm) (s : sys) : sys := set_vms (f (vms s)) s.
Definition on_heap (f : heap (A := pmm) (D := D) -> heap) (s : sys) : sys := on_ks (fun k => set_low (f (low k)) k) s.
Definition on_tables (f : mem * cpu -> mem * cpu) (s : sys) : sys :=
  let '(m, c) := f (ram (vms s), kcpu s) in Sys (ks (on_vm (set_ram m) s)) c.
Definition on_tasks (f : tasks * heap (A := pmm) (D := D) -> tasks * heap) (s : sys) : sys :=
  let '(ts, h) := f (tk (ks s), low (ks s)) in on_ks (fun k => set_tk ts (set_low h k)) s.

(** Up to the banner. *)
Definition init_memory (s : sys) : sys :=
  let s := cons (vga_set_color VGA_WHITE VGA_BLACK >>> vga_clear) s in
  let s := on_bus (pic_remap 32 40) s in
  let s := for_range 0 16 (fun i => on_bus (pic_set_mask i)) s in
  let s := on_tables (tables_init (tables im) (isr_stub im) (irq_stub im) (df_stack im) 8192) s in
  let s := on_vm (fun v => set_frames (pmm_init (kernel_start im) (kernel_end im) (ram v)) v) s in
  let s := on_vm vmm_init s in
  let s := on_heap heap_init s in
  on_tables (Syscall.syscall_init (cpu_data im) (syscall_entry im)) s.

Definition banner : con D -> con D :=
  nl >>>
  colored "    _  ___  ___  ____   " VGA_LIGHT_CYAN >>> nl >>>
  colored "   | |/ (_)/ _ \/ ___|  " VGA_LIGHT_CYAN >>> nl >>>
  colored "   | ' /| | | | \___ \  " VGA_LIGHT_CYAN >>> nl >>>
  colored "   | . \| | |_| |___) | " VGA_LIGHT_CYAN >>> nl >>>
  colored "   |_|\_\_|\___/|____/  " VGA_LIGHT_CYAN >>> nl >>> nl >>>
  colored "  Welcome to KiOS v0.5.0" VGA_YELLOW >>> outln " - A simple 64-bit operating system" >>> nl >>>
  out "  Running in " >>> colored "x86_64 Long Mode" VGA_LIGHT_GREEN >>> nl >>>
  out "  Type " >>> colored "help" VGA_LIGHT_CYAN >>> outln " for available commands." >>> nl.

Definition init_tasks (s : sys) : sys :=
  let s := on_tasks task_init s in
  let s := on_tasks (fun t => snd (task_create (str "shell") (shell_task im) 16384 t)) s in
  let s := on_ks pit_init s in
  let s := on_ks keyboard_irq_init s in
  on_ks pit_enable_scheduler s.

(** [kernel_main] up to [sti]. *)
Definition kernel_init (s : sys) : sys := init_tasks (cons banner (init_memory s)).

(** An interrupt: the frame the stub returns to, and the state. *)
Definition take (i : interrupt (D := D)) (s : sys) : Z * sys :=
  let k := kbus (i_dev i) (ks s) in
  let k := set_tk (set_frame (i_addr i) (with_int_no (32 + i_irq i) (i_frame i)) (tk k)) k in
  let '(f, k) := irq_handler (i_addr i) (32 + i_irq i) k in
  (f, set_ks k s).

(** The [hlt] loop: it goes on after every interrupt that returns to its own
    frame; another frame is a task's, to which control passes. *)
Fixpoint idle (env : list (interrupt (D := D))) (s : sys) : option (Z * list (interrupt (D := D))) * sys :=
  match env with
  | [] => (None, s)
  | i :: env =>
      let '(f, s) := take i s in
      if f =? i_addr i then idle env s else (Some (f, env), s)
  end.

(** [sti], the interrupts [early] before the timer's line is unmasked, and the loop. *)
Definition kernel_main (early env : list (interrupt (D := D))) (s : sys)
    : option (Z * list (interrupt (D := D))) * sys :=
  let s := kernel_init s in
  let s := fold_left (fun s i => snd (take i s)) early s in
  let s := on_bus (pic_clear_mask 0) s in
  idle env s.

End main.

(** ** What the linker guarantees *)

Definition in_image (im : image) (x : Z) : Prop := kernel_start im <= x < kernel_end im.

Record image_ok (im : image) : Prop := {
  io_start : kernel_start im = 0x100000;
  io_end : 0x100000 <= kernel_end im <= 0x400000;
  io_placed : placed (tables im);
  io_tables x : in_tables (tables im) x -> in_image im x;
  io_operands x : in_operands (tables im) x -> in_image im x;
  io_cpu_data x : cpu_data im <= x < cpu_data im + 24 -> in_image im x /\ ~ in_tables (tables im) x;
  io_stubs v : 0 <= v < 48 -> 0 <= stub (isr_stub im) (irq_stub im) v < 2 ^ 64;
  io_entry : 0 <= syscall_entry im < 2 ^ 64
}.

(** The contract with the boot loader, what the kernel needs in the first megabyte: the
    memory map, and the page tables in use, on the pages from [t] on below it. *)
Definition handed_over (t : Z) (m : mem) : Prop := t + 3 * 4096 <= 0x10000 /\ boot_tables t m /\ fallback_map m.

Lemma setup_paging_above t m : t + 3 * 4096 <= 0x10000 ->
  agree_on (fun x => 0x10000 <= x) m (setup_paging t m).
Proof. intros Ht x Hx. apply setup_paging_only_in. lia. Qed.

(** It is what [create_fallback_memory_map] and [setup_paging] make, whatever else is
    written elsewhere. *)
Lemma handed_over_made t m m0 m1 :
  t mod 4096 = 0 -> 0 < t -> t + 3 * 4096 <= 0x10000 -> fallback_map m0 ->
  agree_on (fun x => 0x10000 <= x < 0x10032) m0 m ->
  agree_on (fun x => t <= x < t + 3 * 4096 \/ 0x10000 <= x < 0x10032) (setup_paging t m) m1 ->
  handed_over t m1.
Proof.
  intros H1 H2 H3 Hf Ha Hb. split; [done|]. split.
  - eapply boot_tables_agree; [apply (boot_entries t m); lia|]. eapply agree_on_weaken; [|exact Hb]. intros x Hx. by left.
  - eapply fallback_map_agree; [exact Hf|]. eapply agree_on_trans; [exact Ha|].
    eapply agree_on_trans; [eapply agree_on_weaken; [|by apply (setup_paging_above t m)]|eapply agree_on_weaken; [|exact Hb]].
    + intros x Hx. cbv beta in *. lia.
    + intros x Hx. by right.
Qed.

Lemma handed_over_agree t m m' :
  handed_over t m -> agree_on (fun x => 0 < x < 0x10032) m m' -> handed_over t m'.
Proof.
  intros (H1 & H2 & H3) Ha. pose proof (bt_low _ _ H2). split; [done|]. split.
  - eapply boot_tables_agree; [done|]. eapply agree_on_weaken; [|exact Ha]. intros x Hx. cbv beta in *. lia.
  - eapply fallback_map_agree; [done|]. eapply agree_on_weaken; [|exact Ha]. intros x Hx. cbv beta in *. lia.
Qed.

(** ** The memory managers *)

(** The memory [pmm_init] and the boot tables leave to the virtual memory manager. *)
Lemma pmm_boot_vm t im m : image_ok im -> boot_tables t m -> fallback_map m -> t + 3 * 4096 <= 0x10000 ->
  let st := pmm_init (kernel_start im) (kernel_end im) m in
  vm_inv (boot_tab t) (in_image im) t st /\ 31000 <= fa_count st /\ boot_tables t (snd st) /\
  agree_on (in_image im) m (snd st).
Proof.
  intros Him Hbt Hfm Ht. pose proof (io_start _ Him) as Hks. pose proof (io_end _ Him) as Hke.
  assert (Hmap : boot_map_ok (kernel_start im) (kernel_end im) m) by (rewrite Hks; apply fallback_ok; [done|lia]).
  pose proof (fallback_total m Hfm) as Htot.
  destruct (pmm_init_holds _ _ m Hmap) as (Hst & Hout & Hused).
  destruct (pmm_init_safe _ _ m Hmap) as [Hinv Hfree].
  set (st := pmm_init _ _ m) in *. cbv zeta. cbn [bitmap total_pages] in Hst, Hout, Hused.
  assert (Hbm : kernel_end im <= boot_bitmap (kernel_end im) < kernel_end im + 4096)
    by (unfold boot_bitmap, PAGE_SIZE; dlia).
  rewrite Htot in Hst, Hused, Hfree. change ((32768 + 7) / 8) with 4096 in Hfree. unfold bitmap_bytes in Hout. cbn [total_pages] in Hout. rewrite Htot in Hout.
  change ((32768 + 7) / 8) with 4096 in Hout.
  assert (Hag : agree_on (fun x => x < kernel_end im) m (snd st)).
  { eapply agree_on_weaken; [|exact Hout]. intros x Hx. cbv beta in *. lia. }
  assert (Hbt' : boot_tables t (snd st)).
  { eapply boot_tables_agree; [exact Hbt|]. eapply agree_on_weaken; [|exact Hag]. intros x Hx. cbv beta in *. lia. }
  assert (Hfoot : forall x, fa_foot (fst st) x -> kernel_end im <= x).
  { intros x Hx. cbn [fa_foot pmm_frames] in Hx. unfold pmm_foot in Hx. rewrite Hst in Hx. cbn [bitmap set_used] in Hx. lia. }
  assert (Htab : forall x p, boot_tab t x = Some p -> 0 <= x /\ x + 4096 <= 0x10000).
  { intros x p Hx. pose proof (bt_low _ _ Hbt). destruct (boot_tab_cases t x p Hx) as [[-> _]|[[-> _]|[-> _]]]; lia. }
  unfold in_image. split; [|split; [|split; [exact Hbt'|]]].
  - split; [exact Hinv|by apply boot_tree| | | | |].
    + intros x p Hx Hf. pose proof (Htab x p Hx). destruct (Hfree x x Hf); [unfold in_frame|]; lia.
    + intros x p y Hx Hy Hf%Hfoot. pose proof (Htab x p Hx). unfold in_frame in Hy. lia.
    + intros x Hx Hf%Hfoot. lia.
    + intros x f Hx Hf Hy. destruct (Hfree f x Hf Hy) as [_ Hn]. apply Hn. lia.
    + intros x y p Hx Hy Hin. pose proof (Htab y p Hy). unfold in_frame in Hin. lia.
  - cbn [fa_count pmm_frames]. unfold free_count. rewrite Hst. cbn [total_pages used_pages set_used].
    enough (count_below (boot_used (kernel_start im) (kernel_end im) m) (Z.to_nat 32768) <= 1700) by lia.
    apply count_below_bound; [lia|]. rewrite Hks. intros j Hj Hu.
    rewrite fallback_used in Hu by (done || lia). apply Z.ltb_lt in Hu.
    unfold boot_end_page in Hu. rewrite Htot in Hu. unfold PAGE_SIZE in Hu. clear - Hu Hbm Hke. dlia.
  - eapply agree_on_weaken; [|exact Hag]. intros x Hx. cbv beta in *. lia.
Qed.

(** ** The state, part by part *)
Section parts.
  Context {D : Type} `{!PortBus D}.
  Notation sys := (sys (A := pmm) (D := D)).

Definition mk (fr : pmm * mem) (root cr : Z) (k : con D) (l : list Z) (p a : Z)
    (ts : tasks) (iq : irqs) (pt : pit_state) (b : kbuf) (md : modifiers) (c : cpu) : sys :=
  Sys (Kst (Heap.Heap (Vm fr root cr k l) p a) ts iq pt b md) c.

Lemma on_bus_mk f fr root cr k l p a ts iq pt b md c :
  on_bus f (mk fr root cr k l p a ts iq pt b md c) =
  mk fr root cr (Con (scr k) (f (bus k))) l p a ts iq pt b md c.
Proof. reflexivity. Qed.

Lemma cons_mk f fr root cr k l p a ts iq pt b md c :
  cons f (mk fr root cr k l p a ts iq pt b md c) = mk fr root cr (f k) l p a ts iq pt b md c.
Proof. reflexivity. Qed.

Lemma on_vm_frames_mk g fr root cr k l p a ts iq pt b md c :
  on_vm (fun v => set_frames (g (ram v)) v) (mk fr root cr k l p a ts iq pt b md c) =
  mk (g (snd fr)) root cr k l p a ts iq pt b md c.
Proof. reflexivity. Qed.

Lemma on_vm_init_mk fr root cr k l p a ts iq pt b md c :
  on_vm vmm_init (mk fr root cr k l p a ts iq pt b md c) = mk fr cr cr k l p a ts iq pt b md c.
Proof. reflexivity. Qed.

Lemma on_heap_init_mk fr root cr k l p a ts iq pt b md c :
  on_heap heap_init (mk fr root cr k l p a ts iq pt b md c) = mk fr root cr k l HEAP_START 0 ts iq pt b md c.
Proof. reflexivity. Qed.

Lemma on_tables_mk f fr root cr k l p a ts iq pt b md c m' c' :
  f (snd fr, c) = (m', c') ->
  on_tables f (mk fr root cr k l p a ts iq pt b md c) = mk (fst fr, m') root cr k l p a ts iq pt b md c'.
Proof.
  intros E. unfold on_tables. change (ram (vms (mk fr root cr k l p a ts iq pt b md c))) with (snd fr).
  change (kcpu (mk fr root cr k l p a ts iq pt b md c)) with c. rewrite E. reflexivity.
Qed.

Lemma on_tasks_mk f fr root cr k l p a ts iq pt b md c ts' h' :
  f (ts, Heap.Heap (Vm fr root cr k l) p a) = (ts', h') ->
  on_tasks f (mk fr root cr k l p a ts iq pt b md c) = Sys (Kst h' ts' iq pt b md) c.
Proof. intros E. unfold on_tasks. cbn [mk ks tk low]. rewrite E. reflexivity. Qed.

Lemma init_memory_mk (im : image) m root k c m1 c1 m2 c2 :
  tables_init (tables im) (isr_stub im) (irq_stub im) (df_stack im) 8192 (m, c) = (m1, c1) ->
  let st := pmm_init (kernel_start im) (kernel_end im) m1 in
  Syscall.syscall_init (cpu_data im) (syscall_entry im) (snd st, c1) = (m2, c2) ->
  let k1 := (vga_set_color VGA_WHITE VGA_BLACK >>> vga_clear) k in
  let d := for_range 0 16 (fun i => pic_set_mask i) (pic_remap 32 40 (bus k1)) in
  init_memory im (boot_sys m root k c) =
  mk (fst st, m2) root root (Con (scr k1) d) [] HEAP_START 0 (Tasks [] 0 1 ∅ ∅) irqs_boot pit_boot
    kbuf_boot modifiers_boot c2.
Proof.
  cbv zeta. intros E1 E2. unfold init_memory. cbv zeta.
  change (boot_sys m root k c) with
    (mk (Pmm 0 0 0, m) 0 root k [] 0 0 (Tasks [] 0 1 ∅ ∅) irqs_boot pit_boot kbuf_boot modifiers_boot c).
  rewrite cons_mk, on_bus_mk. set (k1 := (_ >>> _) k).
  set (F := fun d => mk (Pmm 0 0 0, m) 0 root (Con (scr k1) d) [] 0 0 (Tasks [] 0 1 ∅ ∅) irqs_boot pit_boot
    kbuf_boot modifiers_boot c).
  change (mk (Pmm 0 0 0, m) 0 root _ [] 0 0 _ _ _ _ _ c) with (F (pic_remap 32 40 (bus k1))).
  rewrite (for_range_sim F 0 16 _ (fun i => pic_set_mask i)) by reflexivity. subst F. cbv beta.
  generalize (for_range 0 16 (fun i => pic_set_mask i) (pic_remap 32 40 (bus k1))) as d. intros d.
  rewrite (on_tables_mk (tables_init (tables im) (isr_stub im) (irq_stub im) (df_stack im) 8192)
    (Pmm 0 0 0, m) 0 root (Con (scr k1) d) [] 0 0 (Tasks [] 0 1 ∅ ∅) irqs_boot pit_boot kbuf_boot modifiers_boot
    c m1 c1 E1). cbn [fst].
  rewrite on_vm_frames_mk. cbn [snd]. revert E2.
  generalize (pmm_init (kernel_start im) (kernel_end im) m1) as st. intros st E2.
  rewrite on_vm_init_mk, on_heap_init_mk.
  by apply on_tables_mk.
Qed.

End parts.

(** ** The interrupt controller *)
Section pic.
  Context {D : Type} `{Pic8259 D}.

(** Both chips operational, on the vectors from 32 and 40, with these lines masked. *)
Definition pic_is (masked : Z -> bool) (d : D) : Prop :=
  operational d /\ vec (regs Master d) = 32 /\ vec (regs Slave d) = 40 /\
  forall n, 0 <= n < 16 -> irq_masked n d = masked n.

Lemma pic_is_out masked port v d :
  (forall c, u16 port <> cmd_port c /\ u16 port <> data_port c) ->
  pic_is masked d -> pic_is masked (outb port v d).
Proof.
  intros Hp (H1 & H2 & H3 & H4).
  assert (E : forall c, regs c (outb port v d) = regs c d) by (intros c; unfold outb; apply law_other; apply Hp).
  unfold pic_is, operational, irq_masked. rewrite !E. split; [intros c; rewrite E; apply H1|].
  split; [done|]. split; [done|]. intros n Hn. rewrite E. by apply H4.
Qed.

#[export] Instance pic_is_off masked : OffScreen (pic_is masked).
Proof. intros port v d Hp. apply pic_is_out. by destruct Hp as [-> | ->]; intros []. Qed.

#[export] Instance operational_off : OffScreen (operational (D := D)).
Proof.
  intros port v d Hp Ho c. unfold outb. rewrite law_other; [apply Ho|..];
    by destruct Hp as [-> | ->], c.
Qed.

Lemma pic_is_set masked n d : 0 <= n < 16 -> pic_is masked d ->
  pic_is (fun m => bool_decide (n = m) || masked m) (pic_set_mask n d).
Proof.
  intros Hn (H1 & H2 & H3 & H4). destruct (pic_set_mask_spec n 0 d Hn ltac:(lia) H1) as (S1 & S2 & _).
  split; [done|]. rewrite !S2. split; [done|]. split; [done|]. intros m Hm.
  destruct (pic_set_mask_spec n m d Hn Hm H1) as (_ & _ & ->). by rewrite H4.
Qed.

Lemma pic_is_clear masked n d : 0 <= n < 16 -> pic_is masked d ->
  pic_is (fun m => negb (bool_decide (n = m)) && masked m) (pic_clear_mask n d).
Proof.
  intros Hn (H1 & H2 & H3 & H4). destruct (pic_clear_mask_spec n 0 d Hn ltac:(lia) H1) as (S1 & S2 & _).
  split; [done|]. rewrite !S2. split; [done|]. split; [done|]. intros m Hm.
  destruct (pic_clear_mask_spec n m d Hn Hm H1) as (_ & _ & ->). by rewrite H4.
Qed.

Lemma pic_is_ext masked masked' d :
  (forall n, 0 <= n < 16 -> masked n = masked' n) -> pic_is masked d -> pic_is masked' d.
Proof. intros E (H1 & H2 & H3 & H4). repeat split; try done. intros n Hn. by rewrite <- E, H4. Qed.

(** Remapped, and every line masked. *)
Lemma pic_all_masked d : operational d ->
  pic_is (fun _ => true) (for_range 0 16 (fun i => pic_set_mask i) (pic_remap 32 40 d)).
Proof.
  intros Hop. destruct (pic_remap_both 32 40 d ltac:(lia) ltac:(lia) Hop) as [R1 R2].
  set (d0 := pic_remap 32 40 d) in *.
  assert (H0 : pic_is (fun n => irq_masked n d0) d0).
  { split; [intros []; [rewrite R1|rewrite R2]; done|]. by rewrite R1, R2. }
  clearbody d0.
  eapply pic_is_ext; [|apply (for_range_inv (fun i d => pic_is (fun n => (n <? i) || irq_masked n d0) d) 0 16);
    [lia|eapply pic_is_ext; [|exact H0]|]].
  - intros n Hn. cbv beta. destruct (Z.ltb_spec n 16); [done|lia].
  - intros n Hn. cbv beta. by destruct (Z.ltb_spec n 0); [lia|].
  - intros i d' Hi Hd. eapply pic_is_ext; [|apply pic_is_set; [done|exact Hd]].
    intros n Hn. cbv beta. case_bool_decide; destruct (Z.ltb_spec n i), (Z.ltb_spec n (i + 1)); (lia || done).
Qed.

End pic.

(** ** The first tasks *)

Definition idle_tcb : Z := HEAP_START.
Definition shell_tcb : Z := HEAP_START + 80.
Definition shell_stack : Z := HEAP_START + 160.
Definition shell_frame : Z := frame_address shell_stack 16384.

(** The task table [kernel_main] sets up: the idle task, running, and the shell. *)
Definition started (entry : Z) : tasks :=
  Tasks [idle_tcb; shell_tcb] idle_tcb 2
    (<[shell_tcb := TaskT 1 (name_field (str "shell")) TASK_STATE_READY shell_frame shell_stack 16384 0 0]>
     (<[idle_tcb := TaskT 0 (name_field (str "kernel_idle")) TASK_STATE_RUNNING 0 0 0 0 0]> ∅))
    (<[shell_frame := initial_frame entry shell_frame]> ∅).

Section first_tasks.
  Context {D : Type} `{!PortBus D}.

Lemma tasks_started K (h : heap (A := pmm) (D := D)) entry :
  heap_ok K ∅ h -> heap_current_ptr h = HEAP_START -> 100 <= fa_count (frames (vmst h)) ->
  exists h' F', snd (task_create (str "shell") entry 16384 (task_init (Tasks [] 0 1 ∅ ∅, h))) = (started entry, h') /\
    heap_ok K F' h' /\ heap_current_ptr h' = HEAP_START + 16544 /\
    kcon (vmst h') = kcon (vmst h) /\ current_pml4_phys (vmst h') = current_pml4_phys (vmst h) /\
    cr3 (vmst h') = cr3 (vmst h) /\ fa_count (frames (vmst h)) - 28 <= fa_count (frames (vmst h')) /\
    agree_on K (ram (vmst h)) (ram (vmst h')) /\
    forall v, off_heap v -> leaf 4 (ram (vmst h')) (current_pml4_phys (vmst h)) v =
                            leaf 4 (ram (vmst h)) (current_pml4_phys (vmst h)) v.
Proof.
  intros Hh Hp Hc.
  assert (R1 : round16 80 = 80) by done. assert (R2 : round16 16384 = 16384) by done.
  destruct (kmalloc_more K ∅ h 80 Hh ltac:(lia)) as (h1 & F1 & E1 & H1 & _ & P1 & C1 & T1 & S1 & N1 & A1 & O1);
    rewrite ?Hp, ?R1 in *; [done|change (pages_of HEAP_START 80) with 1; lia|].
  change (pages_of HEAP_START 80) with 1 in N1.
  destruct (kmalloc_more K F1 h1 80 H1 ltac:(lia)) as (h2 & F2 & E2 & H2 & _ & P2 & C2 & T2 & S2 & N2 & A2 & O2);
    rewrite ?P1, ?R1 in *; [done|change (pages_of (HEAP_START + 80) 80) with 1; lia|].
  change (pages_of (HEAP_START + 80) 80) with 1 in N2.
  destruct (kmalloc_more K F2 h2 16384 H2 ltac:(lia)) as (h3 & F3 & E3 & H3 & _ & P3 & C3 & T3 & S3 & N3 & A3 & O3);
    rewrite ?P2, ?R2 in *; [done|change (pages_of (HEAP_START + 80 + 80) 16384) with 5; lia|].
  change (pages_of (HEAP_START + 80 + 80) 16384) with 5 in N3.
  exists h3, F3. split; [|split; [exact H3|split; [rewrite P3; done|]]].
  - unfold task_init. cbn [km_alloc heap_kernel_heap]. unfold sizeof_task_t. rewrite E1.
    change (negb (HEAP_START =? 0)) with true. cbv iota. unfold task_create.
    change (MAX_TASKS <=? _) with false. cbn [km_alloc heap_kernel_heap]. unfold sizeof_task_t. rewrite E2.
    change (HEAP_START + 80 =? 0) with false. cbv iota. rewrite E3.
    change (HEAP_START + 80 + 80 =? 0) with false. reflexivity.
  - split_and!; try congruence; [lia| |].
    2: { intros v Hv. rewrite T1 in O2. rewrite T2, T1 in O3. by rewrite O3, O2, O1. }
    eapply agree_on_trans; [eapply agree_on_weaken; [|exact A1]; intros x; by left|].
    eapply agree_on_trans; [eapply agree_on_weaken; [|exact A2]; intros x; by left|].
    eapply agree_on_weaken; [|exact A3]. intros x. by left.
Qed.

End first_tasks.

Lemma started_tcb e :
  tcb (started e) idle_tcb = TaskT 0 (name_field (str "kernel_idle")) TASK_STATE_RUNNING 0 0 0 0 0 /\
  tcb (started e) shell_tcb =
    TaskT 1 (name_field (str "shell")) TASK_STATE_READY shell_frame shell_stack 16384 0 0.
Proof.
  unfold tcb, started. cbn [tcbs]. by rewrite lookup_insert_eq, lookup_insert_ne, lookup_insert_eq.
Qed.

Lemma started_ok e : tasks_ok (started e).
Proof.
  destruct (started_tcb e) as [E1 E2].
  split; cbn [started task_list current_task next_pid]; fold (started e).
  - by apply (bool_decide_eq_true_1 _), eq_refl.
  - by apply (bool_decide_eq_true_1 _), eq_refl.
  - by vm_compute.
  - right. by apply elem_of_cons; left.
  - intros p. rewrite !elem_of_cons. intros [->|[->|E]]; [done|by rewrite E2|by apply elem_of_nil in E].
  - cbn [map]. rewrite E1, E2. change (NoDup [0; 1]). by apply (bool_decide_eq_true_1 _), eq_refl.
  - intros p. rewrite !elem_of_cons. intros [->|[->|E]]; [by rewrite E1|by rewrite E2|by apply elem_of_nil in E].
  - by vm_compute.
Qed.

(** ** The kernel started *)
Section started.
  Context {D : Type} `{Pic8259 D}.
  Notation sys := (sys (A := pmm) (D := D)).

(** The drivers: handlers installed, the keyboard's line open. *)
Lemma drivers_started (k : kst (H := heap (A := pmm) (D := D))) :
  km_inv (low k) -> irq k = irqs_boot -> pit k = pit_boot -> kb k = kbuf_boot ->
  pic_is (fun _ => true) (the_bus k) ->
  let k' := pit_enable_scheduler (keyboard_irq_init (pit_init k)) in
  kernel_ok k' /\ pic_is (fun n => negb (n =? 1)) (the_bus k') /\ tk k' = tk k /\ pit k' = PitState 0 true /\
  exists d, low k' = heap_set_con (Con (scr (heap_con (low k))) d) (low k).
Proof.
  destruct k as [h ts iq pt b md]. cbn [low irq pit kb]. intros Hh -> -> -> Hp. cbv zeta.
  split; [|split; [|split; [reflexivity|split; [reflexivity|eexists; reflexivity]]]].
  - split; try reflexivity; [exact Hh| |exact kbuf_boot_ok].
    intros n Hn.
    change (handler_of n (Irqs [Some pit_handler; Some keyboard_handler; None; None; None; None; None; None; None;
      None; None; None; None; None; None; None] 0) = None).
    unfold handler_of. cbn [irq_handlers]. rewrite nth_lookup.
    assert (Hn' : (2 <= Z.to_nat n < 16)%nat) by lia. revert Hn'. generalize (Z.to_nat n) as i.
    intros i Hi. do 16 (destruct i as [|i]; [done || lia|]). lia.
  - eapply pic_is_ext; [|apply (pic_is_clear (fun _ => true) 1); [lia|]].
    + intros n Hn. cbv beta. case_bool_decide; destruct (Z.eqb_spec n 1); (done || lia).
    + repeat (apply pic_is_out; [by intros []|]). exact Hp.
Qed.

(** What [kernel_main] has set up when it enables interrupts, with the boot
    tables at [t]. *)
Record kernel_started (im : image) (t : Z) (s : sys) : Prop := {
  (** Every exception and interrupt line reaches its stub, the double fault on
      its own stack; system calls reach [syscall_entry]. *)
  st_deliver v : 0 <= v < 256 -> deliver_to v (ram (vms s)) (kcpu s) =
    if v <? 48 then Some (kernel_code, stub (isr_stub im) (irq_stub im) v,
                          if v =? 8 then Some (u64 (df_stack im + 8192)) else None)
    else None;
  st_syscall : Syscall.msrs_ok (cpu_data im) (syscall_entry im) (kcpu s);
  (** The interrupt controller passes the keyboard only; both handlers are installed. *)
  st_pic : pic_is (fun n => negb (n =? 1)) (the_bus (ks s));
  st_kernel : kernel_ok (ks s);
  (** The idle task runs, the shell is ready; the scheduler is on. *)
  st_tasks : tk (ks s) = started (shell_task im);
  st_pit : pit (ks s) = PitState 0 true;
  (** The heap is consistent and disjoint from the kernel's image, over the
      processor's page tables, with 120 MB of frames left. *)
  st_heap : exists F, heap_ok (in_image im) F (low (ks s));
  st_ptr : heap_current_ptr (low (ks s)) = HEAP_START + 16544;
  (** Only the first GB and the heap's 512 GB have tables. *)
  st_unmapped v : ix 4 v <> 0 -> ix 4 v <> 256 -> leaf 4 (ram (vms s)) t v = None;
  st_root : current_pml4_phys (vms s) = t /\ cr3 (vms s) = t;
  st_frames : 30900 <= fa_count (frames (vms s))
}.

(** The banner only writes to the screen. *)
Lemma banner_keeps P `{!OffScreen P} : keeps P (banner (D := D)).
Proof. unfold banner, nl, out, outln, colored. auto 30 with keeps. Qed.

(** The memory managers, up to the banner. *)
Lemma memory_started im t m k c :
  image_ok im -> handed_over t m -> operational (bus k) ->
  exists st m2 c2 k2,
    init_memory im (boot_sys m t k c) = mk (st, m2) t t k2 [] HEAP_START 0 (Tasks [] 0 1 ∅ ∅) irqs_boot pit_boot
      kbuf_boot modifiers_boot c2 /\
    pic_is (fun _ => true) (bus k2) /\
    tables_ok (tables im) (stub (isr_stub im) (irq_stub im)) (u64 (df_stack im + 8192)) m2 c2 /\
    Syscall.msrs_ok (cpu_data im) (syscall_entry im) c2 /\
    forall k3 : con D, let h := Heap.Heap (Vm (st, m2) t t k3 []) HEAP_START 0 in
      heap_ok (in_image im) ∅ h /\ 31000 <= fa_count (frames (vmst h)) /\
      forall v, ix 4 v <> 0 -> leaf 4 m2 t v = None.
Proof.
  intros Him Hm Hop. destruct Hm as (Ht & Hbt & Hfm).
  pose proof (io_start _ Him) as Hks. pose proof (io_end _ Him) as Hke.
  destruct (tables_init (tables im) (isr_stub im) (irq_stub im) (df_stack im) 8192 (m, c)) as [m1 c1] eqn:E1.
  pose proof (tables_init_ok (tables im) (isr_stub im) (irq_stub im) (df_stack im) 8192 m c (io_placed _ Him)
    (io_stubs _ Him)) as T. rewrite E1 in T. destruct T as (T & _ & _ & Ta).
  assert (Ha1 : agree_on (fun x => x < 0x100000) m m1).
  { eapply agree_on_weaken; [|exact Ta]. intros x Hx. cbv beta. split; intros Hin.
    - apply (io_tables _ Him) in Hin. unfold in_image in Hin. lia.
    - apply (io_operands _ Him) in Hin. unfold in_image in Hin. lia. }
  assert (Hbt1 : boot_tables t m1).
  { eapply boot_tables_agree; [exact Hbt|]. eapply agree_on_weaken; [|exact Ha1]. intros x Hx. cbv beta in *. lia. }
  assert (Hfm1 : fallback_map m1).
  { eapply fallback_map_agree; [exact Hfm|]. eapply agree_on_weaken; [|exact Ha1]. intros x Hx. cbv beta in *. lia. }
  destruct (pmm_boot_vm t im m1 Him Hbt1 Hfm1 Ht) as (V1 & V2 & V3 & V4).
  destruct (Syscall.syscall_init (cpu_data im) (syscall_entry im)
    (snd (pmm_init (kernel_start im) (kernel_end im) m1), c1)) as [m2 c2] eqn:E2.
  pose proof (init_memory_mk im m t k c m1 c1 m2 c2 E1 E2) as EM. cbv zeta in EM.
  set (st := pmm_init (kernel_start im) (kernel_end im) m1) in *.
  set (k1 := (_ >>> _) k) in EM.
  assert (Hcd : 0 <= cpu_data im < 2 ^ 64).
  { destruct (io_cpu_data _ Him (cpu_data im)) as [Hc _]; [lia|]. unfold in_image in Hc. lia. }
  pose proof (Syscall.syscall_init_msrs (cpu_data im) (syscall_entry im) (snd st) c1 Hcd (io_entry _ Him)) as S.
  rewrite E2 in S. destruct S as (S1 & S2 & S3 & S4 & _ & _ & S5).
  exists (fst st), m2, c2, (Con (scr k1) (for_range 0 16 (fun i => pic_set_mask i) (pic_remap 32 40 (bus k1)))).
  split; [exact EM|]. split; [|split; [|split; [exact S1|]]].
  - assert (Hk : keeps (operational (D := D)) (vga_set_color VGA_WHITE VGA_BLACK >>> vga_clear)).
    { apply keeps_then; [apply keeps_scr|apply keeps_clear, _]. }
    apply pic_all_masked. exact (Hk k Hop).
  - eapply tables_ok_agree; [exact T| |done|done|done]. intros x Hx.
    rewrite (S5 x). { apply V4. by apply (io_tables _ Him). }
    assert (Hnc : ~ cpu_data im <= x < cpu_data im + 24)
      by (intros Hc; exact (proj2 (io_cpu_data _ Him x Hc) Hx)).
    clear - Hnc. lia.
  - intros k3. cbv zeta. set (s0 := Vm (A := pmm) st t t k3 []).
    destruct (kept_write (in_image im) s0 m2) as (W1 & W2 & W3); [by exists (boot_tab t)| |].
    { intros x Hx. apply (S5 x).
      assert (Hnc : ~ cpu_data im <= x < cpu_data im + 24)
        by (intros Hc; exact (Hx (proj1 (io_cpu_data _ Him x Hc)))).
      clear - Hnc. lia. }
    assert (Hl : forall v, ix 4 v <> 0 -> leaf 4 m2 t v = None).
    { intros v Hv. transitivity (leaf 4 (snd st) t v); [apply W3|]. by apply boot_leaf_high. }
    split; [|split; [cbn [vmst frames]; etransitivity; [exact V2|]; apply Z.eq_le_incl; symmetry; exact W2|exact Hl]].
    apply (heap_init_ok _ (set_ram m2 s0) HEAP_START 0); [exact W1|].
    intros j Hj. apply Hl. by rewrite hp_index.
Qed.

Lemma init_tasks_ready im t s k st m2 c2 :
  image_ok im -> s = mk (st, m2) t t k [] HEAP_START 0 (Tasks [] 0 1 ∅ ∅) irqs_boot pit_boot
    kbuf_boot modifiers_boot c2 ->
  heap_ok (in_image im) ∅ (Heap.Heap (Vm (st, m2) t t k []) HEAP_START 0) ->
  31000 <= fa_count (st, m2) -> (forall v, ix 4 v <> 0 -> leaf 4 m2 t v = None) ->
  pic_is (fun _ => true) (bus k) ->
  tables_ok (tables im) (stub (isr_stub im) (irq_stub im)) (u64 (df_stack im + 8192)) m2 c2 ->
  Syscall.msrs_ok (cpu_data im) (syscall_entry im) c2 ->
  kernel_started im t (init_tasks im s).
Proof.
  intros Him -> Hheap Hc Hl Hpic Htab Hmsr.
  destruct (tasks_started (in_image im) (Heap.Heap (Vm (st, m2) t t k []) HEAP_START 0) (shell_task im) Hheap eq_refl)
    as (h' & F' & E & H1 & H2 & H3 & H4 & H5 & H6 & H7 & H8); [cbn [vmst frames]; lia|].
  cbn [vmst frames kcon current_pml4_phys cr3] in H3, H4, H5, H6, H8. change (ram _) with m2 in H7 at 1.
  destruct (task_init (Tasks [] 0 1 ∅ ∅, Heap.Heap (Vm (st, m2) t t k []) HEAP_START 0)) as [ts1 h1] eqn:E1.
  assert (E2 : init_tasks im (mk (st, m2) t t k [] HEAP_START 0 (Tasks [] 0 1 ∅ ∅) irqs_boot pit_boot
      kbuf_boot modifiers_boot c2) =
    on_ks (fun k => pit_enable_scheduler (keyboard_irq_init (pit_init k)))
      (Sys (Kst h' (started (shell_task im)) irqs_boot pit_boot kbuf_boot modifiers_boot) c2)).
  { unfold init_tasks. cbv zeta. rewrite (on_tasks_mk task_init _ _ _ _ _ _ _ _ _ _ _ _ _ ts1 h1 E1).
    unfold on_tasks at 1. cbn [ks tk low]. rewrite E. reflexivity. }
  rewrite E2. unfold on_ks. cbn [ks].
  assert (Hlow : km_inv (D := D) h') by (change (HEAP_START <= heap_current_ptr h' < HEAP_START + HEAP_SIZE); rewrite H2; unfold HEAP_START, HEAP_SIZE; lia).
  pose proof (drivers_started (Kst h' (started (shell_task im)) irqs_boot pit_boot kbuf_boot modifiers_boot)
    Hlow eq_refl eq_refl eq_refl) as Hd. cbv zeta in Hd.
  assert (Hb : the_bus (Kst h' (started (shell_task im)) irqs_boot pit_boot kbuf_boot modifiers_boot) = bus k)
    by exact (f_equal bus H3).
  rewrite Hb in Hd. specialize (Hd Hpic). cbn [low tk] in Hd.
  revert Hd. generalize (pit_enable_scheduler (keyboard_irq_init (pit_init
    (Kst h' (started (shell_task im)) irqs_boot pit_boot kbuf_boot modifiers_boot)))) as k'.
  clear E E1 E2 Hb. intros k' (D1 & D2 & D3 & D4 & d & D5).
  assert (Er : ram (vms (Sys k' c2)) = ram (vmst h')) by (unfold vms; cbn [ks]; by rewrite D5).
  split; cbn [set_ks ks kcpu]; try done.
  - intros v Hv. change (vms (set_ks _ _)) with (vms (Sys k' c2)). rewrite Er.
    eapply tables_ok_deliver; [|apply (io_placed _ Him)|exact Hv].
    eapply tables_ok_agree; [exact Htab| |done|done|done].
    eapply agree_on_weaken; [|exact H7]. apply (io_tables _ Him).
  - exists F'. rewrite D5. destruct H1 as [H1 H1']. split; [by apply (heap_inv_same _ _ (vmst h'))|exact H1'].
  - by rewrite D5.
  - intros v Hv Hv'. change (vms (set_ks _ _)) with (vms (Sys k' c2)). rewrite Er, H8; [by apply Hl|].
    by apply off_heap_index.
  - unfold vms. cbn [ks set_ks]. rewrite D5. cbn [vmst heap_set_con set_vmst set_kcon current_pml4_phys cr3]. by rewrite H4, H5.
  - unfold vms. cbn [ks set_ks]. rewrite D5. cbn [vmst heap_set_con set_vmst set_kcon frames]. lia.
Qed.

Lemma kernel_init_started im t m k c :
  image_ok im -> handed_over t m -> operational (bus k) ->
  kernel_started im t (kernel_init im (boot_sys m t k c)).
Proof.
  intros Him Hm Hop. destruct (memory_started im t m k c Him Hm Hop) as (st & m2 & c2 & k2 & E & Hp & Ht & Hs & Hh).
  unfold kernel_init. rewrite E, cons_mk. destruct (Hh (banner k2)) as (H1 & H2 & H3).
  eapply init_tasks_ready; [done|done|exact H1|exact H2|exact H3| |exact Ht|exact Hs].
  by apply (banner_keeps (pic_is (fun _ => true))).
Qed.

(** C7: [kernel_main], on every memory that keeps the contract and for every placement of
    the kernel's image in the first 4 MB, reaches [sti] with everything in place:
    each exception, interrupt and system call arrives at its handler, the
    interrupt lines are on vectors 32 to 47 with only the keyboard open, the idle
    and the shell task exist, and the heap is consistent, over the boot tables,
    and never touches the image: no initialisation undoes an earlier one. *)
Theorem kernel_main_started im t m k c :
  image_ok im -> handed_over t m -> operational (bus k) ->
  kernel_started im t (kernel_init im (boot_sys m t k c)).
Proof. apply kernel_init_started. Qed.

(** ** From the idle loop to the shell *)

(** The task table while the kernel idles; the frames of interrupts come and go. *)
Definition idle_tasks (e : Z) (ts : tasks) : Prop :=
  task_list ts = [idle_tcb; shell_tcb] /\ current_task ts = idle_tcb /\ tcbs ts = tcbs (started e) /\
  frames_at ts !! shell_frame = Some (initial_frame e shell_frame).

Lemma switch_to_shell e ticks r ts : idle_tasks e ts ->
  fst (task_switch ticks r ts) = shell_frame /\ current_task (snd (task_switch ticks r ts)) = shell_tcb /\
  state (tcb (snd (task_switch ticks r ts)) shell_tcb) = TASK_STATE_RUNNING /\
  frames_at (snd (task_switch ticks r ts)) = frames_at ts.
Proof. destruct ts as [l cur np tc fa]. intros (E1 & E2 & E3 & _). cbn in E1, E2, E3. subst. by vm_compute. Qed.

(** The kernel idles, [n] ticks into its life. *)
Definition idling (e n : Z) (s : sys) : Prop :=
  kernel_ok (ks s) /\ pit (ks s) = PitState n true /\ idle_tasks e (tk (ks s)).

(** An interrupt of the idle loop: its frame lies below the heap, where the boot stack is. *)
Definition idle_interrupt (i : interrupt (D := D)) : Prop :=
  0 <= i_irq i < 16 /\ 0 < i_addr i < HEAP_START.

Lemma take_spec e n i (s : sys) :
  idling e n s -> 0 <= n < 10 -> idle_interrupt i ->
  let '(f, s') := take i s in
  let n' := if i_irq i =? 0 then n + 1 else n in
  if n' =? 10 then f = shell_frame /\ current_task (tk (ks s')) = shell_tcb /\
    state (tcb (tk (ks s')) shell_tcb) = TASK_STATE_RUNNING /\ kernel_ok (ks s') /\
    frames_at (tk (ks s')) !! shell_frame = Some (initial_frame e shell_frame)
  else f = i_addr i /\ idling e n' s'.
Proof.
  intros (Hk & Hp & Ht) Hn [Hi Ha]. unfold take. cbv zeta.
  destruct (kbus_spec (i_dev i) (ks s) (ko_low _ Hk)) as [B1 _].
  set (k1 := set_tk _ (kbus (i_dev i) (ks s))).
  assert (Hk1 : kernel_ok k1) by (apply (kernel_ok_same (ks s)); [done|exact B1|done|apply Hk]).
  assert (Hp1 : pit k1 = PitState n true) by exact Hp.
  assert (Ht1 : idle_tasks e (tk k1)).
  { destruct Ht as (T1 & T2 & T3 & T4). split_and!; try done. subst k1. cbn [tk set_tk set_frame frames_at].
    rewrite lookup_insert_ne; [exact T4|]. intros E. assert (Hs : HEAP_START < shell_frame) by by vm_compute. lia. }
  clearbody k1. pose proof (irq_handler_effect (i_addr i) (i_irq i) k1 Hk1 Hi) as He.
  destruct (irq_handler (i_addr i) (32 + i_irq i) k1) as [f k']. cbn [set_ks ks].
  destruct He as (E1 & _ & _ & _ & E5 & E6 & E7). unfold quantum_over, switch_now in *. rewrite Hp1 in *.
  cbn [pit_ticks scheduler_enabled andb] in *. rewrite (u64_small (n + 1)) in * by lia.
  destruct (switch_to_shell e (n + 1) (i_addr i) (tk k1) Ht1) as (S1 & S2 & S3 & S4).
  destruct (Z.eqb_spec (i_irq i) 0) as [E0|E0]; cbn [andb] in *.
  - destruct (Z.eqb_spec (n + 1) 10) as [E10|E10].
    + rewrite E10 in *. cbn [Z.eqb] in E6, E7. change (10 mod 10 =? 0) with true in *. cbv iota in E6, E7.
      rewrite S1 in E7. change (negb (shell_frame =? 0)) with true in E7. cbv iota beta in E7.
      rewrite E7, E6. split; [done|]. split; [done|]. split; [done|]. split; [done|]. rewrite S4. apply Ht1.
    + assert (Hq : (n + 1) mod 10 <> 0) by (rewrite Z.mod_small by lia; lia).
      destruct (Z.eqb_spec ((n + 1) mod 10) 0); [done|]. cbn [andb] in E7. split; [exact E7|].
      unfold idling. change (ks (set_ks k' s)) with k'. by rewrite E6.
  - destruct (Z.eqb_spec n 10); [lia|]. split; [done|]. unfold idling. change (ks (set_ks k' s)) with k'. by rewrite E6.
Qed.

Definition ticks (env : list (interrupt (D := D))) : Z :=
  Z.of_nat (length (filter (fun i => i_irq i = 0) env)).

Lemma ticks_cons i env : ticks (i :: env) = (if i_irq i =? 0 then 1 else 0) + ticks env.
Proof.
  unfold ticks. rewrite filter_cons. case_decide as E; destruct (Z.eqb_spec (i_irq i) 0); cbn [length]; lia.
Qed.

Lemma idle_to_shell e env n (s : sys) :
  idling e n s -> 0 <= n < 10 -> Forall idle_interrupt env -> 10 <= n + ticks env ->
  exists env' s', idle env s = (Some (shell_frame, env'), s') /\
    current_task (tk (ks s')) = shell_tcb /\ state (tcb (tk (ks s')) shell_tcb) = TASK_STATE_RUNNING /\
    kernel_ok (ks s') /\ frames_at (tk (ks s')) !! shell_frame = Some (initial_frame e shell_frame) /\
    n + ticks env = 10 + ticks env'.
Proof.
  revert n s. induction env as [|i env IH]; intros n s Hs Hn Henv Hc.
  { unfold ticks in Hc. cbn in Hc. lia. }
  apply Forall_cons in Henv as [Hi Henv]. rewrite ticks_cons in Hc. cbn [idle].
  pose proof (take_spec e n i s Hs Hn Hi) as Ht. destruct (take i s) as [f s1]. cbv zeta in Ht.
  destruct (Z.eqb_spec (if i_irq i =? 0 then n + 1 else n) 10) as [E|E].
  - destruct Ht as (-> & T1 & T2 & T3 & T4). destruct Hi as [_ Hi].
    destruct (Z.eqb_spec shell_frame (i_addr i)) as [Ef|_].
    { assert (Hf : HEAP_START < shell_frame) by by vm_compute. lia. }
    exists env, s1. split_and!; try done. rewrite ticks_cons. destruct (i_irq i =? 0); lia.
  - destruct Ht as [-> Ht]. rewrite Z.eqb_refl.
    destruct (IH (if i_irq i =? 0 then n + 1 else n) s1 Ht) as (env' & s' & -> & R1 & R2 & R3 & R4 & R5);
      [destruct (i_irq i =? 0); lia|done|destruct (i_irq i =? 0); lia|].
    exists env', s'. split_and!; try done. rewrite ticks_cons. destruct (i_irq i =? 0); lia.
Qed.

(** Before the timer's line is open. *)
Lemma early_idling e early n (s : sys) :
  idling e n s -> 0 <= n < 10 -> Forall (fun i => idle_interrupt i /\ i_irq i <> 0) early ->
  idling e n (fold_left (fun s i => snd (take i s)) early s).
Proof.
  intros Hs Hn He. revert s Hs. induction early as [|i early IH]; intros s Hs; [done|].
  apply Forall_cons in He as [[Hi H0] He]. cbn [fold_left]. apply IH; [done|].
  pose proof (take_spec e n i s Hs Hn Hi) as Ht. destruct (take i s) as [f s1]. cbv zeta in Ht.
  destruct (Z.eqb_spec (i_irq i) 0); [done|]. destruct (Z.eqb_spec n 10); [lia|]. apply Ht.
Qed.

Lemma idling_bus e n f (s : sys) : idling e n s -> idling e n (on_bus f s).
Proof.
  intros (Hk & Hp & Ht). destruct (kbus_spec f (ks s) (ko_low _ Hk)) as [B1 _].
  split; [apply (kernel_ok_same (ks s)); [done|exact B1|done|apply Hk]|by split].
Qed.

Lemma kernel_main_effect im t m k c early env :
  image_ok im -> handed_over t m -> operational (bus k) ->
  Forall (fun i => idle_interrupt i /\ i_irq i <> 0) early -> Forall idle_interrupt env -> 10 <= ticks env ->
  exists env' s, kernel_main im early env (boot_sys m t k c) = (Some (shell_frame, env'), s) /\
    ticks env = ticks env' + 10 /\ current_task (tk (ks s)) = shell_tcb /\
    state (tcb (tk (ks s)) shell_tcb) = TASK_STATE_RUNNING /\ kernel_ok (ks s) /\
    exists r, frame_at shell_frame (ks s) = Some r /\ rip r = shell_task im /\ rflags r = 0x202.
Proof.
  intros Him Hm Hop He Henv Hc. unfold kernel_main. cbv zeta.
  pose proof (kernel_init_started im t m k c Him Hm Hop) as Hst.
  destruct Hst as [_ _ _ S4 S5 S6 _ _ _ _ _].
  assert (H0 : idling (shell_task im) 0 (kernel_init im (boot_sys m t k c))).
  { split; [done|]. split; [done|]. rewrite S5. by split_and!. }
  revert H0. generalize (kernel_init im (boot_sys m t k c)) as s0. intros s0 H0.
  apply (early_idling _ early) in H0; [|lia|done]. apply (idling_bus _ _ (pic_clear_mask 0)) in H0.
  destruct (idle_to_shell (shell_task im) env 0 _ H0 ltac:(lia) Henv Hc) as (env' & s & R1 & R2 & R3 & R4 & R5 & R6).
  exists env', s. split_and!; try done; [lia|]. exists (initial_frame (shell_task im) shell_frame).
  split; [exact R5|]. by split.
Qed.

(** The boot ends in the shell: from the hand-over on, the kernel idles through
    whatever interrupts come, and on the tenth tick of the timer, not earlier,
    the scheduler leaves the idle loop for the shell: control passes to the
    frame on the shell's stack whose instruction pointer is the shell's entry. *)
Theorem kernel_main_reaches_shell im t m k c early env :
  image_ok im -> handed_over t m -> operational (bus k) ->
  Forall (fun i => idle_interrupt i /\ i_irq i <> 0) early -> Forall idle_interrupt env -> 10 <= ticks env ->
  exists env' s, kernel_main im early env (boot_sys m t k c) = (Some (shell_frame, env'), s) /\
    ticks env = ticks env' + 10 /\ current_task (tk (ks s)) = shell_tcb /\
    state (tcb (tk (ks s)) shell_tcb) = TASK_STATE_RUNNING /\ kernel_ok (ks s) /\
    exists r, frame_at shell_frame (ks s) = Some r /\ rip r = shell_task im /\ rflags r = 0x202.
Proof. apply kernel_main_effect. Qed.

End started.

(** ** Witnesses *)
Import Ports.SimBus.

(** An image of 128 KB with the tables of Desc.v, the boot tables at 0x9000 and
    the simulated bus. *)
Definition some_image : image :=
  Image 0x100000 0x120000 some_layout 0x110000 0x107000 (fun v => 0x100000 + 16 * v) (fun v => 0x100200 + 16 * v)
    0x100300 0x100400.

Lemma some_image_ok : image_ok some_image.
Proof.
  split; try done.
  - exact some_layout_placed.
  - intros x. unfold in_tables, in_image. cbn. lia.
  - intros x. unfold in_operands, in_image. cbn. lia.
  - intros x. unfold in_tables, in_image. cbn. lia.
  - intros v Hv. unfold stub. cbn. destruct (v <? 32); lia.
Qed.

Definition some_mem : mem := setup_paging 0x9000 (create_fallback_memory_map (Mem (fun _ => 0xCC) ∅)).

Lemma some_mem_handed : handed_over 0x9000 some_mem.
Proof.
  apply (handed_over_made 0x9000 (create_fallback_memory_map (Mem (fun _ => 0xCC) ∅)) (create_fallback_memory_map (Mem (fun _ => 0xCC) ∅)));
    [done|done|done|apply fallback_entries|apply agree_on_refl|apply agree_on_refl].
Qed.

Lemma kernel_main_started_witness :
  let s := kernel_init some_image (boot_sys some_mem 0x9000 (bus_con bios_bus) some_cpu) in
  deliver_to 33 (ram (vms s)) (kcpu s) = Some (kernel_code, 0x100210, None) /\ kernel_ok (D := sim_bus) (ks s).
Proof.
  cbv zeta.
  pose proof (kernel_main_started some_image 0x9000 some_mem (bus_con bios_bus) some_cpu some_image_ok
    some_mem_handed bios_bus_operational) as [S1 _ _ S4 _ _ _ _ _ _ _].
  split; [exact (S1 33 ltac:(lia))|exact S4].
Defined.

(** A key before the timer's line is open, then ten ticks with a key among them. *)
Lemma kernel_main_reaches_shell_witness :
  exists env' s, kernel_main some_image [press 0x1E] (repeat tick 4 ++ press 0x9E :: repeat tick 7)
    (boot_sys some_mem 0x9000 (bus_con bios_bus) some_cpu) = (Some (shell_frame, env'), s) /\
    ticks env' = 1 /\ current_task (tk (ks s)) = shell_tcb.
Proof.
  destruct (kernel_main_reaches_shell some_image 0x9000 some_mem (bus_con bios_bus) some_cpu [press 0x1E]
    (repeat tick 4 ++ press 0x9E :: repeat tick 7) some_image_ok some_mem_handed bios_bus_operational)
    as (env' & s & E & Ht & Hc & _).
  - repeat constructor; done.
  - repeat constructor; done.
  - by vm_compute.
  - exists env', s. split; [exact E|]. split; [|exact Hc].
    change (ticks (repeat tick 4 ++ press 0x9E :: repeat tick 7)) with 11 in Ht. lia.
Defined.

End Kernel.
