(* ===== verification/Client.v ===== *)
(** * Clients of the memory managers

    What a command that allocates page frames, maps, writes, unmaps and frees
    them does to the heap and to everybody else: one lemma per kernel call, on
    the state of the virtual memory manager, the heap being in use. *)

From S2P Require Import Prelude Ports Vga Frames Mmu Vmm Heap.
Import Vga Mmu Vmm Heap.
Local Open Scope Z_scope.

Module Client.
Section client.
  Context {A : Type} `{!FrameAllocator A} {D : Type} `{!PortBus D}.
  Notation vm := (vm (A := A) (D := D)).
  Implicit Types (s : vm) (K : Z -> Prop) (F : gmap Z Z).

(** The memory of [K] and the frames [ps]. *)
Definition and_frames (K : Z -> Prop) (ps : list Z) (x : Z) : Prop := K x \/ exists p, p ∈ ps /\ in_frame p x.

(** The client owns the frames [ps]; the heap, with the pages [F], is consistent. *)
Record owned (K : Z -> Prop) (ps : list Z) (F : gmap Z Z) (s : vm) : Prop := {
  ow_inv : heap_inv (and_frames K ps) F s;
  ow_page p : p ∈ ps -> p mod 4096 = 0 /\ 0 < p /\ p + 4096 <= 2 ^ 52 /\ fa_managed (fst (frames s)) p /\
                forall x, in_frame p x -> ~ K x;
  ow_nodup : NoDup ps
}.

(** What a call leaves alone: the other frames in use, the tables' place. *)
Record keeps_rest (K : Z -> Prop) (s s' : vm) : Prop := {
  kr_mem : agree_on K (ram s) (ram s');
  kr_root : current_pml4_phys s' = current_pml4_phys s;
  kr_cr3 : cr3 s' = cr3 s;
  kr_con : kcon s' = kcon s
}.

Lemma keeps_rest_refl K s : keeps_rest K s s.
Proof. by split. Qed.

Lemma keeps_rest_trans K s s' s'' : keeps_rest K s s' -> keeps_rest K s' s'' -> keeps_rest K s s''.
Proof. intros [H1 H2 H3 H4] [G1 G2 G3 G4]. split; [by eapply agree_on_trans|congruence..]. Qed.

Lemma keeps_rest_weaken (K K' : Z -> Prop) s s' : (forall x, K' x -> K x) -> keeps_rest K s s' -> keeps_rest K' s s'.
Proof. intros H [H1 H2 H3 H4]. split; try done. by eapply agree_on_weaken. Qed.

(** The leaves of all pages but those satisfying [P] are as before. *)
Definition same_leaves (P : Z -> Prop) (s s' : vm) : Prop :=
  forall v, ~ P v -> leaf 4 (ram s') (current_pml4_phys s) v = leaf 4 (ram s) (current_pml4_phys s) v.

Lemma same_leaves_all P s s' : same_leaves (fun _ => False) s s' -> same_leaves P s s'.
Proof. intros H v _. apply H. auto. Qed.

Lemma heap_kept_mono (K K' : Z -> Prop) F x : (forall x, K x -> K' x) -> heap_kept K F x -> heap_kept K' F x.
Proof. intros H [Hx|Hx]; [left; auto|by right]. Qed.

Lemma heap_inv_iff (K K' : Z -> Prop) F s : (forall x, K' x <-> K x) -> heap_inv K F s -> heap_inv K' F s.
Proof.
  intros H [H1 H2 H3 H4 H5]. split; try done.
  - eapply vm_ok_weaken; [|exact H1]. intros x. apply heap_kept_mono, H.
  - intros j f x Hf Hx. rewrite H. by eapply H4.
Qed.

(** The heap survives whatever keeps the tables and the leaves of its pages. *)
Lemma heap_inv_step K F s s' :
  heap_inv K F s -> vm_ok (heap_kept K F) s' -> current_pml4_phys s' = current_pml4_phys s ->
  (forall j, 0 <= j < 4096 -> leaf 4 (ram s') (current_pml4_phys s) (hp j) = leaf 4 (ram s) (current_pml4_phys s) (hp j)) ->
  heap_inv K F s'.
Proof.
  intros [H1 H2 H3 H4 H5] Hok Hr Hl. split; try done. intros j Hj. rewrite Hr, Hl by done. by apply H2.
Qed.

Lemma owned_nil K F s : heap_inv K F s <-> owned K [] F s.
Proof.
  assert (E : forall x, and_frames K [] x <-> K x).
  { intros x. unfold and_frames. split; [intros [H|(p & Hp & _)]; [done|by apply elem_of_nil in Hp]|by left]. }
  split.
  - intros H. split; [by apply (heap_inv_iff K)|intros p Hp; by apply elem_of_nil in Hp|constructor].
  - intros [H _ _]. apply (heap_inv_iff (and_frames K [])); [|done]. intros x. by rewrite E.
Qed.

Lemma owned_same K ps F s s' : frames s' = frames s -> current_pml4_phys s' = current_pml4_phys s ->
  owned K ps F s -> owned K ps F s'.
Proof. intros E1 E2 [H1 H2 H3]. split; [by eapply heap_inv_same| |done]. intros p. rewrite E1. apply H2. Qed.

(** [pmm_alloc_page]. *)
Lemma owned_alloc K ps F s :
  owned K ps F s -> 0 < fa_count (frames s) ->
  let '(p, st) := fa_alloc (frames s) in
  let s' := set_frames st s in
  0 < p /\ owned K (ps ++ [p]) F s' /\ keeps_rest (heap_kept K F) s s' /\
  fa_count (frames s') = fa_count (frames s) - 1 /\ same_leaves (fun _ => False) s s'.
Proof.
  intros [Hi Hp Hnd] Hc. pose proof (alloc_kept _ s (hi_ok _ _ _ Hi) Hc) as Ha.
  destruct (fa_alloc (frames s)) as [p st].
  destruct Ha as (A1 & A2 & A3 & A4 & A5 & A6 & A7 & A8 & A9 & A10). cbv zeta.
  assert (Hin : in_frame p p) by (unfold in_frame; lia).
  assert (HK : forall x, in_frame p x -> ~ K x) by (intros x Hx HKx; apply (A4 x Hx); by left; left).
  split; [done|]. split; [split|split; [|split; [done|by intros v _]]].
  - apply (heap_inv_iff (and_frame (and_frames K ps) p)).
    { intros x. unfold and_frame, and_frames. split.
      - intros [Hx|(q & [Hq| ->%list_elem_of_singleton]%elem_of_app & Hx)]; [by left; left|left; right; by exists q|by right].
      - intros [[Hx|(q & Hq & Hx)]|Hx]; [by left|right; exists q|right; exists p]; rewrite elem_of_app, list_elem_of_singleton; auto. }
    destruct Hi as [_ I2 I3 I4 I5]. split; try done.
    + eapply vm_ok_weaken; [|exact A5]. intros x [[Hx|Hx]|Hx]; [by left; left|by right|by left; right].
    + intros j Hj. cbn [current_pml4_phys set_frames]. rewrite A10. by apply I2.
    + intros j f x Hf Hx [HKx|Hfx]; [by apply (I4 j f x)|].
      apply (A4 x Hfx). right. exists j, f. split; [by apply (I5 j f)|done].
  - intros q. rewrite elem_of_app, list_elem_of_singleton. cbn [frames set_frames].
    intros [Hq| ->]; [|done]. destruct (Hp q Hq) as (Q1 & Q2 & Q3 & Q4 & Q5). rewrite A9. done.
  - apply NoDup_app. split; [done|]. split; [|apply NoDup_singleton].
    intros q Hq Hqp%list_elem_of_singleton. subst. apply (A4 p Hin). left. right. by exists p.
  - split; try done. eapply agree_on_weaken; [|exact A6]. intros x. apply heap_kept_mono. by left.
Qed.

(** [vmm_map_page] of a page outside the heap. *)
Lemma owned_map K ps F s v phys flags :
  owned K ps F s -> off_heap v -> no_big (ram s) (current_pml4_phys s) v -> 0 <= phys < 2 ^ 52 ->
  0 <= flags < 4096 -> 3 <= fa_count (frames s) ->
  let s' := vmm_map_page v phys flags s in
  owned K ps F s' /\ keeps_rest (heap_kept (and_frames K ps) F) s s' /\
  fa_count (frames s) - 3 <= fa_count (frames s') /\ same_leaves (same_page v) s s' /\
  exists x, leaf 4 (ram s') (current_pml4_phys s) v = Some (1%nat, x) /\ child x = child phys.
Proof.
  intros [Hi Hp Hnd] Hoff Hn Hph Hf Hc s'.
  destruct (map_page_cases _ s v phys flags (hi_ok _ _ _ Hi) Hn Hph Hf)
    as (M1 & M2 & M3 & M4 & M5 & M6 & M7 & [M8|M8]); fold s' in M1, M2, M3, M4, M5, M6, M7, M8; [|lia].
  destruct M8 as (x & X1 & X2 & _ & X3 & _).
  split; [split; [| |done]|split; [by split|split; [lia|split; [exact M7|by exists x]]]].
  - eapply heap_inv_step; [done..|]. intros j Hj. apply M7. intros E. by apply (Hoff j Hj).
  - intros p Hpp. destruct (Hp p Hpp) as (Q1 & Q2 & Q3 & Q4 & Q5). by rewrite M6.
Qed.

(** [vmm_unmap_page] of a page outside the heap. *)
Lemma owned_unmap K ps F s v :
  owned K ps F s -> off_heap v -> no_big (ram s) (current_pml4_phys s) v ->
  let s' := vmm_unmap_page v s in
  owned K ps F s' /\ keeps_rest (heap_kept (and_frames K ps) F) s s' /\
  fa_count (frames s') = fa_count (frames s) /\ same_leaves (same_page v) s s' /\
  leaf 4 (ram s') (current_pml4_phys s) v = None.
Proof.
  intros [Hi Hp Hnd] Hoff Hn s'.
  destruct (unmap_page_cases _ s v (hi_ok _ _ _ Hi) Hn) as (M1 & M2 & M3 & M4 & M5 & M6 & M7 & M8 & M9 & _);
    fold s' in M1, M2, M3, M4, M5, M6, M7, M8, M9.
  split; [split; [| |done]|by split_and!].
  - eapply heap_inv_step; [done..|]. intros j Hj. apply M8. intros E. by apply (Hoff j Hj).
  - intros p. rewrite M9. apply Hp.
Qed.

(** A write to an own frame. *)
Lemma owned_write K ps F s p m' :
  owned K ps F s -> p ∈ ps -> agree_on (fun x => ~ in_frame p x) (ram s) m' ->
  let s' := set_ram m' s in
  owned K ps F s' /\ keeps_rest (heap_kept K F) s s' /\ fa_count (frames s') = fa_count (frames s) /\
  same_leaves (fun _ => False) s s' /\ forall q x, q ∈ ps -> q <> p -> in_frame q x -> rd m' x = rd (ram s) x.
Proof.
  intros [Hi Hp Hnd] Hpp Hm s'.
  assert (Hsub : forall x, in_frame p x -> heap_kept (and_frames K ps) F x)
    by (intros x Hx; left; right; by exists p).
  destruct (kept_write _ s m' (hi_ok _ _ _ Hi)) as (W1 & W2 & W3).
  { eapply agree_on_weaken; [|exact Hm]. intros x Hx Hin. by apply Hx, Hsub. }
  split; [split; [|exact Hp|done]|split; [split; try done|split; [done|split; [by intros v _|]]]].
  - eapply heap_inv_step; [done..|]. intros j Hj. apply W3.
  - eapply agree_on_weaken; [|exact Hm]. intros x [Hx|(j & f & Hj & Hf & Hx)] Hin.
    + by apply (Hp p Hpp) in Hin.
    + apply (hi_own _ _ _ Hi j f x Hf Hx). right. by exists p.
  - intros q x Hq Hne Hx. apply Hm. intros Hin. apply Hne.
    destruct (Hp p Hpp) as (P1 & _), (Hp q Hq) as (Q1 & _). by apply (frames_disjoint q p x).
Qed.

(** [pmm_free_page]. *)
Lemma owned_free `{!PageManager A} K p ps F s :
  owned K (p :: ps) F s ->
  let s' := set_frames (pm_free_page p (frames s)) s in
  owned K ps F s' /\ keeps_rest (heap_kept K F) s s' /\ fa_count (frames s') = fa_count (frames s) + 1 /\
  same_leaves (fun _ => False) s s'.
Proof.
  intros [Hi Hp [Hnp Hnd]%NoDup_cons] s'.
  destruct (Hp p ltac:(by apply elem_of_cons; left)) as (P1 & P2 & P3 & P4 & P5).
  assert (Hps : forall x, in_frame p x -> ~ and_frames K ps x).
  { intros x Hx [HK|(q & Hq & Hqx)]; [by apply (P5 x)|].
    destruct (Hp q ltac:(by apply elem_of_cons; right)) as (Q1 & _).
    rewrite (frames_disjoint p q x) in Hnp; done. }
  destruct (free_kept (heap_kept (and_frames K ps) F) s p) as (F1 & F2 & F3 & F4 & F5); [|done..| |].
  { eapply vm_ok_weaken; [|apply (hi_ok _ _ _ Hi)]. intros x [[[Hx|(q & Hq & Hx)]|Hx]|Hx].
    - by left; left.
    - left; right. exists q. split; [by apply elem_of_cons; right|done].
    - by right.
    - left; right. exists p. split; [by apply elem_of_cons; left|done]. }
  { intros x Hx [Hx'|(j & f & Hj & Hf & Hx')]; [by apply (Hps x)|].
    apply (hi_own _ _ _ Hi j f x Hf Hx'). right. exists p. split; [by apply elem_of_cons; left|done]. }
  fold s' in F1, F2, F3, F4, F5.
  split; [split; [|intros q Hq|done]|split; [split; try done|split; [done|by intros v _]]].
  - destruct Hi as [_ I2 I3 I4 I5]. split; try done.
    + intros j Hj. change (current_pml4_phys s') with (current_pml4_phys s). rewrite F5. by apply I2.
    + intros j f x Hf Hx [HK|(q & Hq & Hqx)]; apply (I4 j f x Hf Hx); [by left|].
      right. exists q. split; [by apply elem_of_cons; right|done].
  - destruct (Hp q ltac:(by apply elem_of_cons; right)) as (Q1 & Q2 & Q3 & Q4 & Q5).
    split; [done|]. split; [done|]. split; [done|]. split; [by apply F4|done].
  - eapply agree_on_weaken; [|exact F2]. intros x. apply heap_kept_mono. by left.
Qed.

End client.
End Client.
