(* ===== verification/MemTest.v ===== *)
(** * The tests of the memory managers ([commands/vmtest.c], [commands/memtest.c])

    The two commands of the shell that allocate, map, write, unmap and free, as
    the sequences of kernel calls they are. *)

From S2P Require Import Prelude CString Ports Vga Frames Pmm Mmu Vmm Heap KHeap Isr Task Keyboard Interrupts Desc Commands Kernel Client.
Import Vga Mmu Vmm Heap Interrupts Commands Client.
Local Open Scope Z_scope.
Local Open Scope kios_scope.

Module MemTest.

Definition TEST_PAGES : Z := 50.
Definition TEST_HEAP_ALLOCS : Z := 100.

(** How a statement ends: control goes on, or leaves the command, by its
    [return] or by an exception. *)
Inductive flow := Next | Leave (e : option stop).

(** Sequencing, and the loop [for (int i = lo; i < hi; i++)] whose body may leave. *)
Definition bind {S T : Type} (r : flow * S) (f : S -> flow * T) (leave : S -> T) : flow * T :=
  match r with (Next, s) => f s | (Leave e, s) => (Leave e, leave s) end.

Fixpoint try_up {S : Type} (n : nat) (i : Z) (body : Z -> S -> flow * S) (s : S) : flow * S :=
  match n with
  | O => (Next, s)
  | Datatypes.S n =>
      match body i s with
      | (Next, s) => try_up n (i + 1) body s
      | (Leave e, s) => (Leave e, s)
      end
  end.
Definition try_range {S : Type} (lo hi : Z) (body : Z -> S -> flow * S) (s : S) : flow * S :=
  try_up (Z.to_nat (hi - lo)) lo body s.

Section tests.
  Context {A : Type} `{!FrameAllocator A} `{!PageManager A} {D : Type} `{!PortBus D}.
  Notation sys := (sys (A := A) (D := D)).

(** The kernel's calls, on the whole state. *)
Definition alloc_page (s : sys) : Z * sys :=
  let '(p, st) := fa_alloc (frames (vms s)) in (p, set_vms (set_frames st (vms s)) s).
Definition free_page (p : Z) (s : sys) : sys :=
  set_vms (set_frames (pm_free_page p (frames (vms s))) (vms s)) s.
Definition map_page (v p flags : Z) (s : sys) : sys := set_vms (vmm_map_page v p flags (vms s)) s.
Definition unmap_page (v : Z) (s : sys) : sys := set_vms (vmm_unmap_page v (vms s)) s.
Definition virt_to_phys (v : Z) (s : sys) : Z * sys :=
  let '(p, vm) := vmm_virt_to_phys v (vms s) in (p, set_vms vm s).
Definition kmalloc_ (size : Z) (s : sys) : Z * sys :=
  let '(p, h) := kmalloc size (low (ks s)) in (p, set_ks (set_low h (ks s)) s).

Definition rw : Z := Z.lor PAGE_PRESENT PAGE_WRITE.

(** The pieces of output the tests share. *)
Definition pass (text : string) : con D -> con D := colored text VGA_LIGHT_GREEN >>> nl.
Definition fail (text : string) : con D -> con D := colored text VGA_LIGHT_RED >>> nl.
Definition fail_at (text : string) (i : Z) : con D -> con D := colored text VGA_LIGHT_RED >>> vga_print_dec i >>> nl.
Definition announce (title verb : string) (n : Z) (what : string) : con D -> con D :=
  colored title VGA_YELLOW >>> nl >>> out verb >>> vga_print_dec n >>> outln what.

(** ** [cmd_vmtest] *)
Definition cmd_vmtest (args : list Z) (s : sys) : option stop * sys :=
  let s := cons (nl >>> outln "=== VMM Test ===" >>> nl) s in
  let '(phys_page, s) := alloc_page s in
  if phys_page =? 0 then (None, cons (fail "  [FAIL] Failed to allocate physical page!") s)
  else
    let s := cons (out "  Allocated physical page at: " >>> vga_print_hex phys_page >>> nl) s in
    let virt_addr := 0xFFFF800000001000 in
    let s := cons (out "  Mapping to virtual address: " >>> vga_print_hex virt_addr >>> nl) s in
    let s := map_page virt_addr phys_page rw s in
    let s := cons (outln "  Mapping successful!") s in
    let '(resolved_phys, s) := virt_to_phys virt_addr s in
    let s := cons (out "  Resolved physical address: " >>> vga_print_hex resolved_phys >>> nl) s in
    let s := if resolved_phys =? phys_page
             then cons (pass "  [PASS] Virtual to physical mapping correct!") s
             else cons (fail "  [FAIL] Mapping mismatch!") s in
    let s := cons (nl >>> outln "  Writing test data via virtual address...") s in
    match store64 virt_addr 0xDEADBEEFCAFEBABE s with
    | None => (Some (Exception 14), s)
    | Some s =>
        match load64 virt_addr s with
        | None => (Some (Exception 14), s)
        | Some read_value =>
            let s := cons (out "  Read value: " >>> vga_print_hex read_value >>> nl) s in
            let s := if read_value =? 0xDEADBEEFCAFEBABE
                     then cons (pass "  [PASS] Read/Write works correctly!") s
                     else cons (fail "  [FAIL] Read/Write failed!") s in
            let s := cons (nl >>> outln "  Unmapping page...") s in
            let s := unmap_page virt_addr s in
            let '(resolved_after_unmap, s) := virt_to_phys virt_addr s in
            let s := if resolved_after_unmap =? 0
                     then cons (pass "  [PASS] Unmapping successful!") s
                     else cons (fail "  [FAIL] Page still mapped!") s in
            let s := free_page phys_page s in
            (None, cons (outln "  Freed physical page" >>> nl >>> outln "=== VMM Test Complete ===" >>> nl) s)
        end
    end.

(** ** [cmd_memtest], test by test *)

(** [virt_base + (i * 0x1000)]. *)
Definition test_addr (i : Z) : Z := u64 (0xFFFF900000000000 + i * 0x1000).

(** The array [pages] is the list of the pages assigned so far. *)
Definition test_alloc (s : sys) : flow * (list Z * sys) :=
  let s := cons (announce "Test 1: PMM Page Allocation" "  Allocating " TEST_PAGES " pages...") s in
  bind (try_range 0 TEST_PAGES (fun i '(pages, s) =>
    let '(p, s) := alloc_page s in
    if p =? 0 then (Leave None, (pages, cons (fail_at "  [FAIL] Failed to allocate page " i) s))
    else (Next, (pages ++ [p], s))) ([], s))
  (fun '(pages, s) => (Next, (pages, cons (pass "  [PASS] All pages allocated!") s))) id.

Definition page_of (pages : list Z) (i : Z) : Z := nth (Z.to_nat i) pages 0.

Definition test_map (pages : list Z) (s : sys) : flow * sys :=
  let s := cons (announce "Test 2: VMM Page Mapping" "  Mapping " TEST_PAGES " pages...") s in
  bind (try_range 0 TEST_PAGES (fun i s =>
    let virt_addr := test_addr i in
    let s := map_page virt_addr (page_of pages i) rw s in
    let '(resolved, s) := virt_to_phys virt_addr s in
    if negb (resolved =? page_of pages i)
    then (Leave None, cons (fail_at "  [FAIL] Mapping mismatch at page " i) s)
    else (Next, s)) s)
  (fun s => (Next, cons (pass "  [PASS] All pages mapped correctly!") s)) id.

(** [0xDEADBEEF00000000ULL | i]. *)
Definition pattern (i : Z) : Z := Z.lor 0xDEADBEEF00000000 i.

Definition test_rw (s : sys) : flow * sys :=
  let s := cons (announce "Test 3: Memory Read/Write" "  Writing test pattern to " TEST_PAGES " pages...") s in
  bind (try_range 0 TEST_PAGES (fun i s =>
    match store64 (test_addr i) (pattern i) s with
    | None => (Leave (Some (Exception 14)), s)
    | Some s => (Next, s)
    end) s)
  (fun s =>
    let s := cons (outln "  Reading back and verifying...") s in
    bind (try_range 0 TEST_PAGES (fun i s =>
      match load64 (test_addr i) s with
      | None => (Leave (Some (Exception 14)), s)
      | Some x =>
          if negb (x =? pattern i) then (Leave None, cons (fail_at "  [FAIL] Data mismatch at page " i) s)
          else (Next, s)
      end) s)
    (fun s => (Next, cons (pass "  [PASS] All data verified!") s)) id) id.

Definition test_unmap (s : sys) : flow * sys :=
  let s := cons (announce "Test 4: VMM Page Unmapping" "  Unmapping " TEST_PAGES " pages...") s in
  bind (try_range 0 TEST_PAGES (fun i s =>
    let virt_addr := test_addr i in
    let s := unmap_page virt_addr s in
    let '(resolved, s) := virt_to_phys virt_addr s in
    if negb (resolved =? 0) then (Leave None, cons (fail_at "  [FAIL] Page still mapped at " i) s)
    else (Next, s)) s)
  (fun s => (Next, cons (pass "  [PASS] All pages unmapped!") s)) id.

Definition test_free (pages : list Z) (s : sys) : sys :=
  let s := cons (announce "Test 5: PMM Page Freeing" "  Freeing " TEST_PAGES " pages...") s in
  let s := for_range 0 TEST_PAGES (fun i s => free_page (page_of pages i) s) s in
  cons (pass "  [PASS] All pages freed!") s.

(** [for (j = 0; j < 256; j++) ptr\[j\] = (uint8_t)(i + j)]. *)
Definition fill_block (ptr i : Z) (s : sys) : flow * sys :=
  try_range 0 256 (fun j s =>
    match store8 (u64 (ptr + j)) (u8 (i + j)) s with
    | None => (Leave (Some (Exception 14)), s)
    | Some s => (Next, s)
    end) s.

Definition test_kmalloc (s : sys) : flow * (list Z * sys) :=
  let s := cons (announce "Test 6: Heap Allocations" "  Allocating " TEST_HEAP_ALLOCS " heap blocks...") s in
  try_range 0 TEST_HEAP_ALLOCS (fun i '(heap_ptrs, s) =>
    let '(p, s) := kmalloc_ 256 s in
    if p =? 0 then (Leave None, (heap_ptrs, cons (fail_at "  [FAIL] kmalloc failed at " i) s))
    else bind (fill_block p i s) (fun s => (Next, (heap_ptrs ++ [p], s))) (fun s => (heap_ptrs, s))) ([], s).

Definition test_verify (heap_ptrs : list Z) (s : sys) : flow * sys :=
  let s := cons (outln "  Verifying heap data...") s in
  bind (try_range 0 TEST_HEAP_ALLOCS (fun i s =>
    try_range 0 256 (fun j s =>
      match load8 (u64 (page_of heap_ptrs i + j)) s with
      | None => (Leave (Some (Exception 14)), s)
      | Some x =>
          if negb (x =? u8 (i + j))
          then (Leave None, cons (fail_at "  [FAIL] Heap data corruption at block " i) s)
          else (Next, s)
      end) s) s)
  (fun s => (Next, cons (pass "  [PASS] Heap test successful!") s)) id.

Definition cmd_memtest (args : list Z) (s : sys) : option stop * sys :=
  let s := cons (nl >>> outln "=== Memory Stress Test ===" >>> nl) s in
  let '(r, s) :=
    bind (test_alloc s) (fun '(pages, s) =>
    bind (test_map pages s) (fun s =>
    bind (test_rw s) (fun s =>
    bind (test_unmap s) (fun s =>
    let s := test_free pages s in
    bind (test_kmalloc s) (fun '(heap_ptrs, s) =>
    bind (test_verify heap_ptrs s) (fun s =>
    (Next, cons (nl >>> pass "=== All Tests Passed! ===" >>> nl) s)) id) snd) id) id) id) snd in
  (match r with Leave e => e | Next => None end, s).

End tests.

(** ** The loops *)

Ltac name_body b := match goal with |- context [try_range _ _ ?f _] => set (b := f) end.

(** A loop whose body goes on in every state of an invariant. *)
Lemma try_range_next {S : Type} (P : Z -> S -> Prop) lo hi body s :
  lo <= hi -> P lo s ->
  (forall i s, lo <= i < hi -> P i s -> exists s', body i s = (Next, s') /\ P (i + 1) s') ->
  exists s', try_range lo hi body s = (Next, s') /\ P hi s'.
Proof.
  intros Hle H0 Hstep. unfold try_range. remember (Z.to_nat (hi - lo)) as n eqn:Hn. revert lo s Hle H0 Hstep Hn.
  induction n as [|n IH]; intros lo s Hle H0 Hstep Hn; cbn [try_up].
  - exists s. split; [done|]. by replace hi with lo by lia.
  - destruct (Hstep lo s ltac:(lia) H0) as (s1 & -> & H1).
    apply IH; [lia|done| |lia]. intros i s2 Hi. apply Hstep. lia.
Qed.

Lemma page_of_app ps p i : 0 <= i < Z.of_nat (length ps) -> page_of (ps ++ [p]) i = page_of ps i.
Proof. intros Hi. unfold page_of. apply app_nth1. lia. Qed.

Lemma page_of_in ps i : 0 <= i < Z.of_nat (length ps) -> page_of ps i ∈ ps.
Proof. intros Hi. unfold page_of. apply list_elem_of_In, nth_In. lia. Qed.

Lemma page_of_inj ps i j : NoDup ps -> 0 <= i < Z.of_nat (length ps) -> 0 <= j < Z.of_nat (length ps) ->
  page_of ps i = page_of ps j -> i = j.
Proof.
  intros Hnd Hi Hj E. unfold page_of in E. apply NoDup_ListNoDup in Hnd.
  apply (proj1 (NoDup_nth ps 0) Hnd) in E; lia.
Qed.

(** ** The test region *)

Lemma test_addr_eq i : 0 <= i < 50 -> test_addr i = 0xFFFF900000000000 + 4096 * i.
Proof. intros Hi. unfold test_addr. rewrite u64_small; lia. Qed.

Lemma test_addr_mod i : 0 <= i < 50 -> test_addr i mod 4096 = 0.
Proof. intros Hi. rewrite test_addr_eq by done. dlia. Qed.

Lemma test_addr_off i : 0 <= i < 50 -> off_heap (test_addr i).
Proof.
  intros Hi. apply off_heap_index. rewrite test_addr_eq by done. unfold ix.
  change (2 ^ (12 + 9 * (Z.of_nat 4 - 1))) with 549755813888. dlia.
Qed.

Lemma test_addr_inj i j : 0 <= i < 50 -> 0 <= j < 50 -> same_page (test_addr i) (test_addr j) -> i = j.
Proof.
  intros Hi Hj H. injection H as _ _ _ H1. rewrite !test_addr_eq in H1 by done. unfold ix in H1.
  change (2 ^ (12 + 9 * (Z.of_nat 1 - 1))) with 4096 in H1. dlia.
Qed.

(** An address of one of the test pages. *)
Definition in_test (v : Z) : Prop := exists i, 0 <= i < 50 /\ same_page (test_addr i) v.

Lemma in_test_dec v : in_test v \/ ~ in_test v.
Proof.
  destruct (decide (Exists (fun i => same_page (test_addr i) v) (seqZ 0 50))) as [H|H].
  - left. apply Exists_exists in H as (i & Hi%elem_of_seqZ & Hs). exists i. split; [lia|done].
  - right. intros (i & Hi & Hs). apply H, Exists_exists. exists i. split; [apply elem_of_seqZ; lia|done].
Qed.

Section passes.
  Context {A : Type} `{!FrameAllocator A} `{!PageManager A} {D : Type} `{!PortBus D}.
  Notation sys := (sys (A := A) (D := D)).
  Context (K : Z -> Prop) (F : gmap Z Z) (s0 : sys).
  Implicit Types (s : sys) (k : con D).

Notation root := (current_pml4_phys (vms s0)).

(** During the first five tests: the frames owned, the console, the free frames,
    and everything else as at the beginning. *)
Record testing (ps : list Z) (k : con D) (n : Z) (s : sys) : Prop := {
  te_owned : owned K ps F (vms s);
  te_mem : agree_on (heap_kept K F) (ram (vms s0)) (ram (vms s));
  te_root : current_pml4_phys (vms s) = root;
  te_cr3 : cr3 (vms s) = root;
  te_con : kcon (vms s) = k;
  te_count : n <= fa_count (frames (vms s));
  te_leaf v : ~ in_test v -> leaf 4 (ram (vms s)) root v = leaf 4 (ram (vms s0)) root v;
  te_same : s = set_vms (vms s) s0
}.

(** The test pages [lo] to [hi - 1] are mapped to the frames [ps], the others not. *)
Definition window (lo hi : Z) (ps : list Z) (s : sys) : Prop :=
  forall i, 0 <= i < 50 ->
    if decide (lo <= i < hi)
    then exists x, leaf 4 (ram (vms s)) root (test_addr i) = Some (1%nat, x) /\ child x = page_of ps i
    else leaf 4 (ram (vms s)) root (test_addr i) = None.

Lemma window_no_big lo hi ps s i : window lo hi ps s -> 0 <= i < 50 -> no_big (ram (vms s)) root (test_addr i).
Proof.
  intros Hw Hi n e Hl. specialize (Hw i Hi). case_decide; [|congruence].
  destruct Hw as (x & Hx & _). congruence.
Qed.

Lemma window_same lo hi ps s v' :
  current_pml4_phys (vms s) = root -> same_leaves (fun _ => False) (vms s) v' ->
  window lo hi ps s -> window lo hi ps (set_vms v' s).
Proof.
  intros Hr Hl Hw i Hi. specialize (Hw i Hi). change (vms (set_vms v' s)) with v'. rewrite <- Hr in *.
  rewrite Hl by auto. exact Hw.
Qed.

Lemma window_cons lo hi ps f s : window lo hi ps s -> window lo hi ps (cons f s).
Proof. done. Qed.

Lemma window_none n ps ps' s : window n n ps s -> window n n ps' s.
Proof. intros Hw i Hi. specialize (Hw i Hi). destruct (decide (n <= i < n)); [lia|done]. Qed.

(** A test page translates to its frame. *)
Lemma window_translate lo hi ps s i :
  window lo hi ps s -> lo <= i < hi -> 0 <= i < 50 -> translate (ram (vms s)) root (test_addr i) = Some (page_of ps i).
Proof.
  intros Hw Hi Hi'. specialize (Hw i Hi'). rewrite decide_True in Hw by done. destruct Hw as (x & Hx & Hc).
  unfold translate. rewrite Hx. cbn [option_map]. rewrite phys_of_page, Hc, test_addr_mod by done. f_equal. lia.
Qed.

Lemma testing_step ps ps' k n n' s v' :
  testing ps k n s -> owned K ps' F v' -> keeps_rest (heap_kept K F) (vms s) v' ->
  n' <= fa_count (frames v') -> same_leaves in_test (vms s) v' -> testing ps' k n' (set_vms v' s).
Proof.
  intros [T1 T2 T3 T4 T5 T6 T7 T8] Ho [R1 R2 R3 R4] Hc Hl. rewrite T8.
  change (set_vms v' (set_vms (vms s) s0)) with (set_vms v' s0).
  split; change (vms (set_vms v' s0)) with v'; try congruence; [by eapply agree_on_trans|].
  intros v Hv. rewrite <- T3, Hl, T3 by done. by apply T7.
Qed.

Lemma testing_cons ps k n f s : testing ps k n s -> testing ps (f k) n (cons f s).
Proof.
  intros [T1 T2 T3 T4 T5 T6 T7 T8]. split; try done.
  - by eapply owned_same; [| |exact T1].
  - unfold cons. change (vms (set_vms ?v s)) with v. cbn [kcon set_kcon]. by rewrite T5.
  - assert (E : forall v, set_vms v s = set_vms v s0) by (intros v; by rewrite T8). exact (E _).
Qed.

Lemma testing_weaken ps k n n' s : n' <= n -> testing ps k n s -> testing ps k n' s.
Proof. intros Hn [T1 T2 T3 T4 T5 T6 T7 T8]. split; try done. lia. Qed.

(** ** Test by test *)

Lemma pages_next lo hi ps k n s f :
  testing ps k n s -> window lo hi ps s -> testing ps (f k) n (cons f s) /\ window lo hi ps (cons f s).
Proof. intros Ht Hw. split; [by apply testing_cons|done]. Qed.

Lemma te_page ps k n s i : testing ps k n s -> 0 <= i < Z.of_nat (length ps) ->
  page_of ps i ∈ ps /\ page_of ps i mod 4096 = 0 /\ 0 < page_of ps i /\ page_of ps i + 4096 <= 2 ^ 52.
Proof.
  intros Ht Hi. pose proof (page_of_in ps i Hi) as Hin.
  destruct (ow_page _ _ _ _ (te_owned _ _ _ _ Ht) _ Hin) as (H1 & H2 & H3 & _). done.
Qed.

Lemma test_alloc_passes k n s :
  testing [] k n s -> 50 <= n -> window 0 0 [] s ->
  exists ps s', test_alloc s = (Next, (ps, s')) /\ length ps = 50%nat /\
    testing ps (pass "  [PASS] All pages allocated!"
      (announce "Test 1: PMM Page Allocation" "  Allocating " TEST_PAGES " pages..." k)) (n - 50) s' /\
    window 0 0 ps s'.
Proof.
  intros Ht Hn Hw. unfold test_alloc. set (f := announce _ _ _ _).
  destruct (pages_next _ _ _ _ _ _ f Ht Hw) as [Ht1 Hw1]. revert Ht1 Hw1.
  generalize (cons f s) (f k). clear Ht Hw s k. intros s k Ht Hw.
  name_body body.
  destruct (try_range_next (fun i '(ps, s) => length ps = Z.to_nat i /\ testing ps k (n - i) s /\ window 0 0 [] s)
    0 TEST_PAGES body ([], s)) as ([ps s1] & -> & H1 & H2 & H3); [done| | |].
  - by rewrite Z.sub_0_r.
  - unfold TEST_PAGES. intros i [ps s1] Hi (H1 & H2 & H3). subst body. cbv beta iota. unfold alloc_page.
    pose proof (te_count _ _ _ _ H2) as Hc.
    pose proof (owned_alloc K ps F (vms s1) (te_owned _ _ _ _ H2) ltac:(lia)) as Ha.
    destruct (fa_alloc (frames (vms s1))) as [p st]. destruct Ha as (A1 & A2 & A3 & A4 & A5).
    destruct (Z.eqb_spec p 0); [lia|]. eexists (_, _). split; [done|]. split; [rewrite length_app, H1; cbn [length]; lia|].
    split; [|apply window_same; [apply (te_root _ _ _ _ H2)|done|done]].
    eapply testing_step; [exact H2|exact A2|exact A3|lia|]. by apply same_leaves_all.
  - exists ps. eexists. split; [done|]. split; [done|]. apply pages_next; [done|by eapply window_none].
Qed.

Lemma test_map_passes ps k n s :
  length ps = 50%nat -> testing ps k n s -> 150 <= n -> window 0 0 ps s ->
  exists s', test_map ps s = (Next, s') /\
    testing ps (pass "  [PASS] All pages mapped correctly!"
      (announce "Test 2: VMM Page Mapping" "  Mapping " TEST_PAGES " pages..." k)) (n - 150) s' /\
    window 0 50 ps s'.
Proof.
  intros Hl Ht Hn Hw. unfold test_map. set (f := announce _ _ _ _).
  destruct (pages_next _ _ _ _ _ _ f Ht Hw) as [Ht1 Hw1]. revert Ht1 Hw1.
  generalize (cons f s) (f k). clear Ht Hw s k. intros s k Ht Hw.
  name_body body.
  destruct (try_range_next (fun i s => testing ps k (n - 3 * i) s /\ window 0 i ps s) 0 TEST_PAGES body s)
    as (s1 & -> & H1 & H2); [done| | |].
  - split; [|done]. by rewrite Z.mul_0_r, Z.sub_0_r.
  - unfold TEST_PAGES. intros i s1 Hi [H1 H2]. subst body. cbv beta zeta.
    destruct (te_page _ _ _ _ i H1) as (P1 & P2 & P3 & P4); [lia|].
    pose proof (te_root _ _ _ _ H1) as Hr. pose proof (te_count _ _ _ _ H1) as Hc.
    pose proof (window_no_big _ _ _ _ i H2 Hi) as Hnb. rewrite <- Hr in Hnb.
    destruct (owned_map K ps F (vms s1) (test_addr i) (page_of ps i) rw (te_owned _ _ _ _ H1)
      (test_addr_off i Hi) Hnb ltac:(lia) ltac:(by vm_compute) ltac:(lia)) as (M1 & M2 & M3 & M4 & x & X1 & X2).
    unfold map_page, virt_to_phys. set (v' := vmm_map_page _ _ _ (vms s1)) in *.
    change (vms (set_vms v' s1)) with v'.
    assert (Hch : child (page_of ps i) = page_of ps i) by (unfold child; change (2 ^ 12) with 4096; lia).
    rewrite Hch in X2. rewrite <- (kr_root _ _ _ M2) in X1.
    rewrite virt_to_phys_leaf by (intros m e; rewrite X1; intros; by simplify_eq).
    rewrite X1, X2, test_addr_mod, Z.add_0_r, Z.eqb_refl by done. cbn [negb].
    exists (set_vms v' s1). split; [done|]. split.
    + eapply testing_step; [exact H1|exact M1| |lia|].
      * eapply keeps_rest_weaken; [|exact M2]. intros y. apply heap_kept_mono. by left.
      * intros v Hv. apply M4. intros E. apply Hv. by exists i.
    + intros j Hj. change (vms (set_vms v' s1)) with v'. destruct (decide (i = j)) as [<-|Hne].
      * rewrite decide_True by lia. exists x. rewrite <- Hr, <- (kr_root _ _ _ M2). done.
      * specialize (H2 j Hj). rewrite <- Hr in H2 |- *. rewrite M4 by (intros E; by apply Hne, test_addr_inj).
        destruct (decide (0 <= j < i)); destruct (decide (0 <= j < i + 1)); (done || lia).
  - eexists. split; [done|]. by apply pages_next.
Qed.

(** A store and a load through a test page. *)
Lemma test_store ps k n s i x :
  length ps = 50%nat -> testing ps k n s -> window 0 50 ps s -> 0 <= i < 50 ->
  exists s', store64 (test_addr i) x s = Some s' /\ testing ps k n s' /\ window 0 50 ps s' /\
    ld64 (ram (vms s')) (page_of ps i) = u64 x /\
    forall j, 0 <= j < 50 -> j <> i -> ld64 (ram (vms s')) (page_of ps j) = ld64 (ram (vms s)) (page_of ps j).
Proof.
  intros Hl Ht Hw Hi. unfold store64. rewrite (te_cr3 _ _ _ _ Ht), (window_translate 0 50 ps) by done.
  destruct (te_page _ _ _ _ i Ht) as (P1 & P2 & P3 & P4); [lia|].
  set (m' := st64 _ _ _). destruct (owned_write K ps F (vms s) (page_of ps i) m' (te_owned _ _ _ _ Ht) P1)
    as (W1 & W2 & W3 & W4 & W5).
  { eapply agree_on_weaken; [|apply st64_only_in]. intros y Hy. cbv beta. unfold in_frame in Hy. lia. }
  eexists. split; [done|]. split; [|split; [|split]].
  - eapply testing_step; [exact Ht|exact W1|exact W2|rewrite W3; apply Ht|]. by apply same_leaves_all.
  - apply window_same; [apply Ht|done|done].
  - apply ld64_st64.
  - intros j Hj Hne. change (ld64 m' (page_of ps j) = ld64 (ram (vms s)) (page_of ps j)).
    apply ld64_agree. intros y Hy. destruct (te_page _ _ _ _ j Ht) as (Q1 & _); [lia|].
    apply (W5 (page_of ps j)); [done| |unfold in_frame; lia].
    intros E. apply Hne. apply (page_of_inj ps); [apply (ow_nodup _ _ _ _ (te_owned _ _ _ _ Ht))|lia|lia|done].
Qed.

Lemma pattern_small i : 0 <= i < 50 -> u64 (pattern i) = pattern i.
Proof.
  intros Hi. apply u64_small. unfold pattern.
  rewrite (lor_add_disjoint 32); [|done|done|change (2 ^ 32) with 4294967296; lia]. lia.
Qed.

Lemma test_rw_passes ps k n s :
  length ps = 50%nat -> testing ps k n s -> window 0 50 ps s ->
  exists s', test_rw s = (Next, s') /\
    testing ps (pass "  [PASS] All data verified!" (outln "  Reading back and verifying..."
      (announce "Test 3: Memory Read/Write" "  Writing test pattern to " TEST_PAGES " pages..." k))) n s' /\
    window 0 50 ps s'.
Proof.
  intros Hl Ht Hw. unfold test_rw. set (f := announce _ _ _ _).
  destruct (pages_next _ _ _ _ _ _ f Ht Hw) as [Ht1 Hw1]. revert Ht1 Hw1.
  generalize (cons f s) (f k). clear Ht Hw s k. intros s k Ht Hw.
  name_body body.
  destruct (try_range_next (fun i s => testing ps k n s /\ window 0 50 ps s /\
      forall j, 0 <= j < i -> ld64 (ram (vms s)) (page_of ps j) = pattern j) 0 TEST_PAGES body s)
    as (s1 & -> & H1 & H2 & H3); [done|split_and!; [done|done|lia]| |].
  - unfold TEST_PAGES. intros i s1 Hi (H1 & H2 & H3). subst body. cbv beta.
    destruct (test_store ps k n s1 i (pattern i) Hl H1 H2 Hi) as (s' & -> & S1 & S2 & S3 & S4).
    exists s'. split; [done|]. split; [done|]. split; [done|]. intros j Hj.
    destruct (decide (j = i)) as [->|Hne]; [by rewrite S3, pattern_small|]. rewrite S4 by lia. apply H3. lia.
  - clear body. cbn [bind]. set (g := outln _).
    destruct (pages_next _ _ _ _ _ _ g H1 H2) as [H4 H5].
    assert (H6 : forall j, 0 <= j < 50 -> ld64 (ram (vms (cons g s1))) (page_of ps j) = pattern j) by exact H3.
    revert H4 H5 H6. generalize (cons g s1) (g k). clear. intros s k Ht Hw Hd.
    name_body body.
    destruct (try_range_next (fun _ s' => s' = s) 0 TEST_PAGES body s) as (s2 & -> & ->); [done|done| |].
    + unfold TEST_PAGES. intros i s1 Hi ->. exists s. split; [|done]. subst body. cbv beta. unfold load64.
      rewrite (te_cr3 _ _ _ _ Ht), (window_translate 0 50 ps), Hd, Z.eqb_refl by done. done.
    + cbn [bind]. eexists. split; [done|]. by apply pages_next.
Qed.

Lemma test_unmap_passes ps k n s :
  testing ps k n s -> window 0 50 ps s ->
  exists s', test_unmap s = (Next, s') /\
    testing ps (pass "  [PASS] All pages unmapped!"
      (announce "Test 4: VMM Page Unmapping" "  Unmapping " TEST_PAGES " pages..." k)) n s' /\
    window 50 50 ps s'.
Proof.
  intros Ht Hw. unfold test_unmap. set (f := announce _ _ _ _).
  destruct (pages_next _ _ _ _ _ _ f Ht Hw) as [Ht1 Hw1]. revert Ht1 Hw1.
  generalize (cons f s) (f k). clear Ht Hw s k. intros s k Ht Hw.
  name_body body.
  destruct (try_range_next (fun i s => testing ps k n s /\ window i 50 ps s) 0 TEST_PAGES body s)
    as (s1 & -> & H1 & H2); [done|done| |].
  - unfold TEST_PAGES. intros i s1 Hi [H1 H2]. subst body. cbv beta zeta.
    pose proof (te_root _ _ _ _ H1) as Hr. pose proof (te_count _ _ _ _ H1) as Hc.
    pose proof (window_no_big _ _ _ _ i H2 Hi) as Hnb. rewrite <- Hr in Hnb.
    destruct (owned_unmap K ps F (vms s1) (test_addr i) (te_owned _ _ _ _ H1) (test_addr_off i Hi) Hnb)
      as (M1 & M2 & M3 & M4 & X1).
    unfold unmap_page, virt_to_phys. set (v' := vmm_unmap_page _ (vms s1)) in *.
    change (vms (set_vms v' s1)) with v'. rewrite <- (kr_root _ _ _ M2) in X1.
    rewrite virt_to_phys_leaf by (intros m e; by rewrite X1).
    rewrite X1. exists (set_vms v' s1). split; [done|]. split.
    + eapply testing_step; [exact H1|exact M1| |lia|].
      * eapply keeps_rest_weaken; [|exact M2]. intros y. apply heap_kept_mono. by left.
      * intros v Hv. apply M4. intros E. apply Hv. by exists i.
    + intros j Hj. change (vms (set_vms v' s1)) with v'. destruct (decide (i = j)) as [<-|Hne].
      * rewrite decide_False by lia. rewrite <- Hr, <- (kr_root _ _ _ M2). done.
      * specialize (H2 j Hj). rewrite <- Hr in H2 |- *. rewrite M4 by (intros E; by apply Hne, test_addr_inj).
        destruct (decide (i <= j < 50)); destruct (decide (i + 1 <= j < 50)); (done || lia).
  - cbn [bind]. eexists. split; [done|]. by apply pages_next.
Qed.

Lemma test_free_passes ps k n s :
  length ps = 50%nat -> testing ps k n s -> window 50 50 ps s ->
  testing [] (pass "  [PASS] All pages freed!"
    (announce "Test 5: PMM Page Freeing" "  Freeing " TEST_PAGES " pages..." k)) (n + 50) (test_free ps s) /\
  window 50 50 ps (test_free ps s).
Proof.
  intros Hl Ht Hw. unfold test_free. set (f := announce _ _ _ _).
  destruct (pages_next _ _ _ _ _ _ f Ht Hw) as [Ht1 Hw1]. revert Ht1 Hw1.
  generalize (cons f s) (f k). clear Ht Hw s k. intros s k Ht Hw. cbv zeta. set (body := fun i s => _).
  assert (H : testing (drop 50 ps) k (n + 50) (for_range 0 TEST_PAGES body s) /\
              window 50 50 ps (for_range 0 TEST_PAGES body s)).
  { apply (for_range_inv (fun i s => testing (drop (Z.to_nat i) ps) k (n + i) s /\ window 50 50 ps s) 0 TEST_PAGES); [done| |].
    - split; [|done]. by rewrite Z.add_0_r.
    - unfold TEST_PAGES. intros i s1 Hi [H1 H2]. subst body. cbv beta. unfold free_page.
      assert (E : drop (Z.to_nat i) ps = page_of ps i :: drop (Z.to_nat (i + 1)) ps).
      { replace (Z.to_nat (i + 1)) with (S (Z.to_nat i)) by lia. apply drop_S. unfold page_of.
        rewrite nth_lookup. destruct (ps !! Z.to_nat i) eqn:Ep; [done|]. apply lookup_ge_None in Ep. lia. }
      rewrite E in H1. pose proof (te_count _ _ _ _ H1) as Hc.
      destruct (owned_free K _ _ F (vms s1) (te_owned _ _ _ _ H1)) as (M1 & M2 & M3 & M4). split.
      + eapply testing_step; [exact H1|exact M1|exact M2|lia|]. by apply same_leaves_all.
      + apply window_same; [apply (te_root _ _ _ _ H1)|done|done]. }
  rewrite drop_ge in H by lia. destruct H as [H1 H2]. split; [by apply testing_cons|done].
Qed.

(** ** The heap test *)

(** What the bytes of the heap hold after the blocks have been filled. *)
Definition want (base : Z) (s : sys) (v : Z) : option Z :=
  if v <? base then peek (vms s) v else Some (u8 ((v - base) / 256 + (v - base) mod 256)).

(** During the last test, which began in [s1] with the heap pointer at [base]:
    [i] blocks allocated, [w] bytes written. *)
Record filling (s1 : sys) (base : Z) (k : con D) (n i w : Z) (s : sys) : Prop := {
  fi_heap : exists F', F ⊆ F' /\ heap_ok K F' (low (ks s));
  fi_mem : agree_on K (ram (vms s1)) (ram (vms s));
  fi_root : current_pml4_phys (vms s) = root;
  fi_cr3 : cr3 (vms s) = root;
  fi_con : kcon (vms s) = k;
  fi_count : n <= fa_count (frames (vms s));
  fi_ptr : heap_current_ptr (low (ks s)) = base + 256 * i;
  fi_peek v : HEAP_START <= v < base + w -> peek (vms s) v = want base s1 v;
  fi_leaf v : off_heap v -> leaf 4 (ram (vms s)) root v = leaf 4 (ram (vms s1)) root v;
  fi_same : s = set_ks (set_low (low (ks s)) (ks s1)) s1
}.

Lemma filling_cons s1 base k n i w f s : filling s1 base k n i w s -> filling s1 base (f k) n i w (cons f s).
Proof.
  intros [T1 T2 T3 T4 T5 T6 T7 T8 T9 T10].
  assert (E : forall h, set_ks (set_low h (ks s)) s = set_ks (set_low h (ks s1)) s1) by (intros h; by rewrite T10).
  split; try done.
  - destruct T1 as (F' & HF & Hi & Hr). exists F'. split; [done|]. split; [|done]. by eapply heap_inv_same; [| |exact Hi].
  - change (kcon (vms (cons f s))) with (f (kcon (vms s))). by rewrite T5.
  - exact (E _).
Qed.

Lemma load8_peek v s : cr3 (vms s) = current_pml4_phys (vms s) -> load8 v s = peek (vms s) v.
Proof. intros E. unfold load8, peek. rewrite E. by destruct (translate _ _ _). Qed.

Lemma filling_kmalloc s1 base k n i w s :
  filling s1 base k n i w s -> w <= 256 * i -> HEAP_START <= base -> 8 <= n -> base + 256 * i + 256 < HEAP_START + HEAP_SIZE ->
  exists s', kmalloc_ 256 s = (base + 256 * i, s') /\ filling s1 base k (n - 8) (i + 1) w s'.
Proof.
  intros [(F' & HF & Hh) T2 T3 T4 T5 T6 T7 T8 T9 T10] Hw Hb Hn Hroom. unfold kmalloc_.
  assert (R : round16 256 = 256) by done.
  assert (Hpg : pages_of (heap_current_ptr (low (ks s))) 256 <= 2) by (unfold pages_of; dlia).
  destruct (kmalloc_more K F' (low (ks s)) 256 Hh ltac:(lia))
    as (h' & F2 & E & H1 & H2 & H3 & H4 & H5 & H6 & H7 & H8 & H9); [rewrite R, T7; lia|rewrite R; fold (vms s); lia|].
  fold (vms s) in H4, H5, H6, H7, H8, H9. rewrite R in H3, H7. rewrite E, T7. eexists. split; [done|].
  split; change (vms (set_ks (set_low h' (ks s)) s)) with (vmst h'); cbn [ks set_ks low set_low]; try congruence.
  - exists F2. split; [by etransitivity|done].
  - eapply agree_on_trans; [exact T2|]. eapply agree_on_weaken; [|exact H8]. intros x. by left.
  - lia.
  - lia.
  - intros v Hv. rewrite (peek_extends K F' F2 (low (ks s))); [by apply T8|done|apply H1|done|done|lia].
  - intros v Hv. rewrite <- T3, H9, T3 by done. by apply T9.
  - rewrite T10. done.
Qed.

Lemma filling_store s1 base k n i w s x :
  filling s1 base k n i w s -> 0 <= w < 256 * i -> HEAP_START <= base -> base + 256 * i < HEAP_START + HEAP_SIZE ->
  x = u8 (w / 256 + w mod 256) ->
  exists s', store8 (base + w) x s = Some s' /\ filling s1 base k n i (w + 1) s'.
Proof.
  intros [(F' & HF & Hh) T2 T3 T4 T5 T6 T7 T8 T9 T10] Hw Hb Hroom Hx. unfold store8.
  destruct (heap_write K F' (low (ks s)) (base + w) x Hh) as (p & Ep & W1 & W2 & W3 & W4 & W5 & W6); [lia|].
  fold (vms s) in Ep, W1, W2, W3, W4, W5, W6. rewrite T4, <- T3, Ep. eexists. split; [done|].
  set (v' := set_ram _ (vms s)) in *.
  assert (E : forall v, set_vms v s = set_ks (set_low (set_vmst v (low (ks s))) (ks s1)) s1)
    by (intros v; by rewrite T10).
  split; change (vms (set_vms v' s)) with v'; change (low (ks (set_vms v' s))) with (set_vmst v' (low (ks s)));
    try congruence; try done.
  - by exists F'.
  - by eapply agree_on_trans.
  - intros v Hv. destruct (decide (v = base + w)) as [->|Hne].
    + rewrite W5. unfold want. destruct (Z.ltb_spec (base + w) base); [lia|].
      replace (base + w - base) with w by lia. by rewrite Hx, u8_u8.
    + rewrite W6 by (done || lia). apply T8. lia.
  - intros v Hv. rewrite <- T3, W4, T3. by apply T9.
Qed.

Lemma fill_block_passes s1 base k n i s :
  filling s1 base k n (i + 1) (256 * i) s -> 0 <= i -> HEAP_START <= base -> base + 256 * (i + 1) < HEAP_START + HEAP_SIZE ->
  exists s', fill_block (base + 256 * i) i s = (Next, s') /\ filling s1 base k n (i + 1) (256 * (i + 1)) s'.
Proof.
  intros Hs Hi Hb Hroom. unfold fill_block. name_body body.
  destruct (try_range_next (fun j s => filling s1 base k n (i + 1) (256 * i + j) s) 0 256 body s)
    as (s' & -> & H); [done|by rewrite Z.add_0_r| |].
  - intros j s2 Hj H2. subst body. cbv beta.
    assert (Hbd : 0 < HEAP_START /\ HEAP_START + HEAP_SIZE < 2 ^ 64) by by vm_compute.
    rewrite u64_small by lia. rewrite <- Z.add_assoc.
    destruct (filling_store s1 base k n (i + 1) (256 * i + j) s2 (u8 (i + j)) H2) as (s3 & -> & H3); [lia|done|done| |].
    + do 2 f_equal; dlia.
    + exists s3. split; [done|]. by rewrite Z.add_assoc.
  - exists s'. split; [done|]. by replace (256 * (i + 1)) with (256 * i + 256) by lia.
Qed.

Lemma test_kmalloc_passes s1 base k n s :
  filling s1 base k n 0 0 s -> 800 <= n -> HEAP_START <= base -> base + 25600 < HEAP_START + HEAP_SIZE ->
  exists ptrs s', test_kmalloc s = (Next, (ptrs, s')) /\
    filling s1 base (announce "Test 6: Heap Allocations" "  Allocating " TEST_HEAP_ALLOCS " heap blocks..." k)
      (n - 800) 100 25600 s' /\
    length ptrs = 100%nat /\ forall i, 0 <= i < 100 -> page_of ptrs i = base + 256 * i.
Proof.
  intros Hs Hn Hb Hroom. unfold test_kmalloc. set (f := announce _ _ _ _).
  apply (filling_cons _ _ _ _ _ _ f) in Hs. revert Hs. generalize (cons f s) (f k). clear s k. intros s k Hs.
  cbv zeta. name_body body.
  destruct (try_range_next (fun i '(ptrs, s) => filling s1 base k (n - 8 * i) i (256 * i) s /\ length ptrs = Z.to_nat i /\
      forall j, 0 <= j < i -> page_of ptrs j = base + 256 * j) 0 TEST_HEAP_ALLOCS body ([], s))
    as ([ptrs s'] & -> & H1 & H2 & H3); [done| | |].
  - split; [by rewrite Z.mul_0_r, Z.sub_0_r|]. split; [done|lia].
  - unfold TEST_HEAP_ALLOCS. intros i [ptrs s2] Hi (H1 & H2 & H3). subst body. cbv beta iota.
    destruct (filling_kmalloc s1 base k _ i _ s2 H1) as (s3 & -> & H4); [lia|done|lia|lia|].
    assert (Hbd : 0 < HEAP_START) by done. destruct (Z.eqb_spec (base + 256 * i) 0); [lia|].
    destruct (fill_block_passes s1 base k _ i s3 H4) as (s4 & -> & H5); [lia|done|lia|]. cbn [bind].
    eexists (_, _). split; [done|]. replace (n - 8 * (i + 1)) with (n - 8 * i - 8) by lia. split; [exact H5|].
    split; [rewrite length_app, H2; cbn [length]; lia|]. intros j Hj. destruct (decide (j = i)) as [->|Hne].
    + unfold page_of. rewrite <- H2. apply nth_middle.
    + rewrite page_of_app by lia. apply H3. lia.
  - exists ptrs, s'. by split_and!.
Qed.

Lemma test_verify_passes s1 base k n ptrs s :
  filling s1 base k n 100 25600 s -> HEAP_START <= base -> base + 25600 < HEAP_START + HEAP_SIZE ->
  (forall i, 0 <= i < 100 -> page_of ptrs i = base + 256 * i) ->
  exists s', test_verify ptrs s = (Next, s') /\
    filling s1 base (pass "  [PASS] Heap test successful!" (outln "  Verifying heap data..." k)) n 100 25600 s'.
Proof.
  intros Hs Hb Hroom Hptrs. unfold test_verify. set (f := outln _).
  apply (filling_cons _ _ _ _ _ _ f) in Hs. revert Hs. generalize (cons f s) (f k). clear s k. intros s k Hs.
  cbv zeta. name_body body.
  destruct (try_range_next (fun _ s' => s' = s) 0 TEST_HEAP_ALLOCS body s) as (s' & -> & ->); [done|done| |].
  - unfold TEST_HEAP_ALLOCS. intros i s2 Hi ->. subst body. cbv beta. name_body body.
    apply (try_range_next (fun _ s' => s' = s) 0 256 body s); [done|done|].
    intros j s2 Hj ->. exists s. split; [|done]. subst body. cbv beta.
    assert (Hbd : 0 < HEAP_START /\ HEAP_START + HEAP_SIZE < 2 ^ 64) by by vm_compute.
    rewrite Hptrs, u64_small by lia. rewrite load8_peek by (rewrite (fi_root _ _ _ _ _ _ _ Hs); apply Hs).
    rewrite (fi_peek _ _ _ _ _ _ _ Hs) by lia. unfold want. destruct (Z.ltb_spec (base + 256 * i + j) base); [lia|].
    replace ((base + 256 * i + j - base) / 256) with i by dlia.
    replace ((base + 256 * i + j - base) mod 256) with j by dlia. by rewrite Z.eqb_refl.
  - cbn [bind]. eexists. split; [done|]. by apply filling_cons.
Qed.

(** Between the tests of the pages and the test of the heap. *)
Lemma testing_filling k n s :
  heap_ok K F (low (ks s0)) -> testing [] k n s -> filling s (heap_current_ptr (low (ks s0))) k n 0 0 s.
Proof.
  intros (_ & Hr) [T1 T2 T3 T4 T5 T6 T7 T8]. apply owned_nil in T1.
  assert (Hh : heap_ok K F (low (ks s))) by (rewrite T8; split; [exact T1|exact Hr]).
  split; try done; [by exists F|rewrite T8; symmetry; apply Z.add_0_r| |].
  - intros v Hv. unfold want. by destruct (Z.ltb_spec v (heap_current_ptr (low (ks s0)))); [|lia].
  - by destruct s as [[] ?].
Qed.

Lemma testing_leaves ps k n s v :
  testing ps k n s -> window 0 0 ps s0 -> window 50 50 ps s -> leaf 4 (ram (vms s)) root v = leaf 4 (ram (vms s0)) root v.
Proof.
  intros Ht H0 H1. destruct (in_test_dec v) as [(i & Hi & Hv)|Hv]; [|by apply (te_leaf _ _ _ _ Ht)].
  specialize (H0 i Hi). specialize (H1 i Hi). rewrite decide_False in H0 by lia. rewrite decide_False in H1 by lia.
  rewrite <- !(leaf_same_page _ _ _ _ Hv). congruence.
Qed.

End passes.

(** ** The whole test *)
Section memtest.
  Context {A : Type} `{!FrameAllocator A} `{!PageManager A} {D : Type} `{!PortBus D}.
  Notation sys := (sys (A := A) (D := D)).
  Implicit Types (s : sys).

(** What [cmd_memtest] prints when nothing goes wrong. *)
Definition memtest_output : con D -> con D :=
  nl >>> outln "=== Memory Stress Test ===" >>> nl >>>
  announce "Test 1: PMM Page Allocation" "  Allocating " TEST_PAGES " pages..." >>>
  pass "  [PASS] All pages allocated!" >>>
  announce "Test 2: VMM Page Mapping" "  Mapping " TEST_PAGES " pages..." >>>
  pass "  [PASS] All pages mapped correctly!" >>>
  announce "Test 3: Memory Read/Write" "  Writing test pattern to " TEST_PAGES " pages..." >>>
  outln "  Reading back and verifying..." >>> pass "  [PASS] All data verified!" >>>
  announce "Test 4: VMM Page Unmapping" "  Unmapping " TEST_PAGES " pages..." >>>
  pass "  [PASS] All pages unmapped!" >>>
  announce "Test 5: PMM Page Freeing" "  Freeing " TEST_PAGES " pages..." >>>
  pass "  [PASS] All pages freed!" >>>
  announce "Test 6: Heap Allocations" "  Allocating " TEST_HEAP_ALLOCS " heap blocks..." >>>
  outln "  Verifying heap data..." >>> pass "  [PASS] Heap test successful!" >>>
  nl >>> pass "=== All Tests Passed! ===" >>> nl.

(** C18: on a kernel whose heap is consistent and whose test region is not mapped,
    with room and 1000 free frames, [cmd_memtest] passes every test and returns;
    the heap has grown by the 100 blocks, which hold the pattern, and nothing
    else has changed: not the rest of the heap, not the memory of others, no
    translation outside the heap, no other part of the kernel. *)
Theorem memtest_passes K F s args :
  let base := heap_current_ptr (low (ks s)) in
  let root := current_pml4_phys (vms s) in
  heap_ok K F (low (ks s)) -> cr3 (vms s) = root ->
  (forall i, 0 <= i < 50 -> translate (ram (vms s)) root (test_addr i) = None) ->
  1000 <= fa_count (frames (vms s)) -> base + 25600 < HEAP_START + HEAP_SIZE ->
  exists s', cmd_memtest args s = (None, s') /\ kcon (vms s') = memtest_output (kcon (vms s)) /\
    (exists F', F ⊆ F' /\ heap_ok K F' (low (ks s'))) /\ heap_current_ptr (low (ks s')) = base + 25600 /\
    (forall i j, 0 <= i < 100 -> 0 <= j < 256 -> load8 (base + 256 * i + j) s' = Some (u8 (i + j))) /\
    (forall v, HEAP_START <= v < base -> load8 v s' = load8 v s) /\ agree_on K (ram (vms s)) (ram (vms s')) /\
    (forall v, off_heap v -> translate (ram (vms s')) root v = translate (ram (vms s)) root v) /\
    s' = set_ks (set_low (low (ks s')) (ks s)) s.
Proof.
  intros base root Hh Hcr Hfree Hc Hroom. pose proof Hh as (Hi & Hptr & _). fold base in Hptr.
  set (n := fa_count (frames (vms s))) in *. unfold cmd_memtest. set (f := nl >>> _).
  assert (Hw0 : window s 0 0 [] s).
  { intros i Hi0. rewrite decide_False by lia. specialize (Hfree i Hi0). unfold translate in Hfree.
    by destruct (leaf _ _ _ _). }
  assert (Ht0 : testing K F s [] (kcon (vms s)) n s).
  { split; try done. - by apply owned_nil. - by destruct s as [[[] ? ? ? ? ?] ?]. }
  destruct (pages_next _ _ _ _ _ _ _ _ _ f Ht0 Hw0) as [Ht Hw]. cbv zeta.
  generalize dependent (cons f s). intros s1 Ht Hw.
  destruct (test_alloc_passes K F s _ n s1 Ht ltac:(lia) Hw) as (ps & s2 & -> & Hl & Ht2 & Hw2). cbn [bind].
  destruct (test_map_passes K F s ps _ _ s2 Hl Ht2 ltac:(lia) Hw2) as (s3 & -> & Ht3 & Hw3). cbn [bind].
  destruct (test_rw_passes K F s ps _ _ s3 Hl Ht3 Hw3) as (s4 & -> & Ht4 & Hw4). cbn [bind].
  destruct (test_unmap_passes K F s ps _ _ s4 Ht4 Hw4) as (s5 & -> & Ht5 & Hw5). cbn [bind].
  destruct (test_free_passes K F s ps _ _ s5 Hl Ht5 Hw5) as [Ht6 Hw6].
  generalize dependent (test_free ps s5). intros s6 Ht6 Hw6. clear Ht Hw Ht2 Hw2 Ht3 Hw3 Ht4 Hw4 Ht5 Hw5.
  assert (Hl6 : forall v, leaf 4 (ram (vms s6)) root v = leaf 4 (ram (vms s)) root v).
  { intros v. eapply testing_leaves; [exact Ht6| |]; by eapply window_none. }
  pose proof (te_mem _ _ _ _ _ _ _ Ht6) as Hm6. pose proof (te_same _ _ _ _ _ _ _ Ht6) as Hs6.
  pose proof (te_root _ _ _ _ _ _ _ Ht6) as Hr6. fold root in Hr6.
  assert (Hp6 : forall v, HEAP_START <= v < base -> peek (vms s6) v = peek (vms s) v).
  { intros v Hv. apply (peek_extends K F F (low (ks s))); try done.
    apply owned_nil. apply (te_owned _ _ _ _ _ _ _ Ht6). }
  apply (testing_filling K F s _ _ s6 Hh) in Ht6. fold base in Ht6.
  destruct (test_kmalloc_passes K F s s6 base _ _ s6 Ht6) as (ptrs & s7 & -> & Hf7 & Hl7 & Hq7); [lia|lia|done|].
  cbn [bind].
  destruct (test_verify_passes K F s s6 base _ _ ptrs s7 Hf7) as (s8 & -> & Hf8); [lia|done|done|].
  cbn [bind]. set (g := nl >>> _). apply (filling_cons _ _ _ _ _ _ _ _ _ g) in Hf8.
  eexists. split; [done|]. revert Hf8. generalize (cons g s8). clear Hf7. intros s9 [F1 F2 F3 F4 F5 F6 F7 F8 F9 F10].
  assert (E8 : forall v, load8 v s9 = peek (vms s9) v) by (intros v; apply load8_peek; congruence).
  split_and!.
  - rewrite F5. subst f g. unfold memtest_output, and_then. reflexivity.
  - exact F1.
  - exact F7.
  - intros i j Hi' Hj. rewrite E8, F8 by lia. unfold want. destruct (Z.ltb_spec (base + 256 * i + j) base); [lia|].
    do 3 f_equal; dlia.
  - intros v Hv. rewrite E8, F8, load8_peek by (done || lia). unfold want.
    destruct (Z.ltb_spec v base); [by apply Hp6|lia].
  - eapply agree_on_trans; [|exact F2]. eapply agree_on_weaken; [|exact Hm6]. intros x. by left.
  - intros v Hv. unfold translate. fold root in F9. by rewrite F9, Hl6.
  - rewrite F10, Hs6. done.
Qed.

End memtest.

(** ** [cmd_vmtest] *)
Section vmtest.
  Context {A : Type} `{!FrameAllocator A} `{!PageManager A} {D : Type} `{!PortBus D}.
  Notation sys := (sys (A := A) (D := D)).
  Context (s0 : sys).
  Implicit Types (s : sys) (k : con D) (K : Z -> Prop).

(** The state during the test: the memory of [K] is kept, and the frames and the
    memory satisfy [Q]. *)
Record holds K (Q : A * mem -> Prop) k s : Prop := {
  ho_ok : vm_ok K (vms s);
  ho_q : Q (frames (vms s));
  ho_root : current_pml4_phys (vms s) = current_pml4_phys (vms s0);
  ho_cr3 : cr3 (vms s) = current_pml4_phys (vms s0);
  ho_con : kcon (vms s) = k;
  ho_same : s = set_vms (vms s) s0
}.

Lemma holds_step K K' Q Q' k k' s v' :
  holds K Q k s -> vm_ok K' v' -> Q' (frames v') -> current_pml4_phys v' = current_pml4_phys (vms s) ->
  cr3 v' = cr3 (vms s) -> kcon v' = k' -> holds K' Q' k' (set_vms v' s).
Proof.
  intros [H1 Hq H2 H3 H4 H5] Hok Hq' Hr Hc Hk. rewrite H5. change (set_vms v' (set_vms (vms s) s0)) with (set_vms v' s0).
  split; change (vms (set_vms v' s0)) with v'; congruence.
Qed.

Lemma holds_cons K Q k f s : holds K Q k s -> holds K Q (f k) (cons f s).
Proof.
  intros H. eapply holds_step; [exact H| |apply H|done|done|].
  - by eapply vm_ok_same; [| |apply H].
  - cbn [kcon set_kcon]. by rewrite (ho_con _ _ _ _ H).
Qed.

(** The page at the second page of the heap: not mapped by a big page, mapped to
    the frame [p], not mapped. *)
Definition can_map (n : Z) (st : A * mem) : Prop :=
  n <= fa_count st /\ no_big (snd st) (current_pml4_phys (vms s0)) (hp 1).
Definition at_page (p : Z) (st : A * mem) : Prop :=
  fa_managed (fst st) p /\
  exists x, leaf 4 (snd st) (current_pml4_phys (vms s0)) (hp 1) = Some (1%nat, x) /\ child x = p.
Definition no_page (p : Z) (st : A * mem) : Prop :=
  fa_managed (fst st) p /\ leaf 4 (snd st) (current_pml4_phys (vms s0)) (hp 1) = None.

(** What [cmd_vmtest] prints when every check succeeds; [p] is the frame it gets. *)
Definition vmtest_output (p : Z) : con D -> con D :=
  nl >>> outln "=== VMM Test ===" >>> nl >>>
  out "  Allocated physical page at: " >>> vga_print_hex p >>> nl >>>
  out "  Mapping to virtual address: " >>> vga_print_hex 0xFFFF800000001000 >>> nl >>>
  outln "  Mapping successful!" >>>
  out "  Resolved physical address: " >>> vga_print_hex p >>> nl >>>
  pass "  [PASS] Virtual to physical mapping correct!" >>>
  nl >>> outln "  Writing test data via virtual address..." >>>
  out "  Read value: " >>> vga_print_hex 0xDEADBEEFCAFEBABE >>> nl >>>
  pass "  [PASS] Read/Write works correctly!" >>>
  nl >>> outln "  Unmapping page..." >>>
  pass "  [PASS] Unmapping successful!" >>>
  outln "  Freed physical page" >>> nl >>> outln "=== VMM Test Complete ===" >>> nl.

Lemma vmtest_map K k s :
  holds K (can_map 4) k s ->
  exists p s1, alloc_page s = (p, s1) /\ 0 < p /\ p mod 4096 = 0 /\ p + 4096 <= 2 ^ 52 /\
    (forall x, in_frame p x -> ~ K x) /\
    holds (and_frame K p) (fun st => fa_managed (fst st) p /\ can_map 3 st) k s1.
Proof.
  intros H. destruct (ho_q _ _ _ _ H) as [Hc Hn]. unfold alloc_page.
  pose proof (alloc_kept _ (vms s) (ho_ok _ _ _ _ H) ltac:(lia)) as Ha.
  destruct (fa_alloc (frames (vms s))) as [p st]. destruct Ha as (A1 & A2 & A3 & A4 & A5 & A6 & A7 & A8 & A9 & A10).
  eexists p, _. do 5 (split; [done|]). eapply holds_step; [exact H|exact A5| |done|done|apply H].
  split; [done|]. split; [cbn [frames set_frames]; lia|].
  rewrite <- (ho_root _ _ _ _ H) in Hn |- *. by eapply no_big_leaf; [exact A10|].
Qed.

Lemma vmtest_place K k s p :
  holds K (fun st => fa_managed (fst st) p /\ can_map 3 st) k s -> 0 < p -> p mod 4096 = 0 -> p + 4096 <= 2 ^ 52 ->
  holds K (at_page p) k (map_page (hp 1) p rw s).
Proof.
  intros H H1 H2 H3. destruct (ho_q _ _ _ _ H) as (Hm & Hc & Hn). pose proof (ho_root _ _ _ _ H) as Hr.
  rewrite <- Hr in Hn.
  destruct (map_page_cases _ (vms s) (hp 1) p rw (ho_ok _ _ _ _ H) Hn ltac:(lia) ltac:(by vm_compute))
    as (M1 & M2 & M3 & _ & _ & M6 & _ & [(x & X1 & X2 & _ & X3 & _)|M8]); [|lia].
  eapply holds_step; [exact H|exact M3| |done|done|rewrite X3; apply H].
  split; [by apply M6|]. exists x. rewrite <- Hr. split; [exact X1|].
  rewrite X2. unfold child. change (2 ^ 12) with 4096. lia.
Qed.

Lemma at_page_translate p s : at_page p (frames (vms s)) ->
  translate (ram (vms s)) (current_pml4_phys (vms s0)) (hp 1) = Some p /\
  no_big (ram (vms s)) (current_pml4_phys (vms s0)) (hp 1).
Proof.
  intros (_ & x & Hx & Hc). unfold translate, no_big, ram. rewrite Hx. cbn [option_map]. rewrite phys_of_page, Hc, hp_mod.
  split; [f_equal; lia|]. by intros n e [= <- _].
Qed.

Lemma vmtest_resolve K k s p : holds K (at_page p) k s -> virt_to_phys (hp 1) s = (p, s).
Proof.
  intros H. unfold virt_to_phys. destruct (at_page_translate p s (ho_q _ _ _ _ H)) as [_ Hn].
  destruct (ho_q _ _ _ _ H) as (_ & x & Hx & Hc). fold (ram (vms s)) in Hx.
  rewrite <- (ho_root _ _ _ _ H) in Hx, Hn. rewrite virt_to_phys_leaf, Hx, Hc, hp_mod by done. rewrite Z.add_0_r.
  f_equal. by destruct s as [[[] ? ? ? ? ?] ?].
Qed.

(** The write and the read. *)
Lemma vmtest_write K k s p x :
  holds (and_frame K p) (at_page p) k s -> 0 <= x < 2 ^ 64 ->
  exists s', store64 (hp 1) x s = Some s' /\ load64 (hp 1) s' = Some x /\ holds (and_frame K p) (at_page p) k s'.
Proof.
  intros H Hx. destruct (at_page_translate p s (ho_q _ _ _ _ H)) as [Ht _].
  unfold store64. rewrite (ho_cr3 _ _ _ _ H), Ht.
  set (m' := st64 _ _ _). destruct (kept_write _ (vms s) m' (ho_ok _ _ _ _ H)) as (W1 & _ & W3).
  { eapply agree_on_weaken; [|apply st64_only_in]. intros y Hy. cbv beta.
    destruct (decide (p <= y < p + 8)); [|lia]. destruct Hy. right. unfold in_frame. lia. }
  assert (H' : holds (and_frame K p) (at_page p) k (set_vms (set_ram m' (vms s)) s)).
  { eapply holds_step; [exact H|exact W1| |done|done|apply H].
    destruct (ho_q _ _ _ _ H) as (Hm & e & He & Hc). split; [exact Hm|]. exists e. split; [|done].
    rewrite <- (ho_root _ _ _ _ H) in *. by etransitivity; [apply W3|]. }
  eexists. split; [done|]. split; [|exact H']. unfold load64.
  destruct (at_page_translate p _ (ho_q _ _ _ _ H')) as [Ht' _]. rewrite (ho_cr3 _ _ _ _ H'), Ht'. f_equal.
  change (ram (vms (set_vms (set_ram m' (vms s)) s))) with m'. subst m'. by rewrite ld64_st64, u64_small.
Qed.

(** Unmapping the page and giving the frame back. *)
Lemma vmtest_drop K k s p :
  holds K (at_page p) k s ->
  holds K (no_page p) k (unmap_page (hp 1) s) /\ virt_to_phys (hp 1) (unmap_page (hp 1) s) = (0, unmap_page (hp 1) s).
Proof.
  intros H. destruct (at_page_translate p s (ho_q _ _ _ _ H)) as [_ Hn]. pose proof (ho_root _ _ _ _ H) as Hr.
  rewrite <- Hr in Hn.
  destruct (unmap_page_cases _ (vms s) (hp 1) (ho_ok _ _ _ _ H) Hn) as (M1 & M2 & M3 & M4 & _ & _ & M7 & _ & M9 & _).
  split.
  - eapply holds_step; [exact H|exact M4| |done|done|rewrite M3; apply H].
    split; [rewrite M9; apply (ho_q _ _ _ _ H)|]. rewrite <- Hr. exact M7.
  - unfold virt_to_phys. change (vms (unmap_page (hp 1) s)) with (vmm_unmap_page (hp 1) (vms s)).
    rewrite <- M1 in M7. rewrite virt_to_phys_leaf by (intros n e; by rewrite M7). by rewrite M7.
Qed.

Lemma vmtest_free K k s p :
  holds (and_frame K p) (no_page p) k s -> 0 < p -> p mod 4096 = 0 -> (forall x, in_frame p x -> ~ K x) ->
  holds K (fun st => leaf 4 (snd st) (current_pml4_phys (vms s0)) (hp 1) = None) k (free_page p s).
Proof.
  intros H H1 H2 H3. destruct (ho_q _ _ _ _ H) as [Hm Hl].
  destruct (free_kept K (vms s) p (ho_ok _ _ _ _ H) H2 H1 Hm H3) as (G1 & _ & _ & _ & G5).
  eapply holds_step; [exact H|exact G1| |done|done|apply H].
  cbv beta. rewrite <- (ho_root _ _ _ _ H) in *. by etransitivity; [apply G5|].
Qed.

(** A heap whose second page faults. *)
Lemma vmtest_end K K1 k F s :
  heap_ok K F (low (ks s0)) -> cr3 (vms s0) = current_pml4_phys (vms s0) ->
  HEAP_START + 8192 <= heap_current_ptr (low (ks s0)) ->
  holds K1 (fun st => leaf 4 (snd st) (current_pml4_phys (vms s0)) (hp 1) = None) k s ->
  (forall v, HEAP_START + 4096 <= v < HEAP_START + 8192 -> load8 v s0 <> None /\ load8 v s = None) /\
  forall K' F', ~ heap_ok K' F' (low (ks s)).
Proof.
  intros Hh Hcr Hptr H. assert (Hl : leaf 4 (ram (vms s)) (current_pml4_phys (vms s0)) (hp 1) = None) by exact (ho_q _ _ _ _ H).
  pose proof Hh as (Hi & _). split.
  - intros v Hv. destruct (heap_mapped K F (low (ks s0)) v Hh ltac:(lia)) as [f Ef]. split.
    + rewrite load8_peek by done. by rewrite (peek_heap K F (vms s0) v f Hi Ef).
    + unfold load8. rewrite (ho_cr3 _ _ _ _ H). unfold translate.
      rewrite <- (leaf_same_page _ _ (hp 1) v), Hl; [done|]. apply same_page_page. unfold hp, HEAP_START in *. dlia.
  - intros K' F' (Hi' & _ & _ & _ & Hmap). rewrite (ho_same _ _ _ _ H) in Hmap.
    change (heap_current_ptr (low (ks (set_vms (vms s) s0)))) with (heap_current_ptr (low (ks s0))) in Hmap.
    pose proof (hi_map _ _ _ Hi' 1 ltac:(lia)) as Hm. fold (vms s) in Hm. rewrite (ho_root _ _ _ _ H), Hl in Hm.
    destruct (F' !! 1) eqn:E; [by destruct Hm as (x & Hx & _)|].
    apply (Hmap 1); [lia|unfold hp; lia|done].
Qed.

Ltac printed H :=
  lazymatch type of H with holds _ _ _ ?s =>
    match goal with |- context [cons ?f s] => apply (holds_cons _ _ _ f) in H end
  end.

(** C19: the address [cmd_vmtest] maps its page at is the second page of the kernel
    heap, part of the first task's stack in a started kernel: every check passes,
    but then the page is unmapped, so that its bytes fault from now on, and the
    heap is not consistent any more whatever it is taken to consist of. *)
Theorem vmtest_unmaps_heap K F args :
  heap_ok K F (low (ks s0)) -> cr3 (vms s0) = current_pml4_phys (vms s0) ->
  HEAP_START + 8192 <= heap_current_ptr (low (ks s0)) -> 4 <= fa_count (frames (vms s0)) ->
  exists p s', cmd_vmtest args s0 = (None, s') /\ kcon (vms s') = vmtest_output p (kcon (vms s0)) /\
    (forall v, HEAP_START + 4096 <= v < HEAP_START + 8192 -> load8 v s0 <> None /\ load8 v s' = None) /\
    forall K' F', ~ heap_ok K' F' (low (ks s')).
Proof.
  intros Hh Hcr Hptr Hc. pose proof Hh as (Hi & _). unfold cmd_vmtest. set (f0 := nl >>> _).
  change 0xFFFF800000001000 with (hp 1).
  assert (H : holds (heap_kept K F) (can_map 4) (kcon (vms s0)) s0).
  { split; try done; [apply Hi|split; [done|by apply (hi_no_big K F (vms s0) 1)]|]. by destruct s0 as [[[] ? ? ? ? ?] ?]. }
  cbv zeta. printed H. generalize dependent (cons f0 s0). intros s1 H.
  destruct (vmtest_map _ _ s1 H) as (p & s2 & -> & P1 & P2 & P3 & P4 & H2). clear H.
  destruct (Z.eqb_spec p 0); [lia|]. exists p. printed H2. printed H2.
  apply vmtest_place in H2; [|done..].
  generalize dependent (map_page (hp 1) p rw (cons (out "  Mapping to virtual address: " >>> vga_print_hex (hp 1) >>> nl)
    (cons (out "  Allocated physical page at: " >>> vga_print_hex p >>> nl) s2))). intros s3 H3.
  printed H3. rewrite (vmtest_resolve _ _ _ p H3), Z.eqb_refl. printed H3. printed H3. printed H3.
  destruct (vmtest_write _ _ _ p 0xDEADBEEFCAFEBABE H3 ltac:(lia)) as (s4 & -> & -> & H4).
  clear H3. rewrite Z.eqb_refl. printed H4. printed H4. printed H4.
  destruct (vmtest_drop _ _ _ p H4) as (H5 & ->). clear H4. cbn [Z.eqb].
  generalize dependent (unmap_page (hp 1) (cons (nl >>> outln "  Unmapping page...") (cons (pass "  [PASS] Read/Write works correctly!")
    (cons (out "  Read value: " >>> vga_print_hex 0xDEADBEEFCAFEBABE >>> nl) s4)))). intros s5 H5. printed H5.
  apply vmtest_free in H5; [|done..].
  generalize dependent (free_page p (cons (pass "  [PASS] Unmapping successful!") s5)). intros s6 H6. printed H6.
  eexists. split; [done|]. split; [|exact (vmtest_end _ _ _ F _ Hh Hcr Hptr H6)].
  rewrite (ho_con _ _ _ _ H6). subst f0. unfold vmtest_output, and_then. reflexivity.
Qed.

End vmtest.

(** ** Witnesses: the tests on the kernel that has just started *)
Import Pmm Ports.SimBus Kernel.

Definition started_sys : sys (A := Pmm.pmm) (D := sim_bus) :=
  kernel_init some_image (boot_sys some_mem 0x9000 (bus_con bios_bus) Desc.some_cpu).

Lemma started_sys_ok : kernel_started some_image 0x9000 started_sys.
Proof. exact (kernel_init_started some_image 0x9000 some_mem (bus_con bios_bus) Desc.some_cpu some_image_ok some_mem_handed bios_bus_operational). Qed.

Lemma memtest_passes_witness :
  exists s', cmd_memtest [] started_sys = (None, s') /\
    heap_current_ptr (low (ks s')) = heap_current_ptr (low (ks started_sys)) + 25600.
Proof.
  generalize started_sys started_sys_ok. intros s0 [_ _ _ _ _ _ [F Hh] Hp Hu [Hr Hc] Hf].
  destruct (memtest_passes _ F s0 [] Hh) as (s' & E & _ & _ & H & _).
  - by rewrite Hr, Hc.
  - intros i Hi. unfold translate. rewrite Hr, Hu; [done|..]; rewrite test_addr_eq by done; unfold ix;
      change (2 ^ (12 + 9 * (Z.of_nat 4 - 1))) with 549755813888; dlia.
  - lia.
  - rewrite Hp. by vm_compute.
  - exists s'. by split.
Defined.

Lemma vmtest_unmaps_heap_witness :
  exists s', cmd_vmtest [] started_sys = (None, s') /\ load8 (HEAP_START + 5000) s' = None.
Proof.
  generalize started_sys started_sys_ok. intros s0 [_ _ _ _ _ _ [F Hh] Hp _ [Hr Hc] Hf].
  destruct (vmtest_unmaps_heap s0 _ F [] Hh) as (p & s' & E & _ & H & _).
  - by rewrite Hr, Hc.
  - rewrite Hp. lia.
  - lia.
  - exists s'. split; [exact E|]. by apply (H (HEAP_START + 5000)).
Defined.

End MemTest.
