(* ===== verification/Stubs.v ===== *)
(** * Interrupts on the machine ([idt_asm.asm])

    What the processor does when an interrupt arrives, the assembly stubs that save
    and restore the registers around the C handlers, and the switch of tasks they
    make by returning from another frame.  The machine is that of Syscall.v. *)

From S2P Require Import Prelude Ports Vga Frames Vmm Heap KHeap Isr Task Keyboard Interrupts Desc Syscall.
Import Desc Syscall.
Local Open Scope Z_scope.
Local Open Scope kios_scope.

Module Stubs.

(** ** The processor

    Delivery of vector [v] in 64-bit mode: the stack of the gate or, from ring 3,
    of the task state segment, aligned to 16 bytes; the five words of the frame and
    the error [code] some exceptions have; an interrupt gate clears IF, and TF, NT,
    RF and VM are cleared.  The second stack pointer is that of the interrupted code. *)
Definition from_user (s : machine) : bool := seg_cs (pc s) mod 4 =? 3.

Definition interrupt_stack (ist : option Z) (s : machine) : Z :=
  let sp := match ist with
            | Some a => a
            | None => if from_user s then ld64 (ram s) (tss_base_of (ram s) (pc s) + off_rsp0) else gpr s RSP
            end in
  Z.land sp (u64 (Z.lnot 0xF)).

Definition take_interrupt (v : Z) (code : option Z) (s : machine) : option machine :=
  match deliver_to v (ram s) (pc s) with
  | None => None
  | Some (_, entry, ist) =>
      let selector := g_selector (gate_at (ram s) (snd (idtr (pc s)) + 16 * v)) in
      let u := (push_val (seg_ss (pc s)) >>> push_val (gpr s RSP) >>> push_val (rflags s) >>>
                push_val (seg_cs (pc s)) >>> push_val (rip s) >>>
                match code with Some e => push_val e | None => id end)
               (set_reg RSP (interrupt_stack ist s) s) in
      Some (Machine (gpr u) entry (Z.ldiff (rflags s) 0x34300)
              (set_selectors selector (if from_user s then 0 else seg_ss (pc s)) (pc s)) (ram u))
  end.

(** The exceptions with an error code: double fault, invalid TSS, segment not present,
    stack, general protection, page fault, alignment check, control protection, VMM
    communication, security. *)
Definition pushes_code (v : Z) : bool := bool_decide (v ∈ [8; 10; 11; 12; 13; 14; 17; 21; 29; 30]).

(** ** The stubs *)

(** The exceptions with [ISR_ERRCODE]. *)
Definition has_code (v : Z) : bool := bool_decide (v ∈ [8; 10; 11; 12; 13; 14; 17; 30]).

(** [isr0] .. [isr31] and [irq0] .. [irq15], up to the jump. *)
Definition isr (v : Z) : machine -> machine :=
  if has_code v then push_val v else push_val 0 >>> push_val v.
Definition irq (n : Z) : machine -> machine := push_val 0 >>> push_val (32 + n).

(** [mov ax, ds], [mov es, ax], [mov ds, ax] and [add rsp, n]. *)
Definition mov_ax_seg (seg : cpu -> Z) (s : machine) : machine := mov_ax (seg (pc s)) s.
Definition load_es (s : machine) : machine :=
  let c := pc s in
  set_cpu (Cpu (gdtr c) (idtr c) (tr c) (seg_cs c) (seg_ds c) (u16 (gpr s RAX)) (seg_ss c) (msrs c)) s.
Definition load_ds (s : machine) : machine :=
  let c := pc s in
  set_cpu (Cpu (gdtr c) (idtr c) (tr c) (seg_cs c) (u16 (gpr s RAX)) (seg_es c) (seg_ss c) (msrs c)) s.
Definition add_rsp (n : Z) (s : machine) : machine := set_reg RSP (u64 (gpr s RSP + n)) s.

(** The two common stubs up to the call, and behind it. *)
Definition save_registers : machine -> machine :=
  push RAX >>> push RBX >>> push RCX >>> push RDX >>> push RSI >>> push RDI >>> push RBP >>>
  push R8 >>> push R9 >>> push R10 >>> push R11 >>> push R12 >>> push R13 >>> push R14 >>> push R15 >>>
  mov_ax_seg seg_ds >>> push RAX >>> mov_ax_seg seg_es >>> push RAX >>> push_val 0 >>> push_val 0 >>>
  mov_ax 0x10 >>> load_ds_es >>> mov RDI RSP.
Definition restore_registers : machine -> machine :=
  pop RAX >>> pop RAX >>> pop RAX >>> load_es >>> pop RAX >>> load_ds >>>
  pop R15 >>> pop R14 >>> pop R13 >>> pop R12 >>> pop R11 >>> pop R10 >>> pop R9 >>> pop R8 >>>
  pop RBP >>> pop RDI >>> pop RSI >>> pop RDX >>> pop RCX >>> pop RBX >>> pop RAX >>>
  add_rsp 16 >>> iretq.

(** [handler] is the call of the C function. *)
Definition isr_common_stub (handler : machine -> machine) : machine -> machine :=
  save_registers >>> handler >>> restore_registers.
Definition irq_common_stub (handler : machine -> machine) : machine -> machine :=
  save_registers >>> handler >>> mov RSP RAX >>> restore_registers.

(** ** Frames in memory *)

(** The 26 words of [registers_t]. *)
Definition frame_of_list (l : list Z) : Isr.registers_t :=
  let w i := nth i l 0 in
  Isr.Registers (w 0%nat) (w 1%nat) (w 2%nat) (w 3%nat) (w 4%nat) (w 5%nat) (w 6%nat) (w 7%nat) (w 8%nat) (w 9%nat)
    (w 10%nat) (w 11%nat) (w 12%nat) (w 13%nat) (w 14%nat) (w 15%nat) (w 16%nat) (w 17%nat) (w 18%nat) (w 19%nat)
    (w 20%nat) (w 21%nat) (w 22%nat) (w 23%nat) (w 24%nat) (w 25%nat).

Definition words (m : mem) (a : Z) (n : nat) : list Z := map (fun i => ld64 m (a + 8 * i)) (seqZ 0 (Z.of_nat n)).
Definition frame_in (m : mem) (a : Z) : Isr.registers_t := frame_of_list (words m a 26).

Lemma frame_agree m m' a : agree_on (fun x => a <= x < a + 208) m m' -> frame_in m' a = frame_in m a.
Proof.
  intros H. unfold frame_in, words. f_equal. apply map_ext_in. intros i Hi%list_elem_of_In%elem_of_seqZ.
  apply ld64_agree. intros x Hx. apply H. lia.
Qed.

(** The register of a frame. *)
Definition reg_in (r : Isr.registers_t) (q : reg) : Z :=
  match q with
  | RAX => Isr.rax r | RBX => Isr.rbx r | RCX => Isr.rcx r | RDX => Isr.rdx r | RSI => Isr.rsi r | RDI => Isr.rdi r
  | RBP => Isr.rbp r | RSP => Isr.rsp r | R8 => Isr.r8 r | R9 => Isr.r9 r | R10 => Isr.r10 r | R11 => Isr.r11 r
  | R12 => Isr.r12 r | R13 => Isr.r13 r | R14 => Isr.r14 r | R15 => Isr.r15 r
  end.

(** What the stub of vector [v] saves of machine [s]: the selectors are pushed with
    the upper bits of [rax]. *)
Definition with_ax (s : machine) (v : Z) : Z := Z.lor (Z.ldiff (gpr s RAX) 0xFFFF) v.
Definition saved_frame (v code : Z) (s : machine) : Isr.registers_t :=
  let c := pc s in let g := gpr s in
  Isr.Registers 0 0 (with_ax s (seg_es c)) (with_ax s (seg_ds c)) (g R15) (g R14) (g R13) (g R12) (g R11) (g R10) (g R9)
    (g R8) (g RBP) (g RDI) (g RSI) (g RDX) (g RCX) (g RBX) (g RAX) v code (rip s) (seg_cs c) (rflags s) (g RSP) (seg_ss c).

(** The machine continues from frame [r], in memory [m], with the tables and model-
    specific registers of [c]. *)
Record resumes (r : Isr.registers_t) (m : mem) (c : cpu) (u : machine) : Prop := {
  re_gpr q : gpr u q = reg_in r q;
  re_rip : rip u = Isr.rip r;
  re_flags : rflags u = Isr.rflags r;
  re_cs : seg_cs (pc u) = Isr.cs r;
  re_ss : seg_ss (pc u) = Isr.ss r;
  re_ds : seg_ds (pc u) = u16 (Isr.ds r);
  re_es : seg_es (pc u) = u16 (Isr.es r);
  re_tables : gdtr (pc u) = gdtr c /\ idtr (pc u) = idtr c /\ tr (pc u) = tr c /\ msrs (pc u) = msrs c;
  re_ram : ram u = m
}.

(** ** Saving *)

(** [s] is the machine after [vs] were pushed on the stack that ended at [a], in
    memory [m]. *)
Record pushed (m : mem) (a : Z) (vs : list Z) (s : machine) : Prop := {
  ps_rsp : gpr s RSP = a - 8 * Z.of_nat (length vs);
  ps_mem : only_in (a - 8 * Z.of_nat (length vs)) a m (ram s);
  ps_val i v : vs !! i = Some v -> ld64 (ram s) (a - 8 * (Z.of_nat i + 1)) = u64 v
}.

Lemma pushed_nil m a s : gpr s RSP = a -> ram s = m -> pushed m a [] s.
Proof. intros H <-. split; [cbn [length]; lia| |done]. by intros x Hx. Qed.

Lemma pushed_same m a vs s s' : pushed m a vs s -> gpr s' RSP = gpr s RSP -> ram s' = ram s -> pushed m a vs s'.
Proof. intros [H1 H2 H3] E1 E2. by split; rewrite ?E1, ?E2. Qed.

Lemma pushed_push m a vs v s :
  pushed m a vs s -> 8 * (Z.of_nat (length vs) + 1) <= a -> a < 2 ^ 64 ->
  pushed m a (vs ++ [v]) (push_val v s).
Proof.
  intros [H1 H2 H3] Ha Hb. destruct (push_val_spec v s _ H1 ltac:(lia)) as (P1 & _ & _ & P4).
  split; rewrite ?length_app; cbn [length].
  - rewrite P1. lia.
  - rewrite P4. intros x Hx. rewrite st64_only_in by lia. apply H2. lia.
  - intros i w Hi. rewrite P4. destruct (decide (i = length vs)) as [->|Hne].
    + rewrite lookup_app_r, Nat.sub_diag in Hi by lia. injection Hi as <-.
      replace (a - 8 * (Z.of_nat (length vs) + 1)) with (a - 8 * Z.of_nat (length vs) - 8) by lia. apply ld64_st64.
    + assert (Hl : (i < length vs)%nat) by (apply lookup_lt_Some in Hi; rewrite length_app in Hi; cbn in Hi; lia).
      rewrite lookup_app_l in Hi by done. rewrite ld64_st64_ne by lia. by apply H3.
Qed.

Lemma gpr_push v s q : q <> RSP -> gpr (push_val v s) q = gpr s q.
Proof. intros Hq. unfold push_val. by rewrite gpr_set_ne. Qed.

(** A row of registers. *)
Lemma pushed_regs m a vs rs s :
  pushed m a vs s -> 8 * (Z.of_nat (length vs) + Z.of_nat (length rs)) <= a -> a < 2 ^ 64 -> RSP ∉ rs ->
  let s' := fold_left (fun s r => push r s) rs s in
  pushed m a (vs ++ map (gpr s) rs) s' /\ (forall q, q <> RSP -> gpr s' q = gpr s q) /\ same_rest s s'.
Proof.
  revert vs s. induction rs as [|r rs IH]; intros vs s H Ha Hb Hr; cbn [fold_left map length] in *.
  { by rewrite app_nil_r. }
  apply not_elem_of_cons in Hr as [Hr1 Hr].
  destruct (IH (vs ++ [gpr s r]) (push r s)) as (I1 & I2 & I3); [| |done|done|].
  - apply pushed_push; [done|lia|done].
  - rewrite length_app. cbn [length]. lia.
  - assert (Hg : forall q, q <> RSP -> gpr (push r s) q = gpr s q) by (intros q Hq; by apply gpr_push).
    split; [|split].
    + rewrite <- app_assoc in I1. cbn [app] in I1. erewrite map_ext_in; [exact I1|].
      intros q Hq. symmetry. apply Hg. intros ->. by apply Hr, list_elem_of_In.
    + intros q Hq. by rewrite I2, Hg.
    + by destruct I3 as (? & ? & ?).
Qed.

(** The general registers in the order of the stubs. *)
Definition pushed_row : list reg := [RAX; RBX; RCX; RDX; RSI; RDI; RBP; R8; R9; R10; R11; R12; R13; R14; R15].

Lemma pushed_row_ok : RSP ∉ pushed_row /\ NoDup pushed_row /\ RSP ∉ rev pushed_row /\ NoDup (rev pushed_row) /\
  forall q, q = RSP \/ q ∈ rev pushed_row.
Proof.
  split_and!; try (apply (bool_decide_unpack _); by vm_compute).
  intros []; try (by left); right; apply (bool_decide_unpack _); by vm_compute.
Qed.

Lemma save_registers_eq s :
  save_registers s = mov RDI RSP (load_ds_es (mov_ax 0x10 (push_val 0 (push_val 0 (push RAX (mov_ax_seg seg_es
    (push RAX (mov_ax_seg seg_ds (fold_left (fun s r => push r s) pushed_row s))))))))).
Proof. reflexivity. Qed.

(** The lower half of [rax] replaced twice. *)
Lemma with_ax_twice x v w : 0 <= w < 2 ^ 16 ->
  Z.lor (Z.ldiff (Z.lor (Z.ldiff x 0xFFFF) w) 0xFFFF) v = Z.lor (Z.ldiff x 0xFFFF) v.
Proof.
  intros Hw. f_equal. change 0xFFFF with (Z.ones 16). apply Z.bits_inj'. intros n Hn.
  rewrite !Z.ldiff_spec, Z.lor_spec, Z.ldiff_spec, Z.testbit_ones_nonneg by lia.
  destruct (Z.ltb_spec n 16); cbn [negb]; [by rewrite !andb_false_r|]. rewrite !andb_true_r.
  by rewrite (testbit_small 16 w), orb_false_r by lia.
Qed.

Lemma ax_low x v : 0 <= v < 2 ^ 16 -> u16 (Z.lor (Z.ldiff x 0xFFFF) v) = v.
Proof. by apply (low_part 16). Qed.

(** The instructions of the stubs, one by one. *)
Lemma mov_ax_seg_spec seg s :
  gpr (mov_ax_seg seg s) RAX = with_ax s (seg (pc s)) /\ (forall q, q <> RAX -> gpr (mov_ax_seg seg s) q = gpr s q) /\
  pc (mov_ax_seg seg s) = pc s /\ ram (mov_ax_seg seg s) = ram s /\ rflags (mov_ax_seg seg s) = rflags s.
Proof. unfold mov_ax_seg, mov_ax. split_and!; [by rewrite gpr_set_eq| |done..]. intros q Hq. by rewrite gpr_set_ne. Qed.

Lemma push_val_rest v s : pc (push_val v s) = pc s /\ rflags (push_val v s) = rflags s.
Proof. done. Qed.

Lemma kernel_segments s :
  let u := mov RDI RSP (load_ds_es (mov_ax 0x10 s)) in
  gpr u RSP = gpr s RSP /\ gpr u RDI = gpr s RSP /\ ram u = ram s /\ rflags u = rflags s /\
  pc u = Cpu (gdtr (pc s)) (idtr (pc s)) (tr (pc s)) (seg_cs (pc s)) 0x10 0x10 (seg_ss (pc s)) (msrs (pc s)).
Proof.
  cbv zeta. assert (H : forall q, q <> RAX -> gpr (load_ds_es (mov_ax 0x10 s)) q = gpr s q).
  { intros q Hq. unfold load_ds_es, mov_ax. cbn [gpr set_cpu]. by rewrite gpr_set_ne. }
  unfold mov. rewrite gpr_set_eq, (gpr_set_ne RSP), !H by done. split_and!; try done.
  unfold load_ds_es, mov_ax. cbn [pc set_cpu set_reg]. rewrite gpr_set_eq. by rewrite ax_low.
Qed.

Lemma save_registers_spec m a vs s :
  pushed m a vs s -> 8 * (Z.of_nat (length vs) + 19) <= a -> a < 2 ^ 64 -> 0 <= seg_ds (pc s) < 2 ^ 16 ->
  let u := save_registers s in
  pushed m a (vs ++ map (gpr s) pushed_row ++ [with_ax s (seg_ds (pc s)); with_ax s (seg_es (pc s)); 0; 0]) u /\
  gpr u RDI = gpr u RSP /\ rflags u = rflags s /\
  pc u = Cpu (gdtr (pc s)) (idtr (pc s)) (tr (pc s)) (seg_cs (pc s)) 0x10 0x10 (seg_ss (pc s)) (msrs (pc s)).
Proof.
  intros H Ha Hb Hds. cbv zeta. rewrite save_registers_eq.
  destruct (pushed_regs m a vs pushed_row s H) as (P1 & P2 & (P3 & P4 & P5)); [cbn; lia|done|apply pushed_row_ok|].
  revert P1 P2 P3 P4 P5. generalize (fold_left (fun s r => push r s) pushed_row s) as s1. intros s1 P1 P2 P3 P4 P5.
  set (ws := vs ++ map (gpr s) pushed_row) in *.
  assert (Hl : length ws = (length vs + 15)%nat) by (unfold ws; rewrite length_app; reflexivity).
  destruct (mov_ax_seg_spec seg_ds s1) as (A1 & A2 & A3 & A4 & A5).
  revert A1 A2 A3 A4 A5. generalize (mov_ax_seg seg_ds s1) as s2. intros s2 A1 A2 A3 A4 A5.
  assert (Q2 : pushed m a ws s2) by (apply (pushed_same _ _ _ s1); [done|by apply A2|done]).
  assert (Q3 : pushed m a (ws ++ [gpr s2 RAX]) (push RAX s2)) by (apply pushed_push; [done|lia|done]).
  assert (B : gpr (push RAX s2) RAX = gpr s2 RAX /\ pc (push RAX s2) = pc s2 /\ rflags (push RAX s2) = rflags s2)
    by (split; [by apply gpr_push|done]).
  revert Q3 B. generalize (push RAX s2) as s3. intros s3 Q3 (B1 & B2 & B3).
  destruct (mov_ax_seg_spec seg_es s3) as (C1 & C2 & C3 & C4 & C5).
  revert C1 C2 C3 C4 C5. generalize (mov_ax_seg seg_es s3) as s4. intros s4 C1 C2 C3 C4 C5.
  assert (Q4 : pushed m a (ws ++ [gpr s2 RAX]) s4) by (apply (pushed_same _ _ _ s3); [done|by apply C2|done]).
  assert (Q7 : pushed m a ((((ws ++ [gpr s2 RAX]) ++ [gpr s4 RAX]) ++ [0]) ++ [0]) (push_val 0 (push_val 0 (push RAX s4)))).
  { apply pushed_push; [apply pushed_push; [apply pushed_push; [done|..]|..]|..]; rewrite ?length_app; cbn [length]; lia. }
  assert (E : pc (push_val 0 (push_val 0 (push RAX s4))) = pc s4 /\ rflags (push_val 0 (push_val 0 (push RAX s4))) = rflags s4) by done.
  revert Q7 E. generalize (push_val 0 (push_val 0 (push RAX s4))) as s7. intros s7 Q7 (E1 & E2).
  destruct (kernel_segments s7) as (K1 & K2 & K3 & K4 & K5). cbv zeta in *.
  revert K1 K2 K3 K4 K5. generalize (mov RDI RSP (load_ds_es (mov_ax 0x10 s7))) as u. intros u K1 K2 K3 K4 K5.
  assert (Es2 : gpr s2 RAX = with_ax s (seg_ds (pc s))) by (rewrite A1; unfold with_ax; by rewrite P2, P5).
  assert (Es4 : gpr s4 RAX = with_ax s (seg_es (pc s))).
  { rewrite C1. unfold with_ax at 1. rewrite B1, B2, A3, P5, Es2. by apply with_ax_twice. }
  rewrite Es2, Es4 in Q7. unfold ws in Q7. rewrite <- !app_assoc in Q7. cbn [app] in Q7.
  split; [by apply (pushed_same _ _ _ s7)|]. split; [by rewrite K1, K2|].
  split; [by rewrite K4, E2, C5, B3, A5|]. by rewrite K5, E1, C3, B2, A3, P5.
Qed.

(** ** Frames *)

Lemma pushed_words m a vs s : pushed m a vs s -> Forall (fun v => 0 <= v < 2 ^ 64) vs ->
  words (ram s) (gpr s RSP) (length vs) = rev vs.
Proof.
  intros [H1 _ H3] Hv. apply list_eq. intros i. unfold words. rewrite H1.
  destruct (Nat.lt_ge_cases i (length vs)) as [Hi|Hi].
  2: { rewrite !lookup_ge_None_2; [done|by rewrite length_rev|rewrite length_map, length_seqZ; lia]. }
  rewrite (list_lookup_fmap (fun i => ld64 _ (_ + 8 * i))), lookup_seqZ_lt by lia. cbn [fmap option_fmap option_map].
  rewrite rev_alt. change (rev_append vs []) with (reverse vs). rewrite reverse_lookup by done.
  destruct (lookup_lt_is_Some_2 vs (length vs - S i)) as [v Hv']; [lia|]. rewrite Hv'. f_equal.
  replace (a - 8 * Z.of_nat (length vs) + 8 * (0 + Z.of_nat i)) with (a - 8 * (Z.of_nat (length vs - S i) + 1)) by lia.
  rewrite (H3 _ _ Hv'). apply u64_small. rewrite Forall_lookup in Hv. by eapply Hv.
Qed.

Lemma saved_frame_words v code s :
  frame_of_list (rev ([seg_ss (pc s); gpr s RSP; rflags s; seg_cs (pc s); rip s; code; v] ++ map (gpr s) pushed_row ++
    [with_ax s (seg_ds (pc s)); with_ax s (seg_es (pc s)); 0; 0])) = saved_frame v code s.
Proof. reflexivity. Qed.

(** ** From the interrupted instruction to the C function *)

(** Registers and selectors fit their width. *)
Record in_range (s : machine) : Prop := {
  ir_gpr q : 0 <= gpr s q < 2 ^ 64;
  ir_rip : 0 <= rip s < 2 ^ 64;
  ir_flags : 0 <= rflags s < 2 ^ 64;
  ir_cs : 0 <= seg_cs (pc s) < 2 ^ 16;
  ir_ss : 0 <= seg_ss (pc s) < 2 ^ 16;
  ir_ds : 0 <= seg_ds (pc s) < 2 ^ 16;
  ir_es : 0 <= seg_es (pc s) < 2 ^ 16
}.

(** The words the processor pushes. *)
Definition pushed_words_of (code : option Z) (s : machine) : list Z :=
  [seg_ss (pc s); gpr s RSP; rflags s; seg_cs (pc s); rip s] ++ match code with Some e => [e] | None => [] end.

Lemma take_interrupt_spec v code s sg entry ist :
  deliver_to v (ram s) (pc s) = Some (sg, entry, ist) ->
  let a := interrupt_stack ist s in
  48 <= a < 2 ^ 64 ->
  exists s1, take_interrupt v code s = Some s1 /\ pushed (ram s) a (pushed_words_of code s) s1 /\
    (forall q, q <> RSP -> gpr s1 q = gpr s q) /\ rip s1 = entry /\ rflags s1 = Z.ldiff (rflags s) 0x34300 /\
    pc s1 = set_selectors (g_selector (gate_at (ram s) (snd (idtr (pc s)) + 16 * v)))
              (if from_user s then 0 else seg_ss (pc s)) (pc s).
Proof.
  intros Hd a Ha. unfold take_interrupt. rewrite Hd. cbv zeta. fold a. set (u := and_then _ _ _).
  assert (P0 : pushed (ram s) a [] (set_reg RSP a s)) by (apply pushed_nil; [exact (gpr_set_eq RSP a s)|done]).
  assert (Hu : pushed (ram s) a (pushed_words_of code s) u).
  { unfold u, and_then, pushed_words_of.
    assert (P5 := pushed_push _ _ _ (rip s) _ (pushed_push _ _ _ (seg_cs (pc s)) _ (pushed_push _ _ _ (rflags s) _ (pushed_push _ _ _ (gpr s RSP) _
      (pushed_push _ _ _ (seg_ss (pc s)) _ P0 ltac:(cbn; lia) ltac:(lia)) ltac:(cbn; lia) ltac:(lia)) ltac:(cbn; lia) ltac:(lia))
      ltac:(cbn; lia) ltac:(lia)) ltac:(cbn; lia) ltac:(lia)). cbn [app] in P5.
    destruct code as [e|]; [|exact P5]. apply (pushed_push _ _ _ e _ P5); cbn [length]; lia. }
  assert (Hg : forall q, q <> RSP -> gpr u q = gpr s q).
  { intros q Hq. unfold u, and_then. destruct code; cbv [id]; rewrite !gpr_push, gpr_set_ne by done; done. }
  clearbody u. eexists. split; [reflexivity|]. by split_and!; [apply (pushed_same _ _ _ u)|..].
Qed.

(** The whole way in: the frame on the stack is that of the interrupted code. *)
Lemma enter_frame m a vs v code s s1 :
  pushed m a vs s1 -> vs = [seg_ss (pc s); gpr s RSP; rflags s; seg_cs (pc s); rip s; code; v] ->
  (forall q, q <> RSP -> gpr s1 q = gpr s q) -> seg_ds (pc s1) = seg_ds (pc s) -> seg_es (pc s1) = seg_es (pc s) ->
  in_range s -> 0 <= code < 2 ^ 64 -> 0 <= v < 2 ^ 64 -> 208 <= a < 2 ^ 64 ->
  let u := save_registers s1 in
  frame_in (ram u) (a - 208) = saved_frame v code s /\ gpr u RSP = a - 208 /\ gpr u RDI = a - 208 /\
  only_in (a - 208) a m (ram u) /\ rflags u = rflags s1 /\
  pc u = Cpu (gdtr (pc s1)) (idtr (pc s1)) (tr (pc s1)) (seg_cs (pc s1)) 0x10 0x10 (seg_ss (pc s1)) (msrs (pc s1)).
Proof.
  intros Hp Hvs Hg Hds Hes Hr Hc Hv Ha. cbv zeta.
  assert (Hl : length vs = 7%nat) by (by rewrite Hvs).
  destruct (save_registers_spec m a vs s1 Hp) as (S1 & S2 & S3 & S4); [lia|lia|rewrite Hds; apply Hr|].
  revert S1 S2 S3 S4. generalize (save_registers s1) as u. intros u S1 S2 S3 S4.
  assert (Ew : map (gpr s1) pushed_row = map (gpr s) pushed_row).
  { apply map_ext_in. intros q Hq. apply Hg. intros ->. apply list_elem_of_In in Hq. by apply pushed_row_ok in Hq. }
  assert (Ea : forall w, with_ax s1 w = with_ax s w) by (intros w; unfold with_ax; by rewrite Hg).
  rewrite Ew, !Ea, Hds, Hes, Hvs in S1.
  assert (Hw : forall w, 0 <= w < 2 ^ 16 -> 0 <= with_ax s w < 2 ^ 64).
  { intros w Hw. unfold with_ax. pose proof (ir_gpr _ Hr RAX). apply lor_range; [lia| |lia].
    change 0xFFFF with (Z.ones 16). rewrite Z.ldiff_ones_r, Z.shiftl_mul_pow2, Z.shiftr_div_pow2 by lia.
    change (2 ^ 16) with 65536. change (2 ^ 64) with 18446744073709551616 in *. dlia. }
  set (ws := _ ++ map (gpr s) pushed_row ++ _) in S1.
  assert (Hlen : length ws = 26%nat) by (by unfold ws).
  assert (Hrng : Forall (fun v => 0 <= v < 2 ^ 64) ws).
  { destruct Hr. unfold ws. by repeat (apply Forall_cons; split; [first [lia|done|by apply Hw]|]). }
  assert (Er : gpr u RSP = a - 208) by (rewrite (ps_rsp _ _ _ _ S1), Hlen; lia).
  split; [|split; [exact Er|split; [by rewrite S2, Er|split; [|by split]]]].
  - unfold frame_in. rewrite <- Er. replace 26%nat with (length ws) by exact Hlen.
    rewrite (pushed_words _ _ _ _ S1 Hrng). apply saved_frame_words.
  - pose proof (ps_mem _ _ _ _ S1) as Hm. rewrite Hlen in Hm. replace (a - 208) with (a - 8 * Z.of_nat 26) by lia. exact Hm.
Qed.

(** ** Restoring *)

Lemma restore_registers_eq s :
  restore_registers s = iretq (add_rsp 16 (fold_left (fun s r => pop r s) (rev pushed_row)
    (load_ds (pop RAX (load_es (pop RAX (pop RAX (pop RAX s)))))))).
Proof. reflexivity. Qed.

(** The selectors, popped through [rax]. *)
Lemma restore_selectors s a :
  gpr s RSP = a -> 0 <= a -> a + 32 < 2 ^ 64 ->
  let u := load_ds (pop RAX (load_es (pop RAX (pop RAX (pop RAX s))))) in
  gpr u RSP = a + 32 /\ ram u = ram s /\
  pc u = Cpu (gdtr (pc s)) (idtr (pc s)) (tr (pc s)) (seg_cs (pc s)) (u16 (ld64 (ram s) (a + 24)))
           (u16 (ld64 (ram s) (a + 16))) (seg_ss (pc s)) (msrs (pc s)).
Proof.
  intros Ha H0 H1. cbv zeta.
  assert (P : forall s' b, gpr s' RSP = b -> 0 <= b -> b + 8 < 2 ^ 64 ->
    gpr (pop RAX s') RSP = b + 8 /\ gpr (pop RAX s') RAX = ld64 (ram s') b /\
    ram (pop RAX s') = ram s' /\ pc (pop RAX s') = pc s').
  { intros s' b Hb Hb0 Hb1. unfold pop. rewrite (gpr_set_ne RSP), !gpr_set_eq, Hb, u64_small by (done || lia). done. }
  destruct (P s a Ha H0 ltac:(lia)) as (A1 & _ & A3 & A4). revert A1 A3 A4. generalize (pop RAX s) as s1. intros s1 A1 A3 A4.
  destruct (P s1 _ A1 ltac:(lia) ltac:(lia)) as (B1 & _ & B3 & B4). revert B1 B3 B4. generalize (pop RAX s1) as s2. intros s2 B1 B3 B4.
  destruct (P s2 _ B1 ltac:(lia) ltac:(lia)) as (C1 & C2 & C3 & C4). revert C1 C2 C3 C4. generalize (pop RAX s2) as s3. intros s3 C1 C2 C3 C4.
  destruct (P (load_es s3) _ C1 ltac:(lia) ltac:(lia)) as (D1 & D2 & D3 & D4). revert D1 D2 D3 D4.
  generalize (pop RAX (load_es s3)) as s4. intros s4 D1 D2 D3 D4.
  unfold load_ds. cbn [gpr pc ram set_cpu]. rewrite D1, D2, D3, D4. unfold load_es. cbn [gpr pc ram set_cpu gdtr idtr tr seg_cs seg_ss seg_es msrs].
  rewrite C2, C3, C4, B3, B4, A3, A4. replace (a + 8 + 8 + 8 + 8) with (a + 32) by lia.
  replace (a + 8 + 8 + 8) with (a + 24) by lia. by replace (a + 8 + 8) with (a + 16) by lia.
Qed.

(** The word of a frame that holds a register. *)
Definition slot (q : reg) : nat :=
  match q with
  | R15 => 4 | R14 => 5 | R13 => 6 | R12 => 7 | R11 => 8 | R10 => 9 | R9 => 10 | R8 => 11 | RBP => 12 | RDI => 13
  | RSI => 14 | RDX => 15 | RCX => 16 | RBX => 17 | RAX => 18 | RSP => 24
  end.

Lemma reg_in_frame m a q : reg_in (frame_in m a) q = ld64 m (a + 8 * Z.of_nat (slot q)).
Proof. by destruct q. Qed.

Lemma slot_row q : q <> RSP -> rev pushed_row !! (slot q - 4)%nat = Some q /\ (4 <= slot q)%nat.
Proof. destruct q; intros Hq; try done; (split; [reflexivity|cbn [slot]; lia]). Qed.

Lemma restore_spec s a :
  gpr s RSP = a -> 0 <= a -> a + 208 < 2 ^ 64 -> resumes (frame_in (ram s) a) (ram s) (pc s) (restore_registers s).
Proof.
  intros Ha H0 H1. rewrite restore_registers_eq.
  destruct (restore_selectors s a Ha H0 ltac:(lia)) as (S1 & S2 & S3). cbv zeta in *. revert S1 S2 S3.
  generalize (load_ds (pop RAX (load_es (pop RAX (pop RAX (pop RAX s)))))) as s1. intros s1 S1 S2 S3.
  destruct pushed_row_ok as (_ & _ & Hn & Hd & Hall).
  destruct (pop_all_spec (rev pushed_row) s1 (a + 32) S1 ltac:(lia) ltac:(cbn; lia) Hn Hd) as (P1 & (_ & _ & P2) & P3 & P4 & _).
  revert P1 P2 P3 P4. generalize (fold_left (fun s r => pop r s) (rev pushed_row) s1) as s2. intros s2 P1 P2 P3 P4.
  change (8 * Z.of_nat (length (rev pushed_row))) with 120 in P1.
  assert (Hsp : gpr (add_rsp 16 s2) RSP = a + 168).
  { unfold add_rsp. rewrite gpr_set_eq, P1, u64_small by lia. lia. }
  unfold iretq. rewrite Hsp. change (ram (add_rsp 16 s2)) with (ram s2). change (pc (add_rsp 16 s2)) with (pc s2).
  rewrite P2, P3, S2, S3. split; cbn [gpr rip rflags pc ram set_selectors seg_cs seg_ss seg_ds seg_es gdtr idtr tr msrs]; try done.
  2-4: change (Isr.rflags (frame_in (ram s) a)) with (ld64 (ram s) (a + 184));
       change (Isr.cs (frame_in (ram s) a)) with (ld64 (ram s) (a + 176));
       change (Isr.ss (frame_in (ram s) a)) with (ld64 (ram s) (a + 200)); f_equal; lia.
  intros q. rewrite reg_in_frame. destruct (decide (q = RSP)) as [->|Hq].
  - rewrite gpr_set_eq. cbn [slot]. f_equal. lia.
  - destruct (slot_row q Hq) as [Hr ?]. unfold add_rsp. rewrite !gpr_set_ne by done.
    rewrite (P4 _ q Hr), S2. f_equal. lia.
Qed.

(** ** The stacks *)

Lemma interrupt_stack_aligned ist s : 0 <= interrupt_stack ist s < 2 ^ 64 /\ interrupt_stack ist s mod 16 = 0.
Proof.
  unfold interrupt_stack. set (sp := match ist with Some a => a | None => _ end). clearbody sp.
  change (u64 (Z.lnot 15)) with 18446744073709551600. split.
  - change 18446744073709551600 with (Z.land 18446744073709551600 (Z.ones 64)).
    rewrite Z.land_assoc, Z.land_ones by lia. apply Z.mod_pos_bound. lia.
  - change 16 with (2 ^ 4). rewrite <- Z.land_ones, <- Z.land_assoc by lia. apply Z.land_0_r.
Qed.

(** The stack of vector [v]. *)
Definition stack_of (ist1 v : Z) (s : machine) : Z := interrupt_stack (if v =? 8 then Some ist1 else None) s.

(** Vector [v], with the code it brings, up to the call of the C function. *)
Lemma enters l h ist1 v code s :
  tables_ok l h ist1 (ram s) (pc s) -> 0 <= tss l -> 0 <= v < 48 -> in_range s -> 0 <= code < 2 ^ 64 ->
  let a := stack_of ist1 v s in
  208 <= a ->
  exists s1, take_interrupt v (if has_code v then Some code else None) s = Some s1 /\ rip s1 = h v /\
    let u := save_registers (isr v s1) in
    frame_in (ram u) (a - 208) = saved_frame v (if has_code v then code else 0) s /\
    gpr u RSP = a - 208 /\ gpr u RDI = a - 208 /\ (a - 208) mod 16 = 0 /\
    only_in (a - 208) a (ram s) (ram u) /\ Z.testbit (rflags u) 9 = false /\
    pc u = Cpu (gdtr (pc s)) (idtr (pc s)) (tr (pc s)) GDT_KERNEL_CODE GDT_KERNEL_DATA GDT_KERNEL_DATA
             (if from_user s then 0 else seg_ss (pc s)) (msrs (pc s)).
Proof.
  intros Ht Hl Hv Hr Hc a Ha. destruct (interrupt_stack_aligned (if v =? 8 then Some ist1 else None) s) as [Hb Hm].
  fold (stack_of ist1 v s) in Hb, Hm. fold a in Hb, Hm.
  pose proof (tables_ok_deliver l h ist1 _ _ v Ht Hl ltac:(lia)) as Hd. destruct (Z.ltb_spec v 48); [|lia].
  destruct (take_interrupt_spec v (if has_code v then Some code else None) s _ _ _ Hd) as (s1 & T1 & T2 & T3 & T4 & T5 & T6).
  { fold (stack_of ist1 v s). fold a. lia. }
  fold (stack_of ist1 v s) in T2. fold a in T2. exists s1. split; [exact T1|]. split; [exact T4|]. cbv zeta.
  set (e := if has_code v then code else 0). set (s2 := isr v s1).
  assert (Hp : pushed (ram s) a [seg_ss (pc s); gpr s RSP; rflags s; seg_cs (pc s); rip s; e; v] s2 /\
    (forall q, q <> RSP -> gpr s2 q = gpr s q) /\ pc s2 = pc s1 /\ rflags s2 = rflags s1).
  { subst s2 e. unfold isr. unfold pushed_words_of in T2. destruct (has_code v); cbn [app] in T2; unfold and_then.
    - split_and!; [by apply (pushed_push _ _ _ v _ T2); cbn [length]; lia| |done..].
      intros q Hq. by rewrite gpr_push, T3.
    - split_and!; [|intros q Hq; by rewrite !gpr_push, T3|done..].
      assert (P : pushed (ram s) a [seg_ss (pc s); gpr s RSP; rflags s; seg_cs (pc s); rip s; 0] (push_val 0 s1))
        by (apply (pushed_push _ _ _ 0 _ T2); cbn [length]; lia).
      apply (pushed_push _ _ _ v _ P); cbn [length]; lia. }
  destruct Hp as (P1 & P2 & P3 & P4).
  destruct (enter_frame (ram s) a _ v e s s2 P1 eq_refl P2) as (E1 & E2 & E3 & E4 & E5 & E6); [by rewrite P3, T6..|done| |lia|lia|].
  { subst e. destruct (has_code v); lia. }
  revert E1 E2 E3 E4 E5 E6. generalize (save_registers s2) as u. intros u E1 E2 E3 E4 E5 E6. split_and!; try done.
  - replace (a - 208) with (a + (-13) * 16) by lia. by rewrite Z.mod_add by lia.
  - rewrite E5, P4, T5, Z.ldiff_spec. by rewrite andb_false_r.
  - rewrite E6, P3, T6. cbn [set_selectors gdtr idtr tr seg_cs seg_ss msrs].
    rewrite (to_idtr _ _ _ _ _ Ht). cbn [snd]. rewrite (to_gates _ _ _ _ _ Ht v) by lia.
    by destruct (Z.ltb_spec v 48); [|lia].
Qed.

(** ** Back to the interrupted code *)

(** The frame of the interrupted code brings it back whole. *)
Lemma resumes_saved v code s m c u :
  resumes (saved_frame v code s) m c u -> in_range s ->
  gdtr c = gdtr (pc s) -> idtr c = idtr (pc s) -> tr c = tr (pc s) -> msrs c = msrs (pc s) ->
  (forall q, gpr u q = gpr s q) /\ rip u = rip s /\ rflags u = rflags s /\ pc u = pc s /\ ram u = m.
Proof.
  intros [R1 R2 R3 R4 R5 R6 R7 (R8 & R9 & R10 & R11) R12] Hr G1 G2 G3 G4. split_and!; try done.
  - intros q. rewrite R1. by destruct q.
  - cbn [saved_frame Isr.cs Isr.ss Isr.ds Isr.es] in *. unfold with_ax in R6, R7.
    rewrite ax_low in R6, R7 by apply Hr. destruct (pc u), (pc s). cbn in *. by subst.
Qed.

(** The interrupt of line [n] from its arrival to the [iretq], with the call of [handler]. *)
Definition run_irq (handler : machine -> machine) (n : Z) (s : machine) : option machine :=
  match take_interrupt (32 + n) None s with
  | Some s1 => Some (irq_common_stub handler (irq n s1))
  | None => None
  end.

Lemma irq_isr n s : 0 <= n -> irq n s = isr (32 + n) s /\ has_code (32 + n) = false.
Proof.
  intros Hn. assert (E : has_code (32 + n) = false).
  { unfold has_code. apply bool_decide_false. rewrite !elem_of_cons, elem_of_nil. lia. }
  split; [|done]. unfold isr. by rewrite E.
Qed.

Lemma pushes_has v : v <> 21 -> v <> 29 -> pushes_code v = has_code v.
Proof.
  intros H1 H2. unfold pushes_code, has_code. apply bool_decide_ext. rewrite !elem_of_cons, elem_of_nil. lia.
Qed.

(** C24: an exception reaches [isr_handler] with the frame of the code it interrupted:
    whatever vector and error code (vectors 21 and 29 apart, whose features the kernel
    does not enable: their stubs expect no code), the processor goes to the vector's own stub,
    which calls the handler in the kernel's segments, interrupts off, on a stack
    aligned to 16 bytes, with the address of a [registers_t] that holds every
    register, the vector and the error code (0 where the processor pushes none);
    only the 208 bytes below the stack were written. *)
Theorem exception_frame l h ist1 v code s :
  tables_ok l h ist1 (ram s) (pc s) -> 0 <= tss l -> 0 <= v < 32 -> v <> 21 -> v <> 29 -> in_range s -> 0 <= code < 2 ^ 64 ->
  208 <= stack_of ist1 v s ->
  exists s1, take_interrupt v (if pushes_code v then Some code else None) s = Some s1 /\ rip s1 = h v /\
    let u := save_registers (isr v s1) in
    frame_in (ram u) (gpr u RDI) = saved_frame v (if pushes_code v then code else 0) s /\
    gpr u RSP = gpr u RDI /\ gpr u RDI mod 16 = 0 /\
    only_in (stack_of ist1 v s - 208) (stack_of ist1 v s) (ram s) (ram u) /\ Z.testbit (rflags u) 9 = false /\
    seg_cs (pc u) = GDT_KERNEL_CODE /\ seg_ds (pc u) = GDT_KERNEL_DATA /\ seg_es (pc u) = GDT_KERNEL_DATA.
Proof.
  intros Ht Hl Hv H21 H29 Hr Hc Ha. rewrite pushes_has by done. destruct (enters l h ist1 v code s Ht Hl ltac:(lia) Hr Hc Ha) as (s1 & T1 & T2 & E).
  exists s1. split; [exact T1|]. split; [exact T2|]. cbv zeta in *. destruct E as (E1 & E2 & E3 & E4 & E5 & E6 & E7).
  revert E1 E2 E3 E4 E5 E6 E7. generalize (save_registers (isr v s1)) as u. intros u E1 E2 E3 E4 E5 E6 E7.
  rewrite E3, E7. split; [exact E1|]. split; [exact E2|]. split; [exact E4|]. split; [exact E5|].
  split; [exact E6|]. by split_and!.
Qed.

(** What happens around the C function of a line: it runs on the frame of the
    interrupted code and the machine continues from the frame it returns. *)
Lemma run_irq_effect l h ist1 handler n s :
  tables_ok l h ist1 (ram s) (pc s) -> 0 <= tss l -> 0 <= n < 16 -> in_range s ->
  let a := interrupt_stack None s in
  208 <= a ->
  exists s1 u, take_interrupt (32 + n) None s = Some s1 /\ rip s1 = h (32 + n) /\
    frame_in (ram u) (a - 208) = saved_frame (32 + n) 0 s /\
    gpr u RSP = a - 208 /\ gpr u RDI = a - 208 /\ (a - 208) mod 16 = 0 /\
    only_in (a - 208) a (ram s) (ram u) /\ Z.testbit (rflags u) 9 = false /\
    gdtr (pc u) = gdtr (pc s) /\ idtr (pc u) = idtr (pc s) /\ tr (pc u) = tr (pc s) /\ msrs (pc u) = msrs (pc s) /\
    seg_cs (pc u) = GDT_KERNEL_CODE /\ seg_ds (pc u) = GDT_KERNEL_DATA /\ seg_es (pc u) = GDT_KERNEL_DATA /\
    run_irq handler n s = Some (restore_registers (mov RSP RAX (handler u))).
Proof.
  intros Ht Hl Hn Hr a Ha. assert (E8 : (32 + n =? 8) = false) by lia.
  assert (Es : stack_of ist1 (32 + n) s = a) by (unfold stack_of; by rewrite E8).
  destruct (enters l h ist1 (32 + n) 0 s Ht Hl ltac:(lia) Hr ltac:(lia) ltac:(by rewrite Es)) as (s1 & T1 & T2 & E).
  destruct (irq_isr n s1 ltac:(lia)) as [Ei Ec]. rewrite Ec in T1, E. rewrite Es in E. cbv zeta in E.
  destruct E as (E1 & E2 & E3 & E4 & E5 & E6 & E7). exists s1, (save_registers (isr (32 + n) s1)).
  do 8 (split; [assumption|]). rewrite E7. do 7 (split; [reflexivity|]).
  unfold run_irq. rewrite T1. f_equal. unfold irq_common_stub, and_then. by rewrite Ei.
Qed.

(** The frame at [f] is resumed. *)
Lemma resume_at f s :
  gpr s RAX = f -> 0 <= f -> f + 208 < 2 ^ 64 ->
  resumes (frame_in (ram s) f) (ram s) (pc s) (restore_registers (mov RSP RAX s)).
Proof. intros Hf H0 H1. apply (restore_spec (mov RSP RAX s) f); [|done|done]. unfold mov. by rewrite gpr_set_eq. Qed.

(** C23: an interrupt is invisible to the code it interrupts: when the C function returns
    the frame it was given and left that frame alone, then behind the [iretq]
    every register, the instruction pointer, the flags and the selectors are what
    they were, though the function may use all of them, and memory is as the
    function left it: itself given nothing but the 208 bytes below the stack
    changed. *)
Theorem irq_roundtrip l h ist1 handler n s :
  tables_ok l h ist1 (ram s) (pc s) -> 0 <= tss l -> 0 <= n < 16 -> in_range s ->
  208 <= interrupt_stack None s ->
  (forall u, gpr (handler u) RAX = gpr u RDI /\ pc (handler u) = pc u /\
    agree_on (fun x => gpr u RDI <= x < gpr u RDI + 208) (ram u) (ram (handler u))) ->
  exists u s', run_irq handler n s = Some s' /\ only_in (interrupt_stack None s - 208) (interrupt_stack None s) (ram s) (ram u) /\
    (forall q, gpr s' q = gpr s q) /\ rip s' = rip s /\ rflags s' = rflags s /\ pc s' = pc s /\ ram s' = ram (handler u).
Proof.
  intros Ht Hl Hn Hr Ha Hh. destruct (interrupt_stack_aligned None s) as [Hb _].
  destruct (run_irq_effect l h ist1 handler n s Ht Hl Hn Hr Ha) as
    (s1 & u & T1 & T2 & E1 & E2 & E3 & E4 & E5 & E6 & G1 & G2 & G3 & G4 & _ & _ & _ & E8).
  destruct (Hh u) as (H1 & H2 & H3). rewrite E3 in H1, H3. eexists u, _. split; [exact E8|]. split; [exact E5|].
  pose proof (resume_at _ (handler u) H1 ltac:(lia) ltac:(lia)) as R. rewrite (frame_agree (ram u)), E1 in R.
  - apply (resumes_saved _ _ _ _ _ _ R Hr); by rewrite H2.
  - eapply agree_on_weaken; [|exact H3]. intros x Hx. cbv beta in *. lia.
Qed.

(** ** Witnesses *)

(** Code of the kernel on its stack, with the tables of Desc.v. *)
Definition demo_stubs : Z -> Z := stub (fun v => 0x100000 + 16 * v) (fun v => 0x100200 + 16 * v).
Definition demo_tables : mem * cpu :=
  tables_init some_layout (fun v => 0x100000 + 16 * v) (fun v => 0x100200 + 16 * v) 0x110000 8192
    (Mem (fun _ => 0) ∅, some_cpu).
Definition demo_machine : machine :=
  Machine (fun r => match r with RSP => 0x120008 | RAX => 0x1122334455667788 | _ => 5 end) 0x101234 0x202
    (snd demo_tables) (fst demo_tables).

Lemma demo_machine_tables : tables_ok some_layout demo_stubs 0x112000 (ram demo_machine) (pc demo_machine).
Proof.
  unfold demo_machine, demo_stubs, demo_tables. cbn [ram pc].
  pose proof (tables_init_ok some_layout (fun v => 0x100000 + 16 * v) (fun v => 0x100200 + 16 * v) 0x110000 8192
    (Mem (fun _ => 0) ∅) some_cpu some_layout_placed) as H.
  destruct (tables_init _ _ _ _ _ _) as [m c]. apply H. intros v Hv. unfold stub. destruct (v <? 32); lia.
Qed.

Lemma demo_machine_selectors :
  seg_cs (pc demo_machine) = 8 /\ seg_ss (pc demo_machine) = 16 /\ seg_ds (pc demo_machine) = 16 /\ seg_es (pc demo_machine) = 16.
Proof. by split_and!. Qed.

Lemma demo_machine_range : in_range demo_machine.
Proof.
  destruct demo_machine_selectors as (E1 & E2 & E3 & E4). split; rewrite ?E1, ?E2, ?E3, ?E4; try lia.
  - intros []; cbn [gpr demo_machine]; lia.
  - unfold demo_machine. cbn [rip]. lia.
  - unfold demo_machine. cbn [rflags]. lia.
Qed.

Lemma demo_machine_stack : interrupt_stack None demo_machine = 0x120000.
Proof. unfold interrupt_stack, from_user. by destruct demo_machine_selectors as (-> & _). Qed.

(** A page fault of the kernel, with error code 2. *)
Lemma exception_frame_witness :
  exists s1, take_interrupt 14 (Some 2) demo_machine = Some s1 /\ rip s1 = 0x1000e0.
Proof.
  destruct (exception_frame some_layout demo_stubs 0x112000 14 2 demo_machine demo_machine_tables) as (s1 & H1 & H2 & _).
  - by vm_compute.
  - lia.
  - lia.
  - lia.
  - exact demo_machine_range.
  - lia.
  - change (stack_of _ 14 demo_machine) with (interrupt_stack None demo_machine). rewrite demo_machine_stack. lia.
  - change (pushes_code 14) with true in H1. exists s1. split; [exact H1|]. rewrite H2. by vm_compute.
Defined.

(** A handler that uses registers and returns the frame it was given. *)
Definition idle_handler (u : machine) : machine := set_reg RAX (gpr u RDI) (set_reg RBX 0xBAD (set_reg R9 0xBAD u)).

Lemma irq_roundtrip_witness :
  exists s', run_irq idle_handler 7 demo_machine = Some s' /\ rip s' = 0x101234 /\ gpr s' RBX = 5 /\
    gpr s' RAX = 0x1122334455667788 /\ gpr s' RSP = 0x120008.
Proof.
  destruct (irq_roundtrip some_layout demo_stubs 0x112000 idle_handler 7 demo_machine demo_machine_tables)
    as (u & s' & H1 & _ & H2 & H3 & _).
  - by vm_compute.
  - lia.
  - exact demo_machine_range.
  - rewrite demo_machine_stack. lia.
  - intros v. unfold idle_handler. by rewrite gpr_set_eq.
  - exists s'. split; [exact H1|]. rewrite H3, !H2. by split_and!.
Defined.

End Stubs.
