(* ===== verification/Preempt.v ===== *)
(** * Preemption ([isr.c], [task.c], [idt_asm.asm] together)

    The machine of Stubs.v under the dispatcher of Interrupts.v: the frames that
    Task.v keeps by address are those the stubs leave in memory, so that the switch
    of tasks by a return from another frame continues the task the scheduler chose. *)

From S2P Require Import Prelude Ports Vga Frames Pmm Vmm Heap Boot KHeap Isr Task Keyboard Kbd Interrupts Desc Syscall Stubs.
Import Task Interrupts Desc Syscall Stubs.
Local Open Scope Z_scope.
Local Open Scope kios_scope.

Module Preempt.

(** ** The scheduler's step *)

(** The current task is running. *)
Definition scheduling (ts : tasks) : Prop :=
  tasks_ok ts /\ current_task ts ∈ task_list ts /\ state (tcb ts (current_task ts)) = TASK_STATE_RUNNING.

(** Where the frame of a task is when [f] is that of the current one. *)
Definition frame_of (f : Z) (ts : tasks) (p : Z) : Z := if decide (p = current_task ts) then f else regs (tcb ts p).

Lemma saved_regs r ts p : scheduling ts ->
  regs (tcb (save_current r ts) p) = frame_of r ts p.
Proof.
  intros (Hok & Hin & Hr). rewrite save_current_tcb. unfold frame_of. destruct (decide (p = current_task ts)) as [->|Hp].
  - rewrite decide_True; [done|]. split_and!; [done| |done]. intros E. apply (tk_null _ Hok). by rewrite <- E.
  - by rewrite decide_False by tauto.
Qed.

(** Whoever runs next, the address returned is that of its frame, and every task
    that does not run has its own in its block. *)
Lemma switch_frames t r ts :
  scheduling ts ->
  let '(f, ts') := task_switch t r ts in
  scheduling ts' /\ task_list ts' = task_list ts /\ frames_at ts' = frames_at ts /\
  f = frame_of r ts (current_task ts') /\
  forall p, p <> current_task ts' -> regs (tcb ts' p) = frame_of r ts p.
Proof.
  intros Hs. pose proof Hs as (Hok & Hin & Hr). destruct (task_switch_ok t r ts Hok) as [Hok' Hl].
  destruct (save_current_same r ts) as (S1 & S2 & S3).
  destruct (task_switch_cases t r ts Hok) as [[Hnil _]|(_ & Hc & R & HR & E)].
  { rewrite Hnil in Hin. by apply elem_of_nil in Hin. }
  cbv zeta in E. rewrite E in *. clear E. set (saved := save_current r ts) in *.
  destruct (find (runnable t saved) R) as [q|] eqn:Ef; cbn [snd] in *.
  - apply find_in in Ef as [Hq _]. rewrite (rotation_elem _ _ _ q HR) in Hq.
    change (current_task (upd q _ (set_current q _))) with q. unfold scheduling.
    change (current_task (upd q _ (set_current q _))) with q. split_and!; try done.
    + by rewrite Hl.
    + by rewrite tcb_upd, decide_True.
    + unfold woken. by case_decide.
    + subst saved. by rewrite saved_regs.
    + intros p Hp. rewrite tcb_upd, decide_False by done. change (tcb (set_current q ?x) p) with (tcb x p).
      rewrite woken_tcb, decide_False by tauto. subst saved. by rewrite saved_regs.
  - assert (Ec : current_task (upd (current_task ts) (set_state TASK_STATE_RUNNING) saved) = current_task ts) by exact S2.
    unfold scheduling. rewrite Ec. split_and!; try done.
    + by rewrite Hl.
    + by rewrite tcb_upd, decide_True.
    + unfold frame_of. by rewrite decide_True.
    + intros p Hp. rewrite tcb_upd, decide_False by congruence. subst saved. by rewrite saved_regs.
Qed.

(** ** The kernel and the machine *)

Section switching.
  Context {H D : Type} `{KernelHeap H D}.
  Context (l : layout) (h : Z -> Z) (ist1 : Z).

(** The bytes of the frames of the tasks that do not run. *)
Definition parked (ts : tasks) (x : Z) : Prop :=
  exists p, p ∈ task_list ts /\ p <> current_task ts /\ regs (tcb ts p) <= x < regs (tcb ts p) + 208.

(** The frame recorded at [f] is the one in memory, and can be resumed. *)
Record frame_ok (ts : tasks) (m : mem) (f : Z) : Prop := {
  fo_bounds : 0 < f /\ f + 208 < 2 ^ 64;
  fo_frame : frames_at ts !! f = Some (frame_in m f);
  fo_cs : 0 <= Isr.cs (frame_in m f) < 2 ^ 16;
  fo_ss : 0 <= Isr.ss (frame_in m f) < 2 ^ 16
}.

Record system_ok (k : kst (H := H)) (s : machine) : Prop := {
  so_kernel : kernel_ok k;
  so_tasks : scheduling (tk k);
  so_frames p : p ∈ task_list (tk k) -> p <> current_task (tk k) -> frame_ok (tk k) (ram s) (regs (tcb (tk k) p));
  so_tables : tables_ok l h ist1 (ram s) (pc s);
  so_range : in_range s
}.

(** Where the stub leaves the frame of the current task, and the kernel with that frame. *)
Definition frame_top (s : machine) : Z := interrupt_stack None s - 208.
Definition interrupted (n : Z) (s : machine) (k : kst (H := H)) : kst (H := H) :=
  set_tk (set_frame (frame_top s) (saved_frame (32 + n) 0 s) (tk k)) k.

(** The stack has room for the frame. *)
Definition stack_free (k : kst (H := H)) (s : machine) : Prop :=
  0 < frame_top s /\ forall x, frame_top s <= x < frame_top s + 208 -> ~ parked (tk k) x /\ ~ in_tables l x.

(** [handler] does what [irq_handler] does to [k], and writes neither the frames nor the tables. *)
Definition does_irq (n : Z) (k : kst (H := H)) (handler : machine -> machine) : Prop :=
  forall u, gpr (handler u) RAX = fst (irq_handler (gpr u RDI) (32 + n) k) /\ pc (handler u) = pc u /\
    agree_on (fun x => parked (tk k) x \/ in_tables l x \/ gpr u RDI <= x < gpr u RDI + 208) (ram u) (ram (handler u)).

(** ** One interrupt *)

Lemma scheduling_frame a r ts : scheduling ts -> scheduling (set_frame a r ts).
Proof. intros (Hok & Hc & Hr). split; [|done]. split; apply Hok. Qed.

Lemma kernel_ok_tk t k : kernel_ok k -> kernel_ok (set_tk t k).
Proof. intros Hk. apply (kernel_ok_same k); [done|apply Hk|done|apply Hk]. Qed.

Lemma interrupted_ok n s k : kernel_ok k -> kernel_ok (interrupted n s k).
Proof. apply kernel_ok_tk. Qed.

(** The dispatcher's part. *)
Lemma irq_frames a n k :
  kernel_ok k -> scheduling (tk k) -> 0 <= n < 16 -> 0 < a ->
  (forall p, p ∈ task_list (tk k) -> p <> current_task (tk k) -> 0 < regs (tcb (tk k) p)) ->
  let '(f, k') := irq_handler a (32 + n) k in
  kernel_ok k' /\ scheduling (tk k') /\ task_list (tk k') = task_list (tk k) /\ frames_at (tk k') = frames_at (tk k) /\
  f = frame_of a (tk k) (current_task (tk k')) /\
  forall p, p <> current_task (tk k') -> regs (tcb (tk k') p) = frame_of a (tk k) p.
Proof.
  intros Hk Hs Hn Ha Hpos. pose proof (irq_handler_effect a n k Hk Hn) as E.
  destruct (irq_handler a (32 + n) k) as [f k']. destruct E as (E1 & _ & _ & _ & _ & E6 & E7).
  split; [exact E1|]. destruct ((n =? 0) && quantum_over k); cbn [andb] in E7.
  - unfold switch_now in *. pose proof (switch_frames (u64 (pit_ticks (pit k) + 1)) a (tk k) Hs) as W.
    destruct (task_switch _ a (tk k)) as [g ts]. cbn [fst snd] in *. destruct W as (W1 & W2 & W3 & W4 & W5).
    rewrite E6. split_and!; try done. rewrite <- W4.
    assert (0 < g); [|by destruct (Z.eqb_spec g 0); [lia|]].
    rewrite W4. unfold frame_of. case_decide as Ec; [done|]. apply Hpos; [|done]. rewrite <- W2. apply W1.
  - rewrite E6. split_and!; try done.
    + unfold frame_of. by rewrite decide_True.
    + intros p Hp. unfold frame_of. by rewrite decide_False.
Qed.

Lemma frame_ok_agree ts ts' m m' f :
  frame_ok ts m f -> frames_at ts' !! f = frames_at ts !! f -> agree_on (fun x => f <= x < f + 208) m m' ->
  frame_ok ts' m' f.
Proof. intros [F1 F2 F3 F4] E Hm. by split; rewrite ?E, ?(frame_agree m m'). Qed.

(** The machine after a frame is resumed. *)
Lemma resumes_range m c f u ts :
  frame_ok ts m f -> resumes (frame_in m f) m c u -> in_range u.
Proof.
  intros [_ _ F3 F4] [R1 R2 R3 R4 R5 R6 R7 _ _].
  assert (Hld : forall a, 0 <= ld64 m a < 2 ^ 64) by (intros a; apply ld64_range).
  split; rewrite ?R2, ?R3, ?R4, ?R5, ?R6, ?R7; try done; try apply Hld; try apply Z.mod_pos_bound; try lia.
  intros q. rewrite R1, reg_in_frame. apply Hld.
Qed.

(** The frames after the stub and the handler: the one the stub saved and those
    of the tasks that wait. *)
Lemma frames_after handler n k s u :
  system_ok k s -> stack_free k s -> does_irq n (interrupted n s k) handler -> in_range s ->
  gpr u RDI = frame_top s -> frame_in (ram u) (frame_top s) = saved_frame (32 + n) 0 s ->
  only_in (frame_top s) (frame_top s + 208) (ram s) (ram u) -> frame_top s + 208 < 2 ^ 64 ->
  let m := ram (handler u) in
  frame_in m (frame_top s) = saved_frame (32 + n) 0 s /\
  (forall p, p ∈ task_list (tk k) -> p <> current_task (tk k) ->
     frame_in m (regs (tcb (tk k) p)) = frame_in (ram s) (regs (tcb (tk k) p))) /\
  (forall p, p ∈ task_list (tk k) -> frame_ok (tk (interrupted n s k)) m (frame_of (frame_top s) (tk k) p)) /\
  agree_on (in_tables l) (ram s) m.
Proof.
  intros Hsys [Hpos Hfree] Hd Hr Hdi Hfr Hm Hb. destruct (Hd u) as (_ & _ & Hh). rewrite Hdi in Hh. cbv zeta.
  assert (Htop : frame_in (ram (handler u)) (frame_top s) = saved_frame (32 + n) 0 s).
  { rewrite (frame_agree (ram u)); [done|]. intros x Hx. apply Hh. auto. }
  assert (Hpark : agree_on (parked (tk k)) (ram s) (ram (handler u))).
  { intros x Hx. rewrite (Hh x) by (left; exact Hx). apply Hm. destruct (Z.lt_ge_cases x (frame_top s)); [lia|].
    destruct (Z.lt_ge_cases x (frame_top s + 208)); [by destruct (Hfree x ltac:(lia))|lia]. }
  assert (Hwait : forall p, p ∈ task_list (tk k) -> p <> current_task (tk k) ->
    agree_on (fun x => regs (tcb (tk k) p) <= x < regs (tcb (tk k) p) + 208) (ram s) (ram (handler u))).
  { intros p H1 H2 x Hx. apply Hpark. by exists p. }
  split; [exact Htop|]. split; [intros p H1 H2; by apply frame_agree, Hwait|]. split.
  - intros p Hp. unfold frame_of. case_decide as Ec.
    + split; rewrite ?Htop; try apply Hr; [lia|]. apply lookup_insert_eq.
    + apply (frame_ok_agree (tk k) _ (ram s)); [by apply (so_frames _ _ Hsys)| |by apply Hwait].
      apply lookup_insert_ne. intros E. destruct (Hfree (frame_top s) ltac:(lia)) as [Hf _]. apply Hf.
      exists p. split_and!; [done|done|lia|lia].
  - intros x Hx. rewrite (Hh x) by auto. apply Hm. destruct (Z.lt_ge_cases x (frame_top s)); [lia|].
    destruct (Z.lt_ge_cases x (frame_top s + 208)); [by destruct (Hfree x ltac:(lia))|lia].
Qed.

Lemma irq_effect handler n k s :
  system_ok k s -> 0 <= tss l -> 0 <= n < 16 -> stack_free k s -> does_irq n (interrupted n s k) handler ->
  let '(f, k') := irq_handler (frame_top s) (32 + n) (interrupted n s k) in
  exists s', run_irq handler n s = Some s' /\ system_ok k' s' /\ task_list (tk k') = task_list (tk k) /\
    resumes (frame_in (ram s') f) (ram s') (pc s) s' /\ frame_at f k' = Some (frame_in (ram s') f) /\
    f = frame_of (frame_top s) (tk k) (current_task (tk k')) /\
    (forall p, p <> current_task (tk k') -> regs (tcb (tk k') p) = frame_of (frame_top s) (tk k) p) /\
    frame_in (ram s') (frame_top s) = saved_frame (32 + n) 0 s /\
    forall p, p ∈ task_list (tk k) -> p <> current_task (tk k) ->
      frame_in (ram s') (regs (tcb (tk k) p)) = frame_in (ram s) (regs (tcb (tk k) p)).
Proof.
  intros Hsys Hl Hn Hfree Hd. pose proof Hsys as [Hk Ht Hf Htab Hr].
  destruct (interrupt_stack_aligned None s) as [Hb _]. pose proof Hfree as [Hpos _].
  assert (Htop : interrupt_stack None s = frame_top s + 208) by (unfold frame_top; lia).
  destruct (run_irq_effect l h ist1 handler n s Htab Hl Hn Hr ltac:(lia)) as
    (s1 & u & _ & _ & E1 & _ & E3 & _ & E5 & _ & G1 & G2 & G3 & G4 & _ & _ & _ & E8).
  fold (frame_top s) in E1, E3, E5. rewrite Htop in E5. rewrite Htop in Hb.
  destruct (frames_after handler n k s u Hsys Hfree Hd Hr E3 E1 E5 ltac:(lia)) as (A1 & A2 & A3 & A4).
  destruct (Hd u) as (H1 & H2 & _). rewrite E3 in H1.
  pose proof (irq_frames (frame_top s) n (interrupted n s k) (interrupted_ok n s k Hk) (scheduling_frame _ _ _ Ht) Hn Hpos) as I.
  destruct (irq_handler (frame_top s) (32 + n) (interrupted n s k)) as [f k']. cbn [fst] in H1.
  destruct I as (I1 & I2 & I3 & I4 & I5 & I6). { intros p P1 P2. by apply (fo_bounds _ _ _ (Hf p P1 P2)). }
  change (task_list (tk (interrupted n s k))) with (task_list (tk k)) in I3.
  change (frame_of (frame_top s) (tk (interrupted n s k))) with (frame_of (frame_top s) (tk k)) in I5, I6.
  assert (Fall : forall p, p ∈ task_list (tk k) -> frame_ok (tk k') (ram (handler u)) (frame_of (frame_top s) (tk k) p)).
  { intros p Hp. apply (frame_ok_agree (tk (interrupted n s k)) _ (ram (handler u))); [by apply A3|by rewrite I4|done]. }
  assert (Ff : frame_ok (tk k') (ram (handler u)) f) by (rewrite I5; apply Fall; rewrite <- I3; apply I2).
  pose proof (resume_at f (handler u) H1 ltac:(destruct (fo_bounds _ _ _ Ff); lia) (proj2 (fo_bounds _ _ _ Ff))) as R.
  eexists. split; [exact E8|]. revert R. generalize (restore_registers (mov RSP RAX (handler u))) as s'. intros s' R.
  rewrite (re_ram _ _ _ _ R). split; [|split; [done|split; [|split_and!; try done; apply Ff]]].
  - split; [done|done| | |by apply (resumes_range _ _ _ _ _ Ff R)].
    + intros p P1 P2. rewrite (re_ram _ _ _ _ R), (I6 p P2). apply Fall. by rewrite <- I3.
    + rewrite (re_ram _ _ _ _ R). destruct (re_tables _ _ _ _ R) as (R1 & R2 & R3 & _).
      apply (tables_ok_agree l h ist1 (ram s) _ (pc s)); [done|exact A4|by rewrite R1, H2, G1|by rewrite R2, H2, G2|by rewrite R3, H2, G3].
  - destruct R as [R1 R2 R3 R4 R5 R6 R7 (R8 & R9 & R10 & R11) R12].
    split; try done. by rewrite R8, R9, R10, R11, H2, G1, G2, G3, G4.
Qed.

(** C4: the switch of tasks on the machine refines the scheduler's: on an interrupt of
    any line, with every waiting task's frame in memory where the kernel's table
    says, the machine runs the handler and continues from exactly the frame that
    [irq_handler] returns - the interrupted code, all its registers restored, when the
    current task stays, and otherwise the frame of the task [task_switch] made
    current; the frame of the code left is recorded in its block, and everything
    (frames in memory and in the table, the tables of descriptors, the invariants of
    the kernel) is in place for the next interrupt. *)
Theorem irq_refines_switch handler n k s :
  system_ok k s -> 0 <= tss l -> 0 <= n < 16 -> stack_free k s -> does_irq n (interrupted n s k) handler ->
  let '(f, k') := irq_handler (frame_top s) (32 + n) (interrupted n s k) in
  exists s' r, run_irq handler n s = Some s' /\ system_ok k' s' /\ frame_at f k' = Some r /\
    resumes r (ram s') (pc s) s' /\
    (current_task (tk k') = current_task (tk k) -> r = saved_frame (32 + n) 0 s) /\
    (current_task (tk k') <> current_task (tk k) ->
       frame_at (regs (tcb (tk k) (current_task (tk k')))) k = Some r /\
       frame_at (regs (tcb (tk k') (current_task (tk k)))) k' = Some (saved_frame (32 + n) 0 s)).
Proof.
  intros Hsys Hl Hn Hfree Hd. pose proof (irq_effect handler n k s Hsys Hl Hn Hfree Hd) as E.
  destruct (irq_handler (frame_top s) (32 + n) (interrupted n s k)) as [f k'].
  destruct E as (s' & E1 & E2 & E3 & E4 & E5 & E6 & E7 & E8 & E9).
  exists s', (frame_in (ram s') f). do 4 (split; [done|]). rewrite E6. unfold frame_of. split; intros Hc.
  - by rewrite decide_True.
  - rewrite decide_False by done. assert (Hin : current_task (tk k') ∈ task_list (tk k)) by (rewrite <- E3; apply (so_tasks _ _ E2)).
    pose proof (so_frames _ _ Hsys _ Hin Hc) as F. split; [unfold frame_at; rewrite (fo_frame _ _ _ F); by rewrite E9|].
    assert (Hp : frame_ok (tk k') (ram s') (regs (tcb (tk k') (current_task (tk k))))).
    { apply (so_frames _ _ E2); [rewrite E3; apply (so_tasks _ _ Hsys)|done]. }
    unfold frame_at. rewrite (fo_frame _ _ _ Hp), (E7 _ (not_eq_sym Hc)). unfold frame_of. rewrite decide_True by done. by rewrite E8.
Qed.

(** ** Many interrupts *)

(** A step of the machine and of the kernel it runs: the current task's code, which
    keeps the invariant and the tasks that wait; or an interrupt. *)
Inductive step : kst (H := H) * machine -> kst (H := H) * machine -> Prop :=
| code_step k s k' s' :
    system_ok k' s' -> current_task (tk k') = current_task (tk k) ->
    (forall p, p ∈ task_list (tk k) -> p <> current_task (tk k) ->
       p ∈ task_list (tk k') /\ regs (tcb (tk k') p) = regs (tcb (tk k) p)) ->
    agree_on (parked (tk k)) (ram s) (ram s') ->
    step (k, s) (k', s')
| irq_step handler n k s s' :
    0 <= n < 16 -> stack_free k s -> does_irq n (interrupted n s k) handler -> run_irq handler n s = Some s' ->
    step (k, s) (snd (irq_handler (frame_top s) (32 + n) (interrupted n s k)), s').

(** Steps after each of which another task than [p] is current. *)
Inductive away (p : Z) : kst (H := H) * machine -> kst (H := H) * machine -> Prop :=
| away_here x : away p x x
| away_step x y z : step x y -> current_task (tk (fst y)) <> p -> away p y z -> away p x z.

(** The frame of [p], which waits, is [r]. *)
Definition waits_with (p : Z) (r : Isr.registers_t) (x : kst (H := H) * machine) : Prop :=
  let '(k, s) := x in
  system_ok k s /\ p ∈ task_list (tk k) /\ p <> current_task (tk k) /\ frame_in (ram s) (regs (tcb (tk k) p)) = r.

Lemma step_waits p r x y :
  0 <= tss l -> waits_with p r x -> step x y -> current_task (tk (fst y)) <> p -> waits_with p r y.
Proof.
  intros Hl Hw Hs. destruct Hs as [k s k' s' H1 H2 H3 H4|handler n k s s' H1 H2 H3 H4]; intros Hc; destruct Hw as (W1 & W2 & W3 & W4).
  - destruct (H3 p W2 W3) as [P1 P2]. split_and!; [done|done|cbn [fst] in Hc; congruence|]. rewrite P2, <- W4.
    apply frame_agree. intros x Hx. apply H4. by exists p.
  - pose proof (irq_effect handler n k s W1 Hl H1 H2 H3) as E.
    destruct (irq_handler (frame_top s) (32 + n) (interrupted n s k)) as [f k']. cbn [fst snd] in *.
    destruct E as (s'' & E1 & E2 & E3 & _ & _ & _ & E7 & _ & E9). rewrite H4 in E1. injection E1 as <-.
    split_and!; [done|by rewrite E3|congruence|]. rewrite E7 by congruence. unfold frame_of. by rewrite decide_False, E9.
Qed.

Lemma away_waits p r x y : 0 <= tss l -> away p x y -> waits_with p r x -> waits_with p r y.
Proof. intros Hl Ha. induction Ha as [x|x y z Hs Hc _ IH]; intros Hw; [done|]. by eapply IH, step_waits. Qed.

(** C3: preemption is transparent: a task that an interrupt takes the processor from, at
    any instruction, and that the scheduler comes back to after any number of
    interrupts and steps of the other tasks, continues with every register, its
    instruction pointer, flags and selectors as they were. *)
Theorem preemption_transparent h1 n1 h2 n2 k s s1 k2 s2 s3 :
  system_ok k s -> 0 <= tss l -> 0 <= n1 < 16 -> 0 <= n2 < 16 ->
  stack_free k s -> does_irq n1 (interrupted n1 s k) h1 -> run_irq h1 n1 s = Some s1 ->
  stack_free k2 s2 -> does_irq n2 (interrupted n2 s2 k2) h2 -> run_irq h2 n2 s2 = Some s3 ->
  let p := current_task (tk k) in
  let k1 := snd (irq_handler (frame_top s) (32 + n1) (interrupted n1 s k)) in
  let k3 := snd (irq_handler (frame_top s2) (32 + n2) (interrupted n2 s2 k2)) in
  current_task (tk k1) <> p -> away p (k1, s1) (k2, s2) -> current_task (tk k3) = p ->
  (forall q, gpr s3 q = gpr s q) /\ rip s3 = rip s /\ rflags s3 = rflags s /\
  seg_cs (pc s3) = seg_cs (pc s) /\ seg_ss (pc s3) = seg_ss (pc s) /\
  seg_ds (pc s3) = seg_ds (pc s) /\ seg_es (pc s3) = seg_es (pc s).
Proof.
  intros Hsys Hl N1 N2 F1 D1 R1 F2 D2 R2 p k1 k3 C1 Ha C3.
  assert (W1 : waits_with p (saved_frame (32 + n1) 0 s) (k1, s1)).
  { pose proof (irq_effect h1 n1 k s Hsys Hl N1 F1 D1) as E. subst k1.
    destruct (irq_handler (frame_top s) (32 + n1) (interrupted n1 s k)) as [f k1]. cbn [snd] in *.
    destruct E as (s' & E1 & E2 & E3 & _ & _ & _ & E7 & E8 & _). rewrite R1 in E1. injection E1 as <-.
    split_and!; [done|rewrite E3; apply (so_tasks _ _ Hsys)|congruence|]. rewrite E7 by congruence.
    unfold frame_of. by rewrite decide_True. }
  destruct (away_waits p _ _ _ Hl Ha W1) as (W2 & W3 & W4 & W5).
  pose proof (irq_effect h2 n2 k2 s2 W2 Hl N2 F2 D2) as E. subst k3.
  destruct (irq_handler (frame_top s2) (32 + n2) (interrupted n2 s2 k2)) as [f k3]. cbn [snd] in *.
  destruct E as (s' & E1 & _ & _ & E4 & _ & E6 & _ & _ & E9). rewrite R2 in E1. injection E1 as <-.
  rewrite E6, C3 in E4. unfold frame_of in E4. rewrite decide_False, E9, W5 in E4 by done.
  pose proof (so_range _ _ Hsys) as Hr. destruct E4 as [Q1 Q2 Q3 Q4 Q5 Q6 Q7 _ _].
  cbn [saved_frame Isr.ds Isr.es] in Q6, Q7. unfold with_ax in Q6, Q7. rewrite ax_low in Q6, Q7 by apply Hr.
  split_and!; try done. intros q. rewrite Q1. by destruct q.
Qed.

End switching.

(** ** Witnesses

    The shell, which runs, and a worker created at [0x100800] whose first frame is at [0x140000]. *)
Import Ports.SimBus Frames.BumpFrames.

Fixpoint put_words (a : Z) (ws : list Z) (m : mem) : mem :=
  match ws with [] => m | w :: ws => put_words (a + 8) ws (st64 m a w) end.

Lemma put_words_only_in a ws m : only_in a (a + 8 * Z.of_nat (length ws)) m (put_words a ws m).
Proof.
  revert a m. induction ws as [|w ws IH]; intros a m x Hx; cbn [put_words length] in *; [done|].
  rewrite IH by lia. apply st64_only_in. lia.
Qed.

Lemma words_put a ws m : Forall (fun w => 0 <= w < 2 ^ 64) ws -> words (put_words a ws m) a (length ws) = ws.
Proof.
  intros Hw. apply list_eq. intros i. unfold words.
  destruct (Nat.lt_ge_cases i (length ws)) as [Hi|Hi].
  2: { rewrite !lookup_ge_None_2; [done|done|rewrite length_map, length_seqZ; lia]. }
  rewrite (list_lookup_fmap (fun i => ld64 _ (_ + 8 * i))), lookup_seqZ_lt by lia. cbn [fmap option_fmap option_map].
  revert a m i Hi. induction Hw as [|w ws Hw _ IH]; intros a m i Hi; cbn [length] in Hi; [lia|].
  destruct i as [|i]; cbn [put_words lookup list_lookup].
  - f_equal. rewrite Z.add_0_r. rewrite (ld64_outside _ _ _ _ _ (put_words_only_in (a + 8) ws (st64 m a w))) by lia.
    rewrite ld64_st64. by apply u64_small.
  - etrans; [|apply (IH (a + 8) (st64 m a w) i); lia]. do 2 f_equal. lia.
Qed.

Definition worker_words : list Z :=
  [0x10; 0x10; 0x10; 0x10] ++ replicate 17 0 ++ [0x100800; 0x08; 0x202; 0x131000; 0x10].
Definition worker_frame : Isr.registers_t := initial_frame 0x100800 0x131000.

Definition duo : tasks :=
  Tasks [0x200; 0x300] 0x200 3
    (<[0x200 := TaskT 1 (str "shell") TASK_STATE_RUNNING 0x20 0x9000 4096 0 0]>
     (<[0x300 := TaskT 2 (str "worker") TASK_STATE_READY 0x140000 0x130000 4096 0 0]> ∅))
    (<[0x140000 := worker_frame]> ∅).
Definition duo_kernel : kst (H := Heap.heap (A := bump) (D := sim_bus)) := set_tk duo kst0.
Definition duo_machine : machine := set_mem (put_words 0x140000 worker_words (ram demo_machine)) demo_machine.

Lemma duo_scheduling : scheduling duo.
Proof.
  split; [|split; [by apply (bool_decide_eq_true_1 _)|done]]. split; cbn [task_list current_task next_pid duo].
  - by apply (bool_decide_eq_true_1 _), eq_refl.
  - by apply (bool_decide_eq_true_1 _), eq_refl.
  - by vm_compute.
  - right. by apply (bool_decide_eq_true_1 _), eq_refl.
  - intros p. rewrite !elem_of_cons. intros [->|[->|E]]; [done|done|by apply elem_of_nil in E].
  - change (NoDup [1; 2]). by apply (bool_decide_eq_true_1 _), eq_refl.
  - intros p. rewrite !elem_of_cons. intros [->|[->|E]]; [by vm_compute..|by apply elem_of_nil in E].
  - by vm_compute.
Qed.

Lemma duo_frame : frame_in (ram duo_machine) 0x140000 = worker_frame.
Proof.
  unfold frame_in. assert (E : words (ram duo_machine) 0x140000 26 = worker_words); [|by rewrite E].
  apply (words_put 0x140000 worker_words (ram demo_machine)). apply (bool_decide_unpack _). by vm_compute.
Qed.

Definition duo_ok (k : kst (H := Heap.heap (A := bump) (D := sim_bus))) : machine -> Prop :=
  system_ok (D := sim_bus) some_layout demo_stubs 0x112000 k.

Lemma duo_frame_ok : frame_ok duo (ram duo_machine) 0x140000.
Proof. split; rewrite ?duo_frame; [lia|done|by vm_compute|by vm_compute]. Qed.

Lemma in_range_mem m s : in_range s -> in_range (set_mem m s).
Proof. intros Hr. by split; apply Hr. Qed.

Lemma tables_ok_put a ws l h ist1 s :
  tables_ok l h ist1 (ram s) (pc s) -> (forall x, in_tables l x -> x < a) ->
  tables_ok l h ist1 (ram (set_mem (put_words a ws (ram s)) s)) (pc (set_mem (put_words a ws (ram s)) s)).
Proof.
  intros Ht Hl. apply (tables_ok_agree l h ist1 (ram s) _ (pc s)); [exact Ht| |done..].
  intros x Hx. apply put_words_only_in. left. by apply Hl.
Qed.

Lemma some_layout_low x : in_tables some_layout x -> x < 0x110000.
Proof. unfold in_tables, some_layout. cbn [gdt idt tss]. lia. Qed.

Lemma duo_system_ok : duo_ok duo_kernel duo_machine.
Proof.
  split.
  - exact (kernel_ok_tk duo kst0 kst0_ok).
  - exact duo_scheduling.
  - intros p Hp Hc. change (task_list (tk duo_kernel)) with [0x200; 0x300] in Hp. change (current_task (tk duo_kernel)) with 0x200 in Hc.
    rewrite !elem_of_cons, elem_of_nil in Hp. destruct Hp as [->|[->|[]]]; [done|].
    change (regs (tcb (tk duo_kernel) 0x300)) with 0x140000. exact duo_frame_ok.
  - apply (tables_ok_put 0x140000 worker_words _ _ _ demo_machine demo_machine_tables).
    intros x Hx%some_layout_low. lia.
  - exact (in_range_mem _ _ demo_machine_range).
Qed.

(** A handler that only returns the frame. *)
Definition frame_handler (n : Z) (k : kst (H := Heap.heap (A := bump) (D := sim_bus))) (u : machine) : machine :=
  set_reg RAX (fst (irq_handler (D := sim_bus) (gpr u RDI) (32 + n) k)) u.

Lemma frame_handler_ok n k : does_irq (D := sim_bus) some_layout n k (frame_handler n k).
Proof. intros u. unfold frame_handler. by rewrite gpr_set_eq. Qed.

(** The stack of a machine, when the frame of the one task that waits is at [f]. *)
Lemma duo_stack_free k s p q f a :
  task_list (tk k) = [0x200; 0x300] -> current_task (tk k) = p -> (forall x, x ∈ [0x200; 0x300] -> x <> p -> x = q) ->
  regs (tcb (tk k) q) = f -> frame_top s = a -> 0x113000 <= a -> a + 208 <= f \/ f + 208 <= a ->
  stack_free (H := Heap.heap (A := bump) (D := sim_bus)) some_layout k s.
Proof.
  intros Hl Hc Hq Hf Ha H1 H2. split; [lia|]. rewrite Ha. intros x Hx. split.
  - intros (y & Y1 & Y2 & Y3). rewrite Hl in Y1. rewrite Hc in Y2. rewrite (Hq y Y1 Y2), Hf in Y3. lia.
  - unfold in_tables, some_layout. cbn [gdt idt tss]. lia.
Qed.

Lemma frame_top_mem m s : from_user s = false -> frame_top (set_mem m s) = frame_top s.
Proof.
  intros Hu. unfold frame_top, interrupt_stack. change (from_user (set_mem m s)) with (from_user s). by rewrite Hu.
Qed.

Lemma duo_first_stack : stack_free some_layout duo_kernel duo_machine.
Proof.
  assert (Ht : frame_top duo_machine = 0x11ff30).
  { unfold duo_machine. rewrite frame_top_mem; [unfold frame_top; by rewrite demo_machine_stack|].
    unfold from_user. by destruct demo_machine_selectors as (-> & _). }
  apply (duo_stack_free duo_kernel duo_machine 0x200 0x300 0x140000 0x11ff30 eq_refl eq_refl); [|done|exact Ht|lia|lia].
  intros x. rewrite !elem_of_cons, elem_of_nil. intros [->|[->|[]]]; done.
Qed.

(** The tenth tick: the kernel behind it. *)
Definition tick (k : kst (H := Heap.heap (A := bump) (D := sim_bus))) (s : machine) : kst (H := Heap.heap (A := bump) (D := sim_bus)) :=
  snd (irq_handler (D := sim_bus) (frame_top s) (32 + 0) (interrupted 0 s k)).
Definition tick_handler (k : kst (H := Heap.heap (A := bump) (D := sim_bus))) (s : machine) : machine -> machine :=
  frame_handler 0 (interrupted 0 s k).

Lemma tick_switches : current_task (tk (tick duo_kernel duo_machine)) = 0x300.
Proof. by vm_compute. Qed.

Lemma irq_refines_switch_witness :
  exists s', run_irq (tick_handler duo_kernel duo_machine) 0 duo_machine = Some s' /\ rip s' = 0x100800 /\ gpr s' RSP = 0x131000.
Proof.
  pose proof (irq_refines_switch (D := sim_bus) some_layout demo_stubs 0x112000 (tick_handler duo_kernel duo_machine) 0
    duo_kernel duo_machine duo_system_ok ltac:(by vm_compute) ltac:(lia) duo_first_stack (frame_handler_ok _ _)) as E.
  pose proof tick_switches as Hc. unfold tick in Hc.
  destruct (irq_handler _ _ _) as [f k']. cbn [snd] in Hc. destruct E as (s' & r & E1 & _ & _ & E4 & _ & E6).
  rewrite Hc in E6. destruct E6 as [E6 _]; [discriminate|].
  assert (Hr : r = worker_frame) by (injection E6 as <-; reflexivity).
  subst r. exists s'. split; [exact E1|]. split; [exact (re_rip _ _ _ _ E4)|exact (re_gpr _ _ _ _ E4 RSP)].
Defined.

(** The worker runs behind the first tick. *)
Lemma duo_switched :
  exists s1, run_irq (tick_handler duo_kernel duo_machine) 0 duo_machine = Some s1 /\
    duo_ok (tick duo_kernel duo_machine) s1 /\ seg_cs (pc s1) = 8 /\ gpr s1 RSP = 0x131000.
Proof.
  pose proof (irq_effect (D := sim_bus) some_layout demo_stubs 0x112000 (tick_handler duo_kernel duo_machine) 0
    duo_kernel duo_machine duo_system_ok ltac:(by vm_compute) ltac:(lia) duo_first_stack (frame_handler_ok _ _)) as E.
  pose proof tick_switches as Hc. unfold tick in *. revert E Hc.
  generalize (irq_handler (D := sim_bus) (frame_top duo_machine) (32 + 0) (interrupted 0 duo_machine duo_kernel)) as fk.
  intros [f k']. cbn [snd]. intros (s' & E1 & E2 & _ & E4 & _ & E6 & _ & _ & E9) Hc.
  exists s'. split; [exact E1|]. split; [exact E2|]. rewrite Hc in E6. change (f = 0x140000) in E6. subst f.
  assert (E : frame_in (ram s') 0x140000 = worker_frame).
  { rewrite <- duo_frame. apply (E9 0x300); [|discriminate]. apply list_elem_of_In. right. by left. }
  rewrite E in E4. split; [exact (re_cs _ _ _ _ E4)|exact (re_gpr _ _ _ _ E4 RSP)].
Qed.

Lemma system_ok_pit p k s : duo_ok k s -> duo_ok (set_pit p k) s.
Proof.
  intros [H1 H2 H3 H4 H5]. split; [|exact H2|exact H3|exact H4|exact H5].
  apply (kernel_ok_same k); [exact H1|apply H1|done|apply H1].
Qed.

Lemma shell_other x : x ∈ [0x200; 0x300] -> x <> 0x300 -> x = 0x200.
Proof. rewrite !elem_of_cons, elem_of_nil. intros [->|[->|[]]]; done. Qed.

Lemma pit_step p k s : duo_ok (set_pit p k) s -> step (D := sim_bus) some_layout demo_stubs 0x112000 (k, s) (set_pit p k, s).
Proof. intros Hs. constructor; [exact Hs|done|intros q Hq _; by split|done]. Qed.

(** Nine ticks later. *)
Definition later_kernel : kst (H := Heap.heap (A := bump) (D := sim_bus)) :=
  set_pit (PitState 19 true) (tick duo_kernel duo_machine).

Lemma later_switches r :
  current_task (tk (snd (irq_handler (D := sim_bus) 0x130f30 (32 + 0)
    (set_tk (set_frame 0x130f30 r (tk later_kernel)) later_kernel)))) = 0x200.
Proof. by vm_compute. Qed.

Lemma preemption_transparent_witness :
  exists s1 s3, run_irq (tick_handler duo_kernel duo_machine) 0 duo_machine = Some s1 /\
    run_irq (tick_handler later_kernel s1) 0 s1 = Some s3 /\
    rip s3 = 0x101234 /\ gpr s3 RAX = 0x1122334455667788 /\ rflags s3 = 0x202.
Proof.
  destruct duo_switched as (s1 & R1 & Hs1 & Hcs & Hsp). pose proof tick_switches as Hc.
  assert (Hs2 : duo_ok later_kernel s1) by exact (system_ok_pit (PitState 19 true) _ _ Hs1).
  assert (Ht : frame_top s1 = 0x130f30).
  { unfold frame_top, interrupt_stack, from_user. rewrite Hcs, Hsp. reflexivity. }
  assert (Hf : stack_free some_layout later_kernel s1).
  { apply (duo_stack_free later_kernel s1 0x300 0x200 0x11ff30 0x130f30); [vm_compute; reflexivity|vm_compute; reflexivity|exact shell_other|vm_compute; reflexivity|exact Ht|lia|lia]. }
  pose proof (irq_effect (D := sim_bus) some_layout demo_stubs 0x112000 (tick_handler later_kernel s1) 0
    later_kernel s1 Hs2 ltac:(by vm_compute) ltac:(lia) Hf (frame_handler_ok _ _)) as E.
  assert (R3 : exists s3, run_irq (tick_handler later_kernel s1) 0 s1 = Some s3).
  { destruct (irq_handler _ _ _) as [f k']. destruct E as (s3 & E & _). by exists s3. }
  clear E. destruct R3 as [s3 R3]. exists s1, s3. split; [exact R1|]. split; [exact R3|].
  destruct (preemption_transparent (D := sim_bus) some_layout demo_stubs 0x112000 (tick_handler duo_kernel duo_machine) 0
    (tick_handler later_kernel s1) 0 duo_kernel duo_machine s1 later_kernel s1 s3 duo_system_ok ltac:(by vm_compute)
    ltac:(lia) ltac:(lia) duo_first_stack (frame_handler_ok _ _) R1 Hf (frame_handler_ok _ _) R3) as (G1 & G2 & G3 & _).
  - fold (tick duo_kernel duo_machine). rewrite Hc. discriminate.
  - fold (tick duo_kernel duo_machine).
    apply (away_step _ _ _ _ (tick duo_kernel duo_machine, s1) (later_kernel, s1)); [|cbn [fst]|constructor].
    + exact (pit_step _ _ _ Hs2).
    + unfold later_kernel. cbn [tk set_pit]. rewrite Hc. discriminate.
  - unfold interrupted. rewrite !Ht. exact (later_switches (saved_frame (32 + 0) 0 s1)).
  - rewrite G2, G3, G1. split; [reflexivity|split; reflexivity].
Defined.

End Preempt.
