(* ===== verification/Idle.v ===== *)
(** * The idle loop on the machine ([main.c], [idt_asm.asm], [isr.c], [task.c] together)

    [kernel_main] halts in a loop, and every interrupt returns to it until the
    scheduler leaves it for the shell.  Kernel.v shows this for the frames that
    [irq_handler] returns; here it is the processor that takes the interrupts, through
    the stubs and with the frames in memory, up to the shell's first instruction. *)

From S2P Require Import Prelude Ports Vga Frames Pmm Mmu Vmm Heap Boot KHeap Isr Task Keyboard Kbd Interrupts Desc Syscall Commands Kernel Stubs Preempt.
Import Vga Pmm Heap Task Interrupts Desc Syscall Stubs Preempt Kernel Commands.
Local Open Scope Z_scope.
Local Open Scope kios_scope.

Module Idle.

Section idle.
  Context {D : Type} `{Pic.Pic8259 D}.
  Context (im : image).
  (** The machine code of [irq_handler] for a line, in a state of the kernel. *)
  Context (code : Z -> kst (H := heap (A := pmm) (D := D)) -> machine -> machine).
  Notation kst := (kst (H := heap (A := pmm) (D := D))).
  Implicit Types k : kst.

Definition vectors : Z -> Z := stub (isr_stub im) (irq_stub im).
Definition ist1 : Z := u64 (df_stack im + 8192).

(** An interrupt: its line, and what the devices do meanwhile. *)
Record arrival := Arrival { a_irq : Z; a_dev : D -> D }.

(** The [hlt] loop on the machine: an interrupt with the kernel in state [k] runs the stub
    and the handler; the loop ends when another task is current.  [None]: an interrupt
    is not delivered. *)
Fixpoint idle_machine (env : list arrival) (k : kst) (u : machine) : option (kst * machine) :=
  match env with
  | [] => Some (k, u)
  | a :: env =>
      let k1 := interrupted (a_irq a) u (kbus (a_dev a) k) in
      match run_irq (code (a_irq a) k1) (a_irq a) u with
      | None => None
      | Some u' =>
          let k' := snd (irq_handler (frame_top u) (32 + a_irq a) k1) in
          if current_task (tk k') =? current_task (tk k) then idle_machine env k' u' else Some (k', u')
      end
  end.

Definition ticks_of (env : list arrival) : Z := Z.of_nat (length (filter (fun a => a_irq a = 0) env)).

(** ** The machine in the loop *)

(** In the loop: the kernel's code segment, on the boot stack above the image; the tables
    and the shell's first frame in memory. *)
Record in_loop (u : machine) : Prop := {
  il_cs : seg_cs (pc u) mod 4 = 0;
  il_sp : kernel_end im + 256 <= gpr u RSP <= 0x500000;
  il_tables : tables_ok (tables im) vectors ist1 (ram u) (pc u);
  il_frame : frame_in (ram u) shell_frame = initial_frame (shell_task im) shell_frame;
  il_range : in_range u
}.

(** [n] ticks into the kernel's life. *)
Definition idle_kernel (n : Z) (k : kst) : Prop :=
  kernel_ok k /\ pit k = PitState n true /\ idle_tasks (shell_task im) (tk k).

(** The same registers and selectors. *)
Definition same_cpu (u u' : machine) : Prop :=
  (forall q, gpr u' q = gpr u q) /\ rip u' = rip u /\ rflags u' = rflags u /\ pc u' = pc u.

(** Everything in place for the next interrupt. *)
Record at_loop (n : Z) (k : kst) (u : machine) : Prop := {
  al_system : system_ok (tables im) vectors ist1 k u;
  al_kernel : idle_kernel n k;
  al_machine : in_loop u
}.

Lemma shell_frame_high : 0x600000 < shell_frame /\ shell_frame + 208 < 2 ^ 64.
Proof. by vm_compute. Qed.

Lemma idle_waiting k p : idle_tasks (shell_task im) (tk k) -> p ∈ task_list (tk k) -> p <> current_task (tk k) ->
  p = shell_tcb /\ regs (tcb (tk k) p) = shell_frame.
Proof.
  intros (E1 & E2 & E3 & _). rewrite E1, E2, !elem_of_cons, elem_of_nil. intros [->|[->|[]]] Hp; [done|].
  split; [done|]. unfold tcb. rewrite E3. exact (f_equal regs (proj2 (started_tcb (shell_task im)))).
Qed.

Lemma started_at_loop k u : kernel_ok k -> tk k = started (shell_task im) -> pit k = PitState 0 true -> in_loop u -> at_loop 0 k u.
Proof.
  intros Hk Ht Hp Hu. assert (Hi : idle_tasks (shell_task im) (tk k)) by (rewrite Ht; by split_and!).
  split; [|by split_and!|done]. destruct shell_frame_high as [F1 F2]. split; [done| | |apply Hu|apply Hu].
  - rewrite Ht. split; [apply started_ok|]. split; [by apply elem_of_cons; left|].
    exact (f_equal state (proj1 (started_tcb (shell_task im)))).
  - intros p P1 P2. destruct (idle_waiting k p Hi P1 P2) as [_ ->]. split; rewrite ?(il_frame _ Hu); [lia|apply Hi|done|done].
Qed.

Lemma loop_stack k u : image_ok im -> idle_tasks (shell_task im) (tk k) -> in_loop u -> stack_free (tables im) k u /\ frame_top u < 0x500000.
Proof.
  intros Him Hi Hu. pose proof (il_sp _ Hu) as Hsp. pose proof (io_end _ Him) as He. pose proof (io_start _ Him) as Hs.
  destruct shell_frame_high as [F1 _].
  assert (Ht : kernel_end im < frame_top u < 0x500000).
  { unfold frame_top, interrupt_stack, from_user. rewrite (il_cs _ Hu). change (0 =? 3) with false. cbv iota.
    rewrite land_u64_mask by lia. change 0xF with (2 ^ 4 - 1). rewrite land_lnot_ones by lia. clear - Hsp. dlia. }
  split; [|lia]. split; [lia|]. intros x Hx. split.
  - intros (p & P1 & P2 & P3). destruct (idle_waiting k p Hi P1 P2) as [_ Er]. rewrite Er in P3. lia.
  - intros Hx'. apply (io_tables _ Him) in Hx'. unfold in_image in Hx'. lia.
Qed.

Context (Him : image_ok im) (Htss : 0 <= tss (tables im)) (Hcode : forall n k, does_irq (tables im) n k (code n k)).

(** The devices change, not the kernel. *)
Lemma at_loop_dev n d k u : at_loop n k u -> at_loop n (kbus d k) u.
Proof.
  intros [[S1 S2 S3 S4 S5] (K1 & K2 & K3) L]. destruct (kbus_spec d k (ko_low _ S1)) as [B _].
  assert (Hk : kernel_ok (kbus d k)) by (apply (kernel_ok_same k); [done|exact B|done|apply S1]).
  by split; [split|split_and!|].
Qed.

(** What the kernel does with the interrupt, from Kernel.v. *)
Lemma interrupted_spec n d m k u :
  idle_kernel m k -> 0 <= m < 10 -> 0 <= n < 16 -> 0 < frame_top u < 0x500000 ->
  let k' := snd (irq_handler (frame_top u) (32 + n) (interrupted n u (kbus d k))) in
  let m' := if n =? 0 then m + 1 else m in
  if m' =? 10 then current_task (tk k') = shell_tcb else idle_kernel m' k'.
Proof.
  intros Hk Hm Hn Hf.
  pose proof (take_spec (shell_task im) m (Interrupt n (frame_top u) (saved_frame (32 + n) 0 u) d) (Sys k (pc u)) Hk Hm) as T.
  unfold take in T. cbn [i_irq i_addr i_frame i_dev ks kcpu] in T.
  change (set_tk (set_frame (frame_top u) (with_int_no (32 + n) (saved_frame (32 + n) 0 u)) (tk (kbus d k))) (kbus d k))
    with (interrupted n u (kbus d k)) in T.
  revert T. generalize (irq_handler (frame_top u) (32 + n) (interrupted n u (kbus d k))) as fk. intros [f k'] T.
  cbn [snd]. assert (Hi : idle_interrupt (D := D) (Interrupt n (frame_top u) (saved_frame (32 + n) 0 u) d)).
  { split; [exact Hn|]. cbn [i_addr]. unfold HEAP_START. lia. }
  specialize (T Hi). cbv zeta in *. destruct (_ =? 10); [exact (proj1 (proj2 T))|exact (proj2 T)].
Qed.

(** The idle task is not the shell. *)
Lemma idle_not_shell : idle_tcb <> shell_tcb.
Proof. by vm_compute. Qed.

Lemma frame_of_idle f k : idle_tasks (shell_task im) (tk k) ->
  frame_of f (tk k) idle_tcb = f /\ frame_of f (tk k) shell_tcb = shell_frame.
Proof.
  intros (E1 & E2 & E3 & _). unfold frame_of. rewrite E2. split; [by rewrite decide_True|].
  rewrite decide_False by exact (not_eq_sym idle_not_shell).
  unfold tcb. rewrite E3. exact (f_equal regs (proj2 (started_tcb (shell_task im)))).
Qed.

Lemma same_cpu_loop u u' : in_loop u -> same_cpu u u' -> tables_ok (tables im) vectors ist1 (ram u') (pc u') -> in_range u' ->
  frame_in (ram u') shell_frame = initial_frame (shell_task im) shell_frame -> in_loop u'.
Proof. intros [L1 L2 _ _ _] (C1 & _ & _ & C4) Ht Hr Hf. split; [by rewrite C4|by rewrite C1|done..]. Qed.

(** One interrupt of the loop. *)
Lemma loop_step n d m k u :
  at_loop m k u -> 0 <= m < 10 -> 0 <= n < 16 ->
  let k1 := interrupted n u (kbus d k) in
  let k' := snd (irq_handler (frame_top u) (32 + n) k1) in
  let m' := if n =? 0 then m + 1 else m in
  exists u', run_irq (code n k1) n u = Some u' /\
  if m' =? 10 then current_task (tk k') = shell_tcb /\ system_ok (tables im) vectors ist1 k' u' /\
    resumes (initial_frame (shell_task im) shell_frame) (ram u') (pc u) u'
  else current_task (tk k') = idle_tcb /\ at_loop m' k' u' /\ same_cpu u u'.
Proof.
  intros Ha Hm Hn. cbv zeta. destruct (at_loop_dev m d k u Ha) as [Hs (_ & _ & Hi) Hl].
  destruct (loop_stack (kbus d k) u Him Hi Hl) as [Hfree Htop]. pose proof (proj1 Hfree) as Hpos.
  pose proof (interrupted_spec n d m k u (al_kernel _ _ _ Ha) Hm Hn (conj Hpos Htop)) as K. cbv zeta in K.
  pose proof (irq_effect (tables im) vectors ist1 (code n (interrupted n u (kbus d k))) n (kbus d k) u Hs Htss Hn Hfree (Hcode _ _)) as E.
  destruct (frame_of_idle (frame_top u) (kbus d k) Hi) as [Fi Fs].
  revert E K. generalize (interrupted n u (kbus d k)) as k1. intros k1.
  generalize (irq_handler (frame_top u) (32 + n) k1) as fk. intros [f k']. cbn [snd].
  intros (u' & E1 & E2 & E3 & E4 & _ & E6 & _ & E8 & E9) K. exists u'. split; [exact E1|].
  assert (Hw : frame_in (ram u') shell_frame = initial_frame (shell_task im) shell_frame).
  { pose proof (proj1 (proj2 Hi)) as Hc. rewrite <- Fs. unfold frame_of. rewrite decide_False by (rewrite Hc; exact (not_eq_sym idle_not_shell)).
    rewrite (E9 shell_tcb); [|rewrite (proj1 Hi); apply elem_of_cons; right; by apply elem_of_cons; left|rewrite Hc; exact (not_eq_sym idle_not_shell)].
    unfold frame_of in Fs. rewrite decide_False in Fs by (rewrite Hc; exact (not_eq_sym idle_not_shell)). rewrite Fs. apply Hl. }
  destruct (_ =? 10).
  - split; [exact K|]. split; [exact E2|]. rewrite E6, K, Fs, Hw in E4. exact E4.
  - pose proof K as (_ & _ & Hi'). pose proof (proj1 (proj2 Hi')) as Hc. split; [exact Hc|].
    rewrite E6, Hc, Fi, E8 in E4. destruct (resumes_saved _ _ _ _ _ _ E4 (il_range _ Hl) eq_refl eq_refl eq_refl eq_refl) as (R1 & R2 & R3 & R4 & _).
    assert (Hcpu : same_cpu u u') by (by split_and!). split; [|exact Hcpu]. split; [exact E2|exact K|].
    apply (same_cpu_loop u); [exact Hl|exact Hcpu|apply E2|apply E2|exact Hw].
Qed.

Lemma ticks_of_cons a env : ticks_of (a :: env) = (if a_irq a =? 0 then 1 else 0) + ticks_of env.
Proof. unfold ticks_of. rewrite filter_cons. case_decide as E; destruct (Z.eqb_spec (a_irq a) 0); cbn [length]; lia. Qed.

Lemma idle_machine_spec env m k u :
  at_loop m k u -> 0 <= m < 10 -> Forall (fun a => 0 <= a_irq a < 16) env ->
  exists k' u', idle_machine env k u = Some (k', u') /\
  if m + ticks_of env <? 10 then at_loop (m + ticks_of env) k' u' /\ same_cpu u u'
  else current_task (tk k') = shell_tcb /\ system_ok (tables im) vectors ist1 k' u' /\
    resumes (initial_frame (shell_task im) shell_frame) (ram u') (pc u) u'.
Proof.
  revert m k u. induction env as [|a env IH]; intros m k u Ha Hm Henv.
  { exists k, u. split; [done|]. change (ticks_of []) with 0. rewrite Z.add_0_r. destruct (Z.ltb_spec m 10); [|lia].
    split; [done|]. by split_and!. }
  apply Forall_cons in Henv as [Hn Henv]. cbn [idle_machine]. rewrite ticks_of_cons.
  pose proof (loop_step (a_irq a) (a_dev a) m k u Ha Hm Hn) as S. cbv zeta in *.
  revert S. generalize (interrupted (a_irq a) u (kbus (a_dev a) k)) as k1. intros k1.
  generalize (irq_handler (frame_top u) (32 + a_irq a) k1) as fk. intros [f k']. cbn [snd]. intros (u' & -> & S).
  assert (Ht : 0 <= ticks_of env) by (unfold ticks_of; lia). pose proof (al_kernel _ _ _ Ha) as (_ & _ & _ & Hc & _). rewrite Hc.
  destruct (Z.eqb_spec (if a_irq a =? 0 then m + 1 else m) 10) as [E|E].
  - destruct S as (S1 & S2 & S3). destruct (Z.eqb_spec (current_task (tk k')) idle_tcb) as [Eq|_].
    { destruct idle_not_shell. congruence. }
    exists k', u'. split; [done|]. destruct (Z.ltb_spec (m + ((if a_irq a =? 0 then 1 else 0) + ticks_of env)) 10);
      [destruct (a_irq a =? 0); lia|done].
  - destruct S as (S1 & S2 & C1 & C2 & C3 & C4). rewrite S1, Z.eqb_refl.
    destruct (IH (if a_irq a =? 0 then m + 1 else m) k' u' S2) as (k2 & u2 & I1 & I2); [destruct (a_irq a =? 0); lia|done|].
    exists k2, u2. split; [exact I1|].
    replace (m + ((if a_irq a =? 0 then 1 else 0) + ticks_of env)) with ((if a_irq a =? 0 then m + 1 else m) + ticks_of env)
      by (destruct (a_irq a =? 0); lia).
    destruct (_ <? 10).
    + destruct I2 as (I2 & D1 & D2 & D3 & D4). split; [exact I2|]. split_and!; [intros q; by rewrite D1|congruence..].
    + rewrite C4 in I2. exact I2.
Qed.

(** C9: the idle loop on the machine: from [hlt], in the kernel that [kernel_main] has
    set up and with the shell's first frame on its stack, every interrupt that comes
    before the tenth tick brings the processor back to the loop with every
    register, and the tenth tick to the first instruction of the shell: on the
    shell's stack, in the kernel's segments, with interrupts on and all other
    registers zero; the system is ready for the next interrupt. *)
Theorem idle_machine_reaches_shell t s env u :
  kernel_started im t s -> in_loop u -> Forall (fun a => 0 <= a_irq a < 16) env ->
  exists k' u', idle_machine env (ks s) u = Some (k', u') /\ system_ok (tables im) vectors ist1 k' u' /\
  if ticks_of env <? 10 then current_task (tk k') = idle_tcb /\ same_cpu u u'
  else current_task (tk k') = shell_tcb /\ rip u' = shell_task im /\ rflags u' = 0x202 /\
    (forall q, gpr u' q = if decide (q = RSP) then shell_frame else 0) /\
    seg_cs (pc u') = 0x08 /\ seg_ss (pc u') = 0x10 /\ seg_ds (pc u') = 0x10 /\ seg_es (pc u') = 0x10.
Proof.
  intros Hst Hu Henv. pose proof (started_at_loop (ks s) u (st_kernel _ _ _ Hst) (st_tasks _ _ _ Hst) (st_pit _ _ _ Hst) Hu) as Ha.
  destruct (idle_machine_spec env 0 (ks s) u Ha ltac:(lia) Henv) as (k' & u' & E & R). rewrite Z.add_0_l in R.
  exists k', u'. split; [exact E|]. destruct (ticks_of env <? 10).
  - destruct R as [[R1 (_ & _ & _ & Hc & _) _] R2]. by split_and!.
  - destruct R as (R1 & R2 & [Q1 Q2 Q3 Q4 Q5 Q6 Q7 _ _]). split; [exact R2|]. split_and!; try done. intros q. rewrite Q1. by destruct q.
Qed.

End idle.

(** ** Witnesses

    The image of Kernel.v, with a processor on the boot stack and the frame of the shell
    in memory; the handler does nothing but return the frame. *)
Import Ports.SimBus.

Definition shell_words : list Z :=
  [0x10; 0x10; 0x10; 0x10] ++ replicate 17 0 ++ [0x100400; 0x08; 0x202; shell_frame; 0x10].
Definition with_shell (s : machine) : machine :=
  set_mem (put_words shell_frame shell_words (Syscall.ram s)) (set_reg RSP 0x4FFFE0 s).
Definition hlt_machine : machine := with_shell demo_machine.

Lemma with_shell_frame s : frame_in (Syscall.ram (with_shell s)) shell_frame = initial_frame 0x100400 shell_frame.
Proof.
  unfold frame_in. assert (E : words (Syscall.ram (with_shell s)) shell_frame 26 = shell_words); [|by rewrite E].
  apply (words_put shell_frame shell_words (Syscall.ram s)). apply (bool_decide_unpack _). by vm_compute.
Qed.

Lemma with_shell_in_loop s : seg_cs (pc s) = 8 -> in_range s -> tables_ok some_layout demo_stubs 0x112000 (Syscall.ram s) (pc s) ->
  in_loop some_image (with_shell s).
Proof.
  intros Hc [R1 R2 R3 R4 R5 R6 R7] Ht. split.
  - change (pc (with_shell s)) with (pc s). by rewrite Hc.
  - split; [by vm_compute|]. unfold with_shell. cbn [gpr set_mem]. rewrite gpr_set_eq. lia.
  - apply (tables_ok_put shell_frame shell_words some_layout demo_stubs 0x112000 s Ht).
    intros x Hx%some_layout_low. destruct shell_frame_high. lia.
  - apply with_shell_frame.
  - split; try done. intros q. unfold with_shell. cbn [gpr set_mem set_reg]. case_decide; [lia|apply R1].
Qed.

Lemma hlt_in_loop : in_loop some_image hlt_machine.
Proof. exact (with_shell_in_loop demo_machine (proj1 demo_machine_selectors) demo_machine_range demo_machine_tables). Qed.

Definition plain_code (n : Z) (k : kst (H := heap (A := pmm) (D := sim_bus))) (u : machine) : machine :=
  set_reg RAX (fst (irq_handler (D := sim_bus) (gpr u RDI) (32 + n) k)) u.

Lemma plain_code_ok n k : does_irq (D := sim_bus) some_layout n k (plain_code n k).
Proof. intros u. unfold plain_code. by rewrite gpr_set_eq. Qed.

Definition some_kernel : sys (A := pmm) (D := sim_bus) :=
  kernel_init some_image (boot_sys some_mem 0x9000 (bus_con bios_bus) some_cpu).

Lemma idle_machine_reaches_shell_witness :
  exists k' u', idle_machine plain_code (Arrival 1 id :: repeat (Arrival 0 id) 10) (ks some_kernel) hlt_machine =
    Some (k', u') /\ rip u' = 0x100400 /\ gpr u' RSP = shell_frame /\ gpr u' RAX = 0.
Proof.
  destruct (idle_machine_reaches_shell some_image plain_code some_image_ok ltac:(by vm_compute) plain_code_ok 0x9000 some_kernel
    (Arrival 1 id :: repeat (Arrival 0 id) 10) hlt_machine) as (k' & u' & E & _ & R).
  - exact (kernel_init_started some_image 0x9000 some_mem (bus_con bios_bus) some_cpu some_image_ok some_mem_handed bios_bus_operational).
  - exact hlt_in_loop.
  - repeat constructor; done.
  - change (ticks_of (Arrival (D := sim_bus) 1 id :: repeat (Arrival 0 id) 10) <? 10) with false in R.
    destruct R as (_ & R1 & _ & R2 & _). exists k', u'. split; [exact E|]. split; [exact R1|]. split; [exact (R2 RSP)|exact (R2 RAX)].
Defined.

End Idle.
