(* ===== verification/Loader.v ===== *)
(** * The boot loader ([bootloader/new/stage1.asm], [stage2.asm])

    From the boot sector to the jump into the kernel: the loads from the disk, the
    copy of the kernel to 1 MB and the way into long mode, with the walk through the
    page CR3 selects: the assembler does not put the tables there.  The BIOS is not code
    of the repository: it is the class [Bios], with its documented behaviour.  The
    memory map and the page tables are those of Boot.v. *)

From S2P Require Import Prelude Ports Vga Frames Pmm Mmu Vmm Boot Desc Kernel.
Import Mmu Boot Desc Kernel.
Local Open Scope Z_scope.
Local Open Scope kios_scope.

Module Loader.

(** ** The BIOS

    [int 0x10] with AH = 0x0E and AL; [int 0x13] with AH = 0x00 and DL, with AH = 0x02 and
    AL, CH, CL, DH, DL, ES, BX, and with AH = 0x42, DL and the address of the packet.
    The reads return the carry flag, AX and what they make of memory. *)
Class Bios (B : Type) := {
  int10_teletype : Z -> B -> B;
  int13_reset : Z -> B -> B;
  int13_read : Z -> Z -> Z -> Z -> Z -> Z -> Z -> mem * B -> bool * Z * (mem * B);
  int13_extended_read : Z -> Z -> mem * B -> bool * Z * (mem * B)
}.

(** ** The variables of stage 2 *)

(** The addresses of the variables; of the instructions behind [mov cr0, eax] and behind
    [call rax], and of the routines between them; of the descriptors, of the first byte
    behind the messages, and of the page tables. *)
Record labels := Labels {
  boot_drive : Z; kernel_lba_current : Z; dap : Z;
  paging_on : Z; setup_paging_at : Z; long_mode_entry_at : Z; after_call : Z;
  gdt_at : Z; code_end : Z; pml4_table : Z
}.


Definition kernel_lba_start : Z := 34.
Definition KERNEL_PHYS_ADDR : Z := 0x100000.
Definition GDT_CODE32_SEG : Z := 0x08.
Definition GDT_CODE64_SEG : Z := 0x18.

(** The messages, with their NUL. *)
Definition crlf : list Z := [13; 10; 0].
Definition msg_loading : list Z := str "KiOS Stage1 - Loading Stage2..." ++ crlf.
Definition msg_ok1 : list Z := str "OK!" ++ crlf.
Definition msg_disk_error1 : list Z := [13; 10] ++ str "Disk Error: 0x" ++ [0].
Definition msg_stage2 : list Z := str "KiOS Stage2" ++ crlf.
Definition msg_a20 : list Z := str "  Enabling A20... " ++ [0].
Definition msg_load_kernel : list Z := str "  Loading kernel... " ++ [0].
Definition msg_pm : list Z := str "  Entering Protected Mode..." ++ crlf.
Definition msg_ok : list Z := str "OK" ++ crlf.
Definition msg_disk_error : list Z := str "DISK ERROR!" ++ crlf.
Definition msg_e820_done : list Z := str "  Memory Map done." ++ crlf.

(** ** The processor's modes *)

Record cregs := Cregs { cr0 : Z; cr3 : Z; cr4 : Z; efer : Z }.

(** [mov cr0, v]: [None] is the exception for paging without protection, and for
    long mode without physical address extension. *)
Definition mov_cr0 (v : Z) (c : cregs) : option cregs :=
  if Z.testbit v 31 && (negb (Z.testbit v 0) || Z.testbit (efer c) 8 && negb (Z.testbit (cr4 c) 5)) then None
  else Some (Cregs v (cr3 c) (cr4 c) (efer c)).

Inductive mode := Protected32 | Compatibility32 | Long64.

(** A far jump through a descriptor: it must be a present code segment, not both of
    32 and of 64 bits; long mode is active when it is enabled and paging is on. *)
Definition far_jump (c : cregs) (s : seg) : option mode :=
  if negb (Z.testbit (cr0 c) 0) then None
  else if negb (Z.testbit (s_access s) 7 && Z.testbit (s_access s) 4 && Z.testbit (s_access s) 3) then None
  else if Z.testbit (efer c) 8 && Z.testbit (cr0 c) 31 then
    if Z.testbit (s_flags s) 1 then if Z.testbit (s_flags s) 2 then None else Some Long64
    else Some Compatibility32
  else Some Protected32.

(** The quadwords at [gdt_start]. *)
Definition gdt_start : list Z :=
  [0; 0x00CF9A000000FFFF; 0x00CF92000000FFFF; 0x00209A0000000000; 0x0000920000000000].
Definition gdt_seg (sel : Z) : seg := seg_of_word (nth (Z.to_nat (sel / 8)) gdt_start 0).

(** The page the walk starts at: the processor ignores the low bits of CR3. *)
Definition walk_root (c : cregs) : Z := child (cr3 c).
Definition maps_to_itself (m : mem) (root a : Z) : bool := bool_decide (translate m root a = Some a).

(** How a stage ends; [Strayed]: paging is on, and some address the code uses next is not
    mapped, or mapped to somewhere else. *)
Inductive outcome {B D : Type} :=
| Halted (b : B)
| Faulted
| Strayed (c : cregs) (m : mem) (b : B) (d : D)
| Jumped (rip rsp : Z) (md : mode) (c : cregs) (m : mem) (b : B) (d : D).
Arguments outcome : clear implicits.

Section loader.
  Context {B : Type} `{!Bios B} {D : Type} `{!PortBus D}.

(** [print_string] and [print_string_16]: up to the NUL. *)
Fixpoint print_string (s : list Z) (b : B) : B :=
  match s with
  | [] => b
  | al :: s => if al =? 0 then b else print_string s (int10_teletype al b)
  end.

(** ** Stage 1 *)

Definition STAGE2_LOAD_OFF : Z := 0x7E00.
Definition STAGE2_SECTORS : Z := 32.

Definition print_nibble (al : Z) (b : B) : B :=
  int10_teletype (if i8 al <? 10 then u8 (al + 48) else u8 (al + 55)) b.
Definition print_hex_byte (al : Z) (b : B) : B :=
  let cl := al in
  let b := print_nibble (Z.shiftr al 4) b in
  print_nibble (Z.land cl 0x0F) b.

(** [load_stage2]: [inl] is the way to [disk_error], with AX. *)
Definition load_stage2 (dl : Z) (mb : mem * B) : sum (Z * B) (mem * B) :=
  let '(cf, ax, mb) := int13_read STAGE2_SECTORS 0 2 0 dl 0 STAGE2_LOAD_OFF mb in
  if cf then Datatypes.inl (ax, snd mb)
  else if negb (u8 ax =? STAGE2_SECTORS) then Datatypes.inl (ax, snd mb)
  else inr mb.

Definition disk_error (ax : Z) (b : B) : B :=
  print_hex_byte (u8 (Z.shiftr ax 8)) (print_string msg_disk_error1 b).

(** [start]; [drive] is the address of its [boot_drive].  [inr]: the jump to stage 2. *)
Definition start (drive dl : Z) (mb : mem * B) : sum B (Z * (mem * B)) :=
  let '(m, b) := mb in
  let m := st 1 m drive dl in
  let b := print_string msg_loading b in
  match load_stage2 (rd m drive) (m, b) with
  | Datatypes.inl (ax, b) => Datatypes.inl (disk_error ax b)
  | inr (m, b) => inr (STAGE2_LOAD_OFF, (m, print_string msg_ok1 b))
  end.

(** ** Stage 2 *)

Section stage2.
  Context (l : labels) (kernel_sectors : Z).

Definition enable_a20 (d : D) : D :=
  let '(al, d) := inb 0x92 d in
  if Z.testbit al 1 then d else outb 0x92 (Z.land (Z.lor al 2) 0xFE) d.

(** The disk address packet for [bp] sectors from [kernel_lba_current] to [bx]:0. *)
Definition prepare_dap (bp bx : Z) (m : mem) : mem :=
  let m := st 1 m (dap l + 0) 16 in
  let m := st 1 m (dap l + 1) 0 in
  let m := st 2 m (dap l + 2) bp in
  let m := st 2 m (dap l + 4) 0 in
  let m := st 2 m (dap l + 6) bx in
  let m := st 2 m (dap l + 8) (ld16 m (kernel_lba_current l)) in
  let m := st 2 m (dap l + 10) 0 in
  st 4 m (dap l + 12) 0.

(** [.load_next] with the sectors left in [cx] and the segment in [bx]; [false] is the
    disk error.  The offset [di] stays 0. *)
Fixpoint load_next (fuel : nat) (cx bx dl : Z) (mb : mem * B) : option (bool * (mem * B)) :=
  match fuel with
  | O => None
  | S fuel =>
      if cx =? 0 then Some (true, mb)
      else
        let '(m, b) := mb in
        let bp := if sint 16 cx <=? 16 then cx else 16 in
        let m := prepare_dap bp bx m in
        let '(cf, _, (m, b)) := int13_extended_read dl (dap l) (m, b) in
        if cf then Some (false, (m, print_string msg_disk_error b))
        else
          let bx := u16 (bx + u16 (Z.shiftl bp 5)) in
          let m := st 2 m (kernel_lba_current l) (u16 (ld16 m (kernel_lba_current l) + bp)) in
          load_next fuel (u16 (cx - bp)) bx dl (m, b)
  end.

Definition load_kernel_16 (mb : mem * B) : option (bool * (mem * B)) :=
  let '(m, b) := mb in
  let dl := rd m (boot_drive l) in
  let b := int13_reset dl b in
  let cx := u16 kernel_sectors in
  load_next (S (Z.to_nat cx)) cx 0x8000 dl (m, b).

(** [rep movsd] from 0x80000 to [KERNEL_PHYS_ADDR]. *)
Definition copy_kernel (m : mem) : mem :=
  let ecx := Z.shiftr (u32 (Z.shiftl kernel_sectors 9)) 2 in
  for_range 0 ecx (fun i m => store32 (KERNEL_PHYS_ADDR + 4 * i) (ld32 m (0x80000 + 4 * i)) m) m.

(** The addresses used with paging on before the kernel runs: the rest of
    [protected_mode_entry], [long_mode_entry], the descriptors, the stack and the kernel. *)
Definition after_paging : list Z :=
  seqZ (paging_on l) (setup_paging_at l - paging_on l) ++
  seqZ (long_mode_entry_at l) (after_call l - long_mode_entry_at l) ++
  seqZ (gdt_at l) 40 ++ seqZ 0x8FFF8 8 ++ [KERNEL_PHYS_ADDR].

(** [protected_mode_entry] and [long_mode_entry]. *)
Definition protected_mode_entry (c : cregs) (m : mem) (b : B) (d : D) : outcome B D :=
  let m := copy_kernel m in
  let m := setup_paging (pml4_table l) m in
  let c := Cregs (cr0 c) (cr3 c) (Z.lor (cr4 c) (Z.shiftl 1 5)) (efer c) in
  let c := Cregs (cr0 c) (pml4_table l) (cr4 c) (efer c) in
  let c := Cregs (cr0 c) (cr3 c) (cr4 c) (Z.lor (efer c) (Z.shiftl 1 8)) in
  match mov_cr0 (Z.lor (cr0 c) (Z.shiftl 1 31)) c with
  | None => Faulted
  | Some c =>
      match far_jump c (gdt_seg GDT_CODE64_SEG) with
      | None => Faulted
      | Some md =>
          if forallb (maps_to_itself m (walk_root c)) after_paging then
            let rsp := 0x90000 - 8 in
            Jumped 0x100000 rsp md c (st64 m rsp (after_call l)) b d
          else Strayed c m b d
      end
  end.

(** [stage2_start]; [None] if the loads do not end. *)
Definition stage2_start (dl : Z) (c : cregs) (m : mem) (b : B) (d : D) : option (outcome B D) :=
  let m := st 1 m (boot_drive l) dl in
  let b := print_string msg_a20 (print_string msg_stage2 b) in
  let d := enable_a20 d in
  let b := print_string msg_ok b in
  let m := create_fallback_memory_map m in
  let b := print_string msg_load_kernel (print_string msg_e820_done b) in
  match load_kernel_16 (m, b) with
  | None => None
  | Some (false, (m, b)) => Some (Halted b)
  | Some (true, (m, b)) =>
      let b := print_string msg_pm (print_string msg_ok b) in
      match mov_cr0 (Z.lor (cr0 c) 1) c with
      | None => Some Faulted
      | Some c =>
          match far_jump c (gdt_seg GDT_CODE32_SEG) with
          | None => Some Faulted
          | Some _ => Some (protected_mode_entry c m b d)
          end
      end
  end.

End stage2.

End loader.

(** ** What the BIOS promises

    A drive is its bytes, the number of sectors on a track, and how many of its first
    sectors are read without an error. *)
Record media := Media { byte_of : Z -> Z -> Z; track : Z -> Z; readable : Z -> Z }.

(** The memory the BIOS leaves to the loader but for what it was asked to write. *)
Definition ours (x : Z) : Prop := 0x7C00 <= x < 0x9FC00 \/ 0x100000 <= x.

(** A buffer of [n] sectors at [es]:[bx]. *)
Definition buffer_ok (es bx n : Z) : Prop :=
  0 < n <= 127 /\ 0 <= bx /\ bx + 512 * n <= 2 ^ 16 /\ 0x7C00 <= 16 * es + bx /\ 16 * es + bx + 512 * n <= 0x9FC00.

Class BiosDisk (B : Type) `{!Bios B} := {
  screen : B -> list Z;
  drives : B -> media;
  law_teletype al b : screen (int10_teletype al b) = screen b ++ [al] /\ drives (int10_teletype al b) = drives b;
  law_reset dl b : screen (int13_reset dl b) = screen b /\ drives (int13_reset dl b) = drives b;
  law_read al cl dl es bx m b : buffer_ok es bx al -> 0 < cl -> cl + al - 1 <= track (drives b) dl ->
    let '(cf, ax, (m', b')) := int13_read al 0 cl 0 dl es bx (m, b) in
    let a := 16 * es + bx in
    screen b' = screen b /\ drives b' = drives b /\ 0 <= ax < 2 ^ 16 /\
    agree_on (fun x => ours x /\ ~ a <= x < a + 512 * al) m m' /\
    (cf = false -> u8 ax <= al /\
       forall i, 0 <= i < 512 * u8 ax -> rd m' (a + i) = byte_of (drives b) dl (512 * (cl - 1) + i)) /\
    (cl - 1 + al <= readable (drives b) dl -> cf = false /\ u8 ax = al);
  law_extended dl p m b : rd m p = 16 -> buffer_ok (ld16 m (p + 6)) (ld16 m (p + 4)) (ld16 m (p + 2)) ->
    let '(cf, ax, (m', b')) := int13_extended_read dl p (m, b) in
    let a := 16 * ld16 m (p + 6) + ld16 m (p + 4) in
    let n := ld16 m (p + 2) in
    let lba := ld64 m (p + 8) in
    screen b' = screen b /\ drives b' = drives b /\
    agree_on (fun x => ours x /\ ~ a <= x < a + 512 * n /\ ~ p <= x < p + 16) m m' /\
    (cf = false -> forall i, 0 <= i < 512 * n -> rd m' (a + i) = byte_of (drives b) dl (512 * lba + i)) /\
    (lba + n <= readable (drives b) dl -> cf = false)
}.

Section bios.
  Context {B : Type} `{BiosDisk B}.

(** The bytes of a message before its NUL. *)
Fixpoint shown (s : list Z) : list Z :=
  match s with [] => [] | al :: s => if al =? 0 then [] else al :: shown s end.

Lemma print_string_spec s b :
  screen (print_string s b) = screen b ++ shown s /\ drives (print_string s b) = drives b.
Proof.
  revert b. induction s as [|al s IH]; intros b; cbn [print_string shown]; [by rewrite app_nil_r|].
  destruct (al =? 0); [by rewrite app_nil_r|]. destruct (law_teletype al b) as [L1 L2].
  destruct (IH (int10_teletype al b)) as [I1 I2]. by rewrite I1, I2, L1, L2, <- app_assoc.
Qed.

(** ** Loading the kernel *)

Section stage2.
  Context (l : labels).


(** What the proofs use of it: the variables lie apart, in stage 2 and below the tables. *)
Record labels_apart : Prop := {
  la_drive : 0x7E00 <= boot_drive l < 0x8000;
  la_lba : 0x7E00 <= kernel_lba_current l /\ kernel_lba_current l + 2 <= 0x8000;
  la_dap : 0x7E00 <= dap l /\ dap l + 16 <= 0x8000;
  la_pml4 : pml4_table l mod 4 = 0 /\ 0x8000 <= pml4_table l /\ pml4_table l + 3 * 4096 <= 0xBE00;
  la_apart : apart (kernel_lba_current l) 2 (dap l) 16;
  la_drive_apart : apart (boot_drive l) 1 (dap l) 16 /\ apart (boot_drive l) 1 (kernel_lba_current l) 2
}.



Lemma prepare_dap_spec bp bx m :
  apart (kernel_lba_current l) 2 (dap l) 16 -> 0 <= bp < 2 ^ 16 -> 0 <= bx < 2 ^ 16 ->
  let m' := prepare_dap l bp bx m in
  rd m' (dap l) = 16 /\ ld16 m' (dap l + 2) = bp /\ ld16 m' (dap l + 4) = 0 /\ ld16 m' (dap l + 6) = bx /\
  ld64 m' (dap l + 8) = ld16 m (kernel_lba_current l) /\ only_in (dap l) (dap l + 16) m m'.
Proof.
  intros Ha Hp Hx. cbv zeta. unfold prepare_dap. set (p := dap l) in *. rewrite Z.add_0_r.
  set (m5 := st 2 (st 2 (st 2 (st 1 (st 1 m p 16) (p + 1) 0) (p + 2) bp) (p + 4) 0) (p + 6) bx).
  assert (H5 : only_in p (p + 16) m m5).
  { subst m5. repeat (eapply only_in_trans; [|eapply only_in_weaken; [| |apply st_only_in]; lia]). done. }
  assert (El : ld16 m5 (kernel_lba_current l) = ld16 m (kernel_lba_current l)).
  { unfold ld16. apply (ld_outside _ _ _ _ _ _ H5). unfold apart in Ha. lia. }
  rewrite El. pose proof (ld_range 2 m (kernel_lba_current l)) as Hl. change (8 * Z.of_nat 2) with 16 in Hl. fold ld16 in Hl.
  rewrite rd_ld1. unfold ld16 at 1 2 3, ld64. split_and!.
  - subst m5. rewrite !(ld_st_ne 1) by lia. by rewrite (ld_st 1).
  - subst m5. rewrite !(ld_st_ne 2) by lia. rewrite (ld_st 2). by apply Z.mod_small.
  - subst m5. rewrite !(ld_st_ne 2) by lia. by rewrite (ld_st 2).
  - subst m5. rewrite !(ld_st_ne 2) by lia. rewrite (ld_st 2). by apply Z.mod_small.
  - rewrite (ld_app 4 4), (ld_app 2 2 _ (p + 8)). replace (p + 8 + Z.of_nat 4) with (p + 12) by lia.
    replace (p + 8 + Z.of_nat 2) with (p + 10) by lia.
    rewrite (ld_st 4), !(ld_st_ne 2 4) by lia. rewrite (ld_st 2), (ld_st_ne 2 2) by lia. rewrite (ld_st 2).
    change (8 * Z.of_nat 2) with 16. rewrite (Z.mod_small (ld16 _ _)) by done. rewrite !Z.mod_0_l by lia. lia.
  - clearbody m5. repeat (eapply only_in_trans; [|eapply only_in_weaken; [| |apply st_only_in]; lia]). exact H5.
Qed.

Context (n : Z) (b0 : B) (dl : Z).

(** The loader's memory but for its buffer and variables. *)
Definition kept (x : Z) : Prop :=
  ours x /\ ~ 0x80000 <= x < 0x9FC00 /\ ~ dap l <= x < dap l + 16 /\
  ~ kernel_lba_current l <= x < kernel_lba_current l + 2.

(** The first [k] sectors of the kernel are at 0x80000. *)
Definition loaded (k : Z) (m : mem) : Prop :=
  forall i, 0 <= i < 512 * k -> rd m (0x80000 + i) = byte_of (drives b0) dl (512 * kernel_lba_start + i).

(** One chunk. *)
Lemma chunk_spec k bp m b cf ax m' b' :
  labels_apart -> 0 <= k -> 0 < bp <= 16 -> k + bp <= 254 ->
  ld16 m (kernel_lba_current l) = kernel_lba_start + k -> loaded k m -> drives b = drives b0 ->
  int13_extended_read dl (dap l) (prepare_dap l bp (0x8000 + 32 * k) m, b) = (cf, ax, (m', b')) ->
  screen b' = screen b /\ drives b' = drives b0 /\ agree_on kept m m' /\
  ld16 m' (kernel_lba_current l) = kernel_lba_start + k /\ (cf = false -> loaded (k + bp) m') /\
  (kernel_lba_start + k + bp <= readable (drives b0) dl -> cf = false).
Proof.
  intros Hl Hk Hb Hn Hlba Hld Hd E. pose proof (la_dap Hl) as HD. pose proof (la_lba Hl) as HL.
  pose proof (la_apart Hl) as HA. unfold apart in HA.
  destruct (prepare_dap_spec bp (0x8000 + 32 * k) m (la_apart Hl) ltac:(lia) ltac:(lia)) as (P1 & P2 & P3 & P4 & P5 & P6).
  revert E P1 P2 P3 P4 P5 P6. generalize (prepare_dap l bp (0x8000 + 32 * k) m) as m1. intros m1 E P1 P2 P3 P4 P5 P6.
  pose proof (law_extended dl (dap l) m1 b P1) as R. rewrite P2, P3, P4, P5, E, Hd, Hlba in R. cbv zeta in R.
  replace (16 * (0x8000 + 32 * k) + 0) with (0x80000 + 512 * k) in R by lia.
  destruct R as (R1 & R2 & R3 & R4 & R5); [unfold buffer_ok; lia|].
  assert (Hag : forall x, ours x -> ~ 0x80000 + 512 * k <= x < 0x80000 + 512 * k + 512 * bp -> ~ dap l <= x < dap l + 16 ->
    rd m' x = rd m x).
  { intros x H1 H2 H3. rewrite (R3 x) by done. apply P6. lia. }
  split; [done|]. split; [done|]. split; [|split; [|split; [|intros Hr; apply R5; lia]]].
  - intros x (K1 & K2 & K3 & K4). apply Hag; [done|lia|done].
  - rewrite <- Hlba. unfold ld16. apply ld_agree. intros x Hx. apply Hag; unfold ours; lia.
  - intros Hc i Hi. destruct (Z.lt_ge_cases i (512 * k)).
    + rewrite Hag by (unfold ours; lia). apply Hld. lia.
    + replace (0x80000 + i) with (0x80000 + 512 * k + (i - 512 * k)) by lia. rewrite (R4 Hc) by lia.
      f_equal. unfold kernel_lba_start. lia.
Qed.

Lemma load_next_spec fuel k m b :
  labels_apart -> 0 <= k <= n -> n <= 254 -> (Z.to_nat (n - k) < fuel)%nat ->
  ld16 m (kernel_lba_current l) = kernel_lba_start + k -> loaded k m -> drives b = drives b0 ->
  exists ok m' b', load_next l fuel (n - k) (0x8000 + 32 * k) dl (m, b) = Some (ok, (m', b')) /\
    drives b' = drives b0 /\ agree_on kept m m' /\
    (if ok then loaded n m' /\ screen b' = screen b else screen b' = screen b ++ shown msg_disk_error) /\
    (kernel_lba_start + n <= readable (drives b0) dl -> ok = true).
Proof.
  intros Hl. revert k m b. induction fuel as [|fuel IH]; intros k m b Hk Hn Hf Hlba Hld Hd; [lia|]. cbn [load_next].
  destruct (Z.eqb_spec (n - k) 0) as [E0|E0].
  { exists true, m, b. replace n with k by lia. by split_and!. }
  set (bp := if sint 16 (n - k) <=? 16 then n - k else 16).
  assert (Hbp : 0 < bp <= 16 /\ k + bp <= n).
  { subst bp. unfold sint. rewrite Z.mod_small by lia. destruct (Z.ltb_spec (n - k) (2 ^ (16 - 1))); [|lia].
    destruct (Z.leb_spec (n - k) 16); lia. }
  clearbody bp. destruct (int13_extended_read dl (dap l) (prepare_dap l bp (0x8000 + 32 * k) m, b)) as [[cf ax] [m1 b1]] eqn:E.
  destruct (chunk_spec k bp m b cf ax m1 b1 Hl ltac:(lia) ltac:(lia) ltac:(lia) Hlba Hld Hd E) as (C1 & C2 & C3 & C4 & C5 & C6).
  destruct cf.
  - destruct (print_string_spec msg_disk_error b1) as [S1 S2]. exists false, m1, (print_string msg_disk_error b1).
    split_and!; [done|by rewrite S2|done|by rewrite S1, C1|]. intros Hr. by specialize (C6 ltac:(lia)).
  - specialize (C5 eq_refl). pose proof (la_lba Hl) as HL. pose proof (la_dap Hl) as HD.
    set (m2 := st 2 m1 (kernel_lba_current l) _).
    assert (Hm2 : only_in (kernel_lba_current l) (kernel_lba_current l + 2) m1 m2) by apply (st_only_in 2).
    destruct (IH (k + bp) m2 b1) as (ok & m' & b' & I1 & I2 & I3 & I4 & I5); [lia|done|lia| | |done|].
    + subst m2. unfold ld16. rewrite (ld_st 2). fold ld16. rewrite C4. unfold u16, kernel_lba_start.
      change (8 * Z.of_nat 2) with 16. rewrite Z.mod_mod by lia. rewrite Z.mod_small; lia.
    + intros i Hi. rewrite (Hm2 (0x80000 + i)) by lia. by apply C5.
    + exists ok, m', b'. split; [|split; [done|split; [|by rewrite <- C1]]].
      * rewrite <- I1. f_equal.
        -- unfold u16. rewrite Z.mod_small; lia.
        -- unfold u16. rewrite Z.shiftl_mul_pow2 by lia. rewrite (Z.mod_small (bp * _)), Z.mod_small; lia.
      * eapply agree_on_trans; [exact C3|]. eapply agree_on_trans; [|exact I3].
        intros x (K1 & K2 & K3 & K4). apply Hm2. lia.
Qed.

(** ** The copy *)

Lemma rd_st_ld k m m' a b j : 0 <= j < Z.of_nat k -> rd (st k m' a (ld k m b)) (a + j) = rd m (b + j).
Proof.
  revert m' a b j. induction k as [|k IH]; intros m' a b j Hj; [lia|]. cbn [st ld]. pose proof (rd_range m b) as Hr.
  assert (E : (rd m b + 2 ^ 8 * ld k m (b + 1)) / 2 ^ 8 = ld k m (b + 1)) by (clear - Hr; dlia).
  rewrite E. destruct (Z.eq_dec j 0) as [->|Hne].
  - rewrite !Z.add_0_r, (st_only_in k _ _ _ a), rd_wr_eq by lia. unfold u8. clear - Hr. dlia.
  - replace (a + j) with (a + 1 + (j - 1)) by lia. rewrite IH by lia. f_equal. lia.
Qed.

Lemma copy_kernel_spec m : 0 <= n <= 254 ->
  only_in 0x100000 (0x100000 + 512 * n) m (copy_kernel n m) /\
  forall i, 0 <= i < 512 * n -> rd (copy_kernel n m) (0x100000 + i) = rd m (0x80000 + i).
Proof.
  intros Hn. unfold copy_kernel, KERNEL_PHYS_ADDR.
  assert (E : Z.shiftr (u32 (Z.shiftl n 9)) 2 = 128 * n).
  { unfold u32. rewrite Z.shiftl_mul_pow2, Z.mod_small, Z.shiftr_div_pow2 by lia. clear. dlia. }
  rewrite E. set (P := fun (k : Z) (m' : mem) => only_in 0x100000 (0x100000 + 4 * k) m m' /\
    forall i, 0 <= i < 4 * k -> rd m' (0x100000 + i) = rd m (0x80000 + i)).
  assert (HP : P (128 * n) (for_range 0 (128 * n) (fun i m => store32 (0x100000 + 4 * i) (ld32 m (0x80000 + 4 * i)) m) m)).
  { apply (for_range_inv P); [lia|by split; [|lia]|]. intros k m1 Hk [H1 H2].
    assert (Ev : ld32 m1 (0x80000 + 4 * k) = ld32 m (0x80000 + 4 * k)) by (apply (ld_outside 4 _ _ _ _ _ H1); lia).
    rewrite Ev. unfold store32. split.
    - eapply only_in_trans; [eapply only_in_weaken; [| |exact H1]; lia|].
      eapply only_in_weaken; [| |apply (st_only_in 4)]; lia.
    - intros i Hi. destruct (Z.lt_ge_cases i (4 * k)); [rewrite (st_only_in 4 _ _ _ (0x100000 + i)); [apply H2; lia|lia]|].
      replace (0x100000 + i) with (0x100000 + 4 * k + (i - 4 * k)) by lia. unfold ld32. rewrite rd_st_ld by lia. f_equal. lia. }
  destruct HP as [H1 H2]. split; [by replace (512 * n) with (4 * (128 * n)) by lia|]. intros i Hi. apply H2. lia.
Qed.

(** ** The way into long mode *)

(** The control registers in real mode: neither protection nor paging. *)
Definition real_mode (c : cregs) : Prop :=
  Z.testbit (cr0 c) 0 = false /\ Z.testbit (cr0 c) 31 = false.

Lemma testbit_lor_pow a i k : 0 <= i -> 0 <= k -> Z.testbit (Z.lor a (Z.shiftl 1 i)) k = bool_decide (i = k) || Z.testbit a k.
Proof.
  intros Hi Hk. rewrite Z.shiftl_1_l, Z.lor_spec, Z.pow2_bits_eqb, orb_comm by done. f_equal.
  destruct (Z.eqb_spec i k); [by rewrite bool_decide_true|by rewrite bool_decide_false].
Qed.

(** Protection first; the far jump stays in 32-bit code. *)
Lemma enter_protected c : real_mode c ->
  let c1 := Cregs (Z.lor (cr0 c) 1) (cr3 c) (cr4 c) (efer c) in
  mov_cr0 (Z.lor (cr0 c) 1) c = Some c1 /\ far_jump c1 (gdt_seg GDT_CODE32_SEG) = Some Protected32.
Proof.
  intros [H0 H31]. cbv zeta. unfold mov_cr0, far_jump. cbn [cr0 cr4 efer]. change 1 with (Z.shiftl 1 0) at 1 2.
  rewrite !testbit_lor_pow, H31, H0 by lia. cbn [bool_decide decide_rel orb andb]. split; [done|].
  change 1 with (Z.shiftl 1 0). rewrite !testbit_lor_pow, H31, H0 by lia. by rewrite andb_false_r.
Qed.

(** Then the address extension, the tables and long mode, and paging last. *)
Lemma enter_long v t e4 ef : Z.testbit v 0 = true ->
  let c := Cregs v t (Z.lor e4 (Z.shiftl 1 5)) (Z.lor ef (Z.shiftl 1 8)) in
  let c' := Cregs (Z.lor v (Z.shiftl 1 31)) t (cr4 c) (efer c) in
  mov_cr0 (Z.lor v (Z.shiftl 1 31)) c = Some c' /\ far_jump c' (gdt_seg GDT_CODE64_SEG) = Some Long64.
Proof.
  intros H0. cbv zeta. unfold mov_cr0, far_jump. cbn [cr0 cr3 cr4 efer]. rewrite !testbit_lor_pow, H0 by lia. by vm_compute.
Qed.

(** ** Stage 2 as a whole *)

Lemma fallback_only_in m : only_in 0x10000 0x10032 m (create_fallback_memory_map m).
Proof.
  unfold create_fallback_memory_map, store16. cbv zeta.
  pose proof (fallback_entry_fields (0x10000 + 2) 0 0 0xA0000 0 1 m) as F1.
  destruct F1 as (_ & _ & _ & F1); [lia..|].
  set (m1 := fallback_entry (0x10000 + 2) _ _ _ _ _ m) in *. clearbody m1.
  pose proof (fallback_entry_fields (0x10000 + (2 + 24)) 0x100000 0 0x7F00000 0 1 m1) as F2.
  destruct F2 as (_ & _ & _ & F2); [lia..|].
  set (m2 := fallback_entry (0x10000 + (2 + 24)) _ _ _ _ _ m1) in *. clearbody m2.
  eapply only_in_trans; [eapply only_in_weaken; [| |exact F1]; lia|].
  eapply only_in_trans; [eapply only_in_weaken; [| |exact F2]; lia|].
  eapply only_in_weaken; [| |apply (st_only_in 2)]; lia.
Qed.

(** What stage 2 has made of the memory [m] when it turns paging on: the kernel, the
    memory map and the words of the tables; its own bytes before the tables are as
    they were but for the variables, and nothing lies behind the image. *)
Record kernel_loaded (m m' : mem) : Prop := {
  kl_kernel i : 0 <= i < 512 * n -> rd m' (KERNEL_PHYS_ADDR + i) = byte_of (drives b0) dl (512 * kernel_lba_start + i);
  kl_map : fallback_map m';
  kl_words : table_words (pml4_table l) m';
  kl_code x : 0x8000 <= x < pml4_table l -> rd m' x = rd m x;
  kl_rest x : KERNEL_PHYS_ADDR + 512 * n <= x -> rd m' x = rd m x
}.

Lemma tables_made m2 m3 :
  labels_apart -> 0 <= n <= 254 -> fallback_map m2 -> agree_on kept m2 m3 -> loaded n m3 ->
  kernel_loaded m2 (setup_paging (pml4_table l) (copy_kernel n m3)).
Proof.
  intros Hl Hn Hf Hk Hld. destruct (la_pml4 Hl) as (T1 & T2 & T3). pose proof (la_dap Hl) as HD.
  pose proof (la_lba Hl) as HL. destruct (copy_kernel_spec m3 Hn) as [C1 C2].
  pose proof (setup_paging_only_in (pml4_table l) (copy_kernel n m3)) as Hsp.
  pose proof (setup_words (pml4_table l) (copy_kernel n m3) T1 ltac:(lia) ltac:(lia)) as Hw.
  set (m4 := copy_kernel n m3) in *. clearbody m4.
  assert (Hx0 : forall x, ~ pml4_table l <= x < pml4_table l + 3 * 4096 -> ~ 0x100000 <= x < 0x100000 + 512 * n ->
    kept x -> rd (setup_paging (pml4_table l) m4) x = rd m2 x).
  { intros x Hx1 Hx2 Hx. rewrite (Hsp x), (C1 x) by lia. by apply Hk. }
  unfold kept, ours in Hx0. split; [| |exact Hw| |]; unfold KERNEL_PHYS_ADDR.
  - intros i Hi. rewrite (Hsp (0x100000 + i)), C2 by lia. by apply Hld.
  - eapply fallback_map_agree; [exact Hf|]. intros x Hx. cbv beta in Hx. apply Hx0; lia.
  - intros x Hx. apply Hx0; lia.
  - intros x Hx. apply Hx0; lia.
Qed.

End stage2.

(** What stage 2 writes to the screen. *)
Definition stage2_text (result : list Z) : list Z :=
  shown msg_stage2 ++ shown msg_a20 ++ shown msg_ok ++ shown msg_e820_done ++ shown msg_load_kernel ++ result.

Lemma stage2_messages b :
  let b1 := print_string msg_load_kernel (print_string msg_e820_done (print_string msg_ok
              (print_string msg_a20 (print_string msg_stage2 b)))) in
  drives b1 = drives b /\ forall r, (screen b1 ++ r) = screen b ++ stage2_text r.
Proof.
  cbv zeta. unfold stage2_text.
  repeat match goal with |- context [print_string ?s ?b] =>
    is_var b; let P := fresh "P" in let Q := fresh "Q" in destruct (print_string_spec s b) as [P Q]; revert P Q;
    generalize (print_string s b); intros ? P Q end.
  split; [congruence|]. intros r. subst. by rewrite P3, P2, P1, P0, P, <- !app_assoc.
Qed.

(** The processor when it turns paging on. *)
Definition long_mode (l : labels) (c : cregs) : cregs :=
  Cregs (Z.lor (Z.lor (cr0 c) 1) (Z.shiftl 1 31)) (pml4_table l) (Z.lor (cr4 c) (Z.shiftl 1 5)) (Z.lor (efer c) (Z.shiftl 1 8)).

(** Wherever the tables are. *)
Lemma stage2_effect `{!PortBus D} l n dl c m b (d : D) :
  labels_apart l -> 0 <= n <= 254 -> 0 <= dl < 2 ^ 8 -> real_mode c -> ld16 m (kernel_lba_current l) = kernel_lba_start ->
  match stage2_start l n dl c m b d with
  | Some (Halted b') =>
      screen b' = screen b ++ stage2_text (shown msg_disk_error) /\ readable (drives b) dl < kernel_lba_start + n
  | Some (Strayed c' m' b' d') =>
      c' = long_mode l c /\ kernel_loaded l n b dl m m' /\
      screen b' = screen b ++ stage2_text (shown msg_ok ++ shown msg_pm) /\ d' = enable_a20 d /\
      forallb (maps_to_itself m' (walk_root c')) (after_paging l) = false
  | Some (Jumped rip rsp md c' m' b' d') => exists m1,
      rip = KERNEL_PHYS_ADDR /\ rsp = 0x8FFF8 /\ md = Long64 /\ m' = st64 m1 0x8FFF8 (after_call l) /\
      c' = long_mode l c /\ kernel_loaded l n b dl m m1 /\
      screen b' = screen b ++ stage2_text (shown msg_ok ++ shown msg_pm) /\ d' = enable_a20 d /\
      forallb (maps_to_itself m1 (walk_root c')) (after_paging l) = true
  | Some Faulted | None => False
  end.
Proof.
  intros Hl Hn Hdl Hc Hlba. unfold stage2_start. cbv zeta. pose proof (la_lba _ Hl) as HL. pose proof (la_drive _ Hl) as HV.
  destruct (stage2_messages b) as [Hd Hs]. cbv zeta in Hd, Hs. revert Hd Hs.
  generalize (print_string msg_load_kernel (print_string msg_e820_done (print_string msg_ok
    (print_string msg_a20 (print_string msg_stage2 b))))) as b1. intros b1 Hd Hs.
  set (m1 := st 1 m (boot_drive l) dl). set (m2 := create_fallback_memory_map m1).
  assert (H1 : only_in (boot_drive l) (boot_drive l + 1) m m1) by apply (st_only_in 1).
  pose proof (fallback_only_in m1) as H2. fold m2 in H2. pose proof (fallback_entries m1) as Hf. fold m2 in Hf.
  assert (Hl2 : ld16 m2 (kernel_lba_current l) = kernel_lba_start).
  { unfold ld16. rewrite (ld_outside _ _ _ _ _ _ H2) by lia. rewrite (ld_outside _ _ _ _ _ _ H1); [exact Hlba|].
    destruct (la_drive_apart _ Hl) as [_ Ha]. unfold apart in Ha. lia. }
  assert (Hv2 : rd m2 (boot_drive l) = dl).
  { rewrite (H2 (boot_drive l)) by lia. subst m1. rewrite rd_ld1, (ld_st 1). by apply Z.mod_small. }
  unfold load_kernel_16. rewrite Hv2. unfold u16. rewrite (Z.mod_small n) by lia.
  destruct (law_reset dl b1) as [S0 D0].
  destruct (load_next_spec l n b dl (S (Z.to_nat n)) 0 m2 (int13_reset dl b1) Hl) as (ok & m3 & b3 & E & L1 & L2 & L3 & L4);
    [lia|lia|lia|by rewrite Hl2|intros i Hi; lia|by rewrite D0|].
  rewrite Z.sub_0_r in E. change (0x8000 + 32 * 0) with 0x8000 in E. rewrite E. destruct ok.
  2: { split; [rewrite <- (Hs (shown msg_disk_error)), L3, S0; reflexivity|].
    destruct (Z.lt_ge_cases (readable (drives b) dl) (kernel_lba_start + n)); [done|]. by specialize (L4 ltac:(lia)). }
  destruct L3 as [L3 L3']. destruct (enter_protected c Hc) as [P1 P2]. rewrite P1, P2.
  destruct (print_string_spec msg_ok b3) as [Q1 Q2]. destruct (print_string_spec msg_pm (print_string msg_ok b3)) as [Q3 Q4].
  unfold protected_mode_entry. cbv zeta. cbn [cr0 cr3 cr4 efer].
  destruct (enter_long (Z.lor (cr0 c) 1) (pml4_table l) (cr4 c) (efer c)) as [P3 P4].
  { rewrite Z.lor_spec. apply orb_true_r. }
  cbv zeta in P3, P4. cbn [cr4 efer] in P3, P4. rewrite P3, P4. change (0x90000 - 8) with 0x8FFF8. fold (long_mode l c).
  pose proof (tables_made l n b dl m2 m3 Hl Hn Hf L2 L3) as Hk.
  assert (Hscr : screen (print_string msg_pm (print_string msg_ok b3)) = screen b ++ stage2_text (shown msg_ok ++ shown msg_pm)).
  { rewrite <- (Hs (shown msg_ok ++ shown msg_pm)), Q3, Q1, L3', S0. symmetry. apply app_assoc. }
  pose proof (la_pml4 _ Hl) as HT.
  assert (Hk' : kernel_loaded l n b dl m (setup_paging (pml4_table l) (copy_kernel n m3))).
  { destruct Hk as [K1 K2 K3 K4 K5]. split; [exact K1|exact K2|exact K3|..]; unfold KERNEL_PHYS_ADDR in *; intros x Hx.
    - rewrite (K4 x Hx), (H2 x), (H1 x) by lia. reflexivity.
    - rewrite (K5 x Hx), (H2 x), (H1 x) by lia. reflexivity. }
  clear Hk. revert Hk'. generalize (setup_paging (pml4_table l) (copy_kernel n m3)) as m4. intros m4 Hk.
  destruct (forallb (maps_to_itself m4 (walk_root (long_mode l c))) (after_paging l)) eqn:Ef.
  - exists m4. split_and!; try reflexivity; assumption.
  - split_and!; try reflexivity; assumption.
Qed.



(** With the tables on a page the same code would always start the kernel, and hand over
    what Kernel.v takes: the map, and the tables in use. *)
Theorem stage2_aligned `{!PortBus D} l n dl c m b (d : D) :
  labels_apart l -> pml4_table l mod 4096 = 0 -> 0x7E00 <= paging_on l -> after_call l <= 2 ^ 30 ->
  0x7E00 <= gdt_at l <= 0xBE00 ->
  0x7E00 <= long_mode_entry_at l -> setup_paging_at l <= 2 ^ 30 ->
  0 <= n <= 254 -> 0 <= dl < 2 ^ 8 -> real_mode c -> ld16 m (kernel_lba_current l) = kernel_lba_start ->
  kernel_lba_start + n <= readable (drives b) dl ->
  exists c' m' b' d', stage2_start l n dl c m b d = Some (Jumped KERNEL_PHYS_ADDR 0x8FFF8 Long64 c' m' b' d') /\
    walk_root c' = pml4_table l /\ handed_over (pml4_table l) m' /\
    forall i, 0 <= i < 512 * n -> rd m' (KERNEL_PHYS_ADDR + i) = byte_of (drives b) dl (512 * kernel_lba_start + i).
Proof.
  intros Ha Hal P1 P2 P3 P4 P5 Hn Hdl Hc Hlba Hrd. pose proof (stage2_effect l n dl c m b d Ha Hn Hdl Hc Hlba) as Hend.
  destruct (la_pml4 _ Ha) as (T1 & T2 & T3).
  assert (Hr : walk_root (long_mode l c) = pml4_table l).
  { unfold walk_root, long_mode, child. cbn [cr3]. change (2 ^ 12) with 4096. rewrite Hal. lia. }
  assert (Hid : forall m', kernel_loaded l n b dl m m' ->
    boot_tables (pml4_table l) m' /\ forallb (maps_to_itself m' (pml4_table l)) (after_paging l) = true).
  { intros m' Hk. assert (Hb : boot_tables (pml4_table l) m') by (destruct (kl_words _ _ _ _ _ _ Hk); split; (done || lia)).
    split; [exact Hb|]. apply forallb_forall. intros a Hin%list_elem_of_In. apply bool_decide_eq_true.
    assert (Hlow : 0 <= a < 2 ^ 30).
    { unfold after_paging in Hin. rewrite !elem_of_app, !elem_of_seqZ, list_elem_of_singleton in Hin.
      unfold KERNEL_PHYS_ADDR in Hin. lia. }
    by apply boot_leaf_identity. }
  destruct (stage2_start l n dl c m b d) as [[b'| |c' m' b' d'|rip rsp md c' m' b' d']|]; [destruct Hend; lia|done| | |done].
  - destruct Hend as (-> & Hk & _ & _ & H5). rewrite Hr in H5. destruct (Hid m' Hk) as [_ E]. congruence.
  - destruct Hend as (m1 & -> & -> & -> & -> & -> & Hk & _). exists (long_mode l c), (st64 m1 0x8FFF8 (after_call l)), b', d'.
    split; [done|]. split; [exact Hr|]. destruct (Hid m1 Hk) as [Hb _]. split.
    + split; [lia|]. split.
      * eapply boot_tables_agree; [exact Hb|]. intros x Hx. apply st64_only_in. lia.
      * eapply fallback_map_agree; [apply Hk|]. intros x Hx. cbv beta in Hx. apply st64_only_in. lia.
    + intros i Hi. rewrite (st64_only_in _ _ _ (KERNEL_PHYS_ADDR + i)) by (unfold KERNEL_PHYS_ADDR; lia). by apply Hk.
Qed.

(** ** Stage 1 *)

(** A hexadecimal digit in upper case. *)
Definition hex_digit (v : Z) : Z := if v <? 10 then 48 + v else 55 + v.

Lemma print_nibble_spec v b : 0 <= v < 16 ->
  screen (print_nibble v b) = screen b ++ [hex_digit v] /\ drives (print_nibble v b) = drives b.
Proof.
  intros Hv. unfold print_nibble, hex_digit, i8, sint, u8. rewrite (Z.mod_small v) by lia.
  change (2 ^ (8 - 1)) with 128. destruct (Z.ltb_spec v 128); [|lia].
  destruct (Z.ltb_spec v 10); rewrite Z.mod_small by lia;
    [destruct (law_teletype (v + 48) b) as [-> ->]|destruct (law_teletype (v + 55) b) as [-> ->]]; split; try done;
    do 2 f_equal; lia.
Qed.

Lemma disk_error_spec ax b : 0 <= ax < 2 ^ 16 ->
  screen (disk_error ax b) = screen b ++ shown msg_disk_error1 ++ [hex_digit (ax / 2 ^ 12); hex_digit (ax / 2 ^ 8 mod 16)].
Proof.
  intros Hax. unfold disk_error, print_hex_byte. cbv zeta. destruct (print_string_spec msg_disk_error1 b) as [P1 P2].
  assert (E1 : Z.shiftr (u8 (Z.shiftr ax 8)) 4 = ax / 2 ^ 12).
  { unfold u8. rewrite !Z.shiftr_div_pow2 by lia. clear - Hax. dlia. }
  assert (E2 : Z.land (u8 (Z.shiftr ax 8)) 0x0F = ax / 2 ^ 8 mod 16).
  { change 0x0F with (Z.ones 4). rewrite Z.land_ones by lia. unfold u8. rewrite Z.shiftr_div_pow2 by lia. clear - Hax. dlia. }
  rewrite E1, E2. destruct (print_nibble_spec (ax / 2 ^ 12) (print_string msg_disk_error1 b)) as [N1 N2]; [clear - Hax; dlia|].
  destruct (print_nibble_spec (ax / 2 ^ 8 mod 16) (print_nibble (ax / 2 ^ 12) (print_string msg_disk_error1 b))) as [N3 N4];
    [clear; dlia|]. by rewrite N3, N1, P1, <- !app_assoc.
Qed.

Lemma start_effect drive dl m b :
  0x7C00 <= drive < 0x7E00 -> 0 <= dl < 2 ^ 8 -> 33 <= track (drives b) dl ->
  let '(cf, ax, _) := int13_read STAGE2_SECTORS 0 2 0 dl 0 STAGE2_LOAD_OFF (st 1 m drive dl, print_string msg_loading b) in
  match start drive dl (m, b) with
  | Datatypes.inr (rip, (m', b')) => cf = false /\ u8 ax = 32 /\ rip = 0x7E00 /\ drives b' = drives b /\ rd m' drive = dl /\
      (forall i, 0 <= i < 16384 -> rd m' (0x7E00 + i) = byte_of (drives b) dl (512 + i)) /\
      screen b' = screen b ++ shown msg_loading ++ shown msg_ok1
  | Datatypes.inl b' => (cf = true \/ u8 ax <> 32) /\ readable (drives b) dl < 33 /\
      let ah := ax / 2 ^ 8 in 0 <= ah < 2 ^ 8 /\
      screen b' = screen b ++ shown msg_loading ++ shown msg_disk_error1 ++ [hex_digit (ah / 16); hex_digit (ah mod 16)]
  end.
Proof.
  intros Hv Hdl Ht. unfold start, load_stage2. destruct (print_string_spec msg_loading b) as [P1 P2].
  revert P1 P2. generalize (print_string msg_loading b) as b1. intros b1 P1 P2.
  set (m1 := st 1 m drive dl).
  assert (Ev : rd m1 drive = dl) by (subst m1; rewrite rd_ld1, (ld_st 1); by apply Z.mod_small).
  rewrite Ev. pose proof (law_read STAGE2_SECTORS 2 dl 0 STAGE2_LOAD_OFF m1 b1) as L.
  destruct (int13_read STAGE2_SECTORS 0 2 0 dl 0 STAGE2_LOAD_OFF (m1, b1)) as [[cf ax] [m2 b2]].
  unfold STAGE2_SECTORS, STAGE2_LOAD_OFF in *. destruct L as (L1 & L2 & L3 & L4 & L5 & L7); [unfold buffer_ok; lia|lia|rewrite P2; lia|].
  cbn [snd]. rewrite P2 in L7. assert (Hbad : let ah := ax / 2 ^ 8 in 0 <= ah < 2 ^ 8 /\ screen (disk_error ax b2) =
    screen b ++ shown msg_loading ++ shown msg_disk_error1 ++ [hex_digit (ah / 16); hex_digit (ah mod 16)]).
  { cbv zeta. split; [clear - L3; dlia|]. rewrite disk_error_spec, L1, P1, <- !app_assoc by done.
    by replace (ax / 2 ^ 12) with (ax / 2 ^ 8 / 16) by (clear; dlia). }
  assert (Hr : cf = true \/ u8 ax <> 32 -> readable (drives b) dl < 33).
  { intros Hc. destruct (Z.lt_ge_cases (readable (drives b) dl) 33); [done|]. destruct (L7 ltac:(lia)); destruct Hc; congruence. }
  destruct cf; [split; [by left|split; [by apply Hr; left|exact Hbad]]|].
  destruct (Z.eqb_spec (u8 ax) 32) as [E|E]; cbn [negb]; [|split; [by right|split; [by apply Hr; right|exact Hbad]]].
  destruct (L5 eq_refl) as [_ L6]. rewrite E, P2 in L6. destruct (print_string_spec msg_ok1 b2) as [Q1 Q2].
  split; [done|]. split; [done|]. split; [done|]. split; [by rewrite Q2, L2|]. split; [|split].
  - rewrite (L4 drive); [done|]. unfold ours. lia.
  - intros i Hi. apply L6. lia.
  - by rewrite Q1, L1, P1, <- app_assoc.
Qed.

(** C39: the boot sector reads 32 sectors behind itself from the drive the BIOS gave it to
    0x7E00.  It enters stage 2 exactly when the BIOS reports all 32 without an error, and
    then with all of it in memory, the 16 KB from sector 1 of that drive, whose number it
    kept; for every other result of the call it shows the status the BIOS returned in
    AH as two hexadecimal digits, and halts, which happens only if those sectors
    have an error. *)
Theorem stage1_loads drive dl m b :
  0x7C00 <= drive < 0x7E00 -> 0 <= dl < 2 ^ 8 -> 33 <= track (drives b) dl ->
  let '(cf, ax, _) := int13_read STAGE2_SECTORS 0 2 0 dl 0 STAGE2_LOAD_OFF (st 1 m drive dl, print_string msg_loading b) in
  match start drive dl (m, b) with
  | Datatypes.inr (rip, (m', b')) => cf = false /\ u8 ax = 32 /\ rip = 0x7E00 /\ drives b' = drives b /\ rd m' drive = dl /\
      (forall i, 0 <= i < 16384 -> rd m' (0x7E00 + i) = byte_of (drives b) dl (512 + i)) /\
      screen b' = screen b ++ shown msg_loading ++ shown msg_ok1
  | Datatypes.inl b' => (cf = true \/ u8 ax <> 32) /\ readable (drives b) dl < 33 /\
      let ah := ax / 2 ^ 8 in 0 <= ah < 2 ^ 8 /\
      screen b' = screen b ++ shown msg_loading ++ shown msg_disk_error1 ++ [hex_digit (ah / 16); hex_digit (ah mod 16)]
  end.
Proof. apply start_effect. Qed.

End bios.

(** ** Witnesses

    A BIOS with one drive of [sb_sectors] sectors, without errors. *)
Import Ports.SimBus.
Record sim_bios := SimBios { sb_screen : list Z; sb_byte : Z -> Z; sb_sectors : Z }.

Definition sim_copy (a n lba : Z) (b : sim_bios) (m : mem) : mem :=
  for_range 0 (512 * n) (fun i m => wr m (a + i) (sb_byte b (512 * lba + i))) m.

Definition sim_read (a n lba : Z) (mb : mem * sim_bios) : bool * Z * (mem * sim_bios) :=
  let '(m, b) := mb in
  if lba + n <=? sb_sectors b then (false, n, (sim_copy a n lba b m, b)) else (true, 0x0400, (m, b)).

#[export] Instance sim_bios_calls : Bios sim_bios := {
  int10_teletype al b := SimBios (sb_screen b ++ [al]) (sb_byte b) (sb_sectors b);
  int13_reset _ b := b;
  int13_read al ch cl dh dl es bx mb := sim_read (16 * es + bx) al (cl - 1) mb;
  int13_extended_read dl p mb :=
    let m := fst mb in sim_read (16 * ld16 m (p + 6) + ld16 m (p + 4)) (ld16 m (p + 2)) (ld64 m (p + 8)) mb
}.

Lemma sim_copy_spec a n lba b m : 0 <= n ->
  only_in a (a + 512 * n) m (sim_copy a n lba b m) /\
  forall i, 0 <= i < 512 * n -> rd (sim_copy a n lba b m) (a + i) = u8 (sb_byte b (512 * lba + i)).
Proof.
  intros Hn. unfold sim_copy. set (P := fun (k : Z) (m' : mem) => only_in a (a + k) m m' /\
    forall i, 0 <= i < k -> rd m' (a + i) = u8 (sb_byte b (512 * lba + i))).
  apply (for_range_inv P); [lia|by split; [|lia]|]. intros k m1 Hk [H1 H2]. split.
  - intros x Hx. rewrite rd_wr_ne by lia. apply H1. lia.
  - intros i Hi. destruct (Z.eq_dec i k) as [->|]; [apply rd_wr_eq|]. rewrite rd_wr_ne by lia. apply H2. lia.
Qed.

#[export, refine] Instance sim_bios_disk : BiosDisk sim_bios := {
  screen := sb_screen;
  drives b := Media (fun _ i => u8 (sb_byte b i)) (fun _ => 63) (fun _ => sb_sectors b)
}.
Proof.
  - done.
  - done.
  - intros al cl dl es bx m b (Hn & _) Hcl Ht. cbn [int13_read sim_bios_calls sim_read].
    destruct (sim_copy_spec (16 * es + bx) al (cl - 1) b m ltac:(lia)) as [C1 C2].
    assert (E : u8 al = al) by (apply Z.mod_small; lia).
    destruct (Z.leb_spec (cl - 1 + al) (sb_sectors b)); cbv zeta; split_and!; try done; try lia.
    + intros x [_ Hx]. apply C1. lia.
    + intros _. rewrite E. split; [lia|exact C2].
    + cbn [readable]. lia.
  - intros dl p m b _ (Hn & _). cbn [int13_extended_read sim_bios_calls fst]. unfold sim_read.
    destruct (sim_copy_spec (16 * ld16 m (p + 6) + ld16 m (p + 4)) (ld16 m (p + 2)) (ld64 m (p + 8)) b m ltac:(lia)) as [C1 C2].
    destruct (Z.leb_spec (ld64 m (p + 8) + ld16 m (p + 2)) (sb_sectors b)); cbv zeta; split_and!; try done.
    + intros x (_ & Hx & _). apply C1. lia.
    + cbn [readable]. lia.
Defined.

(** A disk of 200 sectors with a kernel of 97, and memory as the boot sector left it. *)
Definition some_bios : sim_bios := SimBios [] (fun i => i + i / 256) 200.
Definition some_boot_mem : mem := st 2 (Mem (fun _ => 0xCC) ∅) 0x7E03 34.
Definition some_cregs : cregs := Cregs 0x10 0 0 0.



(** With the tables on the page before. *)
Definition aligned_labels : labels := Labels 0x7E02 0x7E03 0x7E08 0x7F60 0x7F70 0x7FA0 0x7FB0 0x7FB0 0x7FF0 0x8000.

Lemma stage2_aligned_witness :
  match stage2_start (D := sim_bus) aligned_labels 97 0x80 some_cregs some_boot_mem some_bios bios_bus with
  | Some (Jumped rip rsp md c' m' b' d') => rd m' 0x100001 = u8 (17409 + 17409 / 256) /\ handed_over 0x8000 m'
  | _ => False
  end.
Proof.
  assert (Ha : labels_apart aligned_labels).
  { split; unfold aligned_labels; cbn [boot_drive kernel_lba_current dap pml4_table]; unfold apart; try lia. split; [done|lia]. }
  destruct (stage2_aligned (D := sim_bus) aligned_labels 97 0x80 some_cregs some_boot_mem some_bios bios_bus)
    as (c' & m' & b' & d' & E & _ & Hh & Hk);
    [exact Ha|by vm_compute|by vm_compute|by vm_compute|by vm_compute|by vm_compute|by vm_compute|lia|lia|by split|by vm_compute|by vm_compute|].
  rewrite E. split; [|exact Hh]. change 0x100001 with (KERNEL_PHYS_ADDR + 1). rewrite (Hk 1) by lia. reflexivity.
Defined.

(** A disk of 200 sectors reads; one of 20 fails with status 4, and shows 04. *)
Lemma stage1_loads_witness :
  match start 0x7DF0 0x80 (Mem (fun _ => 0) ∅, some_bios) with
  | Datatypes.inr (rip, (m', b')) => rip = 0x7E00 /\ rd m' 0x7E01 = u8 (513 + 513 / 256)
  | Datatypes.inl _ => False
  end /\
  match start 0x7DF0 0x80 (Mem (fun _ => 0) ∅, SimBios [] (fun i => i) 20) with
  | Datatypes.inr _ => False
  | Datatypes.inl b' => sb_screen b' = shown msg_loading ++ shown msg_disk_error1 ++ [48; 52]
  end.
Proof.
  assert (Ht : forall b : sim_bios, 33 <= track (drives b) 0x80) by (intros b; cbn; lia).
  pose proof (stage1_loads 0x7DF0 0x80 (Mem (fun _ => 0) ∅) some_bios ltac:(lia) ltac:(lia) (Ht _)) as H1.
  pose proof (stage1_loads 0x7DF0 0x80 (Mem (fun _ => 0) ∅) (SimBios [] (fun i => i) 20) ltac:(lia) ltac:(lia) (Ht _)) as H2.
  split.
  - revert H1. generalize (int13_read STAGE2_SECTORS 0 2 0 0x80 0 STAGE2_LOAD_OFF
      (st 1 (Mem (fun _ => 0) ∅) 0x7DF0 0x80, print_string msg_loading some_bios)).
    intros [[cf ax] mb]. generalize (start 0x7DF0 0x80 (Mem (fun _ => 0) ∅, some_bios)).
    intros [b'|[rip [m' b']]] H1.
    + destruct H1 as (_ & H1 & _). cbn in H1. lia.
    + destruct H1 as (_ & _ & H1 & _ & _ & H3 & _). split; [exact H1|]. exact (H3 1 ltac:(lia)).
  - assert (Er : fst (int13_read STAGE2_SECTORS 0 2 0 0x80 0 STAGE2_LOAD_OFF
      (st 1 (Mem (fun _ => 0) ∅) 0x7DF0 0x80, print_string msg_loading (SimBios [] (fun i => i) 20))) = (true, 0x0400)) by by vm_compute.
    revert H2 Er. generalize (int13_read STAGE2_SECTORS 0 2 0 0x80 0 STAGE2_LOAD_OFF
      (st 1 (Mem (fun _ => 0) ∅) 0x7DF0 0x80, print_string msg_loading (SimBios [] (fun i => i) 20))).
    intros [[cf ax] mb] H2 Er. cbn [fst] in Er. injection Er as -> ->. revert H2.
    generalize (start 0x7DF0 0x80 (Mem (fun _ => 0) ∅, SimBios [] (fun i => i) 20)).
    intros [b'|[rip [m' b']]] H2; [|by destruct H2]. destruct H2 as (_ & _ & _ & H2). exact H2.
Defined.

End Loader.
