(* ===== verification/Entry.v ===== *)
(** * The entry of the kernel ([entry.asm])

    [_start], to which stage 2 jumps at 0x100000, up to the call of [kernel_main],
    on the [machine] of Syscall.v and a bus; and the way from there to the shell. *)

From S2P Require Import Prelude Ports Vga Frames Pmm Mmu Vmm Heap Boot KHeap Isr Task Interrupts Desc Syscall Commands Kernel.
Import Vga Pmm Mmu Boot Desc Syscall Task Interrupts Commands Kernel.
Local Open Scope Z_scope.
Local Open Scope kios_scope.

Module Entry.

(** What the linker decides: the counter, the two functions called, and the
    addresses behind the calls. *)
Record entry_labels := EntryLabels {
  reboot_counter : Z; print_number : Z; kernel_main_at : Z; after_print : Z; halt : Z
}.

(** ** Instructions *)
Definition mov_imm (r : reg) (v : Z) : machine -> machine := set_reg r v.
Definition mov_al (v : Z) (s : machine) : machine := set_reg RAX (Z.lor (Z.ldiff (gpr s RAX) 0xFF) v) s.
Definition mov_dx (v : Z) (s : machine) : machine := set_reg RDX (Z.lor (Z.ldiff (gpr s RDX) 0xFFFF) v) s.
Definition load (dst src : reg) (s : machine) : machine := set_reg dst (ld64 (ram s) (gpr s src)) s.
Definition inc_mem (a : Z) (s : machine) : machine := set_mem (st64 (ram s) a (u64 (ld64 (ram s) a + 1))) s.
Definition jump (target : Z) (s : machine) : machine := Machine (gpr s) target (rflags s) (pc s) (ram s).

(** [call target], with the address of the next instruction, and [ret]. *)
Definition call (ret_addr target : Z) : machine -> machine := push_val ret_addr >>> jump target.
Definition ret (s : machine) : machine :=
  jump (ld64 (ram s) (gpr s RSP)) (set_reg RSP (u64 (gpr s RSP + 8)) s).

(** [stosq] goes up or down with the direction flag; [rep] repeats it RCX times. *)
Definition stosq (s : machine) : machine :=
  let a := gpr s RDI in
  set_reg RDI (u64 (if Z.testbit (rflags s) 10 then a - 8 else a + 8)) (set_mem (st64 (ram s) a (gpr s RAX)) s).
Definition rep_stosq (s : machine) : machine := set_reg RCX 0 (for_range 0 (gpr s RCX) (fun _ => stosq) s).

(** [mov rdi, 0xB8000], [mov rax, pattern], [mov rcx, 500], [rep stosq]. *)
Definition fill (pattern : Z) : machine -> machine :=
  mov_imm RDI 0xB8000 >>> mov_imm RAX pattern >>> mov_imm RCX 500 >>> rep_stosq.

(** The body of [print_number_to_vga]. *)
Definition print_number_to_vga : machine -> machine := ret.

Section entry.
  Context {D : Type} `{!PortBus D} (e : entry_labels).

(** Instructions that leave the bus alone, and [out dx, al]. *)
Definition on_cpu (f : machine -> machine) (x : machine * D) : machine * D := (f (fst x), snd x).
Definition out_dx_al (x : machine * D) : machine * D :=
  (fst x, outb (gpr (fst x) RDX) (gpr (fst x) RAX) (snd x)).

(** A register of the CRT controller. *)
Definition crtc (index value : Z) : machine * D -> machine * D :=
  on_cpu (mov_dx 0x3D4 >>> mov_al index) >>> out_dx_al >>>
  on_cpu (mov_dx 0x3D5 >>> mov_al value) >>> out_dx_al.

(** [_start] up to the counter. *)
Definition init_screen : machine * D -> machine * D :=
  on_cpu (cli >>> mov_imm RSP 0x500000) >>>
  on_cpu (fill 0x0720072007200720) >>> crtc 0x0F 0 >>> crtc 0x0E 0 >>>
  on_cpu (fill 0x4141414141414141) >>> crtc 0x0F 10 >>> crtc 0x0E 0 >>>
  on_cpu (fill 0x0720072007200720) >>> crtc 0x0F 0 >>> crtc 0x0E 0 >>>
  on_cpu (fill 0x0720072007200720) >>> crtc 0x0F 0 >>> crtc 0x0E 0.

(** From the counter to the first instruction of [kernel_main]. *)
Definition call_kernel : machine -> machine :=
  inc_mem (reboot_counter e) >>>
  mov_imm RSI (reboot_counter e) >>> load RAX RSI >>> mov_imm RDI 0xB8000 >>> mov_imm RCX 20 >>>
  call (after_print e) (print_number e) >>> print_number_to_vga >>>
  call (halt e) (kernel_main_at e).

Definition _start : machine * D -> machine * D := init_screen >>> on_cpu call_kernel.

End entry.

(** ** Filling the screen *)

(** [k] quadwords from [a] on hold the pattern. *)
Definition filled (a k pattern : Z) (m : mem) : Prop :=
  forall i, 0 <= i < 4 * k -> ld16 m (a + 2 * i) = pattern / 2 ^ (16 * (i mod 4)) mod 2 ^ 16.

Lemma filled_snoc a k pattern m : 0 <= k -> filled a k pattern m -> filled a (k + 1) pattern (st64 m (a + 8 * k) pattern).
Proof.
  intros Hk Hf i Hi. unfold ld16, st64. destruct (Z.lt_ge_cases i (4 * k)).
  - rewrite (ld_st_ne 2 8) by lia. apply Hf. lia.
  - replace (a + 2 * i) with (a + 8 * k + 2 * (i - 4 * k)) by lia. rewrite (ld_st_at 2 _ 8) by lia.
    replace (i mod 4) with (i - 4 * k) by (clear - Hi H; dlia). change (8 * Z.of_nat 2) with 16. by rewrite Z.mul_assoc.
Qed.

(** What the filling and the ports leave of the machine [s0]. *)
Record screen_only (s0 s : machine) : Prop := {
  so_mem : only_in 0xB8000 0xB8FA0 (ram s0) (ram s);
  so_sp : gpr s RSP = gpr s0 RSP;
  so_rest : same_rest s0 s
}.

Lemma screen_only_refl s : screen_only s s.
Proof. by split. Qed.

Lemma screen_only_trans s1 s2 s3 : screen_only s1 s2 -> screen_only s2 s3 -> screen_only s1 s3.
Proof.
  intros [A1 A2 (A3 & A4 & A5)] [B1 B2 (B3 & B4 & B5)]. split; [by eapply only_in_trans|congruence|].
  split_and!; congruence.
Qed.

Lemma fill_spec pattern s : Z.testbit (rflags s) 10 = false ->
  screen_only s (fill pattern s) /\ filled 0xB8000 500 pattern (ram (fill pattern s)).
Proof.
  intros Hd. unfold fill, and_then, rep_stosq, mov_imm. rewrite (gpr_set_eq RCX).
  set (s1 := set_reg RCX 500 _).
  assert (H1 : screen_only s s1 /\ gpr s1 RDI = 0xB8000 /\ gpr s1 RAX = pattern).
  { subst s1. split; [split; [done|by rewrite !gpr_set_ne|done]|]. split; [by rewrite !gpr_set_ne, gpr_set_eq by done|].
    by rewrite gpr_set_ne, gpr_set_eq by done. }
  set (P := fun (k : Z) s' => screen_only s s' /\ gpr s' RDI = 0xB8000 + 8 * k /\ gpr s' RAX = pattern /\
    filled 0xB8000 k pattern (ram s')).
  assert (HP : P 500 (for_range 0 500 (fun _ => stosq) s1)).
  { apply (for_range_inv P); [lia| |].
    - destruct H1 as (A & B & C). split; [exact A|]. split; [exact B|]. split; [exact C|]. intros i Hi. lia.
    - clear s1 H1. intros k s' Hk ([A1 A2 A3] & B & C & F). unfold stosq. cbv zeta. pose proof A3 as (_ & E & _). rewrite E, Hd, B, C.
      split; [split|split; [|split]].
      + eapply only_in_trans; [exact A1|]. eapply only_in_weaken; [| |apply st64_only_in]; lia.
      + rewrite gpr_set_ne by done. exact A2.
      + exact A3.
      + rewrite gpr_set_eq, u64_small by lia. lia.
      + rewrite gpr_set_ne by done. exact C.
      + apply filled_snoc; [lia|exact F]. }
  revert HP. generalize (for_range 0 500 (fun _ => stosq) s1) as s2. intros s2 ([A1 A2 A3] & _ & _ & F). split; [|exact F]. split; [exact A1| |exact A3].
  rewrite gpr_set_ne by done. exact A2.
Qed.

(** ** The cursor *)
Section crtc.
  Context {D : Type} `{!PortBus D}.
  Implicit Types x : machine * D.

Lemma crtc_spec index value x : 0 <= index < 2 ^ 8 -> 0 <= value < 2 ^ 8 ->
  screen_only (fst x) (fst (crtc index value x)) /\
  ram (fst (crtc index value x)) = ram (fst x) /\
  snd (crtc index value x) = outb VGA_DATA_PORT value (outb VGA_CTRL_PORT index (snd x)).
Proof.
  intros Hi Hv. destruct x as [s d]. cbn [fst snd].
  assert (Ho : forall p v s d, 0 <= p < 2 ^ 16 -> 0 <= v < 2 ^ 8 ->
    outb (gpr (mov_al v (mov_dx p s)) RDX) (gpr (mov_al v (mov_dx p s)) RAX) d = outb p v d).
  { clear. intros p v s d Hp Hv. unfold mov_al. rewrite gpr_set_eq, (gpr_set_ne RDX) by done. unfold mov_dx.
    rewrite gpr_set_eq. unfold outb, u16, u8. change 0xFFFF with (Z.ones 16). change 0xFF with (Z.ones 8).
    by rewrite !low_part, (Z.mod_small p), (Z.mod_small v) by done. }
  unfold crtc, and_then, on_cpu, out_dx_al. cbn [fst snd]. rewrite !Ho by (done || lia).
  split; [|split; done]. split; [done| |done]. unfold mov_al, mov_dx. by rewrite !gpr_set_ne.
Qed.

(** Both registers: the cursor is on cell 256 [hi] + [lo]. *)
Lemma crtc_cursor `{!Crtc D} lo hi x : 0 <= lo < 2 ^ 8 -> 0 <= hi < 2 ^ 8 ->
  hw_cursor (snd ((crtc 0x0F lo >>> crtc 0x0E hi) x)) = 256 * hi + lo.
Proof.
  intros Hl Hh. unfold and_then. destruct (crtc_spec 0x0E hi (crtc 0x0F lo x)) as (_ & _ & ->); [lia|lia|].
  destruct (crtc_spec 0x0F lo x) as (_ & _ & ->); [lia|lia|]. unfold hw_cursor, outb.
  change (u16 VGA_CTRL_PORT) with VGA_CTRL_PORT. change (u16 VGA_DATA_PORT) with VGA_DATA_PORT.
  rewrite (u8_small 14), (u8_small 15), !u8_small by lia.
  repeat match goal with
  | |- context [crtc_reg (port_out 8 VGA_DATA_PORT ?v ?d) ?r] => destruct (law_data v d) as [_ ->]; [lia|]
  | |- context [crtc_index (port_out 8 VGA_CTRL_PORT ?v ?d)] => destruct (law_index v d) as [-> _]; [lia|]
  | |- context [crtc_reg (port_out 8 VGA_CTRL_PORT ?v ?d) ?r] => destruct (law_index v d) as [_ ->]; [lia|]
  end.
  by rewrite decide_True, decide_False, decide_True by done.
Qed.

(** ** The screen as a whole *)

(** From [x] to [y] only the screen and its ports were used. *)
Definition quiet_step (x y : machine * D) : Prop :=
  screen_only (fst x) (fst y) /\ forall P : D -> Prop, OffScreen P -> P (snd x) -> P (snd y).
Definition up x : Prop := Z.testbit (rflags (fst x)) 10 = false.
Definition quiet (f : machine * D -> machine * D) : Prop := forall x, up x -> quiet_step x (f x).

(** Blank, with the cursor in the first cell. *)
Definition blank (y : machine * D) : Prop :=
  filled 0xB8000 500 0x0720072007200720 (ram (fst y)) /\ forall C : Crtc D, hw_cursor (snd y) = 0.

Lemma quiet_step_trans x y z : quiet_step x y -> quiet_step y z -> quiet_step x z.
Proof. intros [A1 A2] [B1 B2]. split; [by eapply screen_only_trans|]. intros P HP Hx. by apply B2, A2. Qed.

Lemma quiet_step_up x y : quiet_step x y -> up x -> up y.
Proof. intros [[_ _ (_ & E & _)] _]. unfold up. by rewrite E. Qed.

Lemma quiet_then f g : quiet f -> quiet g -> quiet (f >>> g).
Proof. intros Hf Hg x Hx. eapply quiet_step_trans; [by apply Hf|]. apply Hg. by eapply quiet_step_up; [apply Hf|]. Qed.

Lemma quiet_fill pattern : quiet (on_cpu (fill pattern)).
Proof. intros x Hx. split; [by apply fill_spec|by intros P]. Qed.

Lemma quiet_crtc index value : 0 <= index < 2 ^ 8 -> 0 <= value < 2 ^ 8 -> quiet (crtc index value).
Proof.
  intros Hi Hv x _. destruct (crtc_spec index value x Hi Hv) as (A & _ & E). split; [exact A|]. intros P HP Hx. rewrite E.
  apply HP; [by right|]. apply HP; [by left|exact Hx].
Qed.

Lemma blank_then f g : quiet f ->
  (forall x, up x -> quiet_step x (g x) /\ blank (g x)) -> forall x, up x -> quiet_step x ((f >>> g) x) /\ blank ((f >>> g) x).
Proof.
  intros Hf Hg x Hx. pose proof (Hf x Hx) as F. destruct (Hg (f x)) as [G1 G2]; [by eapply quiet_step_up|].
  split; [by eapply quiet_step_trans|exact G2].
Qed.

(** The last round of filling and moving the cursor decides. *)
Lemma blank_last x : up x ->
  let f := on_cpu (fill 0x0720072007200720) >>> crtc 0x0F 0 >>> crtc 0x0E 0 in quiet_step x (f x) /\ blank (f x).
Proof.
  intros Hx. split.
  - apply quiet_then; [apply quiet_fill|apply quiet_then; apply quiet_crtc; lia|exact Hx].
  - unfold and_then. set (y := on_cpu (fill 0x0720072007200720) x).
    destruct (crtc_spec 0x0F 0 y) as (_ & E1 & _); [lia|lia|].
    destruct (crtc_spec 0x0E 0 (crtc 0x0F 0 y)) as (_ & E2 & _); [lia|lia|]. split.
    + rewrite E2, E1. exact (proj2 (fill_spec 0x0720072007200720 (fst x) Hx)).
    + intros C. clearbody y. exact (crtc_cursor 0 0 y ltac:(lia) ltac:(lia)).
Qed.

Lemma init_screen_spec s d : Z.testbit (rflags s) 10 = false ->
  let x := (mov_imm RSP 0x500000 (cli s), d) in
  quiet_step x (init_screen (s, d)) /\ blank (init_screen (s, d)).
Proof.
  intros Hd. cbv zeta. unfold init_screen.
  change ((on_cpu (cli >>> mov_imm RSP 0x500000) >>> ?f) (s, d)) with (f (mov_imm RSP 0x500000 (cli s), d)).
  set (x := (mov_imm RSP 0x500000 (cli s), d)).
  assert (Hx : up x). { unfold up. subst x. cbn [fst mov_imm set_reg rflags cli set_flags]. by rewrite Z.clearbit_neq. }
  revert x Hx. 
  repeat (apply blank_then; [first [apply quiet_fill|apply quiet_crtc; lia]|]; 
    lazymatch goal with |- forall x, up x -> quiet_step x ((on_cpu _ >>> crtc _ _ >>> crtc _ _) x) /\ _ => exact blank_last | _ => idtac end).
Qed.

End crtc.

(** ** [_start] *)
Section start.
  Context {D : Type} `{!PortBus D}.

(** Where the linker puts the counter: in the image, below the stack. *)
Definition counter_ok (a : Z) : Prop := 0x100000 <= a /\ a + 8 <= 0x400000.

(** Nothing but the screen, the counter and a quadword of the stack. *)
Definition untouched (e : entry_labels) (x : Z) : Prop :=
  ~ 0xB8000 <= x < 0xB8FA0 /\ ~ reboot_counter e <= x < reboot_counter e + 8 /\ ~ 0x4FFFF8 <= x < 0x500000.

Lemma call_spec ra t s a : gpr s RSP = a -> 8 <= a < 2 ^ 64 ->
  rip (call ra t s) = t /\ gpr (call ra t s) RSP = a - 8 /\ rflags (call ra t s) = rflags s /\ pc (call ra t s) = pc s /\
  ram (call ra t s) = st64 (ram s) (a - 8) ra.
Proof.
  intros Ha Hr. destruct (push_val_spec ra s a Ha Hr) as (P1 & _ & (_ & P2 & P3) & P4).
  unfold call, and_then, jump. cbn [rip gpr rflags pc ram]. by split_and!.
Qed.

Lemma ret_spec s a : gpr s RSP = a -> 0 <= a -> a + 8 < 2 ^ 64 ->
  gpr (ret s) RSP = a + 8 /\ rflags (ret s) = rflags s /\ pc (ret s) = pc s /\ ram (ret s) = ram s.
Proof. intros Ha H0 H1. unfold ret, jump. cbn [gpr]. rewrite gpr_set_eq, Ha, u64_small by lia. by split_and!. Qed.

Lemma count_spec e s :
  let s' := (inc_mem (reboot_counter e) >>> mov_imm RSI (reboot_counter e) >>> load RAX RSI >>>
    mov_imm RDI 0xB8000 >>> mov_imm RCX 20) s in
  gpr s' RSP = gpr s RSP /\ rflags s' = rflags s /\ pc s' = pc s /\
  ram s' = st64 (ram s) (reboot_counter e) (u64 (ld64 (ram s) (reboot_counter e) + 1)).
Proof. cbv zeta. unfold and_then, mov_imm, load. split; [by rewrite !gpr_set_ne|]. by split_and!. Qed.

Lemma call_kernel_spec e s : counter_ok (reboot_counter e) -> gpr s RSP = 0x500000 ->
  let s' := call_kernel e s in
  rip s' = kernel_main_at e /\ gpr s' RSP = 0x4FFFF8 /\ rflags s' = rflags s /\ pc s' = pc s /\
  ld64 (ram s') 0x4FFFF8 = u64 (halt e) /\ ld64 (ram s') (reboot_counter e) = u64 (ld64 (ram s) (reboot_counter e) + 1) /\
  agree_on (fun x => ~ reboot_counter e <= x < reboot_counter e + 8 /\ ~ 0x4FFFF8 <= x < 0x500000) (ram s) (ram s').
Proof.
  intros [C1 C2] Hsp. cbv zeta. destruct (count_spec e s) as (A1 & A2 & A3 & A4). cbv zeta in *.
  change (call_kernel e s) with (call (halt e) (kernel_main_at e) (ret (call (after_print e) (print_number e)
    ((inc_mem (reboot_counter e) >>> mov_imm RSI (reboot_counter e) >>> load RAX RSI >>>
      mov_imm RDI 0xB8000 >>> mov_imm RCX 20) s)))).
  revert A1 A2 A3 A4. generalize ((inc_mem (reboot_counter e) >>> mov_imm RSI (reboot_counter e) >>> load RAX RSI >>>
    mov_imm RDI 0xB8000 >>> mov_imm RCX 20) s) as s1. intros s1 A1 A2 A3 A4.
  destruct (call_spec (after_print e) (print_number e) s1 0x500000) as (_ & P1 & P2 & P3 & P4); [congruence|lia|].
  revert P1 P2 P3 P4. generalize (call (after_print e) (print_number e) s1) as s2. intros s2 P1 P2 P3 P4.
  destruct (ret_spec s2 (0x500000 - 8) P1) as (R1 & R2 & R3 & R4); [lia|lia|].
  revert R1 R2 R3 R4. generalize (ret s2) as s3. intros s3 R1 R2 R3 R4.
  destruct (call_spec (halt e) (kernel_main_at e) s3 0x500000) as (Q0 & Q1 & Q2 & Q3 & Q4); [rewrite R1; lia|lia|].
  revert Q0 Q1 Q2 Q3 Q4. generalize (call (halt e) (kernel_main_at e) s3) as s4. intros s4 Q0 Q1 Q2 Q3 Q4.
  rewrite Q4, R4, P4, A4. change (0x500000 - 8) with 0x4FFFF8 in *. split_and!; try congruence.
  - apply ld64_st64.
  - rewrite !(ld64_st64_ne _ 0x4FFFF8) by lia. rewrite ld64_st64. unfold u64. by rewrite Z.mod_mod.
  - intros x Hx. rewrite !(st64_only_in _ 0x4FFFF8 _ x) by lia. apply st64_only_in. lia.
Qed.

Lemma filled_blank m i : filled 0xB8000 500 0x0720072007200720 m -> 0 <= i < 2000 -> ld16 m (0xB8000 + 2 * i) = 0x0720.
Proof.
  intros Hf Hi. rewrite (Hf i) by lia. pose proof (Z.mod_pos_bound i 4 ltac:(lia)) as Hm.
  assert (Hc : i mod 4 = 0 \/ i mod 4 = 1 \/ i mod 4 = 2 \/ i mod 4 = 3) by lia. by destruct Hc as [-> | [-> | [-> | ->]]].
Qed.

(** The machine and the bus at the first instruction of [kernel_main]. *)
Record at_kernel_main (e : entry_labels) (s : machine) (d : D) (s' : machine) (d' : D) : Prop := {
  am_rip : rip s' = kernel_main_at e;
  am_sp : gpr s' RSP = 0x4FFFF8;
  am_ret : ld64 (ram s') 0x4FFFF8 = u64 (halt e);
  am_if : Z.testbit (rflags s') 9 = false;
  am_pc : pc s' = pc s;
  am_cells i : 0 <= i < 2000 -> ld16 (ram s') (0xB8000 + 2 * i) = 0x0720;
  am_cursor (C : Crtc D) : hw_cursor d' = 0;
  am_counter : ld64 (ram s') (reboot_counter e) = u64 (ld64 (ram s) (reboot_counter e) + 1);
  am_rest : agree_on (untouched e) (ram s) (ram s');
  am_bus (P : D -> Prop) : OffScreen P -> P d -> P d'
}.

Lemma start_spec e s d : counter_ok (reboot_counter e) -> Z.testbit (rflags s) 10 = false ->
  at_kernel_main e s d (fst (_start e (s, d))) (snd (_start e (s, d))).
Proof.
  intros Hc Hd. destruct (init_screen_spec s d Hd) as [[[A1 A2 (_ & A3 & A4)] A5] [A6 A7]]. cbn [fst snd] in *.
  unfold _start. change ((init_screen >>> on_cpu (call_kernel e)) (s, d)) with (on_cpu (call_kernel e) (init_screen (s, d))).
  revert A1 A2 A3 A4 A5 A6 A7. generalize (init_screen (s, d)) as x. intros [s1 d1] A1 A2 A3 A4 A5 A6 A7.
  unfold on_cpu. cbn [fst snd] in *. unfold mov_imm in A2. rewrite gpr_set_eq in A2. cbn [mov_imm set_reg cli set_flags ram rflags pc] in A1, A3, A4.
  destruct (call_kernel_spec e s1 Hc A2) as (K1 & K2 & K3 & K4 & K5 & K6 & K7). cbv zeta in *. destruct Hc as [C1 C2].
  revert K1 K2 K3 K4 K5 K6 K7. generalize (call_kernel e s1) as s2. intros s2 K1 K2 K3 K4 K5 K6 K7. split; try done.
  - rewrite K3, A3. by apply Z.clearbit_eq.
  - congruence.
  - intros i Hi. rewrite <- (filled_blank (ram s1) i A6 Hi). unfold ld16. apply ld_agree. intros x Hx. apply K7. lia.
  - rewrite K6. f_equal. f_equal. apply (ld64_outside _ _ _ _ _ A1). lia.
  - intros x (U1 & U2 & U3). rewrite (K7 x) by lia. apply A1. lia.
Qed.

(** C40: [kernel_main] is called on a screen of 2000 blank cells with the cursor in the
    first one, whatever patterns went before, with interrupts off, an empty stack
    below 0x500000 aligned as the calling convention wants it, and the counter one
    higher; no other byte of memory changes, and no device but the screen's. *)
Theorem start_calls_kernel_main e s d : counter_ok (reboot_counter e) -> Z.testbit (rflags s) 10 = false ->
  at_kernel_main e s d (fst (_start e (s, d))) (snd (_start e (s, d))).
Proof. apply start_spec. Qed.

End start.

(** ** The kernel from its first instruction on *)
Section boot.
  Context {D : Type} `{!PortBus D, !Pic.Pic8259 D}.

(** The console [vga.c] starts with: the screen is memory, the variables are initialised. *)
Definition boot_console (s : machine) (d : D) : con D :=
  Con (vga_boot (Mem (fun i => ld16 (ram s) (0xB8000 + 2 * i)) ∅)) d.

(** C8: the kernel starts: from the contract of a boot loader at 0x100000, the image with
    its zeroed [.bss], the map and the page tables in memory, [_start] calls
    [kernel_main] on the unchanged image but for the counter, and [kernel_main], on the
    memory, the screen and the devices [_start] leaves, initialises everything and
    reaches the shell with the tenth tick of the timer, on a console that is still
    blank and whose cursor is the screen's. *)
Theorem entry_boots im t e s (d : D) (early env : list (interrupt (D := D))) :
  handed_over t (ram s) -> counter_ok (reboot_counter e) -> Z.testbit (rflags s) 10 = false ->
  image_ok im -> Pic.operational d ->
  Forall (fun i => idle_interrupt i /\ i_irq i <> 0) early -> Forall idle_interrupt env -> 10 <= ticks env ->
  let '(s', d') := _start e (s, d) in
  rip s' = kernel_main_at e /\
  (forall x, 0x100000 <= x < 0x4FFFF8 -> ~ reboot_counter e <= x < reboot_counter e + 8 -> rd (ram s') x = rd (ram s) x) /\
  let k := boot_console s' d' in
  (forall i, 0 <= i < 2000 -> cell (vga_buffer (scr k)) i = 0x0720) /\
  (forall C : Crtc D, hw_cursor (bus k) = vga_cursor_y (scr k) * VGA_WIDTH + vga_cursor_x (scr k)) /\
  let y := boot_sys (ram s') t k (pc s') in
  kernel_started im t (kernel_init im y) /\
  exists env' (z : sys (A := pmm) (D := D)), kernel_main im early env y = (Some (shell_frame, env'), z) /\
    ticks env = ticks env' + 10 /\ current_task (tk (ks z)) = shell_tcb /\ kernel_ok (ks z) /\
    exists r, frame_at shell_frame (ks z) = Some r /\ Isr.rip r = shell_task im.
Proof.
  intros Hh Hc Hf Him Hop He Henv Ht. pose proof (start_spec e s d Hc Hf) as Hs.
  destruct (_start e (s, d)) as [s' d']. cbn [fst snd] in Hs. pose proof (am_rest _ _ _ _ _ Hs) as Hr. destruct Hc as [C1 C2].
  split; [apply Hs|]. split; [intros x Hx Hne; apply Hr; unfold untouched; lia|]. cbv zeta. split; [|split; [|]].
  - intros i Hi. unfold boot_console, cell, mem_get, vga_boot. cbn [scr vga_buffer mem_upd mem_init].
    rewrite lookup_empty, (am_cells _ _ _ _ _ Hs i Hi). reflexivity.
  - intros C. exact (am_cursor _ _ _ _ _ Hs C).
  - assert (Hh' : handed_over t (ram s')).
    { eapply handed_over_agree; [exact Hh|]. eapply agree_on_weaken; [|exact Hr]. intros x Hx. cbv beta in Hx. unfold untouched. lia. }
    assert (Ho : Pic.operational (bus (boot_console s' d'))) by exact (am_bus _ _ _ _ _ Hs Pic.operational operational_off Hop).
    split; [by apply kernel_init_started|].
    destruct (kernel_main_effect im t (ram s') (boot_console s' d') (pc s') early env Him Hh' Ho He Henv Ht)
      as (env' & z & Z1 & Z2 & Z3 & _ & Z5 & r & Z6 & Z7 & _).
    exists env', z. split; [exact Z1|]. split; [exact Z2|]. split; [exact Z3|]. split; [exact Z5|]. by exists r.
Qed.

End boot.

(** ** Witnesses *)
Import Ports.SimBus.

Definition some_entry : entry_labels := EntryLabels 0x10B180 0x100140 0x101000 0x1000F0 0x1000F5.

(** A processor at [_start], with the stack of stage 2. *)
Definition some_start : machine :=
  Machine (fun r => if decide (r = RSP) then 0x8FFF8 else 0x1234) 0x100000 0x202 some_cpu (Mem (fun i => i) ∅).

Lemma start_calls_kernel_main_witness :
  let x := _start some_entry (some_start, CrtcBus 0 (fun _ => 0xFF)) in
  rip (fst x) = 0x101000 /\ ld16 (ram (fst x)) (0xB8000 + 2 * 1999) = 0x0720 /\ hw_cursor (snd x) = 0.
Proof.
  cbv zeta. destruct (start_calls_kernel_main some_entry some_start (CrtcBus 0 (fun _ => 0xFF))) as [H1 _ _ _ _ H2 H3 _ _ _];
    [unfold counter_ok; cbn [reboot_counter some_entry]; lia|reflexivity|].
  split; [exact H1|]. split; [exact (H2 1999 ltac:(lia))|exact (H3 crtc_crtc)].
Defined.

(** The machine as a loader with its tables at 0x9000 leaves it, and the simulated bus. *)
Definition loaded_start : machine :=
  Machine (fun r => if decide (r = RSP) then 0x8FFF8 else 0x1234) 0x100000 0x202 some_cpu some_mem.

Lemma entry_boots_witness :
  let '(s', d') := _start some_entry (loaded_start, bios_bus) in
  rip s' = 0x101000 /\
  exists env' z, kernel_main some_image [press 0x1E] (repeat tick 11)
    (boot_sys (ram s') 0x9000 (boot_console s' d') (pc s')) = (Some (shell_frame, env'), z).
Proof.
  pose proof (entry_boots some_image 0x9000 some_entry loaded_start bios_bus [press 0x1E] (repeat tick 11)) as H.
  destruct (_start some_entry (loaded_start, bios_bus)) as [s' d'].
  destruct H as (H1 & _ & _ & _ & _ & env' & z & E & _);
    [exact some_mem_handed|unfold counter_ok; cbn [reboot_counter some_entry]; lia|reflexivity
    |exact some_image_ok|exact bios_bus_operational|repeat constructor; done|repeat constructor; done|by vm_compute|].
  split; [exact H1|]. by exists env', z.
Defined.

End Entry.
