(* ===== verification/UserTest.v ===== *)
(** * The test of user mode ([commands/usertest.c])

    The command that maps two pages for ring 3, copies a program there and jumps
    to it: what it does to the page tables, and what the program does. *)

From S2P Require Import Prelude CString Ports Vga Frames Pmm Mmu Vmm Heap Boot KHeap Isr Task Keyboard Interrupts Desc Syscall Commands MemTest.
Import Vga Mmu BumpFrames Vmm Interrupts Commands MemTest.
Local Open Scope Z_scope.
Local Open Scope kios_scope.

Module UserTest.

(** The program: [lea rsi, [rip+34]], [mov rax, 1], [mov rdi, 1], [mov rdx, 14],
    [syscall], [mov rax, 0], [syscall], [jmp $], and the text with its NUL. *)
Definition user_code : list Z := [
  0x48; 0x8d; 0x35; 0x22; 0x00; 0x00; 0x00;
  0x48; 0xc7; 0xc0; 0x01; 0x00; 0x00; 0x00;
  0x48; 0xc7; 0xc7; 0x01; 0x00; 0x00; 0x00;
  0x48; 0xc7; 0xc2; 0x0e; 0x00; 0x00; 0x00;
  0x0f; 0x05;
  0x48; 0xc7; 0xc0; 0x00; 0x00; 0x00; 0x00;
  0x0f; 0x05;
  0xeb; 0xfe] ++ str "Hello Ring 3!" ++ [10; 0].

Definition USER_CODE_VADDR : Z := 0x400000.
Definition USER_STACK_VADDR : Z := 0x800000.

Section usertest.
  Context {A : Type} `{!FrameAllocator A} {D : Type} `{!PortBus D}.
  Notation sys := (sys (A := A) (D := D)).
  Notation vm := (vm (A := A) (D := D)).

(** [memcpy] to the user's page, through the page tables. *)
Definition copy_code (s : sys) : flow * sys :=
  try_range 0 (Z.of_nat (length user_code)) (fun j s =>
    match store8 (u64 (USER_CODE_VADDR + j)) (nth (Z.to_nat j) user_code 0) s with
    | None => (Leave (Some (Exception 14)), s)
    | Some s => (Next, s)
    end) s.

(** [cmd_usertest]; [l] has the place of the TSS, the others are the addresses of
    [cpu_data] and [secure_kernel_stack]. *)
Definition cmd_usertest (l : Desc.layout) (cpu_data secure_kernel_stack : Z) (args : list Z) (s : sys)
    : option stop * sys :=
  let '(code_phys, s) := alloc_page s in
  let '(stack_phys, s) := alloc_page s in
  if (code_phys =? 0) || (stack_phys =? 0) then (None, cons (outln "ERROR: Memory allocation failed!") s)
  else
    let flags := Z.lor (Z.lor PAGE_PRESENT PAGE_WRITE) PAGE_USER in
    let s := map_page USER_CODE_VADDR code_phys flags s in
    let s := map_page USER_STACK_VADDR stack_phys flags s in
    match copy_code s with
    | (Leave e, s) => (e, s)
    | (Next, s) =>
        let user_stack_top := USER_STACK_VADDR + 4096 - 16 in
        let k_stack_top := u64 (secure_kernel_stack + 8192) in
        let s := set_vms (set_ram (Desc.tss_set_kernel_stack l k_stack_top (ram (vms s))) (vms s)) s in
        let s := set_vms (set_ram (Syscall.syscall_set_kernel_stack cpu_data k_stack_top (ram (vms s))) (vms s)) s in
        let s := set_vms (vmm_set_cr3 (vmm_get_cr3 (vms s)) (vms s)) s in
        (Some (UserMode USER_CODE_VADDR user_stack_top), s)
    end.

(** ** Mapping inside a 2 MB page, for user mode *)

Lemma lor_user_big e : 0 <= e -> Z.lor e PAGE_USER - Z.lor e PAGE_USER mod 2 ^ 21 = e - e mod 2 ^ 21.
Proof.
  intros He. unfold PAGE_USER. rewrite Z.shiftl_1_l. rewrite <- !land_lnot_ones by lia. zbit n Hn.
  rewrite Z.pow2_bits_eqb by lia. change (2 ^ 21 - 1) with (Z.ones 21).
  destruct (Z.eqb_spec 2 n) as [<-|]; [by rewrite !andb_false_r|by rewrite orb_false_r].
Qed.

(** Following an entry that is there takes no frame. *)
Lemma next_table_free tab K root st t p i create flags pf :
  vm_inv tab K root st -> tab t = Some p -> 0 <= i < 512 -> present (entry (snd st) t i) = true ->
  forall f, fa_is_free (snd (next_table create flags pf t i st)) f <-> fa_is_free st f.
Proof.
  intros Hinv Ht Hi Hp f. unfold next_table. rewrite has_present. fold (entry (snd st) t i). rewrite Hp. cbn [negb].
  destruct st as [a m]. cbn [fst snd] in *. fold (entry m t i). destruct (_ && _); [|done].
  assert (Hb : 0 <= entry m t i < 2 ^ 52).
  { split; [apply entry_range|by apply (tree_bound _ _ _ (vi_tree _ _ _ _ Hinv) t p)]. }
  destruct (lor_user _ Hb) as (U1 & _).
  by destruct (inv_store tab K root a m t p i (Z.lor (entry m t i) PAGE_USER) Hinv Ht Hi ltac:(lia)) as (_ & S2 & _).
Qed.

(** The last level of the walk, at an entry that maps 2 MB. *)
Lemma next_table_big tab K root st t v flags e :
  vm_inv tab K root st -> reach (user_if flags) (snd st) root (take 2 (vpath v)) t ->
  e = entry (snd st) t (ix 2 v) -> present e = true -> big 2 e = true -> has flags PAGE_USER = true ->
  exists m' e', next_table true flags (parent_flags_of flags) t (ix 2 v) st = (Some (child e), (fst st, m')) /\
    vm_inv tab K root (fst st, m') /\ agree_on K (snd st) m' /\ fa_count (fst st, m') = fa_count st /\
    reach (user_if flags) m' root (take 2 (vpath v)) t /\
    user e' = true /\ child e' = child e /\ e' - e' mod 2 ^ 21 = e - e mod 2 ^ 21 /\
    leaf 4 m' root v = Some (2%nat, e') /\
    forall v', take 3 (vpath v') <> take 3 (vpath v) -> leaf 4 m' root v' = leaf 4 (snd st) root v'.
Proof.
  intros Hinv Hr He Hp Hb Hf. pose proof (vi_tree _ _ _ _ Hinv) as HT.
  pose proof (reach_tab _ _ _ _ _ _ HT Hr) as Ht. pose proof (ix_range 2 v) as Hi.
  assert (Hl : forall Q m', reach Q m' root (take 2 (vpath v)) t -> forall e', entry m' t (ix 2 v) = e' ->
    present e' = true -> big 2 e' = true -> leaf 4 m' root v = Some (2%nat, e')).
  { intros Q m' Hr' e' E1 E2 E3. rewrite (leaf_reach Q m' root v 2 t Hr') by lia. cbn [leaf Nat.sub].
    by rewrite E1, E2, E3. }
  assert (He52 : 0 <= e < 2 ^ 52).
  { subst e. split; [apply entry_range|by apply (tree_bound _ _ _ HT t _ _ Ht)]. }
  unfold next_table. rewrite has_present. fold (entry (snd st) t (ix 2 v)). rewrite <- He, Hp. cbn [negb].
  destruct st as [a m]. cbn [fst snd] in *. fold (entry m t (ix 2 v)). rewrite <- He, Hf, has_user. cbn [andb].
  destruct (user e) eqn:Eu; cbn [negb].
  - exists m, e. fold (entry m t (ix 2 v)). rewrite <- He, frame_bits_child by lia. split_and!; try done.
    by apply (Hl (user_if flags)).
  - destruct (lor_user e He52) as (U1 & U2 & U3 & U4 & U5). set (e' := Z.lor e PAGE_USER) in *.
    destruct (inv_store tab K root a m t _ (ix 2 v) e' Hinv Ht Hi ltac:(lia)) as (_ & _ & S3 & S4 & S5).
    set (m' := st64 m (t + 8 * ix 2 v) e') in *.
    assert (En : entry m' t (ix 2 v) = e').
    { rewrite (S5 t _ _ Ht Hi). by rewrite decide_True. }
    assert (Hb' : big 2 e' = true) by (unfold big in *; by rewrite U5).
    assert (Hr' : reach (user_if flags) m' root (take 2 (vpath v)) t).
    { apply (reach_stable _ tab m m' root _ t 2 HT Hr); [cbn; lia|].
      intros t' p' i' H' Hlt Hi'. rewrite (S5 t' p') by done. case_decide as E; [|done].
      injection E as <- <-. rewrite Ht in H'. injection H' as <-. cbn in Hlt. lia. }
    exists m', e'. fold (entry m' t (ix 2 v)). rewrite En, frame_bits_child, U2 by lia.
    split_and!; try done.
    + apply (inv_store_ok tab K root a m t _ (ix 2 v) e' Hinv Ht Hi ltac:(lia)). intros _. split; [lia|].
      intros _ Hnb. cbn in Hnb. unfold big in Hb'. cbn in Hb'. congruence.
    + apply lor_user_big. lia.
    + apply (Hl (user_if flags)); [done|done|by rewrite U3|done].
    + intros v' Hv. apply (leaf_update tab m m' root t _ (ix 2 v) HT Ht).
      * intros t' p' i' H' Hi' Hne. rewrite (S5 t' p') by done. case_decide; congruence.
      * intros E. exfalso. apply Hv. exact E.
Qed.

(** The levels above the one that maps 2 MB. *)
Lemma big_above Q m root v e k t :
  leaf 4 m root v = Some (2%nat, e) -> reach Q m root (take k (vpath v)) t -> (k < 2)%nat ->
  present (entry m t (ix (4 - k) v)) = true /\ big (4 - k) (entry m t (ix (4 - k) v)) = false.
Proof.
  intros Hl Hr Hk. rewrite (leaf_reach _ _ _ _ _ _ Hr) in Hl by lia. destruct k as [|[|]]; [| |lia];
    cbn [leaf Nat.sub Nat.eqb orb] in Hl |- *; (destruct (present _); [cbn [negb] in Hl|done]).
  - done.
  - by destruct (big 3 _).
Qed.

Lemma level_above tab K root st v e k t flags :
  vm_inv tab K root st -> leaf 4 (snd st) root v = Some (2%nat, e) -> 1 <= fa_count st -> (k < 2)%nat ->
  reach (user_if flags) (snd st) root (take k (vpath v)) t ->
  exists t' st' tab', next_table true flags (parent_flags_of flags) t (ix (4 - k) v) st = (Some t', st') /\
    grown K root 1 tab tab' st st' /\ reach (user_if flags) (snd st') root (take (S k) (vpath v)) t' /\
    leaf 4 (snd st') root v = Some (2%nat, e) /\ forall f, fa_is_free st' f <-> fa_is_free st f.
Proof.
  intros Hinv Hl Hc Hk Hr. destruct (big_above _ _ _ _ _ _ _ Hl Hr Hk) as [Hp Hb].
  assert (El : length (take k (vpath v)) = k) by (destruct k as [|[|]]; (done || lia)).
  pose proof (next_table_create tab K root st t _ (ix (4 - k) v) flags Hinv Hr) as H. rewrite El in H.
  specialize (H ltac:(lia) (ix_range _ _) (fun _ => Hb)).
  pose proof (next_table_free tab K root st t _ (ix (4 - k) v) true flags (parent_flags_of flags) Hinv
    (reach_tab _ _ _ _ _ _ (vi_tree _ _ _ _ Hinv) Hr) (ix_range _ _) Hp) as Hf.
  destruct (next_table _ _ _ t _ st) as [[t'|] st']; [|destruct H as [_ H]; lia].
  destruct H as (tab' & G & R). exists t', st', tab'. do 2 (split; [done|]).
  split; [by destruct k as [|[|]]; [| |lia]|]. split; [by rewrite (gr_leaf _ _ _ _ _ _ _ G)|done].
Qed.

(** The walk of [vmm_map_page] for an address in a 2 MB page. *)
Lemma get_pte_big_user K (s : vm) v flags e :
  vm_ok K s -> leaf 4 (ram s) (current_pml4_phys s) v = Some (2%nat, e) -> 2 <= fa_count (frames s) ->
  has flags PAGE_USER = true ->
  exists s' e', vmm_get_pte_flags v true flags s = (Some (child e + 8 * ix 1 v), s') /\
    s' = set_frames (frames s') s /\ vm_ok K s' /\ agree_on K (ram s) (ram s') /\
    fa_count (frames s) - 2 <= fa_count (frames s') /\ (forall f, fa_is_free (frames s') f <-> fa_is_free (frames s) f) /\
    user e' = true /\ child e' = child e /\ e' - e' mod 2 ^ 21 = e - e mod 2 ^ 21 /\
    leaf 4 (ram s') (current_pml4_phys s) v = Some (2%nat, e') /\
    (forall v', take 3 (vpath v') <> take 3 (vpath v) ->
       leaf 4 (ram s') (current_pml4_phys s) v' = leaf 4 (ram s) (current_pml4_phys s) v') /\
    forall v' e1, take 2 (vpath v') = take 2 (vpath v) ->
      leaf 4 (ram s') (current_pml4_phys s) v' = Some (2%nat, e1) -> user e1 = true ->
      user_walk 4 (ram s') (current_pml4_phys s) v' = true.
Proof.
  intros [tab Hinv] Hl Hc Hf. unfold vmm_get_pte_flags. cbv zeta. destruct (index_ix v) as (-> & -> & -> & ->).
  unfold ram in *. set (root := current_pml4_phys s) in *. set (st0 := frames s) in *.
  destruct (level_above tab K root st0 v e 0 root flags Hinv Hl ltac:(lia) ltac:(lia) (reach_nil _ _ _))
    as (t1 & st1 & tab1 & E1 & G1 & R1 & Hl1 & F1). change (4 - 0)%nat with 4%nat in E1. rewrite E1. clear E1.
  pose proof (gr_count _ _ _ _ _ _ _ G1) as C1.
  destruct (level_above tab1 K root st1 v e 1 t1 flags (gr_inv _ _ _ _ _ _ _ G1) Hl1 ltac:(lia) ltac:(lia) R1)
    as (t2 & st2 & tab2 & E2 & G2 & R2 & Hl2 & F2). change (4 - 1)%nat with 3%nat in E2. rewrite E2. clear E2.
  pose proof (gr_count _ _ _ _ _ _ _ G2) as C2. pose proof (grown_trans _ _ _ _ _ _ _ _ _ _ G1 G2) as G12.
  pose proof Hl2 as Hl2'. rewrite (leaf_reach _ _ _ _ _ _ R2) in Hl2' by lia. cbn [leaf Nat.sub Nat.eqb orb] in Hl2'.
  destruct (present (entry (snd st2) t2 (ix 2 v))) eqn:Ep; [|done]. cbn [negb] in Hl2'.
  destruct (big 2 (entry (snd st2) t2 (ix 2 v))) eqn:Eb; [|by destruct (present (entry (snd st2) (child _) (ix 1 v)))].
  injection Hl2' as Ee. symmetry in Ee.
  pose proof (next_table_free tab2 K root st2 t2 _ (ix 2 v) true flags (parent_flags_of flags) (gr_inv _ _ _ _ _ _ _ G2)
    (reach_tab _ _ _ _ _ _ (vi_tree _ _ _ _ (gr_inv _ _ _ _ _ _ _ G2)) R2) (ix_range _ _) Ep) as F3.
  destruct (next_table_big tab2 K root st2 t2 v flags e (gr_inv _ _ _ _ _ _ _ G2) R2 Ee) as
    (m' & e' & E3 & I1 & I2 & I3 & I4 & I5 & I6 & I7 & I8 & I9); [by rewrite Ee|by rewrite Ee|done|].
  rewrite E3 in F3 |- *. exists (set_frames (fst st2, m') s), e'. cbn [set_frames frames snd].
  split; [done|]. split; [done|]. split; [by exists tab2|].
  split; [eapply agree_on_trans; [apply (gr_kept _ _ _ _ _ _ _ G12)|exact I2]|]. split; [lia|].
  split; [intros f; by rewrite F3, F2, F1|]. do 4 (split; [done|]). split.
  - intros v' Hv. rewrite I9 by done. apply (gr_leaf _ _ _ _ _ _ _ G12).
  - intros v' e1 Hv He1 Hu.
    assert (Hru : reach (fun e => user e = true) m' root (take 2 (vpath v')) t2).
    { rewrite Hv. eapply reach_weaken; [|exact I4]. intros x Hx. by apply Hx. }
    rewrite (user_reach _ _ _ 2 _ Hru) by lia. rewrite (leaf_reach _ _ _ _ 2 _ Hru) in He1 by lia.
    cbn [leaf user_walk Nat.sub Nat.eqb orb] in He1 |- *.
    destruct (present (entry m' t2 (ix 2 v'))); [|done]. cbn [negb] in He1.
    destruct (big 2 (entry m' t2 (ix 2 v'))).
    + injection He1 as ->. by rewrite Hu.
    + by destruct (present (entry m' (child _) (ix 1 v'))).
Qed.

(** ** The two big pages *)

Definition region (c u : Z) : Prop := c <= u < c + 0x200000.

Lemma region_path c u : c = USER_CODE_VADDR \/ c = USER_STACK_VADDR -> region c u ->
  take 3 (vpath u) = take 3 (vpath c) /\ u mod 2 ^ 21 = u - c.
Proof.
  intros Hc Hu. unfold region in Hu. unfold vpath, ix. cbn [take].
  change (2 ^ (12 + 9 * (Z.of_nat 4 - 1))) with 549755813888. change (2 ^ (12 + 9 * (Z.of_nat 3 - 1))) with 1073741824.
  change (2 ^ (12 + 9 * (Z.of_nat 2 - 1))) with 2097152. change (2 ^ 21) with 2097152.
  destruct Hc as [-> | ->]; unfold USER_CODE_VADDR, USER_STACK_VADDR in *; split; try dlia;
    (f_equal; [dlia|f_equal; [dlia|f_equal; dlia]]).
Qed.

Lemma leaf_same_big m root v v' e :
  take 3 (vpath v') = take 3 (vpath v) -> leaf 4 m root v = Some (2%nat, e) -> leaf 4 m root v' = Some (2%nat, e).
Proof.
  intros E. injection E as E4 E3 E2. cbn [leaf]. rewrite E4, E3, E2. intros H.
  destruct (present _); [cbn [negb Nat.eqb orb] in *|done]. change (big 4 _) with false in *. cbv iota in *.
  destruct (present _); [cbn [negb Nat.eqb orb] in *|done]. destruct (big 3 _); [done|].
  destruct (present _); [cbn [negb Nat.eqb orb] in *|done]. destruct (big 2 _); [done|].
  by destruct (negb _).
Qed.

(** An address of a region, from the entry that maps it. *)
Lemma region_translate m root c u e :
  c = USER_CODE_VADDR \/ c = USER_STACK_VADDR -> region c u ->
  leaf 4 m root c = Some (2%nat, e) -> child e = c -> translate m root u = Some u.
Proof.
  intros Hc Hu Hl He. destruct (region_path c u Hc Hu) as [Hp Hm].
  unfold translate. rewrite (leaf_same_big m root c u e Hp Hl). cbn [option_map]. f_equal. unfold phys_of.
  change (12 + 9 * (Z.of_nat (fst (2%nat, e)) - 1)) with 21. cbn [snd]. rewrite Hm.
  unfold child in He. change (2 ^ 12) with 4096 in He. change (2 ^ 21) with 2097152 in *.
  destruct Hc as [-> | ->]; unfold USER_CODE_VADDR, USER_STACK_VADDR in *; dlia.
Qed.

(** ** The command *)
Section opens.
  Context (K0 W : Z -> Prop) (s0 : sys).
  Notation root := (current_pml4_phys (vms s0)).
  Implicit Types (st : A * mem) (s : sys).

(** At least [n] free frames, the translations as at the beginning, the memory of
    [K0] too but for [W], which no table or bitmap uses; both regions mapped by big
    pages. *)
Record intact (K : Z -> Prop) (n : Z) st : Prop := {
  in_count : n <= fa_count st;
  in_trans u : translate (snd st) root u = translate (ram (vms s0)) root u;
  in_big c : c = USER_CODE_VADDR \/ c = USER_STACK_VADDR -> exists e, leaf 4 (snd st) root c = Some (2%nat, e) /\ child e = c;
  in_mem : agree_on (fun x => K0 x /\ ~ W x) (ram (vms s0)) (snd st);
  in_spare x : W x -> spare K st x
}.

(** The big page of [c] has its USER bit; every level on the way has. *)
Definition opened (c : Z) st : Prop := exists e, leaf 4 (snd st) root c = Some (2%nat, e) /\ user e = true.
Definition usable (c : Z) st : Prop := forall u, region c u -> user_walk 4 (snd st) root u = true.

Lemma ut_alloc K n k s :
  holds s0 K (intact K n) k s -> 0 < n -> (forall x, K0 x -> K x) ->
  exists p s1, alloc_page s = (p, s1) /\ 0 < p /\ p + 4096 <= 2 ^ 52 /\ holds s0 (and_frame K p) (intact (and_frame K p) (n - 1)) k s1.
Proof.
  intros H Hn HK. destruct (ho_q _ _ _ _ _ H) as [Q1 Q2 Q3 Q4 Q5]. unfold alloc_page.
  pose proof (alloc_kept _ (vms s) (ho_ok _ _ _ _ _ H) ltac:(lia)) as Ha.
  destruct (ho_ok _ _ _ _ _ H) as [tab Hinv]. pose proof (fa_alloc_some _ (vi_fa _ _ _ _ Hinv) ltac:(lia)) as Hf.
  destruct (fa_alloc (frames (vms s))) as [p st]. destruct Hf as (_ & _ & _ & Hf & _). destruct Ha as (A1 & A2 & A3 & _ & A5 & A6 & A7 & _ & _ & A10).
  rewrite (ho_root _ _ _ _ _ H) in A10. change (ram (set_frames st (vms s))) with (snd st) in A6, A10.
  fold (ram (vms s)) in Q2, Q3, Q4. eexists p, _. do 3 (split; [done|]).
  eapply holds_step; [exact H|exact A5| |done|done|apply H]. split; cbn [frames set_frames]; [lia| | | |].
  - intros u. rewrite <- Q2. unfold translate. by rewrite A10.
  - intros c Hc. destruct (Q3 c Hc) as (e & He & Hce). exists e. by rewrite A10.
  - eapply agree_on_trans; [exact Q4|]. eapply agree_on_weaken; [|exact A6]. intros x [Hx _]. by apply HK.
  - intros x [Hx|(f & Hx & Hin)]%Q5; [by left; left|]. destruct (decide (f = p)) as [->|Hne]; [by left; right|].
    right. exists f. split; [by apply Hf|done].
Qed.

Lemma region_prefix c c' u : c = USER_CODE_VADDR \/ c = USER_STACK_VADDR ->
  c' = USER_CODE_VADDR \/ c' = USER_STACK_VADDR -> region c' u -> take 2 (vpath u) = take 2 (vpath c).
Proof.
  intros Hc Hc' Hu. destruct (region_path c' u Hc' Hu) as [Hp _].
  assert (E : take 2 (vpath u) = take 2 (vpath c')) by exact (f_equal (take 2) Hp). rewrite E.
  by destruct Hc as [-> | ->], Hc' as [-> | ->].
Qed.

(** One of the two calls of [vmm_map_page]; after the second both regions are open. *)
Lemma ut_map K n k s c phys :
  holds s0 K (fun st => intact K n st /\ (c = USER_STACK_VADDR -> opened USER_CODE_VADDR st)) k s ->
  2 <= n -> c = USER_CODE_VADDR \/ c = USER_STACK_VADDR ->
  (forall x, c <= x < c + 8 -> W x) -> (forall x, K0 x -> K x) -> 0 < phys -> phys + 4096 <= 2 ^ 52 ->
  holds s0 K (fun st => intact K (n - 2) st /\ opened c st /\
      (c = USER_STACK_VADDR -> usable USER_CODE_VADDR st /\ usable USER_STACK_VADDR st)) k
    (map_page c phys (Z.lor (Z.lor PAGE_PRESENT PAGE_WRITE) PAGE_USER) s).
Proof.
  intros H Hn Hc HcW HK Hp1 Hp2. destruct (ho_q _ _ _ _ _ H) as [[Q1 Q2 Q3 Q4 Qs] Q5].
  destruct (Q3 c Hc) as (e & He & Hce). pose proof (ho_root _ _ _ _ _ H) as Hr. rewrite <- Hr in He.
  unfold map_page, vmm_map_page. set (flags := Z.lor _ PAGE_USER).
  destruct (get_pte_big_user K (vms s) c flags e (ho_ok _ _ _ _ _ H) He ltac:(lia) eq_refl)
    as (s1 & e' & -> & E1 & B1 & B2 & B3 & Bf & B4 & B5 & B6 & B7 & B8 & B9).
  rewrite Hr in B7, B8, B9. rewrite Hce in *.
  assert (Hr1 : current_pml4_phys s1 = root /\ cr3 s1 = cr3 (vms s) /\ kcon s1 = kcon (vms s)) by (by rewrite E1).
  destruct Hr1 as (R1 & R2 & R3). clear E1.
  replace (c + 8 * ix 1 c) with c by (destruct Hc as [-> | ->]; reflexivity).
  set (m' := st64 (ram s1) c _).
  assert (Hm : agree_on (fun x => ~ c <= x < c + 8) (ram s1) m').
  { eapply agree_on_weaken; [|apply st64_only_in]. intros x Hx. cbv beta in *. lia. }
  assert (Hs1 : forall x, W x -> spare K (frames s1) x).
  { intros x [Hx|(f & Hx & Hin)]%Qs; [by left|right; exists f; by rewrite Bf]. }
  destruct (spare_write K s1 m' B1) as (W1 & W2 & Wf & W3 & W4).
  { eapply agree_on_weaken; [|exact Hm]. intros x Hx Hin. by apply Hx, Hs1, HcW. }
  rewrite R1 in W3, W4.
  assert (Hopen : forall c' u e1, c' = USER_CODE_VADDR \/ c' = USER_STACK_VADDR -> region c' u ->
    leaf 4 (ram s1) root c' = Some (2%nat, e1) -> user e1 = true -> user_walk 4 m' root u = true).
  { intros c' u e1 Hc' Hu Hl Hue. rewrite W4. apply (B9 u e1); [by apply (region_prefix c c')| |done].
    apply (leaf_same_big _ _ c'); [by apply region_path|done]. }
  eapply holds_step; [exact H| | |exact (eq_trans R1 (eq_sym Hr))|done|rewrite <- (ho_con _ _ _ _ _ H); exact R3].
  { eapply Heap.vm_ok_same; [| |exact W1]; done. }
  change (frames (vmm_invlpg c (set_ram m' s1))) with (fst (frames s1), m') in *.
  assert (Hl : forall u, leaf 4 m' root u = leaf 4 (ram (vms s)) root u \/
    leaf 4 m' root u = Some (2%nat, e') /\ leaf 4 (ram (vms s)) root u = Some (2%nat, e)).
  { intros u. rewrite W3. destruct (decide (take 3 (vpath u) = take 3 (vpath c))) as [E|E]; [right|left; by apply B8].
    rewrite Hr in He. split; by apply (leaf_same_big _ _ c). }
  split; [split; cbn [snd]|split; [exists e'; cbn [snd]; by rewrite W3|]].
  - change (frames (set_ram m' s1)) with (fst (frames s1), m') in W2. lia.
  - intros u. rewrite <- Q2. fold (ram (vms s)). unfold translate. destruct (Hl u) as [-> |[-> ->]]; [done|].
    cbn [option_map]. f_equal. unfold phys_of. cbn [fst snd].
    change (12 + 9 * (Z.of_nat 2 - 1)) with 21. by rewrite B6.
  - intros c' Hc'. destruct (Q3 c' Hc') as (e2 & He2 & Hce2). fold (ram (vms s)) in He2.
    destruct (Hl c') as [E|[E1 E2]]; [exists e2; by rewrite E|]. exists e'. split; [done|]. rewrite B5.
    congruence.
  - eapply agree_on_trans; [exact Q4|]. eapply agree_on_trans; [eapply agree_on_weaken; [|exact B2]|].
    + intros x [Hx _]. by apply HK.
    + eapply agree_on_weaken; [|exact Hm]. intros x [_ Hx] Hin. by apply Hx, HcW.
  - intros x [Hx|(f & Hx & Hin)]%Hs1; [by left|right; exists f; split; [by apply Wf|done]].
  - intros ->. destruct (Q5 eq_refl) as (e1 & He1 & Hue). fold (ram (vms s)) in He1. split; intros u Hu; cbn [snd].
    + apply (Hopen USER_CODE_VADDR u e1); [by left|done| |done]. by rewrite B8.
    + by apply (Hopen USER_STACK_VADDR u e').
Qed.

Definition open_both K (n : Z) st : Prop := intact K n st /\ usable USER_CODE_VADDR st /\ usable USER_STACK_VADDR st.

(** A write to memory of [W]. *)
Lemma ut_write K n k s m' :
  holds s0 K (open_both K n) k s -> agree_on (fun x => ~ W x) (ram (vms s)) m' ->
  holds s0 K (open_both K n) k (set_vms (set_ram m' (vms s)) s).
Proof.
  intros H Hm. destruct (ho_q _ _ _ _ _ H) as ([Q1 Q2 Q3 Q4 Q7] & Q5 & Q6).
  destruct (spare_write K (vms s) m' (ho_ok _ _ _ _ _ H)) as (W1 & W2 & Wf & W3 & W4).
  { eapply agree_on_weaken; [|exact Hm]. intros x Hx Hin. by apply Hx, Q7. }
  rewrite (ho_root _ _ _ _ _ H) in W3, W4.
  eapply holds_step; [exact H|exact W1| |done|done|apply H].
  change (frames (set_ram m' (vms s))) with (fst (frames (vms s)), m') in *. fold (ram (vms s)) in Q2, Q3, Q4.
  split; [split; cbn [snd]|split; intros u Hu; cbn [snd]; rewrite W4].
  - lia.
  - intros u. rewrite <- Q2. unfold translate. by rewrite W3.
  - intros c Hc. rewrite W3. by apply Q3.
  - eapply agree_on_trans; [exact Q4|]. eapply agree_on_weaken; [|exact Hm]. by intros x [_ Hx].
  - intros x [Hx|(f & Hx & Hin)]%Q7; [by left|right; exists f; split; [by apply Wf|done]].
  - by apply Q5.
  - by apply Q6.
Qed.

Definition has_code (j : Z) (m : mem) : Prop :=
  forall i, 0 <= i < j -> rd m (USER_CODE_VADDR + i) = nth (Z.to_nat i) user_code 0.

Lemma user_code_bytes i : 0 <= i < 56 -> 0 <= nth (Z.to_nat i) user_code 0 < 256.
Proof.
  intros Hi. assert (H : Forall (fun b => 0 <= b < 256) user_code) by (apply (bool_decide_unpack _); by vm_compute).
  rewrite Forall_forall in H. apply H, list_elem_of_In, nth_In. change (length user_code) with 56%nat. lia.
Qed.

Lemma copy_code_spec K n k s :
  holds s0 K (open_both K n) k s ->
  (forall x, USER_CODE_VADDR <= x < USER_CODE_VADDR + 56 -> W x) ->
  exists s', copy_code s = (Next, s') /\ holds s0 K (open_both K n) k s' /\ has_code 56 (ram (vms s')).
Proof.
  intros H Hcode. unfold copy_code. name_body body. change (Z.of_nat (length user_code)) with 56.
  apply (try_range_next (fun j s => holds s0 K (open_both K n) k s /\ has_code j (ram (vms s))) 0 56 body s);
    [done|split; [done|intros i Hi; lia]|].
  intros j s1 Hj [H1 H2]. subst body. cbv beta. unfold store8.
  destruct (ho_q _ _ _ _ _ H1) as ([_ _ Q3 _ _] & _). destruct (Q3 USER_CODE_VADDR) as (e & He & Hce); [by left|].
  fold (ram (vms s1)) in He. rewrite u64_small by (unfold USER_CODE_VADDR; lia).
  rewrite (ho_cr3 _ _ _ _ _ H1), (region_translate _ _ USER_CODE_VADDR _ e); [|by left|unfold region; lia|done|done].
  set (m' := wr _ _ _). eexists. split; [done|]. split.
  - apply ut_write; [done|]. intros x Hx. apply rd_wr_ne. intros <-. apply Hx, Hcode. lia.
  - intros i Hi. change (ram (vms (set_vms (set_ram m' (vms s1)) s1))) with m'. subst m'.
    destruct (decide (i = j)) as [->|Hne].
    + rewrite rd_wr_eq. apply u8_small. by apply user_code_bytes.
    + rewrite rd_wr_ne by lia. apply H2. lia.
Qed.

End opens.

(** The bytes the command writes, but for page table entries: the program, an
    entry's worth at each of the two pages, and the two stack pointers. *)
Definition usertest_writes (l : Desc.layout) (cpu_data x : Z) : Prop :=
  USER_CODE_VADDR <= x < USER_CODE_VADDR + 56 \/ USER_STACK_VADDR <= x < USER_STACK_VADDR + 8 \/
  Desc.tss l + Desc.off_rsp0 <= x < Desc.tss l + Desc.off_rsp0 + 8 \/ cpu_data <= x < cpu_data + 8.

(** The stack pointers for system calls and interrupts. *)
Lemma ut_stacks K0 s0 K n k s l cpu_data top :
  holds s0 K (open_both K0 (usertest_writes l cpu_data) s0 K n) k s ->
  Desc.tss l + Desc.off_rsp0 + 8 <= cpu_data \/ cpu_data + 8 <= Desc.tss l + Desc.off_rsp0 ->
  Desc.tss l + Desc.off_rsp0 + 8 <= USER_CODE_VADDR -> cpu_data + 8 <= USER_CODE_VADDR ->
  0 <= top < 2 ^ 64 -> has_code 56 (ram (vms s)) ->
  let s1 := set_vms (set_ram (Desc.tss_set_kernel_stack l top (ram (vms s))) (vms s)) s in
  let s2 := set_vms (set_ram (Syscall.syscall_set_kernel_stack cpu_data top (ram (vms s1))) (vms s1)) s1 in
  holds s0 K (open_both K0 (usertest_writes l cpu_data) s0 K n) k s2 /\ has_code 56 (ram (vms s2)) /\
  ld64 (ram (vms s2)) (Desc.tss l + Desc.off_rsp0) = top /\ ld64 (ram (vms s2)) cpu_data = top.
Proof.
  intros H Hap Ht Hc Htop Hcode.
  assert (Em : forall m, Syscall.syscall_set_kernel_stack cpu_data top m = st64 m cpu_data top).
  { intros m. unfold Syscall.syscall_set_kernel_stack, Syscall.off_kernel_stack. by rewrite Z.add_0_r. }
  cbv zeta. rewrite Em. unfold Desc.tss_set_kernel_stack.
  set (m1 := st64 (ram (vms s)) _ top). set (s1 := set_vms (set_ram m1 (vms s)) s).
  change (ram (vms s1)) with m1. set (m2 := st64 m1 cpu_data top). set (s2 := set_vms (set_ram m2 (vms s1)) s1).
  assert (H1 : holds s0 K (open_both K0 (usertest_writes l cpu_data) s0 K n) k s1).
  { apply ut_write; [done|]. intros x Hx. apply st64_only_in. unfold usertest_writes in Hx. lia. }
  assert (H2 : holds s0 K (open_both K0 (usertest_writes l cpu_data) s0 K n) k s2).
  { apply ut_write; [done|]. intros x Hx. apply st64_only_in. unfold usertest_writes in Hx. lia. }
  change (ram (vms s2)) with m2. split; [done|]. split; [|split].
  - intros i Hi. subst m2 m1. rewrite !(st64_only_in _ _ _ (USER_CODE_VADDR + i)) by lia. by apply Hcode.
  - subst m2 m1. rewrite ld64_st64_ne, ld64_st64 by lia. by apply u64_small.
  - subst m2. rewrite ld64_st64. by apply u64_small.
Qed.

(** Where [cmd_usertest] may run: its two addresses in 2 MB pages at the same
    physical address, as the boot tables map them; the bytes it writes kept by
    their owner [K] or free. *)
Record usertest_ready (K : Z -> Prop) (l : Desc.layout) (cpu_data : Z) (s : sys) : Prop := {
  ur_ok : vm_ok K (vms s);
  ur_cr3 : cr3 (vms s) = current_pml4_phys (vms s);
  ur_frames : 6 <= fa_count (frames (vms s));
  ur_big c : c = USER_CODE_VADDR \/ c = USER_STACK_VADDR ->
    exists e, leaf 4 (ram (vms s)) (current_pml4_phys (vms s)) c = Some (2%nat, e) /\ child e = c;
  ur_spare x : usertest_writes l cpu_data x -> spare K (frames (vms s)) x;
  ur_apart : Desc.tss l + Desc.off_rsp0 + 8 <= cpu_data \/ cpu_data + 8 <= Desc.tss l + Desc.off_rsp0;
  ur_below : Desc.tss l + Desc.off_rsp0 + 8 <= USER_CODE_VADDR /\ cpu_data + 24 <= USER_CODE_VADDR
}.

(** Everything the command does before the jump. *)
Lemma usertest_effect K s l cpu_data kstack args :
  let root := current_pml4_phys (vms s) in
  let top := u64 (kstack + 8192) in
  usertest_ready K l cpu_data s ->
  exists s', cmd_usertest l cpu_data kstack args s = (Some (UserMode 0x400000 0x800ff0), s') /\
    (forall u, translate (ram (vms s')) root u = translate (ram (vms s)) root u) /\
    (forall u, region USER_CODE_VADDR u \/ region USER_STACK_VADDR u -> user_walk 4 (ram (vms s')) root u = true) /\
    has_code 56 (ram (vms s')) /\
    ld64 (ram (vms s')) (Desc.tss l + Desc.off_rsp0) = top /\ ld64 (ram (vms s')) cpu_data = top /\
    agree_on (fun x => K x /\ ~ usertest_writes l cpu_data x) (ram (vms s)) (ram (vms s')) /\
    kcon (vms s') = kcon (vms s) /\ kcpu s' = kcpu s /\ current_pml4_phys (vms s') = root.
Proof.
  intros root top [Hok Hcr Hn Hbig HW Hap [Ht Hc]]. set (W := usertest_writes l cpu_data) in *.
  assert (H0 : holds s K (intact K W s K 6) (kcon (vms s)) s).
  { split; try done. by destruct s as [[[[] ? ?] ? ? ? ? ?] ?]. }
  unfold cmd_usertest.
  destruct (ut_alloc K W s K 6 _ s H0 ltac:(lia) ltac:(done)) as (p1 & s1 & -> & P1 & P2 & H1).
  destruct (ut_alloc K W s _ _ _ s1 H1 ltac:(lia) ltac:(by left)) as (p2 & s2 & -> & P3 & P4 & H2).
  destruct (Z.eqb_spec p1 0); [lia|]. destruct (Z.eqb_spec p2 0); [lia|]. cbn [orb]. clear H0 H1.
  set (K2 := and_frame (and_frame K p1) p2) in *.
  assert (HK : forall x, K x -> K2 x) by (intros x Hx; by left; left).
  assert (H3 : holds s K2 (fun st => intact K W s K2 4 st /\ (USER_CODE_VADDR = USER_STACK_VADDR -> opened s USER_CODE_VADDR st))
    (kcon (vms s)) s2) by (destruct H2; by split).
  apply (ut_map K W s K2 4 _ s2 USER_CODE_VADDR p1) in H3; [|lia|by left| |done|done|done].
  2: { intros x Hx. left. lia. }
  cbv zeta. generalize dependent (map_page USER_CODE_VADDR p1 (Z.lor (Z.lor PAGE_PRESENT PAGE_WRITE) PAGE_USER) s2).
  intros s3 H3.
  assert (H4 : holds s K2 (fun st => intact K W s K2 2 st /\ (USER_STACK_VADDR = USER_STACK_VADDR -> opened s USER_CODE_VADDR st))
    (kcon (vms s)) s3) by (destruct H3 as [? (? & ? & _)]; by split).
  apply (ut_map K W s K2 2 _ s3 USER_STACK_VADDR p2) in H4; [|lia|by right| |done|done|done].
  2: { intros x Hx. right. left. lia. }
  generalize dependent (map_page USER_STACK_VADDR p2 (Z.lor (Z.lor PAGE_PRESENT PAGE_WRITE) PAGE_USER) s3).
  intros s4 H4.
  assert (H5 : holds s K2 (open_both K W s K2 0) (kcon (vms s)) s4).
  { destruct H4 as [? (I1 & _ & I2) ? ? ? ?]. split; try done. split; [exact I1|by apply I2]. }
  destruct (copy_code_spec K W s K2 0 _ s4 H5) as (s5 & -> & H6 & Hcode); [by left|].
  destruct (ut_stacks K s K2 0 _ s5 l cpu_data top H6 Hap Ht ltac:(lia) (u64_range _) Hcode) as (H7 & C7 & L1 & L2).
  fold top. cbv zeta in *.
  set (s6 := set_vms (set_ram (Desc.tss_set_kernel_stack l top (ram (vms s5))) (vms s5)) s5) in *.
  set (s7 := set_vms (set_ram (Syscall.syscall_set_kernel_stack _ _ _) _) s6) in *.
  exists (set_vms (vmm_set_cr3 (vmm_get_cr3 (vms s7)) (vms s7)) s7). split; [done|].
  clearbody s7. clear s6. destruct H7 as [_ ([_ I2 _ I4 _] & I5 & I6) R1 R2 R3 R4].
  change (ram (vms (set_vms (vmm_set_cr3 (vmm_get_cr3 (vms s7)) (vms s7)) s7))) with (ram (vms s7)).
  split; [exact I2|]. split; [intros u [Hu|Hu]; [by apply I5|by apply I6]|]. split; [exact C7|]. do 3 (split; [done|]).
  split; [exact R3|]. split; [by rewrite R4|exact R1].
Qed.

(** C21: where the two addresses are mapped by 2 MB pages, as they are in a started
    kernel, [cmd_usertest] maps nothing: every translation stays as it was, so the
    program is written over the physical memory at 4 MB, whoever owns it, and
    runs there; but the 4 MB of the two big pages become accessible from ring 3. *)
Theorem usertest_opens_kernel K s l cpu_data kstack args :
  let root := current_pml4_phys (vms s) in
  usertest_ready K l cpu_data s ->
  exists s', cmd_usertest l cpu_data kstack args s = (Some (UserMode 0x400000 0x800ff0), s') /\
    (forall u, translate (ram (vms s')) root u = translate (ram (vms s)) root u) /\
    (forall u, region USER_CODE_VADDR u \/ region USER_STACK_VADDR u -> user_walk 4 (ram (vms s')) root u = true) /\
    (forall i, 0 <= i < 56 -> rd (ram (vms s')) (0x400000 + i) = nth (Z.to_nat i) user_code 0) /\
    agree_on (fun x => K x /\ ~ usertest_writes l cpu_data x) (ram (vms s)) (ram (vms s')).
Proof.
  intros root H. destruct (usertest_effect K s l cpu_data kstack args H) as (s' & E & H1 & H2 & H3 & _ & _ & H4 & _).
  by exists s'.
Qed.

End usertest.

(** ** What the program does

    Ring 3 on the record [machine] of Syscall.v: the instructions of the program,
    decoded from its bytes as the processor's manual gives them.  A system call
    is the entry code, [syscall_handler] and the exit code. *)
Import Syscall.

Inductive instr := LeaRsi (disp : Z) | MovImm (r : reg) (imm : Z) | SyscallI | JmpSelf.

(** A sign-extended displacement or constant of 32 bits. *)
Definition imm32 (b0 b1 b2 b3 : Z) : Z := sint 32 (b0 + 2 ^ 8 * b1 + 2 ^ 16 * b2 + 2 ^ 24 * b3).

(** The instruction at the beginning of seven bytes, and its length. *)
Definition decode (bs : list Z) : option (instr * Z) :=
  match bs with
  | [b0; b1; b2; b3; b4; b5; b6] =>
      if (b0 =? 0x48) && (b1 =? 0x8d) && (b2 =? 0x35) then Some (LeaRsi (imm32 b3 b4 b5 b6), 7)
      else if (b0 =? 0x48) && (b1 =? 0xc7) then
        if b2 =? 0xc0 then Some (MovImm RAX (imm32 b3 b4 b5 b6), 7)
        else if b2 =? 0xc7 then Some (MovImm RDI (imm32 b3 b4 b5 b6), 7)
        else if b2 =? 0xc2 then Some (MovImm RDX (imm32 b3 b4 b5 b6), 7)
        else None
      else if (b0 =? 0x0f) && (b1 =? 0x05) then Some (SyscallI, 2)
      else if (b0 =? 0xeb) && (b1 =? 0xfe) then Some (JmpSelf, 2)
      else None
  | _ => None
  end.

Definition fetch (u : machine) : list Z := map (fun j => rd (ram u) (rip u + j)) (seqZ 0 7).
Definition skip (n : Z) (u : machine) : machine := Machine (gpr u) (u64 (rip u + n)) (rflags u) (pc u) (ram u).

(** How a run ends: still in ring 3, halted by the kernel, or at an instruction
    that is not one of the program's. *)
Inductive outcome {D : Type} := Ring3 (k : con D) (u : machine) | KernelHalted (k : con D) | Stuck.

Section ring3.
  Context {D : Type} `{!PortBus D}.

Definition do_syscall (k : con D) (u : machine) : outcome :=
  let s := entry_head (syscall u) in
  match syscall_handler (Syscall.with_screen (ram s)) (gpr s RDI) (gpr s RSI) (gpr s RDX) (gpr s RCX) k with
  | (None, k) => KernelHalted k
  | (Some r, k) => Ring3 k (entry_tail (set_reg RAX r s))
  end.

Definition user_step (k : con D) (u : machine) : outcome :=
  match decode (fetch u) with
  | None => Stuck
  | Some (i, n) =>
      match i with
      | LeaRsi d => let u := skip n u in Ring3 k (set_reg RSI (u64 (rip u + d)) u)
      | MovImm r v => Ring3 k (set_reg r (u64 v) (skip n u))
      | SyscallI => do_syscall k (skip n u)
      | JmpSelf => Ring3 k u
      end
  end.

Fixpoint user_run (n : nat) (k : con D) (u : machine) : outcome :=
  match n with
  | O => Ring3 k u
  | S n => match user_step k u with Ring3 k u => user_run n k u | o => o end
  end.

(** The state of the user program at byte [off] of its code. *)
Record running (cpu_data ktop entry off : Z) (u : machine) : Prop := {
  ru_code : has_code 56 (ram u);
  ru_rip : rip u = USER_CODE_VADDR + off;
  ru_msrs : msrs_ok cpu_data entry (pc u);
  ru_stacks : stacks_ok cpu_data ktop (ram u)
}.

Definition regs_ok (u : machine) : Prop := (forall r, 0 <= gpr u r < 2 ^ 64) /\ 0 <= rflags u < 2 ^ 64.

Lemma fetch_code cpu_data ktop entry off u : running cpu_data ktop entry off u -> 0 <= off <= 49 ->
  fetch u = map (fun j => nth (Z.to_nat (off + j)) user_code 0) (seqZ 0 7).
Proof.
  intros H Hoff. unfold fetch. apply map_ext_in. intros j Hj%list_elem_of_In%elem_of_seqZ.
  rewrite (ru_rip _ _ _ _ _ H), <- Z.add_assoc. apply (ru_code _ _ _ _ _ H). lia.
Qed.

Lemma running_skip cpu_data ktop entry off n u :
  running cpu_data ktop entry off u -> 0 <= off <= 49 -> 0 <= n <= 7 -> running cpu_data ktop entry (off + n) (skip n u).
Proof.
  intros [H1 H2 H3 H4] Ho Hn. split; try done. cbn [skip rip]. rewrite H2, u64_small by (unfold USER_CODE_VADDR; lia). lia.
Qed.

Lemma running_set cpu_data ktop entry off r v u :
  running cpu_data ktop entry off u -> running cpu_data ktop entry off (set_reg r v u).
Proof. by intros [H1 H2 H3 H4]. Qed.

Lemma regs_set r v u : 0 <= v < 2 ^ 64 -> regs_ok u -> regs_ok (set_reg r v u).
Proof. intros Hv [H1 H2]. split; [|done]. intros q. cbn [set_reg gpr]. by case_decide. Qed.

(** The text the program prints. *)
Definition hello : list Z := str "Hello Ring 3!" ++ [10].

Lemma hello_bytes m i b : has_code 56 m -> hello !! i = Some b -> rd m (u64 (0x400029 + Z.of_nat i)) = b.
Proof.
  intros Hc Hi. assert (Hl : (i < 14)%nat) by (apply (lookup_lt_Some hello i b) in Hi; exact Hi).
  rewrite u64_small by lia. replace (0x400029 + Z.of_nat i) with (USER_CODE_VADDR + (41 + Z.of_nat i)) by (unfold USER_CODE_VADDR; lia).
  rewrite Hc by lia. rewrite nth_lookup. replace (Z.to_nat (41 + Z.of_nat i)) with (41 + i)%nat by lia.
  change user_code with (take 41 user_code ++ hello ++ [0]). rewrite lookup_app_r by (cbn; lia).
  change (length (take 41 user_code)) with 41%nat. replace (41 + i - 41)%nat with i by lia.
  rewrite lookup_app_l by (cbn; lia). by rewrite Hi.
Qed.

Lemma hello_seen m v i b : has_code 56 m -> hello !! i = Some b -> Syscall.with_screen m v (u64 (0x400029 + Z.of_nat i)) = b.
Proof.
  intros Hc Hi. assert (Hl : (i < 14)%nat) by (apply (lookup_lt_Some hello i b) in Hi; exact Hi).
  rewrite Syscall.with_screen_outside; [by apply hello_bytes|]. rewrite u64_small by lia. lia.
Qed.

(** The system call that writes. *)
Lemma do_write cpu_data ktop entry off k u :
  0 <= cpu_data -> cpu_data + 24 <= USER_CODE_VADDR -> ktop <= USER_CODE_VADDR \/ USER_CODE_VADDR + 56 <= ktop - 64 ->
  running cpu_data ktop entry off u -> 0 <= off <= 49 -> regs_ok u ->
  gpr u RAX = 1 -> gpr u RDI = 1 -> gpr u RSI = 0x400029 -> gpr u RDX = 14 ->
  exists u', do_syscall k u = Ring3 (vga_print hello k) u' /\ running cpu_data ktop entry off u'.
Proof.
  intros Hp Hcd Hk [R1 R2 R3 R4] Hoff [G1 G2] E1 E2 E3 E4.
  assert (Hc : c_call cpu_data ktop (set_reg RAX 14)) by (intros s; by split_and!).
  destruct (syscall_effect cpu_data ktop entry (set_reg RAX 14) u Hp R3 R4 Hc G1)
    as (_ & A1 & A2 & A3 & A4 & _ & _ & A5 & _ & _ & _ & _ & _ & A6 & A7 & A8);
    [rewrite R2; unfold USER_CODE_VADDR; lia|done|].
  unfold do_syscall. revert A1 A2 A3 A4 A5 A6 A7 A8. generalize (entry_head (syscall u)) as s. intros s A1 A2 A3 A4 A5 A6 A7 A8.
  rewrite A1, A2, A3, A4, E1, E2, E3, E4. assert (Hcode : has_code 56 (ram s)).
  { intros i Hi. rewrite A8 by lia. by apply R1. }
  unfold syscall_handler. change (1 =? SYS_EXIT) with false. change (1 =? SYS_WRITE) with true. change (1 =? 1) with true.
  cbv iota. change (Z.to_nat 14) with (length hello).
  rewrite (write_loop_print hello) by (intros j b Hj; rewrite Z.add_0_r, (hello_seen _ _ j b Hcode Hj); done).
  revert A5 A6 A7. generalize (entry_tail (set_reg RAX 14 s)) as u'. intros u' A5 A6 A7.
  exists u'. split; [reflexivity|]. split; [by rewrite A7|by rewrite A5|exact A6|]. rewrite A7. change (ram (set_reg RAX 14 s)) with (ram s).
  destruct R4 as [S1 S2 S3]. split; [|done|done]. rewrite <- S1. unfold off_kernel_stack in *. rewrite Z.add_0_r in *.
  apply ld64_agree. intros x Hx. apply A8. lia.
Qed.

(** The system call that ends the program. *)
Lemma do_exit cpu_data ktop entry off k u :
  running cpu_data ktop entry off u -> gpr u RAX = 0 -> do_syscall k u = KernelHalted k.
Proof.
  intros [R1 R2 R3 R4] E. destruct (entry_head_spec cpu_data ktop entry u R3 R4) as (A1 & _).
  unfold do_syscall. by rewrite A1, E.
Qed.

(** One instruction that is no system call keeps the program running. *)
Lemma step_set cpu_data ktop entry off k u i n r v :
  running cpu_data ktop entry off u -> 0 <= off <= 49 -> 0 <= n <= 7 ->
  decode (map (fun j => nth (Z.to_nat (off + j)) user_code 0) (seqZ 0 7)) = Some (i, n) ->
  i = MovImm r v \/ (exists d, i = LeaRsi d /\ r = RSI /\ v = USER_CODE_VADDR + off + n + d) ->
  exists u', user_step k u = Ring3 k u' /\ running cpu_data ktop entry (off + n) u' /\ (regs_ok u -> regs_ok u') /\
    gpr u' r = u64 v /\ forall q, q <> r -> gpr u' q = gpr u q.
Proof.
  intros H Ho Hn Hd Hi. exists (set_reg r (u64 v) (skip n u)). split.
  - unfold user_step. rewrite (fetch_code _ _ _ _ _ H Ho), Hd. destruct Hi as [-> |(d & -> & -> & ->)]; [done|].
    cbv zeta. rewrite (ru_rip _ _ _ _ _ (running_skip _ _ _ _ n _ H Ho Hn)). do 4 f_equal. lia.
  - split; [by apply running_set, running_skip|]. split; [intros Hr; by apply regs_set; [apply u64_range|]|].
    cbn [set_reg gpr skip]. split; [by rewrite decide_True|]. intros q Hq. by rewrite decide_False.
Qed.

Lemma step_syscall cpu_data ktop entry off k u :
  running cpu_data ktop entry off u -> 0 <= off <= 49 ->
  decode (map (fun j => nth (Z.to_nat (off + j)) user_code 0) (seqZ 0 7)) = Some (SyscallI, 2) ->
  user_step k u = do_syscall k (skip 2 u).
Proof. intros H Ho Hd. unfold user_step. by rewrite (fetch_code _ _ _ _ _ H Ho), Hd. Qed.

(** The program, started in ring 3 with its stack pointers in place. *)
Lemma user_program_run cpu_data ktop entry k u :
  0 <= cpu_data -> cpu_data + 24 <= USER_CODE_VADDR -> ktop <= USER_CODE_VADDR \/ USER_CODE_VADDR + 56 <= ktop - 64 ->
  running cpu_data ktop entry 0 u -> regs_ok u ->
  user_run 7 k u = KernelHalted (vga_print hello k).
Proof.
  intros Hp Hcd Hk R0 G0. cbn [user_run].
  destruct (step_set _ _ _ 0 k u (LeaRsi 34) 7 RSI 0x400029 R0) as (u1 & -> & R1 & G1 & E1 & _);
    [lia|lia|reflexivity|right; by exists 34|].
  destruct (step_set _ _ _ 7 k u1 (MovImm RAX 1) 7 RAX 1 R1) as (u2 & -> & R2 & G2 & E2 & F2);
    [lia|lia|reflexivity|by left|].
  destruct (step_set _ _ _ 14 k u2 (MovImm RDI 1) 7 RDI 1 R2) as (u3 & -> & R3 & G3 & E3 & F3);
    [lia|lia|reflexivity|by left|].
  destruct (step_set _ _ _ 21 k u3 (MovImm RDX 14) 7 RDX 14 R3) as (u4 & -> & R4 & G4 & E4 & F4);
    [lia|lia|reflexivity|by left|].
  rewrite (step_syscall _ _ _ 28 k u4 R4) by (lia || reflexivity).
  destruct (do_write cpu_data ktop entry 30 k (skip 2 u4)) as (u5 & -> & R5); try done.
  { by apply (running_skip cpu_data ktop entry 28 2 u4 R4). }
  { apply G4, G3, G2, G1, G0. }
  { cbn [skip gpr]. by rewrite F4, F3, E2. }
  { cbn [skip gpr]. by rewrite F4, E3. }
  { cbn [skip gpr]. by rewrite F4, F3, F2, E1. }
  destruct (step_set _ _ _ 30 (vga_print hello k) u5 (MovImm RAX 0) 7 RAX 0 R5) as (u6 & -> & R6 & _ & E6 & _);
    [lia|lia|reflexivity|by left|].
  rewrite (step_syscall _ _ _ 37 _ u6 R6) by (lia || reflexivity).
  rewrite (do_exit cpu_data ktop entry 39 _ (skip 2 u6)); [done| |exact E6].
  exact (running_skip cpu_data ktop entry 37 2 u6 R6 ltac:(lia) ltac:(lia)).
Qed.

End ring3.

(** ** The command and its program *)
Section whole.
  Context {A : Type} `{!FrameAllocator A} {D : Type} `{!PortBus D}.

(** The machine at the call of [jump_to_usermode (stack, code)] in state [s]: its
    memory is what the page tables show. *)
Record at_jump (s : sys (A := A) (D := D)) (stack code sp : Z) (u : machine) : Prop := {
  aj_regs : forall r, 0 <= gpr u r < 2 ^ 64;
  aj_rdi : gpr u RDI = stack;
  aj_rsi : gpr u RSI = code;
  aj_rsp : gpr u RSP = sp;
  aj_cpu : pc u = kcpu s;
  aj_ram v p : translate (Vmm.ram (vms s)) (current_pml4_phys (vms s)) v = Some p -> rd (ram u) v = rd (Vmm.ram (vms s)) p
}.

(** C20: the whole test: [cmd_usertest] jumps to ring 3, where the program, fetched
    from the bytes the command copied, prints "Hello Ring 3!" through its first
    system call, gets control back from it, and is stopped for good by its
    second. *)
Theorem usertest_prints K l cpu_data kstack entry sp args (s : sys (A := A) (D := D)) :
  let top := u64 (kstack + 8192) in
  usertest_ready K l cpu_data s -> Syscall.msrs_ok cpu_data entry (kcpu s) ->
  0 <= cpu_data -> (forall x, cpu_data <= x < cpu_data + 8 ->
    translate (Vmm.ram (vms s)) (current_pml4_phys (vms s)) x = Some x) ->
  64 <= top -> cpu_data + 24 <= top - 64 \/ top <= cpu_data -> top <= USER_CODE_VADDR ->
  USER_CODE_VADDR + 56 <= sp - 40 ->
  exists s', cmd_usertest l cpu_data kstack args s = (Some (UserMode 0x400000 0x800ff0), s') /\
    forall u, at_jump s' 0x800ff0 0x400000 sp u ->
      user_run 7 (kcon (vms s')) (jump_to_usermode u) = KernelHalted (vga_print hello (kcon (vms s))).
Proof.
  intros top Hr Hm Hp Hid Ht1 Ht2 Ht3 Hsp.
  destruct (usertest_effect K s l cpu_data kstack args Hr) as (s' & E & T1 & _ & T3 & _ & T5 & _ & T6 & T7 & T8).
  exists s'. split; [exact E|]. intros u [J1 J2 J3 J4 J5 J6]. rewrite T6, T8 in *. setoid_rewrite T1 in J6.
  destruct (ur_below _ _ _ _ Hr) as [_ Hcd]. pose proof (J1 RSP) as Hrsp. pose proof (J1 RDI) as Hrdi. pose proof (J1 RSI) as Hrsi.
  destruct (jump_to_usermode_spec u sp J4) as (A1 & A2 & A3 & A4 & A5 & _ & _ & A6 & A7); [unfold USER_CODE_VADDR in *; lia|done|done|].
  apply (user_program_run cpu_data top entry); [done|done|by left| |].
  - split.
    + intros i Hi. rewrite A7 by lia. rewrite (J6 _ (USER_CODE_VADDR + i)); [by apply T3|].
      destruct (ur_big _ _ _ _ Hr USER_CODE_VADDR) as (e & He & Hce); [by left|].
      apply (region_translate _ _ USER_CODE_VADDR _ e); [by left|unfold region; lia|done|done].
    + by rewrite A1, J3.
    + apply (msrs_ok_same _ _ (kcpu s)); [done|]. intros n. by rewrite A6, J5, T7.
    + split; [|split; [lia|apply u64_range]|done]. unfold off_kernel_stack. rewrite Z.add_0_r.
      transitivity (ld64 (Vmm.ram (vms s')) cpu_data); [|exact T5].
      apply ld64_agree. intros x Hx. rewrite A7 by lia. apply J6. by apply Hid.
  - split; [|rewrite A3; lia]. intros r. destruct (decide (r = RSP)) as [->|H1]; [by rewrite A2|].
    destruct (decide (r = RAX)) as [->|H2]; [|by rewrite A4]. rewrite A5. pose proof (J1 RAX).
    apply lor_range; [lia| |lia]. change 0xFFFF with (Z.ones 16). rewrite Z.ldiff_ones_r, Z.shiftl_mul_pow2, Z.shiftr_div_pow2 by lia.
    change (2 ^ 16) with 65536. change (2 ^ 64) with 18446744073709551616 in *. dlia.
Qed.

End whole.


(** ** Witnesses *)

(** The boot tables in the memory of a machine, whose frames from 3 MB to 16 MB
    are free. *)
Definition user_sys : sys (A := BumpFrames.bump) (D := crtc_bus) :=
  Sys (Kst (Heap.Heap (Vm (BumpFrames.Bump 0x300 0x1000, Boot.setup_paging 0x9000 (Mem (fun _ => 0xCC) ∅)) 0x9000 0x9000 boot_con [])
         Heap.HEAP_START 0) (Task.demo Task.TASK_STATE_READY) Isr.irqs_boot (PitState 9 true) Keyboard.kbuf_boot Keyboard.modifiers_boot)
    user_cpu.

(** What lies between the tables and the frames. *)
Definition user_kept (x : Z) : Prop := 0x100000 <= x < 0x300000.

Lemma user_sys_big : exists m, Boot.boot_tables 0x9000 m /\ frames (vms user_sys) = (BumpFrames.Bump 0x300 0x1000, m).
Proof.
  pose proof (Boot.boot_entries 0x9000 (Mem (fun _ => 0xCC) ∅) eq_refl ltac:(lia) ltac:(lia)) as HB.
  exists (Boot.setup_paging 0x9000 (Mem (fun _ => 0xCC) ∅)). by split.
Qed.

Lemma boot_vm_ok m : Boot.boot_tables 0x9000 m -> vm_inv (Boot.boot_tab 0x9000) user_kept 0x9000 (BumpFrames.Bump 0x300 0x1000, m).
Proof.
  intros HB. unfold user_kept.
  assert (Htab : forall x p, Boot.boot_tab 0x9000 x = Some p -> 0x9000 <= x < 0xC000).
  { intros x p Hx. destruct (Boot.boot_tab_cases 0x9000 x p Hx) as [[-> _]|[[-> _]|[-> _]]]; lia. }
  split; cbn [fa_inv fa_is_free fa_foot BumpFrames.bump_frames fst snd BumpFrames.next BumpFrames.limit].
  - lia.
  - by apply Boot.boot_tree.
  - intros t p Ht%Htab [H1 H2]. dlia.
  - intros t p x _ _ [].
  - intros x _ [].
  - intros x f Hx [H1 H2]. unfold in_frame. dlia.
  - intros x t p Hx Ht%Htab. unfold in_frame. lia.
Qed.

Lemma user_sys_ready : usertest_ready user_kept Desc.some_layout 0x104300 user_sys.
Proof.
  destruct user_sys_big as (m & HB & E).
  assert (Er : Vmm.ram (vms user_sys) = m) by (unfold Vmm.ram; by rewrite E).
  split.
  - exists (Boot.boot_tab 0x9000). change (current_pml4_phys (vms user_sys)) with 0x9000. rewrite E. by apply boot_vm_ok.
  - reflexivity.
  - rewrite E. cbn [fa_count BumpFrames.bump_frames fst BumpFrames.next BumpFrames.limit]. lia.
  - intros c Hc. rewrite Er. change (current_pml4_phys (vms user_sys)) with 0x9000.
    exists (0x83 + 0x200000 * (c / 2 ^ 21)). unfold USER_CODE_VADDR, USER_STACK_VADDR in Hc.
    split; [apply (Boot.boot_leaf _ _ _ HB); lia|]. by destruct Hc as [-> | ->].
  - intros x Hx. rewrite E. unfold usertest_writes, USER_CODE_VADDR, USER_STACK_VADDR, Desc.off_rsp0 in Hx.
    cbn [Desc.tss Desc.some_layout] in Hx. destruct (Z.lt_ge_cases x 0x300000); [left; unfold user_kept; lia|right].
    exists (x / 4096 * 4096). unfold in_frame. cbn [fa_is_free BumpFrames.bump_frames fst BumpFrames.next BumpFrames.limit].
    dlia.
  - cbn [Desc.tss Desc.some_layout]. unfold Desc.off_rsp0. lia.
  - cbn [Desc.tss Desc.some_layout]. unfold Desc.off_rsp0, USER_CODE_VADDR. lia.
Qed.

Lemma usertest_opens_kernel_witness :
  exists s', cmd_usertest Desc.some_layout 0x104300 0x110000 [] user_sys = (Some (UserMode 0x400000 0x800ff0), s') /\
    user_walk 4 (Vmm.ram (vms s')) 0x9000 0x400000 = true /\ rd (Vmm.ram (vms s')) 0x400000 = 0x48.
Proof.
  destruct (usertest_opens_kernel user_kept user_sys Desc.some_layout 0x104300 0x110000 [] user_sys_ready)
    as (s' & E & _ & Hu & Hc & _).
  exists s'. split; [exact E|]. split.
  - apply Hu. left. unfold region, USER_CODE_VADDR. lia.
  - exact (Hc 0 ltac:(lia)).
Defined.

(** The machine at the jump, its stack in the heap. *)
Definition user_jump (s : sys (A := BumpFrames.bump) (D := crtc_bus)) : machine :=
  Machine (fun r => match r with RDI => 0x800ff0 | RSI => 0x400000 | RSP => 0xFFFF800000004000 | _ => 5 end) 0 0x202 (kcpu s)
    (Mem (fun v => match translate (Vmm.ram (vms s)) (current_pml4_phys (vms s)) v with
                   | Some p => rd (Vmm.ram (vms s)) p | None => 0 end) ∅).

Lemma user_jump_ok s : at_jump s 0x800ff0 0x400000 0xFFFF800000004000 (user_jump s).
Proof.
  split; try done.
  - intros []; cbn [user_jump gpr]; lia.
  - intros v p E. unfold rd at 1, mem_get. cbn [user_jump ram mem_upd mem_init]. rewrite lookup_empty, E.
    apply u8_small, rd_range.
Qed.

Lemma usertest_prints_witness :
  exists s', cmd_usertest Desc.some_layout 0x104300 0x10e000 [] user_sys = (Some (UserMode 0x400000 0x800ff0), s') /\
    user_run 7 (kcon (vms s')) (jump_to_usermode (user_jump s')) = KernelHalted (vga_print hello boot_con).
Proof.
  destruct (usertest_prints user_kept Desc.some_layout 0x104300 0x10e000 0x101000 0xFFFF800000004000 [] user_sys user_sys_ready)
    as (s' & E & H).
  - apply user_machine_ok.
  - lia.
  - intros x Hx. destruct user_sys_big as (m & HB & E). unfold Vmm.ram. rewrite E. cbn [snd].
    change (current_pml4_phys (vms user_sys)) with 0x9000. unfold translate. rewrite (Boot.boot_leaf _ _ _ HB) by lia.
    cbn [option_map]. f_equal. unfold phys_of. cbn [fst snd]. change (12 + 9 * (Z.of_nat 2 - 1)) with 21.
    change (2 ^ 21) with 2097152. dlia.
  - rewrite u64_small by lia. lia.
  - rewrite u64_small by lia. lia.
  - rewrite u64_small by lia. unfold USER_CODE_VADDR. lia.
  - unfold USER_CODE_VADDR. lia.
  - exists s'. split; [exact E|]. exact (H (user_jump s') (user_jump_ok s')).
Defined.

End UserTest.
