(* ===== verification/Run.v ===== *)
(** * The shell at work ([shell_execute] and [shell_run] of [shell.c], [shell_task] of [main.c])

    The loop of prompt, line and command over the state of the whole kernel. *)

From S2P Require Import Prelude CString Ports Vga Frames Pmm Mmu Vmm Heap Boot KHeap Isr Task Keyboard Kbd Shell Interrupts Desc Syscall Commands MemTest UserTest.
Import CString Vga Pmm Mmu Vmm Keyboard Kbd Interrupts Commands Shell.
Local Open Scope Z_scope.
Local Open Scope kios_scope.

Module Run.

Section shell.
  Context {A : Type} `{!FrameAllocator A} `{!PageManager A} {D : Type} `{!PortBus D}.
  Context (l : Desc.layout) (cpu_data secure_kernel_stack : Z).
  Notation sys := (sys (A := A) (D := D)).

(** The function a row of [shell_commands] points to.  [fuel] bounds the two
    commands that wait for a device; [None] is a wait that goes on. *)
Definition run_command (fuel : nat) (c : command) (args : list Z) (s : sys) : option (option stop * sys) :=
  let shows f := Some (None, cons f s) in
  match c with
  | cmd_help => shows (Commands.cmd_help args)
  | cmd_clear => shows (Commands.cmd_clear args)
  | cmd_info => shows (Commands.cmd_info args)
  | cmd_echo => shows (Commands.cmd_echo args)
  | cmd_color => shows (Commands.cmd_color args)
  | cmd_mem => shows (Commands.cmd_mem args)
  | cmd_netconf => shows (Commands.cmd_netconf args)
  | cmd_mmap => Some (None, Commands.cmd_mmap args s)
  | cmd_tasks => Some (None, Commands.cmd_tasks args s)
  | cmd_uptime => Some (None, Commands.cmd_uptime args s)
  | cmd_meminfo => Some (Commands.cmd_meminfo args s)
  | cmd_memtest => Some (MemTest.cmd_memtest args s)
  | cmd_vmtest => Some (MemTest.cmd_vmtest args s)
  | cmd_fault => Some (Commands.cmd_fault args s)
  | cmd_usertest => Some (UserTest.cmd_usertest l cpu_data secure_kernel_stack args s)
  | cmd_halt => let r := Commands.cmd_halt args (kcon (vms s)) in Some (Some (fst r), cons (fun _ => snd r) s)
  | cmd_shutdown => let r := Commands.cmd_shutdown args (kcon (vms s)) in Some (Some (fst r), cons (fun _ => snd r) s)
  | cmd_time =>
      match Commands.cmd_time fuel args (kcon (vms s)) with
      | Some k => Some (None, cons (fun _ => k) s) | None => None end
  | cmd_reboot =>
      match Commands.cmd_reboot fuel args (kcon (vms s)) with
      | Some (r, k) => Some (Some r, cons (fun _ => k) s) | None => None end
  end.

(** [for (i < cmd_len) vga_putchar(cmd\[i\])] is [vga_print] of the word. *)
Definition unknown_command (word : list Z) : con D -> con D :=
  vga_print_colored (str "Unknown command: ") VGA_LIGHT_RED VGA_BLACK >>>
  vga_print word >>> vga_println [] >>> vga_println (str "Type 'help' for available commands.").

Definition shell_execute (fuel : nat) (cmd : list Z) (s : sys) : option (option stop * sys) :=
  match shell_dispatch cmd with
  | Nothing => Some (None, s)
  | Run c args => run_command fuel c args s
  | Unknown word => Some (None, cons (unknown_command word) s)
  end.

(** [n] rounds of [while (1)] in [shell_run], which [shell_task] calls: how it was
    left, and the variables of the shell, of its copy of [keyboard.h] and of the
    kernel; [None] if it waits for a key or a device. *)
Fixpoint shell_run (n fuel : nat) (sh : shell) (m : modifiers) (s : sys)
    : option (option stop * (shell * modifiers * sys)) :=
  match n with
  | O => Some (None, (sh, m, s))
  | S n =>
      let s := cons shell_print_prompt s in
      match shell_readline fuel sh m (kcon (vms s)) with
      | None => None
      | Some (sh, m, k) =>
          let s := cons (fun _ => k) s in
          match shell_execute fuel (c_str (shell_buffer sh)) s with
          | None => None
          | Some (Some r, s) => Some (Some r, (sh, m, s))
          | Some (None, s) => shell_run n fuel sh m s
          end
      end
  end.

(** ** The shell as a machine on lines *)

(** What the keys of a round say: the line and its echo, if they end one. *)
Definition line_typed (fuel : nat) (sh : shell) (m : modifiers) (s : sys) : option (list Z * list Z * list Z) :=
  edit [] (chars_read fuel (fresh_line sh) m (kcon (vms (cons shell_print_prompt s)))).

(** [k] is a console after the prompt and the echo [out], [sh'] the shell's variables
    with [line] taken. *)
Record line_taken (sh : shell) (s : sys) (line out : list Z) (sh' : shell) (k : con D) : Prop := {
  lt_ok : shell_ok sh';
  lt_history : entries sh' = remember (entries sh) line;
  lt_echo : scr k = fold_left (fun v c => putchar_screen c v) out (scr (shell_print_prompt (kcon (vms s))))
}.

(** At most [n] rounds that run these lines and end so: a round prompts, takes a line and
    executes it; the session ends with a command that does not return, or in a wait. *)
Inductive session (fuel : nat) :
  nat -> shell -> modifiers -> sys -> list (list Z) -> option (option stop * (shell * modifiers * sys)) -> Prop :=
| session_rounds sh m s : session fuel 0 sh m s [] (Some (None, (sh, m, s)))
| session_typing n sh m s : line_typed fuel sh m s = None -> session fuel (S n) sh m s [] None
| session_next n sh m s line out sh' m' k s' lines e :
    line_typed fuel sh m s = Some (line, out, []) -> line_taken sh s line out sh' k ->
    shell_execute fuel line (cons (fun _ => k) s) = Some (None, s') ->
    session fuel n sh' m' s' lines e -> session fuel (S n) sh m s (line :: lines) e
| session_stop n sh m s line out sh' m' k s' r :
    line_typed fuel sh m s = Some (line, out, []) -> line_taken sh s line out sh' k ->
    shell_execute fuel line (cons (fun _ => k) s) = Some (Some r, s') ->
    session fuel (S n) sh m s [line] (Some (Some r, (sh', m', s')))
| session_device n sh m s line out sh' k :
    line_typed fuel sh m s = Some (line, out, []) -> line_taken sh s line out sh' k ->
    shell_execute fuel line (cons (fun _ => k) s) = None -> session fuel (S n) sh m s [line] None.

Lemma cons_const k g (s : sys) : cons (fun _ => k) (cons g s) = cons (fun _ => k) s.
Proof. by destruct s as [[[[]]]]. Qed.

(** C34: the shell is the loop it means to be, on any bus and for every command: in each
    round it prompts, takes the line the editor makes of the characters [kb_getchar]
    delivers, with its echo on the screen behind the prompt, and executes exactly that
    line on the state the rounds before have left; it ends with the first command
    that does not return, waits where the characters do not end a line, or a command
    for its device, and else goes on; and its history is that of the lines taken,
    the last ten, without empty ones and repetitions. *)
Theorem shell_run_session n fuel sh m s : shell_ok sh ->
  exists lines, session fuel n sh m s lines (shell_run n fuel sh m s) /\ (length lines <= n)%nat /\
    match shell_run n fuel sh m s with
    | Some (r, (sh', _, _)) => shell_ok sh' /\ entries sh' = fold_left remember lines (entries sh) /\
        (r = None -> length lines = n)
    | None => True
    end.
Proof.
  revert sh m s. induction n as [|n IH]; intros sh m s Hok; cbn [shell_run].
  { exists []. split; [constructor|]. by split_and!. }
  cbv zeta. pose proof (readline_edits_effect fuel sh m (kcon (vms (cons shell_print_prompt s))) Hok) as Hr.
  fold (line_typed fuel sh m s) in Hr. destruct (line_typed fuel sh m s) as [[[line out] rest]|] eqn:El.
  2: { rewrite Hr. exists []. split; [by apply session_typing|]. split; [cbn [length]; lia|done]. }
  destruct Hr as (-> & sh' & m' & k' & -> & R1 & R2 & _ & R3 & R4). rewrite R2, cons_const.
  assert (Ht : line_taken sh s line out sh' k') by (split; [done|done|exact R4]).
  destruct (shell_execute fuel line (cons (fun _ => k') s)) as [[[r|] s']|] eqn:Ex.
  - exists [line]. split; [by eapply session_stop|]. split; [cbn [length]; lia|]. by split_and!.
  - destruct (IH sh' m' s' R1) as (lines & I1 & I2 & I3). exists (line :: lines).
    split; [by eapply session_next|]. split; [cbn [length]; lia|].
    destruct (shell_run n fuel sh' m' s') as [[r [[sh2 m2] s2]]|]; [|done]. destruct I3 as (J1 & J2 & J3).
    split; [done|]. split; [by rewrite J2, R3|]. intros Hn. cbn [length]. by rewrite (J3 Hn).
  - exists [line]. split; [by eapply session_device|]. split; [cbn [length]; lia|done].
Qed.

(** ** Commands that only use the console *)

(** How a line ends. *)
Definition ends (d : dispatch) : option stop :=
  match d with
  | Run cmd_halt _ => Some Halted
  | Run cmd_shutdown _ => Some PowerOff
  | Run cmd_fault args =>
      match args with
      | [] => None
      | _ => if starts args "div0" 4 then Some (Exception 0)
             else if starts args "ud" 2 then Some (Exception 6)
             else if starts args "pf" 2 then Some (Exception 14) else None
      end
  | _ => None
  end.

(** Every line but the three tests and the two commands that wait for a device;
    [fault pf] where its address is not mapped, [meminfo] after [pmm_init]. *)
Definition plain (s : sys) (d : dispatch) : Prop :=
  match d with
  | Run cmd_memtest _ | Run cmd_vmtest _ | Run cmd_usertest _ | Run cmd_time _ | Run cmd_reboot _ => False
  | Run cmd_fault _ => translate (ram (vms s)) (cr3 (vms s)) 0xDEADBEEF = None
  | Run cmd_meminfo _ => pm_total_pages (frames (vms s)) <> 0
  | _ => True
  end.

Lemma cons_cons f g (s : sys) : cons f (cons g s) = cons (g >>> f) s.
Proof. by destruct s as [[[[]]]]. Qed.

Lemma cons_const_then k f (s : sys) : cons ((fun _ => k) >>> f) s = cons (fun _ => f k) s.
Proof. reflexivity. Qed.

Lemma cons_own (s : sys) : cons (fun _ => kcon (vms s)) s = s.
Proof. by destruct s as [[[[]]]]. Qed.

(** The rest of the kernel does not see the console. *)
Lemma cons_rest f (s : sys) :
  kcon (vms (cons f s)) = f (kcon (vms s)) /\ vmm_get_cr3 (vms (cons f s)) = vmm_get_cr3 (vms s) /\
  Heap.heap_total_allocated (low (ks (cons f s))) = Heap.heap_total_allocated (low (ks s)) /\
  Heap.heap_current_size (low (ks (cons f s))) = Heap.heap_current_size (low (ks s)).
Proof. done. Qed.

(** A function on the kernel's state that only works on the console, whatever is
    shown; it leaves the keyboard alone and shows the same on any device. *)
Record console_only `{!Kbd8042 D} (r : option stop) (run : sys -> option (option stop * sys)) (s : sys) (f : con D -> con D)
    : Prop := {
  co_run g : run (cons g s) = Some (r, cons (g >>> f) s);
  co_keeps q : keeps (fun d => kbd_queue d = q) f;
  co_blind : blind f
}.

#[export] Instance queue_off `{!Kbd8042 D} q : OffScreen (fun d : D => kbd_queue d = q).
Proof. intros port v d Hp Hd. unfold outb. rewrite kbd_other; [done|..]; by destruct Hp as [-> | ->]. Qed.

Lemma shows_console `{!Kbd8042 D} f s :
  (forall q, keeps (fun d => kbd_queue d = q) f) -> blind f -> console_only None (fun s => Some (None, cons f s)) s f.
Proof. intros H1 H2. split; [|done|done]. intros g. by rewrite cons_cons. Qed.

(** The goals of [shows_console]: unfold the text, take the sequence apart. *)
Local Ltac sequence := repeat match goal with
  | |- keeps _ (_ >>> _) => apply keeps_then | |- blind (_ >>> _) => apply blind_then end.
Local Ltac texts :=
  intros; unfold nl, out, outln, colored, id;
  try match goal with |- keeps ?P _ => assert (OffScreen P) by apply _ end;
  sequence; auto 10 with keeps.

Lemma help_line_keeps P `{!OffScreen P} e : keeps P (help_line e).
Proof. unfold help_line. texts. Qed.

Lemma help_line_blind e : blind (help_line (D := D) e).
Proof. unfold help_line. texts. Qed.

Lemma task_line_keeps P `{!OffScreen P} t : keeps P (task_line t).
Proof. unfold task_line. texts. Qed.

Lemma task_line_blind t : blind (task_line (D := D) t).
Proof. unfold task_line. texts. Qed.

Lemma fault_console `{!Kbd8042 D} args s :
  translate (ram (vms s)) (cr3 (vms s)) 0xDEADBEEF = None ->
  exists f, console_only (ends (Run cmd_fault args)) (fun s => Some (Commands.cmd_fault args s)) s f.
Proof.
  intros Hp. cbn [ends]. unfold Commands.cmd_fault. destruct args as [|a args].
  { eexists. apply shows_console; texts. }
  destruct (starts _ "div0" 4); [eexists; split; [intros g; by rewrite cons_cons|texts|texts]|].
  destruct (starts _ "ud" 2); [eexists; split; [intros g; by rewrite cons_cons|texts|texts]|].
  destruct (starts _ "pf" 2); [|eexists; split; [intros g; by rewrite cons_cons|texts|texts]].
  exists (outln "Trigger: Page Fault (nur mit Paging!)"). split; [|texts|texts]. intros g. cbv zeta. rewrite cons_cons.
  set (s' := cons _ s). change (ram (vms s')) with (ram (vms s)). change (cr3 (vms s')) with (cr3 (vms s)).
  by rewrite Hp.
Qed.

Lemma meminfo_console `{!Kbd8042 D} args s :
  pm_total_pages (frames (vms s)) <> 0 ->
  exists f, console_only None (fun s => Some (Commands.cmd_meminfo args s)) s f.
Proof.
  intros Hp. eexists. split.
  - intros g. unfold Commands.cmd_meminfo. cbv zeta.
    change (frames (vms (cons g s))) with (frames (vms s)).
    destruct (Z.eqb_spec (pm_total_pages (frames (vms s))) 0) as [|_]; [done|].
    repeat match goal with |- context [cons ?h (cons g s)] =>
      destruct (cons_rest h (cons g s)) as (_ & -> & -> & ->) end.
    destruct (cons_rest g s) as (_ & -> & -> & ->). rewrite !cons_cons. reflexivity.
  - unfold pages_line. texts.
  - unfold pages_line. texts.
Qed.

Lemma help_console `{!Kbd8042 D} args s : console_only None (fun s => Some (None, cons (Commands.cmd_help args) s)) s (Commands.cmd_help args).
Proof.
  apply shows_console.
  - intros q. unfold Commands.cmd_help. texts.
    apply (keeps_fold _ help_line). intros e. by apply help_line_keeps.
  - unfold Commands.cmd_help. texts. apply (blind_fold help_line), help_line_blind.
Qed.

Lemma mmap_console `{!Kbd8042 D} args s : exists f, console_only None (fun s => Some (None, Commands.cmd_mmap args s)) s f.
Proof.
  eexists. split.
  - intros g. unfold Commands.cmd_mmap. cbv zeta. change (ram (vms (cons g s))) with (ram (vms s)). by rewrite cons_cons.
  - intros q. unfold mmap_line. texts. apply keeps_for_range. texts.
  - unfold mmap_line. texts.
Qed.

Lemma tasks_console `{!Kbd8042 D} args s : exists f, console_only None (fun s => Some (None, Commands.cmd_tasks args s)) s f.
Proof.
  unfold Commands.cmd_tasks. cbv zeta. destruct (Task.task_count (tk (ks s)) =? 0) eqn:E; eexists; split.
  - intros g. change (tk (ks (cons g s))) with (tk (ks s)). rewrite E. by rewrite cons_cons.
  - texts.
  - texts.
  - intros g. change (tk (ks (cons g s))) with (tk (ks s)). rewrite E. by rewrite cons_cons.
  - texts. apply keeps_for_range. intros i. case_match; [apply keeps_id|]. by apply task_line_keeps.
  - texts. apply blind_for_range. intros i. case_match; [apply blind_id|]. apply task_line_blind.
Qed.

Lemma uptime_console `{!Kbd8042 D} args s : exists f, console_only None (fun s => Some (None, Commands.cmd_uptime args s)) s f.
Proof.
  unfold Commands.cmd_uptime. cbv zeta. eexists. split.
  - intros g. change (pit_get_uptime_seconds (ks (cons g s))) with (pit_get_uptime_seconds (ks s)). by rewrite cons_cons.
  - texts.
  - texts.
Qed.

(** A command that hands back a console and does not return. *)
Lemma leaves_console `{!Kbd8042 D} r (f : con D -> con D) s :
  (forall q, keeps (fun d => kbd_queue d = q) f) -> blind f ->
  console_only (Some r) (fun s => Some (Some r, cons (fun _ => f (kcon (vms s))) s)) s f.
Proof. intros H1 H2. split; [|done|done]. intros g. by rewrite cons_const. Qed.

(** A text, then a word to a port that is not the keyboard's. *)
Definition then_outw (f : con D -> con D) (port v : Z) (k : con D) : con D :=
  let k := f k in Con (scr k) (outw port v (bus k)).

Lemma then_outw_keeps `{!Kbd8042 D} f port v q :
  u16 port <> KB_DATA_PORT -> u16 port <> KB_STATUS_PORT ->
  keeps (fun d => kbd_queue d = q) f -> keeps (fun d => kbd_queue d = q) (then_outw f port v).
Proof. intros H1 H2 Hf k Hk. unfold then_outw, outw. cbv zeta. cbn [bus]. rewrite kbd_other by done. by apply Hf. Qed.

Lemma then_outw_blind f port v : blind f -> blind (then_outw f port v).
Proof. intros Hf k k' Hk. by apply Hf. Qed.

Lemma shutdown_console `{!Kbd8042 D} args s :
  console_only (Some PowerOff)
    (fun s => Some (Some (fst (Commands.cmd_shutdown args (kcon (vms s)))), cons (fun _ => snd (Commands.cmd_shutdown args (kcon (vms s)))) s))
    s (then_outw (outln "Shutting down...") 0x604 0x2000).
Proof.
  split; [|intros q; apply then_outw_keeps; [done|done|texts]|apply then_outw_blind; texts].
  intros g. rewrite cons_const. unfold Commands.cmd_shutdown, then_outw, and_then. cbv zeta. cbn [fst snd].
  destruct (cons_rest g s) as [-> _]. done.
Qed.

Lemma execute_plain `{!Kbd8042 D} fuel line s :
  plain s (shell_dispatch line) ->
  exists f, console_only (ends (shell_dispatch line)) (shell_execute fuel line) s f.
Proof.
  intros Hp. unfold shell_execute. destruct (shell_dispatch line) as [|c args|word].
  - exists id. split; [by intros g|auto with keeps..].
  - destruct c; try done; cbn [run_command ends].
    + eexists. apply help_console.
    + eexists. apply shows_console; unfold Commands.cmd_clear; texts.
    + eexists. apply shows_console; unfold Commands.cmd_info; texts.
    + eexists. apply shows_console; unfold Commands.cmd_echo; texts.
    + eexists. apply shows_console; unfold Commands.cmd_color; texts; apply keeps_for_range + apply blind_for_range; texts.
    + eexists. apply shows_console; unfold Commands.cmd_mem; texts.
    + apply mmap_console.
    + by apply meminfo_console.
    + apply uptime_console.
    + apply tasks_console.
    + eexists. apply shutdown_console.
    + eexists. apply (leaves_console Halted (fun k => snd (Commands.cmd_halt args k))); unfold Commands.cmd_halt; cbn [snd]; texts.
    + eexists. apply shows_console; unfold Commands.cmd_netconf; texts.
    + by apply fault_console.
  - eexists. apply shows_console; unfold unknown_command; texts.
Qed.

(** ** A session of such lines *)

(** The lines, with what the editor echoes, that [n] rounds take from the
    characters typed, and how the session ends: [None] while it waits for more,
    otherwise how the last line ended and the characters left. *)
Fixpoint plain_lines (n : nat) (cs : list Z) : list (list Z * list Z) * option (option stop * list Z) :=
  match n with
  | O => ([], Some (None, cs))
  | S n =>
      match edit [] cs with
      | None => ([], None)
      | Some (line, out, rest) =>
          match ends (shell_dispatch line) with
          | Some r => ([(line, out)], Some (Some r, rest))
          | None => let '(lines, e) := plain_lines n rest in ((line, out) :: lines, e)
          end
      end
  end.

(** The screen after a line in state [s]: the prompt, the echo of the editor, and
    what the command shows of [s]. *)
Definition line_shown (fuel : nat) (s : sys) (v : vga) (entry : list Z * list Z) : vga :=
  let dev := bus (kcon (vms s)) in
  let v := scr (shell_print_prompt (Con v dev)) in
  let v := fold_left (fun v c => putchar_screen c v) (snd entry) v in
  match shell_execute fuel (fst entry) (cons (fun _ => Con v dev) s) with
  | Some (_, s) => scr (kcon (vms s)) | None => v end.

Lemma console_plain d g s : plain (cons g s) d <-> plain s d.
Proof. by destruct d as [|[]|]. Qed.

Lemma prompt_console `{!Kbd8042 D} :
  (forall q, keeps (fun d : D => kbd_queue d = q) shell_print_prompt) /\ blind (D := D) shell_print_prompt.
Proof. unfold shell_print_prompt. split; texts. Qed.

(** One round of the loop, with enough fuel for what waits. *)
Lemma round `{!Kbd8042 D} fuel sh m g s :
  shell_ok sh -> (length (kbd_queue (bus (kcon (vms (cons g s))))) <= fuel)%nat ->
  match edit [] (fst (decode (kbd_queue (bus (kcon (vms (cons g s))))) m)) with
  | None => forall n, shell_run (S n) fuel sh m (cons g s) = None
  | Some (line, out, rest) => plain s (shell_dispatch line) ->
      exists sh' m' k', shell_ok sh' /\ entries sh' = remember (entries sh) line /\
        scr k' = line_shown fuel s (scr (kcon (vms (cons g s)))) (line, out) /\
        fst (decode (kbd_queue (bus k')) m') = rest /\
        (length (kbd_queue (bus k')) <= fuel)%nat /\
        forall n, shell_run (S n) fuel sh m (cons g s) =
          match ends (shell_dispatch line) with
          | Some r => Some (Some r, (sh', m', cons (fun _ => k') s))
          | None => shell_run n fuel sh' m' (cons (fun _ => k') s)
          end
  end.
Proof.
  intros Hok Hf. set (k0 := kcon (vms (cons g s))) in *. destruct prompt_console as [Pk Pb].
  assert (Eq : kbd_queue (bus (shell_print_prompt k0)) = kbd_queue (bus k0)) by (by apply Pk).
  pose proof (shell_readline_effect fuel sh m (shell_print_prompt k0) Hok) as Hr. rewrite Eq in Hr.
  assert (Ek : kcon (vms (cons shell_print_prompt (cons g s))) = shell_print_prompt k0) by apply cons_rest.
  clearbody k0.
  destruct (edit [] _) as [[[line out] rest]|].
  2: { intros n. cbn [shell_run]. cbv zeta. by rewrite Ek, Hr. }
  intros Hp. destruct (Hr Hf) as (sh' & m' & k1 & R1 & R2 & R3 & _ & R4 & R5 & R6 & R7).
  destruct (execute_plain fuel line s Hp) as [f [C1 C2 C3]].
  exists sh', m', (f k1). split; [done|]. split; [done|]. split; [|split; [|split]].
  - unfold line_shown. cbv zeta. cbn [fst snd]. rewrite C1. destruct (cons_rest ((fun _ => Con
      (fold_left (fun v c => putchar_screen c v) out (scr (shell_print_prompt (Con (scr k0) (bus (kcon (vms s)))))))
      (bus (kcon (vms s)))) >>> f) s) as [-> _].
    unfold and_then. apply C3. cbn [scr]. rewrite R5.
    assert (E : scr (shell_print_prompt k0) = scr (shell_print_prompt (Con (scr k0) (bus (kcon (vms s)))))) by exact (Pb k0 (Con _ _) eq_refl).
    exact (f_equal (fun x => fold_left (fun v c => putchar_screen c v) out x) E).
  - rewrite (C2 (kbd_queue (bus k1))); [done|done].
  - rewrite (C2 (kbd_queue (bus k1))) by done. lia.
  - intros n. cbn [shell_run]. cbv zeta. rewrite Ek, R1, !cons_const, R3, C1, cons_const_then.
    by destruct (ends (shell_dispatch line)).
Qed.

(** The session from any console. *)
Lemma session_run `{!Kbd8042 D} n fuel sh m k s :
  shell_ok sh -> (length (kbd_queue (bus k)) <= fuel)%nat ->
  let '(lines, e) := plain_lines n (fst (decode (kbd_queue (bus k)) m)) in
  Forall (fun entry => plain s (shell_dispatch (fst entry))) lines ->
  match e with
  | None => shell_run n fuel sh m (cons (fun _ => k) s) = None
  | Some (r, rest) => exists sh' m' k',
      shell_run n fuel sh m (cons (fun _ => k) s) = Some (r, (sh', m', cons (fun _ => k') s)) /\ shell_ok sh' /\
      entries sh' = fold_left remember (map fst lines) (entries sh) /\
      scr k' = fold_left (line_shown fuel s) lines (scr k) /\
      fst (decode (kbd_queue (bus k')) m') = rest
  end.
Proof.
  revert sh m k. induction n as [|n IH]; intros sh m k Hok Hf.
  { cbn [plain_lines shell_run]. intros _. by exists sh, m, k. }
  pose proof (round fuel sh m (fun _ => k) s Hok) as Hr.
  destruct (cons_rest (fun _ => k) s) as [Ek _]. rewrite Ek in Hr. specialize (Hr Hf). cbn [plain_lines].
  destruct (edit [] _) as [[[line out] rest]|]; [|intros _; apply Hr].
  destruct (ends (shell_dispatch line)) as [r|] eqn:Er.
  - intros [Hp _]%Forall_cons. destruct (Hr Hp) as (sh' & m' & k' & H1 & H2 & H3 & H4 & _ & H5).
    exists sh', m', k'. rewrite H5. by split_and!.
  - destruct (plain_lines n rest) as [lines e] eqn:Es. intros [Hp Hl]%Forall_cons.
    destruct (Hr Hp) as (sh' & m' & k' & H1 & H2 & H3 & H4 & H4' & H5).
    specialize (IH sh' m' k' H1 H4'). rewrite H4, Es in IH. specialize (IH Hl). rewrite H5.
    destruct e as [[r rest']|]; [|exact IH]. destruct IH as (sh2 & m2 & k2 & I1 & I2 & I3 & I4 & I5).
    exists sh2, m2, k2. cbn [map fold_left fst]. rewrite <- H2, <- H3. by split_and!.
Qed.

(** Where only these lines are typed and the keyboard is only polled, what such a session
    shows and leaves: prompt, echo and output of each command in this order, on a
    kernel that but for the console is the one it started from. *)
Theorem plain_session `{!Kbd8042 D} n fuel sh m s :
  shell_ok sh -> (length (kbd_queue (bus (kcon (vms s)))) <= fuel)%nat ->
  let '(lines, e) := plain_lines n (fst (decode (kbd_queue (bus (kcon (vms s)))) m)) in
  Forall (fun entry => plain s (shell_dispatch (fst entry))) lines ->
  match e with
  | None => shell_run n fuel sh m s = None
  | Some (r, rest) => exists sh' m' k',
      shell_run n fuel sh m s = Some (r, (sh', m', cons (fun _ => k') s)) /\ shell_ok sh' /\
      entries sh' = fold_left remember (map fst lines) (entries sh) /\
      scr k' = fold_left (line_shown fuel s) lines (scr (kcon (vms s))) /\
      fst (decode (kbd_queue (bus k')) m') = rest
  end.
Proof.
  intros Hok Hf. pose proof (session_run n fuel sh m (kcon (vms s)) s Hok Hf) as H. by rewrite cons_own in H.
Qed.

End shell.

(** ** Witness *)

(** "echo hi", Enter, "halt", Enter, and one key more. *)
Definition session_keys : list Z :=
  [0x12; 0x2E; 0x23; 0x18; 0x39; 0x23; 0x17; 0x1C; 0x23; 0x1E; 0x26; 0x14; 0x1C; 0x1E].

Definition session_sys : sys (A := Pmm.pmm) (D := kbd_bus) :=
  Sys (Kst (Heap.Heap (Vm (Pmm.Pmm 0 0 0, Mem (fun _ => 0) ∅) 0x9000 0x9000
      (Con (vga_boot (Mem (fun _ => 0) ∅)) (KbdBus session_keys)) []) Heap.HEAP_START 0)
    (Task.demo Task.TASK_STATE_READY) Isr.irqs_boot (PitState 9 true) kbuf_boot modifiers_boot) Desc.some_cpu.

Lemma plain_session_witness :
  exists sh' m' k',
    shell_run Desc.some_layout 0x104300 0x10e000 5 20 shell_boot modifiers_boot session_sys =
      Some (Some Halted, (sh', m', cons (fun _ => k') session_sys)) /\
    entries sh' = [str "echo hi"; str "halt"] /\ fst (decode (kbd_queue (bus k')) m') = [97].
Proof.
  pose proof (plain_session Desc.some_layout 0x104300 0x10e000 5 20 shell_boot modifiers_boot session_sys shell_boot_ok) as H.
  assert (E : plain_lines 5 (fst (decode (kbd_queue (bus (kcon (vms session_sys)))) modifiers_boot)) =
    ([(str "echo hi", str "echo hi" ++ [10]); (str "halt", str "halt" ++ [10])], Some (Some Halted, [97]))) by by vm_compute.
  rewrite E in H. destruct H as (sh' & m' & k' & H1 & _ & H2 & _ & H3).
  - apply Nat.leb_le. by vm_compute.
  - by repeat constructor.
  - exists sh', m', k'. split; [exact H1|]. split; [|exact H3]. rewrite H2. by vm_compute.
Defined.

(** The same keys, by the rounds. *)
Lemma shell_run_session_witness :
  exists lines sh' m' s',
    session Desc.some_layout 0x104300 0x10e000 20 5 shell_boot modifiers_boot session_sys lines
      (Some (Some Halted, (sh', m', s'))) /\
    fold_left remember lines [] = [str "echo hi"; str "halt"].
Proof.
  destruct (shell_run_session Desc.some_layout 0x104300 0x10e000 5 20 shell_boot modifiers_boot session_sys shell_boot_ok)
    as (lines & H1 & _ & H2).
  assert (E : (fun x => (fst x, entries (fst (fst (snd x))))) <$>
    shell_run Desc.some_layout 0x104300 0x10e000 5 20 shell_boot modifiers_boot session_sys =
    Some (Some Halted, [str "echo hi"; str "halt"])) by by vm_compute.
  revert H1 H2 E. generalize (shell_run Desc.some_layout 0x104300 0x10e000 5 20 shell_boot modifiers_boot session_sys).
  intros [[r [[sh' m'] s']]|] H1 H2 E; [|discriminate E]. cbn [fmap option_fmap option_map fst snd] in E.
  injection E as -> E. exists lines, sh', m', s'. split; [exact H1|]. destruct H2 as (_ & H2 & _).
  change (entries shell_boot) with (@nil (list Z)) in H2. by rewrite <- H2.
Defined.

End Run.
